(* ===== verification/_CoqProject ===== *)
-Q . S2P
Prelude.v
Go.v
Encoding.v
Schema.v
Config.v
Store.v
SpaceRepo.v
SpaceInv.v
UserRepo.v
ChannelRepo.v
ChannelInv.v
SeqLog.v
MessageRepo.v
MessageInv.v
CursorNonceRepo.v
BlobRepo.v
DirectRepo.v
DirectInv.v
Proto.v
Wire.v
ProtoWire.v
Codec.v
Auth.v
Bootstrap.v
TableInv.v
Media.v
Messaging.v
DirectService.v
DbInv.v
Session.v
SessionInv.v
Manager.v
Dispatch.v
System.v
Demo.v
Safety.v
Membership.v
Leaks.v
History.v
AuthThms.v
SessionThms.v
CodecThms.v
Paging.v
MessageThms.v
Api.v
MediaThms.v
DirectThms.v
Strconv.v
Paths.v
Json.v
ConfigLoad.v
ConfigThms.v
Jwt.v
HttpReq.v
Pins.v
PinThms.v
Ipfs.v
IpfsThms.v
Http.v
HttpThms.v
BlobHttp.v
WebSocket.v
WebSocketThms.v
DbOpen.v
DbThms.v
Migrate.v
MigrateThms.v
Node.v
NodeThms.v
App.v
AppThms.v
Client.v
AdminClient.v
Link.v
ClientThms.v
Handshake.v
ConnectThms.v
Agreement.v
AdminThms.v
MediaWire.v
