(* ===== verification/Prelude.v ===== *)
(** * Verification of meshserver

    meshserver is a chat server: clients connect over libp2p streams or over
    HTTP, prove the ownership of a key, join spaces, post to the channels of
    a space, exchange direct messages and upload media.  This library models
    its core and proves the properties that make it correct.

    ** The program and its model

    The server keeps its data in MySQL and reaches it through repositories
    ([internal/repository/mysql]); services ([internal/service],
    [internal/auth], [internal/media]) add the rules; the session manager
    ([internal/session]) dispatches the envelopes of a stream and holds the
    operations of the API; the codec ([internal/protocol]) frames envelopes.
    The HTTP server ([internal/api]) routes, authenticates and decodes
    requests, pushes events to WebSocket clients, serves blob files and the
    embedded IPFS node ([internal/ipfsnode] and its neighbours).  The process
    ([internal/app]) loads its configuration ([internal/config]), opens and
    migrates the database ([internal/db]), takes its identity
    ([internal/libp2p]) and puts the parts together.  Two command-line
    clients ([examples/]) speak the protocol of the streams.

    - [Prelude], [Go], [Encoding]: shared lemmas on lists and tables, machine
      widths, the parts of Go's standard library the code uses
      (strings.TrimSpace, utf8.RuneCountInString, hex, base64, SHA-256, times).
    - [Schema], [Config], [Proto]: the domain records, one row type per table
      of [migrations/], the configuration defaults, and the protocol messages
      ([internal/gen/.../session.pb.go]).
    - [Store]: the database as a value ([World]), statements, transactions
      with the deferred rollback of the code, row locks, and a state-and-error
      monad [M] with its weakest-precondition rules.
    - [SpaceRepo], [UserRepo], [ChannelRepo], [MessageRepo],
      [CursorNonceRepo], [BlobRepo], [DirectRepo], [Bootstrap]: the files
      server.go, user.go, channel.go, message.go, read_and_auth.go, blob.go,
      direct_chat.go, bootstrap.go and default_admin_bootstrap.go; one
      definition per method, with the name of the method.
    - [Codec], [Auth], [Media], [Messaging], [DirectService]: codec.go,
      auth/service.go, blob_service.go with storage/local.go and
      service/media.go, service/messaging.go, service/direct_chat.go.
    - [Session], [Manager], [Dispatch]: manager.go, manager_v1_rest.go,
      realtime.go and convert.go: sessions and subscription tables, delivery,
      the operations behind the HTTP API, one handler [on_...] per envelope
      type, [dispatch] and the stream loop.  The state is [Mgr]: the world, the
      sessions, the three tables of subscribers, and what was sent to whom.
    - [System]: the events of the server (envelopes, HTTP commands, connects
      and disconnects, realtime subscriptions, time, clean-up, bootstrap,
      faults), the step relation [sys_step] and [reachable].
    - [Demo]: a concrete instance of the parameters and concrete runs, used by
      the witnesses.
    - [Strconv], [Paths], [Json]: number and duration parsing, filepath and
      encoding/json as the code uses them (a parser for the whole grammar, and
      decoders that follow the rules for duplicate, unknown and null members).
    - [ConfigLoad]: config.go: the file, the environment, normalisation and
      validation.
    - [Jwt], [HttpReq], [Http]: jwt.go, auth_http.go, v1_http.go,
      v1_http_rest.go and http.go: one definition per handler, in the monad of
      the session manager; [ServeHTTP] matches the patterns of the mux, those
      of the IPFS node included, over the manager and the node ([HttpState]).
    - [WebSocket]: ws.go: the clients, their buffers and the deliveries on
      their way; [hub_step] is one step of one goroutine.
    - [Pins], [Ipfs]: pin.go, node.go and exchange_serve_local.go of
      ipfsnode, add.go, cat.go, get.go and stat.go of ipfsunixfs, file_cid.go
      and ipfs_http.go: pin file, imports and reads, exchange, handlers.
    - [DbOpen], [Migrate]: db.go and migrate.go: the loop of pings, the
      normalisation of accounts, the run of the scripts.
    - [Node], [App]: node.go of libp2p and app.go: identity, bootstrap peers,
      [Start], [Shutdown], [main] and the periodic clean-up.
    - [Client], [AdminClient]: the main.go of connect-client, peerid and
      admin-client: flags, finding the server, the handshake, one definition
      per request function and per part of [main], in a monad of programs
      that may fail, panic or wait for input.
    - [Link]: a client's stream joined to the server: a write is a frame the
      session reads and [handle_envelope] serves, what the session is sent
      comes back as frames, and between two operations of the client any
      events of other sessions and of the HTTP API may happen.  At its end the
      codecs of [ProtoWire] as the protobuf runtime of both, which satisfies
      the laws, and the concrete clients of the witnesses.
    - [Wire], [ProtoWire]: the wire format that protobuf documents (varints,
      length-delimited values, unknown and repeated fields) and one codec per
      message, built from the field tags of its struct in session.pb.go.

    What is not under the repository is a parameter given by a class: [Env]
    (MySQL's collation order, the random source, the quoting of %q, how much
    of a failing file write reaches the disk), [Libp2p] (keys, signatures, peer ids), [MediaLib]
    (MIME sniffing, image headers, UnixFS ids), [Protobuf] (decoding and
    encoding; [ProtoWire] has an instance from the field tags), [Jwt] (signing and parsing of tokens), [Boxo] (block store,
    importer and reader), [Exchanges] (offline exchange and bitswap), [Driver] (MySQL driver, PEM and X.509), [Script] (what MySQL
    makes of a migration), [Keys] and [Multiaddrs] (libp2p keys and
    addresses), and for the clients [ClientProtobuf], [Stream], [Clock],
    [Signer] and [Network].  Laws are assumed only where a theorem needs them and are then
    premises of it (the round trip of an envelope in [CodecThms]; a key that
    verifies its own signatures in [AuthThms]; [JwtLaws], [BoxoLaws],
    [CidLaws], [BlockLaws], [KeysLaws], [WireLaws], [SizeLaws]); [Demo], [Link] and the instances beside the theorems
    satisfy them.

    ** What is proved

    - Invariants ([SpaceInv], [ChannelInv], [SeqLog], [MessageInv],
      [DirectInv], [TableInv], [DbInv], [SessionInv]; claims in [Safety]): every
      event keeps the invariant of the database and of the session tables.
      Hence in every reachable state each space has one owner and right
      counters, the messages of a channel are numbered 1..message_seq without
      gaps, direct conversations are consistent, the unique keys hold, and the
      subscription tables agree with the sessions.
    - Refinement ([Membership]): the methods that join, invite, kick, ban,
      unban and promote implement an abstract roster machine, one command or a
      sequence of them; a ban lasts until the user is unbanned.
    - Authentication ([AuthThms]) and sessions ([SessionThms], [DirectThms]):
      an accepted proof is genuine and cannot be replayed, an honest client is
      accepted; a session acts for a user only after such a proof, nothing but
      the handshake is served before it; events go to exactly the subscribers;
      a closed session is forgotten.
    - The two front ends ([Api]): envelope handlers (whose context is never
      cancelled) and API calls (under the context of their request) agree, up
      to a transaction that a failing handler leaves open; administration needs
      a role.
    - Messages ([MessageThms], [Paging], [History]): what posting does on
      every path, repeated requests, success, who may post, clean-up; reading
      page by page is complete, attachments included; stored messages, their
      attachments, cursors, nonces, accounts and channel members are permanent.
    - Codec and media ([CodecThms], [ProtoWire], [MediaThms]): round trips,
      bounds; a body is understood also with fields it does not know.
    - Configuration ([ConfigThms]): where each setting comes from, that its
      numbers fit their types, that a loaded configuration is valid.
    - HTTP ([HttpThms], [BlobHttp]): serving a request is nothing, one
      command of the system, made for the user of a valid token, or one
      command of the IPFS node, which needs none; without a token the API
      answers 401; a token lives from its issue to its expiry; blob
      requests stay below the root and the URLs in events lead to the files.
    - WebSocket ([WebSocketThms]): tables and buffers are consistent; what a
      client gets are stored messages of channels of which its user is a
      member; clients and server together refine the system.
    - IPFS ([PinThms], [IpfsThms]): pins survive any failure of the file
      system; the CIDs of the media service are those of the IPFS API; an
      added file stays readable; reads never ask other peers.
    - Start-up ([DbThms], [MigrateThms], [NodeThms], [AppThms]): opening the
      database ends, parameters and account statements are read as meant,
      migrations run in order and once, the identity is stable, a process is
      ready exactly when all has succeeded, [Shutdown] closes what is open, a
      clean-up ends and leaves nothing expired.
    - Clients and server together ([ClientThms], [Handshake], [ConnectThms],
      [Agreement], [AdminThms]): a request function of a client does what the
      API call does and returns its result; the holder of a key is
      authenticated, from the start of the program on, and whenever a client believes to be authenticated the server agrees on
      the account, whatever others do meanwhile; the loop that lists all
      members ends and lists each once; a post is acknowledged before its
      event arrives.
    - Faults of the code that the model exposes: transactions left open by
      early returns ([Leaks]), channels no one but their creator can be a member of
      ([Safety]), retries rejected by slow mode ([MessageThms]), truncated
      files taken for complete ones and an upload limit that wraps around
      ([MediaThms]), direct sessions that stay
      registered after a change of user ([DirectThms]), a send on a closed
      channel ([WebSocketThms]), a nil attachment followed ([HttpThms]),
      passwords with a backslash or a question mark ([DbThms]), an unreadable
      key replaced by a new one ([NodeThms]), an event taken for the reply
      to a request by the clients ([AdminThms]), media that may be uploaded but
      does not fit into an envelope ([MediaWire]).

    ** How the model relates to the code

    - Integers have their Go widths: [u32] and [u64] wrap around where the
      code adds or converts; ids are bounded by the width of their column.
    - A statement either has its meaning on the tables or fails with
      [ErrDriver] when the oracle [w_faults] says so; theorems hold for every
      oracle unless they say that the database works ([healthy], or
      [w_faults w = []]).  Errors MySQL raises for values too long for a column are
      among these faults.
    - A transaction ([run_tx]) restores the tables unless it commits.  The
      deferred function rolls back only when [err] is set, as in the code: a
      transaction that is abandoned with [err == nil] stays open with its row
      locks when its context is never cancelled ([Background]) and is rolled
      back when it is ([RequestCtx]).  A lock conflict shows as a failed
      [FOR UPDATE] read.  Auto-increment values used by a transaction that is
      rolled back are used again, which MySQL does not do; ids of stored rows
      are distinct and increasing either way.
    - One envelope or call is handled at a time and at one instant of the
      clock; requests interleave as sequences of events.  Writing to a stream
      fails when the stream is among [g_broken].
    - Blob files are a map from the path relative to the blob root; the paths
      the code builds are clean already, so [filepath.Clean] is the identity.
    - Loops are structural, except the reading of a stream ([read_all], whose
      fuel is the length of the stream plus one, enough because a frame has at
      least four bytes), the client's paging loop [collect] (one more step
      than there are rows left, proved enough in [Paging]), the JSON parser
      (more than the length of the text), the loop of pings
      ([max_attempts], proved enough in [DbThms]), the clean-up of a tick (one
      more than there are undeleted messages, proved enough in [AppThms]), the
      listing of all members by the client (one more than there are members
      left, proved enough in [AdminThms]), the advertisements of the node (the
      time left plus one, proved enough in [NodeThms]), the pieces of an
      encoded message (the length of the text, proved enough in [Wire]) and
      the loop over the bootstrap peers, which ends only with a connection.
    - Of a request the model has the method, the escaped path, the query, the
      Authorization header, the body, its length and the multipart form (also
      when the body is cut at a limit), each with the failure to read it; a WebSocket connection is the list of messages read.
    - Messages that format a text with [%q] take the quoting as a parameter.

    ** Not modelled

    Log output, the Go interfaces that only name the methods modelled here,
    getters, and what only calls into libraries: the libp2p host and its
    routing, the gateway and the exchanges of boxo.  The tests of the repository and the
    scripts that build and deploy it are not part of the program. *)
From stdpp Require Export prelude strings list gmap sorting.
From Stdlib Require Export ZArith Lia Ascii.
#[global] Open Scope Z_scope.

Declare Scope go_scope.
Delimit Scope go_scope with go.
#[global] Open Scope go_scope.

(** ** Machine-width integers

    Go's unsigned arithmetic wraps; every conversion the source writes
    ([uint32(x)], [uint64(x)]) is one of these. *)
Definition max_u32 : Z := 4294967295.
Definition max_u64 : Z := 18446744073709551615.
Definition u32 (z : Z) : Z := z mod (max_u32 + 1).
Definition u64 (z : Z) : Z := z mod (max_u64 + 1).
Definition max_i64 : Z := 9223372036854775807.
(** [int64(x)], and the result of an operation on [int64] *)
Definition i64 (z : Z) : Z := if u64 z <=? max_i64 then u64 z else u64 z - (max_u64 + 1).

(** [len(x)] of the source. *)
Definition zlen {A} (l : list A) : Z := Z.of_nat (length l).

Lemma u32_small z : 0 <= z <= max_u32 -> u32 z = z.
Proof. intros. apply Z.mod_small. unfold max_u32 in *. lia. Qed.
Lemma u64_small z : 0 <= z <= max_u64 -> u64 z = z.
Proof. intros. apply Z.mod_small. unfold max_u64 in *. lia. Qed.
Lemma i64_small z : 0 <= z <= max_i64 -> i64 z = z.
Proof. intros Hz. unfold i64. rewrite u64_small by (unfold max_i64, max_u64 in *; lia). by rewrite (proj2 (Z.leb_le _ _)) by lia. Qed.
Lemma u32_bound z : 0 <= u32 z <= max_u32.
Proof. unfold u32. pose proof (Z.mod_pos_bound z (max_u32 + 1)). unfold max_u32 in *. lia. Qed.
Lemma u64_bound z : 0 <= u64 z <= max_u64.
Proof. unfold u64. pose proof (Z.mod_pos_bound z (max_u64 + 1)). unfold max_u64 in *. lia. Qed.

(** ** Boolean equality notations used in SQL [WHERE] clauses *)
Notation "x =@ y" := (bool_decide (x = y)) (at level 70, no associativity) : go_scope.

(** Turns the boolean guards of a run into propositions. *)
Ltac bools :=
  repeat match goal with
  | H : _ && _ = true |- _ => apply andb_true_iff in H as [? ?]
  | H : _ || _ = false |- _ => apply orb_false_iff in H as [? ?]
  | H : negb _ = true |- _ => apply negb_true_iff in H
  | H : negb _ = false |- _ => apply negb_false_iff in H
  | H : bool_decide _ = true |- _ => apply bool_decide_eq_true_1 in H
  | H : bool_decide _ = false |- _ => apply bool_decide_eq_false_1 in H
  | H : (_ =? _)%Z = true |- _ => apply Z.eqb_eq in H
  | H : (_ =? _)%Z = false |- _ => apply Z.eqb_neq in H
  | H : (_ <? _)%Z = true |- _ => apply Z.ltb_lt in H
  | H : (_ <? _)%Z = false |- _ => apply Z.ltb_ge in H
  end.

(** The hint database of the development. *)
Create HintDb mesh.

(** ** Tables as lists of rows

    A table is the list of its rows in primary-key order; the SQL
    statements of the source are [filter], [map] and [append] on it. *)
Section rows.
Context {R : Type}.
Implicit Types (p q : R -> bool) (f : R -> R) (l : list R).

(** [SELECT ... WHERE p] *)
Definition where_ p l : list R := List.filter p l.
(** [SELECT ... WHERE p LIMIT 1] *)
Definition first_where p l : option R := List.find p l.
(** [SELECT COUNT(1) ... WHERE p] *)
Definition count_where p l : Z := zlen (where_ p l).
(** [UPDATE ... SET f WHERE p] *)
Definition update_where p f l : list R := List.map (fun r => if p r then f r else r) l.
(** [DELETE FROM ... WHERE p] *)
Definition delete_where p l : list R := List.filter (fun r => negb (p r)) l.
End rows.

Section rows_facts.
Context {R : Type}.
Implicit Types (p q : R -> bool) (f : R -> R) (l : list R).

Lemma elem_of_where p l r : r ∈ where_ p l <-> p r = true /\ r ∈ l.
Proof. rewrite !list_elem_of_In. unfold where_. rewrite filter_In. tauto. Qed.

Lemma elem_of_snoc l (x y : R) : x ∈ l ++ [y] <-> x ∈ l \/ x = y.
Proof. rewrite elem_of_app, list_elem_of_singleton. done. Qed.

Lemma first_where_Some p l r : first_where p l = Some r -> p r = true /\ r ∈ l.
Proof. intros H%find_some. rewrite list_elem_of_In. tauto. Qed.

Lemma first_where_None p l : first_where p l = None <-> (forall r, r ∈ l -> p r = false).
Proof.
  split.
  - intros H r Hr. apply (find_none _ _ H). by rewrite <- list_elem_of_In.
  - intros H. destruct (first_where p l) as [r|] eqn:E; [|done].
    apply first_where_Some in E as [E Hr]. rewrite (H r Hr) in E. done.
Qed.

Lemma first_where_is_Some p l r : r ∈ l -> p r = true -> is_Some (first_where p l).
Proof.
  intros Hr Hp. destruct (first_where p l) eqn:E; [eauto|].
  eapply first_where_None in E; [|done]. congruence.
Qed.

Lemma elem_of_delete_where p l r : r ∈ delete_where p l <-> p r = false /\ r ∈ l.
Proof.
  rewrite !list_elem_of_In. unfold delete_where. rewrite filter_In.
  destruct (p r); simpl; intuition congruence.
Qed.

Lemma elem_of_update_where p f l r :
  r ∈ update_where p f l <-> exists r0, r0 ∈ l /\ r = (if p r0 then f r0 else r0).
Proof.
  unfold update_where. rewrite list_elem_of_In, in_map_iff.
  setoid_rewrite list_elem_of_In. firstorder eauto.
Qed.

Lemma where_app p l1 l2 : where_ p (l1 ++ l2) = where_ p l1 ++ where_ p l2.
Proof. apply List.filter_app. Qed.

Lemma count_where_app p l1 l2 : count_where p (l1 ++ l2) = count_where p l1 + count_where p l2.
Proof. unfold count_where, zlen. rewrite where_app, length_app. lia. Qed.

Lemma count_where_nonneg p l : 0 <= count_where p l.
Proof. unfold count_where, zlen. lia. Qed.

Lemma count_where_le p l : count_where p l <= zlen l.
Proof. unfold count_where, zlen, where_. apply inj_le, filter_length_le. Qed.

Lemma count_where_pos p l : count_where p l <> 0 -> exists r, r ∈ l /\ p r = true.
Proof.
  unfold count_where, zlen. destruct (where_ p l) as [|r l'] eqn:E; [done|]. intros _. exists r.
  assert (r ∈ where_ p l) as Hr by (rewrite E; set_solver). apply elem_of_where in Hr. tauto.
Qed.

Lemma count_where_pos_inv p l r : count_where p l = 0 -> r ∈ l -> p r = true -> False.
Proof.
  intros E Hr Hp. assert (r ∈ where_ p l) as Hw by (by apply elem_of_where).
  unfold count_where, zlen in E. destruct (where_ p l); [set_solver|done].
Qed.

Lemma count_where_zero p l : (forall r, r ∈ l -> p r = false) -> count_where p l = 0.
Proof.
  intros Hp. destruct (decide (count_where p l = 0)) as [|Hn]; [done|].
  apply count_where_pos in Hn as (r&Hr%Hp&E). congruence.
Qed.

Lemma count_where_cons p r l :
  count_where p (r :: l) = (if p r then 1 else 0) + count_where p l.
Proof. unfold count_where, zlen, where_. simpl. destruct (p r); simpl; lia. Qed.

Lemma where_ext p q l : (forall r, r ∈ l -> p r = q r) -> where_ p l = where_ q l.
Proof. intros H. apply List.filter_ext_in. intros a. rewrite <- list_elem_of_In. auto. Qed.

Lemma count_where_ext p q l : (forall r, r ∈ l -> p r = q r) -> count_where p l = count_where q l.
Proof. intros H. unfold count_where. by rewrite (where_ext p q). Qed.

(** An [UPDATE] that does not change whether a row is counted. *)
Lemma count_update_where q p f l :
  (forall r, r ∈ l -> p r = true -> q (f r) = q r) ->
  count_where q (update_where p f l) = count_where q l.
Proof.
  induction l as [|r l IH]; intros H; [done|].
  unfold update_where in *. simpl. rewrite !count_where_cons, IH by (intros; apply H; set_solver).
  f_equal. destruct (p r) eqn:E; [|done]. rewrite H by (done || set_solver). done.
Qed.

(** An [UPDATE] that does not change a column. *)
Lemma map_update_where {K} (g : R -> K) p f l :
  (forall r, r ∈ l -> p r = true -> g (f r) = g r) ->
  map g (update_where p f l) = map g l.
Proof.
  intros H. unfold update_where. rewrite map_map. apply map_ext_in.
  intros r Hr%list_elem_of_In. destruct (p r) eqn:E; [|done]. auto.
Qed.

Lemma where_update_where q p f l :
  (forall r, r ∈ l -> p r = true -> q (f r) = q r) ->
  where_ q (update_where p f l) = update_where p f (where_ q l).
Proof.
  induction l as [|r l IH]; intros H; [done|].
  unfold update_where, where_ in *. simpl.
  destruct (p r) eqn:E.
  - rewrite H by (done || set_solver). destruct (q r); simpl; rewrite ?E;
    rewrite IH by (intros; apply H; set_solver); done.
  - destruct (q r); simpl; rewrite ?E; rewrite IH by (intros; apply H; set_solver); done.
Qed.

(** An [UPDATE] that touches no counted row before or after leaves the selection as it is. *)
Lemma where_update_where_out q p f l :
  (forall r, r ∈ l -> p r = true -> q r = false /\ q (f r) = false) ->
  where_ q (update_where p f l) = where_ q l.
Proof.
  induction l as [|r l IH]; intros H; [done|].
  unfold update_where, where_ in *. simpl.
  rewrite IH by (intros; apply H; set_solver).
  destruct (p r) eqn:E; [|done].
  destruct (H r) as [-> ->]; [set_solver|done|done].
Qed.

Lemma update_where_id p f l :
  (forall r, r ∈ l -> p r = true -> f r = r) -> update_where p f l = l.
Proof.
  intros H. unfold update_where. rewrite <- (map_id l) at 2. apply map_ext_in.
  intros r Hr%list_elem_of_In. destruct (p r) eqn:E; [|done]. auto.
Qed.

Lemma update_where_none p f l : (forall r, r ∈ l -> p r = false) -> update_where p f l = l.
Proof. intros H. apply update_where_id. intros r Hr Hp. rewrite H in Hp by done. done. Qed.

Lemma length_update_where p f l : length (update_where p f l) = length l.
Proof. apply length_map. Qed.

Lemma update_where_app p f l1 l2 :
  update_where p f (l1 ++ l2) = update_where p f l1 ++ update_where p f l2.
Proof. apply map_app. Qed.

Lemma first_where_app p l1 l2 :
  first_where p (l1 ++ l2) =
  match first_where p l1 with Some r => Some r | None => first_where p l2 end.
Proof. induction l1 as [|r l1 IH]; simpl; [done|]. destruct (p r); done. Qed.

(** [SELECT ... LIMIT 1] after an [UPDATE] that keeps the selected column. *)
Lemma first_where_update q p f l :
  (forall r, r ∈ l -> p r = true -> q (f r) = q r) ->
  first_where q (update_where p f l) =
  (fun r => if p r then f r else r) <$> first_where q l.
Proof.
  induction l as [|r l IH]; intros H; [done|].
  unfold update_where, first_where in *. simpl.
  assert (q (if p r then f r else r) = q r) as Hq.
  { destruct (p r) eqn:E; [|done]. apply H; [set_solver|done]. }
  rewrite Hq. destruct (q r); [done|]. apply IH. intros; apply H; set_solver.
Qed.

(** A unique key column determines the row. *)
Lemma NoDup_key_inj {K} (g : R -> K) l r1 r2 :
  NoDup (map g l) -> r1 ∈ l -> r2 ∈ l -> g r1 = g r2 -> r1 = r2.
Proof.
  induction l as [|r l IH]; simpl; intros Hnd H1 H2 E; [set_solver|].
  apply NoDup_cons in Hnd as [Hn Hnd].
  assert (forall x, x ∈ l -> g x ∈ map g l) as Hmap.
  { intros x Hx. apply list_elem_of_In, in_map, list_elem_of_In. done. }
  apply elem_of_cons in H1 as [->|H1]; apply elem_of_cons in H2 as [->|H2]; auto.
  - destruct Hn. rewrite E. auto.
  - destruct Hn. rewrite <- E. auto.
Qed.

Lemma first_where_unique {K} (g : R -> K) p l r :
  NoDup (map g l) -> r ∈ l -> p r = true ->
  (forall r', r' ∈ l -> p r' = true -> g r' = g r) ->
  first_where p l = Some r.
Proof.
  intros Hnd Hr Hp Hu. destruct (first_where_is_Some p l r Hr Hp) as [r' E].
  rewrite E. f_equal. apply first_where_Some in E as [E Hr'].
  eapply NoDup_key_inj; eauto.
Qed.

Lemma delete_where_count q p l :
  (forall r, r ∈ l -> p r = true -> q r = false) ->
  count_where q (delete_where p l) = count_where q l.
Proof.
  induction l as [|r l IH]; intros H; [done|].
  unfold delete_where in *. simpl. rewrite count_where_cons.
  destruct (p r) eqn:E; simpl.
  - rewrite H by (done || set_solver). rewrite IH by (intros; apply H; set_solver). lia.
  - rewrite count_where_cons, IH by (intros; apply H; set_solver). done.
Qed.

Lemma NoDup_map_delete_where {K} (g : R -> K) p l : NoDup (map g l) -> NoDup (map g (delete_where p l)).
Proof.
  unfold delete_where. induction l as [|r l IH]; simpl; intros Hnd; [constructor|].
  apply NoDup_cons in Hnd as [Hn Hnd]. destruct (p r); simpl; [auto|].
  apply NoDup_cons; split; [|auto].
  intros Hin. apply Hn. rewrite list_elem_of_In in *. apply in_map_iff in Hin as (x&Hx&Hin).
  apply filter_In in Hin as [Hin _]. apply in_map_iff. eauto.
Qed.

Lemma NoDup_map_where {K} (g : R -> K) p l : NoDup (map g l) -> NoDup (map g (where_ p l)).
Proof.
  intros Hnd. apply (NoDup_map_delete_where g (fun r => negb (p r))) in Hnd. unfold delete_where in Hnd.
  unfold where_. by rewrite (List.filter_ext _ p) in Hnd by (intros; apply negb_involutive).
Qed.

Lemma where_where p q l : where_ p (where_ q l) = where_ (fun r => q r && p r) l.
Proof.
  unfold where_. induction l as [|r l IH]; simpl; [done|].
  destruct (q r); simpl; [destruct (p r); by rewrite IH|done].
Qed.

(** A selection all of whose rows agree with one of them, by a unique key, is that row alone. *)
Lemma where_singleton {K} (g : R -> K) p l r :
  NoDup (map g l) -> r ∈ l -> p r = true -> (forall r', r' ∈ l -> p r' = true -> g r' = g r) -> where_ p l = [r].
Proof.
  intros Hnd Hr Hp Hu. pose proof (NoDup_map_where g p l Hnd) as Hnd'.
  assert (forall x, x ∈ where_ p l -> x = r) as Hx.
  { intros x [Hpx Hin]%elem_of_where. apply (NoDup_key_inj g l); auto. }
  assert (r ∈ where_ p l) as Hw by (by apply elem_of_where).
  destruct (where_ p l) as [|r1 [|r2 l']]; [set_solver|f_equal; apply Hx; set_solver|].
  exfalso. assert (r1 = r /\ r2 = r) as [-> ->] by (split; apply Hx; set_solver).
  simpl in Hnd'. apply NoDup_cons in Hnd' as [Hn _]. set_solver.
Qed.

Lemma NoDup_map_snoc {K} (g : R -> K) l r :
  NoDup (map g l) -> g r ∉ map g l -> NoDup (map g (l ++ [r])).
Proof.
  intros. rewrite map_app. apply NoDup_app. split; [done|]. split; [|apply NoDup_singleton].
  simpl. intros x Hx Hy%list_elem_of_singleton. by subst.
Qed.

Lemma elem_of_map {K} (g : R -> K) l k : k ∈ map g l <-> exists r, r ∈ l /\ k = g r.
Proof.
  rewrite list_elem_of_In, in_map_iff. setoid_rewrite list_elem_of_In. firstorder eauto.
Qed.
End rows_facts.
