(* ===== verification/Go.v ===== *)
(** * The parts of the Go language and standard library the sources use

    Go strings are byte strings ([string] of 8-bit [ascii]); [TrimSpace],
    [TrimLeft], [TrimRight] and the rune count of [[]rune(s)] are written
    on the bytes, errors are values of [Err] with the wrapping that
    [fmt.Errorf("%w")] and [errors.Is] rely on, and time is an integer
    number of nanoseconds or milliseconds since the Unix epoch. *)
From S2P Require Import Prelude.

(** ** Byte strings *)
Definition bytes := list ascii.
Definition to_bytes (s : string) : bytes := String.list_ascii_of_string s.
Definition of_bytes (l : bytes) : string := String.string_of_list_ascii l.
Definition byte (n : nat) : ascii := Ascii.ascii_of_nat n.
Definition strlen (s : string) : Z := zlen (to_bytes s).

Lemma of_to_bytes s : of_bytes (to_bytes s) = s.
Proof. apply String.string_of_list_ascii_of_string. Qed.
Lemma to_of_bytes l : to_bytes (of_bytes l) = l.
Proof. apply String.list_ascii_of_string_of_list_ascii. Qed.

(** The UTF-8 encodings of the runes [unicode.IsSpace] accepts. *)
Definition space_encodings : list bytes :=
  (fun n => [byte n]) <$> [9; 10; 11; 12; 13; 32]%nat.
Definition space_encodings_utf8 : list bytes :=
  ((fun n => [byte 194; byte n]) <$> [133; 160]%nat) ++
  [[byte 225; byte 154; byte 128]] ++
  ((fun n => [byte 226; byte 128; byte n]) <$>
     [128; 129; 130; 131; 132; 133; 134; 135; 136; 137; 138; 168; 169; 175]%nat) ++
  [[byte 226; byte 129; byte 159]; [byte 227; byte 128; byte 128]].
Definition spaces : list bytes := space_encodings ++ space_encodings_utf8.

(** [strip_prefix p l]: [l] without the leading [p]. *)
Fixpoint strip_prefix (p l : bytes) : option bytes :=
  match p, l with
  | [], _ => Some l
  | _ :: _, [] => None
  | a :: p, b :: l => if decide (a = b) then strip_prefix p l else None
  end.

Fixpoint strip_any (encs : list bytes) (l : bytes) : option bytes :=
  match encs with
  | [] => None
  | e :: encs => match strip_prefix e l with Some l' => Some l' | None => strip_any encs l end
  end.

(** Repeated removal; the fuel is the length of the string, and every
    removal takes at least one byte. *)
Fixpoint trim_front (fuel : nat) (encs : list bytes) (l : bytes) : bytes :=
  match fuel with
  | O => l
  | S fuel => match strip_any encs l with Some l' => trim_front fuel encs l' | None => l end
  end.

Definition trim_bytes (encs : list bytes) (l : bytes) : bytes := trim_front (length l) encs l.
Definition trim_right_bytes (encs : list bytes) (l : bytes) : bytes :=
  reverse (trim_bytes (reverse <$> encs) (reverse l)).

(** [strings.TrimSpace] *)
Definition TrimSpace (s : string) : string :=
  of_bytes (trim_right_bytes spaces (trim_bytes spaces (to_bytes s))).
(** [strings.TrimLeft(s, "/")] and [strings.TrimRight(s, "/")] *)
Definition slash : list bytes := [[byte 47]].
Definition TrimLeftSlash (s : string) : string := of_bytes (trim_bytes slash (to_bytes s)).
Definition TrimRightSlash (s : string) : string := of_bytes (trim_right_bytes slash (to_bytes s)).

(** [s[len(s)-n:]] *)
Definition suffix_from (n : nat) (s : string) : string := of_bytes (drop n (to_bytes s)).

Section trim_facts.
Implicit Types (e l : bytes) (encs : list bytes).

Lemma strip_prefix_app e l l' : strip_prefix e l = Some l' <-> l = e ++ l'.
Proof.
  revert l. induction e as [|a e IH]; intros l; simpl; [naive_solver|].
  destruct l as [|b l]; [naive_solver|]. case_decide; [subst; rewrite IH; naive_solver|naive_solver].
Qed.

Lemma strip_any_None encs l :
  strip_any encs l = None <-> (forall e l', e ∈ encs -> l <> e ++ l').
Proof.
  induction encs as [|e encs IH]; simpl; [set_solver|].
  destruct (strip_prefix e l) as [l'|] eqn:E.
  - apply strip_prefix_app in E. split; [done|]. intros H. destruct (H e l'); [set_solver|done].
  - rewrite IH. split; intros H e' l' He'.
    + apply elem_of_cons in He' as [->|He']; [|by apply H].
      intros Hl%strip_prefix_app. congruence.
    + apply H. set_solver.
Qed.

Lemma strip_any_length encs l l' :
  [] ∉ encs -> strip_any encs l = Some l' -> (length l' < length l)%nat.
Proof.
  induction encs as [|e encs IH]; simpl; intros Hn H; [done|].
  destruct (strip_prefix e l) as [l0|] eqn:E; [|apply IH; set_solver].
  apply strip_prefix_app in E as ->. simplify_eq. rewrite length_app.
  destruct e; [set_solver|simpl; lia].
Qed.

Lemma trim_front_done encs fuel l :
  [] ∉ encs -> (length l <= fuel)%nat -> strip_any encs (trim_front fuel encs l) = None.
Proof.
  intros Hn. revert l. induction fuel as [|fuel IH]; intros l Hl; simpl.
  - destruct (strip_any encs l) as [l'|] eqn:E; [|done].
    apply strip_any_length in E; [lia|done].
  - destruct (strip_any encs l) as [l'|] eqn:E; [|done].
    apply IH. apply strip_any_length in E; [lia|done].
Qed.

Lemma trim_bytes_done encs l : [] ∉ encs -> strip_any encs (trim_bytes encs l) = None.
Proof. intros. by apply trim_front_done. Qed.

Lemma trim_bytes_id encs l : strip_any encs l = None -> trim_bytes encs l = l.
Proof. unfold trim_bytes. destruct l; simpl; [done|]. by intros ->. Qed.

Lemma trim_front_suffix encs fuel l : exists k, l = k ++ trim_front fuel encs l.
Proof.
  revert l. induction fuel as [|fuel IH]; intros l; simpl; [by exists []|].
  destruct (strip_any encs l) as [l'|] eqn:E; [|by exists []].
  assert (exists k, l = k ++ l') as [k ->].
  { clear IH. induction encs as [|e encs IH]; simpl in E; [done|].
    destruct (strip_prefix e l) as [l0|] eqn:E'; [|auto].
    apply strip_prefix_app in E'. simplify_eq. eauto. }
  destruct (IH l') as [k' Hk]. exists (k ++ k'). rewrite <- app_assoc. congruence.
Qed.

Lemma strip_any_None_prefix encs l1 l2 : strip_any encs (l1 ++ l2) = None -> strip_any encs l1 = None.
Proof.
  rewrite !strip_any_None. intros H e l' He ->. apply (H e (l' ++ l2) He). by rewrite app_assoc.
Qed.

Lemma nil_reverse_encs encs : [] ∉ encs -> [] ∉ reverse <$> encs.
Proof. intros H (x&Hx&Hin)%list_elem_of_fmap. destruct x; [done|]. rewrite reverse_cons in Hx. by destruct (reverse x). Qed.

(** Both ends are clean after trimming both ends. *)
Lemma trim_both_done encs l :
  [] ∉ encs ->
  strip_any encs (trim_right_bytes encs (trim_bytes encs l)) = None /\
  strip_any (reverse <$> encs) (reverse (trim_right_bytes encs (trim_bytes encs l))) = None.
Proof.
  intros Hn. set (l1 := trim_bytes encs l). unfold trim_right_bytes. rewrite reverse_involutive.
  split; [|by apply trim_bytes_done, nil_reverse_encs].
  destruct (trim_front_suffix (reverse <$> encs) (length (reverse l1)) (reverse l1)) as [k Hk].
  apply (strip_any_None_prefix _ _ (reverse k)).
  fold (trim_bytes (reverse <$> encs) (reverse l1)) in Hk.
  rewrite <- reverse_app, <- Hk, reverse_involutive. by apply trim_bytes_done.
Qed.
End trim_facts.

Lemma nil_not_in_spaces : ([] : bytes) ∉ spaces.
Proof. by apply (bool_decide_unpack _). Qed.

(** [strings.TrimSpace] is idempotent. *)
Lemma TrimSpace_idem s : TrimSpace (TrimSpace s) = TrimSpace s.
Proof.
  unfold TrimSpace. rewrite to_of_bytes.
  destruct (trim_both_done spaces (to_bytes s) nil_not_in_spaces) as [H1 H2].
  set (t := trim_right_bytes _ _) in *.
  rewrite (trim_bytes_id _ t H1). unfold trim_right_bytes at 1.
  by rewrite (trim_bytes_id _ (reverse t) H2), reverse_involutive.
Qed.

(** ** Runes

    The width of the first rune as [utf8.DecodeRune] finds it: an invalid
    byte is one rune of width one. *)
Definition in_range (lo hi : nat) (a : ascii) : bool :=
  let n := Ascii.nat_of_ascii a in ((lo <=? n) && (n <=? hi))%nat.
Definition cont (a : ascii) : bool := in_range 128 191 a.

Definition rune_width (l : bytes) : nat :=
  match l with
  | [] => 0
  | a :: l =>
    match l with
    | b :: c :: d :: _ =>
      if (in_range 240 240 a && in_range 144 191 b && cont c && cont d)
         || (in_range 241 243 a && cont b && cont c && cont d)
         || (in_range 244 244 a && in_range 128 143 b && cont c && cont d) then 4
      else if (in_range 224 224 a && in_range 160 191 b && cont c)
         || ((in_range 225 236 a || in_range 238 239 a) && cont b && cont c)
         || (in_range 237 237 a && in_range 128 159 b && cont c) then 3
      else if in_range 194 223 a && cont b then 2 else 1
    | b :: c :: _ =>
      if (in_range 224 224 a && in_range 160 191 b && cont c)
         || ((in_range 225 236 a || in_range 238 239 a) && cont b && cont c)
         || (in_range 237 237 a && in_range 128 159 b && cont c) then 3
      else if in_range 194 223 a && cont b then 2 else 1
    | b :: _ => if in_range 194 223 a && cont b then 2 else 1
    | [] => 1
    end
  end%nat.

Fixpoint rune_count_fuel (fuel : nat) (l : bytes) : nat :=
  match fuel, l with
  | O, _ | _, [] => 0
  | S fuel, _ => S (rune_count_fuel fuel (drop (rune_width l) l))
  end%nat.

(** [len([]rune(s))] *)
Definition rune_count (s : string) : Z :=
  Z.of_nat (rune_count_fuel (length (to_bytes s)) (to_bytes s)).

Example rune_count_ascii : rune_count "hello" = 5.
Proof. reflexivity. Qed.
Example rune_count_utf8 : rune_count (of_bytes (byte <$> [228; 189; 160; 33]%nat)) = 2.
Proof. reflexivity. Qed.
Example TrimSpace_ex : TrimSpace "  a b	 " = "a b"%string.
Proof. reflexivity. Qed.

Lemma rune_count_le_len s : rune_count s <= strlen s.
Proof.
  unfold rune_count, strlen, zlen. apply inj_le.
  assert (forall fuel l, (rune_count_fuel fuel l <= fuel)%nat) as H; [|apply H].
  induction fuel as [|fuel IH]; intros [|a l]; simpl; try lia. by apply le_n_S.
Qed.

(** ** Errors *)
Inductive Err :=
| ErrNotFound | ErrDirectChatForbidden
| ErrForbidden | ErrInvalidMessage
| ErrAdminRoleRequired | ErrOwnerRoleRequired | ErrCreateSpacePermission | ErrAutoDeleteGroupOnly
| ErrNotImplemented
| Errorf (msg : string)                          (** [fmt.Errorf] or [errors.New] without a wrapped error *)
| Errorw (pre : string) (e : Err) (post : string) (** [fmt.Errorf("pre%wpost", e)] *)
| ErrLockWait                                     (** MySQL error 1205, lock wait timeout *)
| ErrDriver.                                      (** an error of the database driver or the network *)

#[export] Instance Err_eq_dec : EqDecision Err.
Proof. solve_decision. Defined.

(** [err.Error()] *)
Fixpoint error_text (e : Err) : string :=
  match e with
  | ErrNotFound => "repository: not found"
  | ErrDirectChatForbidden => "repository: direct chat forbidden"
  | ErrForbidden => "forbidden"
  | ErrInvalidMessage => "invalid message"
  | ErrAdminRoleRequired => "admin role required"
  | ErrOwnerRoleRequired => "owner role required"
  | ErrCreateSpacePermission => "create space permission required"
  | ErrAutoDeleteGroupOnly => "auto delete is only supported for group channels"
  | ErrNotImplemented => "not implemented"
  | Errorf msg => msg
  | Errorw pre e post => pre +:+ error_text e +:+ post
  | ErrLockWait => "Error 1205 (HY000): Lock wait timeout exceeded; try restarting transaction"
  | ErrDriver => "driver: bad connection"
  end.

(** [errors.Is(e, target)] for a sentinel [target]. *)
Fixpoint errors_is (e target : Err) : bool :=
  (e =@ target) || match e with Errorw _ e' _ => errors_is e' target | _ => false end.

(** [fmt.Errorf("msg: %w", e)] *)
Definition wrap (msg : string) (e : Err) : Err := Errorw (msg +:+ ": ") e "".

(** ** Time

    A [time.Time] is the number of nanoseconds since the Unix epoch when
    it comes from [time.Now()], and of milliseconds once it has been
    truncated or stored in a [DATETIME(3)] column. *)
Definition ns_per_ms : Z := 1000000.
Definition ns_per_s : Z := 1000000000.
Definition truncate_ms (ns : Z) : Z := ns / ns_per_ms.

(** A [time.Time] parameter bound to a [DATETIME(3)] column: the driver
    sends microseconds, MySQL rounds to milliseconds. *)
Definition datetime3 (ns : Z) : Z := (ns / 1000 + 500) / 1000.

Lemma datetime3_ms ms : datetime3 (ms * ns_per_ms) = ms.
Proof.
  unfold datetime3, ns_per_ms. replace (ms * 1000000) with (ms * 1000 * 1000) by lia.
  rewrite Z.div_mul by lia. rewrite Z.add_comm, Z.div_add by lia. done.
Qed.
