(* ===== verification/Encoding.v ===== *)
(** * Encodings of the Go standard library used by the program

    SHA-256 ([crypto/sha256]), standard base64 ([encoding/base64]),
    big-endian 32-bit integers ([encoding/binary]) and decimal numbers. *)
From stdpp Require Import pretty.
From S2P Require Import Prelude Go.

Definition byte_of_Z (z : Z) : ascii := byte (Z.to_nat (z mod 256)).
Definition Z_of_byte (a : ascii) : Z := Z.of_nat (Ascii.nat_of_ascii a).

(** ** Big-endian integers *)
Definition be32 (z : Z) : bytes :=
  [byte_of_Z (Z.shiftr z 24); byte_of_Z (Z.shiftr z 16); byte_of_Z (Z.shiftr z 8); byte_of_Z z].
Definition be32_decode (l : bytes) : Z :=
  fold_left (fun acc a => Z.shiftl acc 8 + Z_of_byte a) l 0.

(** ** SHA-256 *)
Module Sha256.
(** The round constants and the initial state are the first 32 bits of the
    fractional parts of the cube and square roots of the first primes. *)
Definition is_prime (n : nat) : bool := forallb (fun d => negb (n mod d =? 0)%nat) (seq 2 (n - 2)).
Definition primes : list Z := Eval vm_compute in Z.of_nat <$> filter is_prime (seq 2 310).
Fixpoint icbrt (bits : nat) (x : Z) (n : Z) : Z :=
  match bits with
  | O => x
  | S bits => let y := x + Z.shiftl 1 (Z.of_nat bits) in icbrt bits (if y * y * y <=? n then y else x) n
  end.
Definition K : list Z := Eval vm_compute in (fun p => u32 (icbrt 40 0 (Z.shiftl p 96))) <$> primes.
Definition H0 : list Z := Eval vm_compute in (fun p => u32 (Z.sqrt (Z.shiftl p 64))) <$> take 8 primes.

Definition rotr (x n : Z) : Z := Z.lor (Z.shiftr x n) (u32 (Z.shiftl x (32 - n))).
Definition lnot32 (x : Z) : Z := Z.lxor x max_u32.
Definition bsig0 x := Z.lxor (rotr x 2) (Z.lxor (rotr x 13) (rotr x 22)).
Definition bsig1 x := Z.lxor (rotr x 6) (Z.lxor (rotr x 11) (rotr x 25)).
Definition ssig0 x := Z.lxor (rotr x 7) (Z.lxor (rotr x 18) (Z.shiftr x 3)).
Definition ssig1 x := Z.lxor (rotr x 17) (Z.lxor (rotr x 19) (Z.shiftr x 10)).
Definition ch x y z := Z.lxor (Z.land x y) (Z.land (lnot32 x) z).
Definition maj x y z := Z.lxor (Z.land x y) (Z.lxor (Z.land x z) (Z.land y z)).

(** The message with its padding. *)
Definition pad (l : bytes) : bytes :=
  let n := length l in
  let zeros := ((119 - n mod 64) mod 64)%nat in
  let bits := Z.of_nat n * 8 in
  l ++ byte 128 :: repeat (byte 0) zeros ++ be32 (Z.shiftr bits 32) ++ be32 (u32 bits).

Fixpoint words (n : nat) (l : bytes) : list Z :=
  match n with O => [] | S n => be32_decode (take 4 l) :: words n (drop 4 l) end.

(** The message schedule, newest word first: each step appends
    [ssig1 w(t-2) + w(t-7) + ssig0 w(t-15) + w(t-16)]. *)
Fixpoint schedule (n : nat) (w : list Z) : list Z :=
  match n with
  | O => w
  | S n => schedule n (u32 (ssig1 (nth 1 w 0) + nth 6 w 0 + ssig0 (nth 14 w 0) + nth 15 w 0) :: w)
  end.

Definition round (s : list Z) (kw : Z * Z) : list Z :=
  match s with
  | [a; b; c; d; e; f; g; h] =>
    let t1 := h + bsig1 e + ch e f g + kw.1 + kw.2 in
    let t2 := bsig0 a + maj a b c in
    [u32 (t1 + t2); a; b; c; u32 (d + t1); e; f; g]
  | _ => s
  end.

Definition compress (h : list Z) (block : bytes) : list Z :=
  let w := reverse (schedule 48 (reverse (words 16 block))) in
  zip_with (fun x y => u32 (x + y)) h (fold_left round (zip K w) h).

Fixpoint blocks (n : nat) (h : list Z) (l : bytes) : list Z :=
  match n with O => h | S n => blocks n (compress h (take 64 l)) (drop 64 l) end.

(** [sha256.Sum256] *)
Definition Sum256 (s : string) : string :=
  let m := pad (to_bytes s) in
  of_bytes (blocks (length m / 64) H0 m ≫= be32).
End Sha256.

(** ** Hexadecimal and base64 *)
Definition hex_digit (n : nat) : ascii :=
  if (n <? 10)%nat then byte (48 + n) else byte (87 + n).
Definition hex_encode (s : string) : string :=
  of_bytes (to_bytes s ≫= fun a => let n := Ascii.nat_of_ascii a in [hex_digit (n / 16); hex_digit (n mod 16)]).

Definition base64_char (z : Z) : ascii :=
  if z <? 26 then byte_of_Z (65 + z)
  else if z <? 52 then byte_of_Z (71 + z)
  else if z <? 62 then byte_of_Z (z - 4)
  else if z =? 62 then byte 43 else byte 47.

Fixpoint base64_bytes (l : bytes) : bytes :=
  match l with
  | a :: b :: c :: l =>
    let v := Z_of_byte a * 65536 + Z_of_byte b * 256 + Z_of_byte c in
    base64_char (v / 262144) :: base64_char (v / 4096 mod 64) :: base64_char (v / 64 mod 64)
      :: base64_char (v mod 64) :: base64_bytes l
  | [a; b] =>
    let v := Z_of_byte a * 65536 + Z_of_byte b * 256 in
    [base64_char (v / 262144); base64_char (v / 4096 mod 64); base64_char (v / 64 mod 64); byte 61]
  | [a] =>
    let v := Z_of_byte a * 65536 in
    [base64_char (v / 262144); base64_char (v / 4096 mod 64); byte 61; byte 61]
  | [] => []
  end.
(** [base64.StdEncoding.EncodeToString] *)
Definition base64_encode (s : string) : string := of_bytes (base64_bytes (to_bytes s)).

(** [%d] of an [int64] *)
Definition decimal (z : Z) : string := pretty z.

Example sha256_abc :
  hex_encode (Sha256.Sum256 "abc") = "ba7816bf8f01cfea414140de5dae2223b00361a396177a9cb410ff61f20015ad"%string.
Proof. vm_compute. reflexivity. Qed.
Example sha256_empty :
  hex_encode (Sha256.Sum256 "") = "e3b0c44298fc1c149afbf4c8996fb92427ae41e4649b934ca495991b7852b855"%string.
Proof. vm_compute. reflexivity. Qed.
Example base64_ex : base64_encode "Many hands" = "TWFueSBoYW5kcw=="%string.
Proof. vm_compute. reflexivity. Qed.
Example decimal_ex : decimal (-120) = "-120"%string.
Proof. vm_compute. reflexivity. Qed.
