(* ===== verification/Schema.v ===== *)
(** * Domain models and database tables

    The enumerations and structs of [internal/space], [internal/channel],
    [internal/message], [internal/media] and [internal/repository], and
    one record type per table of [migrations/].  Go's string-typed
    enumerations keep a constructor for the values outside the declared
    constants, because the repository code tests for them; a column of
    SQL type [ENUM] holds only the declared ones. *)
From S2P Require Import Prelude Go.

(** ** Enumerations *)
Inductive Visibility := VisibilityPublic | VisibilityPrivate | VisibilityOther (s : string).
Inductive Role := RoleOwner | RoleAdmin | RoleMember | RoleSubscriber | RoleOther (s : string).
Inductive ChannelType := TypeSpace | TypeBroadcast | TypeOther (s : string).
Inductive MessageType := TypeText | TypeImage | TypeFile | TypeSystem | MessageTypeOther (s : string).
Inductive MessageStatus := StatusNormal | StatusDeleted.
Inductive Kind := KindImage | KindFile.

#[export] Instance Visibility_eq_dec : EqDecision Visibility.
Proof. solve_decision. Defined.
#[export] Instance Role_eq_dec : EqDecision Role.
Proof. solve_decision. Defined.
#[export] Instance ChannelType_eq_dec : EqDecision ChannelType.
Proof. solve_decision. Defined.
#[export] Instance MessageType_eq_dec : EqDecision MessageType.
Proof. solve_decision. Defined.
#[export] Instance MessageStatus_eq_dec : EqDecision MessageStatus.
Proof. solve_decision. Defined.
#[export] Instance Kind_eq_dec : EqDecision Kind.
Proof. solve_decision. Defined.

Definition visibility_text (v : Visibility) : string :=
  match v with VisibilityPublic => "public" | VisibilityPrivate => "private" | VisibilityOther s => s end.
(** Values an [ENUM] column accepts. *)
Definition visibility_enum (v : Visibility) : bool :=
  match v with VisibilityOther _ => false | _ => true end.
Definition role_enum (r : Role) : bool := match r with RoleOther _ => false | _ => true end.
Definition message_type_enum (t : MessageType) : bool :=
  match t with MessageTypeOther _ => false | _ => true end.

(** ** Structs returned by the repositories *)
Record User := mkUser {
  UserDBID : Z; UserID : string; PeerID : string; PubKey : option string;
  DisplayName : string; AvatarURL : string; Bio : string; UserStatus : Z;
  LastLoginAt : Z; UserCreatedAt : Z; UserUpdatedAt : Z }.

Record Space := mkSpace {
  SpaceID : Z; HostNodeID : Z; OwnerUserID : Z; SpaceName : string;
  SpaceAvatarURL : string; SpaceDescription : string; SpaceVisibility : Visibility;
  SpaceMemberCount : Z; ChannelCount : Z; AllowChannelCreation : bool;
  SpaceStatus : Z; SpaceCreatedAt : Z; SpaceUpdatedAt : Z }.

Record SpaceMember := mkSpaceMember {
  MemberID : Z; MemberUserID : string; MemberDisplayName : string; MemberAvatarURL : string;
  MemberRole : Role; Nickname : string; IsMuted : bool; IsBanned : bool;
  JoinedAt : Z; LastSeenAt : Z }.

Record Permission := mkPermission {
  PermRole : Role; CanView : bool; CanSendMessage : bool; CanSendImage : bool;
  CanSendFile : bool; CanDeleteMessage : bool; CanManageChannel : bool }.

Record Channel := mkChannel {
  ChannelID : Z; SpaceDBID : Z; ChanType : ChannelType; ChannelName : string;
  ChannelDescription : string; ChannelVisibility : Visibility; SlowModeSeconds : Z;
  AutoDeleteAfterSeconds : Z; MessageSeq : Z; MessageCount : Z; ChannelMemberCount : Z;
  ChannelCreatedBy : Z; ChannelStatus : Z; SortOrder : Z; ChanPermission : Permission;
  ChannelCreatedAt : Z; ChannelUpdatedAt : Z }.

Record Attachment := mkAttachment {
  AttID : Z; AttMediaID : string; AttBlobDBID : Z; AttBlobID : string; AttKind : Kind;
  AttOriginalName : string; AttMIMEType : string; AttSize : Z; AttWidth : Z; AttHeight : Z;
  AttCreatedBy : Z; AttCreatedAt : Z; AttSHA256 : string; AttFileCID : string;
  AttStoragePath : string }.

Record Content := mkContent {
  ContentText : string; ContentImages : list Attachment; ContentFiles : list Attachment }.

Record Message := mkMessage {
  MsgID : Z; MessageID : string; ChannelDBID : Z; Seq : Z; SenderUserID : Z;
  SenderUserExtID : string; ClientMsgID : string; MsgType : MessageType; TextContent : string;
  MsgStatus : MessageStatus; MsgCreatedAt : Z; MsgUpdatedAt : Z; MsgDeletedAt : option Z;
  MsgContent : Content }.

(** ** Table rows *)
Record UserRow := mkUserRow {
  u_id : Z; u_user_id : string; u_peer_id : string; u_pubkey : option string;
  u_display_name : string; u_avatar_url : option string; u_bio : option string; u_status : Z;
  u_last_login_at : option Z; u_created_at : Z; u_updated_at : Z }.

Record ServerRow := mkServerRow {
  s_id : Z; s_host_node_id : Z; s_owner_user_id : Z; s_name : string;
  s_avatar_url : option string; s_description : option string; s_visibility : Visibility;
  s_allow_channel_creation : bool; s_member_count : Z; s_channel_count : Z; s_status : Z;
  s_created_at : Z; s_updated_at : Z }.

Record MemberRow := mkMemberRow {
  sm_id : Z; sm_space_id : Z; sm_user_id : Z; sm_role : Role; sm_nickname : option string;
  sm_is_muted : bool; sm_is_banned : bool; sm_joined_at : Z; sm_last_seen_at : option Z;
  sm_created_at : Z; sm_updated_at : Z }.

Record ChannelRow := mkChannelRow {
  c_id : Z; c_space_id : Z; c_type : ChannelType; c_name : string; c_description : option string;
  c_visibility : Visibility; c_slow_mode_seconds : Z; c_auto_delete_after_seconds : Z;
  c_message_seq : Z; c_message_count : Z; c_subscriber_count : Z; c_member_count : Z;
  c_created_by : Z; c_status : Z; c_sort_order : Z; c_created_at : Z; c_updated_at : Z }.

Record ChannelMemberRow := mkChannelMemberRow {
  cm_id : Z; cm_channel_id : Z; cm_user_id : Z; cm_role : Role; cm_can_view : bool;
  cm_can_send_message : bool; cm_can_send_image : bool; cm_can_send_file : bool;
  cm_can_delete_message : bool; cm_can_manage_channel : bool;
  cm_joined_at : Z; cm_created_at : Z; cm_updated_at : Z }.

Record MessageRow := mkMessageRow {
  m_id : Z; m_message_id : string; m_channel_id : Z; m_seq : Z; m_sender_user_id : Z;
  m_client_msg_id : string; m_message_type : MessageType; m_text_content : option string;
  m_status : MessageStatus; m_created_at : Z; m_updated_at : Z; m_deleted_at : option Z }.

Record AttachmentRow := mkAttachmentRow {
  ma_id : Z; ma_message_id : Z; ma_media_id : Z; ma_sort_order : Z; ma_created_at : Z }.

Record MediaRow := mkMediaRow {
  mo_id : Z; mo_media_id : string; mo_blob_id : Z; mo_kind : Kind;
  mo_original_name : option string; mo_mime_type : option string; mo_file_cid : option string;
  mo_size : Z; mo_width : option Z; mo_height : option Z; mo_created_by : Z; mo_created_at : Z }.

Record BlobRow := mkBlobRow {
  b_id : Z; b_blob_id : string; b_sha256 : string; b_size : Z; b_mime_type : option string;
  b_storage_path : string; b_ref_count : Z; b_created_at : Z }.

Record ReadRow := mkReadRow {
  rd_id : Z; rd_user_id : Z; rd_channel_id : Z; rd_last_delivered_seq : Z; rd_last_read_seq : Z;
  rd_updated_at : Z }.

Record NonceRow := mkNonceRow {
  n_id : Z; n_nonce_hash : string; n_client_peer_id : string; n_node_peer_id : string;
  n_issued_at : Z; n_expires_at : Z; n_used_at : option Z; n_created_at : Z }.

Record ConvRow := mkConvRow {
  dc_id : Z; dc_conversation_id : string; dc_user_low_id : Z; dc_user_high_id : Z;
  dc_last_seq : Z; dc_last_message_at_ms : Z; dc_created_at : Z; dc_updated_at : Z }.

Record DirectRow := mkDirectRow {
  dm_id : Z; dm_message_id : string; dm_conversation_id : string; dm_seq : Z;
  dm_sender_user_id : Z; dm_recipient_user_id : Z; dm_client_msg_id : string;
  dm_message_type : MessageType; dm_text_content : option string; dm_created_at_ms : Z;
  dm_recipient_acked_at_ms : option Z; dm_created_at : Z }.

Record NodeRow := mkNodeRow {
  nd_id : Z; nd_node_id : string; nd_peer_id : string; nd_name : string;
  nd_public_addrs : list string; nd_status : Z; nd_created_at : Z; nd_updated_at : Z }.

(** ** The database *)
Record Table (R : Type) := mkTable { rows : list R; next_id : Z }.
Arguments mkTable {R} _ _.
Arguments rows {R} _.
Arguments next_id {R} _.

Record DB := mkDB {
  users : Table UserRow; servers : Table ServerRow; server_members : Table MemberRow;
  channels : Table ChannelRow; channel_members : Table ChannelMemberRow;
  messages : Table MessageRow; message_attachments : Table AttachmentRow;
  media_objects : Table MediaRow; blobs : Table BlobRow; reads : Table ReadRow;
  nonces : Table NonceRow; conversations : Table ConvRow; direct_messages : Table DirectRow;
  nodes : Table NodeRow }.

Definition empty_table {R} : Table R := mkTable [] 1.
Definition empty_db : DB :=
  mkDB empty_table empty_table empty_table empty_table empty_table empty_table empty_table
       empty_table empty_table empty_table empty_table empty_table empty_table empty_table.

(** Replacing one table. *)
Definition set_users f d := mkDB (f (users d)) (servers d) (server_members d) (channels d) (channel_members d) (messages d) (message_attachments d) (media_objects d) (blobs d) (reads d) (nonces d) (conversations d) (direct_messages d) (nodes d).
Definition set_servers f d := mkDB (users d) (f (servers d)) (server_members d) (channels d) (channel_members d) (messages d) (message_attachments d) (media_objects d) (blobs d) (reads d) (nonces d) (conversations d) (direct_messages d) (nodes d).
Definition set_server_members f d := mkDB (users d) (servers d) (f (server_members d)) (channels d) (channel_members d) (messages d) (message_attachments d) (media_objects d) (blobs d) (reads d) (nonces d) (conversations d) (direct_messages d) (nodes d).
Definition set_channels f d := mkDB (users d) (servers d) (server_members d) (f (channels d)) (channel_members d) (messages d) (message_attachments d) (media_objects d) (blobs d) (reads d) (nonces d) (conversations d) (direct_messages d) (nodes d).
Definition set_channel_members f d := mkDB (users d) (servers d) (server_members d) (channels d) (f (channel_members d)) (messages d) (message_attachments d) (media_objects d) (blobs d) (reads d) (nonces d) (conversations d) (direct_messages d) (nodes d).
Definition set_messages f d := mkDB (users d) (servers d) (server_members d) (channels d) (channel_members d) (f (messages d)) (message_attachments d) (media_objects d) (blobs d) (reads d) (nonces d) (conversations d) (direct_messages d) (nodes d).
Definition set_message_attachments f d := mkDB (users d) (servers d) (server_members d) (channels d) (channel_members d) (messages d) (f (message_attachments d)) (media_objects d) (blobs d) (reads d) (nonces d) (conversations d) (direct_messages d) (nodes d).
Definition set_media_objects f d := mkDB (users d) (servers d) (server_members d) (channels d) (channel_members d) (messages d) (message_attachments d) (f (media_objects d)) (blobs d) (reads d) (nonces d) (conversations d) (direct_messages d) (nodes d).
Definition set_blobs f d := mkDB (users d) (servers d) (server_members d) (channels d) (channel_members d) (messages d) (message_attachments d) (media_objects d) (f (blobs d)) (reads d) (nonces d) (conversations d) (direct_messages d) (nodes d).
Definition set_reads f d := mkDB (users d) (servers d) (server_members d) (channels d) (channel_members d) (messages d) (message_attachments d) (media_objects d) (blobs d) (f (reads d)) (nonces d) (conversations d) (direct_messages d) (nodes d).
Definition set_nonces f d := mkDB (users d) (servers d) (server_members d) (channels d) (channel_members d) (messages d) (message_attachments d) (media_objects d) (blobs d) (reads d) (f (nonces d)) (conversations d) (direct_messages d) (nodes d).
Definition set_conversations f d := mkDB (users d) (servers d) (server_members d) (channels d) (channel_members d) (messages d) (message_attachments d) (media_objects d) (blobs d) (reads d) (nonces d) (f (conversations d)) (direct_messages d) (nodes d).
Definition set_direct_messages f d := mkDB (users d) (servers d) (server_members d) (channels d) (channel_members d) (messages d) (message_attachments d) (media_objects d) (blobs d) (reads d) (nonces d) (conversations d) (f (direct_messages d)) (nodes d).
Definition set_nodes f d := mkDB (users d) (servers d) (server_members d) (channels d) (channel_members d) (messages d) (message_attachments d) (media_objects d) (blobs d) (reads d) (nonces d) (conversations d) (direct_messages d) (f (nodes d)).

(** Statements on one table: [INSERT] appends the row built from the next
    auto-increment id, and fails when a unique key is already taken or the
    id column of width [max] is exhausted. *)
Definition insert_row {R} (max : Z) (dup : R -> bool) (mk : Z -> R) (t : Table R)
  : option (Table R * Z) :=
  if (max <? next_id t) || existsb dup (rows t) then None
  else Some (mkTable (rows t ++ [mk (next_id t)]) (next_id t + 1), next_id t).

Definition update_rows {R} (p : R -> bool) (f : R -> R) (t : Table R) : Table R :=
  mkTable (update_where p f (rows t)) (next_id t).
Definition delete_rows {R} (p : R -> bool) (t : Table R) : Table R :=
  mkTable (delete_where p (rows t)) (next_id t).

(** [INSERT ... ON DUPLICATE KEY UPDATE f]: [dup] is the unique key of the new row. *)
Definition upsert_row {R} (max : Z) (dup : R -> bool) (f : R -> R) (mk : Z -> R) (t : Table R)
  : option (Table R) :=
  if existsb dup (rows t) then Some (update_rows dup f t)
  else fst <$> insert_row max dup mk t.

(** ** Well-formedness of a table: primary keys are distinct, positive and
    below the auto-increment counter. *)
Record table_wf {R} (pk : R -> Z) (t : Table R) : Prop := {
  wf_nodup : NoDup (map pk (rows t));
  wf_bound : forall r, r ∈ rows t -> 0 < pk r < next_id t;
  wf_next : 0 < next_id t }.

Lemma table_wf_empty {R} (pk : R -> Z) : table_wf pk empty_table.
Proof. split; simpl; [constructor|set_solver|lia]. Qed.

Lemma insert_row_Some {R} max dup mk (t t' : Table R) id :
  insert_row max dup mk t = Some (t', id) ->
  id = next_id t /\ id <= max /\ (forall r, r ∈ rows t -> dup r = false) /\
  rows t' = rows t ++ [mk id] /\ next_id t' = next_id t + 1.
Proof.
  unfold insert_row. intros H.
  destruct (max <? next_id t) eqn:E1; simpl in H; [done|].
  destruct (existsb dup (rows t)) eqn:E2; [done|]. simplify_eq. simpl.
  repeat split; [lia|].
  intros r Hr. destruct (dup r) eqn:E; [|done].
  assert (existsb dup (rows t) = true) as Hx; [|congruence].
  apply existsb_exists. exists r. by rewrite <- list_elem_of_In.
Qed.

Lemma insert_row_ok {R} max dup mk (t : Table R) :
  next_id t <= max -> (forall r, r ∈ rows t -> dup r = false) ->
  insert_row max dup mk t = Some (mkTable (rows t ++ [mk (next_id t)]) (next_id t + 1), next_id t).
Proof.
  intros Hm Hd. unfold insert_row.
  destruct (max <? next_id t) eqn:E1; [lia|].
  destruct (existsb dup (rows t)) eqn:E2; [|done].
  apply existsb_exists in E2 as (r&Hr%list_elem_of_In&E). rewrite Hd in E; done.
Qed.

Lemma table_wf_insert {R} (pk : R -> Z) max dup mk (t t' : Table R) id :
  (forall i, pk (mk i) = i) ->
  table_wf pk t -> insert_row max dup mk t = Some (t', id) -> table_wf pk t'.
Proof.
  intros Hpk [Hnd Hb Hn] H. apply insert_row_Some in H as (->&Hm&_&Hr&Hn').
  split; rewrite ?Hr, ?Hn'.
  - apply NoDup_map_snoc; [done|]. intros (r&Hr'&E)%elem_of_map.
    specialize (Hb r Hr'). rewrite Hpk in E. lia.
  - intros r [Hr'|Hr']%elem_of_app; [specialize (Hb r Hr'); lia|].
    apply list_elem_of_singleton in Hr' as ->. rewrite Hpk. lia.
  - lia.
Qed.

Lemma table_wf_update {R} (pk : R -> Z) p f (t : Table R) :
  (forall r, pk (f r) = pk r) -> table_wf pk t -> table_wf pk (update_rows p f t).
Proof.
  intros Hf [Hnd Hb Hn]. split; simpl.
  - rewrite map_update_where; auto.
  - intros r (r0&Hr&->)%elem_of_update_where. destruct (p r0); rewrite ?Hf; auto.
  - done.
Qed.

Lemma table_wf_delete {R} (pk : R -> Z) p (t : Table R) : table_wf pk t -> table_wf pk (delete_rows p t).
Proof.
  intros [Hnd Hb Hn]. split; simpl; [by apply NoDup_map_delete_where| |done].
  intros r [_ Hr]%elem_of_delete_where. auto.
Qed.

(** A table has fewer rows than ids given out. *)
Lemma table_wf_length {R} (pk : R -> Z) (t : Table R) : table_wf pk t -> zlen (rows t) < next_id t.
Proof.
  intros [Hnd Hb Hn]. assert (map pk (rows t) ⊆+ seqZ 1 (next_id t - 1)) as Hs.
  { apply NoDup_submseteq; [done|]. intros x (r&Hr%Hb&->)%elem_of_map. apply elem_of_seqZ. lia. }
  apply submseteq_length in Hs. rewrite length_map, length_seqZ in Hs. unfold zlen. lia.
Qed.

#[export] Hint Resolve table_wf_empty table_wf_update table_wf_delete : mesh.
