(* ===== verification/Config.v ===== *)
(** * Configuration: [internal/config/config.go]

    Defaults, overlaid by an optional JSON file, overlaid by environment
    variables; the result is normalised and validated.  Durations are in
    nanoseconds.  Here are the records and the defaults; [ConfigLoad] has the
    reading of the file and of the environment. *)
From S2P Require Import Prelude Go.

Record IPFSConfig := mkIPFS {
  Enabled : bool; Root : string; GatewayEnabled : bool; GatewayWritable : bool; APIEnabled : bool;
  DatastoreType : string; BlockstoreNoSync : bool; Chunker : string; RawLeaves : bool;
  CIDVersion : Z; HashFunction : string; AutoProvide : bool; ReprovideIntervalSeconds : Z;
  RoutingMode : string; FetchTimeoutSeconds : Z; AutoPinOnAdd : bool; IPFSMaxUploadBytes : Z }.

Record Config := mkConfig {
  ConfigFile : string; Version : string; NodeName : string; MySQLDSN : string; MySQLAdminDSN : string;
  MySQLServerPubKeyPath : string; MySQLConnMaxLifetime : Z; MySQLMaxIdleConns : Z; MySQLMaxOpenConns : Z;
  MySQLConnectTimeout : Z; MySQLRetryInterval : Z; MySQLMaxRetryDuration : Z;
  Libp2pListenAddrs : list string; Libp2pProtocolID : string; NodeKeyPath : string; BlobRoot : string;
  LogDir : string; MigrationsDir : string; HTTPListenAddr : string; HTTPJWTSecret : string;
  HTTPAccessTokenTTL : Z; ReadTimeout : Z; WriteTimeout : Z; HeartbeatInterval : Z; ChallengeTTL : Z;
  MaxTextLen : Z; MaxImagesPerMessage : Z; MaxFilesPerMessage : Z; MaxUploadBytes : Z;
  DefaultSyncLimit : Z; MaxSyncLimit : Z; EnableDebugConfig : bool; ServeBlobsOverHTTP : bool;
  BlobURLBase : string; DHTDiscoveryNamespace : string; DHTBootstrapPeers : list string;
  DefaultAdminPeerID : string; DefaultSpaceID : Z; IPFS : IPFSConfig }.

Record ipfsFileConfig := mkIPFSFile {
  f_Enabled : option bool; f_Root : option string; f_GatewayEnabled : option bool;
  f_GatewayWritable : option bool; f_APIEnabled : option bool; f_DatastoreType : option string;
  f_BlockstoreNoSync : option bool; f_Chunker : option string; f_RawLeaves : option bool;
  f_CIDVersion : option Z; f_HashFunction : option string; f_AutoProvide : option bool;
  f_ReprovideIntervalSeconds : option Z; f_RoutingMode : option string;
  f_FetchTimeoutSeconds : option Z; f_AutoPinOnAdd : option bool; f_IPFSMaxUploadBytes : option Z }.

Record fileConfig := mkFile {
  f_Version : option string; f_NodeName : option string; f_MySQLDSN : option string;
  f_MySQLAdminDSN : option string; f_MySQLServerPubKeyPath : option string;
  f_MySQLConnMaxLifetime : option string; f_MySQLMaxIdleConns : option Z; f_MySQLMaxOpenConns : option Z;
  f_MySQLConnectTimeout : option string; f_MySQLRetryInterval : option string;
  f_MySQLMaxRetryDuration : option string; f_Libp2pListenAddrs : list string;
  f_Libp2pProtocolID : option string; f_NodeKeyPath : option string; f_BlobRoot : option string;
  f_LogDir : option string; f_MigrationsDir : option string; f_HTTPListenAddr : option string;
  f_HTTPJWTSecret : option string; f_HTTPAccessTokenTTL : option string; f_ReadTimeout : option string;
  f_WriteTimeout : option string; f_HeartbeatInterval : option string; f_ChallengeTTL : option string;
  f_MaxTextLen : option Z; f_MaxImagesPerMessage : option Z; f_MaxFilesPerMessage : option Z;
  f_MaxUploadBytes : option Z; f_DefaultSyncLimit : option Z; f_MaxSyncLimit : option Z;
  f_EnableDebugConfig : option bool; f_ServeBlobsOverHTTP : option bool; f_BlobURLBase : option string;
  f_DHTDiscoveryNamespace : option string; f_DHTBootstrapPeers : list string;
  f_DefaultAdminPeerID : option string; f_DefaultSpaceID : option Z; f_IPFS : option ipfsFileConfig }.

Definition minute : Z := 60 * ns_per_s.
Definition zero_ipfs : IPFSConfig :=
  mkIPFS false "" false false false "" false "" false 0 "" false 0 "" 0 false 0.

Definition defaults : Config :=
  {| ConfigFile := ""; Version := "dev"; NodeName := "meshserver-node";
     MySQLDSN := "meshserver:meshserver@tcp(127.0.0.1:3306)/meshserver?parseTime=true&multiStatements=true&charset=utf8mb4&collation=utf8mb4_unicode_ci";
     MySQLAdminDSN := ""; MySQLServerPubKeyPath := ""; MySQLConnMaxLifetime := 5 * minute;
     MySQLMaxIdleConns := 5; MySQLMaxOpenConns := 20; MySQLConnectTimeout := 60 * ns_per_s;
     MySQLRetryInterval := 3 * ns_per_s; MySQLMaxRetryDuration := 2 * minute;
     Libp2pListenAddrs := ["/ip4/0.0.0.0/tcp/4001"%string]; Libp2pProtocolID := "/meshserver/session/1.0.0";
     NodeKeyPath := "docker-compose/data/config/node.key"; BlobRoot := "docker-compose/data/blobs";
     LogDir := "docker-compose/data/logs"; MigrationsDir := "migrations"; HTTPListenAddr := ":8080";
     HTTPJWTSecret := ""; HTTPAccessTokenTTL := 24 * 60 * minute; ReadTimeout := 10 * ns_per_s;
     WriteTimeout := 15 * ns_per_s; HeartbeatInterval := 30 * ns_per_s; ChallengeTTL := 5 * minute;
     MaxTextLen := 4000; MaxImagesPerMessage := 9; MaxFilesPerMessage := 5; MaxUploadBytes := 10485760;
     DefaultSyncLimit := 50; MaxSyncLimit := 200; EnableDebugConfig := false; ServeBlobsOverHTTP := true;
     BlobURLBase := "/blobs/"; DHTDiscoveryNamespace := "meshserver"; DHTBootstrapPeers := [];
     DefaultAdminPeerID := ""; DefaultSpaceID := 0; IPFS := zero_ipfs |}.
