(* ===== verification/Store.v ===== *)
(** * The store: world, error monad, SQL statements and transactions

    [internal/repository/mysql] runs every operation against a MySQL
    connection pool.  The world holds the committed database, the clock,
    the number of random draws made, the blob files on disk, an oracle for
    driver failures (the next statement fails when its head is [true]) and
    the row locks of transactions that were begun and never finished.

    A repository method is a function [World -> World * (Err + A)]; the
    body of a transaction is a function on [Tx], which also carries the
    method's local variable [err], because the deferred
    [if err != nil { tx.Rollback() }] of the source reads that variable
    and not the error the method returns. *)
From S2P Require Import Prelude Go Schema Encoding.

(** The collation key under which MySQL compares the string columns
    ([utf8mb4_unicode_ci] in migrations/), the bytes the n-th call of
    [crypto/rand.Read] delivers for a buffer of a given length, how many
    bytes of a file reach the disk before a failing write fails, and the
    text that [%q] makes of a string. *)
Class Env := {
  sort_key : string -> string;
  rand_read : nat -> nat -> string;
  short_write : string -> nat;
  Quote : string -> string }.

(** SQL equality and order of string columns. *)
Definition sql_eq `{Env} (a b : string) : bool := sort_key a =@ sort_key b.
Definition sql_le `{Env} (a b : string) : Prop := String.leb (sort_key a) (sort_key b) = true.

Lemma sql_eq_spec `{Env} a b : sql_eq a b = true <-> sort_key a = sort_key b.
Proof. apply bool_decide_eq_true. Qed.
Lemma sql_eq_refl `{Env} a : sql_eq a a = true.
Proof. by apply sql_eq_spec. Qed.
Lemma sql_eq_sym `{Env} a b : sql_eq a b = sql_eq b a.
Proof. unfold sql_eq. by apply bool_decide_ext. Qed.

(** ** World *)
Inductive RowLock := LockServer (id : Z) | LockMember (id : Z) | LockChannel (id : Z) | LockConv (id : Z).
#[export] Instance RowLock_eq_dec : EqDecision RowLock.
Proof. solve_decision. Defined.

Record World := mkWorld {
  w_db : DB; w_clock : Z; w_draws : nat; w_files : gmap string string;
  w_faults : list bool; w_leaked : list (list RowLock) }.

Definition set_db d w := mkWorld d (w_clock w) (w_draws w) (w_files w) (w_faults w) (w_leaked w).
Definition set_draws n w := mkWorld (w_db w) (w_clock w) n (w_files w) (w_faults w) (w_leaked w).
Definition set_files fs w := mkWorld (w_db w) (w_clock w) (w_draws w) fs (w_faults w) (w_leaked w).
Definition set_leaked l w := mkWorld (w_db w) (w_clock w) (w_draws w) (w_files w) (w_faults w) l.

Definition fault (w : World) : bool := match w_faults w with b :: _ => b | [] => false end.
Definition tick (w : World) : World :=
  mkWorld (w_db w) (w_clock w) (w_draws w) (w_files w) (tail (w_faults w)) (w_leaked w).

(** No statement is going to fail and no transaction is left open. *)
Definition healthy (w : World) : Prop := w_faults w = [] /\ w_leaked w = [].

(** ** State-and-error monad *)
Definition SE (S A : Type) : Type := S -> S * (Err + A).
#[export] Instance SE_ret {S} : MRet (SE S) := fun A a s => (s, inr a).
#[export] Instance SE_bind {S} : MBind (SE S) := fun A B k m s =>
  let '(s', r) := m s in
  match r with inl e => (s', inl e) | inr a => k a s' end.
Definition throw {S A} (e : Err) : SE S A := fun s => (s, inl e).
(** Outcome of [m] as a value: [x, err := m] without an early return. *)
Definition try {S A} (m : SE S A) : SE S (Err + A) := fun s => let '(s', r) := m s in (s', inr r).
(** [x, err := m; if err != nil { return f(err) }] *)
Definition map_err {S A} (f : Err -> Err) (m : SE S A) : SE S A :=
  fun s => let '(s', r) := m s in (s', match r with inl e => inl (f e) | inr a => inr a end).
Definition when {S} (b : bool) (e : Err) : SE S unit := if b then throw e else mret tt.

Abbreviation M := (SE World).

(** ** Autocommit statements *)
Definition sql {A} (stmt : DB -> DB * (Err + A)) : M A := fun w =>
  let w1 := tick w in
  if fault w then (w1, inl ErrDriver)
  else let '(d, r) := stmt (w_db w1) in (set_db d w1, r).

(** [SelectContext]/[GetContext] *)
Definition query {A} (q : DB -> A) : M A := sql (fun d => (d, inr (q d))).
(** [fetchOne] / [normalizeNotFound] (store.go) *)
Definition fetchOne {A} (q : DB -> option A) : M A :=
  sql (fun d => (d, match q d with Some a => inr a | None => inl ErrNotFound end)).
(** [ExecContext] of a statement that may violate a constraint *)
Definition exec {A} (u : DB -> option (DB * A)) : M A :=
  sql (fun d => match u d with Some (d', a) => (d', inr a) | None => (d, inl ErrDriver) end).
Definition exec_ {A} (u : DB -> DB * A) : M A := exec (fun d => Some (u d)).

(** [time.Now()] and [s.now()] (store.go) *)
Definition time_now : M Z := fun w => (w, inr (w_clock w)).
Definition now : M Z := fun w => (w, inr (truncate_ms (w_clock w))).

(** [crypto/rand.Read] into a buffer of [len] bytes *)
Definition rand_bytes `{Env} (len : nat) : M string := fun w =>
  (set_draws (S (w_draws w)) w, inr (rand_read len (w_draws w))).

(** [newExternalID] *)
Definition newExternalID `{Env} (prefix : string) : M string :=
  buf ← rand_bytes 10; mret (prefix +:+ "_" +:+ hex_encode buf).

(** ** Transactions *)
Record Tx := mkTx { tx_world : World; tx_err : option Err; tx_locks : list RowLock; tx_done : bool }.
Abbreviation TxM := (SE Tx).

(** A statement on the transaction; its outcome is a value. *)
Definition tx_sql {A} (stmt : M A) : TxM (Err + A) := fun t =>
  let '(w', r) := stmt (tx_world t) in (mkTx w' (tx_err t) (tx_locks t) (tx_done t), inr r).

(** Computation in the transaction that is no statement (clock, random ids). *)
Definition tx_lift {A} (m : M A) : TxM A := fun t =>
  let '(w', r) := m (tx_world t) in (mkTx w' (tx_err t) (tx_locks t) (tx_done t), r).

Definition set_err (o : option Err) : TxM unit :=
  fun t => (mkTx (tx_world t) o (tx_locks t) (tx_done t), inr tt).

(** [x, err = stmt] *)
Definition assign {A} (stmt : M A) : TxM (Err + A) :=
  r ← tx_sql stmt;
  _ ← set_err (match r with inl e => Some e | inr _ => None end);
  mret r.

(** [if x, err = stmt; err != nil { return nil, f(err) }] *)
Definition check {A} (f : Err -> Err) (stmt : M A) : TxM A :=
  r ← assign stmt; match r with inl e => throw (f e) | inr a => mret a end.

(** [x, execErr := stmt; if execErr != nil { err = f(execErr); return nil, err }] *)
Definition check_exec {A} (f : Err -> Err) (stmt : M A) : TxM A :=
  r ← tx_sql stmt;
  match r with inl e => _ ← set_err (Some (f e)); throw (f e) | inr a => mret a end.

(** A row read with [SELECT ... FOR UPDATE]: waits for the lock, so it
    times out when an unfinished transaction holds it. *)
Definition locked (k : RowLock) (w : World) : bool := existsb (fun l => bool_decide (k ∈ l)) (w_leaked w).

Definition fetch_for_update {A} (k : A -> RowLock) (q : DB -> option A) : M A := fun w =>
  let w1 := tick w in
  if fault w then (w1, inl ErrDriver)
  else match q (w_db w1) with
       | None => (w1, inl ErrNotFound)
       | Some a => if locked (k a) w then (w1, inl ErrLockWait) else (w1, inr a)
       end.

Definition add_lock (k : RowLock) : TxM unit :=
  fun t => (mkTx (tx_world t) (tx_err t) (k :: tx_locks t) (tx_done t), inr tt).

(** [err = fetchOne(ctx, tx, "... FOR UPDATE", ...)] *)
Definition assign_for_update {A} (k : A -> RowLock) (q : DB -> option A) : TxM (Err + A) :=
  r ← assign (fetch_for_update k q);
  match r with inr a => _ ← add_lock (k a); mret r | inl _ => mret r end.

Definition check_for_update {A} (f : Err -> Err) (k : A -> RowLock) (q : DB -> option A) : TxM A :=
  r ← assign_for_update k q; match r with inl e => throw (f e) | inr a => mret a end.

(** [tx.Commit()]; [err] receives its outcome in the [err = tx.Commit()] form. *)
Definition mark_done : TxM unit := fun t => (mkTx (tx_world t) (tx_err t) (tx_locks t) true, inr tt).
Definition commit (f : Err -> Err) : TxM unit :=
  _ ← check f (query (fun _ => tt)); mark_done.
Definition commit_exec (f : Err -> Err) : TxM unit :=
  _ ← check_exec f (query (fun _ => tt)); mark_done.

(** The context of the call: [context.Background()] for libp2p streams,
    the request context for HTTP, whose cancellation at the end of the
    request makes [database/sql] roll back a transaction left open. *)
Inductive Ctx := Background | RequestCtx.

(** [BeginTxx], the body, and the deferred function. *)
Definition finish (ctx : Ctx) (w : World) (t : Tx) : World :=
  if tx_done t then tx_world t
  else let w' := set_db (w_db w) (tx_world t) in
       match tx_err t, ctx with
       | None, Background => set_leaked (tx_locks t :: w_leaked w') w'
       | _, _ => w'
       end.

Definition run_tx {A} (ctx : Ctx) (f : Err -> Err) (body : TxM A) : M A := fun w =>
  let w1 := tick w in
  if fault w then (w1, inl (f ErrDriver))
  else let '(t, r) := body (mkTx w1 None [] false) in (finish ctx w1 t, r).

(** ** Weakest preconditions *)
Definition wp {S A} (m : SE S A) (s : S) (Q : S -> Err + A -> Prop) : Prop := Q (m s).1 (m s).2.

Section wp_rules.
Context {S : Type}.
Implicit Types (s : S).

Lemma wp_mono {A} (m : SE S A) s (P Q : S -> Err + A -> Prop) :
  wp m s P -> (forall s' r, P s' r -> Q s' r) -> wp m s Q.
Proof. unfold wp. auto. Qed.

Lemma wp_ret {A} (a : A) s Q : Q s (inr a) -> wp (mret a : SE S A) s Q.
Proof. done. Qed.

Lemma wp_throw {A} e s (Q : S -> Err + A -> Prop) : Q s (inl e) -> wp (throw e) s Q.
Proof. done. Qed.

Lemma wp_bind {A B} (m : SE S A) (k : A -> SE S B) s Q :
  wp m s (fun s' r => match r with inl e => Q s' (inl e) | inr a => wp (k a) s' Q end) ->
  wp (m ≫= k) s Q.
Proof. unfold wp, mbind, SE_bind. destruct (m s) as [s' [e|a]]; done. Qed.

Lemma wp_try {A} (m : SE S A) s Q : wp m s (fun s' r => Q s' (inr r)) -> wp (try m) s Q.
Proof. unfold wp, try. destruct (m s) as [s' r]; done. Qed.

Lemma wp_map_err {A} f (m : SE S A) s (Q : S -> Err + A -> Prop) :
  wp m s (fun s' r => Q s' (match r with inl e => inl (f e) | inr a => inr a end)) ->
  wp (map_err f m) s Q.
Proof. unfold wp, map_err. destruct (m s) as [s' [e|a]]; done. Qed.

Lemma wp_when b e s (Q : S -> Err + unit -> Prop) :
  (b = true -> Q s (inl e)) -> (b = false -> Q s (inr tt)) -> wp (when b e) s Q.
Proof. destruct b; unfold when; intros; [apply wp_throw|apply wp_ret]; auto. Qed.
End wp_rules.

Section wp_store.
Context {A : Type}.
Implicit Types (w : World) (t : Tx).

Lemma wp_sql (stmt : DB -> DB * (Err + A)) w Q :
  (fault w = true -> Q (tick w) (inl ErrDriver)) ->
  (fault w = false -> Q (set_db (stmt (w_db w)).1 (tick w)) (stmt (w_db w)).2) ->
  wp (sql stmt) w Q.
Proof.
  unfold wp, sql. destruct (fault w); simpl; [auto|].
  destruct (stmt (w_db w)); simpl; auto.
Qed.

Lemma wp_query (q : DB -> A) w Q :
  (fault w = true -> Q (tick w) (inl ErrDriver)) ->
  (fault w = false -> Q (tick w) (inr (q (w_db w)))) ->
  wp (query q) w Q.
Proof. intros ??. by apply wp_sql. Qed.

Lemma wp_fetchOne (q : DB -> option A) w Q :
  (fault w = true -> Q (tick w) (inl ErrDriver)) ->
  (fault w = false -> q (w_db w) = None -> Q (tick w) (inl ErrNotFound)) ->
  (forall a, fault w = false -> q (w_db w) = Some a -> Q (tick w) (inr a)) ->
  wp (fetchOne q) w Q.
Proof. intros H1 H2 H3. apply wp_sql; [done|]. simpl. intros. destruct (q (w_db w)) eqn:E; auto. Qed.

Lemma wp_exec (u : DB -> option (DB * A)) w Q :
  (fault w = true -> Q (tick w) (inl ErrDriver)) ->
  (fault w = false -> u (w_db w) = None -> Q (tick w) (inl ErrDriver)) ->
  (forall d a, fault w = false -> u (w_db w) = Some (d, a) -> Q (set_db d (tick w)) (inr a)) ->
  wp (exec u) w Q.
Proof.
  intros H1 H2 H3. apply wp_sql; [done|]. intros. destruct (u (w_db w)) as [[d a]|] eqn:E; simpl; auto.
Qed.

Lemma wp_exec_ (u : DB -> DB * A) w Q :
  (fault w = true -> Q (tick w) (inl ErrDriver)) ->
  (fault w = false -> Q (set_db (u (w_db w)).1 (tick w)) (inr (u (w_db w)).2)) ->
  wp (exec_ u) w Q.
Proof.
  intros H1 H2. apply wp_sql; [done|]. intros. destruct (u (w_db w)) as [d a]; simpl; auto.
Qed.

Lemma wp_fetch_for_update (k : A -> RowLock) (q : DB -> option A) w Q :
  (fault w = true -> Q (tick w) (inl ErrDriver)) ->
  (fault w = false -> q (w_db w) = None -> Q (tick w) (inl ErrNotFound)) ->
  (forall a, fault w = false -> q (w_db w) = Some a -> locked (k a) w = true -> Q (tick w) (inl ErrLockWait)) ->
  (forall a, fault w = false -> q (w_db w) = Some a -> locked (k a) w = false -> Q (tick w) (inr a)) ->
  wp (fetch_for_update k q) w Q.
Proof.
  unfold wp, fetch_for_update. intros H1 H2 H3 H4. destruct (fault w); simpl; [auto|].
  destruct (q (w_db w)) eqn:E; simpl; [|auto]. destruct (locked (k a) w) eqn:E'; simpl; eauto.
Qed.

Lemma wp_tx_sql (m : M A) t Q :
  wp m (tx_world t) (fun w' r => Q (mkTx w' (tx_err t) (tx_locks t) (tx_done t)) (inr r)) ->
  wp (tx_sql m) t Q.
Proof. unfold wp, tx_sql. destruct (m (tx_world t)). done. Qed.

Lemma wp_tx_lift (m : M A) t Q :
  wp m (tx_world t) (fun w' r => Q (mkTx w' (tx_err t) (tx_locks t) (tx_done t)) r) ->
  wp (tx_lift m) t Q.
Proof. unfold wp, tx_lift. destruct (m (tx_world t)). done. Qed.

Lemma wp_assign (m : M A) t Q :
  wp m (tx_world t) (fun w' r =>
    Q (mkTx w' (match r with inl e => Some e | inr _ => None end) (tx_locks t) (tx_done t)) (inr r)) ->
  wp (assign m) t Q.
Proof. unfold wp, assign, tx_sql, mbind, SE_bind. destruct (m (tx_world t)). done. Qed.

Lemma wp_check f (m : M A) t Q :
  wp m (tx_world t) (fun w' r =>
    match r with
    | inl e => Q (mkTx w' (Some e) (tx_locks t) (tx_done t)) (inl (f e))
    | inr a => Q (mkTx w' None (tx_locks t) (tx_done t)) (inr a)
    end) ->
  wp (check f m) t Q.
Proof.
  unfold wp, check, assign, tx_sql, mbind, SE_bind. destruct (m (tx_world t)) as [w' [e|a]]; done.
Qed.

Lemma wp_check_exec f (m : M A) t Q :
  wp m (tx_world t) (fun w' r =>
    match r with
    | inl e => Q (mkTx w' (Some (f e)) (tx_locks t) (tx_done t)) (inl (f e))
    | inr a => Q (mkTx w' (tx_err t) (tx_locks t) (tx_done t)) (inr a)
    end) ->
  wp (check_exec f m) t Q.
Proof.
  unfold wp, check_exec, tx_sql, mbind, SE_bind. destruct (m (tx_world t)) as [w' [e|a]]; done.
Qed.

Lemma wp_assign_for_update (k : A -> RowLock) (q : DB -> option A) t Q :
  wp (fetch_for_update k q) (tx_world t) (fun w' r =>
    match r with
    | inl e => Q (mkTx w' (Some e) (tx_locks t) (tx_done t)) (inr r)
    | inr a => Q (mkTx w' None (k a :: tx_locks t) (tx_done t)) (inr r)
    end) ->
  wp (assign_for_update k q) t Q.
Proof.
  unfold wp, assign_for_update, assign, tx_sql, mbind, SE_bind.
  destruct (fetch_for_update k q (tx_world t)) as [w' [e|a]]; done.
Qed.

Lemma wp_check_for_update f (k : A -> RowLock) (q : DB -> option A) t Q :
  wp (fetch_for_update k q) (tx_world t) (fun w' r =>
    match r with
    | inl e => Q (mkTx w' (Some e) (tx_locks t) (tx_done t)) (inl (f e))
    | inr a => Q (mkTx w' None (k a :: tx_locks t) (tx_done t)) (inr a)
    end) ->
  wp (check_for_update f k q) t Q.
Proof.
  unfold wp, check_for_update, assign_for_update, assign, tx_sql, mbind, SE_bind.
  destruct (fetch_for_update k q (tx_world t)) as [w' [e|a]]; done.
Qed.

Lemma wp_run_tx ctx f (body : TxM A) w Q :
  (fault w = true -> Q (tick w) (inl (f ErrDriver))) ->
  (fault w = false -> wp body (mkTx (tick w) None [] false) (fun t r => Q (finish ctx (tick w) t) r)) ->
  wp (run_tx ctx f body) w Q.
Proof.
  unfold wp, run_tx. intros H1 H2. destruct (fault w); simpl; [auto|].
  specialize (H2 eq_refl). destruct (body _). done.
Qed.
End wp_store.

Lemma wp_commit f t Q :
  (fault (tx_world t) = true -> Q (mkTx (tick (tx_world t)) (Some ErrDriver) (tx_locks t) (tx_done t)) (inl (f ErrDriver))) ->
  (fault (tx_world t) = false -> Q (mkTx (tick (tx_world t)) None (tx_locks t) true) (inr tt)) ->
  wp (commit f) t Q.
Proof. intros H1 H2. apply wp_bind, wp_check, wp_query; auto. Qed.

Lemma wp_commit_exec f t Q :
  (fault (tx_world t) = true -> Q (mkTx (tick (tx_world t)) (Some (f ErrDriver)) (tx_locks t) (tx_done t)) (inl (f ErrDriver))) ->
  (fault (tx_world t) = false -> Q (mkTx (tick (tx_world t)) (tx_err t) (tx_locks t) true) (inr tt)) ->
  wp (commit_exec f) t Q.
Proof. intros H1 H2. apply wp_bind, wp_check_exec, wp_query; auto. Qed.

Lemma wp_now w Q : Q w (inr (truncate_ms (w_clock w))) -> wp now w Q.
Proof. done. Qed.
Lemma wp_time_now w Q : Q w (inr (w_clock w)) -> wp time_now w Q.
Proof. done. Qed.
Lemma wp_newExternalID `{Env} prefix w Q :
  Q (set_draws (S (w_draws w)) w) (inr (prefix +:+ "_" +:+ hex_encode (rand_read 10 (w_draws w)))) ->
  wp (newExternalID prefix) w Q.
Proof. done. Qed.

(** ** What every statement leaves alone

    The clock, the files and the unfinished transactions; and statements
    of a fault-free run stay fault-free. *)
Record frame (w w' : World) : Prop := mkFrame {
  fr_clock : w_clock w' = w_clock w;
  fr_leaked : w_leaked w' = w_leaked w;
  fr_files : w_files w' = w_files w;
  fr_faults : w_faults w = [] -> w_faults w' = [] }.

#[export] Instance frame_preorder : PreOrder frame.
Proof.
  split; [by intros w; split|].
  intros w1 w2 w3 [] []. split; congruence || auto.
Qed.
Lemma frame_tick w : frame w (tick w).
Proof. split; simpl; try done. by intros ->. Qed.
Lemma frame_set_db d w : frame w (set_db d w).
Proof. done. Qed.
Lemma frame_set_draws n w : frame w (set_draws n w).
Proof. done. Qed.
Lemma frame_trans w1 w2 w3 : frame w1 w2 -> frame w2 w3 -> frame w1 w3.
Proof. intros. by etrans. Qed.
Lemma fault_healthy w : w_faults w = [] -> fault w = false.
Proof. unfold fault. by intros ->. Qed.

Lemma frame_fault w w' : frame w w' -> fault w' = true -> w_faults w <> [].
Proof. intros [_ _ _ Hf] Hx E. by rewrite fault_healthy in Hx by auto. Qed.

(** A finished or rolled-back transaction. *)
Lemma finish_done ctx w t : tx_done t = true -> finish ctx w t = tx_world t.
Proof. unfold finish. by intros ->. Qed.

Ltac solve_frame :=
  lazymatch goal with
  | |- frame ?w ?w => reflexivity
  | H : frame _ ?w |- frame _ ?w => etrans; [|exact H]; solve_frame
  | |- frame _ (tick _) => etrans; [|apply frame_tick]; solve_frame
  | |- frame _ (set_db _ _) => etrans; [|apply frame_set_db]; solve_frame
  | |- frame _ (set_draws _ _) => etrans; [|apply frame_set_draws]; solve_frame
  end.

(** A failing statement contradicts a fault-free world. *)
Ltac solve_fault :=
  match goal with
  | H : fault ?w' = true |- w_faults _ <> [] => apply (frame_fault _ w'); [solve_frame|exact H]
  | H : fault ?w' = true, H0 : w_faults ?w = [] |- _ =>
    exfalso; refine (frame_fault w w' _ H H0); solve_frame
  end.

(** One rule per primitive, chosen by the head of the program. *)
Ltac wp_step :=
  lazymatch goal with
  | |- wp (mbind _ _) _ _ => apply wp_bind
  | |- wp (mret _) _ _ => apply wp_ret
  | |- wp (throw _) _ _ => apply wp_throw
  | |- wp (when _ _) _ _ => apply wp_when; intros ?
  | |- wp (try _) _ _ => apply wp_try
  | |- wp (map_err _ _) _ _ => apply wp_map_err
  | |- wp (query _) _ _ => apply wp_query; intros ?
  | |- wp (fetchOne _) _ _ => apply wp_fetchOne; intros
  | |- wp (exec _) _ _ => apply wp_exec; intros
  | |- wp (exec_ _) _ _ => apply wp_exec_; intros
  | |- wp (fetch_for_update _ _) _ _ => apply wp_fetch_for_update; intros
  | |- wp (tx_sql _) _ _ => apply wp_tx_sql
  | |- wp (tx_lift _) _ _ => apply wp_tx_lift
  | |- wp (assign _) _ _ => apply wp_assign
  | |- wp (check _ _) _ _ => apply wp_check
  | |- wp (check_exec _ _) _ _ => apply wp_check_exec
  | |- wp (assign_for_update _ _) _ _ => apply wp_assign_for_update
  | |- wp (check_for_update _ _ _) _ _ => apply wp_check_for_update
  | |- wp (commit _) _ _ => apply wp_commit; intros ?
  | |- wp (commit_exec _) _ _ => apply wp_commit_exec; intros ?
  | |- wp (run_tx _ _ _) _ _ => apply wp_run_tx; intros ?
  | |- wp now _ _ => apply wp_now
  | |- wp time_now _ _ => apply wp_time_now
  | |- wp (newExternalID _) _ _ => apply wp_newExternalID
  | |- wp (if ?b then _ else _) _ _ => destruct b eqn:?
  | |- wp (match ?x with _ => _ end) _ _ => destruct x eqn:?
  end; cbv beta iota; cbn [tx_world tx_err tx_locks tx_done finish w_db set_db tick w_leaked
    w_faults w_clock set_leaked set_draws fst snd] in *.

(** ** Committed effects *)
(** The committed database is as before, or changed by [P]. *)
Definition unchanged_or (P : DB -> DB -> Prop) (w w' : World) : Prop :=
  w_db w' = w_db w \/ P (w_db w) (w_db w').

Lemma finish_unchanged ctx w t : tx_done t = false -> w_db (finish ctx w t) = w_db w.
Proof. unfold finish. intros ->. by destruct (tx_err t), ctx. Qed.

(** A branch that ends without a commit leaves the database as it was. *)
Ltac unchanged :=
  left; first [ cbn; repeat case_match; done | by rewrite finish_unchanged ].
(** A committed branch: [tac] applies the constructor that describes it. *)
Ltac effect tac :=
  right; repeat match goal with H : w_db _ = _ |- _ => rewrite H; clear H end; bools; tac; eauto with mesh.

(** ** Methods that keep a relation between the databases before and after

    With [R := eq] a method only reads; with [R := keeping I] it preserves
    the invariant [I].  The rules are the hint database [keeps]. *)
Definition keeps {A} (R : DB -> DB -> Prop) (m : M A) : Prop :=
  forall w, wp m w (fun w' _ => R (w_db w) (w_db w')).
Definition keeping (I : DB -> Prop) (d d' : DB) : Prop := I d -> I d'.

#[export] Instance keeping_preorder I : PreOrder (keeping I).
Proof. split; [by intros d Hd|]. intros d1 d2 d3 H1 H2 Hd. by apply H2, H1. Qed.

Create HintDb keeps.

Section keeps.
Context (R : DB -> DB -> Prop) `{!PreOrder R}.

Lemma keeps_ret {A} (a : A) : keeps R (mret a).
Proof. intros w. apply wp_ret. reflexivity. Qed.
Lemma keeps_throw {A} e : keeps R (throw e : M A).
Proof. intros w. apply wp_throw. reflexivity. Qed.
Lemma keeps_bind {A B} (m : M A) (k : A -> M B) :
  keeps R m -> (forall a, keeps R (k a)) -> keeps R (m ≫= k).
Proof.
  intros Hm Hk w. apply wp_bind. eapply wp_mono; [apply Hm|]. simpl. intros w1 [e|a] H1; [done|].
  eapply wp_mono; [apply Hk|]. simpl. intros w2 r H2. by etrans.
Qed.
Lemma keeps_try {A} (m : M A) : keeps R m -> keeps R (try m).
Proof. intros Hm w. apply wp_try. apply Hm. Qed.
Lemma keeps_map_err {A} f (m : M A) : keeps R m -> keeps R (map_err f m).
Proof. intros Hm w. apply wp_map_err. eapply wp_mono; [apply Hm|]. done. Qed.
Lemma keeps_when b e : keeps R (when b e).
Proof. unfold when. destruct b; [apply keeps_throw|apply keeps_ret]. Qed.
Lemma keeps_query {A} (q : DB -> A) : keeps R (query q).
Proof. intros w. apply wp_query; reflexivity. Qed.
Lemma keeps_fetchOne {A} (q : DB -> option A) : keeps R (fetchOne q).
Proof. intros w. apply wp_fetchOne; reflexivity. Qed.
Lemma keeps_now : keeps R now.
Proof. intros w. apply wp_now. reflexivity. Qed.
Lemma keeps_time_now : keeps R time_now.
Proof. intros w. apply wp_time_now. reflexivity. Qed.
Lemma keeps_rand_bytes `{Env} n : keeps R (rand_bytes n).
Proof. intros w. unfold wp. simpl. reflexivity. Qed.
Lemma keeps_newExternalID `{Env} p : keeps R (newExternalID p).
Proof. intros w. apply wp_newExternalID. reflexivity. Qed.

(** A statement keeps what its function on the database keeps. *)
Lemma keeps_exec {A} (u : DB -> option (DB * A)) :
  (forall d d' a, u d = Some (d', a) -> R d d') -> keeps R (exec u).
Proof. intros Hu w. apply wp_exec; try reflexivity. simpl. intros d a _ E. by eapply Hu. Qed.
Lemma keeps_exec_ {A} (u : DB -> DB * A) : (forall d, R d (u d).1) -> keeps R (exec_ u).
Proof. intros Hu w. apply wp_exec_; simpl; [reflexivity|]. auto. Qed.

(** A transaction keeps what its committed effects keep. *)
Lemma keeps_effect {A} (P : DB -> DB -> Prop) (m : M A) :
  (forall d d', P d d' -> R d d') -> (forall w, wp m w (fun w' _ => unchanged_or P w w')) -> keeps R m.
Proof.
  intros HP Hm w. eapply wp_mono; [apply Hm|]. simpl. intros w' _ [->|HPx]; [reflexivity|auto].
Qed.
End keeps.

#[export] Hint Resolve keeps_ret keeps_throw keeps_when keeps_query keeps_fetchOne keeps_now keeps_time_now
  keeps_rand_bytes keeps_newExternalID : keeps.

(** Walks through a method; what is left is its writing statements. *)
Ltac solve_keeps :=
  repeat match goal with
  | |- keeps _ (mbind _ _) => apply keeps_bind; [apply _| |intros ?]
  | |- keeps _ (try _) => apply keeps_try
  | |- keeps _ (map_err _ _) => apply keeps_map_err
  | |- keeps _ (let '(_, _) := ?x in _) => destruct x
  | |- keeps _ (if ?b then _ else _) => destruct b
  | |- keeps _ (match ?x with _ => _ end) => destruct x
  | |- keeps _ _ => solve [eauto with keeps typeclass_instances]
  end.

(** ** Runs without faults: each primitive as an equation *)
Section calm.
Context {A : Type} (w : World) (Hw : w_faults w = []).

Lemma tick_calm : tick w = w.
Proof. destruct w. simpl in *. unfold tick. simpl. by rewrite Hw. Qed.
Lemma query_calm (q : DB -> A) : query q w = (w, inr (q (w_db w))).
Proof. unfold query, sql. rewrite (fault_healthy w Hw), tick_calm. by destruct w. Qed.
Lemma fetchOne_calm (q : DB -> option A) :
  fetchOne q w = (w, match q (w_db w) with Some a => inr a | None => inl ErrNotFound end).
Proof. unfold fetchOne, sql. rewrite (fault_healthy w Hw), tick_calm. by destruct w. Qed.
Lemma exec_calm (u : DB -> option (DB * A)) :
  exec u w = match u (w_db w) with Some (d, a) => (set_db d w, inr a) | None => (w, inl ErrDriver) end.
Proof.
  unfold exec, sql. rewrite (fault_healthy w Hw), tick_calm. destruct (u (w_db w)) as [[d a]|]; [done|]. by destruct w.
Qed.
Lemma exec__calm (u : DB -> DB * A) : exec_ u w = (set_db (u (w_db w)).1 w, inr (u (w_db w)).2).
Proof. unfold exec_. rewrite exec_calm. by destruct (u (w_db w)). Qed.
Lemma run_tx_calm ctx f (body : TxM A) :
  run_tx ctx f body w = (finish ctx w (body (mkTx w None [] false)).1, (body (mkTx w None [] false)).2).
Proof. unfold run_tx. rewrite (fault_healthy w Hw), tick_calm. by destruct (body _). Qed.
Lemma fetch_for_update_calm (Hl : w_leaked w = []) (k : A -> RowLock) (q : DB -> option A) :
  fetch_for_update k q w = (w, match q (w_db w) with Some a => inr a | None => inl ErrNotFound end).
Proof.
  unfold fetch_for_update. rewrite (fault_healthy w Hw), tick_calm. destruct (q (w_db w)); [|done].
  unfold locked. by rewrite Hl.
Qed.
End calm.

Lemma bind_run {S A B} (m : SE S A) (k : A -> SE S B) s s' a : m s = (s', inr a) -> (m ≫= k) s = k a s'.
Proof. unfold mbind, SE_bind. by intros ->. Qed.
Lemma bind_fail {S A B} (m : SE S A) (k : A -> SE S B) s s' e : m s = (s', inl e) -> (m ≫= k) s = (s', inl e).
Proof. unfold mbind, SE_bind. by intros ->. Qed.
Lemma map_err_run {S A} f (m : SE S A) s s' a : m s = (s', inr a) -> map_err f m s = (s', inr a).
Proof. unfold map_err. by intros ->. Qed.

(** Transactions without faults. *)
Lemma run_tx_commit {A} ctx f (body : TxM A) w t a :
  w_faults w = [] -> body (mkTx w None [] false) = (t, inr a) -> tx_done t = true ->
  run_tx ctx f body w = (tx_world t, inr a).
Proof. intros Hw E Hd. rewrite run_tx_calm by done. rewrite E. simpl. by rewrite finish_done. Qed.
Section tx_calm.
Context {A : Type} (w : World) (e : option Err) (ls : list RowLock) (b : bool) (Hw : w_faults w = []).
Lemma check_exec_calm f (u : DB -> option (DB * A)) d a :
  u (w_db w) = Some (d, a) -> check_exec f (exec u) (mkTx w e ls b) = (mkTx (set_db d w) e ls b, inr a).
Proof. intros E. unfold check_exec, tx_sql, mbind, SE_bind. simpl. by rewrite exec_calm, E. Qed.
Lemma check_exec__calm f (u : DB -> DB * A) :
  check_exec f (exec_ u) (mkTx w e ls b) = (mkTx (set_db (u (w_db w)).1 w) e ls b, inr (u (w_db w)).2).
Proof. apply check_exec_calm. by destruct (u (w_db w)). Qed.
Lemma assign_fetch_found (q : DB -> option A) a :
  q (w_db w) = Some a -> assign (fetchOne q) (mkTx w e ls b) = (mkTx w None ls b, inr (inr a)).
Proof. intros E. unfold assign, tx_sql, mbind, SE_bind. simpl. by rewrite fetchOne_calm, E. Qed.
Lemma assign_fetch_missing (q : DB -> option A) :
  q (w_db w) = None -> assign (fetchOne q) (mkTx w e ls b) = (mkTx w (Some ErrNotFound) ls b, inr (inl ErrNotFound)).
Proof. intros E. unfold assign, tx_sql, mbind, SE_bind. simpl. by rewrite fetchOne_calm, E. Qed.
Lemma check_for_update_calm (Hl : w_leaked w = []) f k (q : DB -> option A) a :
  q (w_db w) = Some a -> check_for_update f k q (mkTx w e ls b) = (mkTx w None (k a :: ls) b, inr a).
Proof.
  intros E. unfold check_for_update, assign_for_update, assign, tx_sql, mbind, SE_bind. simpl.
  by rewrite fetch_for_update_calm, E.
Qed.
Lemma commit_calm f : commit f (mkTx w e ls b) = (mkTx w None ls true, inr tt).
Proof. unfold commit, check, assign, tx_sql, mbind, SE_bind. simpl. by rewrite query_calm. Qed.
Lemma commit_exec_calm f : commit_exec f (mkTx w e ls b) = (mkTx w e ls true, inr tt).
Proof. unfold commit_exec, check_exec, tx_sql, mbind, SE_bind. simpl. by rewrite query_calm. Qed.
Lemma tx_lift_run (m : M A) w' a : m w = (w', inr a) -> tx_lift m (mkTx w e ls b) = (mkTx w' e ls b, inr a).
Proof. unfold tx_lift. simpl. by intros ->. Qed.
End tx_calm.
(** One step of a computation that goes on. *)
Tactic Notation "proceed" uconstr(H) := etrans; [eapply bind_run, H|]; cbv beta iota.
