(* ===== verification/SpaceRepo.v ===== *)
(** * Space repository: [internal/repository/mysql/server.go]

    Spaces (table [servers]) and their members (table [server_members]).
    Every mutating method is one transaction that first locks the space
    row; [refreshAggregateCounts] (bootstrap.go) recomputes the stored
    counters before the commit. *)
From S2P Require Import Prelude Go Schema Store.

(** ** Row access and statements *)
Definition server_by_id (sid : Z) (d : DB) : option ServerRow :=
  first_where (fun s => s_id s =? sid) (rows (servers d)).
Definition is_member (sid uid : Z) (m : MemberRow) : bool :=
  (sm_space_id m =? sid) && (sm_user_id m =? uid).
Definition member_row (sid uid : Z) (d : DB) : option MemberRow :=
  first_where (is_member sid uid) (rows (server_members d)).

Definition coalesce (o : option string) : string := default "" o.

Definition to_space (s : ServerRow) : Space :=
  mkSpace (s_id s) (s_host_node_id s) (s_owner_user_id s) (s_name s) (coalesce (s_avatar_url s))
    (coalesce (s_description s)) (s_visibility s) (s_member_count s) (s_channel_count s)
    (s_allow_channel_creation s) (s_status s) (s_created_at s) (s_updated_at s).

Definition insert_member (sid uid : Z) (role : Role) (banned : bool) (t : Z) (d : DB) : option (DB * Z) :=
  '(tbl, id) ← insert_row max_u64 (is_member sid uid)
     (fun id => mkMemberRow id sid uid role None false banned t (Some t) t t) (server_members d);
  Some (set_server_members (fun _ => tbl) d, id).

Definition update_member (sid uid : Z) (f : MemberRow -> MemberRow) (d : DB) : DB * unit :=
  (set_server_members (update_rows (is_member sid uid) f) d, tt).
Definition delete_member (sid uid : Z) (d : DB) : DB * unit :=
  (set_server_members (delete_rows (is_member sid uid)) d, tt).
Definition update_server (sid : Z) (f : ServerRow -> ServerRow) (d : DB) : DB * unit :=
  (set_servers (update_rows (fun s => s_id s =? sid) f) d, tt).

Definition with_role (role : Role) (t : Z) (m : MemberRow) : MemberRow :=
  mkMemberRow (sm_id m) (sm_space_id m) (sm_user_id m) role (sm_nickname m) (sm_is_muted m)
    (sm_is_banned m) (sm_joined_at m) (sm_last_seen_at m) (sm_created_at m) t.
Definition with_ban (banned : bool) (t : Z) (m : MemberRow) : MemberRow :=
  mkMemberRow (sm_id m) (sm_space_id m) (sm_user_id m) (sm_role m) (sm_nickname m) (sm_is_muted m)
    banned (sm_joined_at m) (sm_last_seen_at m) (sm_created_at m) t.
Definition with_owner (uid t : Z) (s : ServerRow) : ServerRow :=
  mkServerRow (s_id s) (s_host_node_id s) uid (s_name s) (s_avatar_url s) (s_description s)
    (s_visibility s) (s_allow_channel_creation s) (s_member_count s) (s_channel_count s)
    (s_status s) (s_created_at s) t.
Definition with_allow (allow : bool) (t : Z) (s : ServerRow) : ServerRow :=
  mkServerRow (s_id s) (s_host_node_id s) (s_owner_user_id s) (s_name s) (s_avatar_url s)
    (s_description s) (s_visibility s) allow (s_member_count s) (s_channel_count s)
    (s_status s) (s_created_at s) t.
Definition with_counts (mc cc t : Z) (s : ServerRow) : ServerRow :=
  mkServerRow (s_id s) (s_host_node_id s) (s_owner_user_id s) (s_name s) (s_avatar_url s)
    (s_description s) (s_visibility s) (s_allow_channel_creation s) mc cc
    (s_status s) (s_created_at s) t.
Definition with_channel_counts (n t : Z) (c : ChannelRow) : ChannelRow :=
  mkChannelRow (c_id c) (c_space_id c) (c_type c) (c_name c) (c_description c) (c_visibility c)
    (c_slow_mode_seconds c) (c_auto_delete_after_seconds c) (c_message_seq c) (c_message_count c)
    n n (c_created_by c) (c_status c) (c_sort_order c) (c_created_at c) t.

(** ** [refreshAggregateCounts] *)
Definition active_member (sid : Z) (m : MemberRow) : bool :=
  (sm_space_id m =? sid) && negb (sm_is_banned m).
Definition active_channel (sid : Z) (c : ChannelRow) : bool :=
  (c_space_id c =? sid) && (c_status c =? 1).
Definition member_count (sid : Z) (d : DB) : Z := count_where (active_member sid) (rows (server_members d)).
Definition channel_count (sid : Z) (d : DB) : Z := count_where (active_channel sid) (rows (channels d)).
Definition channel_member_count (cid : Z) (d : DB) : Z :=
  count_where (fun cm => cm_channel_id cm =? cid) (rows (channel_members d)).

Definition refresh_server_counts (sid t : Z) (d : DB) : DB * unit :=
  update_server sid (with_counts (member_count sid d) (channel_count sid d) t) d.
Definition refresh_channel_counts (sid t : Z) (d : DB) : DB * unit :=
  (set_channels (update_rows (fun c => c_space_id c =? sid)
     (fun c => with_channel_counts (channel_member_count (c_id c) d) t c)) d, tt).

Definition refreshAggregateCounts (sid : Z) : M unit :=
  t ← now;
  _ ← map_err (wrap "refresh server counts") (exec_ (refresh_server_counts sid t));
  map_err (wrap "refresh channel counts") (exec_ (refresh_channel_counts sid t)).

Section repo.
Context `{Env}.

(** ** Reads *)
Definition spaces_of_user (uid : Z) (d : DB) : list ServerRow :=
  s ← rows (servers d);
  sm ← rows (server_members d);
  if (sm_space_id sm =? s_id s) && (sm_user_id sm =? uid) && negb (sm_is_banned sm) && (s_status s =? 1)
  then [s] else [].

Definition by_name (a b : ServerRow) : Prop := sql_le (s_name a) (s_name b).
#[export] Instance by_name_dec a b : Decision (by_name a b).
Proof. unfold by_name, sql_le. apply _. Defined.

Definition ListByUserID (uid : Z) : M (list Space) :=
  map_err (wrap "list spaces by user id")
    (query (fun d => to_space <$> merge_sort by_name (spaces_of_user uid d))).

Definition GetBySpaceID (sid : Z) : M Space := fetchOne (fun d => to_space <$> server_by_id sid d).

Definition role_of (sid uid : Z) (d : DB) : option Role :=
  _ ← server_by_id sid d;
  sm_role <$> first_where (fun m => is_member sid uid m && negb (sm_is_banned m)) (rows (server_members d)).

Definition GetMemberRole (sid uid : Z) : M Role := fetchOne (role_of sid uid).

Definition CanCreateGroup (sid uid : Z) : M bool :=
  map_err (wrap "check create group permission")
    (query (fun d => 0 <? zlen (
      s ← where_ (fun s => s_id s =? sid) (rows (servers d));
      sm ← rows (server_members d);
      if is_member sid uid sm && negb (sm_is_banned sm) && (s_status s =? 1)
         && ((sm_role sm =@ RoleOwner) || (sm_role sm =@ RoleAdmin)) && s_allow_channel_creation s
      then [tt] else []))).

(** ** [CreateSpace] *)
Record CreateSpaceInput := mkCreateSpaceInput {
  csi_HostNodeID : Z; csi_CreatorUserID : Z; csi_Name : string; csi_Description : string;
  csi_Visibility : Visibility; csi_AllowChannelCreation : bool }.

Definition insert_server (i : CreateSpaceInput) (name : string) (t : Z) (d : DB) : option (DB * Z) :=
  '(tbl, id) ← insert_row max_u32 (fun _ => false)
     (fun id => mkServerRow id (csi_HostNodeID i) (csi_CreatorUserID i) name None
        (Some (TrimSpace (csi_Description i))) (csi_Visibility i) (csi_AllowChannelCreation i)
        1 0 1 t t) (servers d);
  Some (set_servers (fun _ => tbl) d, id).

Definition CreateSpace (ctx : Ctx) (i : CreateSpaceInput) : M Space :=
  let name := TrimSpace (csi_Name i) in
  _ ← when (name =@ ""%string) (Errorf "create space: name is required");
  _ ← when (negb (visibility_enum (csi_Visibility i))) 
        (Errorf ("create space: unsupported visibility " +:+ Quote (visibility_text (csi_Visibility i))));
  spaceDBID ← run_tx ctx (wrap "begin create space tx") (
    t ← tx_lift now;
    spaceDBID64 ← check (wrap "insert space") (exec (insert_server i name t));
    let spaceDBID := u32 spaceDBID64 in
    _ ← check (wrap "insert space owner membership")
          (exec (insert_member spaceDBID (csi_CreatorUserID i) RoleOwner false t));
    _ ← check id (refreshAggregateCounts spaceDBID);
    _ ← commit (wrap "commit create space tx");
    mret spaceDBID);
  GetBySpaceID spaceDBID.

(** ** Membership changes *)
Definition lock_server (s : ServerRow) : RowLock := LockServer (s_id s).
Definition lock_member (m : MemberRow) : RowLock := LockMember (sm_id m).

Definition addSpaceMember (ctx : Ctx) (spaceID userID : Z) (publicOnly : bool) : M Space :=
  sid ← run_tx ctx (wrap "begin add space member tx") (
    spaceRow ← check_for_update (wrap "load space for member add") lock_server (server_by_id spaceID);
    existing ← assign_for_update lock_member (member_row (s_id spaceRow) userID);
    match existing with
    | inr m =>
      if sm_is_banned m then throw (Errorf "user is banned")
      else _ ← commit (wrap "commit add space member tx (existing)"); mret (s_id spaceRow)
    | inl e =>
      if negb (e =@ ErrNotFound) then throw (wrap "check existing space membership" e)
      else if publicOnly && negb (s_visibility spaceRow =@ VisibilityPublic)
      then throw (Errorf "space is private")
      else
        t ← tx_lift now;
        _ ← check (wrap "insert space membership")
              (exec (insert_member (s_id spaceRow) userID RoleMember false t));
        _ ← check id (refreshAggregateCounts (s_id spaceRow));
        _ ← commit (wrap "commit add space member tx");
        mret (s_id spaceRow)
    end);
  GetBySpaceID sid.

Definition JoinSpace (ctx : Ctx) (spaceID userID : Z) : M Space := addSpaceMember ctx spaceID userID true.
Definition InviteSpaceMember (ctx : Ctx) (spaceID targetUserID : Z) : M Space :=
  addSpaceMember ctx spaceID targetUserID false.

Definition KickSpaceMember (ctx : Ctx) (spaceID targetUserID : Z) : M Space :=
  sid ← run_tx ctx (wrap "begin kick space member tx") (
    spaceRow ← check_for_update (wrap "load space for kick") lock_server (server_by_id spaceID);
    if targetUserID =? s_owner_user_id spaceRow then throw (Errorf "current owner cannot be removed")
    else
      existing ← check_for_update (wrap "load target space membership") lock_member
                   (member_row (s_id spaceRow) targetUserID);
      if sm_is_banned existing then throw (Errorf "user is banned")
      else
        _ ← check (wrap "delete space membership") (exec_ (delete_member (s_id spaceRow) targetUserID));
        _ ← check id (refreshAggregateCounts (s_id spaceRow));
        _ ← commit (wrap "commit kick space member tx");
        mret (s_id spaceRow));
  GetBySpaceID sid.

Definition BanSpaceMember (ctx : Ctx) (spaceID targetUserID : Z) : M Space :=
  sid ← run_tx ctx (wrap "begin ban space member tx") (
    spaceRow ← check_for_update (wrap "load space for ban") lock_server (server_by_id spaceID);
    if targetUserID =? s_owner_user_id spaceRow then throw (Errorf "current owner cannot be banned")
    else
      existing ← assign_for_update lock_member (member_row (s_id spaceRow) targetUserID);
      t ← tx_lift now;
      let finish_ban :=
        _ ← check id (refreshAggregateCounts (s_id spaceRow));
        _ ← commit (wrap "commit ban space member tx");
        mret (s_id spaceRow) in
      match existing with
      | inr m =>
        if sm_is_banned m then
          _ ← commit (wrap "commit ban space member tx (existing banned)"); mret (s_id spaceRow)
        else
          _ ← check (wrap "mark space member banned")
                (exec_ (update_member (s_id spaceRow) targetUserID
                          (fun m => with_ban true t (with_role RoleMember t m))));
          finish_ban
      | inl e =>
        if e =@ ErrNotFound then
          _ ← check (wrap "insert banned space member")
                (exec (insert_member (s_id spaceRow) targetUserID RoleMember true t));
          finish_ban
        else throw (wrap "load target space membership" e)
      end);
  GetBySpaceID sid.

Definition UnbanSpaceMember (ctx : Ctx) (spaceID targetUserID : Z) : M Space :=
  sid ← run_tx ctx (wrap "begin unban space member tx") (
    spaceRow ← check_for_update (wrap "load space for unban") lock_server (server_by_id spaceID);
    if targetUserID =? s_owner_user_id spaceRow then throw (Errorf "current owner cannot be unbanned")
    else
      existing ← check_for_update (wrap "load target space membership") lock_member
                   (member_row (s_id spaceRow) targetUserID);
      if negb (sm_is_banned existing) then
        _ ← commit (wrap "commit unban space member tx (already unbanned)"); mret (s_id spaceRow)
      else
        t ← tx_lift now;
        _ ← check (wrap "mark space member unbanned")
              (exec_ (update_member (s_id spaceRow) targetUserID (with_ban false t)));
        _ ← check id (refreshAggregateCounts (s_id spaceRow));
        _ ← commit (wrap "commit unban space member tx");
        mret (s_id spaceRow));
  GetBySpaceID sid.

(** ** [ListSpaceMembers] *)
Definition user_by_id (uid : Z) (d : DB) : option UserRow :=
  first_where (fun u => u_id u =? uid) (rows (users d)).

Definition by_member_id (a b : MemberRow) : Prop := sm_id a <= sm_id b.
#[export] Instance by_member_id_dec a b : Decision (by_member_id a b).
Proof. unfold by_member_id. apply _. Defined.

Definition members_after (sid after : Z) (d : DB) : list MemberRow :=
  match server_by_id sid d with
  | Some s =>
    merge_sort by_member_id
      (where_ (fun sm => (sm_space_id sm =? sid) && (s_status s =? 1) && negb (sm_is_banned sm)
                         && (after <? sm_id sm) && bool_decide (is_Some (user_by_id (sm_user_id sm) d)))
              (rows (server_members d)))
  | None => []
  end.

Definition to_space_member (d : DB) (sm : MemberRow) : option SpaceMember :=
  u ← user_by_id (sm_user_id sm) d;
  Some (mkSpaceMember (sm_id sm) (u_user_id u) (u_display_name u) (coalesce (u_avatar_url u)) (sm_role sm)
    (coalesce (sm_nickname sm)) (sm_is_muted sm) (sm_is_banned sm) (sm_joined_at sm)
    (default (sm_joined_at sm) (sm_last_seen_at sm))).

Definition ListSpaceMembers (sid afterMemberID limit : Z) : M (list SpaceMember) :=
  let limit := if limit =? 0 then 20 else limit in
  map_err (wrap "list space members")
    (query (fun d => omap (to_space_member d) (take (Z.to_nat limit) (members_after sid afterMemberID d)))).

(** ** Settings *)
Definition SetSpaceAllowChannelCreation (ctx : Ctx) (spaceID : Z) (enabled : bool) : M unit :=
  run_tx ctx (wrap "begin update space allow-channel-creation tx") (
    spaceRow ← check_for_update (wrap "load space for allow-channel-creation update")
                 lock_server (server_by_id spaceID);
    t ← tx_lift now;
    _ ← check (wrap "update space allow-channel-creation")
          (exec_ (update_server (s_id spaceRow) (with_allow enabled t)));
    commit (wrap "commit update space allow-channel-creation tx")).

Definition role_text (r : Role) : string :=
  match r with
  | RoleOwner => "owner" | RoleAdmin => "admin" | RoleMember => "member"
  | RoleSubscriber => "subscriber" | RoleOther s => s
  end.

Definition SetSpaceMemberRole (ctx : Ctx) (spaceID targetUserID : Z) (role : Role) : M unit :=
  _ ← when (TrimSpace (role_text role) =@ ""%string) (Errorf "set member role: role is required");
  _ ← when (negb (role_enum role)) (Errorf ("set member role: unsupported role " +:+ Quote (role_text role)));
  run_tx ctx (wrap "begin update space member role tx") (
    spaceRow ← check_for_update (wrap "load space for member role update") lock_server (server_by_id spaceID);
    _ ← check_for_update (wrap "load target space membership") lock_member
          (member_row (s_id spaceRow) targetUserID);
    if (targetUserID =? s_owner_user_id spaceRow) && negb (role =@ RoleOwner)
    then throw (Errorf "current owner role cannot be changed directly")
    else
      t ← tx_lift now;
      _ ← (if role =@ RoleOwner then
             if negb (targetUserID =? s_owner_user_id spaceRow) then
               _ ← check (wrap "demote previous owner")
                     (exec_ (update_member (s_id spaceRow) (s_owner_user_id spaceRow) (with_role RoleAdmin t)));
               _ ← check (wrap "promote target owner")
                     (exec_ (update_member (s_id spaceRow) targetUserID (with_role RoleOwner t)));
               check (wrap "update space owner")
                 (exec_ (update_server (s_id spaceRow) (with_owner targetUserID t)))
             else
               check (wrap "refresh owner membership")
                 (exec_ (update_member (s_id spaceRow) targetUserID (with_role RoleOwner t)))
           else
             check (wrap "update member role")
               (exec_ (update_member (s_id spaceRow) targetUserID (with_role role t))));
      commit (wrap "commit update space member role tx")).
End repo.
