(* ===== verification/SpaceInv.v ===== *)
(** * Spaces: database effects of the repository methods and their invariant *)
From S2P Require Import Prelude Go Schema Store SpaceRepo.

Definition refresh (sid t : Z) (d : DB) : DB :=
  (refresh_channel_counts sid t (refresh_server_counts sid t d).1).1.

(** What a committed method does to the database. *)
Inductive space_effect `{Env} : DB -> DB -> Prop :=
| eff_create i t d d1 d2 sid mid :
    TrimSpace (csi_Name i) <> ""%string ->
    insert_server i (TrimSpace (csi_Name i)) t d = Some (d1, sid) ->
    insert_member (u32 sid) (csi_CreatorUserID i) RoleOwner false t d1 = Some (d2, mid) ->
    space_effect d (refresh (u32 sid) t d2)
| eff_add s uid t d d1 mid :
    server_by_id (s_id s) d = Some s ->
    member_row (s_id s) uid d = None ->
    insert_member (s_id s) uid RoleMember false t d = Some (d1, mid) ->
    space_effect d (refresh (s_id s) t d1)
| eff_kick s uid t m d :
    server_by_id (s_id s) d = Some s -> uid <> s_owner_user_id s ->
    member_row (s_id s) uid d = Some m -> sm_is_banned m = false ->
    space_effect d (refresh (s_id s) t (delete_member (s_id s) uid d).1)
| eff_ban s uid t m d :
    server_by_id (s_id s) d = Some s -> uid <> s_owner_user_id s ->
    member_row (s_id s) uid d = Some m -> sm_is_banned m = false ->
    space_effect d (refresh (s_id s) t
      (update_member (s_id s) uid (fun m => with_ban true t (with_role RoleMember t m)) d).1)
| eff_ban_new s uid t d d1 mid :
    server_by_id (s_id s) d = Some s -> uid <> s_owner_user_id s ->
    member_row (s_id s) uid d = None ->
    insert_member (s_id s) uid RoleMember true t d = Some (d1, mid) ->
    space_effect d (refresh (s_id s) t d1)
| eff_unban s uid t m d :
    server_by_id (s_id s) d = Some s -> uid <> s_owner_user_id s ->
    member_row (s_id s) uid d = Some m -> sm_is_banned m = true ->
    space_effect d (refresh (s_id s) t (update_member (s_id s) uid (with_ban false t) d).1)
| eff_allow s allow t d :
    server_by_id (s_id s) d = Some s ->
    space_effect d (update_server (s_id s) (with_allow allow t) d).1
| eff_role s uid role t m d :
    server_by_id (s_id s) d = Some s -> member_row (s_id s) uid d = Some m ->
    role_enum role = true -> role <> RoleOwner -> uid <> s_owner_user_id s ->
    space_effect d (update_member (s_id s) uid (with_role role t) d).1
| eff_owner_refresh s t m d :
    server_by_id (s_id s) d = Some s -> member_row (s_id s) (s_owner_user_id s) d = Some m ->
    space_effect d (update_member (s_id s) (s_owner_user_id s) (with_role RoleOwner t) d).1
| eff_transfer s uid t m d :
    server_by_id (s_id s) d = Some s -> member_row (s_id s) uid d = Some m ->
    uid <> s_owner_user_id s ->
    space_effect d
      (update_server (s_id s) (with_owner uid t)
        (update_member (s_id s) uid (with_role RoleOwner t)
          (update_member (s_id s) (s_owner_user_id s) (with_role RoleAdmin t) d).1).1).1.

Lemma server_by_id_Some sid d s : server_by_id sid d = Some s -> s_id s = sid /\ s ∈ rows (servers d).
Proof. intros [E Hs]%first_where_Some. split; [lia|done]. Qed.
Lemma server_by_id_self sid d s : server_by_id sid d = Some s -> server_by_id (s_id s) d = Some s.
Proof. intros Hs. by destruct (server_by_id_Some _ _ _ Hs) as [-> _]. Qed.
#[export] Hint Resolve server_by_id_self : mesh.

Lemma member_row_Some sid uid d m :
  member_row sid uid d = Some m -> sm_space_id m = sid /\ sm_user_id m = uid /\ m ∈ rows (server_members d).
Proof. intros [E Hs]%first_where_Some. unfold is_member in E. repeat split; [lia|lia|done]. Qed.

Section effects.
Context `{Env}.

Lemma wp_refresh sid w (Q : World -> Err + unit -> Prop) :
  (forall w' e, frame w w' -> w_faults w <> [] -> Q w' (inl e)) ->
  (forall w', frame w w' -> w_db w' = refresh sid (truncate_ms (w_clock w)) (w_db w) -> Q w' (inr tt)) ->
  wp (refreshAggregateCounts sid) w Q.
Proof.
  intros He Hok. unfold refreshAggregateCounts. repeat wp_step.
  3: { apply Hok; [solve_frame|done]. }
  all: apply He; [solve_frame|solve_fault].
Qed.

End effects.

Ltac run_step :=
  match goal with
  | |- wp (refreshAggregateCounts _) _ _ => apply wp_refresh; intros
  | _ => wp_step
  end.

Section space_effects.
Context `{Env}.

Lemma addSpaceMember_db ctx sid uid po w :
  wp (addSpaceMember ctx sid uid po) w (fun w' _ => unchanged_or space_effect w w').
Proof.
  unfold addSpaceMember, GetBySpaceID, unchanged_or. repeat run_step.
  all: first [unchanged | effect ltac:(eapply eff_add)].
Qed.

Lemma CreateSpace_db ctx i w :
  wp (CreateSpace ctx i) w (fun w' _ => unchanged_or space_effect w w').
Proof.
  unfold CreateSpace, GetBySpaceID, unchanged_or. repeat run_step.
  all: first [unchanged | effect ltac:(eapply eff_create)].
Qed.

Lemma KickSpaceMember_db ctx sid uid w :
  wp (KickSpaceMember ctx sid uid) w (fun w' _ => unchanged_or space_effect w w').
Proof.
  unfold KickSpaceMember, GetBySpaceID, unchanged_or. repeat run_step.
  all: first [unchanged | effect ltac:(eapply eff_kick)].
Qed.

Lemma BanSpaceMember_db ctx sid uid w :
  wp (BanSpaceMember ctx sid uid) w (fun w' _ => unchanged_or space_effect w w').
Proof.
  unfold BanSpaceMember, GetBySpaceID, unchanged_or. repeat run_step.
  all: first [unchanged | effect ltac:(idtac; match goal with
    | H : insert_member _ _ _ _ _ _ = _ |- _ => eapply eff_ban_new
    | _ => eapply eff_ban end)].
Qed.

Lemma UnbanSpaceMember_db ctx sid uid w :
  wp (UnbanSpaceMember ctx sid uid) w (fun w' _ => unchanged_or space_effect w w').
Proof.
  unfold UnbanSpaceMember, GetBySpaceID, unchanged_or. repeat run_step.
  all: first [unchanged | effect ltac:(eapply eff_unban)].
Qed.

Lemma SetSpaceAllowChannelCreation_db ctx sid b w :
  wp (SetSpaceAllowChannelCreation ctx sid b) w (fun w' _ => unchanged_or space_effect w w').
Proof.
  unfold SetSpaceAllowChannelCreation, unchanged_or. repeat run_step.
  all: first [unchanged | effect ltac:(eapply eff_allow)].
Qed.

Lemma SetSpaceMemberRole_db ctx sid uid role w :
  wp (SetSpaceMemberRole ctx sid uid role) w (fun w' _ => unchanged_or space_effect w w').
Proof.
  unfold SetSpaceMemberRole, unchanged_or. repeat run_step.
  all: try unchanged; cbn [w_db set_db]; bools; subst.
  - effect ltac:(eapply eff_transfer).
  - effect ltac:(eapply eff_owner_refresh).
  - apply andb_false_iff in Heqb as [?|?]; bools; [|done]. effect ltac:(eapply eff_role).
Qed.
End space_effects.

(** ** The invariant *)
Definition member_key (m : MemberRow) : Z * Z := (sm_space_id m, sm_user_id m).

(** Every space has its owner as a member, who is the only member with role owner. *)
Definition owner_ok (d : DB) (s : ServerRow) : Prop :=
  (exists m, m ∈ rows (server_members d) /\ member_key m = (s_id s, s_owner_user_id s)) /\
  (forall m, m ∈ rows (server_members d) -> sm_space_id m = s_id s ->
     sm_role m = RoleOwner <-> sm_user_id m = s_owner_user_id s).

(** The stored counters of a space and of its channels are exact. *)
Definition counts_ok (d : DB) (s : ServerRow) : Prop :=
  s_member_count s = member_count (s_id s) d /\ s_channel_count s = channel_count (s_id s) d.
Definition channel_counts_ok (d : DB) (c : ChannelRow) : Prop :=
  c_member_count c = channel_member_count (c_id c) d /\ c_subscriber_count c = c_member_count c.

(** Everything but the counters. *)
Record members_inv (d : DB) : Prop := {
  mi_servers : table_wf s_id (servers d);
  mi_members : table_wf sm_id (server_members d);
  mi_width : next_id (servers d) <= max_u32 + 1;
  mi_unique : NoDup (map member_key (rows (server_members d)));
  mi_fk : forall m, m ∈ rows (server_members d) -> exists s, s ∈ rows (servers d) /\ s_id s = sm_space_id m;
  mi_roles : forall m, m ∈ rows (server_members d) -> role_enum (sm_role m) = true;
  mi_owner : forall s, s ∈ rows (servers d) -> owner_ok d s }.

Record space_inv (d : DB) : Prop := {
  si_members : members_inv d;
  si_counts : forall s, s ∈ rows (servers d) -> counts_ok d s;
  si_channels : forall c, c ∈ rows (channels d) -> channel_counts_ok d c }.

Lemma is_member_key sid uid m : is_member sid uid m = true <-> member_key m = (sid, uid).
Proof. unfold is_member, member_key. rewrite andb_true_iff, !Z.eqb_eq. naive_solver. Qed.

Lemma member_row_intro d m :
  NoDup (map member_key (rows (server_members d))) -> m ∈ rows (server_members d) ->
  member_row (sm_space_id m) (sm_user_id m) d = Some m.
Proof.
  intros Hu Hm. apply (first_where_unique member_key); [done..| |].
  - by apply is_member_key.
  - intros m' _ Hm'%is_member_key. done.
Qed.

Lemma server_by_id_intro d s :
  NoDup (map s_id (rows (servers d))) -> s ∈ rows (servers d) -> server_by_id (s_id s) d = Some s.
Proof.
  intros Hu Hm. apply (first_where_unique s_id); [done..|lia|]. intros; lia.
Qed.

Section statements.
Context (d : DB) (Hi : members_inv d).

(** An [INSERT] of a plain member into an existing space. *)
Lemma insert_member_inv s uid role b t d1 mid :
  s ∈ rows (servers d) -> member_row (s_id s) uid d = None ->
  role <> RoleOwner -> role_enum role = true ->
  insert_member (s_id s) uid role b t d = Some (d1, mid) -> members_inv d1.
Proof.
  destruct Hi as [Hs Hm Hw Hu Hf Hr Ho]. intros Hin Hnone Hrole Henum E.
  unfold insert_member in E. apply bind_Some in E as ([tbl id]&E&?). simplify_eq.
  assert (table_wf sm_id tbl) by (eapply table_wf_insert; [..|exact E]; done).
  apply insert_row_Some in E as (_&_&_&Er&_).
  split; simpl; rewrite ?Er; try done.
  - apply NoDup_map_snoc; [done|]. intros (r&Hr'&Ek)%elem_of_map.
    eapply first_where_None in Hnone; [|exact Hr'].
    by rewrite (proj2 (is_member_key _ _ r)) in Hnone.
  - intros m [? | ->]%elem_of_snoc; [auto|eauto].
  - intros m [? | ->]%elem_of_snoc; auto.
  - intros s' Hs'. destruct (Ho s' Hs') as [(m&Hm1&Hm2) Hall]. split; simpl; rewrite Er.
    + exists m. split; [set_solver|done].
    + intros m' [? | ->]%elem_of_snoc Hsp; [by apply Hall|]. simpl in *.
      split; [done|]. intros ->. exfalso.
      eapply first_where_None in Hnone; [|exact Hm1].
      rewrite (proj2 (is_member_key _ _ m)) in Hnone; [done|]. by rewrite Hm2, Hsp.
Qed.

(** An [UPDATE] of one membership that keeps the key and does not touch the owner role. *)
Lemma update_member_inv sid uid f :
  (forall m, sm_id (f m) = sm_id m /\ member_key (f m) = member_key m) ->
  (forall m, m ∈ rows (server_members d) -> member_key m = (sid, uid) ->
     role_enum (sm_role (f m)) = true /\ (sm_role (f m) = RoleOwner <-> sm_role m = RoleOwner)) ->
  members_inv (update_member sid uid f d).1.
Proof.
  destruct Hi as [Hs Hm Hw Hu Hf Hr Ho]. intros Hk Hrole.
  assert (forall m, m ∈ update_where (is_member sid uid) f (rows (server_members d)) ->
    exists m0, m0 ∈ rows (server_members d) /\ member_key m = member_key m0 /\
      role_enum (sm_role m) = true /\ (sm_role m = RoleOwner <-> sm_role m0 = RoleOwner)) as Hup.
  { intros m (m0&Hm0&->)%elem_of_update_where. exists m0. split; [done|].
    destruct (is_member sid uid m0) eqn:E; [|by auto]. apply is_member_key in E.
    destruct (Hk m0), (Hrole m0); auto. }
  split; simpl; try done.
  - apply table_wf_update; [|done]. intros r. apply Hk.
  - rewrite map_update_where; [done|]. intros r _ _. apply Hk.
  - intros m (m0&Hm0&E&_)%Hup. apply Hf in Hm0. by injection E as -> _.
  - intros m (m0&Hm0&E&?&_)%Hup. done.
  - intros s' Hs'. destruct (Ho s' Hs') as [(m&Hm1&Hm2) Hall]. split; simpl.
    + exists (if is_member sid uid m then f m else m). split; [apply elem_of_update_where; eauto|].
      destruct (is_member _ _ _); [|done]. by rewrite (proj2 (Hk m)).
    + intros m' (m0&Hm0&E&_&Hx)%Hup Hsp. rewrite Hx.
      injection E as E1 E2. rewrite E2. apply Hall; [done|congruence].
Qed.

Lemma delete_member_inv s uid :
  s ∈ rows (servers d) -> uid <> s_owner_user_id s -> members_inv (delete_member (s_id s) uid d).1.
Proof.
  destruct Hi as [Hs Hm Hw Hu Hf Hr Ho]. intros Hin Hne. split; simpl; try done.
  - by apply table_wf_delete.
  - by apply NoDup_map_delete_where.
  - intros m [_ ?]%elem_of_delete_where. auto.
  - intros m [_ ?]%elem_of_delete_where. auto.
  - intros s' Hs'. destruct (Ho s' Hs') as [(m&Hm1&Hm2) Hall]. split; simpl.
    + exists m. split; [|done]. apply elem_of_delete_where. split; [|done].
      apply not_true_is_false. intros E%is_member_key. rewrite E in Hm2. injection Hm2 as E1 E2.
      assert (s = s'); [|naive_solver]. eapply (NoDup_key_inj s_id); eauto using wf_nodup.
    + intros m' [_ ?]%elem_of_delete_where. by apply Hall.
Qed.

(** An [UPDATE] of a space that keeps its id and owner. *)
Lemma update_server_inv sid f :
  (forall s, s_id (f s) = s_id s /\ s_owner_user_id (f s) = s_owner_user_id s) ->
  members_inv (update_server sid f d).1.
Proof.
  destruct Hi as [Hs Hm Hw Hu Hf Hr Ho]. intros Hk. split; simpl; try done.
  - apply table_wf_update; [|done]. intros. apply Hk.
  - intros m (s&Hs'&E)%Hf. exists (if s_id s =? sid then f s else s). split.
    + apply elem_of_update_where. eauto.
    + destruct (_ =? _); [by rewrite (proj1 (Hk s))|done].
  - intros s' (s&Hin&->)%elem_of_update_where. specialize (Ho s Hin).
    destruct (s_id s =? sid); [|done]. unfold owner_ok in *. simpl.
    by rewrite (proj1 (Hk s)), (proj2 (Hk s)).
Qed.
End statements.

(** *** Ownership transfer and creation *)
Definition transfer (s : ServerRow) (uid t : Z) (d : DB) : DB :=
  (update_server (s_id s) (with_owner uid t)
    (update_member (s_id s) uid (with_role RoleOwner t)
      (update_member (s_id s) (s_owner_user_id s) (with_role RoleAdmin t) d).1).1).1.
Definition transfer_row (s : ServerRow) (uid t : Z) (m : MemberRow) : MemberRow :=
  let m' := if is_member (s_id s) (s_owner_user_id s) m then with_role RoleAdmin t m else m in
  if is_member (s_id s) uid m' then with_role RoleOwner t m' else m'.

Lemma transfer_rows s uid t d :
  rows (server_members (transfer s uid t d)) = map (transfer_row s uid t) (rows (server_members d)).
Proof. simpl. unfold update_where. by rewrite map_map. Qed.

Lemma transfer_row_key s uid t m : member_key (transfer_row s uid t m) = member_key m.
Proof. unfold transfer_row. repeat case_match; done. Qed.

Lemma transfer_row_role s uid t m :
  sm_role (transfer_row s uid t m) =
  if is_member (s_id s) uid m then RoleOwner
  else if is_member (s_id s) (s_owner_user_id s) m then RoleAdmin else sm_role m.
Proof. unfold transfer_row, is_member. repeat case_match; simpl in *; done || lia. Qed.

Lemma transfer_inv d s uid t m :
  members_inv d -> s ∈ rows (servers d) -> member_row (s_id s) uid d = Some m ->
  members_inv (transfer s uid t d).
Proof.
  intros [Hs Hm Hw Hu Hf Hr Ho] Hin (E1&E2&Hmin)%member_row_Some.
  split; rewrite ?transfer_rows.
  - by apply (table_wf_update s_id).
  - simpl. by do 2 (apply (table_wf_update sm_id); [done|]).
  - done.
  - rewrite map_map. by rewrite (map_ext _ member_key) by apply transfer_row_key.
  - intros m' (m0&Hm0&->)%elem_of_map. destruct (Hf m0 Hm0) as (s0&Hs0&E).
    exists (if s_id s0 =? s_id s then with_owner uid t s0 else s0).
    split; [apply elem_of_update_where; eauto|].
    pose proof (transfer_row_key s uid t m0) as Hk. injection Hk as -> _. by destruct (_ =? _).
  - intros m' (m0&Hm0&->)%elem_of_map. rewrite transfer_row_role. repeat case_match; auto.
  - intros s' (s0&Hs0&->)%elem_of_update_where. destruct (Ho s0 Hs0) as [(m1&Hm1&Hk1) Hall].
    assert (forall x, s_id (if s_id s0 =? s_id s then with_owner x t s0 else s0) = s_id s0) as Hid
      by (intros; by destruct (_ =? _)).
    unfold owner_ok. rewrite Hid, transfer_rows. split.
    + destruct (s_id s0 =? s_id s) eqn:E; simpl.
      * exists (transfer_row s uid t m). split; [apply elem_of_map; eauto|].
        rewrite transfer_row_key. unfold member_key. f_equal; lia.
      * exists (transfer_row s uid t m1). split; [apply elem_of_map; eauto|]. by rewrite transfer_row_key.
    + intros m' (m0&Hm0&->)%elem_of_map. rewrite transfer_row_role.
      pose proof (transfer_row_key s uid t m0) as Hk. injection Hk as -> ->. intros Hsp.
      destruct (s_id s0 =? s_id s) eqn:E; simpl.
      * assert (s0 = s) as -> by (eapply (NoDup_key_inj s_id); eauto using wf_nodup; lia).
        specialize (Hall m0 Hm0 Hsp). unfold is_member. rewrite Hsp, Z.eqb_refl. simpl.
        repeat case_match; bools; naive_solver lia.
      * assert (forall u, is_member (s_id s) u m0 = false) as Hno by (intros; unfold is_member; lia).
        rewrite !Hno. by apply Hall.
Qed.

Lemma create_inv d i name t uid d1 d2 sid mid :
  members_inv d -> insert_server i name t d = Some (d1, sid) -> csi_CreatorUserID i = uid ->
  insert_member (u32 sid) uid RoleOwner false t d1 = Some (d2, mid) ->
  u32 sid = sid /\ members_inv d2.
Proof.
  intros [Hs Hm Hw Hu Hf Hr Ho] E1 <- E2.
  unfold insert_server in E1. apply bind_Some in E1 as ([tbl1 id1]&E1&?). simplify_eq.
  assert (table_wf s_id tbl1) as Hs1 by (eapply table_wf_insert; [..|exact E1]; done).
  apply insert_row_Some in E1 as (->&Hmax&_&Er1&En1).
  pose proof (wf_next _ _ Hs) as Hpos. rewrite u32_small in E2 |- * by lia. split; [done|].
  unfold insert_member in E2. apply bind_Some in E2 as ([tbl2 id2]&E2&?). simplify_eq. simpl in E2.
  assert (table_wf sm_id tbl2) as Hs2 by (eapply table_wf_insert; [..|exact E2]; done).
  apply insert_row_Some in E2 as (_&_&_&Er2&_).
  assert (forall m, m ∈ rows (server_members d) -> sm_space_id m <> next_id (servers d)) as Hfresh.
  { intros m (s&Hin&Es)%Hf. apply (wf_bound _ _ Hs) in Hin. lia. }
  split; simpl; rewrite ?Er1, ?Er2, ?En1; try done; try lia.
  - apply NoDup_map_snoc; [done|]. intros (m&Hin&Ek)%elem_of_map. apply Hfresh in Hin.
    injection Ek as Ek1 Ek2. congruence.
  - intros m [Hin | ->]%elem_of_snoc.
    + apply Hf in Hin as (s&?&?). exists s. set_solver.
    + eexists. split; [apply elem_of_snoc; by right|done].
  - intros m [Hin | ->]%elem_of_snoc; auto.
  - intros s [Hin | ->]%elem_of_snoc; unfold owner_ok; simpl; rewrite Er2.
    + destruct (Ho s Hin) as [(m&?&?) Hall]. split; [exists m; set_solver|].
      intros m' [? | ->]%elem_of_snoc Hsp; [auto|]. simpl in Hsp.
      apply (wf_bound _ _ Hs) in Hin. lia.
    + split; [eexists; split; [apply elem_of_snoc; by right|done]|].
      intros m' [Hin | ->]%elem_of_snoc Hsp; [|done]. by apply Hfresh in Hin.
Qed.

(** *** Counters *)
Record counts_except (sid : Z) (d : DB) : Prop := {
  ce_spaces : forall s, s ∈ rows (servers d) -> s_id s <> sid -> counts_ok d s;
  ce_channels : forall c, c ∈ rows (channels d) -> c_space_id c <> sid -> channel_counts_ok d c }.

(** [refreshAggregateCounts] makes the counters of its space exact. *)
Lemma refresh_inv sid t d : members_inv d -> counts_except sid d -> space_inv (refresh sid t d).
Proof.
  intros Hi [Hcs Hcc]. split.
  - pose proof (update_server_inv d Hi sid (with_counts (member_count sid d) (channel_count sid d) t)) as H.
    destruct H as []; [done|]. by split.
  - intros s (s0&Hin&->)%elem_of_update_where. unfold counts_ok, channel_count. simpl.
    rewrite count_update_where by done. change (member_count ?x (refresh sid t d)) with (member_count x d).
    destruct (s_id s0 =? sid) eqn:E; simpl; [|apply (Hcs s0 Hin); lia].
    by assert (s_id s0 = sid) as -> by lia.
  - intros c (c0&Hin&->)%elem_of_update_where. unfold channel_counts_ok.
    destruct (c_space_id c0 =? sid) eqn:E; simpl; [done|]. apply (Hcc c0 Hin). lia.
Qed.

(** A change of the members of one space leaves the counters of the others alone. *)
Lemma counts_except_members sid d tbl :
  counts_except sid d ->
  (forall x, x <> sid -> count_where (active_member x) (rows tbl) = member_count x d) ->
  counts_except sid (set_server_members (fun _ => tbl) d).
Proof.
  intros [Hc Hcc] Hx. split.
  - intros s Hin Hne. destruct (Hc s Hin Hne). split; [|done]. unfold member_count. simpl. by rewrite Hx.
  - intros c Hin Hne. by apply Hcc.
Qed.

Lemma counts_except_intro sid d : space_inv d -> counts_except sid d.
Proof. intros [_ ? ?]. split; auto. Qed.
#[local] Hint Resolve counts_except_intro : mesh.

Lemma is_member_other sid uid x m : x <> sid -> is_member sid uid m = true -> active_member x m = false.
Proof. unfold is_member, active_member. intros. lia. Qed.

Lemma counts_insert sid uid role b t d d1 mid :
  counts_except sid d -> insert_member sid uid role b t d = Some (d1, mid) -> counts_except sid d1.
Proof.
  intros Hi E. unfold insert_member in E. apply bind_Some in E as ([tbl id]&E&?). simplify_eq.
  apply counts_except_members; [done|]. intros x Hx.
  apply insert_row_Some in E as (_&_&_&->&_). rewrite count_where_app, count_where_cons.
  unfold active_member at 2. simpl. replace (sid =? x) with false by lia. simpl.
  unfold member_count, count_where at 2, zlen. simpl. lia.
Qed.

Lemma counts_update sid uid f d :
  counts_except sid d -> (forall m, member_key (f m) = member_key m) -> counts_except sid (update_member sid uid f d).1.
Proof.
  intros Hi Hf. apply counts_except_members; [done|]. intros x Hx. simpl.
  unfold member_count. apply count_update_where. intros m _ Hm.
  rewrite (is_member_other sid uid x m) by done.
  apply (is_member_other sid uid); [done|]. by rewrite is_member_key, Hf, <- is_member_key.
Qed.

Lemma counts_delete sid uid d : counts_except sid d -> counts_except sid (delete_member sid uid d).1.
Proof.
  intros Hi. apply counts_except_members; [done|]. intros x Hx. simpl.
  apply delete_where_count. intros m _. by apply is_member_other.
Qed.

(** A change that keeps, row by row, what the counters depend on. *)
Lemma space_inv_keep d d' :
  space_inv d -> members_inv d' -> channels d' = channels d -> channel_members d' = channel_members d ->
  (forall x, member_count x d' = member_count x d) ->
  (forall s, s ∈ rows (servers d') -> exists s0, s0 ∈ rows (servers d) /\ s_id s = s_id s0 /\
     s_member_count s = s_member_count s0 /\ s_channel_count s = s_channel_count s0) ->
  space_inv d'.
Proof.
  intros [_ Hc Hcc] Hi Ec Ecm Hm Hs. split; [done|..].
  - intros s (s0&Hin&E1&E2&E3)%Hs. destruct (Hc s0 Hin) as [H1 H2]. unfold counts_ok, channel_count in *.
    by rewrite E1, E2, E3, Hm, Ec.
  - intros c. rewrite Ec. intros Hin. unfold channel_counts_ok, channel_member_count. rewrite Ecm. by apply Hcc.
Qed.

Lemma member_count_update sid uid f d x :
  (forall m, member_key (f m) = member_key m /\ sm_is_banned (f m) = sm_is_banned m) ->
  member_count x (update_member sid uid f d).1 = member_count x d.
Proof.
  intros Hf. apply count_update_where. intros m _ _. unfold active_member.
  destruct (Hf m) as [E ->]. injection E as -> _. done.
Qed.

Lemma members_inv_servers d : members_inv d -> NoDup (map s_id (rows (servers d))).
Proof. intros Hi. apply wf_nodup, (mi_servers d Hi). Qed.

(** The role of a member other than the owner. *)
Lemma not_owner_role d s m :
  members_inv d -> s ∈ rows (servers d) -> m ∈ rows (server_members d) ->
  sm_space_id m = s_id s -> sm_user_id m <> s_owner_user_id s -> sm_role m <> RoleOwner.
Proof. intros Hi Hs Hm E Hne Hr. destruct (mi_owner d Hi s Hs) as [_ H]. by apply Hne, H. Qed.

Lemma set_role_inv d s uid role t :
  members_inv d -> s ∈ rows (servers d) -> role_enum role = true ->
  (role = RoleOwner <-> uid = s_owner_user_id s) ->
  members_inv (update_member (s_id s) uid (with_role role t) d).1.
Proof.
  intros Hi Hs Henum Hr. apply update_member_inv; [done..|]. intros m Hm Ek. split; [done|]. simpl.
  injection Ek as E1 E2. destruct (mi_owner d Hi s Hs) as [_ H]. rewrite H by done. by rewrite Hr, E2.
Qed.

Lemma counts_new_server d i name t d1 sid :
  space_inv d -> insert_server i name t d = Some (d1, sid) -> counts_except sid d1.
Proof.
  intros [_ Hc Hcc] E. unfold insert_server in E. apply bind_Some in E as ([tbl id]&E&?). simplify_eq.
  apply insert_row_Some in E as (_&_&_&Er&_). split; simpl; rewrite ?Er.
  - intros s [Hin | ->]%elem_of_snoc Hne; [by apply Hc|done].
  - intros c Hin _. by apply Hcc.
Qed.

(** An [UPDATE] of one column of a space other than its owner and counters. *)
Lemma allow_inv sid b t d : space_inv d -> space_inv (update_server sid (with_allow b t) d).1.
Proof.
  intros Hi. eapply space_inv_keep; eauto.
  - by apply update_server_inv; [apply si_members|].
  - intros s (s0&Hin&->)%elem_of_update_where. exists s0. by destruct (_ =? _).
Qed.

Section preservation.
Context `{Env}.

Lemma space_effect_inv d d' : space_effect d d' -> space_inv d -> space_inv d'.
Proof.
  intros Heff Hinv. pose proof (si_members d Hinv) as Hi. pose proof (counts_except_intro) as Hce.
  destruct Heff as [i t d d1 d2 sid mid Hname H1 H2|s uid t d d1 mid Hs Hn H1|s uid t m d Hs Ho Hm Hb
    |s uid t m d Hs Ho Hm Hb|s uid t d d1 mid Hs Ho Hn H1|s uid t m d Hs Ho Hm Hb|s b t d Hs
    |s uid role t m d Hs Hm He Hr Ho|s t m d Hs Hm|s uid t m d Hs Hm Ho];
    try apply server_by_id_Some in Hs as [_ Hs].
  - destruct (create_inv d i _ t _ d1 d2 sid mid Hi H1 eq_refl H2) as [Hu Hi2]. rewrite Hu in *.
    eauto using refresh_inv, counts_insert, counts_new_server.
  - eapply refresh_inv; [by eapply insert_member_inv; eauto|eauto using counts_insert].
  - eapply refresh_inv; [eapply delete_member_inv; eauto|eauto using counts_delete].
  - eapply refresh_inv; [eapply update_member_inv; eauto|by apply counts_update; auto].
    intros m0 Hm0 [E1 E2]%pair_equal_spec. split; [done|]. split; [done|]. intros E.
    exfalso. subst. eapply not_owner_role; eauto.
  - eapply refresh_inv; [by eapply insert_member_inv; eauto|eauto using counts_insert].
  - eapply refresh_inv; [eapply update_member_inv; eauto|by apply counts_update; auto].
    intros m0 Hm0 _. split; [exact (mi_roles d Hi m0 Hm0)|done].
  - by apply allow_inv.
  - apply (space_inv_keep d); try done; [apply set_role_inv; naive_solver| |eauto].
    intros; by apply member_count_update.
  - apply (space_inv_keep d); try done; [apply set_role_inv; naive_solver| |eauto].
    intros; by apply member_count_update.
  - eapply (space_inv_keep d (transfer s uid t d)); eauto using transfer_inv.
    + intros x. unfold transfer. change (member_count x (update_server ?a ?b ?c).1) with (member_count x c).
      by rewrite !member_count_update.
    + intros s' (s0&Hin&->)%elem_of_update_where. exists s0. by destruct (_ =? _).
Qed.
End preservation.
