(* ===== verification/UserRepo.v ===== *)
(** * User repository: [internal/repository/mysql/user.go]

    Users are created at their first authentication, one per peer id. *)
From S2P Require Import Prelude Go Schema Store SpaceRepo.

Definition to_user (u : UserRow) : User :=
  mkUser (u_id u) (u_user_id u) (u_peer_id u) (u_pubkey u) (u_display_name u)
    (coalesce (u_avatar_url u)) (coalesce (u_bio u)) (u_status u)
    (default (u_created_at u) (u_last_login_at u)) (u_created_at u) (u_updated_at u).

Definition shortPeerID (peerID : string) : string :=
  let peerID := TrimSpace peerID in
  if strlen peerID <=? 8 then peerID else suffix_from (String.length peerID - 8) peerID.

Definition emptyBytesToNil (value : string) : option string :=
  if strlen value =? 0 then None else Some value.

(** [CASE WHEN v IS NULL OR LENGTH(v) = 0 THEN pubkey ELSE v END] *)
Definition keep_pubkey (v old : option string) : option string :=
  match v with
  | None => old
  | Some k => if strlen k =? 0 then old else Some k
  end.

Definition with_pubkey (v : option string) (t : Z) (u : UserRow) : UserRow :=
  mkUserRow (u_id u) (u_user_id u) (u_peer_id u) (keep_pubkey v (u_pubkey u)) (u_display_name u)
    (u_avatar_url u) (u_bio u) (u_status u) (u_last_login_at u) (u_created_at u) t.
Definition with_login (v : option string) (t : Z) (u : UserRow) : UserRow :=
  mkUserRow (u_id u) (u_user_id u) (u_peer_id u) (keep_pubkey v (u_pubkey u)) (u_display_name u)
    (u_avatar_url u) (u_bio u) (u_status u) (Some t) (u_created_at u) t.

Section user_repo.
Context `{Env}.

Definition user_by_peer (peerID : string) (d : DB) : option UserRow :=
  first_where (fun u => sql_eq (u_peer_id u) peerID) (rows (users d)).
Definition user_by_external (userID : string) (d : DB) : option UserRow :=
  first_where (fun u => sql_eq (u_user_id u) userID) (rows (users d)).

Definition GetByPeerID (peerID : string) : M User := fetchOne (fun d => to_user <$> user_by_peer peerID d).
Definition GetByID (id : Z) : M User := fetchOne (fun d => to_user <$> user_by_id id d).
Definition GetByUserID (userID : string) : M User := fetchOne (fun d => to_user <$> user_by_external userID d).

(** The unique key that collides first decides the row the upsert changes:
    [uk_users_user_id], then [uk_users_peer_id]. *)
Definition upsert_user (extID peerID : string) (pubkey : option string) (t : Z) (d : DB) : option (DB * unit) :=
  let mk id := mkUserRow id extID peerID pubkey ("Peer " +:+ shortPeerID peerID) None None 1 (Some t) t t in
  let key u := if existsb (fun u => sql_eq (u_user_id u) extID) (rows (users d))
               then sql_eq (u_user_id u) extID else sql_eq (u_peer_id u) peerID in
  tbl ← upsert_row max_u64 key (with_pubkey pubkey t) mk (users d);
  Some (set_users (fun _ => tbl) d, tt).

Definition CreateIfNotExistsByPeerID (peerID : string) (pubKey : string) : M User :=
  t ← now;
  extID ← newExternalID "u";
  _ ← map_err (wrap "insert user by peer id") (exec (upsert_user extID peerID (emptyBytesToNil pubKey) t));
  GetByPeerID peerID.

Definition UpdateLogin (userID : Z) (pubKey : string) (t : Z) : M unit :=
  map_err (wrap "update user login")
    (exec_ (fun d => (set_users (update_rows (fun u => u_id u =? userID) (with_login (emptyBytesToNil pubKey) t)) d, tt))).
End user_repo.
