(* ===== verification/ChannelRepo.v ===== *)
(** * Channel repository: [internal/repository/mysql/channel.go] *)
From S2P Require Import Prelude Go Schema Store SpaceRepo.

Definition channel_by_id (cid : Z) (d : DB) : option ChannelRow :=
  first_where (fun c => c_id c =? cid) (rows (channels d)).
Definition is_channel_member (cid uid : Z) (cm : ChannelMemberRow) : bool :=
  (cm_channel_id cm =? cid) && (cm_user_id cm =? uid).
Definition channel_member_row (cid uid : Z) (d : DB) : option ChannelMemberRow :=
  first_where (is_channel_member cid uid) (rows (channel_members d)).

(** The zero value of [channel.Permission], left when a query does not select it. *)
Definition zero_permission : Permission := mkPermission (RoleOther "") false false false false false false.
Definition to_permission (cm : ChannelMemberRow) : Permission :=
  mkPermission (cm_role cm) (cm_can_view cm) (cm_can_send_message cm) (cm_can_send_image cm)
    (cm_can_send_file cm) (cm_can_delete_message cm) (cm_can_manage_channel cm).
Definition to_channel (p : Permission) (c : ChannelRow) : Channel :=
  mkChannel (c_id c) (c_space_id c) (c_type c) (c_name c) (coalesce (c_description c)) (c_visibility c)
    (c_slow_mode_seconds c) (c_auto_delete_after_seconds c) (c_message_seq c) (c_message_count c)
    (c_member_count c) (c_created_by c) (c_status c) (c_sort_order c) p (c_created_at c) (c_updated_at c).

Definition lock_channel (c : ChannelRow) : RowLock := LockChannel (c_id c).

Record CreateChannelInput := mkCreateChannelInput {
  cci_SpaceID : Z; cci_CreatorUserID : Z; cci_Type : ChannelType; cci_Name : string;
  cci_Description : string; cci_Visibility : Visibility; cci_SlowModeSeconds : Z;
  cci_Bypass : bool }.

(** [SELECT COALESCE(MAX(sort_order), 0) + 10] *)
Definition next_sort_order (sid : Z) (d : DB) : Z :=
  match c_sort_order <$> where_ (fun c => c_space_id c =? sid) (rows (channels d)) with
  | [] => 10
  | x :: l => foldr Z.max x l + 10
  end.

Definition insert_channel (i : CreateChannelInput) (sid : Z) (name : string) (sort t : Z) (d : DB)
  : option (DB * Z) :=
  if negb (visibility_enum (cci_Visibility i)) then None else
  '(tbl, id) ← insert_row max_u32 (fun _ => false)
     (fun id => mkChannelRow id sid (cci_Type i) name (Some (TrimSpace (cci_Description i)))
        (cci_Visibility i) (cci_SlowModeSeconds i) 0 0 0 0 0 (cci_CreatorUserID i) 1 sort t t)
     (channels d);
  Some (set_channels (fun _ => tbl) d, id).

Definition owner_member (t : Z) (cm : ChannelMemberRow) : ChannelMemberRow :=
  mkChannelMemberRow (cm_id cm) (cm_channel_id cm) (cm_user_id cm) RoleOwner (cm_can_view cm)
    true true true true true (cm_joined_at cm) (cm_created_at cm) t.
Definition insert_channel_member (cid uid t : Z) (d : DB) : option (DB * unit) :=
  tbl ← upsert_row max_u64 (is_channel_member cid uid) (owner_member t)
     (fun id => mkChannelMemberRow id cid uid RoleOwner true true true true true true t t t)
     (channel_members d);
  Some (set_channel_members (fun _ => tbl) d, tt).

Definition with_auto_delete (seconds t : Z) (c : ChannelRow) : ChannelRow :=
  mkChannelRow (c_id c) (c_space_id c) (c_type c) (c_name c) (c_description c) (c_visibility c)
    (c_slow_mode_seconds c) seconds (c_message_seq c) (c_message_count c)
    (c_subscriber_count c) (c_member_count c) (c_created_by c) (c_status c) (c_sort_order c)
    (c_created_at c) t.
Definition update_channel (cid : Z) (f : ChannelRow -> ChannelRow) (d : DB) : DB * unit :=
  (set_channels (update_rows (fun c => c_id c =? cid) f) d, tt).

Section channel_repo.
Context `{Env}.

(** ** Reads *)
Definition by_sort_name (a b : ChannelRow * ChannelMemberRow) : Prop :=
  c_sort_order a.1 < c_sort_order b.1 \/
  (c_sort_order a.1 = c_sort_order b.1 /\ sql_le (c_name a.1) (c_name b.1)).
#[export] Instance by_sort_name_dec a b : Decision (by_sort_name a b).
Proof. unfold by_sort_name, sql_le. apply _. Defined.

Definition ListBySpaceIDForUser (sid uid : Z) : M (list Channel) :=
  map_err (wrap "list channels") (query (fun d =>
    let joined :=
      c ← rows (channels d);
      cm ← rows (channel_members d);
      if (c_space_id c =? sid) && bool_decide (is_Some (server_by_id sid d)) && (cm_channel_id cm =? c_id c)
         && (cm_user_id cm =? uid) && (c_status c =? 1)
      then [(c, cm)] else [] in
    (fun '(c, cm) => to_channel (to_permission cm) c) <$> merge_sort by_sort_name joined)).

Definition GetByChannelID (cid : Z) : M Channel :=
  fetchOne (fun d => c ← channel_by_id cid d; _ ← server_by_id (c_space_id c) d;
                     Some (to_channel zero_permission c)).

Definition IsUserMember (cid uid : Z) : M bool :=
  map_err (wrap "count channel membership") (query (fun d =>
    match channel_by_id cid d with
    | Some _ => 0 <? count_where (is_channel_member cid uid) (rows (channel_members d))
    | None => false
    end)).

Definition permission_of (cid uid : Z) (d : DB) : option Permission :=
  _ ← channel_by_id cid d; to_permission <$> channel_member_row cid uid d.
Definition GetPermission (cid uid : Z) : M Permission := fetchOne (permission_of cid uid).

(** ** [CreateChannel] *)
Definition owner_permission : Permission := mkPermission RoleOwner true true true true true true.

Definition CreateChannel (ctx : Ctx) (i : CreateChannelInput) : M Channel :=
  _ ← when (cci_SpaceID i =? 0) (Errorf "create channel: space id is required");
  let name := TrimSpace (cci_Name i) in
  _ ← when (name =@ ""%string) (Errorf "create channel: name is required");
  _ ← when (negb (cci_Type i =@ TypeSpace) && negb (cci_Type i =@ TypeBroadcast))
        (Errorf "create channel: unsupported channel type");
  run_tx ctx (wrap "begin create channel tx") (
    serverRow ← check_for_update (wrap "load server for channel creation") lock_server
                  (server_by_id (cci_SpaceID i));
    if negb (s_allow_channel_creation serverRow) && negb (cci_Bypass i)
    then throw (Errorf "channel creation disabled for server")
    else
      member ← check_for_update (wrap "load space membership") (fun m => LockMember (sm_id m))
                 (fun d => first_where (fun m => is_member (s_id serverRow) (cci_CreatorUserID i) m
                                                 && negb (sm_is_banned m)) (rows (server_members d)));
      if negb (sm_role member =@ RoleOwner) && negb (sm_role member =@ RoleAdmin)
      then throw (Errorf "admin role required")
      else
        sortOrder ← check (wrap "calculate channel sort order") (query (next_sort_order (s_id serverRow)));
        t ← tx_lift now;
        channelDBID ← check_exec (wrap "insert channel")
                        (exec (insert_channel i (s_id serverRow) name sortOrder t));
        _ ← check_exec (wrap "insert channel owner membership")
              (exec (insert_channel_member channelDBID (cci_CreatorUserID i) t));
        _ ← check id (refreshAggregateCounts (s_id serverRow));
        _ ← commit (wrap "commit create channel tx");
        mret (mkChannel (u32 channelDBID) (s_id serverRow) (cci_Type i) name
          (TrimSpace (cci_Description i)) (cci_Visibility i) (cci_SlowModeSeconds i) 0 0 0 1
          (cci_CreatorUserID i) 1 sortOrder owner_permission t t)).

Definition SetGroupAutoDeleteAfterSeconds (ctx : Ctx) (cid seconds : Z) : M unit :=
  run_tx ctx (wrap "begin set group auto delete tx") (
    row ← check_for_update (wrap "load channel for auto delete") lock_channel (channel_by_id cid);
    if negb (c_type row =@ TypeSpace) then throw (Errorf "auto delete is only supported for group channels")
    else
      t ← tx_lift now;
      _ ← check (wrap "update channel auto delete") (exec_ (update_channel (c_id row) (with_auto_delete seconds t)));
      commit (wrap "commit set group auto delete tx")).
End channel_repo.
