(* ===== verification/ChannelInv.v ===== *)
(** * Channels: database effects of the repository methods and the invariants they keep *)
From S2P Require Import Prelude Go Schema Store SpaceRepo SpaceInv ChannelRepo.

(** ** Effects *)
Inductive channel_effect `{Env} : DB -> DB -> Prop :=
| ceff_create i s m name sort t d d1 d2 cid :
    server_by_id (s_id s) d = Some s ->
    first_where (fun m => is_member (s_id s) (cci_CreatorUserID i) m && negb (sm_is_banned m))
      (rows (server_members d)) = Some m ->
    (sm_role m = RoleOwner \/ sm_role m = RoleAdmin) ->
    name <> ""%string ->
    insert_channel i (s_id s) name sort t d = Some (d1, cid) ->
    insert_channel_member cid (cci_CreatorUserID i) t d1 = Some (d2, tt) ->
    channel_effect d (refresh (s_id s) t d2)
| ceff_auto c seconds t d :
    channel_by_id (c_id c) d = Some c -> c_type c = TypeSpace ->
    channel_effect d (update_channel (c_id c) (with_auto_delete seconds t) d).1.

Lemma channel_by_id_Some cid d c : channel_by_id cid d = Some c -> c_id c = cid /\ c ∈ rows (channels d).
Proof. intros [E Hs]%first_where_Some. split; [lia|done]. Qed.
Lemma channel_by_id_self cid d c : channel_by_id cid d = Some c -> channel_by_id (c_id c) d = Some c.
Proof. intros Hs. by destruct (channel_by_id_Some _ _ _ Hs) as [-> _]. Qed.
#[export] Hint Resolve channel_by_id_self : mesh.

Section effects.
Context `{Env}.

Lemma CreateChannel_db ctx i w :
  wp (CreateChannel ctx i) w (fun w' _ => unchanged_or channel_effect w w').
Proof.
  unfold CreateChannel, unchanged_or. repeat run_step.
  all: first [unchanged | idtac].
  repeat match goal with u : unit |- _ => destruct u end.
  effect ltac:(eapply ceff_create).
  apply andb_false_iff in Heqb0 as [?|?]; bools; auto.
Qed.

Lemma SetGroupAutoDelete_db ctx cid seconds w :
  wp (SetGroupAutoDeleteAfterSeconds ctx cid seconds) w (fun w' _ => unchanged_or channel_effect w w').
Proof.
  unfold SetGroupAutoDeleteAfterSeconds, unchanged_or. repeat run_step.
  all: first [unchanged | effect ltac:(eapply ceff_auto)].
Qed.
End effects.

(** ** The invariant of spaces only looks at part of the database *)
Definition channel_key (c : ChannelRow) : Z * Z * Z * Z * Z :=
  (c_id c, c_space_id c, c_status c, c_member_count c, c_subscriber_count c).

Record same_spaces (d d' : DB) : Prop := {
  ss_servers : servers d' = servers d;
  ss_members : server_members d' = server_members d;
  ss_channels : map channel_key (rows (channels d')) = map channel_key (rows (channels d));
  ss_channel_members : channel_members d' = channel_members d }.

#[export] Instance same_spaces_equiv : Equivalence same_spaces.
Proof.
  split.
  - by split.
  - intros d d' [? ? ? ?]. by split.
  - intros d1 d2 d3 [? ? ? ?] [? ? ? ?]. split; congruence.
Qed.

Lemma channel_count_key d d' sid :
  map channel_key (rows (channels d')) = map channel_key (rows (channels d)) ->
  channel_count sid d' = channel_count sid d.
Proof.
  unfold channel_count. generalize (rows (channels d)), (rows (channels d')).
  intros l l'. revert l. induction l' as [|c' l' IH]; intros [|c l] E; simpl in E; try done.
  injection E as _ E2 E3 _ _ E. rewrite !count_where_cons, (IH l E). unfold active_channel. by rewrite E2, E3.
Qed.

#[export] Instance space_inv_proper : Proper (same_spaces ==> iff) space_inv.
Proof.
  assert (forall d d', same_spaces d d' -> space_inv d -> space_inv d') as Himp.
  { intros d d' [Es Em Ec Ecm] [Hi Hc Hcc]. split.
    - destruct Hi. split; rewrite ?Es, ?Em; try done. unfold owner_ok. by rewrite Em.
    - intros s. rewrite Es. intros Hs%Hc. unfold counts_ok, member_count in *.
      by rewrite (channel_count_key d d'), Em.
    - intros c Hin. assert (channel_key c ∈ map channel_key (rows (channels d))) as Hk.
      { rewrite <- Ec. apply elem_of_map. eauto. }
      apply elem_of_map in Hk as (c0&Hc0%Hcc&E). unfold channel_counts_ok, channel_member_count in *.
      injection E as -> ? ? -> ->. by rewrite Ecm. }
  intros d d' Hs. split; apply Himp; [done|by symmetry].
Qed.

Lemma same_spaces_update_channel cid f d :
  (forall c, channel_key (f c) = channel_key c) -> same_spaces d (update_channel cid f d).1.
Proof. intros Hf. split; try done. simpl. apply map_update_where. auto. Qed.

(** ** Creation of a channel *)
Definition chan_owner (c : ChannelRow) : Z * Z := (c_id c, c_created_by c).

Record channels_inv (d : DB) : Prop := {
  ci_channels : table_wf c_id (channels d);
  ci_members : table_wf cm_id (channel_members d);
  ci_width : next_id (channels d) <= max_u32 + 1;
  ci_fk : forall cm, cm ∈ rows (channel_members d) -> cm_channel_id cm < next_id (channels d);
  ci_unique : NoDup (map (fun cm => (cm_channel_id cm, cm_user_id cm)) (rows (channel_members d)));
  ci_creator : forall cm, cm ∈ rows (channel_members d) ->
    exists c, c ∈ rows (channels d) /\ chan_owner c = (cm_channel_id cm, cm_user_id cm);
  ci_has : forall c, c ∈ rows (channels d) ->
    exists cm, cm ∈ rows (channel_members d) /\ chan_owner c = (cm_channel_id cm, cm_user_id cm);
  ci_full : forall cm, cm ∈ rows (channel_members d) -> to_permission cm = owner_permission }.

(** The channels keep their ids and creators, and the memberships stay. *)
Record same_channels (d d' : DB) : Prop := {
  sc_ids : map chan_owner (rows (channels d')) = map chan_owner (rows (channels d));
  sc_next : next_id (channels d') = next_id (channels d);
  sc_members : channel_members d' = channel_members d }.

#[export] Instance same_channels_preorder : PreOrder same_channels.
Proof. split; [by split|]. intros d1 d2 d3 [? ? ?] [? ? ?]. split; congruence. Qed.

Lemma channels_inv_keep d d' : same_channels d d' -> channels_inv d -> channels_inv d'.
Proof.
  intros [Eo En Em] [[Hnd Hb Hn] H2 H3 H4 H5 H6 H7 H8].
  assert (map c_id (rows (channels d')) = map c_id (rows (channels d))) as Ei.
  { apply (f_equal (map fst)) in Eo. by rewrite !map_map in Eo. }
  split; rewrite ?En, ?Em; try done.
  - split; rewrite ?Ei, ?En; try done. intros c Hc.
    assert (c_id c ∈ map c_id (rows (channels d))) as Hx by (rewrite <- Ei; apply elem_of_map; eauto).
    apply elem_of_map in Hx as (c0&Hc0&->). auto.
  - intros cm (c&Hc&E)%H6. assert (chan_owner c ∈ map chan_owner (rows (channels d'))) as Hx
      by (rewrite Eo; apply elem_of_map; eauto).
    apply elem_of_map in Hx as (c0&Hc0&E0). exists c0. split; [done|congruence].
  - intros c Hc. assert (chan_owner c ∈ map chan_owner (rows (channels d))) as Hx
      by (rewrite <- Eo; apply elem_of_map; eauto).
    apply elem_of_map in Hx as (c0&(cm&?&?)%H7&E0). exists cm. split; [done|congruence].
Qed.

Lemma same_channels_refresh sid t d : same_channels d (refresh sid t d).
Proof. split; try done. simpl. by rewrite map_update_where. Qed.

Lemma same_channels_update_channel cid f d :
  (forall c, chan_owner (f c) = chan_owner c) -> same_channels d (update_channel cid f d).1.
Proof. intros Hf. split; try done. simpl. apply map_update_where. auto. Qed.

Lemma insert_member_same sid uid role b t d d1 mid :
  insert_member sid uid role b t d = Some (d1, mid) -> same_channels d d1.
Proof. unfold insert_member. intros (?&?&?)%bind_Some. destruct_and?. case_match; by simplify_eq. Qed.

Lemma insert_server_same i name t d d1 sid :
  insert_server i name t d = Some (d1, sid) -> same_channels d d1.
Proof. unfold insert_server. intros (?&?&?)%bind_Some. case_match; by simplify_eq. Qed.

Lemma space_effect_same_channels `{Env} d d' : space_effect d d' -> same_channels d d'.
Proof.
  intros [ ]; try done; (etrans; [|apply same_channels_refresh]); eauto using insert_member_same; try done.
  etrans; eauto using insert_member_same, insert_server_same.
Qed.

(** What [CreateChannel] inserts. *)
Lemma insert_channel_Some i sid name sort t d d1 cid :
  insert_channel i sid name sort t d = Some (d1, cid) ->
  exists c, c_id c = cid /\ c_created_by c = cci_CreatorUserID i /\ c_space_id c = sid /\ c_status c = 1 /\ c_message_seq c = 0 /\ c_message_count c = 0 /\
    cid = next_id (channels d) /\ cid <= max_u32 /\
    d1 = set_channels (fun _ => mkTable (rows (channels d) ++ [c]) (cid + 1)) d.
Proof.
  unfold insert_channel. intros E. case_match; [done|]. apply bind_Some in E as ([tbl id]&E&?). simplify_eq.
  unfold insert_row in E. case_match eqn:Hm; [done|]. simplify_eq.
  apply orb_false_iff in Hm as [Hm _]. eexists. repeat split; try done. lia.
Qed.

Definition owner_row (id cid uid t : Z) : ChannelMemberRow :=
  mkChannelMemberRow id cid uid RoleOwner true true true true true true t t t.

Lemma insert_channel_member_Some cid uid t d d1 :
  (forall cm, cm ∈ rows (channel_members d) -> cm_channel_id cm <> cid) ->
  insert_channel_member cid uid t d = Some (d1, tt) ->
  d1 = set_channel_members (fun tbl => mkTable (rows tbl ++ [owner_row (next_id tbl) cid uid t]) (next_id tbl + 1)) d.
Proof.
  intros Hfresh E. unfold insert_channel_member, upsert_row in E.
  destruct (existsb _ _) eqn:Ex.
  { apply existsb_exists in Ex as (cm&Hcm%list_elem_of_In&Hk). apply Hfresh in Hcm.
    unfold is_channel_member in Hk. lia. }
  unfold insert_row in E. rewrite Ex in E. destruct (max_u64 <? _); simpl in E; [done|]. by simplify_eq.
Qed.

(** The channel and its first member. *)
Definition add_channel (c : ChannelRow) (uid t : Z) (d : DB) : DB :=
  set_channel_members (fun tbl => mkTable (rows tbl ++ [owner_row (next_id tbl) (c_id c) uid t]) (next_id tbl + 1))
    (set_channels (fun tbl => mkTable (rows tbl ++ [c]) (c_id c + 1)) d).

Lemma create_channel_Some d i sid name sort t d1 d2 cid :
  channels_inv d ->
  insert_channel i sid name sort t d = Some (d1, cid) ->
  insert_channel_member cid (cci_CreatorUserID i) t d1 = Some (d2, tt) ->
  exists c, c_id c = next_id (channels d) /\ c_created_by c = cci_CreatorUserID i /\ c_space_id c = sid /\ c_message_seq c = 0 /\ c_message_count c = 0 /\
    c_id c <= max_u32 /\ d2 = add_channel c (cci_CreatorUserID i) t d.
Proof.
  intros Hci (c&<-&?&?&?&?&?&Eid&?&->)%insert_channel_Some E%insert_channel_member_Some.
  - exists c. done.
  - simpl. intros cm Hin%(ci_fk d Hci). lia.
Qed.

Lemma add_channel_channels_inv d c uid t :
  channels_inv d -> c_id c = next_id (channels d) -> c_created_by c = uid -> c_id c <= max_u32 ->
  channels_inv (add_channel c uid t d).
Proof.
  intros [Hw Hw2 H3 H4 H5 H6 H7 H8] Eid Euid Hmax. split; simpl.
  - destruct Hw as [Hnd Hb Hn]. split; simpl; [|intros c' [Hin | ->]%elem_of_snoc|lia].
    + apply NoDup_map_snoc; [done|]. intros (c'&Hin%Hb&E')%elem_of_map. lia.
    + apply Hb in Hin. lia.
    + lia.
  - destruct Hw2 as [Hnd Hb Hn]. split; simpl; [|intros c' [Hin | ->]%elem_of_snoc|lia].
    + apply NoDup_map_snoc; [done|]. intros (c'&Hin%Hb&E')%elem_of_map. simpl in E'. lia.
    + apply Hb in Hin. lia.
    + simpl. lia.
  - lia.
  - intros cm [Hin%H4 | ->]%elem_of_snoc; simpl; lia.
  - apply NoDup_map_snoc; [done|]. intros (cm&Hin%H4&E)%elem_of_map. injection E as E _. simpl in E. lia.
  - intros cm [(c0&Hc0&E)%H6 | ->]%elem_of_snoc; [exists c0|exists c]; (split; [set_solver|]); [done|].
    unfold chan_owner. simpl. by rewrite Euid.
  - intros c' [(cm&?&?)%H7 | ->]%elem_of_snoc; [exists cm; set_solver|].
    eexists. split; [apply elem_of_snoc; by right|]. unfold chan_owner. simpl. by rewrite Euid.
  - intros cm [Hin%H8 | ->]%elem_of_snoc; done.
Qed.

Lemma add_channel_counts d c uid t :
  space_inv d -> channels_inv d -> c_id c = next_id (channels d) ->
  counts_except (c_space_id c) (add_channel c uid t d).
Proof.
  intros [_ Hc Hcc] Hci Eid. split; simpl.
  - intros s Hin Hne. destruct (Hc s Hin) as [H1 H2]. split; [done|]. rewrite H2. unfold channel_count. simpl.
    rewrite count_where_app, count_where_cons. unfold active_channel at 3.
    replace (c_space_id c =? s_id s) with false by lia. simpl. unfold count_where, zlen. simpl. lia.
  - intros c' [Hin | ->]%elem_of_snoc Hne; [|done]. destruct (Hcc c' Hin) as [H1 H2]. split; [|done].
    rewrite H1. unfold channel_member_count. simpl. rewrite count_where_app, count_where_cons. simpl.
    apply (wf_bound _ _ (ci_channels d Hci)) in Hin.
    replace (c_id c =? c_id c') with false by lia. unfold count_where, zlen. simpl. lia.
Qed.

Lemma members_inv_add_channel d c uid t : members_inv d -> members_inv (add_channel c uid t d).
Proof. intros []. by split. Qed.

Lemma channel_effect_inv `{Env} d d' :
  channel_effect d d' -> space_inv d -> channels_inv d -> space_inv d' /\ channels_inv d'.
Proof.
  intros [i s m name sort t d0 d1 d2 cid Hs Hm Hr Hn E1 E2|c seconds t d0 Hc Ht] Hsi Hci.
  - destruct (create_channel_Some d0 _ _ _ _ _ _ _ _ Hci E1 E2) as (c&Eid&Eby&Esp&_&_&Hmax&->). rewrite <- Esp. split.
    + apply refresh_inv; [apply members_inv_add_channel, Hsi|by apply add_channel_counts].
    + eapply channels_inv_keep; [apply same_channels_refresh|by apply add_channel_channels_inv].
  - split.
    + by rewrite <- same_spaces_update_channel.
    + eapply channels_inv_keep; [by apply same_channels_update_channel|done].
Qed.
