(* ===== verification/SeqLog.v ===== *)
(** * Sequence-numbered logs and their pages

    The messages of a channel and the direct messages of a conversation
    are logs: rows appended with consecutive sequence numbers to a table
    they share with the other logs.  This file states the contract of a
    log and of its page-wise reading once; the channel and direct-message
    repositories instantiate it. *)
From S2P Require Import Prelude Schema.

Lemma StronglySorted_seqZ m n : StronglySorted Z.lt (seqZ m n).
Proof.
  destruct (Z.le_gt_cases n 0); [rewrite seqZ_nil by lia; constructor|].
  replace n with (Z.of_nat (Z.to_nat n)) by lia. generalize (Z.to_nat n) as k. clear. intros k. revert m.
  induction k as [|k IH]; intros m; [constructor|]. rewrite seqZ_cons by lia.
  replace (Z.pred (Z.of_nat (S k))) with (Z.of_nat k) by lia.
  constructor; [apply IH|]. apply Forall_seqZ. lia.
Qed.

(** ** Logs *)
Class SeqLog (C R : Type) := {
  log_in : C -> R -> bool;      (** the row belongs to the log of the container *)
  log_seq : R -> Z;             (** its sequence number *)
  log_last : C -> Z }.          (** the container's last sequence number *)

Section log.
Context `{SeqLog C R}.

(** The log's rows, in table order, carry the numbers 1 .. last. *)
Definition log_ok (c : C) (l : list R) : Prop :=
  0 <= log_last c /\ map log_seq (where_ (log_in c) l) = seqZ 1 (log_last c).

Lemma log_ok_append c c' l r :
  log_ok c l -> log_in c r = true -> (forall x, log_in c' x = log_in c x) ->
  log_last c' = log_last c + 1 -> log_seq r = log_last c + 1 -> log_ok c' (l ++ [r]).
Proof.
  intros [Hn Hs] Hr Hin El Es. split; [lia|].
  rewrite (where_ext _ (log_in c)) by auto. rewrite where_app, map_app, Hs. unfold where_ at 1. simpl. rewrite Hr. simpl.
  rewrite El, Es, seqZ_app by lia. f_equal. by rewrite seqZ_cons, seqZ_nil, Z.add_comm by lia.
Qed.

Lemma log_ok_other c l r : log_ok c l -> log_in c r = false -> log_ok c (l ++ [r]).
Proof.
  intros [Hn Hs] Hr. split; [done|]. rewrite where_app. unfold where_ at 2. simpl. by rewrite Hr, app_nil_r.
Qed.

(** Changing columns other than the log's keeps it. *)
Lemma log_ok_update c l p f :
  (forall r, log_in c (f r) = log_in c r /\ log_seq (f r) = log_seq r) ->
  log_ok c l -> log_ok c (update_where p f l).
Proof.
  intros Hf [Hn Hs]. split; [done|]. rewrite where_update_where by (intros; apply Hf).
  rewrite map_update_where by (intros; apply Hf). done.
Qed.

(** A row's number identifies it, and lies between 1 and the last one. *)
Lemma log_ok_bound c l r : log_ok c l -> r ∈ l -> log_in c r = true -> 1 <= log_seq r <= log_last c.
Proof.
  intros [Hn Hs] Hr Hin. assert (log_seq r ∈ seqZ 1 (log_last c)) as Hx.
  { rewrite <- Hs. apply elem_of_map. exists r. split; [|done]. by apply elem_of_where. }
  apply elem_of_seqZ in Hx. lia.
Qed.

Lemma log_ok_inj c l r1 r2 :
  log_ok c l -> r1 ∈ l -> r2 ∈ l -> log_in c r1 = true -> log_in c r2 = true -> log_seq r1 = log_seq r2 -> r1 = r2.
Proof.
  intros [Hn Hs] H1 H2 I1 I2 E. eapply (NoDup_key_inj log_seq (where_ (log_in c) l)); [|by apply elem_of_where..|done].
  rewrite Hs. apply NoDup_seqZ.
Qed.

Lemma log_ok_length c l : log_ok c l -> count_where (log_in c) l = log_last c.
Proof.
  intros [Hn Hs]. unfold count_where, zlen. rewrite <- (length_map log_seq), Hs, length_seqZ. lia.
Qed.

(** The rows of a log are in increasing order of their numbers. *)
Lemma log_ok_sorted c l : log_ok c l -> StronglySorted Z.lt (map log_seq (where_ (log_in c) l)).
Proof. intros [_ ->]. apply StronglySorted_seqZ. Qed.
End log.
