(* ===== verification/MessageRepo.v ===== *)
(** * Message repository: [internal/repository/mysql/message.go]

    A channel's messages are numbered by the channel's [message_seq],
    read under [FOR UPDATE] and written back in the same transaction. *)
From S2P Require Import Prelude Go Schema Store SpaceRepo ChannelRepo.

Definition nullableString (value : string) : option string :=
  if value =@ ""%string then None else Some value.

Record CreateMessageInput := mkCreateMessageInput {
  cmi_ChannelID : Z; cmi_SenderUserID : Z; cmi_ClientMsgID : string;
  cmi_MessageType : MessageType; cmi_Text : string; cmi_AttachmentMedia : list Z }.

(** ** Rows with their joins *)
Definition joined_message (d : DB) (m : MessageRow) : option (MessageRow * string) :=
  _ ← channel_by_id (m_channel_id m) d;
  u ← user_by_id (m_sender_user_id m) d;
  Some (m, u_user_id u).

Definition joined_attachment (d : DB) (ma : AttachmentRow) : option (AttachmentRow * Attachment) :=
  mo ← first_where (fun mo => mo_id mo =? ma_media_id ma) (rows (media_objects d));
  b ← first_where (fun b => b_id b =? mo_blob_id mo) (rows (blobs d));
  Some (ma, mkAttachment (mo_id mo) (mo_media_id mo) (mo_blob_id mo) (b_blob_id b) (mo_kind mo)
    (coalesce (mo_original_name mo)) (coalesce (mo_mime_type mo)) (mo_size mo)
    (default 0 (mo_width mo)) (default 0 (mo_height mo)) (mo_created_by mo) (mo_created_at mo)
    (b_sha256 b) (coalesce (mo_file_cid mo)) (b_storage_path b)).

(** [ORDER BY ma.message_id ASC, ma.sort_order ASC] *)
Definition by_attachment (a b : AttachmentRow * Attachment) : Prop :=
  ma_message_id a.1 < ma_message_id b.1 \/
  (ma_message_id a.1 = ma_message_id b.1 /\ ma_sort_order a.1 <= ma_sort_order b.1).
#[export] Instance by_attachment_dec a b : Decision (by_attachment a b).
Proof. unfold by_attachment. apply _. Defined.

Definition by_seq (a b : MessageRow * string) : Prop := m_seq a.1 <= m_seq b.1.
#[export] Instance by_seq_dec a b : Decision (by_seq a b).
Proof. unfold by_seq. apply _. Defined.

(** [ORDER BY m.created_at ASC, m.id ASC] *)
Definition by_age (a b : MessageRow) : Prop :=
  m_created_at a < m_created_at b \/ (m_created_at a = m_created_at b /\ m_id a <= m_id b).
#[export] Instance by_age_dec a b : Decision (by_age a b).
Proof. unfold by_age. apply _. Defined.

Definition to_message (atts : list (AttachmentRow * Attachment)) (r : MessageRow * string) : Message :=
  let m := r.1 in
  let mine := snd <$> where_ (fun a => ma_message_id a.1 =? m_id m) atts in
  mkMessage (m_id m) (m_message_id m) (m_channel_id m) (m_seq m) (m_sender_user_id m) r.2
    (m_client_msg_id m) (m_message_type m) (coalesce (m_text_content m)) (m_status m)
    (m_created_at m) (m_updated_at m) (m_deleted_at m)
    (mkContent (coalesce (m_text_content m))
       (where_ (fun a => AttKind a =@ KindImage) mine)
       (where_ (fun a => negb (AttKind a =@ KindImage)) mine)).

Definition hydrateMessages (rs : list (MessageRow * string)) : M (list Message) :=
  match rs with
  | [] => mret []
  | _ =>
    attachments ← map_err (wrap "load message attachments") (query (fun d =>
      merge_sort by_attachment (omap (joined_attachment d)
        (where_ (fun ma => existsb (fun r => m_id r.1 =? ma_message_id ma) rs)
                (rows (message_attachments d))))));
    mret (to_message attachments <$> rs)
  end.

Definition message_by_id (id : Z) (d : DB) : option MessageRow :=
  first_where (fun m => m_id m =? id) (rows (messages d)).

Definition loadMessageByID (id : Z) : M Message :=
  row ← fetchOne (fun d => m ← message_by_id id d; joined_message d m);
  items ← hydrateMessages [row];
  match items with item :: _ => mret item | [] => throw ErrNotFound end.

(** ** Statements *)
Definition insert_attachment (mid mediaID index t : Z) (d : DB) : option (DB * Z) :=
  '(tbl, id) ← insert_row max_u64
     (fun ma => (ma_message_id ma =? mid) && (ma_media_id ma =? mediaID))
     (fun id => mkAttachmentRow id mid mediaID index t) (message_attachments d);
  Some (set_message_attachments (fun _ => tbl) d, id).

Definition inc_ref (b : BlobRow) : BlobRow :=
  mkBlobRow (b_id b) (b_blob_id b) (b_sha256 b) (b_size b) (b_mime_type b) (b_storage_path b)
    (b_ref_count b + 1) (b_created_at b).
Definition inc_blob_of_media (mediaID : Z) (d : DB) : DB * unit :=
  (set_blobs (update_rows (fun b => existsb (fun mo => (mo_id mo =? mediaID) && (mo_blob_id mo =? b_id b))
                                       (rows (media_objects d))) inc_ref) d, tt).

Definition with_seq (seq t : Z) (c : ChannelRow) : ChannelRow :=
  mkChannelRow (c_id c) (c_space_id c) (c_type c) (c_name c) (c_description c) (c_visibility c)
    (c_slow_mode_seconds c) (c_auto_delete_after_seconds c) seq (c_message_count c + 1)
    (c_subscriber_count c) (c_member_count c) (c_created_by c) (c_status c) (c_sort_order c)
    (c_created_at c) t.

(** [CASE WHEN message_count > n THEN message_count - n ELSE 0 END] *)
Definition with_fewer (n t : Z) (c : ChannelRow) : ChannelRow :=
  mkChannelRow (c_id c) (c_space_id c) (c_type c) (c_name c) (c_description c) (c_visibility c)
    (c_slow_mode_seconds c) (c_auto_delete_after_seconds c) (c_message_seq c)
    (if n <? c_message_count c then c_message_count c - n else 0)
    (c_subscriber_count c) (c_member_count c) (c_created_by c) (c_status c) (c_sort_order c)
    (c_created_at c) t.

Definition with_deleted (t : Z) (m : MessageRow) : MessageRow :=
  mkMessageRow (m_id m) (m_message_id m) (m_channel_id m) (m_seq m) (m_sender_user_id m)
    (m_client_msg_id m) (m_message_type m) (m_text_content m) StatusDeleted (m_created_at m) t (Some t).

Definition is_normal (m : MessageRow) : bool := m_status m =@ StatusNormal.

(** [UPDATE messages SET status = 'deleted' ... WHERE id = ? AND status = 'normal'], with the affected rows *)
Definition mark_deleted (id t : Z) (d : DB) : DB * Z :=
  let p m := (m_id m =? id) && is_normal m in
  (set_messages (update_rows p (with_deleted t)) d, count_where p (rows (messages d))).

Section message_repo.
Context `{Env}.

Definition same_client_msg (cid uid : Z) (clientMsgID : string) (m : MessageRow) : bool :=
  (m_channel_id m =? cid) && (m_sender_user_id m =? uid) && sql_eq (m_client_msg_id m) clientMsgID.
Definition message_by_client (cid uid : Z) (clientMsgID : string) (d : DB) : option MessageRow :=
  first_where (same_client_msg cid uid clientMsgID) (rows (messages d)).

Definition insert_message (i : CreateMessageInput) (extID : string) (cid seq t : Z) (d : DB) : option (DB * Z) :=
  if negb (message_type_enum (cmi_MessageType i)) then None else
  '(tbl, id) ← insert_row max_u64
     (fun m => sql_eq (m_message_id m) extID
               || ((m_channel_id m =? cid) && (m_seq m =? seq))
               || same_client_msg cid (cmi_SenderUserID i) (cmi_ClientMsgID i) m)
     (fun id => mkMessageRow id extID cid seq (cmi_SenderUserID i) (cmi_ClientMsgID i)
        (cmi_MessageType i) (nullableString (cmi_Text i)) StatusNormal t t None) (messages d);
  Some (set_messages (fun _ => tbl) d, id).

(** [getMessageByClientMsgIDTx] *)
Definition getMessageByClientMsgIDTx (cid uid : Z) (clientMsgID : string) : M MessageRow :=
  fetchOne (message_by_client cid uid clientMsgID).

(** The attachment loop of [Create]. *)
Fixpoint create_attachments (mid t : Z) (index : Z) (media : list Z) : TxM unit :=
  match media with
  | [] => mret tt
  | mediaID :: media =>
    _ ← check_exec (wrap "insert message attachment") (exec (insert_attachment mid mediaID index t));
    _ ← check_exec (wrap "increment blob ref count") (exec_ (inc_blob_of_media mediaID));
    create_attachments mid t (index + 1) media
  end.

Definition Create (ctx : Ctx) (i : CreateMessageInput) : M Message :=
  id ← run_tx ctx (wrap "begin create message tx") (
    channelRow ← check_for_update id lock_channel (channel_by_id (cmi_ChannelID i));
    existing ← assign (getMessageByClientMsgIDTx (c_id channelRow) (cmi_SenderUserID i) (cmi_ClientMsgID i));
    match existing with
    | inr m => _ ← commit (wrap "commit create message tx (existing)"); mret (m_id m)
    | inl e =>
      if negb (e =@ ErrNotFound) then throw e
      else
        t ← tx_lift now;
        let nextSeq := u64 (c_message_seq channelRow + 1) in
        messageID ← tx_lift (newExternalID "msg");
        messageDBID ← check_exec (wrap "insert message")
                        (exec (insert_message i messageID (c_id channelRow) nextSeq t));
        _ ← create_attachments messageDBID t 0 (cmi_AttachmentMedia i);
        _ ← check_exec (wrap "update channel seq")
              (exec_ (update_channel (c_id channelRow) (with_seq nextSeq t)));
        _ ← commit_exec (wrap "commit create message tx");
        mret messageDBID
    end);
  loadMessageByID id.

(** ** Reads *)
Definition messages_after (cid after : Z) (d : DB) : list (MessageRow * string) :=
  merge_sort by_seq (omap (joined_message d)
    (where_ (fun m => (m_channel_id m =? cid) && (after <? m_seq m) && is_normal m) (rows (messages d)))).

Definition ListAfterSeq (cid after limit : Z) : M (list Message) :=
  rs ← map_err (wrap "list messages after seq")
         (query (fun d => take (Z.to_nat limit) (messages_after cid after d)));
  hydrateMessages rs.

Definition GetByClientMsgID (cid uid : Z) (clientMsgID : string) : M Message :=
  channelRow ← GetByChannelID cid;
  row ← getMessageByClientMsgIDTx (ChannelID channelRow) uid clientMsgID;
  loadMessageByID (m_id row).

Definition last_message (cid uid : Z) (d : DB) : option MessageRow :=
  _ ← channel_by_id cid d;
  foldr (fun m best =>
    match best with
    | Some b => if m_seq b <? m_seq m then Some m else Some b
    | None => Some m
    end) None (where_ (fun m => (m_channel_id m =? cid) && (m_sender_user_id m =? uid)) (rows (messages d))).

Definition GetLastMessageTime (cid uid : Z) : M (option Z) :=
  map_err (wrap "get last message time") (query (fun d => m_created_at <$> last_message cid uid d)).

Definition ListChannelIDsByMediaID (mediaID : string) : M (list Z) :=
  map_err (wrap "list channel ids by media id") (query (fun d =>
    merge_sort Z.le (remove_dups (
      ma ← rows (message_attachments d);
      mo ← rows (media_objects d);
      m ← rows (messages d);
      if (mo_id mo =? ma_media_id ma) && (m_id m =? ma_message_id ma) && sql_eq (mo_media_id mo) mediaID
      then [m_channel_id m] else [])))).

(** ** [CleanupExpiredMessages] *)
Definition expired (t : Z) (d : DB) (m : MessageRow) : bool :=
  is_normal m &&
  match channel_by_id (m_channel_id m) d with
  | Some c => (0 <? c_auto_delete_after_seconds c)
              && (m_created_at m <? t - c_auto_delete_after_seconds c * 1000)
  | None => false
  end.

Definition load_expired (t limit : Z) (d : DB) : list MessageRow :=
  take (Z.to_nat limit) (merge_sort by_age (where_ (expired t d) (rows (messages d)))).

(** [deletedByChannel[channelID]++] *)
Definition bump (m : gmap Z Z) (cid : Z) : gmap Z Z := <[cid := default 0 (m !! cid) + 1]> m.

Fixpoint delete_expired (t : Z) (deletedByChannel : gmap Z Z) (rs : list MessageRow) : TxM (gmap Z Z) :=
  match rs with
  | [] => mret deletedByChannel
  | row :: rs =>
    affected ← check_exec (wrap "mark expired message deleted") (exec_ (mark_deleted (m_id row) t));
    delete_expired t (if 0 <? affected then bump deletedByChannel (m_channel_id row) else deletedByChannel) rs
  end.

(** Go ranges over the map in an unspecified order; the updates are of distinct channels. *)
Fixpoint update_counts (t : Z) (counts : list (Z * Z)) : TxM unit :=
  match counts with
  | [] => mret tt
  | (cid, n) :: counts =>
    if n =? 0 then update_counts t counts
    else _ ← check (wrap "update expired channel count") (exec_ (update_channel cid (with_fewer n t)));
         update_counts t counts
  end.

Definition CleanupExpiredMessages (ctx : Ctx) (t limit : Z) : M Z :=
  let limit := if limit =? 0 then 100 else limit in
  run_tx ctx (wrap "begin cleanup expired messages tx") (
    rs ← check (wrap "load expired messages") (query (load_expired t limit));
    if zlen rs =? 0 then
      _ ← commit (wrap "commit cleanup expired messages tx (empty)"); mret 0
    else
      deletedByChannel ← delete_expired t ∅ rs;
      _ ← update_counts t (map_to_list deletedByChannel);
      _ ← commit (wrap "commit cleanup expired messages tx");
      mret (foldl (fun total kv => u32 (total + u32 kv.2)) 0 (map_to_list deletedByChannel))).
End message_repo.
