(* ===== verification/MessageInv.v ===== *)
(** * Messages: database effects of the repository methods and their invariant *)
From S2P Require Import Prelude Go Schema Store SpaceRepo SpaceInv ChannelRepo ChannelInv SeqLog MessageRepo.

(** ** The loops as functions on the database *)
Fixpoint attach_all (mid t index : Z) (media : list Z) (d : DB) : option DB :=
  match media with
  | [] => Some d
  | mediaID :: media =>
    '(d1, _) ← insert_attachment mid mediaID index t d;
    attach_all mid t (index + 1) media (inc_blob_of_media mediaID d1).1
  end.

Definition mark_all (t : Z) (rs : list MessageRow) (d : DB) : DB :=
  fold_left (fun d r => (mark_deleted (m_id r) t d).1) rs d.
Definition fewer_all (t : Z) (counts : list (Z * Z)) (d : DB) : DB :=
  fold_left (fun d kv => if kv.2 =? 0 then d else (update_channel kv.1 (with_fewer kv.2 t) d).1) counts d.

(** The counters [deletedByChannel] after the loop. *)
Fixpoint count_deleted (t : Z) (m : gmap Z Z) (rs : list MessageRow) (d : DB) : gmap Z Z :=
  match rs with
  | [] => m
  | r :: rs =>
    let '(d', n) := mark_deleted (m_id r) t d in
    count_deleted t (if 0 <? n then bump m (m_channel_id r) else m) rs d'
  end.

Inductive message_effect `{Env} : DB -> DB -> Prop :=
| meff_create i c ext t d d1 d2 mid :
    channel_by_id (c_id c) d = Some c ->
    message_by_client (c_id c) (cmi_SenderUserID i) (cmi_ClientMsgID i) d = None ->
    insert_message i ext (c_id c) (u64 (c_message_seq c + 1)) t d = Some (d1, mid) ->
    attach_all mid t 0 (cmi_AttachmentMedia i) d1 = Some d2 ->
    message_effect d (update_channel (c_id c) (with_seq (u64 (c_message_seq c + 1)) t) d2).1
| meff_cleanup t limit d :
    message_effect d (fewer_all t (map_to_list (count_deleted t ∅ (load_expired t limit d) d))
                        (mark_all t (load_expired t limit d) d)).

(** ** Running the loops *)
(** The transaction goes on with another world. *)
Record tx_on (t t' : Tx) : Prop := mkTxOn {
  on_err : tx_err t' = tx_err t; on_locks : tx_locks t' = tx_locks t; on_done : tx_done t' = tx_done t;
  on_frame : frame (tx_world t) (tx_world t') }.
Record tx_failed (t t' : Tx) : Prop := mkTxFailed {
  fail_err : tx_err t' <> None; fail_locks : tx_locks t' = tx_locks t; fail_done : tx_done t' = tx_done t;
  fail_frame : frame (tx_world t) (tx_world t') }.

Section loops.
Context `{Env}.

Lemma wp_create_attachments mid t idx media tx Q :
  (forall tx' e, tx_failed tx tx' -> Q tx' (inl e)) ->
  (forall tx', tx_on tx tx' -> attach_all mid t idx media (w_db (tx_world tx)) = Some (w_db (tx_world tx')) ->
     Q tx' (inr tt)) ->
  wp (create_attachments mid t idx media) tx Q.
Proof.
  revert idx tx. induction media as [|mediaID media IH]; intros idx tx Hf Hok; simpl.
  { apply wp_ret. apply Hok; [by split|done]. }
  repeat wp_step.
  1-3: apply Hf; split; simpl; try done; solve_frame.
  apply IH; simpl.
  - intros tx' e [? ? ? ?]. apply Hf. split; try done. simpl in *. etrans; [|done]. solve_frame.
  - intros tx' [? ? ? ?] E. apply Hok; [split; try done; simpl in *; etrans; [|done]; solve_frame|].
    simpl in *. match goal with Hx : insert_attachment _ _ _ _ _ = _ |- _ => by rewrite Hx end.
Qed.

Lemma wp_delete_expired t m rs tx Q :
  (forall tx' e, tx_failed tx tx' -> Q tx' (inl e)) ->
  (forall tx', tx_on tx tx' -> w_db (tx_world tx') = mark_all t rs (w_db (tx_world tx)) ->
     Q tx' (inr (count_deleted t m rs (w_db (tx_world tx))))) ->
  wp (delete_expired t m rs) tx Q.
Proof.
  revert m tx. induction rs as [|r rs IH]; intros m tx Hf Hok; simpl.
  { apply wp_ret. apply Hok; [by split|done]. }
  repeat wp_step.
  - apply Hf; split; simpl; try done; solve_frame.
  - apply IH; simpl.
    + intros tx' e [? ? ? ?]. apply Hf. split; try done. simpl in *. etrans; [|done]. solve_frame.
    + intros tx' [? ? ? ?] E. apply Hok; [split; try done; simpl in *; etrans; [|done]; solve_frame|]. done.
Qed.

Lemma wp_update_counts t counts tx Q :
  (forall tx' e, tx_failed tx tx' -> Q tx' (inl e)) ->
  (forall tx', tx_done tx' = tx_done tx -> frame (tx_world tx) (tx_world tx') ->
     w_db (tx_world tx') = fewer_all t counts (w_db (tx_world tx)) -> Q tx' (inr tt)) ->
  wp (update_counts t counts) tx Q.
Proof.
  revert tx. induction counts as [|[cid n] counts IH]; intros tx Hf Hok; simpl.
  { apply wp_ret. by apply Hok. }
  destruct (n =? 0) eqn:En.
  { apply IH; [done|]. intros tx' ? ? E. apply Hok; try done. simpl. by rewrite En. }
  repeat wp_step.
  - apply Hf; split; simpl; try done; solve_frame.
  - apply IH; simpl.
    + intros tx' e [? ? ? ?]. apply Hf. split; try done. simpl in *. etrans; [|done]. solve_frame.
    + intros tx' ? ? E. apply Hok; [done|etrans; [|done]; solve_frame|]. simpl. by rewrite En.
Qed.
End loops.

(** ** The repository methods *)
Lemma keeps_hydrate R `{!PreOrder R} rs : keeps R (hydrateMessages rs).
Proof. unfold hydrateMessages. solve_keeps. Qed.
#[export] Hint Resolve keeps_hydrate : keeps.
Lemma keeps_loadMessageByID R `{!PreOrder R} id : keeps R (loadMessageByID id).
Proof. unfold loadMessageByID. solve_keeps. Qed.
#[export] Hint Resolve keeps_loadMessageByID : keeps.

Section effects.
Context `{Env}.

(** A method that only reads, run where the database is known. *)
Lemma wp_reads {A} (m : M A) w Q : keeps eq m -> (forall w' r, w_db w' = w_db w -> Q w' r) -> wp m w Q.
Proof. intros Hm HQ. eapply wp_mono; [apply Hm|]. simpl. intros w' r E. apply HQ. by rewrite E. Qed.

Lemma Create_db ctx i w : wp (Create ctx i) w (fun w' _ => unchanged_or message_effect w w').
Proof.
  unfold Create, unchanged_or, getMessageByClientMsgIDTx.
  repeat first [ wp_step
    | apply wp_create_attachments; [intros ? ? []|intros ? [] ?]; cbn [tx_world tx_err tx_locks tx_done] in *
    | apply wp_reads; [solve_keeps|intros; cbn [w_db finish] in *] ].
  all: try unchanged.
  match goal with Hw : w_db _ = _ |- _ => rewrite Hw; clear Hw end.
  right. cbn. eapply (meff_create i a); eauto with mesh.
Qed.

Lemma CleanupExpiredMessages_db ctx t limit w :
  wp (CleanupExpiredMessages ctx t limit) w (fun w' _ => unchanged_or message_effect w w').
Proof.
  unfold CleanupExpiredMessages, unchanged_or.
  repeat first [ wp_step
    | apply wp_delete_expired; [intros ? ? []|intros ? [] ?]; cbn [tx_world tx_err tx_locks tx_done] in *
    | apply wp_update_counts; [intros ? ? []|intros ? ? ? ?]; cbn [tx_world tx_err tx_locks tx_done] in * ].
  all: first [ unchanged | left; rewrite finish_unchanged; simpl; congruence | idtac ].
  right. match goal with H1 : _ = mark_all _ _ _, H2 : _ = fewer_all _ _ _ |- _ => rewrite H2, H1 end.
  apply meff_cleanup.
Qed.
End effects.

(** ** The invariant *)
#[export] Instance channel_log : SeqLog ChannelRow MessageRow :=
  { log_in c m := m_channel_id m =? c_id c; log_seq := m_seq; log_last := c_message_seq }.

Definition count_normal (c : ChannelRow) (d : DB) : Z :=
  count_where (fun m => (m_channel_id m =? c_id c) && is_normal m) (rows (messages d)).

Definition client_key `{Env} (m : MessageRow) : Z * Z * string :=
  (m_channel_id m, m_sender_user_id m, sort_key (m_client_msg_id m)).

(** Everything but the counter. *)
Record msg_base `{Env} (d : DB) : Prop := {
  mg_table : table_wf m_id (messages d);
  mg_width : next_id (messages d) <= max_u64 + 1;
  mg_log : forall c, c ∈ rows (channels d) -> log_ok c (rows (messages d));
  mg_fk : forall m, m ∈ rows (messages d) -> exists c, c ∈ rows (channels d) /\ c_id c = m_channel_id m;
  mg_client : NoDup (map client_key (rows (messages d)));
  mg_ids : NoDup (map (fun m => sort_key (m_message_id m)) (rows (messages d))) }.
Record msg_inv `{Env} (d : DB) : Prop := {
  mg_base : msg_base d;
  mg_count : forall c, c ∈ rows (channels d) -> c_message_count c = count_normal c d }.

(** It depends on the messages and on three columns of the channels. *)
Definition msg_key (c : ChannelRow) : Z * Z * Z := (c_id c, c_message_seq c, c_message_count c).
Record same_msgs (d d' : DB) : Prop := {
  sg_messages : messages d' = messages d;
  sg_channels : map msg_key (rows (channels d')) = map msg_key (rows (channels d)) }.

#[export] Instance same_msgs_equiv : Equivalence same_msgs.
Proof.
  split; [by split|intros d d' [? ?]; by split|].
  intros d1 d2 d3 [? ?] [? ?]. split; congruence.
Qed.

Lemma same_msgs_channel d d' c :
  same_msgs d d' -> c ∈ rows (channels d') ->
  exists c0, c0 ∈ rows (channels d) /\ c_id c = c_id c0 /\ c_message_seq c = c_message_seq c0 /\
    c_message_count c = c_message_count c0.
Proof.
  intros [_ E] Hc. assert (msg_key c ∈ map msg_key (rows (channels d))) as Hk
    by (rewrite <- E; apply elem_of_map; eauto).
  apply elem_of_map in Hk as (c0&Hc0&Ek). injection Ek as ? ? ?. eauto 10.
Qed.

Lemma log_ok_key (c c0 : ChannelRow) (l : list MessageRow) :
  c_id c = c_id c0 -> c_message_seq c = c_message_seq c0 -> log_ok c0 l -> log_ok c l.
Proof. intros E1 E2. unfold log_ok. simpl. by rewrite E1, E2. Qed.

#[export] Instance msg_inv_proper `{Env} : Proper (same_msgs ==> iff) msg_inv.
Proof.
  assert (forall d d', same_msgs d d' -> msg_inv d -> msg_inv d') as Himp.
  { intros d d' Hs [[H1 H2 H3 H5 H6 H7] H4]. pose proof (sg_messages _ _ Hs) as Em.
    split; [split|]; rewrite ?Em; try done.
    2: { intros m (c&Hc&E)%H5. destruct (same_msgs_channel d' d c) as (c'&?&?&_); [by symmetry|done|].
      exists c'. split; [done|congruence]. }
    - intros c (c0&Hc0&E1&E2&_)%(same_msgs_channel d d'); [|done]. eapply log_ok_key; eauto.
    - intros c (c0&Hc0&E1&_&E3)%(same_msgs_channel d d'); [|done].
      unfold count_normal. rewrite Em, E1, E3. by apply H4. }
  intros d d' Hs. split; apply Himp; [done|by symmetry].
Qed.

(** ** Preservation *)
Lemma same_msgs_refresh sid t d : same_msgs d (refresh sid t d).
Proof. split; [done|]. simpl. by rewrite map_update_where. Qed.

Lemma insert_member_msgs sid uid role b t d d1 mid :
  insert_member sid uid role b t d = Some (d1, mid) -> same_msgs d d1.
Proof. unfold insert_member. intros (?&?&?)%bind_Some. case_match; by simplify_eq. Qed.
Lemma insert_server_msgs i name t d d1 sid :
  insert_server i name t d = Some (d1, sid) -> same_msgs d d1.
Proof. unfold insert_server. intros (?&?&?)%bind_Some. case_match; by simplify_eq. Qed.

Lemma space_effect_same_msgs `{Env} d d' : space_effect d d' -> same_msgs d d'.
Proof.
  intros [ ]; try done; (etrans; [|apply same_msgs_refresh]); eauto using insert_member_msgs; try done.
  etrans; eauto using insert_member_msgs, insert_server_msgs.
Qed.

Lemma attach_all_frame mid t idx media d d' :
  attach_all mid t idx media d = Some d' ->
  d' = set_blobs (fun _ => blobs d') (set_message_attachments (fun _ => message_attachments d') d).
Proof.
  revert idx d. induction media as [|mediaID media IH]; intros idx d E; simpl in E.
  { simplify_eq. by destruct d'. }
  apply bind_Some in E as ([d1 id]&E1&E2). apply IH in E2. rewrite E2 at 1.
  unfold insert_attachment in E1. apply bind_Some in E1 as ([tbl id']&_&?). by simplify_eq.
Qed.

Section preservation.
Context `{Env}.

Lemma insert_message_Some i ext cid seq t d d1 mid :
  insert_message i ext cid seq t d = Some (d1, mid) ->
  exists r, m_id r = mid /\ m_message_id r = ext /\ m_channel_id r = cid /\ m_seq r = seq /\
    m_sender_user_id r = cmi_SenderUserID i /\ m_client_msg_id r = cmi_ClientMsgID i /\
    m_status r = StatusNormal /\
    mid = next_id (messages d) /\ mid <= max_u64 /\
    (forall m, m ∈ rows (messages d) -> sort_key (m_message_id m) <> sort_key ext) /\
    (forall m, m ∈ rows (messages d) -> client_key m <> (cid, cmi_SenderUserID i, sort_key (cmi_ClientMsgID i))) /\
    d1 = set_messages (fun tbl => mkTable (rows tbl ++ [r]) (mid + 1)) d.
Proof.
  unfold insert_message. intros E. case_match; [done|]. apply bind_Some in E as ([tbl id]&E&?). simplify_eq.
  pose proof (insert_row_Some _ _ _ _ _ _ E) as (->&Hmax&Hdup&Er&En).
  eexists. split_and!; [..|by destruct tbl; simpl in *; subst]; try done.
  - intros m Hm%Hdup Ek. apply orb_false_iff in Hm as [[Hm _]%orb_false_iff _].
    apply not_true_iff_false in Hm. apply Hm. by apply sql_eq_spec.
  - intros m Hm%Hdup Ek. apply orb_false_iff in Hm as [_ Hm]. unfold same_client_msg in Hm.
    injection Ek as E1 E2 E3. apply sql_eq_spec in E3. rewrite E1, E2, E3, !Z.eqb_refl in Hm. done.
Qed.

(** The channel's counters move with the message. *)
Lemma post_message_inv d c r t :
  msg_inv d -> channels_inv d -> c ∈ rows (channels d) ->
  m_id r = next_id (messages d) -> m_id r <= max_u64 -> m_channel_id r = c_id c ->
  m_seq r = c_message_seq c + 1 -> m_status r = StatusNormal ->
  (forall m, m ∈ rows (messages d) -> sort_key (m_message_id m) <> sort_key (m_message_id r)) ->
  (forall m, m ∈ rows (messages d) -> client_key m <> client_key r) ->
  msg_inv (update_channel (c_id c) (with_seq (m_seq r) t)
             (set_messages (fun tbl => mkTable (rows tbl ++ [r]) (m_id r + 1)) d)).1.
Proof.
  intros [[H1 H2 H3 H5 H6 H7] H4] Hci Hc Eid Hmax Ech Eseq Est Hid Hcl.
  assert (forall c', c' ∈ rows (channels d) -> c_id c' = c_id c -> c' = c) as Huniq.
  { intros c' Hc' E. eapply (NoDup_key_inj c_id); eauto. apply wf_nodup, (ci_channels d Hci). }
  split; [split|]; simpl.
  - destruct H1 as [Hnd Hb Hn]. split; simpl; [|intros m [Hm | ->]%elem_of_snoc|lia].
    + apply NoDup_map_snoc; [done|]. intros (m&Hm%Hb&E)%elem_of_map. lia.
    + apply Hb in Hm. lia.
    + lia.
  - lia.
  - intros c' (c0&Hc0&->)%elem_of_update_where. destruct (c_id c0 =? c_id c) eqn:E.
    + assert (c0 = c) as -> by (apply Huniq; [done|lia]).
      eapply log_ok_append; [by apply H3|simpl; lia|done|simpl; lia|done].
    + apply log_ok_other; [by apply H3|]. simpl. lia.
  - intros m [Hm | ->]%elem_of_snoc.
    + apply H5 in Hm as (c0&Hc0&E). exists (if c_id c0 =? c_id c then with_seq (m_seq r) t c0 else c0).
      split; [apply elem_of_update_where; eauto|]. by destruct (_ =? _).
    + exists (with_seq (m_seq r) t c). split; [|done]. apply elem_of_update_where. exists c.
      by rewrite Z.eqb_refl.
  - apply NoDup_map_snoc; [done|]. intros (m&Hm%Hcl&E)%elem_of_map. congruence.
  - apply NoDup_map_snoc; [done|]. intros (m&Hm%Hid&E)%elem_of_map. congruence.
  - intros c' (c0&Hc0&->)%elem_of_update_where. unfold count_normal. simpl.
    rewrite count_where_app, count_where_cons. unfold is_normal at 2. rewrite Est, Ech.
    specialize (H4 c0 Hc0). unfold count_normal in H4. unfold count_where at 2, zlen, where_. simpl.
    destruct (c_id c0 =? c_id c) eqn:E; simpl.
    + replace (c_id c =? c_id c0) with true by lia. simpl. rewrite H4. lia.
    + replace (c_id c =? c_id c0) with false by lia. simpl. rewrite H4. lia.
Qed.

(** Sequence numbers never reach the end of [uint64]: message ids run out first. *)
Lemma next_seq_u64 d c : msg_inv d -> c ∈ rows (channels d) -> next_id (messages d) <= max_u64 ->
  u64 (c_message_seq c + 1) = c_message_seq c + 1.
Proof.
  intros Hi Hc Hn. pose proof (mg_log d (mg_base d Hi) c Hc) as Hl. apply u64_small.
  pose proof (log_ok_length _ _ Hl) as El. simpl in El.
  pose proof (count_where_le (fun m => m_channel_id m =? c_id c) (rows (messages d))).
  pose proof (table_wf_length _ _ (mg_table d (mg_base d Hi))). destruct Hl as [Hpos _]. simpl in Hpos. lia.
Qed.

Lemma create_message_inv d i c ext t d1 d2 mid :
  msg_inv d -> channels_inv d -> channel_by_id (c_id c) d = Some c ->
  insert_message i ext (c_id c) (u64 (c_message_seq c + 1)) t d = Some (d1, mid) ->
  attach_all mid t 0 (cmi_AttachmentMedia i) d1 = Some d2 ->
  msg_inv (update_channel (c_id c) (with_seq (u64 (c_message_seq c + 1)) t) d2).1.
Proof.
  intros Hi Hci [_ Hc]%channel_by_id_Some E1 E2%attach_all_frame.
  apply insert_message_Some in E1 as (r&<-&<-&Ech&Es&Eu&Ecm&Est&Emid&Hmax&Hid&Hcl&->).
  rewrite (next_seq_u64 d) in * by (done || lia).
  assert (client_key r = (c_id c, cmi_SenderUserID i, sort_key (cmi_ClientMsgID i))) as Ek
    by (unfold client_key; congruence).
  rewrite <- Ek in Hcl. rewrite <- Es.
  pose proof (post_message_inv d c r t Hi Hci Hc Emid Hmax Ech Es Est Hid Hcl) as Hp.
  rewrite E2. destruct Hp as [[] ?]. by split; [split|].
Qed.

(** *** Cleanup: the counters are off by the deletions not yet accounted for *)
Definition counts_off (f : Z -> Z) (d : DB) : Prop :=
  forall c, c ∈ rows (channels d) -> c_message_count c = count_normal c d + f (c_id c).

Lemma mark_deleted_base id t d : msg_base d -> msg_base (mark_deleted id t d).1.
Proof.
  intros [H1 H2 H3 H5 H6 H7]. split; simpl; try done.
  - by apply table_wf_update.
  - intros c Hc. apply log_ok_update; [done|by apply H3].
  - intros m (m0&Hm0&->)%elem_of_update_where. apply H5 in Hm0 as (c&?&E). exists c. split; [done|].
    by case_match.
  - by rewrite map_update_where.
  - by rewrite map_update_where.
Qed.

Lemma count_normal_mark id t d c m :
  msg_base d -> m ∈ rows (messages d) -> m_id m = id -> is_normal m = true ->
  count_normal c (mark_deleted id t d).1 =
  count_normal c d - (if m_channel_id m =? c_id c then 1 else 0).
Proof.
  intros Hb. unfold count_normal. simpl. pose proof (wf_nodup _ _ (mg_table d Hb)) as Hnd. clear Hb.
  revert Hnd. induction (rows (messages d)) as [|m0 l IH]; intros Hnd Hm Hid Hn; [set_solver|].
  simpl in Hnd. apply NoDup_cons in Hnd as [Hnin Hnd]. unfold update_where in *. simpl. rewrite !count_where_cons.
  apply elem_of_cons in Hm as [<-|Hm].
  - rewrite Hid, Z.eqb_refl, Hn. simpl. rewrite andb_false_r, andb_true_r.
    fold (update_where (fun m0 => (m_id m0 =? id) && is_normal m0) (with_deleted t) l).
    rewrite update_where_none; [|].
    { destruct (_ =? _); lia. }
    intros m' Hm'. destruct (m_id m' =? id) eqn:E; [|done]. exfalso. apply Hnin. apply elem_of_map.
    exists m'. split; [done|lia].
  - rewrite IH by done. assert ((m_id m0 =? id) = false) as ->; [|simpl; lia].
    apply Z.eqb_neq. intros E. apply Hnin. apply elem_of_map. exists m. split; [done|congruence].
Qed.

Lemma mark_deleted_affected id t d :
  0 < (mark_deleted id t d).2 -> exists m, m ∈ rows (messages d) /\ m_id m = id /\ is_normal m = true.
Proof.
  simpl. intros Hp. destruct (count_where_pos (fun m => (m_id m =? id) && is_normal m) (rows (messages d)))
    as (m&Hm&Hx); [lia|]. bools. eauto.
Qed.

Lemma mark_deleted_unaffected id t d : (mark_deleted id t d).2 <= 0 -> (mark_deleted id t d).1 = d.
Proof.
  simpl. intros H0. assert (where_ (fun m => (m_id m =? id) && is_normal m) (rows (messages d)) = []) as E.
  { unfold count_where, zlen in H0. destruct (where_ _ _); [done|]. simpl in H0. lia. }
  unfold set_messages, update_rows. rewrite update_where_none; [by destruct d as [? ? ? ? ? [] ? ? ? ? ? ? ? ?]|].
  intros r Hr. apply not_true_iff_false. intros Hp.
  assert (r ∈ ([] : list MessageRow)) by (rewrite <- E; by apply elem_of_where). set_solver.
Qed.

Definition off (m : gmap Z Z) (cid : Z) : Z := default 0 (m !! cid).

Lemma count_deleted_cons t m r rs d :
  count_deleted t m (r :: rs) d =
  count_deleted t (if 0 <? (mark_deleted (m_id r) t d).2 then bump m (m_channel_id r) else m) rs
    (mark_deleted (m_id r) t d).1.
Proof. done. Qed.

Lemma mark_all_off t rs m d :
  msg_base d -> counts_off (off m) d -> Forall (fun r => exists m, m ∈ rows (messages d) /\ m_id m = m_id r /\
    m_channel_id m = m_channel_id r) rs ->
  msg_base (mark_all t rs d) /\ counts_off (off (count_deleted t m rs d)) (mark_all t rs d).
Proof.
  revert m d. induction rs as [|r rs IH]; intros m d Hb Ho Hrs; [done|].
  apply Forall_cons in Hrs as [(m0&Hm0&Eid&Ech) Hrs]. rewrite count_deleted_cons.
  change (mark_all t (r :: rs) d) with (mark_all t rs (mark_deleted (m_id r) t d).1).
  apply IH; [by apply mark_deleted_base|..].
  - destruct (0 <? (mark_deleted (m_id r) t d).2) eqn:E.
    + destruct (mark_deleted_affected (m_id r) t d) as (m1&Hm1&E1&Hn); [lia|].
      assert (m1 = m0) as ->.
      { eapply (NoDup_key_inj m_id); [apply wf_nodup, (mg_table d Hb)|done|done|congruence]. }
      intros c Hc. rewrite (count_normal_mark (m_id r) t d c m0) by done.
      specialize (Ho c Hc). rewrite Ho. unfold off, bump. rewrite Ech.
      destruct (decide (m_channel_id r = c_id c)) as [->|Hne].
      * rewrite lookup_insert_eq, Z.eqb_refl. simpl. lia.
      * rewrite lookup_insert_ne by done. replace (m_channel_id r =? c_id c) with false by lia. lia.
    + rewrite mark_deleted_unaffected by lia. done.
  - eapply Forall_impl; [exact Hrs|]. simpl. intros r' (m1&Hm1&?&?).
    exists (if (m_id m1 =? m_id r) && is_normal m1 then with_deleted t m1 else m1).
    split; [apply elem_of_update_where; eauto|]. by case_match.
Qed.

Lemma fewer_base n t cid d : msg_base d -> msg_base (update_channel cid (with_fewer n t) d).1.
Proof.
  intros [H1 H2 H3 H5 H6 H7]. split; simpl; try done.
  - intros c (c0&Hc0&->)%elem_of_update_where. specialize (H3 c0 Hc0). by destruct (_ =? _).
  - intros m (c&Hc&E)%H5. exists (if c_id c =? cid then with_fewer n t c else c).
    split; [apply elem_of_update_where; eauto|]. by destruct (_ =? _).
Qed.

Lemma fewer_all_off t (l : list (Z * Z)) f d :
  msg_base d -> counts_off f d -> NoDup l.*1 -> (forall k n, (k, n) ∈ l -> f k = n) ->
  (forall k, f k <> 0 -> k ∈ l.*1) -> (forall k, 0 <= f k) -> msg_inv (fewer_all t l d).
Proof.
  revert f d. induction l as [|[k n] l IH]; intros f d Hb Ho Hnd Hl Hf Hpos.
  { split; [done|]. simpl. intros c Hc. rewrite (Ho c Hc).
    destruct (decide (f (c_id c) = 0)) as [->|Hn]; [lia|]. apply Hf in Hn. set_solver. }
  simpl in Hnd. apply NoDup_cons in Hnd as [Hk Hnd]. unfold fewer_all in *. simpl.
  assert (f k = n) as En by (apply Hl; set_solver).
  destruct (n =? 0) eqn:E0.
  - apply (IH f); try done; [intros; apply Hl; set_solver|].
    intros k' Hk'. apply Hf in Hk' as Hin. simpl in Hin. apply elem_of_cons in Hin as [->|?]; [lia|done].
  - apply (IH (fun k' => if k' =? k then 0 else f k')); try done.
    + by apply fewer_base.
    + intros c (c0&Hc0&->)%elem_of_update_where.
      change (count_normal ?c (update_channel k (with_fewer n t) d).1) with (count_normal c d).
      specialize (Ho c0 Hc0). pose proof (count_where_nonneg (fun m => (m_channel_id m =? c_id c0) && is_normal m)
        (rows (messages d))) as Hnn. fold (count_normal c0 d) in Hnn.
      destruct (c_id c0 =? k) eqn:E; simpl.
      * rewrite E. assert (c_id c0 = k) as Ek by lia. rewrite Ek, En in Ho.
        unfold count_normal in *. simpl. rewrite Ek in *. destruct (n <? c_message_count c0) eqn:E'; lia.
      * rewrite E. done.
    + intros k' n' Hin. destruct (k' =? k) eqn:E; [|apply Hl; set_solver].
      exfalso. apply Hk. apply list_elem_of_fmap. exists (k', n'). split; [simpl; lia|done].
    + intros k'. destruct (k' =? k) eqn:E; [done|]. intros Hn. apply Hf in Hn. simpl in Hn.
      apply elem_of_cons in Hn as [->|?]; [lia|done].
    + intros k'. destruct (k' =? k); [lia|done].
Qed.

Lemma count_deleted_nonneg t m rs d : (forall k, 0 <= off m k) -> forall k, 0 <= off (count_deleted t m rs d) k.
Proof.
  revert m d. induction rs as [|r rs IH]; intros m d Hm; [done|]. rewrite count_deleted_cons. apply IH.
  destruct (0 <? _); [|done]. intros k. unfold off, bump in *.
  destruct (decide (k = m_channel_id r)) as [->|?]; [|by rewrite lookup_insert_ne].
  rewrite lookup_insert_eq. simpl. specialize (Hm (m_channel_id r)). lia.
Qed.

Lemma elem_of_load_expired t limit d m :
  m ∈ load_expired t limit d -> m ∈ rows (messages d) /\ expired t d m = true.
Proof.
  unfold load_expired. intros (i&Hm&_)%elem_of_take. apply list_elem_of_lookup_2 in Hm.
  rewrite merge_sort_Permutation in Hm. apply elem_of_where in Hm. tauto.
Qed.

Lemma cleanup_inv t limit d :
  msg_inv d -> msg_inv (fewer_all t (map_to_list (count_deleted t ∅ (load_expired t limit d) d))
                          (mark_all t (load_expired t limit d) d)).
Proof.
  intros [Hb Hc]. destruct (mark_all_off t (load_expired t limit d) ∅ d Hb) as [Hb' Ho].
  - intros c Hin. unfold off. rewrite lookup_empty. simpl. rewrite (Hc c Hin). lia.
  - apply Forall_forall. intros r [Hr _]%elem_of_load_expired. eauto.
  - eapply fewer_all_off; try done.
    + apply NoDup_fst_map_to_list.
    + intros k n Hkn. apply elem_of_map_to_list in Hkn. unfold off. by rewrite Hkn.
    + intros k Hk. unfold off in Hk. destruct (_ !! k) as [n|] eqn:E; [|done].
      apply list_elem_of_fmap. exists (k, n). split; [done|]. by apply elem_of_map_to_list.
    + apply count_deleted_nonneg. intros k. unfold off. by rewrite lookup_empty.
Qed.

Lemma message_effect_inv d d' : message_effect d d' -> msg_inv d -> channels_inv d -> msg_inv d'.
Proof. intros []; eauto using create_message_inv, cleanup_inv. Qed.

(** Messages leave the rest of a channel alone. *)
Lemma same_fewer_all t l d : same_spaces d (fewer_all t l d) /\ same_channels d (fewer_all t l d).
Proof.
  revert d. induction l as [|[k n] l IH]; intros d; [done|]. unfold fewer_all in *. simpl.
  destruct (n =? 0); [apply IH|]. split; (etrans; [|apply IH]).
  - by apply same_spaces_update_channel.
  - by apply same_channels_update_channel.
Qed.
Lemma same_mark_all t rs d : same_spaces d (mark_all t rs d) /\ same_channels d (mark_all t rs d).
Proof.
  revert d. induction rs as [|r rs IH]; intros d; [done|]. unfold mark_all in *. simpl.
  split; (etrans; [|apply IH]); done.
Qed.

Lemma message_effect_same d d' : message_effect d d' -> same_spaces d d' /\ same_channels d d'.
Proof.
  intros [i c ext t d0 d1 d2 mid _ _ E1 E2%attach_all_frame|t limit d0].
  - apply insert_message_Some in E1 as (r&_&_&_&_&_&_&_&_&_&_&_&->).
    split; (etrans; [|first [by apply same_spaces_update_channel|by apply same_channels_update_channel]]);
      rewrite E2; done.
  - split; (etrans; [apply same_mark_all|apply same_fewer_all]).
Qed.

(** A new channel starts with an empty log. *)
Lemma channel_effect_msg_inv d d' : channel_effect d d' -> msg_inv d -> channels_inv d -> msg_inv d'.
Proof.
  intros [i s m name sort t d0 d1 d2 cid Hs Hm Hr Hn E1 E2|c seconds t d0 Hc Ht] Hmi Hci.
  - destruct (create_channel_Some d0 _ _ _ _ _ _ _ _ Hci E1 E2) as (c&Eid&_&_&Eseq&Ecnt&Hmax&->).
    rewrite <- same_msgs_refresh. destruct Hmi as [[H1 H2 H3 H5 H6 H7] H4].
    assert (forall m, m ∈ rows (messages d0) -> (m_channel_id m =? c_id c) = false) as Hfresh.
    { intros m' (c'&Hc'&E')%H5. apply (wf_bound _ _ (ci_channels d0 Hci)) in Hc'. lia. }
    split; [split|]; simpl; try done.
    + intros c' [Hc' | ->]%elem_of_snoc; [by apply H3|]. split; simpl; [lia|]. rewrite Eseq.
      rewrite (where_ext _ (fun _ => false)) by auto. unfold where_. by rewrite List.filter_false.
    + intros m' (c'&Hc'&E')%H5. exists c'. set_solver.
    + intros c' [Hc' | ->]%elem_of_snoc; [by apply H4|]. rewrite Ecnt. unfold count_normal. simpl.
      rewrite (count_where_ext _ (fun _ => false)); [|intros m' Hm'; by rewrite Hfresh].
      unfold count_where, where_. by rewrite List.filter_false.
  - assert (same_msgs d0 (update_channel (c_id c) (with_auto_delete seconds t) d0).1) as <-; [|done].
    split; [done|]. simpl. by rewrite map_update_where.
Qed.
End preservation.
