(* ===== verification/CursorNonceRepo.v ===== *)
(** * Read cursors and authentication nonces: [internal/repository/mysql/read_and_auth.go] *)
From S2P Require Import Prelude Go Schema Store SpaceRepo ChannelRepo.

Definition is_cursor (uid cid : Z) (r : ReadRow) : bool := (rd_user_id r =? uid) && (rd_channel_id r =? cid).
Definition cursor (uid cid : Z) (d : DB) : option ReadRow := first_where (is_cursor uid cid) (rows (reads d)).

Definition with_delivered (seq t : Z) (r : ReadRow) : ReadRow :=
  mkReadRow (rd_id r) (rd_user_id r) (rd_channel_id r) (Z.max (rd_last_delivered_seq r) seq) (rd_last_read_seq r) t.
Definition with_read (seq t : Z) (r : ReadRow) : ReadRow :=
  mkReadRow (rd_id r) (rd_user_id r) (rd_channel_id r) (rd_last_delivered_seq r) (Z.max (rd_last_read_seq r) seq) t.

(** [INSERT ... SELECT ... FROM channels c WHERE c.id = ? ON DUPLICATE KEY UPDATE]: no
    row is selected, and nothing is inserted, when the channel does not exist. *)
Definition upsert_cursor (uid cid : Z) (f : ReadRow -> ReadRow) (mk : Z -> ReadRow) (d : DB) : option (DB * unit) :=
  match channel_by_id cid d with
  | None => Some (d, tt)
  | Some c =>
    tbl ← upsert_row max_u64 (is_cursor uid (c_id c)) f mk (reads d);
    Some (set_reads (fun _ => tbl) d, tt)
  end.

Definition UpsertDeliveredSeq (userID channelID seq : Z) : M unit :=
  t ← now;
  map_err (wrap "upsert delivered seq")
    (exec (upsert_cursor userID channelID (with_delivered seq t)
             (fun id => mkReadRow id userID channelID seq 0 t))).

Definition UpsertReadSeq (userID channelID seq : Z) : M unit :=
  t ← now;
  map_err (wrap "upsert read seq")
    (exec (upsert_cursor userID channelID (with_read seq t)
             (fun id => mkReadRow id userID channelID 0 seq t))).

Section nonce_repo.
Context `{Env}.

Definition insert_nonce (hash client node : string) (issued expires t : Z) (d : DB) : option (DB * unit) :=
  '(tbl, _) ← insert_row max_u64 (fun n => sql_eq (n_nonce_hash n) hash)
     (fun id => mkNonceRow id hash client node issued expires None t) (nonces d);
  Some (set_nonces (fun _ => tbl) d, tt).

Definition StoreNonce (nonceHash clientPeerID nodePeerID : string) (issuedAt expiresAt : Z) : M unit :=
  t ← now;
  map_err (wrap "store nonce")
    (exec (insert_nonce nonceHash clientPeerID nodePeerID (datetime3 issuedAt) (datetime3 expiresAt) t)).

Definition usable_nonce (hash client node : string) (t : Z) (n : NonceRow) : bool :=
  sql_eq (n_nonce_hash n) hash && sql_eq (n_client_peer_id n) client && sql_eq (n_node_peer_id n) node
  && (n_used_at n =@ None) && (t <=? n_expires_at n).
Definition with_used (t : Z) (n : NonceRow) : NonceRow :=
  mkNonceRow (n_id n) (n_nonce_hash n) (n_client_peer_id n) (n_node_peer_id n) (n_issued_at n)
    (n_expires_at n) (Some t) (n_created_at n).
Definition consume_nonce (hash client node : string) (t : Z) (d : DB) : DB * Z :=
  (set_nonces (update_rows (usable_nonce hash client node t) (with_used t)) d,
   count_where (usable_nonce hash client node t) (rows (nonces d))).

(** [t] is in milliseconds: the caller truncates. *)
Definition UseNonce (nonceHash clientPeerID nodePeerID : string) (t : Z) : M unit :=
  affected ← map_err (wrap "use nonce") (exec_ (consume_nonce nonceHash clientPeerID nodePeerID t));
  when (affected =? 0) ErrNotFound.
End nonce_repo.
