(* ===== verification/BlobRepo.v ===== *)
(** * Blob and media repository: [internal/repository/mysql/blob.go] *)
From S2P Require Import Prelude Go Schema Store SpaceRepo MessageRepo.

Record Blob := mkBlob {
  BlobDBID : Z; BlobID : string; BlobSHA256 : string; BlobSize : Z; BlobMIMEType : string;
  BlobStoragePath : string; BlobRefCount : Z; BlobCreatedAt : Z }.
Record CreateBlobInput := mkCreateBlobInput {
  cbi_BlobID : string; cbi_SHA256 : string; cbi_Size : Z; cbi_MIMEType : string;
  cbi_StoragePath : string; cbi_RefCount : Z }.
Record MediaObject := mkMediaObject {
  MediaDBID : Z; MediaID : string; MediaBlobDBID : Z; MediaBlobID : string; MediaKind : Kind;
  MediaOriginalName : string; MediaMIMEType : string; MediaSize : Z; MediaWidth : Z; MediaHeight : Z;
  MediaCreatedBy : Z; MediaCreatedAt : Z; MediaSHA256 : string; MediaStoragePath : string;
  MediaFileCID : string }.
Record CreateMediaInput := mkCreateMediaInput {
  cme_MediaID : string; cme_BlobID : Z; cme_Kind : Kind; cme_OriginalName : string;
  cme_MIMEType : string; cme_Size : Z; cme_Width : option Z; cme_Height : option Z;
  cme_CreatedBy : Z; cme_FileCID : string }.

Definition to_blob (b : BlobRow) : Blob :=
  mkBlob (b_id b) (b_blob_id b) (b_sha256 b) (b_size b) (coalesce (b_mime_type b)) (b_storage_path b)
    (b_ref_count b) (b_created_at b).
Definition to_media (b : BlobRow) (mo : MediaRow) : MediaObject :=
  mkMediaObject (mo_id mo) (mo_media_id mo) (mo_blob_id mo) (b_blob_id b) (mo_kind mo)
    (coalesce (mo_original_name mo)) (coalesce (mo_mime_type mo)) (mo_size mo)
    (default 0 (mo_width mo)) (default 0 (mo_height mo)) (mo_created_by mo) (mo_created_at mo)
    (b_sha256 b) (b_storage_path b) (coalesce (mo_file_cid mo)).

Section blob_repo.
Context `{Env}.

Definition blob_by_sha (sha : string) (d : DB) : option BlobRow :=
  first_where (fun b => sql_eq (b_sha256 b) sha) (rows (blobs d)).
Definition GetBySHA256 (sha256 : string) : M Blob := fetchOne (fun d => to_blob <$> blob_by_sha sha256 d).

Definition insert_blob (i : CreateBlobInput) (t : Z) (d : DB) : option (DB * unit) :=
  '(tbl, _) ← insert_row max_u64
     (fun b => sql_eq (b_blob_id b) (cbi_BlobID i) || sql_eq (b_sha256 b) (cbi_SHA256 i))
     (fun id => mkBlobRow id (cbi_BlobID i) (cbi_SHA256 i) (cbi_Size i) (nullableString (cbi_MIMEType i))
        (cbi_StoragePath i) (cbi_RefCount i) t) (blobs d);
  Some (set_blobs (fun _ => tbl) d, tt).

Definition CreateBlob (i : CreateBlobInput) : M Blob :=
  t ← now;
  _ ← map_err (wrap "insert blob") (exec (insert_blob i t));
  GetBySHA256 (cbi_SHA256 i).

Definition IncRef (blobID : Z) : M unit :=
  map_err (wrap "increment blob ref count")
    (exec_ (fun d => (set_blobs (update_rows (fun b => b_id b =? blobID) inc_ref) d, tt))).

Definition media_by_id (mediaID : string) (d : DB) : option MediaObject :=
  mo ← first_where (fun mo => sql_eq (mo_media_id mo) mediaID
                      && existsb (fun b => b_id b =? mo_blob_id mo) (rows (blobs d))) (rows (media_objects d));
  b ← first_where (fun b => b_id b =? mo_blob_id mo) (rows (blobs d));
  Some (to_media b mo).
Definition GetByMediaID (mediaID : string) : M MediaObject := fetchOne (media_by_id mediaID).

Definition insert_media (i : CreateMediaInput) (t : Z) (d : DB) : option (DB * unit) :=
  '(tbl, _) ← insert_row max_u64 (fun mo => sql_eq (mo_media_id mo) (cme_MediaID i))
     (fun id => mkMediaRow id (cme_MediaID i) (cme_BlobID i) (cme_Kind i)
        (nullableString (cme_OriginalName i)) (nullableString (cme_MIMEType i))
        (nullableString (cme_FileCID i)) (cme_Size i) (cme_Width i) (cme_Height i) (cme_CreatedBy i) t)
     (media_objects d);
  Some (set_media_objects (fun _ => tbl) d, tt).

Definition CreateMedia (i : CreateMediaInput) : M MediaObject :=
  t ← now;
  _ ← map_err (wrap "insert media object") (exec (insert_media i t));
  GetByMediaID (cme_MediaID i).
End blob_repo.
