(* ===== verification/DirectRepo.v ===== *)
(** * Direct-chat repository: [internal/repository/mysql/direct_chat.go]

    One conversation per unordered pair of users; its messages are
    numbered by the conversation's [last_seq], read under [FOR UPDATE]. *)
From S2P Require Import Prelude Go Schema Store SpaceRepo MessageRepo.

Record DirectConversation := mkDirectConversation {
  ConvDBID : Z; ConversationID : string; UserLowID : Z; UserHighID : Z; LastSeq : Z; LastMessageAtMs : Z }.
Record DirectConversationListItem := mkDirectConversationListItem {
  ItemConversationID : string; PeerUserID : string; PeerDisplayName : string; ItemLastSeq : Z;
  ItemLastMessageAtMs : Z }.
Record DirectMessage := mkDirectMessage {
  DMMessageID : string; DMConversationID : string; DMSeq : Z; DMSenderUserID : Z; DMRecipientUserID : Z;
  SenderExternalID : string; RecipientExternalID : string; DMClientMsgID : string;
  DMMessageType : MessageType; DMText : string; CreatedAtMs : Z; RecipientAckedAtMs : option Z }.
Record CreateDirectMessageInput := mkCreateDirectMessageInput {
  cdi_ConversationID : string; cdi_SenderUserID : Z; cdi_RecipientUserID : Z; cdi_ClientMsgID : string;
  cdi_MessageType : MessageType; cdi_Text : string }.

Definition normalizeUserPair (a b : Z) : Z * Z := if a <? b then (a, b) else (b, a).

Definition to_conversation (c : ConvRow) : DirectConversation :=
  mkDirectConversation (dc_id c) (dc_conversation_id c) (dc_user_low_id c) (dc_user_high_id c) (dc_last_seq c)
    (dc_last_message_at_ms c).
Definition lock_conv (c : ConvRow) : RowLock := LockConv (dc_id c).
Definition conv_by_pair (low high : Z) (d : DB) : option ConvRow :=
  first_where (fun c => (dc_user_low_id c =? low) && (dc_user_high_id c =? high)) (rows (conversations d)).

(** The rows of [direct_messages] with both users. *)
Definition to_direct (d : DB) (m : DirectRow) : option DirectMessage :=
  su ← user_by_id (dm_sender_user_id m) d;
  ru ← user_by_id (dm_recipient_user_id m) d;
  Some (mkDirectMessage (dm_message_id m) (dm_conversation_id m) (dm_seq m) (dm_sender_user_id m)
    (dm_recipient_user_id m) (u_user_id su) (u_user_id ru) (dm_client_msg_id m) (dm_message_type m)
    (coalesce (dm_text_content m)) (dm_created_at_ms m) (dm_recipient_acked_at_ms m)).

Definition by_updated (a b : ConvRow * (UserRow * UserRow)) : Prop := dc_updated_at b.1 <= dc_updated_at a.1.
#[export] Instance by_updated_dec a b : Decision (by_updated a b).
Proof. unfold by_updated. apply _. Defined.
Definition by_dm_seq (a b : DirectMessage) : Prop := DMSeq a <= DMSeq b.
#[export] Instance by_dm_seq_dec a b : Decision (by_dm_seq a b).
Proof. unfold by_dm_seq. apply _. Defined.

Definition with_last (seq ms t : Z) (c : ConvRow) : ConvRow :=
  mkConvRow (dc_id c) (dc_conversation_id c) (dc_user_low_id c) (dc_user_high_id c) seq ms
    (dc_created_at c) t.
Definition with_acked (ms : Z) (m : DirectRow) : DirectRow :=
  mkDirectRow (dm_id m) (dm_message_id m) (dm_conversation_id m) (dm_seq m) (dm_sender_user_id m)
    (dm_recipient_user_id m) (dm_client_msg_id m) (dm_message_type m) (dm_text_content m)
    (dm_created_at_ms m) (Some ms) (dm_created_at m).
Definition update_conv (id : Z) (f : ConvRow -> ConvRow) (d : DB) : DB * unit :=
  (set_conversations (update_rows (fun c => dc_id c =? id) f) d, tt).

Section direct_repo.
Context `{Env}.

(** ** Conversations *)
Definition insert_conv (cid : string) (low high t : Z) (d : DB) : option (DB * Z) :=
  '(tbl, id) ← insert_row max_u64
     (fun c => sql_eq (dc_conversation_id c) cid
               || ((dc_user_low_id c =? low) && (dc_user_high_id c =? high)))
     (fun id => mkConvRow id cid low high 0 0 t t) (conversations d);
  Some (set_conversations (fun _ => tbl) d, id).

Definition GetOrCreateConversation (ctx : Ctx) (userAID userBID : Z) : M DirectConversation :=
  _ ← when (userAID =? userBID) (Errorf "invalid peer");
  let '(low, high) := normalizeUserPair userAID userBID in
  run_tx ctx id (
    row ← assign_for_update lock_conv (conv_by_pair low high);
    match row with
    | inr c => _ ← commit id; mret (to_conversation c)
    | inl e =>
      if negb (e =@ ErrNotFound) then throw e
      else
        t ← tx_lift now;
        cid ← tx_lift (newExternalID "dmcnv");
        _ ← check (wrap "insert direct_conversations") (exec (insert_conv cid low high t));
        _ ← commit id;
        mret (mkDirectConversation 0 cid low high 0 0)
    end).

Definition conv_by_external (conversationID : string) (d : DB) : option ConvRow :=
  first_where (fun c => sql_eq (dc_conversation_id c) conversationID) (rows (conversations d)).
Definition GetConversationByExternalID (conversationID : string) : M DirectConversation :=
  fetchOne (fun d => to_conversation <$> conv_by_external (TrimSpace conversationID) d).

Definition conv_with_users (d : DB) (c : ConvRow) : option (ConvRow * (UserRow * UserRow)) :=
  ul ← user_by_id (dc_user_low_id c) d;
  uh ← user_by_id (dc_user_high_id c) d;
  Some (c, (ul, uh)).
Definition list_item (userID : Z) (x : ConvRow * (UserRow * UserRow)) : DirectConversationListItem :=
  let '(c, (ul, uh)) := x in
  let peer := if userID =? dc_user_low_id c then uh else ul in
  mkDirectConversationListItem (dc_conversation_id c) (u_user_id peer) (u_display_name peer) (dc_last_seq c)
    (dc_last_message_at_ms c).
Definition ListConversationsForUser (userID : Z) : M (list DirectConversationListItem) :=
  query (fun d => list_item userID <$> merge_sort by_updated (omap (conv_with_users d)
    (where_ (fun c => (dc_user_low_id c =? userID) || (dc_user_high_id c =? userID)) (rows (conversations d))))).

(** ** Messages *)
Definition loadDirectMessageRow (p : DirectRow -> bool) : M DirectMessage :=
  fetchOne (fun d => first_where (fun _ => true) (omap (to_direct d) (where_ p (rows (direct_messages d))))).

Definition same_dm (conversationID : string) (uid : Z) (clientMsgID : string) (m : DirectRow) : bool :=
  sql_eq (dm_conversation_id m) conversationID && (dm_sender_user_id m =? uid)
  && sql_eq (dm_client_msg_id m) clientMsgID.
Definition GetDirectMessageByClientMsgID (conversationID : string) (uid : Z) (clientMsgID : string) : M DirectMessage :=
  loadDirectMessageRow (same_dm conversationID uid clientMsgID).
Definition GetDirectMessageByMessageID (messageID : string) : M DirectMessage :=
  loadDirectMessageRow (fun m => sql_eq (dm_message_id m) messageID).

Definition insert_direct (i : CreateDirectMessageInput) (extID : string) (mt : MessageType) (seq ms t : Z) (d : DB)
  : option (DB * Z) :=
  if negb (message_type_enum mt) then None else
  '(tbl, id) ← insert_row max_u64
     (fun m => sql_eq (dm_message_id m) extID
               || (sql_eq (dm_conversation_id m) (cdi_ConversationID i) && (dm_seq m =? seq))
               || same_dm (cdi_ConversationID i) (cdi_SenderUserID i) (cdi_ClientMsgID i) m)
     (fun id => mkDirectRow id extID (cdi_ConversationID i) seq (cdi_SenderUserID i) (cdi_RecipientUserID i)
        (cdi_ClientMsgID i) mt (nullableString (cdi_Text i)) ms None t) (direct_messages d);
  Some (set_direct_messages (fun _ => tbl) d, id).

Definition CreateDirectMessage (ctx : Ctx) (i : CreateDirectMessageInput) : M DirectMessage :=
  r ← run_tx ctx id (
    conv ← check_for_update id lock_conv (conv_by_external (cdi_ConversationID i));
    if negb (cdi_SenderUserID i =? dc_user_low_id conv) && negb (cdi_SenderUserID i =? dc_user_high_id conv)
    then throw ErrDirectChatForbidden
    else if negb (cdi_RecipientUserID i =? dc_user_low_id conv) && negb (cdi_RecipientUserID i =? dc_user_high_id conv)
    then throw ErrDirectChatForbidden
    else if cdi_SenderUserID i =? cdi_RecipientUserID i then throw (Errorf "invalid recipient")
    else
      existing ← assign (loadDirectMessageRow
                           (same_dm (cdi_ConversationID i) (cdi_SenderUserID i) (cdi_ClientMsgID i)));
      match existing with
      | inr m => _ ← commit id; mret (inl m)
      | inl e =>
        if negb (e =@ ErrNotFound) then throw e
        else
          t ← tx_lift now;
          let createdMs := u64 t in
          msgID ← tx_lift (newExternalID "dmmsg");
          let nextSeq := u64 (dc_last_seq conv + 1) in
          let mt := if cdi_MessageType i =@ MessageTypeOther "" then TypeText else cdi_MessageType i in
          _ ← check (wrap "insert direct_messages") (exec (insert_direct i msgID mt nextSeq createdMs t));
          _ ← check (wrap "update direct_conversations")
                (exec_ (update_conv (dc_id conv) (with_last nextSeq createdMs t)));
          _ ← commit id;
          mret (inr msgID)
      end);
  match r with
  | inl m => mret m
  | inr msgID => GetDirectMessageByMessageID msgID
  end.

Definition ackable (messageID : string) (recipient : Z) (m : DirectRow) : bool :=
  sql_eq (dm_message_id m) messageID && (dm_recipient_user_id m =? recipient)
  && (dm_recipient_acked_at_ms m =@ None).
Definition ack_direct (messageID : string) (recipient ms : Z) (d : DB) : DB * Z :=
  (set_direct_messages (update_rows (ackable messageID recipient) (with_acked ms)) d,
   count_where (ackable messageID recipient) (rows (direct_messages d))).

Definition AckDirectMessage (messageID : string) (recipientUserID ackedAtMs : Z) : M (bool * Z * string) :=
  msg ← GetDirectMessageByMessageID messageID;
  if negb (DMRecipientUserID msg =? recipientUserID) then throw ErrDirectChatForbidden
  else if negb (RecipientAckedAtMs msg =@ None) then mret (true, DMSenderUserID msg, DMConversationID msg)
  else
    n ← exec_ (ack_direct messageID recipientUserID ackedAtMs);
    if n =? 0 then
      m2 ← GetDirectMessageByMessageID messageID;
      if negb (RecipientAckedAtMs m2 =@ None) then mret (true, DMSenderUserID m2, DMConversationID m2)
      else throw (Errorf "ack failed")
    else mret (false, DMSenderUserID msg, DMConversationID msg).

Definition pending_after (conversationID : string) (recipient after : Z) (d : DB) : list DirectMessage :=
  merge_sort by_dm_seq (omap (to_direct d)
    (where_ (fun m => sql_eq (dm_conversation_id m) conversationID && (dm_recipient_user_id m =? recipient)
                      && (dm_recipient_acked_at_ms m =@ None) && (after <? dm_seq m))
            (rows (direct_messages d)))).

Definition ListPendingDirectMessages (conversationID : string) (recipientUserID afterSeq limit : Z)
  : M (list DirectMessage * Z * bool) :=
  let limit := if (limit =? 0) || (500 <? limit) then 100 else limit in
  out ← query (fun d => take (Z.to_nat limit) (pending_after conversationID recipientUserID afterSeq d));
  let hasMore := u32 (zlen out) =? limit in
  let nextAfter := match last out with Some m => DMSeq m | None => afterSeq end in
  mret (out, nextAfter, hasMore).
End direct_repo.
