(* ===== verification/DirectInv.v ===== *)
(** * Direct chat: database effects of the repository methods and their invariant *)
From S2P Require Import Prelude Go Schema Store SpaceRepo SeqLog MessageRepo DirectRepo.

(** ** Effects *)
Inductive direct_effect `{Env} : DB -> DB -> Prop :=
| deff_open cid low high t d d' id :
    low < high -> conv_by_pair low high d = None ->
    insert_conv cid low high t d = Some (d', id) ->
    direct_effect d d'
| deff_send i c ext mt ms t d d1 id :
    conv_by_external (cdi_ConversationID i) d = Some c ->
    (cdi_SenderUserID i = dc_user_low_id c \/ cdi_SenderUserID i = dc_user_high_id c) ->
    (cdi_RecipientUserID i = dc_user_low_id c \/ cdi_RecipientUserID i = dc_user_high_id c) ->
    cdi_SenderUserID i <> cdi_RecipientUserID i ->
    insert_direct i ext mt (u64 (dc_last_seq c + 1)) ms t d = Some (d1, id) ->
    direct_effect d (update_conv (dc_id c) (with_last (u64 (dc_last_seq c + 1)) ms t) d1).1
| deff_ack mid uid ms d : direct_effect d (ack_direct mid uid ms d).1.

Section effects.
Context `{Env}.

Lemma normalizeUserPair_lt a b : a <> b -> (normalizeUserPair a b).1 < (normalizeUserPair a b).2.
Proof. unfold normalizeUserPair. intros. destruct (a <? b) eqn:E; simpl; lia. Qed.

Lemma GetOrCreateConversation_db ctx a b w :
  wp (GetOrCreateConversation ctx a b) w (fun w' _ => unchanged_or direct_effect w w').
Proof.
  unfold GetOrCreateConversation, unchanged_or.
  wp_step. wp_step; [unchanged|]. bools. pose proof (normalizeUserPair_lt a b ltac:(lia)) as Hlt.
  destruct (normalizeUserPair a b) as [low high]. simpl in Hlt. repeat wp_step.
  all: first [unchanged | effect ltac:(eapply deff_open)].
Qed.

Lemma keeps_loadDirect R `{!PreOrder R} p : keeps R (loadDirectMessageRow p).
Proof. unfold loadDirectMessageRow. solve_keeps. Qed.

Lemma CreateDirectMessage_db ctx i w :
  wp (CreateDirectMessage ctx i) w (fun w' _ => unchanged_or direct_effect w w').
Proof.
  unfold CreateDirectMessage, GetDirectMessageByMessageID, loadDirectMessageRow, unchanged_or.
  repeat wp_step.
  all: first [unchanged | effect ltac:(eapply deff_send)].
  all: repeat match goal with Hx : _ && _ = false |- _ => apply andb_false_iff in Hx as [?|?] end; bools; auto.
Qed.

Lemma AckDirectMessage_db mid uid ms w :
  wp (AckDirectMessage mid uid ms) w (fun w' _ => unchanged_or direct_effect w w').
Proof.
  unfold AckDirectMessage, GetDirectMessageByMessageID, loadDirectMessageRow, unchanged_or.
  repeat wp_step.
  all: first [unchanged | right; apply deff_ack].
Qed.
End effects.

(** ** The invariant *)
#[export] Instance conversation_log `{Env} : SeqLog ConvRow DirectRow :=
  { log_in c m := sql_eq (dm_conversation_id m) (dc_conversation_id c);
    log_seq := dm_seq; log_last := dc_last_seq }.

Definition pair_key (c : ConvRow) : Z * Z := (dc_user_low_id c, dc_user_high_id c).
Definition dm_client_key `{Env} (m : DirectRow) : string * Z * string :=
  (sort_key (dm_conversation_id m), dm_sender_user_id m, sort_key (dm_client_msg_id m)).

(** The two ends of a message are the two participants of its conversation. *)
Definition participants_ok (c : ConvRow) (m : DirectRow) : Prop :=
  (dm_sender_user_id m = dc_user_low_id c /\ dm_recipient_user_id m = dc_user_high_id c) \/
  (dm_sender_user_id m = dc_user_high_id c /\ dm_recipient_user_id m = dc_user_low_id c).

Record direct_inv `{Env} (d : DB) : Prop := {
  di_convs : table_wf dc_id (conversations d);
  di_msgs : table_wf dm_id (direct_messages d);
  di_width : next_id (direct_messages d) <= max_u64 + 1;
  di_order : forall c, c ∈ rows (conversations d) -> dc_user_low_id c < dc_user_high_id c;
  di_pair : NoDup (map pair_key (rows (conversations d)));
  di_ext : NoDup (map (fun c => sort_key (dc_conversation_id c)) (rows (conversations d)));
  di_log : forall c, c ∈ rows (conversations d) -> log_ok c (rows (direct_messages d));
  di_fk : forall m, m ∈ rows (direct_messages d) ->
     exists c, c ∈ rows (conversations d) /\ log_in c m = true;
  di_part : forall c m, c ∈ rows (conversations d) -> m ∈ rows (direct_messages d) -> log_in c m = true ->
     participants_ok c m;
  di_client : NoDup (map dm_client_key (rows (direct_messages d)));
  di_ids : NoDup (map (fun m => sort_key (dm_message_id m)) (rows (direct_messages d))) }.

Section preservation.
Context `{Env}.

Lemma open_inv d cid low high t d' id :
  direct_inv d -> low < high -> conv_by_pair low high d = None ->
  insert_conv cid low high t d = Some (d', id) -> direct_inv d'.
Proof.
  intros [H1 H2 H3 H4 H5 H6 H7 H8 H9 H10 H11] Hlt Hnone E.
  unfold insert_conv in E. apply bind_Some in E as ([tbl id']&E&?). simplify_eq.
  assert (table_wf dc_id tbl) by (eapply table_wf_insert; [..|exact E]; done).
  apply insert_row_Some in E as (_&_&Hdup&Er&_).
  assert (forall c, c ∈ rows (conversations d) -> sort_key (dc_conversation_id c) <> sort_key cid) as Hext.
  { intros c Hc%Hdup Ek. apply orb_false_iff in Hc as [Hc _]. apply sql_eq_spec in Ek. congruence. }
  assert (forall m, m ∈ rows (direct_messages d) -> sql_eq (dm_conversation_id m) cid = false) as Hfresh.
  { intros m (c&Hc%Hext&Ec)%H8. apply not_true_iff_false. intros Ek. apply Hc.
    apply sql_eq_spec in Ek, Ec. congruence. }
  split; simpl; rewrite ?Er; try done.
  - intros c [Hc | ->]%elem_of_snoc; auto.
  - apply NoDup_map_snoc; [done|]. intros (c&Hc%Hdup&Ek)%elem_of_map.
    apply orb_false_iff in Hc as [_ Hc]. injection Ek as Ek1 Ek2. simpl in *. lia.
  - apply NoDup_map_snoc; [done|]. intros (c&Hc%Hext&Ek)%elem_of_map. simpl in Ek. congruence.
  - intros c [Hc | ->]%elem_of_snoc; [auto|]. split; [done|]. simpl.
    rewrite (where_ext _ (fun _ => false)) by auto. unfold where_. by rewrite List.filter_false.
  - intros m (c&Hc&Ec)%H8. exists c. split; [set_solver|done].
  - intros c m [Hc | ->]%elem_of_snoc Hm Hin; [by apply H9|]. simpl in Hin. rewrite Hfresh in Hin; done.
Qed.

Lemma insert_direct_Some i ext mt seq ms t d d1 id :
  insert_direct i ext mt seq ms t d = Some (d1, id) ->
  exists r, dm_id r = id /\ dm_message_id r = ext /\ dm_conversation_id r = cdi_ConversationID i /\ dm_seq r = seq /\
    dm_sender_user_id r = cdi_SenderUserID i /\ dm_recipient_user_id r = cdi_RecipientUserID i /\
    dm_client_msg_id r = cdi_ClientMsgID i /\ dm_recipient_acked_at_ms r = None /\
    id = next_id (direct_messages d) /\ id <= max_u64 /\
    (forall m, m ∈ rows (direct_messages d) -> sort_key (dm_message_id m) <> sort_key ext) /\
    (forall m, m ∈ rows (direct_messages d) -> dm_client_key m <> dm_client_key r) /\
    d1 = set_direct_messages (fun tbl => mkTable (rows tbl ++ [r]) (id + 1)) d.
Proof.
  unfold insert_direct. intros E. case_match; [done|]. apply bind_Some in E as ([tbl id']&E&?). simplify_eq.
  pose proof (insert_row_Some _ _ _ _ _ _ E) as (->&Hmax&Hdup&Er&En).
  eexists. split_and!; [..|by destruct tbl; simpl in *; subst]; try done.
  - intros m Hm%Hdup Ek. apply orb_false_iff in Hm as [[Hm _]%orb_false_iff _].
    apply not_true_iff_false in Hm. apply Hm. by apply sql_eq_spec.
  - intros m Hm%Hdup Ek. apply orb_false_iff in Hm as [_ Hm]. unfold same_dm in Hm.
    injection Ek as E1 E2 E3. simpl in *. apply sql_eq_spec in E1, E3. rewrite E1, E2, E3, Z.eqb_refl in Hm. done.
Qed.

Lemma conv_by_external_Some ext d c :
  conv_by_external ext d = Some c -> sort_key (dc_conversation_id c) = sort_key ext /\ c ∈ rows (conversations d).
Proof. intros [E Hc]%first_where_Some. by rewrite <- sql_eq_spec. Qed.

Lemma next_dm_seq_u64 d c : direct_inv d -> c ∈ rows (conversations d) -> next_id (direct_messages d) <= max_u64 ->
  u64 (dc_last_seq c + 1) = dc_last_seq c + 1.
Proof.
  intros Hi Hc Hn. pose proof (di_log d Hi c Hc) as Hl. apply u64_small.
  pose proof (log_ok_length _ _ Hl) as El. simpl in El.
  pose proof (count_where_le (fun m => sql_eq (dm_conversation_id m) (dc_conversation_id c)) (rows (direct_messages d))).
  pose proof (table_wf_length _ _ (di_msgs d Hi)). destruct Hl as [Hpos _]. simpl in Hpos. lia.
Qed.

Lemma post_direct_inv d c r ms t :
  direct_inv d -> c ∈ rows (conversations d) ->
  dm_id r = next_id (direct_messages d) -> dm_id r <= max_u64 -> log_in c r = true ->
  dm_seq r = dc_last_seq c + 1 -> participants_ok c r ->
  (forall m, m ∈ rows (direct_messages d) -> sort_key (dm_message_id m) <> sort_key (dm_message_id r)) ->
  (forall m, m ∈ rows (direct_messages d) -> dm_client_key m <> dm_client_key r) ->
  direct_inv (update_conv (dc_id c) (with_last (dm_seq r) ms t)
                (set_direct_messages (fun tbl => mkTable (rows tbl ++ [r]) (dm_id r + 1)) d)).1.
Proof.
  intros [H1 H2 H3 H4 H5 H6 H7 H8 H9 H10 H11] Hc Eid Hmax Hin Eseq Hpart Hid Hcl.
  assert (forall c', c' ∈ rows (conversations d) -> dc_id c' = dc_id c -> c' = c) as Huniq.
  { intros c' Hc' E. eapply (NoDup_key_inj dc_id); eauto using wf_nodup. }
  assert (forall c', c' ∈ rows (conversations d) -> log_in c' r = true -> c' = c) as Huniq2.
  { intros c' Hc' E. eapply (NoDup_key_inj (fun c => sort_key (dc_conversation_id c))); [done..|].
    simpl in *. apply sql_eq_spec in E, Hin. congruence. }
  set (g := fun c0 => if dc_id c0 =? dc_id c then with_last (dm_seq r) ms t c0 else c0).
  assert (forall c0, pair_key (g c0) = pair_key c0 /\ dc_conversation_id (g c0) = dc_conversation_id c0 /\
    dc_id (g c0) = dc_id c0) as Hg by (intros c0; unfold g; by destruct (_ =? _)).
  split; simpl; try done.
  - by apply (table_wf_update dc_id).
  - destruct H2 as [Hnd Hb Hn]. split; simpl; [|intros m [Hm | ->]%elem_of_snoc|lia].
    + apply NoDup_map_snoc; [done|]. intros (m&Hm%Hb&E)%elem_of_map. lia.
    + apply Hb in Hm. lia.
    + lia.
  - lia.
  - intros c' (c0&Hc0%H4&->)%elem_of_update_where. by destruct (_ =? _).
  - by rewrite map_update_where.
  - by rewrite map_update_where.
  - intros c' (c0&Hc0&->)%elem_of_update_where. destruct (dc_id c0 =? dc_id c) eqn:E.
    + assert (c0 = c) as -> by (apply Huniq; [done|lia]).
      eapply log_ok_append; [by apply H7|done|done|simpl; lia|done].
    + apply log_ok_other; [by apply H7|]. apply not_true_iff_false. intros Hx%Huniq2; [|done]. subst. lia.
  - intros m [Hm | ->]%elem_of_snoc.
    + apply H8 in Hm as (c0&Hc0&E). exists (g c0). split; [apply elem_of_update_where; eauto|].
      simpl in *. by rewrite (proj1 (proj2 (Hg c0))).
    + exists (g c). split; [apply elem_of_update_where; eauto|]. simpl in *. by rewrite (proj1 (proj2 (Hg c))).
  - intros c' m (c0&Hc0&->)%elem_of_update_where Hm Hx. fold (g c0) in *.
    destruct (Hg c0) as (Ek&Eext&_). injection Ek as Ek1 Ek2. unfold participants_ok. rewrite Ek1, Ek2.
    simpl in Hx. rewrite Eext in Hx. apply elem_of_snoc in Hm as [Hm | ->]; [by apply H9|].
    by assert (c0 = c) as -> by (by apply Huniq2).
  - apply NoDup_map_snoc; [done|]. intros (m&Hm%Hcl&E)%elem_of_map. congruence.
  - apply NoDup_map_snoc; [done|]. intros (m&Hm%Hid&E)%elem_of_map. congruence.
Qed.

Lemma ack_inv mid uid ms d : direct_inv d -> direct_inv (ack_direct mid uid ms d).1.
Proof.
  intros [H1 H2 H3 H4 H5 H6 H7 H8 H9 H10 H11]. split; simpl; try done.
  - by apply table_wf_update.
  - intros c Hc. apply log_ok_update; [done|auto].
  - intros m (m0&Hm0&->)%elem_of_update_where. apply H8 in Hm0 as (c&?&?). exists c. by case_match.
  - intros c m Hc (m0&Hm0&->)%elem_of_update_where Hx.
    specialize (H9 c m0 Hc Hm0). by case_match; apply H9.
  - by rewrite map_update_where.
  - by rewrite map_update_where.
Qed.

Lemma direct_effect_inv d d' : direct_effect d d' -> direct_inv d -> direct_inv d'.
Proof.
  intros [cid low high t d0 d1 id Hlt Hn E|i c ext mt ms t d0 d1 id Hc Hs Hr Hne E|mid uid ms d0] Hi.
  - eauto using open_inv.
  - apply conv_by_external_Some in Hc as [Ec Hc].
    apply insert_direct_Some in E as (r&<-&<-&E3&E4&E5&E6&E7&E8&E9&Hmax&Hid&Hcl&->).
    rewrite (next_dm_seq_u64 d0) in * by (done || lia). rewrite <- E4.
    apply post_direct_inv; try done.
    + simpl. apply sql_eq_spec. congruence.
    + unfold participants_ok. pose proof (di_order d0 Hi c Hc). rewrite E5, E6. naive_solver lia.
  - by apply ack_inv.
Qed.
End preservation.
