(* ===== verification/Proto.v ===== *)
(** * Wire messages: [internal/gen/proto/meshserver/session/v1/session.pb.go]

    The enumerations are open [int32] values, as in the generated code;
    every message is a record with the generated field names, prefixed by
    the message name.  A sub-message that may be absent is an [option]. *)
From S2P Require Import Prelude Go Encoding.

Module sessionv1.

(** enum MsgType *)
Definition MsgType_MSG_TYPE_UNSPECIFIED : Z := 0.
Definition MsgType_HELLO : Z := 1.
Definition MsgType_AUTH_CHALLENGE : Z := 2.
Definition MsgType_AUTH_PROVE : Z := 3.
Definition MsgType_AUTH_RESULT : Z := 4.
Definition MsgType_PING : Z := 10.
Definition MsgType_PONG : Z := 11.
Definition MsgType_ERROR : Z := 12.
Definition MsgType_LIST_SPACES_REQ : Z := 20.
Definition MsgType_LIST_SPACES_RESP : Z := 21.
Definition MsgType_LIST_CHANNELS_REQ : Z := 22.
Definition MsgType_LIST_CHANNELS_RESP : Z := 23.
Definition MsgType_SUBSCRIBE_CHANNEL_REQ : Z := 24.
Definition MsgType_SUBSCRIBE_CHANNEL_RESP : Z := 25.
Definition MsgType_UNSUBSCRIBE_CHANNEL_REQ : Z := 26.
Definition MsgType_UNSUBSCRIBE_CHANNEL_RESP : Z := 27.
Definition MsgType_CREATE_GROUP_REQ : Z := 28.
Definition MsgType_CREATE_GROUP_RESP : Z := 29.
Definition MsgType_SEND_MESSAGE_REQ : Z := 30.
Definition MsgType_SEND_MESSAGE_ACK : Z := 31.
Definition MsgType_MESSAGE_EVENT : Z := 32.
Definition MsgType_CHANNEL_DELIVER_ACK : Z := 33.
Definition MsgType_CHANNEL_READ_UPDATE : Z := 34.
Definition MsgType_SYNC_CHANNEL_REQ : Z := 35.
Definition MsgType_SYNC_CHANNEL_RESP : Z := 36.
Definition MsgType_CREATE_CHANNEL_REQ : Z := 37.
Definition MsgType_CREATE_CHANNEL_RESP : Z := 38.
Definition MsgType_ADMIN_SET_SPACE_MEMBER_ROLE_REQ : Z := 39.
Definition MsgType_ADMIN_SET_SPACE_MEMBER_ROLE_RESP : Z := 40.
Definition MsgType_ADMIN_SET_SPACE_CHANNEL_CREATION_REQ : Z := 41.
Definition MsgType_ADMIN_SET_SPACE_CHANNEL_CREATION_RESP : Z := 42.
Definition MsgType_JOIN_SPACE_REQ : Z := 43.
Definition MsgType_JOIN_SPACE_RESP : Z := 44.
Definition MsgType_INVITE_SPACE_MEMBER_REQ : Z := 45.
Definition MsgType_INVITE_SPACE_MEMBER_RESP : Z := 46.
Definition MsgType_KICK_SPACE_MEMBER_REQ : Z := 47.
Definition MsgType_KICK_SPACE_MEMBER_RESP : Z := 48.
Definition MsgType_BAN_SPACE_MEMBER_REQ : Z := 49.
Definition MsgType_BAN_SPACE_MEMBER_RESP : Z := 50.
Definition MsgType_LIST_SPACE_MEMBERS_REQ : Z := 51.
Definition MsgType_LIST_SPACE_MEMBERS_RESP : Z := 52.
Definition MsgType_UNBAN_SPACE_MEMBER_REQ : Z := 53.
Definition MsgType_UNBAN_SPACE_MEMBER_RESP : Z := 54.
Definition MsgType_CREATE_SPACE_REQ : Z := 57.
Definition MsgType_CREATE_SPACE_RESP : Z := 58.
Definition MsgType_GET_CREATE_SPACE_PERMISSIONS_REQ : Z := 59.
Definition MsgType_GET_CREATE_SPACE_PERMISSIONS_RESP : Z := 60.
Definition MsgType_GET_CREATE_GROUP_PERMISSIONS_REQ : Z := 61.
Definition MsgType_GET_CREATE_GROUP_PERMISSIONS_RESP : Z := 62.
Definition MsgType_GET_MEDIA_REQ : Z := 63.
Definition MsgType_GET_MEDIA_RESP : Z := 64.
Definition MsgType_ADMIN_SET_GROUP_AUTO_DELETE_REQ : Z := 65.
Definition MsgType_ADMIN_SET_GROUP_AUTO_DELETE_RESP : Z := 66.
Definition MsgType_OPEN_DIRECT_CONVERSATION_REQ : Z := 67.
Definition MsgType_OPEN_DIRECT_CONVERSATION_RESP : Z := 68.
Definition MsgType_LIST_DIRECT_CONVERSATIONS_REQ : Z := 69.
Definition MsgType_LIST_DIRECT_CONVERSATIONS_RESP : Z := 70.
Definition MsgType_SEND_DIRECT_MESSAGE_REQ : Z := 71.
Definition MsgType_SEND_DIRECT_MESSAGE_ACK : Z := 72.
Definition MsgType_DIRECT_MESSAGE_EVENT : Z := 73.
Definition MsgType_ACK_DIRECT_MESSAGE_REQ : Z := 74.
Definition MsgType_ACK_DIRECT_MESSAGE_RESP : Z := 75.
Definition MsgType_DIRECT_PEER_ACK_EVENT : Z := 76.
Definition MsgType_SYNC_DIRECT_MESSAGES_REQ : Z := 77.
Definition MsgType_SYNC_DIRECT_MESSAGES_RESP : Z := 78.

Definition MsgType_name : list (Z * string) := [(0, "MSG_TYPE_UNSPECIFIED"%string); (1, "HELLO"%string); (2,
  "AUTH_CHALLENGE"%string); (3, "AUTH_PROVE"%string); (4, "AUTH_RESULT"%string); (10, "PING"%string); (11,
  "PONG"%string); (12, "ERROR"%string); (20, "LIST_SPACES_REQ"%string); (21, "LIST_SPACES_RESP"%string); (22,
  "LIST_CHANNELS_REQ"%string); (23, "LIST_CHANNELS_RESP"%string); (24, "SUBSCRIBE_CHANNEL_REQ"%string); (25,
  "SUBSCRIBE_CHANNEL_RESP"%string); (26, "UNSUBSCRIBE_CHANNEL_REQ"%string); (27,
  "UNSUBSCRIBE_CHANNEL_RESP"%string); (28, "CREATE_GROUP_REQ"%string); (29, "CREATE_GROUP_RESP"%string); (30,
  "SEND_MESSAGE_REQ"%string); (31, "SEND_MESSAGE_ACK"%string); (32, "MESSAGE_EVENT"%string); (33,
  "CHANNEL_DELIVER_ACK"%string); (34, "CHANNEL_READ_UPDATE"%string); (35, "SYNC_CHANNEL_REQ"%string); (36,
  "SYNC_CHANNEL_RESP"%string); (37, "CREATE_CHANNEL_REQ"%string); (38, "CREATE_CHANNEL_RESP"%string); (39,
  "ADMIN_SET_SPACE_MEMBER_ROLE_REQ"%string); (40, "ADMIN_SET_SPACE_MEMBER_ROLE_RESP"%string); (41,
  "ADMIN_SET_SPACE_CHANNEL_CREATION_REQ"%string); (42, "ADMIN_SET_SPACE_CHANNEL_CREATION_RESP"%string); (43,
  "JOIN_SPACE_REQ"%string); (44, "JOIN_SPACE_RESP"%string); (45, "INVITE_SPACE_MEMBER_REQ"%string); (46,
  "INVITE_SPACE_MEMBER_RESP"%string); (47, "KICK_SPACE_MEMBER_REQ"%string); (48,
  "KICK_SPACE_MEMBER_RESP"%string); (49, "BAN_SPACE_MEMBER_REQ"%string); (50, "BAN_SPACE_MEMBER_RESP"%string);
  (51, "LIST_SPACE_MEMBERS_REQ"%string); (52, "LIST_SPACE_MEMBERS_RESP"%string); (53,
  "UNBAN_SPACE_MEMBER_REQ"%string); (54, "UNBAN_SPACE_MEMBER_RESP"%string); (57, "CREATE_SPACE_REQ"%string);
  (58, "CREATE_SPACE_RESP"%string); (59, "GET_CREATE_SPACE_PERMISSIONS_REQ"%string); (60,
  "GET_CREATE_SPACE_PERMISSIONS_RESP"%string); (61, "GET_CREATE_GROUP_PERMISSIONS_REQ"%string); (62,
  "GET_CREATE_GROUP_PERMISSIONS_RESP"%string); (63, "GET_MEDIA_REQ"%string); (64, "GET_MEDIA_RESP"%string);
  (65, "ADMIN_SET_GROUP_AUTO_DELETE_REQ"%string); (66, "ADMIN_SET_GROUP_AUTO_DELETE_RESP"%string); (67,
  "OPEN_DIRECT_CONVERSATION_REQ"%string); (68, "OPEN_DIRECT_CONVERSATION_RESP"%string); (69,
  "LIST_DIRECT_CONVERSATIONS_REQ"%string); (70, "LIST_DIRECT_CONVERSATIONS_RESP"%string); (71,
  "SEND_DIRECT_MESSAGE_REQ"%string); (72, "SEND_DIRECT_MESSAGE_ACK"%string); (73,
  "DIRECT_MESSAGE_EVENT"%string); (74, "ACK_DIRECT_MESSAGE_REQ"%string); (75,
  "ACK_DIRECT_MESSAGE_RESP"%string); (76, "DIRECT_PEER_ACK_EVENT"%string); (77,
  "SYNC_DIRECT_MESSAGES_REQ"%string); (78, "SYNC_DIRECT_MESSAGES_RESP"%string)].
(** [MsgType.String()]: the declared name, or the number. *)
Definition MsgType_String (t : Z) : string :=
  match List.find (fun kv => kv.1 =? t) MsgType_name with Some kv => kv.2 | None => decimal t end.

(** enum Visibility *)
Definition Visibility_VISIBILITY_UNSPECIFIED : Z := 0.
Definition Visibility_PUBLIC : Z := 1.
Definition Visibility_PRIVATE : Z := 2.

(** enum ChannelType *)
Definition ChannelType_CHANNEL_TYPE_UNSPECIFIED : Z := 0.
Definition ChannelType_GROUP : Z := 1.
Definition ChannelType_BROADCAST : Z := 2.

(** enum MessageType *)
Definition MessageType_MESSAGE_TYPE_UNSPECIFIED : Z := 0.
Definition MessageType_TEXT : Z := 1.
Definition MessageType_IMAGE : Z := 2.
Definition MessageType_FILE : Z := 3.
Definition MessageType_SYSTEM : Z := 4.

(** enum MemberRole *)
Definition MemberRole_MEMBER_ROLE_UNSPECIFIED : Z := 0.
Definition MemberRole_OWNER : Z := 1.
Definition MemberRole_ADMIN : Z := 2.
Definition MemberRole_MEMBER : Z := 3.
Definition MemberRole_SUBSCRIBER : Z := 4.

Record Envelope := mkEnvelope { Envelope_Version : Z; Envelope_MsgType : Z; Envelope_RequestId : string;
  Envelope_TimestampMs : Z; Envelope_Body : string }.
Record Hello := mkHello { Hello_ClientPeerId : string; Hello_ClientAgent : string; Hello_ProtocolVersion :
  string }.
Record AuthChallenge := mkAuthChallenge { AuthChallenge_NodePeerId : string; AuthChallenge_Nonce : string;
  AuthChallenge_IssuedAtMs : Z; AuthChallenge_ExpiresAtMs : Z; AuthChallenge_SessionHint : string }.
Record AuthProve := mkAuthProve { AuthProve_ClientPeerId : string; AuthProve_Nonce : string;
  AuthProve_IssuedAtMs : Z; AuthProve_ExpiresAtMs : Z; AuthProve_Signature : string; AuthProve_PublicKey :
  string }.
Record ErrorMsg := mkErrorMsg { ErrorMsg_Code : Z; ErrorMsg_Message : string }.
Record Ping := mkPing { Ping_Nonce : Z }.
Record Pong := mkPong { Pong_Nonce : Z }.
Record SpaceSummary := mkSpaceSummary { SpaceSummary_SpaceId : Z; SpaceSummary_Name : string;
  SpaceSummary_AvatarUrl : string; SpaceSummary_Description : string; SpaceSummary_Visibility : Z;
  SpaceSummary_MemberCount : Z; SpaceSummary_AllowChannelCreation : bool }.
Record AuthResult := mkAuthResult { AuthResult_Ok : bool; AuthResult_SessionId : string; AuthResult_UserId :
  string; AuthResult_DisplayName : string; AuthResult_Message : string; AuthResult_Spaces : list SpaceSummary
  }.
Record ListSpacesReq := mkListSpacesReq {}.
Record ListSpacesResp := mkListSpacesResp { ListSpacesResp_Spaces : list SpaceSummary }.
Record ChannelSummary := mkChannelSummary { ChannelSummary_ChannelId : Z; ChannelSummary_SpaceId : Z;
  ChannelSummary_Type : Z; ChannelSummary_Name : string; ChannelSummary_Description : string;
  ChannelSummary_Visibility : Z; ChannelSummary_SlowModeSeconds : Z; ChannelSummary_AutoDeleteAfterSeconds :
  Z; ChannelSummary_LastSeq : Z; ChannelSummary_MemberCount : Z; ChannelSummary_CanView : bool;
  ChannelSummary_CanSendMessage : bool; ChannelSummary_CanSendImage : bool; ChannelSummary_CanSendFile : bool
  }.
Record ListChannelsReq := mkListChannelsReq { ListChannelsReq_SpaceId : Z }.
Record ListChannelsResp := mkListChannelsResp { ListChannelsResp_SpaceId : Z; ListChannelsResp_Channels : list
  ChannelSummary }.
Record SpaceMemberSummary := mkSpaceMemberSummary { SpaceMemberSummary_MemberId : Z; SpaceMemberSummary_UserId
  : string; SpaceMemberSummary_DisplayName : string; SpaceMemberSummary_AvatarUrl : string;
  SpaceMemberSummary_Role : Z; SpaceMemberSummary_Nickname : string; SpaceMemberSummary_IsMuted : bool;
  SpaceMemberSummary_IsBanned : bool; SpaceMemberSummary_JoinedAtMs : Z; SpaceMemberSummary_LastSeenAtMs : Z
  }.
Record ListSpaceMembersReq := mkListSpaceMembersReq { ListSpaceMembersReq_SpaceId : Z;
  ListSpaceMembersReq_AfterMemberId : Z; ListSpaceMembersReq_Limit : Z }.
Record ListSpaceMembersResp := mkListSpaceMembersResp { ListSpaceMembersResp_SpaceId : Z;
  ListSpaceMembersResp_Members : list SpaceMemberSummary; ListSpaceMembersResp_NextAfterMemberId : Z;
  ListSpaceMembersResp_HasMore : bool }.
Record UnbanSpaceMemberReq := mkUnbanSpaceMemberReq { UnbanSpaceMemberReq_SpaceId : Z;
  UnbanSpaceMemberReq_TargetUserId : string }.
Record UnbanSpaceMemberResp := mkUnbanSpaceMemberResp { UnbanSpaceMemberResp_Ok : bool;
  UnbanSpaceMemberResp_SpaceId : Z; UnbanSpaceMemberResp_TargetUserId : string; UnbanSpaceMemberResp_Space :
  option SpaceSummary; UnbanSpaceMemberResp_Message : string }.
Record CreateSpaceReq := mkCreateSpaceReq { CreateSpaceReq_Name : string; CreateSpaceReq_Description : string;
  CreateSpaceReq_Visibility : Z; CreateSpaceReq_AllowChannelCreation : bool }.
Record CreateSpaceResp := mkCreateSpaceResp { CreateSpaceResp_Ok : bool; CreateSpaceResp_SpaceId : Z;
  CreateSpaceResp_Space : option SpaceSummary; CreateSpaceResp_Message : string }.
Record GetCreateSpacePermissionsReq := mkGetCreateSpacePermissionsReq {}.
Record GetCreateSpacePermissionsResp := mkGetCreateSpacePermissionsResp { GetCreateSpacePermissionsResp_Ok :
  bool; GetCreateSpacePermissionsResp_CanCreateSpace : bool; GetCreateSpacePermissionsResp_Message : string }.
Record GetCreateGroupPermissionsReq := mkGetCreateGroupPermissionsReq { GetCreateGroupPermissionsReq_SpaceId :
  Z }.
Record GetCreateGroupPermissionsResp := mkGetCreateGroupPermissionsResp { GetCreateGroupPermissionsResp_Ok :
  bool; GetCreateGroupPermissionsResp_SpaceId : Z; GetCreateGroupPermissionsResp_Space : option SpaceSummary;
  GetCreateGroupPermissionsResp_Role : Z; GetCreateGroupPermissionsResp_CanCreateGroup : bool;
  GetCreateGroupPermissionsResp_Message : string }.
Record SubscribeChannelReq := mkSubscribeChannelReq { SubscribeChannelReq_ChannelId : Z;
  SubscribeChannelReq_LastSeenSeq : Z }.
Record SubscribeChannelResp := mkSubscribeChannelResp { SubscribeChannelResp_Ok : bool;
  SubscribeChannelResp_ChannelId : Z; SubscribeChannelResp_CurrentLastSeq : Z; SubscribeChannelResp_Message :
  string }.
Record UnsubscribeChannelReq := mkUnsubscribeChannelReq { UnsubscribeChannelReq_ChannelId : Z }.
Record UnsubscribeChannelResp := mkUnsubscribeChannelResp { UnsubscribeChannelResp_Ok : bool;
  UnsubscribeChannelResp_ChannelId : Z }.
Record CreateGroupReq := mkCreateGroupReq { CreateGroupReq_SpaceId : Z; CreateGroupReq_Name : string;
  CreateGroupReq_Description : string; CreateGroupReq_Visibility : Z; CreateGroupReq_SlowModeSeconds : Z }.
Record CreateGroupResp := mkCreateGroupResp { CreateGroupResp_Ok : bool; CreateGroupResp_SpaceId : Z;
  CreateGroupResp_ChannelId : Z; CreateGroupResp_Channel : option ChannelSummary; CreateGroupResp_Message :
  string }.
Record CreateChannelReq := mkCreateChannelReq { CreateChannelReq_SpaceId : Z; CreateChannelReq_Name : string;
  CreateChannelReq_Description : string; CreateChannelReq_Visibility : Z; CreateChannelReq_SlowModeSeconds : Z
  }.
Record CreateChannelResp := mkCreateChannelResp { CreateChannelResp_Ok : bool; CreateChannelResp_SpaceId : Z;
  CreateChannelResp_ChannelId : Z; CreateChannelResp_Channel : option ChannelSummary;
  CreateChannelResp_Message : string }.
Record AdminSetSpaceMemberRoleReq := mkAdminSetSpaceMemberRoleReq { AdminSetSpaceMemberRoleReq_SpaceId : Z;
  AdminSetSpaceMemberRoleReq_TargetUserId : string; AdminSetSpaceMemberRoleReq_Role : Z }.
Record AdminSetSpaceMemberRoleResp := mkAdminSetSpaceMemberRoleResp { AdminSetSpaceMemberRoleResp_Ok : bool;
  AdminSetSpaceMemberRoleResp_SpaceId : Z; AdminSetSpaceMemberRoleResp_TargetUserId : string;
  AdminSetSpaceMemberRoleResp_Role : Z; AdminSetSpaceMemberRoleResp_Message : string }.
Record AdminSetSpaceChannelCreationReq := mkAdminSetSpaceChannelCreationReq {
  AdminSetSpaceChannelCreationReq_SpaceId : Z; AdminSetSpaceChannelCreationReq_AllowChannelCreation : bool }.
Record AdminSetSpaceChannelCreationResp := mkAdminSetSpaceChannelCreationResp {
  AdminSetSpaceChannelCreationResp_Ok : bool; AdminSetSpaceChannelCreationResp_SpaceId : Z;
  AdminSetSpaceChannelCreationResp_AllowChannelCreation : bool; AdminSetSpaceChannelCreationResp_Message :
  string }.
Record JoinSpaceReq := mkJoinSpaceReq { JoinSpaceReq_SpaceId : Z }.
Record JoinSpaceResp := mkJoinSpaceResp { JoinSpaceResp_Ok : bool; JoinSpaceResp_SpaceId : Z;
  JoinSpaceResp_Space : option SpaceSummary; JoinSpaceResp_Message : string }.
Record InviteSpaceMemberReq := mkInviteSpaceMemberReq { InviteSpaceMemberReq_SpaceId : Z;
  InviteSpaceMemberReq_TargetUserId : string }.
Record InviteSpaceMemberResp := mkInviteSpaceMemberResp { InviteSpaceMemberResp_Ok : bool;
  InviteSpaceMemberResp_SpaceId : Z; InviteSpaceMemberResp_TargetUserId : string; InviteSpaceMemberResp_Space
  : option SpaceSummary; InviteSpaceMemberResp_Message : string }.
Record KickSpaceMemberReq := mkKickSpaceMemberReq { KickSpaceMemberReq_SpaceId : Z;
  KickSpaceMemberReq_TargetUserId : string }.
Record KickSpaceMemberResp := mkKickSpaceMemberResp { KickSpaceMemberResp_Ok : bool;
  KickSpaceMemberResp_SpaceId : Z; KickSpaceMemberResp_TargetUserId : string; KickSpaceMemberResp_Space :
  option SpaceSummary; KickSpaceMemberResp_Message : string }.
Record BanSpaceMemberReq := mkBanSpaceMemberReq { BanSpaceMemberReq_SpaceId : Z;
  BanSpaceMemberReq_TargetUserId : string }.
Record BanSpaceMemberResp := mkBanSpaceMemberResp { BanSpaceMemberResp_Ok : bool; BanSpaceMemberResp_SpaceId :
  Z; BanSpaceMemberResp_TargetUserId : string; BanSpaceMemberResp_Space : option SpaceSummary;
  BanSpaceMemberResp_Message : string }.
Record MediaImage := mkMediaImage { MediaImage_MediaId : string; MediaImage_BlobId : string; MediaImage_Sha256
  : string; MediaImage_Url : string; MediaImage_Width : Z; MediaImage_Height : Z; MediaImage_MimeType :
  string; MediaImage_Size : Z; MediaImage_InlineData : string; MediaImage_OriginalName : string }.
Record MediaFile := mkMediaFile { MediaFile_MediaId : string; MediaFile_BlobId : string; MediaFile_Sha256 :
  string; MediaFile_FileName : string; MediaFile_Url : string; MediaFile_MimeType : string; MediaFile_Size :
  Z; MediaFile_InlineData : string; MediaFile_FileCid : string }.
Record MessageContent := mkMessageContent { MessageContent_Images : list MediaImage; MessageContent_Files :
  list MediaFile; MessageContent_Text : string }.
Record SendMessageReq := mkSendMessageReq { SendMessageReq_ChannelId : Z; SendMessageReq_ClientMsgId : string;
  SendMessageReq_MessageType : Z; SendMessageReq_Content : option MessageContent }.
Record SendMessageAck := mkSendMessageAck { SendMessageAck_Ok : bool; SendMessageAck_ChannelId : Z;
  SendMessageAck_ClientMsgId : string; SendMessageAck_MessageId : string; SendMessageAck_Seq : Z;
  SendMessageAck_ServerTimeMs : Z; SendMessageAck_Message : string }.
Record MessageEvent := mkMessageEvent { MessageEvent_ChannelId : Z; MessageEvent_MessageId : string;
  MessageEvent_Seq : Z; MessageEvent_SenderUserId : string; MessageEvent_MessageType : Z; MessageEvent_Content
  : option MessageContent; MessageEvent_CreatedAtMs : Z }.
Record ChannelDeliverAck := mkChannelDeliverAck { ChannelDeliverAck_ChannelId : Z; ChannelDeliverAck_AckedSeq
  : Z }.
Record ChannelReadUpdate := mkChannelReadUpdate { ChannelReadUpdate_ChannelId : Z;
  ChannelReadUpdate_LastReadSeq : Z }.
Record SyncChannelReq := mkSyncChannelReq { SyncChannelReq_ChannelId : Z; SyncChannelReq_AfterSeq : Z;
  SyncChannelReq_Limit : Z }.
Record SyncChannelResp := mkSyncChannelResp { SyncChannelResp_ChannelId : Z; SyncChannelResp_Messages : list
  MessageEvent; SyncChannelResp_NextAfterSeq : Z; SyncChannelResp_HasMore : bool }.
Record GetMediaReq := mkGetMediaReq { GetMediaReq_MediaId : string }.
Record GetMediaResp := mkGetMediaResp { GetMediaResp_Ok : bool; GetMediaResp_MediaId : string;
  GetMediaResp_File : option MediaFile; GetMediaResp_Message : string }.
Record AdminSetGroupAutoDeleteReq := mkAdminSetGroupAutoDeleteReq { AdminSetGroupAutoDeleteReq_ChannelId : Z;
  AdminSetGroupAutoDeleteReq_AutoDeleteAfterSeconds : Z }.
Record AdminSetGroupAutoDeleteResp := mkAdminSetGroupAutoDeleteResp { AdminSetGroupAutoDeleteResp_Ok : bool;
  AdminSetGroupAutoDeleteResp_ChannelId : Z; AdminSetGroupAutoDeleteResp_AutoDeleteAfterSeconds : Z;
  AdminSetGroupAutoDeleteResp_Channel : option ChannelSummary; AdminSetGroupAutoDeleteResp_Message : string }.
Record OpenDirectConversationReq := mkOpenDirectConversationReq { OpenDirectConversationReq_PeerUserId :
  string }.
Record OpenDirectConversationResp := mkOpenDirectConversationResp { OpenDirectConversationResp_Ok : bool;
  OpenDirectConversationResp_ConversationId : string; OpenDirectConversationResp_PeerUserId : string;
  OpenDirectConversationResp_LastSeq : Z; OpenDirectConversationResp_Message : string }.
Record DirectConversationSummary := mkDirectConversationSummary { DirectConversationSummary_ConversationId :
  string; DirectConversationSummary_PeerUserId : string; DirectConversationSummary_PeerDisplayName : string;
  DirectConversationSummary_LastSeq : Z; DirectConversationSummary_LastMessageAtMs : Z }.
Record ListDirectConversationsReq := mkListDirectConversationsReq {}.
Record ListDirectConversationsResp := mkListDirectConversationsResp {
  ListDirectConversationsResp_Conversations : list DirectConversationSummary }.
Record SendDirectMessageReq := mkSendDirectMessageReq { SendDirectMessageReq_ConversationId : string;
  SendDirectMessageReq_ToUserId : string; SendDirectMessageReq_ClientMsgId : string;
  SendDirectMessageReq_MessageType : Z; SendDirectMessageReq_Text : string }.
Record SendDirectMessageAck := mkSendDirectMessageAck { SendDirectMessageAck_Ok : bool;
  SendDirectMessageAck_ConversationId : string; SendDirectMessageAck_ClientMsgId : string;
  SendDirectMessageAck_MessageId : string; SendDirectMessageAck_Seq : Z; SendDirectMessageAck_ServerTimeMs :
  Z; SendDirectMessageAck_Message : string }.
Record DirectMessageEvent := mkDirectMessageEvent { DirectMessageEvent_ConversationId : string;
  DirectMessageEvent_MessageId : string; DirectMessageEvent_Seq : Z; DirectMessageEvent_FromUserId : string;
  DirectMessageEvent_ToUserId : string; DirectMessageEvent_MessageType : Z; DirectMessageEvent_Text : string;
  DirectMessageEvent_CreatedAtMs : Z }.
Record AckDirectMessageReq := mkAckDirectMessageReq { AckDirectMessageReq_MessageId : string }.
Record AckDirectMessageResp := mkAckDirectMessageResp { AckDirectMessageResp_Ok : bool;
  AckDirectMessageResp_MessageId : string; AckDirectMessageResp_Message : string }.
Record DirectPeerAckEvent := mkDirectPeerAckEvent { DirectPeerAckEvent_ConversationId : string;
  DirectPeerAckEvent_MessageId : string; DirectPeerAckEvent_AckedAtMs : Z; DirectPeerAckEvent_PeerUserId :
  string }.
Record SyncDirectMessagesReq := mkSyncDirectMessagesReq { SyncDirectMessagesReq_ConversationId : string;
  SyncDirectMessagesReq_AfterSeq : Z; SyncDirectMessagesReq_Limit : Z }.
Record SyncDirectMessagesResp := mkSyncDirectMessagesResp { SyncDirectMessagesResp_ConversationId : string;
  SyncDirectMessagesResp_Messages : list DirectMessageEvent; SyncDirectMessagesResp_NextAfterSeq : Z;
  SyncDirectMessagesResp_HasMore : bool }.

(** The messages the server writes, then those the command-line clients write. *)
Inductive Body :=
| BAuthChallenge (m : AuthChallenge)
| BAuthResult (m : AuthResult)
| BErrorMsg (m : ErrorMsg)
| BPong (m : Pong)
| BListSpacesResp (m : ListSpacesResp)
| BListChannelsResp (m : ListChannelsResp)
| BListSpaceMembersResp (m : ListSpaceMembersResp)
| BCreateSpaceResp (m : CreateSpaceResp)
| BGetCreateSpacePermissionsResp (m : GetCreateSpacePermissionsResp)
| BGetCreateGroupPermissionsResp (m : GetCreateGroupPermissionsResp)
| BSubscribeChannelResp (m : SubscribeChannelResp)
| BUnsubscribeChannelResp (m : UnsubscribeChannelResp)
| BAdminSetSpaceMemberRoleResp (m : AdminSetSpaceMemberRoleResp)
| BAdminSetSpaceChannelCreationResp (m : AdminSetSpaceChannelCreationResp)
| BAdminSetGroupAutoDeleteResp (m : AdminSetGroupAutoDeleteResp)
| BJoinSpaceResp (m : JoinSpaceResp)
| BInviteSpaceMemberResp (m : InviteSpaceMemberResp)
| BKickSpaceMemberResp (m : KickSpaceMemberResp)
| BBanSpaceMemberResp (m : BanSpaceMemberResp)
| BUnbanSpaceMemberResp (m : UnbanSpaceMemberResp)
| BCreateGroupResp (m : CreateGroupResp)
| BCreateChannelResp (m : CreateChannelResp)
| BSendMessageAck (m : SendMessageAck)
| BMessageEvent (m : MessageEvent)
| BSyncChannelResp (m : SyncChannelResp)
| BOpenDirectConversationResp (m : OpenDirectConversationResp)
| BListDirectConversationsResp (m : ListDirectConversationsResp)
| BSendDirectMessageAck (m : SendDirectMessageAck)
| BDirectMessageEvent (m : DirectMessageEvent)
| BAckDirectMessageResp (m : AckDirectMessageResp)
| BDirectPeerAckEvent (m : DirectPeerAckEvent)
| BSyncDirectMessagesResp (m : SyncDirectMessagesResp)
| BGetMediaResp (m : GetMediaResp)
| BHello (m : Hello)
| BAuthProve (m : AuthProve)
| BListSpacesReq (m : ListSpacesReq)
| BListChannelsReq (m : ListChannelsReq)
| BListSpaceMembersReq (m : ListSpaceMembersReq)
| BCreateSpaceReq (m : CreateSpaceReq)
| BGetCreateSpacePermissionsReq (m : GetCreateSpacePermissionsReq)
| BGetCreateGroupPermissionsReq (m : GetCreateGroupPermissionsReq)
| BSubscribeChannelReq (m : SubscribeChannelReq)
| BAdminSetSpaceMemberRoleReq (m : AdminSetSpaceMemberRoleReq)
| BAdminSetSpaceChannelCreationReq (m : AdminSetSpaceChannelCreationReq)
| BAdminSetGroupAutoDeleteReq (m : AdminSetGroupAutoDeleteReq)
| BJoinSpaceReq (m : JoinSpaceReq)
| BInviteSpaceMemberReq (m : InviteSpaceMemberReq)
| BKickSpaceMemberReq (m : KickSpaceMemberReq)
| BBanSpaceMemberReq (m : BanSpaceMemberReq)
| BUnbanSpaceMemberReq (m : UnbanSpaceMemberReq)
| BCreateGroupReq (m : CreateGroupReq)
| BSendMessageReq (m : SendMessageReq)
| BSyncChannelReq (m : SyncChannelReq).

End sessionv1.

(** The protobuf runtime ([github.com/golang/protobuf/proto]): decoding of
    each request, encoding of the messages the server writes, and both for
    the envelope. *)
Class Protobuf := {
  Marshal : sessionv1.Body -> Err + string;
  MarshalEnvelope : sessionv1.Envelope -> Err + string;
  UnmarshalEnvelope : string -> Err + sessionv1.Envelope;
  UnmarshalHello : string -> Err + sessionv1.Hello;
  UnmarshalAuthProve : string -> Err + sessionv1.AuthProve;
  UnmarshalPing : string -> Err + sessionv1.Ping;
  UnmarshalListChannelsReq : string -> Err + sessionv1.ListChannelsReq;
  UnmarshalListSpaceMembersReq : string -> Err + sessionv1.ListSpaceMembersReq;
  UnmarshalCreateSpaceReq : string -> Err + sessionv1.CreateSpaceReq;
  UnmarshalGetCreateSpacePermissionsReq : string -> Err + sessionv1.GetCreateSpacePermissionsReq;
  UnmarshalGetCreateGroupPermissionsReq : string -> Err + sessionv1.GetCreateGroupPermissionsReq;
  UnmarshalSubscribeChannelReq : string -> Err + sessionv1.SubscribeChannelReq;
  UnmarshalUnsubscribeChannelReq : string -> Err + sessionv1.UnsubscribeChannelReq;
  UnmarshalAdminSetSpaceMemberRoleReq : string -> Err + sessionv1.AdminSetSpaceMemberRoleReq;
  UnmarshalAdminSetSpaceChannelCreationReq : string -> Err + sessionv1.AdminSetSpaceChannelCreationReq;
  UnmarshalAdminSetGroupAutoDeleteReq : string -> Err + sessionv1.AdminSetGroupAutoDeleteReq;
  UnmarshalJoinSpaceReq : string -> Err + sessionv1.JoinSpaceReq;
  UnmarshalInviteSpaceMemberReq : string -> Err + sessionv1.InviteSpaceMemberReq;
  UnmarshalKickSpaceMemberReq : string -> Err + sessionv1.KickSpaceMemberReq;
  UnmarshalBanSpaceMemberReq : string -> Err + sessionv1.BanSpaceMemberReq;
  UnmarshalUnbanSpaceMemberReq : string -> Err + sessionv1.UnbanSpaceMemberReq;
  UnmarshalCreateGroupReq : string -> Err + sessionv1.CreateGroupReq;
  UnmarshalCreateChannelReq : string -> Err + sessionv1.CreateChannelReq;
  UnmarshalSendMessageReq : string -> Err + sessionv1.SendMessageReq;
  UnmarshalChannelDeliverAck : string -> Err + sessionv1.ChannelDeliverAck;
  UnmarshalChannelReadUpdate : string -> Err + sessionv1.ChannelReadUpdate;
  UnmarshalSyncChannelReq : string -> Err + sessionv1.SyncChannelReq;
  UnmarshalOpenDirectConversationReq : string -> Err + sessionv1.OpenDirectConversationReq;
  UnmarshalListDirectConversationsReq : string -> Err + sessionv1.ListDirectConversationsReq;
  UnmarshalSendDirectMessageReq : string -> Err + sessionv1.SendDirectMessageReq;
  UnmarshalAckDirectMessageReq : string -> Err + sessionv1.AckDirectMessageReq;
  UnmarshalSyncDirectMessagesReq : string -> Err + sessionv1.SyncDirectMessagesReq;
  UnmarshalGetMediaReq : string -> Err + sessionv1.GetMediaReq }.

(** The decoding of each message a client reads. *)
Class ClientProtobuf := {
  UnmarshalAuthChallenge : string -> Err + sessionv1.AuthChallenge;
  UnmarshalAuthResult : string -> Err + sessionv1.AuthResult;
  UnmarshalListSpacesResp : string -> Err + sessionv1.ListSpacesResp;
  UnmarshalListChannelsResp : string -> Err + sessionv1.ListChannelsResp;
  UnmarshalListSpaceMembersResp : string -> Err + sessionv1.ListSpaceMembersResp;
  UnmarshalCreateSpaceResp : string -> Err + sessionv1.CreateSpaceResp;
  UnmarshalGetCreateSpacePermissionsResp : string -> Err + sessionv1.GetCreateSpacePermissionsResp;
  UnmarshalGetCreateGroupPermissionsResp : string -> Err + sessionv1.GetCreateGroupPermissionsResp;
  UnmarshalSubscribeChannelResp : string -> Err + sessionv1.SubscribeChannelResp;
  UnmarshalAdminSetSpaceMemberRoleResp : string -> Err + sessionv1.AdminSetSpaceMemberRoleResp;
  UnmarshalAdminSetSpaceChannelCreationResp : string -> Err + sessionv1.AdminSetSpaceChannelCreationResp;
  UnmarshalAdminSetGroupAutoDeleteResp : string -> Err + sessionv1.AdminSetGroupAutoDeleteResp;
  UnmarshalJoinSpaceResp : string -> Err + sessionv1.JoinSpaceResp;
  UnmarshalInviteSpaceMemberResp : string -> Err + sessionv1.InviteSpaceMemberResp;
  UnmarshalKickSpaceMemberResp : string -> Err + sessionv1.KickSpaceMemberResp;
  UnmarshalBanSpaceMemberResp : string -> Err + sessionv1.BanSpaceMemberResp;
  UnmarshalUnbanSpaceMemberResp : string -> Err + sessionv1.UnbanSpaceMemberResp;
  UnmarshalCreateGroupResp : string -> Err + sessionv1.CreateGroupResp;
  UnmarshalSendMessageAck : string -> Err + sessionv1.SendMessageAck;
  UnmarshalSyncChannelResp : string -> Err + sessionv1.SyncChannelResp }.
