(* ===== verification/Wire.v ===== *)
(** * The wire format of protocol messages

    The encoding that protobuf documents, as far as the messages of
    [session.pb.go] use it: a message is a sequence of pieces, each a field
    number with a value; numbers are varints, texts, bytes and embedded
    messages are length-delimited; fields that hold their zero value are
    left out; a decoder takes the last of several values of a field, joins
    the pieces of an embedded message, and ignores numbers it does not
    know.  Groups, which proto3 has not, are refused.  The codec of a
    message is built from its field tags ([ProtoWire]). *)
From S2P Require Import Prelude Go Encoding.

(** ** Varints *)
Definition byte_of (z : Z) : ascii := byte (Z.to_nat z).
Fixpoint put_varint (fuel : nat) (z : Z) : bytes :=
  match fuel with
  | O => []
  | S fuel => if z <? 128 then [byte_of z] else byte_of (z mod 128 + 128) :: put_varint fuel (z / 128)
  end.
Fixpoint get_varint (fuel : nat) (l : bytes) : option (Z * bytes) :=
  match fuel, l with
  | S fuel, a :: l =>
    let n := Z_of_byte a in
    if n <? 128 then Some (n, l) else '(m, r) ← get_varint fuel l; Some (n - 128 + 128 * m, r)
  | _, _ => None
  end.
(** Ten groups of seven bits hold 64 bits. *)
Definition varint (z : Z) : bytes := put_varint 10 z.
Definition read_varint (l : bytes) : option (Z * bytes) :=
  '(z, r) ← get_varint 10 l; if max_u64 <? z then None else Some (z, r).

Lemma Z_of_byte_of z : 0 <= z < 256 -> Z_of_byte (byte_of z) = z.
Proof. intros Hz. unfold Z_of_byte, byte_of, byte. rewrite nat_ascii_embedding by lia. lia. Qed.
Lemma get_put_varint fuel z r : (0 < fuel)%nat -> 0 <= z < 128 ^ Z.of_nat fuel -> get_varint fuel (put_varint fuel z ++ r) = Some (z, r).
Proof.
  revert z. induction fuel as [|fuel IH]; intros z Hf Hz; [lia|]. cbn [put_varint]. destruct (z <? 128) eqn:E.
  - apply Z.ltb_lt in E. cbn. rewrite Z_of_byte_of by lia. by rewrite (proj2 (Z.ltb_lt _ _) E).
  - apply Z.ltb_ge in E. rewrite Nat2Z.inj_succ, Z.pow_succ_r in Hz by lia.
    pose proof (Z.mod_pos_bound z 128 eq_refl) as Hm. cbn [app get_varint]. rewrite Z_of_byte_of by lia.
    rewrite (proj2 (Z.ltb_ge _ _)) by lia. destruct fuel as [|fuel]; [simpl in Hz; lia|].
    rewrite IH; [|lia|split; [apply Z.div_pos; lia|apply Z.div_lt_upper_bound; lia]].
    cbn. f_equal. f_equal. pose proof (Z.div_mod z 128). lia.
Qed.
Lemma read_put_varint z r : 0 <= z <= max_u64 -> read_varint (varint z ++ r) = Some (z, r).
Proof.
  intros Hz. unfold read_varint, varint. rewrite get_put_varint; [|lia|unfold max_u64 in Hz; simpl; lia]. cbn.
  by rewrite (proj2 (Z.ltb_ge _ _)) by lia.
Qed.

(** ** Pieces *)
Inductive Value := VVarint (z : Z) | VLen (l : bytes) | VI64 (l : bytes) | VI32 (l : bytes).
Definition Piece : Type := Z * Value.
Definition wire_type (v : Value) : Z := match v with VVarint _ => 0 | VI64 _ => 1 | VLen _ => 2 | VI32 _ => 5 end.
Definition max_number : Z := 536870911.
Definition max_length : Z := 2147483647.
Definition ok_value (v : Value) : Prop :=
  match v with
  | VVarint z => 0 <= z <= max_u64
  | VLen l => zlen l <= max_length
  | VI64 l => length l = 8%nat
  | VI32 l => length l = 4%nat
  end.
Definition ok_piece (p : Piece) : Prop := 1 <= p.1 <= max_number /\ ok_value p.2.

Definition put_piece (p : Piece) : bytes :=
  varint (p.1 * 8 + wire_type p.2) ++
  match p.2 with VVarint z => varint z | VLen l => varint (zlen l) ++ l | VI64 l | VI32 l => l end.
Definition put_pieces (ps : list Piece) : bytes := concat (put_piece <$> ps).

Definition take_bytes (n : Z) (l : bytes) : option (bytes * bytes) :=
  if zlen l <? n then None else Some (take (Z.to_nat n) l, drop (Z.to_nat n) l).
Definition get_value (wt : Z) (l : bytes) : option (Value * bytes) :=
  if wt =? 0 then '(z, r) ← read_varint l; Some (VVarint z, r)
  else if wt =? 2 then '(n, r) ← read_varint l; '(s, r) ← take_bytes n r; Some (VLen s, r)
  else if wt =? 1 then '(s, r) ← take_bytes 8 l; Some (VI64 s, r)
  else if wt =? 5 then '(s, r) ← take_bytes 4 l; Some (VI32 s, r)
  else None.
Definition get_piece (l : bytes) : option (Piece * bytes) :=
  '(key, r) ← read_varint l;
  let n := key / 8 in
  if (n <? 1) || (max_number <? n) then None
  else '(v, r) ← get_value (key mod 8) r; Some ((n, v), r).
(** A piece takes at least two bytes, so the length of the text is enough fuel. *)
Fixpoint get_pieces (fuel : nat) (l : bytes) : option (list Piece) :=
  match l with
  | [] => Some []
  | _ :: _ =>
    match fuel with
    | O => None
    | S fuel => '(p, r) ← get_piece l; ps ← get_pieces fuel r; Some (p :: ps)
    end
  end.

Lemma take_bytes_app l r : take_bytes (zlen l) (l ++ r) = Some (l, r).
Proof.
  unfold take_bytes, zlen. rewrite length_app, (proj2 (Z.ltb_ge _ _)) by lia. rewrite Nat2Z.id.
  by rewrite take_app_length, drop_app_length.
Qed.
Lemma get_put_value v r : ok_value v ->
  get_value (wire_type v) (match v with VVarint z => varint z | VLen l => varint (zlen l) ++ l | VI64 l | VI32 l => l end ++ r) = Some (v, r).
Proof.
  destruct v as [z|l|l|l]; cbn [wire_type ok_value]; unfold get_value; cbn [Z.eqb Pos.eqb]; intros Hok.
  - by rewrite read_put_varint.
  - rewrite <- app_assoc, read_put_varint by (unfold zlen, max_length, max_u64 in *; lia). cbn [mbind option_bind].
    by rewrite take_bytes_app.
  - replace 8 with (zlen l) by (unfold zlen; lia). by rewrite take_bytes_app.
  - replace 4 with (zlen l) by (unfold zlen; lia). by rewrite take_bytes_app.
Qed.
Lemma wire_type_bound v : 0 <= wire_type v < 8.
Proof. destruct v; cbn; lia. Qed.
Lemma get_put_piece p r : ok_piece p -> get_piece (put_piece p ++ r) = Some (p, r).
Proof.
  destruct p as [n v]. intros [Hn Hv]. cbn in Hn, Hv. unfold get_piece, put_piece. cbn [fst snd]. pose proof (wire_type_bound v) as Hw.
  rewrite <- app_assoc, read_put_varint by (unfold max_number, max_u64 in *; lia). cbn [mbind option_bind].
  rewrite (Z.add_comm (n * 8)), Z.div_add, Z.mod_add, Z.div_small, Z.mod_small by lia. rewrite Z.add_0_l.
  rewrite (proj2 (Z.ltb_ge _ _)), (proj2 (Z.ltb_ge _ _)) by lia. cbn [orb]. by rewrite get_put_value.
Qed.
Lemma put_piece_length p : (0 < length (put_piece p))%nat.
Proof. unfold put_piece, varint. cbn [put_varint]. rewrite length_app. destruct (_ <? _); cbn; lia. Qed.
Lemma get_put_pieces ps fuel : Forall ok_piece ps -> (length (put_pieces ps) <= fuel)%nat -> get_pieces fuel (put_pieces ps) = Some ps.
Proof.
  intros Hok. revert fuel. induction Hok as [|p ps Hp _ IH]; intros fuel Hf; [by destruct fuel|].
  change (put_pieces (p :: ps)) with (put_piece p ++ put_pieces ps) in *. pose proof (put_piece_length p) as Hl.
  rewrite length_app in Hf. destruct fuel as [|fuel]; [lia|].
  destruct (put_piece p ++ put_pieces ps) as [|a l] eqn:E; [apply (f_equal length) in E; rewrite length_app in E; simpl in E; lia|].
  cbn [get_pieces]. rewrite <- E, get_put_piece by done. cbn [mbind option_bind]. rewrite IH by lia. done.
Qed.

(** ** Codecs of fields and messages

    A field is encoded as the values it adds to the message; [f_get] gets all
    values of its number, in order.  The laws are part of the codec. *)
Record Field (A : Type) := mkField {
  f_put : A -> option (list Value);
  f_get : list Value -> option A;
  f_law : forall a vs, f_put a = Some vs -> Forall ok_value vs /\ f_get vs = Some a }.
Arguments mkField {A} _ _ _.
Arguments f_put {A} _ _.
Arguments f_get {A} _ _.
Arguments f_law {A} _ _ _ _.

Definition known (ns : list Z) (p : Piece) : bool := bool_decide (p.1 ∈ ns).
Definition values_of (n : Z) (ps : list Piece) : list Value := snd <$> where_ (fun p => p.1 =? n) ps.

(** Decoding looks at nothing but the pieces with the numbers of the message. *)
Record Message (A : Type) := mkMessage {
  m_nums : list Z;
  m_put : A -> option (list Piece);
  m_get : list Piece -> option A;
  m_law : forall a ps, m_put a = Some ps -> Forall ok_piece ps /\ Forall (fun p => p.1 ∈ m_nums) ps /\
    forall qs, where_ (known m_nums) qs = ps -> m_get qs = Some a }.
Arguments mkMessage {A} _ _ _ _.
Arguments m_nums {A} _.
Arguments m_put {A} _ _.
Arguments m_get {A} _ _.
Arguments m_law {A} _ _ _ _.

Definition marshal {A} (m : Message A) (a : A) : option string := of_bytes ∘ put_pieces <$> m_put m a.
Definition unmarshal {A} (m : Message A) (s : string) : option A :=
  ps ← get_pieces (length (to_bytes s)) (to_bytes s); m_get m ps.

(** A message is decoded as what was encoded, also when a newer encoder has
    put fields with unknown numbers anywhere between its pieces. *)
Lemma unmarshal_extended {A} (m : Message A) a ps qs :
  m_put m a = Some ps -> Forall ok_piece qs -> where_ (known (m_nums m)) qs = ps ->
  unmarshal m (of_bytes (put_pieces qs)) = Some a.
Proof.
  intros Hp Hq E. destruct (m_law m a ps Hp) as (_&_&Hg). unfold unmarshal. rewrite to_of_bytes, get_put_pieces by done.
  by apply Hg.
Qed.
Lemma where_all {A} (p : A -> bool) l : Forall (fun x => p x = true) l -> where_ p l = l.
Proof. induction 1 as [|x l Hx _ IH]; [done|]. unfold where_ in *. simpl. by rewrite Hx, IH. Qed.
Lemma unmarshal_marshal {A} (m : Message A) a s : marshal m a = Some s -> unmarshal m s = Some a.
Proof.
  unfold marshal. destruct (m_put m a) as [ps|] eqn:Hp; [|done]. cbn. intros [= <-]. destruct (m_law m a ps Hp) as (Hok&Hin&_).
  apply (unmarshal_extended m a ps ps Hp Hok). apply where_all. eapply Forall_impl; [exact Hin|]. intros p Hx. by apply bool_decide_true.
Qed.

(** *** Messages from fields *)
Definition no_fields : Message unit.
Proof. refine (mkMessage [] (fun _ => Some []) (fun _ => Some tt) _). by intros [] ps [= <-]. Defined.

Definition fresh_number {A} (n : Z) (rest : Message A) : bool := (1 <=? n) && (n <=? max_number) && bool_decide (n ∉ m_nums rest).

Section field.
Context {A B : Type} (n : Z) (f : Field A) (rest : Message B).
Definition field_put (x : A * B) : option (list Piece) :=
  vs ← f_put f x.1; ps ← m_put rest x.2; Some ((pair n <$> vs) ++ ps).
Definition field_get (ps : list Piece) : option (A * B) :=
  a ← f_get f (values_of n ps); b ← m_get rest ps; Some (a, b).

Lemma where_cons_number qs vs ps :
  n ∉ m_nums rest -> Forall (fun p => p.1 ∈ m_nums rest) ps -> where_ (known (n :: m_nums rest)) qs = (pair n <$> vs) ++ ps ->
  values_of n qs = vs /\ where_ (known (m_nums rest)) qs = ps.
Proof.
  intros Hn Hps E.
  assert (forall qs, values_of n (where_ (known (n :: m_nums rest)) qs) = values_of n qs /\
            where_ (known (m_nums rest)) (where_ (known (n :: m_nums rest)) qs) = where_ (known (m_nums rest)) qs) as Hw.
  { intros l. unfold values_of. rewrite !where_where. split; [f_equal|]; apply List.filter_ext; intros p; unfold known.
    - destruct (p.1 =? n) eqn:Ep; [|by rewrite andb_false_r]. rewrite bool_decide_true; [done|]. apply Z.eqb_eq in Ep. rewrite Ep. set_solver.
    - destruct (bool_decide_reflect (p.1 ∈ m_nums rest)); [|by rewrite andb_false_r]. rewrite bool_decide_true; [done|]. set_solver. }
  destruct (Hw qs) as [<- <-]. rewrite E. unfold values_of, where_. rewrite !List.filter_app.
  change (List.filter ?q) with (where_ q).
  assert (where_ (fun p => p.1 =? n) (pair n <$> vs) = pair n <$> vs) as ->
    by (apply where_all, Forall_fmap, Forall_true; intros v; cbn; apply Z.eqb_refl).
  assert (where_ (fun p => p.1 =? n) ps = []) as ->.
  { apply elem_of_nil_inv. intros p [Hp Hin]%elem_of_where. rewrite Forall_forall in Hps. apply Z.eqb_eq in Hp. by rewrite <- Hp in Hn; apply Hn, Hps. }
  assert (where_ (known (m_nums rest)) (pair n <$> vs) = []) as ->.
  { apply elem_of_nil_inv. intros p [Hp Hin]%elem_of_where. apply list_elem_of_fmap in Hin as (v&->&_). unfold known in Hp. by apply bool_decide_eq_true_1 in Hp. }
  rewrite where_all by (eapply Forall_impl; [exact Hps|]; intros p Hx; by apply bool_decide_true).
  rewrite app_nil_r. split; [|done]. rewrite <- list_fmap_compose. by rewrite list_fmap_id.
Qed.

Definition field (Hn : fresh_number n rest = true) : Message (A * B).
Proof.
  refine (mkMessage (n :: m_nums rest) field_put field_get _).
  intros [a b] qs. unfold field_put. cbn [fst snd]. destruct (f_put f a) as [vs|] eqn:Ef; [|done]. cbn.
  destruct (m_put rest b) as [ps|] eqn:Em; [|done]. cbn. intros [= <-]. destruct (f_law f a vs Ef) as [Hv Hg].
  destruct (m_law rest b ps Em) as (Hok&Hin&Hget). unfold fresh_number in Hn. apply andb_true_iff in Hn as [[H1 H2]%andb_true_iff Hn%bool_decide_eq_true_1].
  split; [|split].
  - apply Forall_app. split; [|done]. apply Forall_fmap. eapply Forall_impl; [exact Hv|]. intros v Hx. split; [cbn; lia|done].
  - apply Forall_app. split; [apply Forall_fmap, Forall_true; intros; cbn; set_solver|]. eapply Forall_impl; [exact Hin|]. set_solver.
  - intros l E. unfold field_get. destruct (where_cons_number l vs ps Hn Hin E) as [-> Ew]. rewrite Hg. cbn. by rewrite (Hget l Ew).
Defined.
End field.

Declare Scope wire_scope.
Delimit Scope wire_scope with wire.
(** A field tag: the number and the codec of the type; the numbers are distinct by computation. *)
Notation "'tag' n f ;; r" := (field n f r eq_refl) (at level 60, n at level 9, f at level 9, r at level 60, right associativity) : wire_scope.

Definition as_record {A B} (to : A -> B) (from : B -> A) (E : forall a, from (to a) = a) (m : Message B) : Message A.
Proof.
  refine (mkMessage (m_nums m) (fun a => m_put m (to a)) (fun ps => from <$> m_get m ps) _).
  intros a ps Hp. destruct (m_law m _ ps Hp) as (H1&H2&H3). split; [done|]. split; [done|]. intros qs Hq. rewrite (H3 qs Hq). cbn. by rewrite E.
Defined.

(** *** Fields that hold a number *)
Definition varints (vs : list Value) : list Z := omap (fun v => match v with VVarint z => Some z | _ => None end) vs.
Definition lengths (vs : list Value) : list bytes := omap (fun v => match v with VLen l => Some l | _ => None end) vs.

(** A number with its representation as a varint; values outside the type
    have none, the zero value is left out. *)
Section number.
Context {A : Type} `{EqDecision A} (zero : A) (valid : A -> bool) (to : A -> Z) (from : Z -> A).
Definition number_put (a : A) : option (list Value) :=
  if negb (valid a) then None else if decide (a = zero) then Some [] else Some [VVarint (to a)].
Definition number_get (vs : list Value) : option A := Some (match last (varints vs) with Some z => from z | None => zero end).
Definition number_field (E : forall a, valid a = true -> 0 <= to a <= max_u64 /\ from (to a) = a) : Field A.
Proof.
  refine (mkField number_put number_get _). intros a vs. unfold number_put. destruct (valid a) eqn:Ev; [|done]. cbn.
  destruct (E a Ev) as [Hr Ea]. case_decide as Ez; intros [= <-]; [by rewrite Ez|]. split; [by apply Forall_singleton|].
  unfold number_get. cbn. by rewrite Ea.
Defined.
End number.

Definition in_bounds (lo hi z : Z) : bool := (lo <=? z) && (z <=? hi).
(** [int32(x)]: the value modulo 2^32 with its sign *)
Definition i32 (z : Z) : Z := let n := u32 z in if n <=? 2147483647 then n else n - (max_u32 + 1).
Definition uint32_field : Field Z.
Proof.
  refine (number_field 0 (in_bounds 0 max_u32) (fun z => z) u32 _). intros z [H1 H2]%andb_true_iff. apply Z.leb_le in H1, H2.
  split; [unfold max_u32, max_u64 in *; lia|by apply u32_small].
Defined.
Definition uint64_field : Field Z.
Proof.
  refine (number_field 0 (in_bounds 0 max_u64) (fun z => z) (fun z => z) _). intros z [H1 H2]%andb_true_iff. apply Z.leb_le in H1, H2. done.
Defined.
Definition bool_field : Field bool.
Proof. refine (number_field false (fun _ => true) (fun b => if b : bool then 1 else 0) (fun z => negb (z =? 0)) _). by intros []. Defined.
(** An enumeration is an [int32], sign-extended to 64 bits. *)
Definition enum_field : Field Z.
Proof.
  refine (number_field 0 (in_bounds (-2147483648) 2147483647) u64 i32 _). intros z [H1 H2]%andb_true_iff. apply Z.leb_le in H1, H2.
  split; [apply u64_bound|]. unfold i32, u32, u64, max_u32, max_u64 in *. Z.to_euclidean_division_equations. destruct (_ <=? _) eqn:E; lia.
Defined.

(** *** Fields that hold a text *)
(** [utf8.Valid] *)
Fixpoint valid_utf8_fuel (fuel : nat) (l : bytes) : bool :=
  match fuel, l with
  | _, [] => true
  | O, _ => false
  | S fuel, a :: _ => (negb (rune_width l =? 1)%nat || in_range 0 127 a) && valid_utf8_fuel fuel (drop (rune_width l) l)
  end.
Definition valid_utf8 (l : bytes) : bool := valid_utf8_fuel (length l) l.

Section text.
Context (valid : bytes -> bool).
Definition text_put (s : string) : option (list Value) :=
  let l := to_bytes s in
  if negb (valid l) || (max_length <? zlen l) then None else if decide (l = []) then Some [] else Some [VLen l].
Definition text_get (vs : list Value) : option string :=
  let ls := lengths vs in
  if forallb valid ls then Some (match last ls with Some l => of_bytes l | None => ""%string end) else None.
Definition text_field : Field string.
Proof.
  refine (mkField text_put text_get _). intros s vs. unfold text_put. destruct (negb (valid _) || _) eqn:Ev; [done|].
  apply orb_false_iff in Ev as [Ev El]. apply negb_false_iff in Ev. apply Z.ltb_ge in El. case_decide as Ez; intros [= <-].
  - split; [done|]. unfold text_get. cbn. by rewrite <- (of_to_bytes s), Ez.
  - split; [by apply Forall_singleton|]. unfold text_get. cbn. rewrite Ev. cbn. by rewrite of_to_bytes.
Defined.
End text.
(** Of a [string] field the runtime checks the encoding, of a [bytes] field not. *)
Definition string_field : Field string := text_field valid_utf8.
Definition bytes_field : Field string := text_field (fun _ => true).

(** *** Fields that hold messages *)
Section embedded.
Context {A : Type} (m : Message A).
Definition embed (a : A) : option Value :=
  s ← marshal m a; if max_length <? strlen s then None else Some (VLen (to_bytes s)).
Lemma embed_law a v : embed a = Some v -> ok_value v /\ exists l, v = VLen l /\ unmarshal m (of_bytes l) = Some a.
Proof.
  unfold embed. destruct (marshal m a) as [s|] eqn:E; [|done]. cbn. destruct (_ <? _) eqn:El; [done|]. apply Z.ltb_ge in El. intros [= <-].
  split; [done|]. exists (to_bytes s). split; [done|]. rewrite of_to_bytes. by apply unmarshal_marshal.
Qed.

(** A pointer to a message: several pieces are joined. *)
Definition message_put (o : option A) : option (list Value) :=
  match o with None => Some [] | Some a => v ← embed a; Some [v] end.
Definition message_get (vs : list Value) : option (option A) :=
  match lengths vs with [] => Some None | ls => Some <$> unmarshal m (of_bytes (concat ls)) end.
Definition message_field : Field (option A).
Proof.
  refine (mkField message_put message_get _). intros [a|] vs; cbn; [|by intros [= <-]].
  destruct (embed a) as [v|] eqn:E; [|done]. cbn. intros [= <-]. destruct (embed_law a v E) as [Hok (l&->&Hl)].
  split; [by apply Forall_singleton|]. change (Some <$> unmarshal m (of_bytes (l ++ [])) = Some (Some a)). by rewrite app_nil_r, Hl.
Defined.

Definition repeated_put (l : list A) : option (list Value) := mapM embed l.
Definition repeated_get (vs : list Value) : option (list A) := mapM (fun l => unmarshal m (of_bytes l)) (lengths vs).
Definition repeated_field : Field (list A).
Proof.
  refine (mkField repeated_put repeated_get _). intros l vs E%mapM_Some. unfold repeated_get. split.
  - induction E as [|a v l vs Ha _ IH]; constructor; [|done]. by apply (embed_law a v Ha).
  - induction E as [|a v l vs Ha _ IH]; [done|]. destruct (embed_law a v Ha) as [_ (b&->&Hb)]. cbn. rewrite Hb. cbn.
    unfold lengths in IH. by rewrite IH.
Defined.
End embedded.

(** ** Sizes *)
Lemma put_pieces_elem p ps : p ∈ ps -> zlen (put_piece p) <= zlen (put_pieces ps).
Proof.
  induction ps as [|q ps IH]; [by intros ?%elem_of_nil|]. change (put_pieces (q :: ps)) with (put_piece q ++ put_pieces ps).
  unfold zlen in *. rewrite length_app. intros [->|Hin]%elem_of_cons; [lia|]. specialize (IH Hin). lia.
Qed.
(** An encoding is longer than any text in it. *)
Lemma marshal_contains {A} (m : Message A) a ps n l s :
  m_put m a = Some ps -> (n, VLen l) ∈ ps -> marshal m a = Some s -> zlen l <= strlen s.
Proof.
  intros Hp Hin. unfold marshal. rewrite Hp. cbn. intros [= <-]. unfold strlen. rewrite to_of_bytes.
  etrans; [|apply (put_pieces_elem _ _ Hin)]. unfold put_piece, zlen. cbn [fst snd]. rewrite !length_app. lia.
Qed.
Lemma field_put_inv {A B} n (f : Field A) (rest : Message B) H a b qs : m_put (field n f rest H) (a, b) = Some qs ->
  exists vs ps, f_put f a = Some vs /\ m_put rest b = Some ps /\ qs = (pair n <$> vs) ++ ps.
Proof.
  cbn. unfold field_put. cbn [fst snd]. destruct (f_put f a) as [vs|]; [|done]. cbn. destruct (m_put rest b) as [ps|]; [|done]. cbn.
  intros [= <-]. eauto.
Qed.
