(* ===== verification/ProtoWire.v ===== *)
(** * The messages on the wire: the field tags of [session.pb.go]

    One codec per message, built from the tags of its Go struct: the number
    and the type of each field.  [tagged_protobuf] is the protobuf runtime
    for these codecs; the library the program links
    ([github.com/golang/protobuf]) is a parameter of the other files. *)
From S2P Require Import Prelude Go Encoding Proto Wire.
Import sessionv1.
#[local] Open Scope wire_scope.

Definition msg_Envelope : Message Envelope := as_record
  (fun m => (Envelope_Version m, (Envelope_MsgType m, (Envelope_RequestId m, (Envelope_TimestampMs m, (Envelope_Body
    m, tt))))))
  (fun '(x0, (x1, (x2, (x3, (x4, tt))))) => mkEnvelope x0 x1 x2 x3 x4) ltac:(by intros [])
  (tag 1 uint32_field;; tag 2 enum_field;; tag 3 string_field;; tag 4 uint64_field;; tag 5 bytes_field;; no_fields).
Definition msg_Hello : Message Hello := as_record
  (fun m => (Hello_ClientPeerId m, (Hello_ClientAgent m, (Hello_ProtocolVersion m, tt))))
  (fun '(x0, (x1, (x2, tt))) => mkHello x0 x1 x2) ltac:(by intros [])
  (tag 1 string_field;; tag 2 string_field;; tag 3 string_field;; no_fields).
Definition msg_AuthChallenge : Message AuthChallenge := as_record
  (fun m => (AuthChallenge_NodePeerId m, (AuthChallenge_Nonce m, (AuthChallenge_IssuedAtMs m,
    (AuthChallenge_ExpiresAtMs m, (AuthChallenge_SessionHint m, tt))))))
  (fun '(x0, (x1, (x2, (x3, (x4, tt))))) => mkAuthChallenge x0 x1 x2 x3 x4) ltac:(by intros [])
  (tag 1 string_field;; tag 2 bytes_field;; tag 3 uint64_field;; tag 4 uint64_field;; tag 5 string_field;; no_fields).
Definition msg_AuthProve : Message AuthProve := as_record
  (fun m => (AuthProve_ClientPeerId m, (AuthProve_Nonce m, (AuthProve_IssuedAtMs m, (AuthProve_ExpiresAtMs m,
    (AuthProve_Signature m, (AuthProve_PublicKey m, tt)))))))
  (fun '(x0, (x1, (x2, (x3, (x4, (x5, tt)))))) => mkAuthProve x0 x1 x2 x3 x4 x5) ltac:(by intros [])
  (tag 1 string_field;; tag 2 bytes_field;; tag 3 uint64_field;; tag 4 uint64_field;; tag 5 bytes_field;; tag 6
    bytes_field;; no_fields).
Definition msg_ErrorMsg : Message ErrorMsg := as_record
  (fun m => (ErrorMsg_Code m, (ErrorMsg_Message m, tt)))
  (fun '(x0, (x1, tt)) => mkErrorMsg x0 x1) ltac:(by intros [])
  (tag 1 uint32_field;; tag 2 string_field;; no_fields).
Definition msg_Ping : Message Ping := as_record
  (fun m => (Ping_Nonce m, tt))
  (fun '(x0, tt) => mkPing x0) ltac:(by intros [])
  (tag 1 uint64_field;; no_fields).
Definition msg_Pong : Message Pong := as_record
  (fun m => (Pong_Nonce m, tt))
  (fun '(x0, tt) => mkPong x0) ltac:(by intros [])
  (tag 1 uint64_field;; no_fields).
Definition msg_SpaceSummary : Message SpaceSummary := as_record
  (fun m => (SpaceSummary_SpaceId m, (SpaceSummary_Name m, (SpaceSummary_AvatarUrl m, (SpaceSummary_Description m,
    (SpaceSummary_Visibility m, (SpaceSummary_MemberCount m, (SpaceSummary_AllowChannelCreation m, tt))))))))
  (fun '(x0, (x1, (x2, (x3, (x4, (x5, (x6, tt))))))) => mkSpaceSummary x0 x1 x2 x3 x4 x5 x6) ltac:(by intros [])
  (tag 1 uint32_field;; tag 2 string_field;; tag 3 string_field;; tag 4 string_field;; tag 5 enum_field;; tag 6
    uint32_field;; tag 7 bool_field;; no_fields).
Definition msg_AuthResult : Message AuthResult := as_record
  (fun m => (AuthResult_Ok m, (AuthResult_SessionId m, (AuthResult_UserId m, (AuthResult_DisplayName m,
    (AuthResult_Message m, (AuthResult_Spaces m, tt)))))))
  (fun '(x0, (x1, (x2, (x3, (x4, (x5, tt)))))) => mkAuthResult x0 x1 x2 x3 x4 x5) ltac:(by intros [])
  (tag 1 bool_field;; tag 2 string_field;; tag 3 string_field;; tag 4 string_field;; tag 5 string_field;; tag 6
    (repeated_field msg_SpaceSummary);; no_fields).
Definition msg_ListSpacesReq : Message ListSpacesReq := as_record
  (fun _ => tt)
  (fun _ => mkListSpacesReq) ltac:(by intros [])
  (no_fields).
Definition msg_ListSpacesResp : Message ListSpacesResp := as_record
  (fun m => (ListSpacesResp_Spaces m, tt))
  (fun '(x0, tt) => mkListSpacesResp x0) ltac:(by intros [])
  (tag 1 (repeated_field msg_SpaceSummary);; no_fields).
Definition msg_ChannelSummary : Message ChannelSummary := as_record
  (fun m => (ChannelSummary_ChannelId m, (ChannelSummary_SpaceId m, (ChannelSummary_Type m, (ChannelSummary_Name m,
    (ChannelSummary_Description m, (ChannelSummary_Visibility m, (ChannelSummary_SlowModeSeconds m,
    (ChannelSummary_AutoDeleteAfterSeconds m, (ChannelSummary_LastSeq m, (ChannelSummary_MemberCount m,
    (ChannelSummary_CanView m, (ChannelSummary_CanSendMessage m, (ChannelSummary_CanSendImage m,
    (ChannelSummary_CanSendFile m, tt)))))))))))))))
  (fun '(x0, (x1, (x2, (x3, (x4, (x5, (x6, (x7, (x8, (x9, (x10, (x11, (x12, (x13, tt)))))))))))))) =>
    mkChannelSummary x0 x1 x2 x3 x4 x5 x6 x7 x8 x9 x10 x11 x12 x13) ltac:(by intros [])
  (tag 1 uint32_field;; tag 2 uint32_field;; tag 3 enum_field;; tag 4 string_field;; tag 5 string_field;; tag 6
    enum_field;; tag 7 uint32_field;; tag 8 uint32_field;; tag 9 uint64_field;; tag 10 uint32_field;; tag 11
    bool_field;; tag 12 bool_field;; tag 13 bool_field;; tag 14 bool_field;; no_fields).
Definition msg_ListChannelsReq : Message ListChannelsReq := as_record
  (fun m => (ListChannelsReq_SpaceId m, tt))
  (fun '(x0, tt) => mkListChannelsReq x0) ltac:(by intros [])
  (tag 1 uint32_field;; no_fields).
Definition msg_ListChannelsResp : Message ListChannelsResp := as_record
  (fun m => (ListChannelsResp_SpaceId m, (ListChannelsResp_Channels m, tt)))
  (fun '(x0, (x1, tt)) => mkListChannelsResp x0 x1) ltac:(by intros [])
  (tag 1 uint32_field;; tag 2 (repeated_field msg_ChannelSummary);; no_fields).
Definition msg_SpaceMemberSummary : Message SpaceMemberSummary := as_record
  (fun m => (SpaceMemberSummary_MemberId m, (SpaceMemberSummary_UserId m, (SpaceMemberSummary_DisplayName m,
    (SpaceMemberSummary_AvatarUrl m, (SpaceMemberSummary_Role m, (SpaceMemberSummary_Nickname m,
    (SpaceMemberSummary_IsMuted m, (SpaceMemberSummary_IsBanned m, (SpaceMemberSummary_JoinedAtMs m,
    (SpaceMemberSummary_LastSeenAtMs m, tt)))))))))))
  (fun '(x0, (x1, (x2, (x3, (x4, (x5, (x6, (x7, (x8, (x9, tt)))))))))) => mkSpaceMemberSummary x0 x1 x2 x3 x4 x5 x6
    x7 x8 x9) ltac:(by intros [])
  (tag 1 uint64_field;; tag 2 string_field;; tag 3 string_field;; tag 4 string_field;; tag 5 enum_field;; tag 6
    string_field;; tag 7 bool_field;; tag 8 bool_field;; tag 9 uint64_field;; tag 10 uint64_field;; no_fields).
Definition msg_ListSpaceMembersReq : Message ListSpaceMembersReq := as_record
  (fun m => (ListSpaceMembersReq_SpaceId m, (ListSpaceMembersReq_AfterMemberId m, (ListSpaceMembersReq_Limit m,
    tt))))
  (fun '(x0, (x1, (x2, tt))) => mkListSpaceMembersReq x0 x1 x2) ltac:(by intros [])
  (tag 1 uint32_field;; tag 2 uint64_field;; tag 3 uint32_field;; no_fields).
Definition msg_ListSpaceMembersResp : Message ListSpaceMembersResp := as_record
  (fun m => (ListSpaceMembersResp_SpaceId m, (ListSpaceMembersResp_Members m,
    (ListSpaceMembersResp_NextAfterMemberId m, (ListSpaceMembersResp_HasMore m, tt)))))
  (fun '(x0, (x1, (x2, (x3, tt)))) => mkListSpaceMembersResp x0 x1 x2 x3) ltac:(by intros [])
  (tag 1 uint32_field;; tag 2 (repeated_field msg_SpaceMemberSummary);; tag 3 uint64_field;; tag 4 bool_field;;
    no_fields).
Definition msg_UnbanSpaceMemberReq : Message UnbanSpaceMemberReq := as_record
  (fun m => (UnbanSpaceMemberReq_SpaceId m, (UnbanSpaceMemberReq_TargetUserId m, tt)))
  (fun '(x0, (x1, tt)) => mkUnbanSpaceMemberReq x0 x1) ltac:(by intros [])
  (tag 1 uint32_field;; tag 2 string_field;; no_fields).
Definition msg_UnbanSpaceMemberResp : Message UnbanSpaceMemberResp := as_record
  (fun m => (UnbanSpaceMemberResp_Ok m, (UnbanSpaceMemberResp_SpaceId m, (UnbanSpaceMemberResp_TargetUserId m,
    (UnbanSpaceMemberResp_Space m, (UnbanSpaceMemberResp_Message m, tt))))))
  (fun '(x0, (x1, (x2, (x3, (x4, tt))))) => mkUnbanSpaceMemberResp x0 x1 x2 x3 x4) ltac:(by intros [])
  (tag 1 bool_field;; tag 2 uint32_field;; tag 3 string_field;; tag 4 (message_field msg_SpaceSummary);; tag 5
    string_field;; no_fields).
Definition msg_CreateSpaceReq : Message CreateSpaceReq := as_record
  (fun m => (CreateSpaceReq_Name m, (CreateSpaceReq_Description m, (CreateSpaceReq_Visibility m,
    (CreateSpaceReq_AllowChannelCreation m, tt)))))
  (fun '(x0, (x1, (x2, (x3, tt)))) => mkCreateSpaceReq x0 x1 x2 x3) ltac:(by intros [])
  (tag 1 string_field;; tag 2 string_field;; tag 3 enum_field;; tag 4 bool_field;; no_fields).
Definition msg_CreateSpaceResp : Message CreateSpaceResp := as_record
  (fun m => (CreateSpaceResp_Ok m, (CreateSpaceResp_SpaceId m, (CreateSpaceResp_Space m, (CreateSpaceResp_Message m,
    tt)))))
  (fun '(x0, (x1, (x2, (x3, tt)))) => mkCreateSpaceResp x0 x1 x2 x3) ltac:(by intros [])
  (tag 1 bool_field;; tag 2 uint32_field;; tag 3 (message_field msg_SpaceSummary);; tag 4 string_field;; no_fields).
Definition msg_GetCreateSpacePermissionsReq : Message GetCreateSpacePermissionsReq := as_record
  (fun _ => tt)
  (fun _ => mkGetCreateSpacePermissionsReq) ltac:(by intros [])
  (no_fields).
Definition msg_GetCreateSpacePermissionsResp : Message GetCreateSpacePermissionsResp := as_record
  (fun m => (GetCreateSpacePermissionsResp_Ok m, (GetCreateSpacePermissionsResp_CanCreateSpace m,
    (GetCreateSpacePermissionsResp_Message m, tt))))
  (fun '(x0, (x1, (x2, tt))) => mkGetCreateSpacePermissionsResp x0 x1 x2) ltac:(by intros [])
  (tag 1 bool_field;; tag 2 bool_field;; tag 3 string_field;; no_fields).
Definition msg_GetCreateGroupPermissionsReq : Message GetCreateGroupPermissionsReq := as_record
  (fun m => (GetCreateGroupPermissionsReq_SpaceId m, tt))
  (fun '(x0, tt) => mkGetCreateGroupPermissionsReq x0) ltac:(by intros [])
  (tag 1 uint32_field;; no_fields).
Definition msg_GetCreateGroupPermissionsResp : Message GetCreateGroupPermissionsResp := as_record
  (fun m => (GetCreateGroupPermissionsResp_Ok m, (GetCreateGroupPermissionsResp_SpaceId m,
    (GetCreateGroupPermissionsResp_Space m, (GetCreateGroupPermissionsResp_Role m,
    (GetCreateGroupPermissionsResp_CanCreateGroup m, (GetCreateGroupPermissionsResp_Message m, tt)))))))
  (fun '(x0, (x1, (x2, (x3, (x4, (x5, tt)))))) => mkGetCreateGroupPermissionsResp x0 x1 x2 x3 x4 x5) ltac:(by intros [])
  (tag 1 bool_field;; tag 2 uint32_field;; tag 3 (message_field msg_SpaceSummary);; tag 4 enum_field;; tag 5
    bool_field;; tag 6 string_field;; no_fields).
Definition msg_SubscribeChannelReq : Message SubscribeChannelReq := as_record
  (fun m => (SubscribeChannelReq_ChannelId m, (SubscribeChannelReq_LastSeenSeq m, tt)))
  (fun '(x0, (x1, tt)) => mkSubscribeChannelReq x0 x1) ltac:(by intros [])
  (tag 1 uint32_field;; tag 2 uint64_field;; no_fields).
Definition msg_SubscribeChannelResp : Message SubscribeChannelResp := as_record
  (fun m => (SubscribeChannelResp_Ok m, (SubscribeChannelResp_ChannelId m, (SubscribeChannelResp_CurrentLastSeq m,
    (SubscribeChannelResp_Message m, tt)))))
  (fun '(x0, (x1, (x2, (x3, tt)))) => mkSubscribeChannelResp x0 x1 x2 x3) ltac:(by intros [])
  (tag 1 bool_field;; tag 2 uint32_field;; tag 3 uint64_field;; tag 4 string_field;; no_fields).
Definition msg_UnsubscribeChannelReq : Message UnsubscribeChannelReq := as_record
  (fun m => (UnsubscribeChannelReq_ChannelId m, tt))
  (fun '(x0, tt) => mkUnsubscribeChannelReq x0) ltac:(by intros [])
  (tag 1 uint32_field;; no_fields).
Definition msg_UnsubscribeChannelResp : Message UnsubscribeChannelResp := as_record
  (fun m => (UnsubscribeChannelResp_Ok m, (UnsubscribeChannelResp_ChannelId m, tt)))
  (fun '(x0, (x1, tt)) => mkUnsubscribeChannelResp x0 x1) ltac:(by intros [])
  (tag 1 bool_field;; tag 2 uint32_field;; no_fields).
Definition msg_CreateGroupReq : Message CreateGroupReq := as_record
  (fun m => (CreateGroupReq_SpaceId m, (CreateGroupReq_Name m, (CreateGroupReq_Description m,
    (CreateGroupReq_Visibility m, (CreateGroupReq_SlowModeSeconds m, tt))))))
  (fun '(x0, (x1, (x2, (x3, (x4, tt))))) => mkCreateGroupReq x0 x1 x2 x3 x4) ltac:(by intros [])
  (tag 1 uint32_field;; tag 2 string_field;; tag 3 string_field;; tag 4 enum_field;; tag 5 uint32_field;; no_fields).
Definition msg_CreateGroupResp : Message CreateGroupResp := as_record
  (fun m => (CreateGroupResp_Ok m, (CreateGroupResp_SpaceId m, (CreateGroupResp_ChannelId m,
    (CreateGroupResp_Channel m, (CreateGroupResp_Message m, tt))))))
  (fun '(x0, (x1, (x2, (x3, (x4, tt))))) => mkCreateGroupResp x0 x1 x2 x3 x4) ltac:(by intros [])
  (tag 1 bool_field;; tag 2 uint32_field;; tag 3 uint32_field;; tag 4 (message_field msg_ChannelSummary);; tag 5
    string_field;; no_fields).
Definition msg_CreateChannelReq : Message CreateChannelReq := as_record
  (fun m => (CreateChannelReq_SpaceId m, (CreateChannelReq_Name m, (CreateChannelReq_Description m,
    (CreateChannelReq_Visibility m, (CreateChannelReq_SlowModeSeconds m, tt))))))
  (fun '(x0, (x1, (x2, (x3, (x4, tt))))) => mkCreateChannelReq x0 x1 x2 x3 x4) ltac:(by intros [])
  (tag 1 uint32_field;; tag 2 string_field;; tag 3 string_field;; tag 4 enum_field;; tag 5 uint32_field;; no_fields).
Definition msg_CreateChannelResp : Message CreateChannelResp := as_record
  (fun m => (CreateChannelResp_Ok m, (CreateChannelResp_SpaceId m, (CreateChannelResp_ChannelId m,
    (CreateChannelResp_Channel m, (CreateChannelResp_Message m, tt))))))
  (fun '(x0, (x1, (x2, (x3, (x4, tt))))) => mkCreateChannelResp x0 x1 x2 x3 x4) ltac:(by intros [])
  (tag 1 bool_field;; tag 2 uint32_field;; tag 3 uint32_field;; tag 4 (message_field msg_ChannelSummary);; tag 5
    string_field;; no_fields).
Definition msg_AdminSetSpaceMemberRoleReq : Message AdminSetSpaceMemberRoleReq := as_record
  (fun m => (AdminSetSpaceMemberRoleReq_SpaceId m, (AdminSetSpaceMemberRoleReq_TargetUserId m,
    (AdminSetSpaceMemberRoleReq_Role m, tt))))
  (fun '(x0, (x1, (x2, tt))) => mkAdminSetSpaceMemberRoleReq x0 x1 x2) ltac:(by intros [])
  (tag 1 uint32_field;; tag 2 string_field;; tag 3 enum_field;; no_fields).
Definition msg_AdminSetSpaceMemberRoleResp : Message AdminSetSpaceMemberRoleResp := as_record
  (fun m => (AdminSetSpaceMemberRoleResp_Ok m, (AdminSetSpaceMemberRoleResp_SpaceId m,
    (AdminSetSpaceMemberRoleResp_TargetUserId m, (AdminSetSpaceMemberRoleResp_Role m,
    (AdminSetSpaceMemberRoleResp_Message m, tt))))))
  (fun '(x0, (x1, (x2, (x3, (x4, tt))))) => mkAdminSetSpaceMemberRoleResp x0 x1 x2 x3 x4) ltac:(by intros [])
  (tag 1 bool_field;; tag 2 uint32_field;; tag 3 string_field;; tag 4 enum_field;; tag 5 string_field;; no_fields).
Definition msg_AdminSetSpaceChannelCreationReq : Message AdminSetSpaceChannelCreationReq := as_record
  (fun m => (AdminSetSpaceChannelCreationReq_SpaceId m, (AdminSetSpaceChannelCreationReq_AllowChannelCreation m,
    tt)))
  (fun '(x0, (x1, tt)) => mkAdminSetSpaceChannelCreationReq x0 x1) ltac:(by intros [])
  (tag 1 uint32_field;; tag 2 bool_field;; no_fields).
Definition msg_AdminSetSpaceChannelCreationResp : Message AdminSetSpaceChannelCreationResp := as_record
  (fun m => (AdminSetSpaceChannelCreationResp_Ok m, (AdminSetSpaceChannelCreationResp_SpaceId m,
    (AdminSetSpaceChannelCreationResp_AllowChannelCreation m, (AdminSetSpaceChannelCreationResp_Message m, tt)))))
  (fun '(x0, (x1, (x2, (x3, tt)))) => mkAdminSetSpaceChannelCreationResp x0 x1 x2 x3) ltac:(by intros [])
  (tag 1 bool_field;; tag 2 uint32_field;; tag 3 bool_field;; tag 4 string_field;; no_fields).
Definition msg_JoinSpaceReq : Message JoinSpaceReq := as_record
  (fun m => (JoinSpaceReq_SpaceId m, tt))
  (fun '(x0, tt) => mkJoinSpaceReq x0) ltac:(by intros [])
  (tag 1 uint32_field;; no_fields).
Definition msg_JoinSpaceResp : Message JoinSpaceResp := as_record
  (fun m => (JoinSpaceResp_Ok m, (JoinSpaceResp_SpaceId m, (JoinSpaceResp_Space m, (JoinSpaceResp_Message m, tt)))))
  (fun '(x0, (x1, (x2, (x3, tt)))) => mkJoinSpaceResp x0 x1 x2 x3) ltac:(by intros [])
  (tag 1 bool_field;; tag 2 uint32_field;; tag 3 (message_field msg_SpaceSummary);; tag 4 string_field;; no_fields).
Definition msg_InviteSpaceMemberReq : Message InviteSpaceMemberReq := as_record
  (fun m => (InviteSpaceMemberReq_SpaceId m, (InviteSpaceMemberReq_TargetUserId m, tt)))
  (fun '(x0, (x1, tt)) => mkInviteSpaceMemberReq x0 x1) ltac:(by intros [])
  (tag 1 uint32_field;; tag 2 string_field;; no_fields).
Definition msg_InviteSpaceMemberResp : Message InviteSpaceMemberResp := as_record
  (fun m => (InviteSpaceMemberResp_Ok m, (InviteSpaceMemberResp_SpaceId m, (InviteSpaceMemberResp_TargetUserId m,
    (InviteSpaceMemberResp_Space m, (InviteSpaceMemberResp_Message m, tt))))))
  (fun '(x0, (x1, (x2, (x3, (x4, tt))))) => mkInviteSpaceMemberResp x0 x1 x2 x3 x4) ltac:(by intros [])
  (tag 1 bool_field;; tag 2 uint32_field;; tag 3 string_field;; tag 4 (message_field msg_SpaceSummary);; tag 5
    string_field;; no_fields).
Definition msg_KickSpaceMemberReq : Message KickSpaceMemberReq := as_record
  (fun m => (KickSpaceMemberReq_SpaceId m, (KickSpaceMemberReq_TargetUserId m, tt)))
  (fun '(x0, (x1, tt)) => mkKickSpaceMemberReq x0 x1) ltac:(by intros [])
  (tag 1 uint32_field;; tag 2 string_field;; no_fields).
Definition msg_KickSpaceMemberResp : Message KickSpaceMemberResp := as_record
  (fun m => (KickSpaceMemberResp_Ok m, (KickSpaceMemberResp_SpaceId m, (KickSpaceMemberResp_TargetUserId m,
    (KickSpaceMemberResp_Space m, (KickSpaceMemberResp_Message m, tt))))))
  (fun '(x0, (x1, (x2, (x3, (x4, tt))))) => mkKickSpaceMemberResp x0 x1 x2 x3 x4) ltac:(by intros [])
  (tag 1 bool_field;; tag 2 uint32_field;; tag 3 string_field;; tag 4 (message_field msg_SpaceSummary);; tag 5
    string_field;; no_fields).
Definition msg_BanSpaceMemberReq : Message BanSpaceMemberReq := as_record
  (fun m => (BanSpaceMemberReq_SpaceId m, (BanSpaceMemberReq_TargetUserId m, tt)))
  (fun '(x0, (x1, tt)) => mkBanSpaceMemberReq x0 x1) ltac:(by intros [])
  (tag 1 uint32_field;; tag 2 string_field;; no_fields).
Definition msg_BanSpaceMemberResp : Message BanSpaceMemberResp := as_record
  (fun m => (BanSpaceMemberResp_Ok m, (BanSpaceMemberResp_SpaceId m, (BanSpaceMemberResp_TargetUserId m,
    (BanSpaceMemberResp_Space m, (BanSpaceMemberResp_Message m, tt))))))
  (fun '(x0, (x1, (x2, (x3, (x4, tt))))) => mkBanSpaceMemberResp x0 x1 x2 x3 x4) ltac:(by intros [])
  (tag 1 bool_field;; tag 2 uint32_field;; tag 3 string_field;; tag 4 (message_field msg_SpaceSummary);; tag 5
    string_field;; no_fields).
Definition msg_MediaImage : Message MediaImage := as_record
  (fun m => (MediaImage_MediaId m, (MediaImage_BlobId m, (MediaImage_Sha256 m, (MediaImage_Url m, (MediaImage_Width
    m, (MediaImage_Height m, (MediaImage_MimeType m, (MediaImage_Size m, (MediaImage_InlineData m,
    (MediaImage_OriginalName m, tt)))))))))))
  (fun '(x0, (x1, (x2, (x3, (x4, (x5, (x6, (x7, (x8, (x9, tt)))))))))) => mkMediaImage x0 x1 x2 x3 x4 x5 x6 x7 x8
    x9) ltac:(by intros [])
  (tag 1 string_field;; tag 2 string_field;; tag 3 string_field;; tag 4 string_field;; tag 5 uint32_field;; tag 6
    uint32_field;; tag 7 string_field;; tag 8 uint64_field;; tag 9 bytes_field;; tag 10 string_field;; no_fields).
Definition msg_MediaFile : Message MediaFile := as_record
  (fun m => (MediaFile_MediaId m, (MediaFile_BlobId m, (MediaFile_Sha256 m, (MediaFile_FileName m, (MediaFile_Url m,
    (MediaFile_MimeType m, (MediaFile_Size m, (MediaFile_InlineData m, (MediaFile_FileCid m, tt))))))))))
  (fun '(x0, (x1, (x2, (x3, (x4, (x5, (x6, (x7, (x8, tt))))))))) => mkMediaFile x0 x1 x2 x3 x4 x5 x6 x7 x8) ltac:(by intros [])
  (tag 1 string_field;; tag 2 string_field;; tag 3 string_field;; tag 4 string_field;; tag 5 string_field;; tag 6
    string_field;; tag 7 uint64_field;; tag 8 bytes_field;; tag 9 string_field;; no_fields).
Definition msg_MessageContent : Message MessageContent := as_record
  (fun m => (MessageContent_Images m, (MessageContent_Files m, (MessageContent_Text m, tt))))
  (fun '(x0, (x1, (x2, tt))) => mkMessageContent x0 x1 x2) ltac:(by intros [])
  (tag 1 (repeated_field msg_MediaImage);; tag 2 (repeated_field msg_MediaFile);; tag 3 string_field;; no_fields).
Definition msg_SendMessageReq : Message SendMessageReq := as_record
  (fun m => (SendMessageReq_ChannelId m, (SendMessageReq_ClientMsgId m, (SendMessageReq_MessageType m,
    (SendMessageReq_Content m, tt)))))
  (fun '(x0, (x1, (x2, (x3, tt)))) => mkSendMessageReq x0 x1 x2 x3) ltac:(by intros [])
  (tag 1 uint32_field;; tag 2 string_field;; tag 3 enum_field;; tag 4 (message_field msg_MessageContent);; no_fields).
Definition msg_SendMessageAck : Message SendMessageAck := as_record
  (fun m => (SendMessageAck_Ok m, (SendMessageAck_ChannelId m, (SendMessageAck_ClientMsgId m,
    (SendMessageAck_MessageId m, (SendMessageAck_Seq m, (SendMessageAck_ServerTimeMs m, (SendMessageAck_Message m,
    tt))))))))
  (fun '(x0, (x1, (x2, (x3, (x4, (x5, (x6, tt))))))) => mkSendMessageAck x0 x1 x2 x3 x4 x5 x6) ltac:(by intros [])
  (tag 1 bool_field;; tag 2 uint32_field;; tag 3 string_field;; tag 4 string_field;; tag 5 uint64_field;; tag 6
    uint64_field;; tag 7 string_field;; no_fields).
Definition msg_MessageEvent : Message MessageEvent := as_record
  (fun m => (MessageEvent_ChannelId m, (MessageEvent_MessageId m, (MessageEvent_Seq m, (MessageEvent_SenderUserId m,
    (MessageEvent_MessageType m, (MessageEvent_Content m, (MessageEvent_CreatedAtMs m, tt))))))))
  (fun '(x0, (x1, (x2, (x3, (x4, (x5, (x6, tt))))))) => mkMessageEvent x0 x1 x2 x3 x4 x5 x6) ltac:(by intros [])
  (tag 1 uint32_field;; tag 2 string_field;; tag 3 uint64_field;; tag 4 string_field;; tag 5 enum_field;; tag 6
    (message_field msg_MessageContent);; tag 7 uint64_field;; no_fields).
Definition msg_ChannelDeliverAck : Message ChannelDeliverAck := as_record
  (fun m => (ChannelDeliverAck_ChannelId m, (ChannelDeliverAck_AckedSeq m, tt)))
  (fun '(x0, (x1, tt)) => mkChannelDeliverAck x0 x1) ltac:(by intros [])
  (tag 1 uint32_field;; tag 2 uint64_field;; no_fields).
Definition msg_ChannelReadUpdate : Message ChannelReadUpdate := as_record
  (fun m => (ChannelReadUpdate_ChannelId m, (ChannelReadUpdate_LastReadSeq m, tt)))
  (fun '(x0, (x1, tt)) => mkChannelReadUpdate x0 x1) ltac:(by intros [])
  (tag 1 uint32_field;; tag 2 uint64_field;; no_fields).
Definition msg_SyncChannelReq : Message SyncChannelReq := as_record
  (fun m => (SyncChannelReq_ChannelId m, (SyncChannelReq_AfterSeq m, (SyncChannelReq_Limit m, tt))))
  (fun '(x0, (x1, (x2, tt))) => mkSyncChannelReq x0 x1 x2) ltac:(by intros [])
  (tag 1 uint32_field;; tag 2 uint64_field;; tag 3 uint32_field;; no_fields).
Definition msg_SyncChannelResp : Message SyncChannelResp := as_record
  (fun m => (SyncChannelResp_ChannelId m, (SyncChannelResp_Messages m, (SyncChannelResp_NextAfterSeq m,
    (SyncChannelResp_HasMore m, tt)))))
  (fun '(x0, (x1, (x2, (x3, tt)))) => mkSyncChannelResp x0 x1 x2 x3) ltac:(by intros [])
  (tag 1 uint32_field;; tag 2 (repeated_field msg_MessageEvent);; tag 3 uint64_field;; tag 4 bool_field;; no_fields).
Definition msg_GetMediaReq : Message GetMediaReq := as_record
  (fun m => (GetMediaReq_MediaId m, tt))
  (fun '(x0, tt) => mkGetMediaReq x0) ltac:(by intros [])
  (tag 1 string_field;; no_fields).
Definition msg_GetMediaResp : Message GetMediaResp := as_record
  (fun m => (GetMediaResp_Ok m, (GetMediaResp_MediaId m, (GetMediaResp_File m, (GetMediaResp_Message m, tt)))))
  (fun '(x0, (x1, (x2, (x3, tt)))) => mkGetMediaResp x0 x1 x2 x3) ltac:(by intros [])
  (tag 1 bool_field;; tag 2 string_field;; tag 3 (message_field msg_MediaFile);; tag 4 string_field;; no_fields).
Definition msg_AdminSetGroupAutoDeleteReq : Message AdminSetGroupAutoDeleteReq := as_record
  (fun m => (AdminSetGroupAutoDeleteReq_ChannelId m, (AdminSetGroupAutoDeleteReq_AutoDeleteAfterSeconds m, tt)))
  (fun '(x0, (x1, tt)) => mkAdminSetGroupAutoDeleteReq x0 x1) ltac:(by intros [])
  (tag 1 uint32_field;; tag 2 uint32_field;; no_fields).
Definition msg_AdminSetGroupAutoDeleteResp : Message AdminSetGroupAutoDeleteResp := as_record
  (fun m => (AdminSetGroupAutoDeleteResp_Ok m, (AdminSetGroupAutoDeleteResp_ChannelId m,
    (AdminSetGroupAutoDeleteResp_AutoDeleteAfterSeconds m, (AdminSetGroupAutoDeleteResp_Channel m,
    (AdminSetGroupAutoDeleteResp_Message m, tt))))))
  (fun '(x0, (x1, (x2, (x3, (x4, tt))))) => mkAdminSetGroupAutoDeleteResp x0 x1 x2 x3 x4) ltac:(by intros [])
  (tag 1 bool_field;; tag 2 uint32_field;; tag 3 uint32_field;; tag 4 (message_field msg_ChannelSummary);; tag 5
    string_field;; no_fields).
Definition msg_OpenDirectConversationReq : Message OpenDirectConversationReq := as_record
  (fun m => (OpenDirectConversationReq_PeerUserId m, tt))
  (fun '(x0, tt) => mkOpenDirectConversationReq x0) ltac:(by intros [])
  (tag 1 string_field;; no_fields).
Definition msg_OpenDirectConversationResp : Message OpenDirectConversationResp := as_record
  (fun m => (OpenDirectConversationResp_Ok m, (OpenDirectConversationResp_ConversationId m,
    (OpenDirectConversationResp_PeerUserId m, (OpenDirectConversationResp_LastSeq m,
    (OpenDirectConversationResp_Message m, tt))))))
  (fun '(x0, (x1, (x2, (x3, (x4, tt))))) => mkOpenDirectConversationResp x0 x1 x2 x3 x4) ltac:(by intros [])
  (tag 1 bool_field;; tag 2 string_field;; tag 3 string_field;; tag 4 uint64_field;; tag 5 string_field;; no_fields).
Definition msg_DirectConversationSummary : Message DirectConversationSummary := as_record
  (fun m => (DirectConversationSummary_ConversationId m, (DirectConversationSummary_PeerUserId m,
    (DirectConversationSummary_PeerDisplayName m, (DirectConversationSummary_LastSeq m,
    (DirectConversationSummary_LastMessageAtMs m, tt))))))
  (fun '(x0, (x1, (x2, (x3, (x4, tt))))) => mkDirectConversationSummary x0 x1 x2 x3 x4) ltac:(by intros [])
  (tag 1 string_field;; tag 2 string_field;; tag 3 string_field;; tag 4 uint64_field;; tag 5 uint64_field;; no_fields).
Definition msg_ListDirectConversationsReq : Message ListDirectConversationsReq := as_record
  (fun _ => tt)
  (fun _ => mkListDirectConversationsReq) ltac:(by intros [])
  (no_fields).
Definition msg_ListDirectConversationsResp : Message ListDirectConversationsResp := as_record
  (fun m => (ListDirectConversationsResp_Conversations m, tt))
  (fun '(x0, tt) => mkListDirectConversationsResp x0) ltac:(by intros [])
  (tag 1 (repeated_field msg_DirectConversationSummary);; no_fields).
Definition msg_SendDirectMessageReq : Message SendDirectMessageReq := as_record
  (fun m => (SendDirectMessageReq_ConversationId m, (SendDirectMessageReq_ToUserId m,
    (SendDirectMessageReq_ClientMsgId m, (SendDirectMessageReq_MessageType m, (SendDirectMessageReq_Text m, tt))))))
  (fun '(x0, (x1, (x2, (x3, (x4, tt))))) => mkSendDirectMessageReq x0 x1 x2 x3 x4) ltac:(by intros [])
  (tag 1 string_field;; tag 2 string_field;; tag 3 string_field;; tag 4 enum_field;; tag 5 string_field;; no_fields).
Definition msg_SendDirectMessageAck : Message SendDirectMessageAck := as_record
  (fun m => (SendDirectMessageAck_Ok m, (SendDirectMessageAck_ConversationId m, (SendDirectMessageAck_ClientMsgId m,
    (SendDirectMessageAck_MessageId m, (SendDirectMessageAck_Seq m, (SendDirectMessageAck_ServerTimeMs m,
    (SendDirectMessageAck_Message m, tt))))))))
  (fun '(x0, (x1, (x2, (x3, (x4, (x5, (x6, tt))))))) => mkSendDirectMessageAck x0 x1 x2 x3 x4 x5 x6) ltac:(by intros [])
  (tag 1 bool_field;; tag 2 string_field;; tag 3 string_field;; tag 4 string_field;; tag 5 uint64_field;; tag 6
    uint64_field;; tag 7 string_field;; no_fields).
Definition msg_DirectMessageEvent : Message DirectMessageEvent := as_record
  (fun m => (DirectMessageEvent_ConversationId m, (DirectMessageEvent_MessageId m, (DirectMessageEvent_Seq m,
    (DirectMessageEvent_FromUserId m, (DirectMessageEvent_ToUserId m, (DirectMessageEvent_MessageType m,
    (DirectMessageEvent_Text m, (DirectMessageEvent_CreatedAtMs m, tt)))))))))
  (fun '(x0, (x1, (x2, (x3, (x4, (x5, (x6, (x7, tt)))))))) => mkDirectMessageEvent x0 x1 x2 x3 x4 x5 x6 x7) ltac:(by intros [])
  (tag 1 string_field;; tag 2 string_field;; tag 3 uint64_field;; tag 4 string_field;; tag 5 string_field;; tag 6
    enum_field;; tag 7 string_field;; tag 8 uint64_field;; no_fields).
Definition msg_AckDirectMessageReq : Message AckDirectMessageReq := as_record
  (fun m => (AckDirectMessageReq_MessageId m, tt))
  (fun '(x0, tt) => mkAckDirectMessageReq x0) ltac:(by intros [])
  (tag 1 string_field;; no_fields).
Definition msg_AckDirectMessageResp : Message AckDirectMessageResp := as_record
  (fun m => (AckDirectMessageResp_Ok m, (AckDirectMessageResp_MessageId m, (AckDirectMessageResp_Message m, tt))))
  (fun '(x0, (x1, (x2, tt))) => mkAckDirectMessageResp x0 x1 x2) ltac:(by intros [])
  (tag 1 bool_field;; tag 2 string_field;; tag 3 string_field;; no_fields).
Definition msg_DirectPeerAckEvent : Message DirectPeerAckEvent := as_record
  (fun m => (DirectPeerAckEvent_ConversationId m, (DirectPeerAckEvent_MessageId m, (DirectPeerAckEvent_AckedAtMs m,
    (DirectPeerAckEvent_PeerUserId m, tt)))))
  (fun '(x0, (x1, (x2, (x3, tt)))) => mkDirectPeerAckEvent x0 x1 x2 x3) ltac:(by intros [])
  (tag 1 string_field;; tag 2 string_field;; tag 3 uint64_field;; tag 4 string_field;; no_fields).
Definition msg_SyncDirectMessagesReq : Message SyncDirectMessagesReq := as_record
  (fun m => (SyncDirectMessagesReq_ConversationId m, (SyncDirectMessagesReq_AfterSeq m, (SyncDirectMessagesReq_Limit
    m, tt))))
  (fun '(x0, (x1, (x2, tt))) => mkSyncDirectMessagesReq x0 x1 x2) ltac:(by intros [])
  (tag 1 string_field;; tag 2 uint64_field;; tag 3 uint32_field;; no_fields).
Definition msg_SyncDirectMessagesResp : Message SyncDirectMessagesResp := as_record
  (fun m => (SyncDirectMessagesResp_ConversationId m, (SyncDirectMessagesResp_Messages m,
    (SyncDirectMessagesResp_NextAfterSeq m, (SyncDirectMessagesResp_HasMore m, tt)))))
  (fun '(x0, (x1, (x2, (x3, tt)))) => mkSyncDirectMessagesResp x0 x1 x2 x3) ltac:(by intros [])
  (tag 1 string_field;; tag 2 (repeated_field msg_DirectMessageEvent);; tag 3 uint64_field;; tag 4 bool_field;;
    no_fields).

(** ** The runtime *)
Definition ErrMarshal : Err := Errorf "proto: message cannot be encoded".
Definition ErrWireFormat : Err := Errorf "proto: cannot parse invalid wire-format data".
Definition or_err {A} (e : Err) (o : option A) : Err + A := match o with Some a => inr a | None => inl e end.
Definition proto_Marshal {A} (m : Message A) (a : A) : Err + string := or_err ErrMarshal (marshal m a).
Definition proto_Unmarshal {A} (m : Message A) (s : string) : Err + A := or_err ErrWireFormat (unmarshal m s).
Lemma proto_roundtrip {A} (m : Message A) a s : proto_Marshal m a = inr s -> proto_Unmarshal m s = inr a.
Proof.
  unfold proto_Marshal, proto_Unmarshal. destruct (marshal m a) as [t|] eqn:E; [|done]. cbn. intros [= <-]. by rewrite (unmarshal_marshal m a t E).
Qed.

(** A body as the server or the clients write it (the type [Body]: not every
    message of the protocol is one of these): its codec, the message in it,
    and the constructor of its kind. *)
Record Packed := pack { pk_type : Type; pk_codec : Message pk_type; pk_value : pk_type; pk_body : pk_type -> Body }.
Definition packed (b : Body) : Packed :=
  match b with
  | BAuthChallenge m => pack _ msg_AuthChallenge m BAuthChallenge
  | BAuthResult m => pack _ msg_AuthResult m BAuthResult
  | BErrorMsg m => pack _ msg_ErrorMsg m BErrorMsg
  | BPong m => pack _ msg_Pong m BPong
  | BListSpacesResp m => pack _ msg_ListSpacesResp m BListSpacesResp
  | BListChannelsResp m => pack _ msg_ListChannelsResp m BListChannelsResp
  | BListSpaceMembersResp m => pack _ msg_ListSpaceMembersResp m BListSpaceMembersResp
  | BCreateSpaceResp m => pack _ msg_CreateSpaceResp m BCreateSpaceResp
  | BGetCreateSpacePermissionsResp m => pack _ msg_GetCreateSpacePermissionsResp m BGetCreateSpacePermissionsResp
  | BGetCreateGroupPermissionsResp m => pack _ msg_GetCreateGroupPermissionsResp m BGetCreateGroupPermissionsResp
  | BSubscribeChannelResp m => pack _ msg_SubscribeChannelResp m BSubscribeChannelResp
  | BUnsubscribeChannelResp m => pack _ msg_UnsubscribeChannelResp m BUnsubscribeChannelResp
  | BAdminSetSpaceMemberRoleResp m => pack _ msg_AdminSetSpaceMemberRoleResp m BAdminSetSpaceMemberRoleResp
  | BAdminSetSpaceChannelCreationResp m => pack _ msg_AdminSetSpaceChannelCreationResp m BAdminSetSpaceChannelCreationResp
  | BAdminSetGroupAutoDeleteResp m => pack _ msg_AdminSetGroupAutoDeleteResp m BAdminSetGroupAutoDeleteResp
  | BJoinSpaceResp m => pack _ msg_JoinSpaceResp m BJoinSpaceResp
  | BInviteSpaceMemberResp m => pack _ msg_InviteSpaceMemberResp m BInviteSpaceMemberResp
  | BKickSpaceMemberResp m => pack _ msg_KickSpaceMemberResp m BKickSpaceMemberResp
  | BBanSpaceMemberResp m => pack _ msg_BanSpaceMemberResp m BBanSpaceMemberResp
  | BUnbanSpaceMemberResp m => pack _ msg_UnbanSpaceMemberResp m BUnbanSpaceMemberResp
  | BCreateGroupResp m => pack _ msg_CreateGroupResp m BCreateGroupResp
  | BCreateChannelResp m => pack _ msg_CreateChannelResp m BCreateChannelResp
  | BSendMessageAck m => pack _ msg_SendMessageAck m BSendMessageAck
  | BMessageEvent m => pack _ msg_MessageEvent m BMessageEvent
  | BSyncChannelResp m => pack _ msg_SyncChannelResp m BSyncChannelResp
  | BOpenDirectConversationResp m => pack _ msg_OpenDirectConversationResp m BOpenDirectConversationResp
  | BListDirectConversationsResp m => pack _ msg_ListDirectConversationsResp m BListDirectConversationsResp
  | BSendDirectMessageAck m => pack _ msg_SendDirectMessageAck m BSendDirectMessageAck
  | BDirectMessageEvent m => pack _ msg_DirectMessageEvent m BDirectMessageEvent
  | BAckDirectMessageResp m => pack _ msg_AckDirectMessageResp m BAckDirectMessageResp
  | BDirectPeerAckEvent m => pack _ msg_DirectPeerAckEvent m BDirectPeerAckEvent
  | BSyncDirectMessagesResp m => pack _ msg_SyncDirectMessagesResp m BSyncDirectMessagesResp
  | BGetMediaResp m => pack _ msg_GetMediaResp m BGetMediaResp
  | BHello m => pack _ msg_Hello m BHello
  | BAuthProve m => pack _ msg_AuthProve m BAuthProve
  | BListSpacesReq m => pack _ msg_ListSpacesReq m BListSpacesReq
  | BListChannelsReq m => pack _ msg_ListChannelsReq m BListChannelsReq
  | BListSpaceMembersReq m => pack _ msg_ListSpaceMembersReq m BListSpaceMembersReq
  | BCreateSpaceReq m => pack _ msg_CreateSpaceReq m BCreateSpaceReq
  | BGetCreateSpacePermissionsReq m => pack _ msg_GetCreateSpacePermissionsReq m BGetCreateSpacePermissionsReq
  | BGetCreateGroupPermissionsReq m => pack _ msg_GetCreateGroupPermissionsReq m BGetCreateGroupPermissionsReq
  | BSubscribeChannelReq m => pack _ msg_SubscribeChannelReq m BSubscribeChannelReq
  | BAdminSetSpaceMemberRoleReq m => pack _ msg_AdminSetSpaceMemberRoleReq m BAdminSetSpaceMemberRoleReq
  | BAdminSetSpaceChannelCreationReq m => pack _ msg_AdminSetSpaceChannelCreationReq m BAdminSetSpaceChannelCreationReq
  | BAdminSetGroupAutoDeleteReq m => pack _ msg_AdminSetGroupAutoDeleteReq m BAdminSetGroupAutoDeleteReq
  | BJoinSpaceReq m => pack _ msg_JoinSpaceReq m BJoinSpaceReq
  | BInviteSpaceMemberReq m => pack _ msg_InviteSpaceMemberReq m BInviteSpaceMemberReq
  | BKickSpaceMemberReq m => pack _ msg_KickSpaceMemberReq m BKickSpaceMemberReq
  | BBanSpaceMemberReq m => pack _ msg_BanSpaceMemberReq m BBanSpaceMemberReq
  | BUnbanSpaceMemberReq m => pack _ msg_UnbanSpaceMemberReq m BUnbanSpaceMemberReq
  | BCreateGroupReq m => pack _ msg_CreateGroupReq m BCreateGroupReq
  | BSendMessageReq m => pack _ msg_SendMessageReq m BSendMessageReq
  | BSyncChannelReq m => pack _ msg_SyncChannelReq m BSyncChannelReq
  end.
Definition marshal_body (b : Body) : Err + string := proto_Marshal (pk_codec (packed b)) (pk_value (packed b)).
Definition unmarshal_like (b : Body) (s : string) : Err + Body :=
  match proto_Unmarshal (pk_codec (packed b)) s with inl e => inl e | inr m => inr (pk_body (packed b) m) end.
Definition pieces_of (b : Body) : option (list Piece) := m_put (pk_codec (packed b)) (pk_value (packed b)).
Definition numbers_of (b : Body) : list Z := m_nums (pk_codec (packed b)).
Definition tagged_protobuf : Protobuf := {|
  Marshal := marshal_body; MarshalEnvelope := proto_Marshal msg_Envelope;
  UnmarshalEnvelope := proto_Unmarshal msg_Envelope;
  UnmarshalHello := proto_Unmarshal msg_Hello;
  UnmarshalAuthProve := proto_Unmarshal msg_AuthProve;
  UnmarshalPing := proto_Unmarshal msg_Ping;
  UnmarshalListChannelsReq := proto_Unmarshal msg_ListChannelsReq;
  UnmarshalListSpaceMembersReq := proto_Unmarshal msg_ListSpaceMembersReq;
  UnmarshalCreateSpaceReq := proto_Unmarshal msg_CreateSpaceReq;
  UnmarshalGetCreateSpacePermissionsReq := proto_Unmarshal msg_GetCreateSpacePermissionsReq;
  UnmarshalGetCreateGroupPermissionsReq := proto_Unmarshal msg_GetCreateGroupPermissionsReq;
  UnmarshalSubscribeChannelReq := proto_Unmarshal msg_SubscribeChannelReq;
  UnmarshalUnsubscribeChannelReq := proto_Unmarshal msg_UnsubscribeChannelReq;
  UnmarshalAdminSetSpaceMemberRoleReq := proto_Unmarshal msg_AdminSetSpaceMemberRoleReq;
  UnmarshalAdminSetSpaceChannelCreationReq := proto_Unmarshal msg_AdminSetSpaceChannelCreationReq;
  UnmarshalAdminSetGroupAutoDeleteReq := proto_Unmarshal msg_AdminSetGroupAutoDeleteReq;
  UnmarshalJoinSpaceReq := proto_Unmarshal msg_JoinSpaceReq;
  UnmarshalInviteSpaceMemberReq := proto_Unmarshal msg_InviteSpaceMemberReq;
  UnmarshalKickSpaceMemberReq := proto_Unmarshal msg_KickSpaceMemberReq;
  UnmarshalBanSpaceMemberReq := proto_Unmarshal msg_BanSpaceMemberReq;
  UnmarshalUnbanSpaceMemberReq := proto_Unmarshal msg_UnbanSpaceMemberReq;
  UnmarshalCreateGroupReq := proto_Unmarshal msg_CreateGroupReq;
  UnmarshalCreateChannelReq := proto_Unmarshal msg_CreateChannelReq;
  UnmarshalSendMessageReq := proto_Unmarshal msg_SendMessageReq;
  UnmarshalChannelDeliverAck := proto_Unmarshal msg_ChannelDeliverAck;
  UnmarshalChannelReadUpdate := proto_Unmarshal msg_ChannelReadUpdate;
  UnmarshalSyncChannelReq := proto_Unmarshal msg_SyncChannelReq;
  UnmarshalOpenDirectConversationReq := proto_Unmarshal msg_OpenDirectConversationReq;
  UnmarshalListDirectConversationsReq := proto_Unmarshal msg_ListDirectConversationsReq;
  UnmarshalSendDirectMessageReq := proto_Unmarshal msg_SendDirectMessageReq;
  UnmarshalAckDirectMessageReq := proto_Unmarshal msg_AckDirectMessageReq;
  UnmarshalSyncDirectMessagesReq := proto_Unmarshal msg_SyncDirectMessagesReq;
  UnmarshalGetMediaReq := proto_Unmarshal msg_GetMediaReq |}.
Definition tagged_client : ClientProtobuf := {|
  UnmarshalAuthChallenge := proto_Unmarshal msg_AuthChallenge;
  UnmarshalAuthResult := proto_Unmarshal msg_AuthResult;
  UnmarshalListSpacesResp := proto_Unmarshal msg_ListSpacesResp;
  UnmarshalListChannelsResp := proto_Unmarshal msg_ListChannelsResp;
  UnmarshalListSpaceMembersResp := proto_Unmarshal msg_ListSpaceMembersResp;
  UnmarshalCreateSpaceResp := proto_Unmarshal msg_CreateSpaceResp;
  UnmarshalGetCreateSpacePermissionsResp := proto_Unmarshal msg_GetCreateSpacePermissionsResp;
  UnmarshalGetCreateGroupPermissionsResp := proto_Unmarshal msg_GetCreateGroupPermissionsResp;
  UnmarshalSubscribeChannelResp := proto_Unmarshal msg_SubscribeChannelResp;
  UnmarshalAdminSetSpaceMemberRoleResp := proto_Unmarshal msg_AdminSetSpaceMemberRoleResp;
  UnmarshalAdminSetSpaceChannelCreationResp := proto_Unmarshal msg_AdminSetSpaceChannelCreationResp;
  UnmarshalAdminSetGroupAutoDeleteResp := proto_Unmarshal msg_AdminSetGroupAutoDeleteResp;
  UnmarshalJoinSpaceResp := proto_Unmarshal msg_JoinSpaceResp;
  UnmarshalInviteSpaceMemberResp := proto_Unmarshal msg_InviteSpaceMemberResp;
  UnmarshalKickSpaceMemberResp := proto_Unmarshal msg_KickSpaceMemberResp;
  UnmarshalBanSpaceMemberResp := proto_Unmarshal msg_BanSpaceMemberResp;
  UnmarshalUnbanSpaceMemberResp := proto_Unmarshal msg_UnbanSpaceMemberResp;
  UnmarshalCreateGroupResp := proto_Unmarshal msg_CreateGroupResp;
  UnmarshalSendMessageAck := proto_Unmarshal msg_SendMessageAck;
  UnmarshalSyncChannelResp := proto_Unmarshal msg_SyncChannelResp |}.

(** ** Round trips *)
Lemma packed_body b : pk_body (packed b) (pk_value (packed b)) = b.
Proof. by destruct b. Qed.
Lemma marshal_body_pieces b s : marshal_body b = inr s <-> exists ps, pieces_of b = Some ps /\ s = of_bytes (put_pieces ps).
Proof.
  unfold marshal_body, pieces_of, proto_Marshal, marshal. destruct (m_put _ _) as [ps|]; cbn; [|split; [done|by intros (?&?&_)]].
  split; [intros [= <-]; eauto|]. by intros (?&[= <-]&->).
Qed.

(** Bodies survive the wire, also between versions.  Every body
    that can be encoded at all is decoded, by the codec of its kind, as
    exactly that message: from its own encoding, and from any encoding that
    has its pieces in their order with fields of unknown numbers between
    them, as a peer with a newer schema writes them. *)
Theorem body_understood b s :
  marshal_body b = inr s ->
  unmarshal_like b s = inr b /\
  exists ps, pieces_of b = Some ps /\ s = of_bytes (put_pieces ps) /\
    forall qs, Forall ok_piece qs -> where_ (known (numbers_of b)) qs = ps -> unmarshal_like b (of_bytes (put_pieces qs)) = inr b.
Proof.
  intros E. split; [unfold unmarshal_like; by rewrite (proto_roundtrip _ _ _ E), packed_body|].
  apply marshal_body_pieces in E as (ps&Ep&->). exists ps. split_and!; [done..|]. intros qs Hq Ew.
  unfold unmarshal_like, proto_Unmarshal. rewrite (unmarshal_extended _ _ ps qs Ep Hq Ew). cbn. by rewrite packed_body.
Qed.

(** ** Examples *)
Definition hexes (l : list Z) : string := of_bytes (byte_of <$> l).
(** The varint 150 and the text "testing" of the documentation of the format. *)
Example error_bytes : marshal_body (BErrorMsg (mkErrorMsg 150 "testing")) =
  inr (hexes [8; 150; 1; 18; 7; 116; 101; 115; 116; 105; 110; 103]).
Proof. vm_compute. reflexivity. Qed.
Example envelope_bytes : proto_Marshal msg_Envelope (mkEnvelope 1 MsgType_PING "a" 300 "") = inr (hexes [8; 1; 16; 10; 26; 1; 97; 32; 172; 2]).
Proof. vm_compute. reflexivity. Qed.
(** The zero values of all fields are encoded as nothing. *)
Example zero_bytes : marshal_body (BPong (mkPong 0)) = inr ""%string.
Proof. vm_compute. reflexivity. Qed.
(** The last of two values counts; a text that is no UTF-8 and a truncated one are refused. *)
Example last_counts : proto_Unmarshal msg_Pong (hexes [8; 1; 8; 2]) = inr (mkPong 2).
Proof. vm_compute. reflexivity. Qed.
Example invalid_text : proto_Unmarshal msg_ErrorMsg (hexes [18; 1; 255]) = inl ErrWireFormat.
Proof. vm_compute. reflexivity. Qed.
Example truncated : proto_Unmarshal msg_ErrorMsg (hexes [18; 2; 97]) = inl ErrWireFormat.
Proof. vm_compute. reflexivity. Qed.
(** An enumeration keeps a negative number. *)
Example negative_enum : unmarshal_like (BAdminSetSpaceMemberRoleReq (mkAdminSetSpaceMemberRoleReq 1 "u" (-1)))
  (hexes [8; 1; 18; 1; 117; 24; 255; 255; 255; 255; 255; 255; 255; 255; 255; 1]) =
  inr (BAdminSetSpaceMemberRoleReq (mkAdminSetSpaceMemberRoleReq 1 "u" (-1))).
Proof. vm_compute. reflexivity. Qed.

(** A request to kick with a field 9 that this version does not know, in front. *)
Lemma body_understood_witness :
  unmarshal_like (BKickSpaceMemberReq (mkKickSpaceMemberReq 7 "bob")) (hexes [72; 5; 8; 7; 18; 3; 98; 111; 98]) =
  inr (BKickSpaceMemberReq (mkKickSpaceMemberReq 7 "bob")).
Proof.
  destruct (body_understood (BKickSpaceMemberReq (mkKickSpaceMemberReq 7 "bob")) (hexes [8; 7; 18; 3; 98; 111; 98])) as [_ (ps&Ep&_&Hq)];
    [vm_compute; reflexivity|].
  change (hexes [72; 5; 8; 7; 18; 3; 98; 111; 98]) with (of_bytes (put_pieces [(9, VVarint 5); (1, VVarint 7); (2, VLen (to_bytes "bob"))])).
  apply Hq.
  - repeat apply Forall_cons_2; [..|apply Forall_nil_2]; (split; [split; vm_compute; discriminate|]); cbn; try (split; vm_compute; discriminate).
    vm_compute. discriminate.
  - injection Ep as <-. vm_compute. reflexivity.
Defined.
