(* ===== verification/Codec.v ===== *)
(** * Envelope codec: [internal/protocol/codec.go]

    Envelopes are protobuf messages behind a big-endian 32-bit length.  A
    reader is the bytes still to come; [io.EOF] is the error of an empty
    one, [io.ErrUnexpectedEOF] of one that ends inside a value. *)
From S2P Require Import Prelude Go Encoding Proto.

Definition currentEnvelopeVersion : Z := 1.
Definition MaxEnvelopeBytes : Z := Z.shiftl 8 20.
Definition EOF : Err := Errorf "EOF".
Definition ErrUnexpectedEOF : Err := Errorf "unexpected EOF".
Definition ErrEnvelopeTooLarge : Err := Errorf ("envelope payload exceeds " +:+ decimal MaxEnvelopeBytes +:+ " bytes").

(** [io.ReadFull] of [n] bytes *)
Definition ReadFull (n : nat) (r : bytes) : bytes * (Err + bytes) :=
  if (n <=? length r)%nat then (drop n r, inr (take n r))
  else ([], inl (match r with [] => EOF | _ => ErrUnexpectedEOF end)).

Section codec.
Context `{Protobuf}.

Definition ReadEnvelope (r : bytes) : bytes * (Err + sessionv1.Envelope) :=
  let '(r, x) := ReadFull 4 r in
  match x with
  | inl e => (r, inl e)
  | inr head =>
    let len := be32_decode head in
    if MaxEnvelopeBytes <? len then (r, inl (Errorw "" ErrEnvelopeTooLarge (": got " +:+ decimal len)))
    else
      let '(r, x) := ReadFull (Z.to_nat len) r in
      match x with
      | inl e => (r, inl e)
      | inr payload =>
        match UnmarshalEnvelope (of_bytes payload) with
        | inl e => (r, inl (wrap "unmarshal envelope" e))
        | inr env => (r, inr env)
        end
      end
  end.

(** The bytes written, or the error of a message that cannot be written. *)
Definition WriteEnvelope (env : sessionv1.Envelope) : Err + bytes :=
  match MarshalEnvelope env with
  | inl e => inl (wrap "marshal envelope" e)
  | inr payload =>
    if MaxEnvelopeBytes <? strlen payload then inl (wrap "marshal envelope" ErrEnvelopeTooLarge)
    else inr (be32 (u32 (strlen payload)) ++ to_bytes payload)
  end.

Definition NewEnvelope (nowNs : Z) (msgType : Z) (requestID : string) (body : sessionv1.Body)
  : Err + sessionv1.Envelope :=
  match Marshal body with
  | inl e => inl e
  | inr payload =>
    inr (sessionv1.mkEnvelope currentEnvelopeVersion msgType requestID (u64 (truncate_ms nowNs)) payload)
  end.

(** Reading a whole stream, as the loop of [HandleStream] does: the
    envelopes read and the error that ends it.  Every successful read
    consumes at least four bytes, so the length of the stream is enough fuel. *)
Fixpoint read_all (fuel : nat) (r : bytes) : list sessionv1.Envelope * Err :=
  match fuel with
  | O => ([], EOF)
  | S fuel =>
    let '(r', x) := ReadEnvelope r in
    match x with
    | inl e => ([], e)
    | inr env => let '(envs, e) := read_all fuel r' in (env :: envs, e)
    end
  end.
Definition read_stream (r : bytes) : list sessionv1.Envelope * Err := read_all (S (length r)) r.
End codec.
