(* ===== verification/Auth.v ===== *)
(** * Challenge-response authentication: [internal/auth/service.go]

    The libp2p key operations are parameters; SHA-256, base64 and the
    payload format are written out.  Times are in nanoseconds. *)
From S2P Require Import Prelude Go Encoding Schema Config Store SpaceRepo UserRepo CursorNonceRepo.

(** [go-libp2p/core/crypto] and [go-libp2p/core/peer] *)
Class Libp2p := {
  PubKey_t : Type;
  UnmarshalPublicKey : string -> Err + PubKey_t;
  IDFromPublicKey : PubKey_t -> Err + string;          (** the peer id's [String()] *)
  Verify : PubKey_t -> string -> string -> Err + bool; (** payload, signature *)
  Decode : string -> Err + string }.                   (** [peer.Decode], as the canonical [String()] *)

Record Challenge := mkChallenge {
  ch_ClientPeerID : string; ch_NodePeerID : string; ch_Nonce : string; ch_IssuedAt : Z;
  ch_ExpiresAt : Z; ch_Payload : string }.
Record VerifyChallengeInput := mkVerifyChallengeInput {
  vi_ClientPeerID : string; vi_NodePeerID : string; vi_Nonce : string; vi_IssuedAt : Z;
  vi_ExpiresAt : Z; vi_Signature : string; vi_PublicKey : string }.
Record Result := mkResult { res_SessionID : string; res_User : User; res_Message : string }.

Definition nl : string := of_bytes [byte 10].
Definition BuildChallengePayload (protocolID client node nonce : string) (issuedAt expiresAt : Z) : string :=
  "protocol_id=" +:+ protocolID +:+ nl +:+ "client_peer_id=" +:+ client +:+ nl +:+ "node_peer_id=" +:+ node
  +:+ nl +:+ "nonce=" +:+ base64_encode nonce +:+ nl +:+ "issued_at_ms=" +:+ decimal (issuedAt / ns_per_ms)
  +:+ nl +:+ "expires_at_ms=" +:+ decimal (expiresAt / ns_per_ms) +:+ nl.

Definition nonceHash (nonce : string) : string := hex_encode (Sha256.Sum256 nonce).

(** [if x, err := f; err != nil { return nil, g(err) }] for a pure [f] *)
Definition pure_check {S A} (g : Err -> Err) (x : Err + A) : SE S A :=
  match x with inl e => throw (g e) | inr a => mret a end.

Section auth.
Context `{Env} `{Libp2p} (cfg : Config).

Definition newSessionID : M string := buf ← rand_bytes 12; mret ("sess_" +:+ hex_encode buf).

Definition IssueChallenge (clientPeerID nodePeerID : string) : M Challenge :=
  rawNonce ← rand_bytes 32;
  ms ← now;
  let t := ms * ns_per_ms in
  let expiresAt := t + ChallengeTTL cfg in
  _ ← StoreNonce (nonceHash rawNonce) clientPeerID nodePeerID t expiresAt;
  mret (mkChallenge clientPeerID nodePeerID rawNonce t expiresAt
    (BuildChallengePayload (Libp2pProtocolID cfg) clientPeerID nodePeerID rawNonce t expiresAt)).

Definition VerifyChallenge (i : VerifyChallengeInput) : M Result :=
  ms ← now;
  let t := ms * ns_per_ms in
  _ ← when ((vi_ExpiresAt i <? t) || (t <? vi_IssuedAt i - minute)) (Errorf "challenge expired");
  pubKey ← pure_check (wrap "unmarshal public key") (UnmarshalPublicKey (vi_PublicKey i));
  derivedPeerID ← pure_check (wrap "derive peer id from pubkey") (IDFromPublicKey pubKey);
  _ ← when (negb (derivedPeerID =@ vi_ClientPeerID i)) (Errorf "peer id mismatch");
  let payload := BuildChallengePayload (Libp2pProtocolID cfg) (vi_ClientPeerID i) (vi_NodePeerID i)
                   (vi_Nonce i) (vi_IssuedAt i) (vi_ExpiresAt i) in
  ok ← pure_check (wrap "verify challenge signature") (Verify pubKey payload (vi_Signature i));
  _ ← when (negb ok) (Errorf "invalid challenge signature");
  _ ← map_err (wrap "consume challenge nonce")
        (UseNonce (nonceHash (vi_Nonce i)) (vi_ClientPeerID i) (vi_NodePeerID i) ms);
  user ← CreateIfNotExistsByPeerID (vi_ClientPeerID i) (vi_PublicKey i);
  _ ← UpdateLogin (UserDBID user) (vi_PublicKey i) ms;
  sessionID ← newSessionID;
  mret (mkResult sessionID user "authenticated").
End auth.
