(* ===== verification/Bootstrap.v ===== *)
(** * Node record and default administrator: [internal/repository/mysql/bootstrap.go]
    ([Upsert]) and [default_admin_bootstrap.go] *)
From S2P Require Import Prelude Go Schema Store SpaceRepo UserRepo Auth.

Record NodeRecord := mkNodeRecord {
  NodeDBID : Z; NodeID : string; NodePeerID : string; NodeRecName : string; PublicAddrs : list string;
  NodeStatus : Z; NodeCreatedAt : Z; NodeUpdatedAt : Z }.

Section bootstrap.
Context `{Env} `{Libp2p}.

(** The unique key that collides first: [uk_nodes_node_id], then [uk_nodes_peer_id]. *)
Definition upsert_node (r : NodeRecord) (nodeID : string) (t : Z) (d : DB) : option (DB * unit) :=
  let key n := if existsb (fun n => sql_eq (nd_node_id n) nodeID) (rows (nodes d))
               then sql_eq (nd_node_id n) nodeID else sql_eq (nd_peer_id n) (NodePeerID r) in
  tbl ← upsert_row max_u64 key
    (fun n => mkNodeRow (nd_id n) (nd_node_id n) (nd_peer_id n) (NodeRecName r) (PublicAddrs r)
                (NodeStatus r) (nd_created_at n) t)
    (fun id => mkNodeRow id nodeID (NodePeerID r) (NodeRecName r) (PublicAddrs r) (NodeStatus r) t t)
    (nodes d);
  Some (set_nodes (fun _ => tbl) d, tt).

Definition Upsert (record : NodeRecord) : M NodeRecord :=
  t ← now;
  nodeID ← (if NodeID record =@ ""%string then newExternalID "node" else mret (NodeID record));
  _ ← map_err (wrap "upsert node") (exec (upsert_node record nodeID t));
  row ← fetchOne (fun d => first_where (fun n => sql_eq (nd_peer_id n) (NodePeerID record)) (rows (nodes d)));
  mret (mkNodeRecord (nd_id row) (nd_node_id row) (nd_peer_id row) (nd_name row) (PublicAddrs record)
    (nd_status row) (nd_created_at row) (nd_updated_at row)).

Definition ensureAdminMembership (ctx : Ctx) (targetSpaceID userID : Z) : M unit :=
  role ← try (GetMemberRole targetSpaceID userID);
  match role with
  | inl e =>
    if negb (e =@ ErrNotFound) then throw (wrap "bootstrap default admin: member role" e)
    else
      _ ← map_err (wrap "bootstrap default admin: invite member") (InviteSpaceMember ctx targetSpaceID userID);
      map_err (wrap "bootstrap default admin: set admin role")
        (SetSpaceMemberRole ctx targetSpaceID userID RoleAdmin)
  | inr RoleOwner | inr RoleAdmin => mret tt
  | inr _ =>
    map_err (wrap "bootstrap default admin: promote to admin")
      (SetSpaceMemberRole ctx targetSpaceID userID RoleAdmin)
  end.

Definition BootstrapDefaultAdmin (ctx : Ctx) (adminPeerID : string) (targetSpaceID : Z) : M unit :=
  let adminPeerID := TrimSpace adminPeerID in
  if adminPeerID =@ ""%string then mret tt
  else
    adminPeerID ← pure_check (wrap "default admin peer id") (Decode adminPeerID);
    let targetSpaceID := if targetSpaceID =? 0 then 1 else targetSpaceID in
    usr ← map_err (wrap "bootstrap default admin user") (CreateIfNotExistsByPeerID adminPeerID "");
    sp ← try (GetBySpaceID targetSpaceID);
    match sp with
    | inr _ => ensureAdminMembership ctx targetSpaceID (UserDBID usr)
    | inl e => if e =@ ErrNotFound then mret tt
               else throw (wrap "bootstrap default admin: load space" e)
    end.
End bootstrap.
