(* ===== verification/TableInv.v ===== *)
(** * Unique keys of the single-statement tables

    Users, read cursors, nonces, nodes, blobs, media objects and
    attachments are written by single statements; their invariants are the
    unique keys of migrations/, kept by every statement. *)
From S2P Require Import Prelude Go Schema Store SpaceRepo UserRepo ChannelRepo MessageRepo MessageInv.
From S2P Require Import CursorNonceRepo BlobRepo Auth Bootstrap.

(** ** Generic facts on inserts and upserts *)
Section statements.
Context {R K : Type} (pk : R -> Z) (key : R -> K).

Lemma insert_row_unique max dup mk (t t' : Table R) id :
  insert_row max dup mk t = Some (t', id) ->
  (forall r i, key r = key (mk i) -> dup r = true) ->
  NoDup (map key (rows t)) -> NoDup (map key (rows t')).
Proof.
  intros (_&_&Hd&Er&_)%insert_row_Some Hk Hnd. rewrite Er.
  apply NoDup_map_snoc; [done|]. intros (r&Hr%Hd&E)%elem_of_map. by rewrite (Hk r id) in Hr.
Qed.

Lemma upsert_row_unique max dup f mk (t t' : Table R) :
  upsert_row max dup f mk t = Some t' ->
  (forall r, key (f r) = key r) -> (forall r i, key r = key (mk i) -> dup r = true) ->
  NoDup (map key (rows t)) -> NoDup (map key (rows t')).
Proof.
  unfold upsert_row. intros E Hf Hk Hnd. destruct (existsb dup (rows t)).
  - simplify_eq. simpl. by rewrite map_update_where by auto.
  - apply fmap_Some in E as ([t1 id]&E&->). simpl. eapply insert_row_unique; eauto.
Qed.

Lemma upsert_row_wf max dup f mk (t t' : Table R) :
  upsert_row max dup f mk t = Some t' ->
  (forall r, pk (f r) = pk r) -> (forall i, pk (mk i) = i) -> table_wf pk t -> table_wf pk t'.
Proof.
  unfold upsert_row. intros E Hf Hmk Hwf. destruct (existsb dup (rows t)).
  - simplify_eq. by apply table_wf_update.
  - apply fmap_Some in E as ([t1 id]&E&->). simpl. eapply table_wf_insert; eauto.
Qed.
End statements.

(** ** Users *)
Record user_inv `{Env} (d : DB) : Prop := {
  ui_table : table_wf u_id (users d);
  ui_user_id : NoDup (map (fun u => sort_key (u_user_id u)) (rows (users d)));
  ui_peer_id : NoDup (map (fun u => sort_key (u_peer_id u)) (rows (users d))) }.

(** ** Cursors, nonces, nodes *)
Record cursor_inv (d : DB) : Prop := {
  ri_table : table_wf rd_id (reads d);
  ri_key : NoDup (map (fun r => (rd_user_id r, rd_channel_id r)) (rows (reads d))) }.
Record nonce_inv `{Env} (d : DB) : Prop := {
  ni_table : table_wf n_id (nonces d);
  ni_key : NoDup (map (fun n => sort_key (n_nonce_hash n)) (rows (nonces d))) }.

(** ** Blobs and media *)
Record blob_inv `{Env} (d : DB) : Prop := {
  bi_blobs : table_wf b_id (blobs d);
  bi_media : table_wf mo_id (media_objects d);
  bi_atts : table_wf ma_id (message_attachments d);
  bi_sha : NoDup (map (fun b => sort_key (b_sha256 b)) (rows (blobs d)));
  bi_media_id : NoDup (map (fun mo => sort_key (mo_media_id mo)) (rows (media_objects d)));
  bi_att_key : NoDup (map (fun ma => (ma_message_id ma, ma_media_id ma)) (rows (message_attachments d))) }.

Section preservation.
Context `{Env}.

Lemma upsert_user_inv ext peer pk t d d' a :
  upsert_user ext peer pk t d = Some (d', a) -> user_inv d -> user_inv d'.
Proof.
  intros E [H1 H2 H3]. unfold upsert_user in E. apply bind_Some in E as (tbl&E&?). simplify_eq.
  assert (table_wf u_id tbl) as Hwf by (eapply upsert_row_wf; [exact E|..]; done).
  unfold upsert_row in E. destruct (existsb _ (rows (users d))) eqn:Ex.
  { simplify_eq. split; simpl; rewrite ?map_update_where by done; try done. }
  apply fmap_Some in E as ([t1 id]&E&->). simpl in *.
  apply insert_row_Some in E as (_&_&Hd&Er&_).
  assert (forall u, u ∈ rows (users d) -> sql_eq (u_user_id u) ext = false) as Hu.
  { intros u Hu. apply not_true_iff_false. intros Hx.
    assert (existsb (fun u => sql_eq (u_user_id u) ext) (rows (users d)) = true) as Hex.
    { apply existsb_exists. exists u. by rewrite <- list_elem_of_In. }
    specialize (Hd u Hu). simpl in Hd. rewrite Hex in Hd. congruence. }
  assert (forall u, u ∈ rows (users d) -> sql_eq (u_peer_id u) peer = false) as Hp.
  { intros u Hin. specialize (Hd u Hin). simpl in Hd.
    destruct (existsb (fun u => sql_eq (u_user_id u) ext) (rows (users d))) eqn:Hex; [|done].
    apply existsb_exists in Hex as (u'&Hu'%list_elem_of_In&Hx). rewrite Hu in Hx; done. }
  split; simpl; [done|..]; rewrite Er; (apply NoDup_map_snoc; [done|]); intros (u&Hin&Ek)%elem_of_map; simpl in Ek;
    [apply Hu in Hin|apply Hp in Hin]; by rewrite (proj2 (sql_eq_spec _ _)) in Hin.
Qed.

Lemma update_login_inv uid pk t d :
  user_inv d -> user_inv (set_users (update_rows (fun u => u_id u =? uid) (with_login pk t)) d).
Proof. intros [H1 H2 H3]. split; simpl; rewrite ?map_update_where by done; try done. by apply table_wf_update. Qed.

Lemma upsert_cursor_inv uid cid f mk d d' a :
  (forall r, rd_id (f r) = rd_id r /\ rd_user_id (f r) = rd_user_id r /\ rd_channel_id (f r) = rd_channel_id r) ->
  (forall i, rd_id (mk i) = i /\ rd_user_id (mk i) = uid /\ rd_channel_id (mk i) = cid) ->
  upsert_cursor uid cid f mk d = Some (d', a) -> cursor_inv d -> cursor_inv d'.
Proof.
  intros Hf Hmk E [H1 H2]. unfold upsert_cursor in E. destruct (channel_by_id cid d) as [c|] eqn:Hc; [|by simplify_eq].
  apply bind_Some in E as (tbl&E&?). simplify_eq. apply first_where_Some in Hc as [Hc _].
  split; simpl.
  - eapply upsert_row_wf; [exact E|apply Hf|apply Hmk|done].
  - eapply upsert_row_unique; [exact E|..|done].
    + intros r. destruct (Hf r) as (_&->&->). done.
    + intros r i Ek. destruct (Hmk i) as (_&E1&E2). rewrite E1, E2 in Ek. injection Ek as Ek1 Ek2.
      unfold is_cursor. lia.
Qed.

Lemma insert_nonce_inv h c n iss ex t d d' a :
  insert_nonce h c n iss ex t d = Some (d', a) -> nonce_inv d -> nonce_inv d'.
Proof.
  intros E [H1 H2]. unfold insert_nonce in E. apply bind_Some in E as ([tbl id]&E&?). simplify_eq. split; simpl.
  - eapply table_wf_insert; [..|exact E]; done.
  - eapply insert_row_unique; [exact E| |done]. simpl. intros r _ Ek. by apply sql_eq_spec.
Qed.

Lemma consume_nonce_inv h c n t d : nonce_inv d -> nonce_inv (consume_nonce h c n t d).1.
Proof. intros [H1 H2]. split; simpl; [by apply table_wf_update|]. by rewrite map_update_where. Qed.

Lemma insert_blob_inv i t d d' a : insert_blob i t d = Some (d', a) -> blob_inv d -> blob_inv d'.
Proof.
  intros E [H1 H2 H3 H4 H5 H6]. unfold insert_blob in E. apply bind_Some in E as ([tbl id]&E&?). simplify_eq.
  split; simpl; try done.
  - eapply table_wf_insert; [..|exact E]; done.
  - eapply insert_row_unique; [exact E| |done]. simpl. intros r _ Ek. apply sql_eq_spec in Ek.
    by rewrite Ek, orb_true_r.
Qed.

Lemma insert_media_inv i t d d' a : insert_media i t d = Some (d', a) -> blob_inv d -> blob_inv d'.
Proof.
  intros E [H1 H2 H3 H4 H5 H6]. unfold insert_media in E. apply bind_Some in E as ([tbl id]&E&?). simplify_eq.
  split; simpl; try done.
  - eapply table_wf_insert; [..|exact E]; done.
  - eapply insert_row_unique; [exact E| |done]. simpl. intros r _ Ek. by apply sql_eq_spec.
Qed.

Lemma attach_all_blob_inv mid t idx media d d' :
  attach_all mid t idx media d = Some d' -> blob_inv d -> blob_inv d'.
Proof.
  revert idx d. induction media as [|x media IH]; intros idx d E Hi; simpl in E; [by simplify_eq|].
  apply bind_Some in E as ([d1 id]&E1&E2). eapply IH; [exact E2|].
  unfold insert_attachment in E1. apply bind_Some in E1 as ([tbl id']&E1&?). simplify_eq.
  destruct Hi as [H1 H2 H3 H4 H5 H6]. split; simpl; try done.
  - by apply table_wf_update.
  - eapply table_wf_insert; [..|exact E1]; done.
  - by rewrite map_update_where.
  - eapply insert_row_unique; [exact E1| |done]. simpl. intros r _ Ek. injection Ek as -> ->. lia.
Qed.
End preservation.
