(* ===== verification/Media.v ===== *)
(** * Blob storage and media service: [internal/storage/local.go],
    [internal/media/blob_service.go] and [internal/service/media.go]

    Blob files are content-addressed under the blob root; [w_files] maps
    the path relative to the root to the content. *)
From S2P Require Import Prelude Go Encoding Schema Config Store SpaceRepo MessageRepo BlobRepo.

(** [net/http.DetectContentType], [image.DecodeConfig] with the gif, jpeg
    and png decoders, and the UnixFS root CID of a file ([ComputeUnixFSFileCID],
    computed by the boxo library from the chunker settings). *)
Class MediaLib := {
  DetectContentType : string -> string;
  DecodeConfig : string -> option (Z * Z);
  UnixFSFileCID : IPFSConfig -> string -> Err + string }.

Record PutBlobInput := mkPutBlobInput {
  pbi_Kind : Kind; pbi_OriginalName : string; pbi_MIMEType : string; pbi_CreatedBy : Z }.
Record PutBlobResult := mkPutBlobResult { PutBlob : Blob; PutMedia : MediaObject; DedupHit : bool }.
Record SaveUploadedBlobInput := mkSaveUploadedBlobInput {
  sub_Kind : Kind; sub_OriginalName : string; sub_MIMEType : string; sub_Content : string; sub_CreatedBy : Z }.

(** [s[i:j]] *)
Definition substr (i j : nat) (s : string) : string := of_bytes (take (j - i) (drop i (to_bytes s))).
(** [io.LimitReader(r, n)] read to the end *)
Definition limit_read (n : Z) (s : string) : string := of_bytes (take (Z.to_nat n) (to_bytes s)).

(** ** [LocalBlobStore] *)
(** An operation on the file system; it fails when the oracle says so. *)
Definition file_op {A} (fail : World -> World * (Err + A)) (ok : World -> World * (Err + A)) : M A := fun w =>
  if fault w then fail (tick w) else ok (tick w).

Definition Exists (relativePath : string) : M bool :=
  fun w => (w, inr (bool_decide (is_Some (w_files w !! relativePath)))).

Section media.
Context `{Env} `{MediaLib}.

(** [os.WriteFile]: a failing write leaves a prefix of the content behind. *)
Definition write_file (path content : string) : M unit :=
  file_op (fun w => (set_files (<[path := limit_read (Z.of_nat (short_write content)) content]> (w_files w)) w,
                     inl ErrDriver))
          (fun w => (set_files (<[path := content]> (w_files w)) w, inr tt)).

Definition Write (relativePath content : string) : M unit :=
  _ ← map_err (wrap "create blob directory") (file_op (fun w => (w, inl ErrDriver)) (fun w => (w, inr tt)));
  present ← Exists relativePath;
  if (present : bool) then mret tt else map_err (wrap "write blob") (write_file relativePath content).

(** [Open] followed by [io.ReadAll] *)
Definition read_file (relativePath : string) : M string :=
  file_op (fun w => (w, inl (wrap "open blob" ErrDriver)))
    (fun w => (w, match w_files w !! relativePath with
                  | Some c => inr c
                  | None => inl (wrap "open blob" (Errorf "no such file or directory"))
                  end)).

(** ** [BlobService] *)
Definition newGeneratedID (prefix : string) : M string :=
  buf ← rand_bytes 10; mret (prefix +:+ "_" +:+ hex_encode buf).
Definition newBlobID : M string := newGeneratedID "blob".
Definition newMediaID : M string := newGeneratedID "media".

Definition detectImageSize (payload : string) (kind : Kind) : option Z * option Z :=
  if negb (kind =@ KindImage) then (None, None)
  else match DecodeConfig payload with
       | None => (None, None)
       | Some (w, h) => (Some (u32 w), Some (u32 h))
       end.

Definition blob_path (shaHex : string) : string :=
  substr 0 2 shaHex +:+ "/" +:+ substr 2 4 shaHex +:+ "/" +:+ shaHex.

Definition Put (cfg : Config) (content : string) (meta : PutBlobInput) : M PutBlobResult :=
  let payload := limit_read (i64 (MaxUploadBytes cfg + 1)) content in
  _ ← when (strlen payload =? 0) (Errorf "empty blob payload");
  _ ← when (MaxUploadBytes cfg <? strlen payload) (Errorf "blob exceeds max upload size");
  let shaHex := hex_encode (Sha256.Sum256 payload) in
  let mimeType := TrimSpace (pbi_MIMEType meta) in
  let mimeType := if mimeType =@ ""%string then DetectContentType payload else mimeType in
  found ← try (GetBySHA256 shaHex);
  _ ← (match found with
       | inl e => when (negb (e =@ ErrNotFound)) e
       | inr _ => mret tt
       end);
  blob ← (match found with
          | inl _ =>
            let relativePath := blob_path shaHex in
            _ ← Write relativePath payload;
            blobID ← newBlobID;
            CreateBlob (mkCreateBlobInput blobID shaHex (strlen payload) mimeType relativePath 0)
          | inr blob =>
            present ← Exists (BlobStoragePath blob);
            _ ← (if negb present then Write (BlobStoragePath blob) payload else mret tt);
            mret blob
          end);
  let '(width, height) := detectImageSize payload (pbi_Kind meta) in
  fileCID ← (if pbi_Kind meta =@ KindFile then
               match UnixFSFileCID (IPFS cfg) payload with
               | inl e => throw (wrap "compute file cid" e)
               | inr c => mret c
               end
             else mret ""%string);
  mediaID ← newMediaID;
  mediaObject ← CreateMedia (mkCreateMediaInput mediaID (BlobDBID blob) (pbi_Kind meta) (pbi_OriginalName meta)
                  mimeType (strlen payload) width height (pbi_CreatedBy meta) fileCID);
  mret (mkPutBlobResult blob mediaObject (match found with inr _ => true | inl _ => false end)).

(** ** [mediaService] *)
Definition SaveUploadedBlob (cfg : Config) (i : SaveUploadedBlobInput) : M MediaObject :=
  result ← Put cfg (sub_Content i)
             (mkPutBlobInput (sub_Kind i) (sub_OriginalName i) (sub_MIMEType i) (sub_CreatedBy i));
  mret (PutMedia result).

Definition GetMediaByID (mediaID : string) : M MediaObject := GetByMediaID mediaID.

Definition DownloadMediaByID (mediaID : string) : M (MediaObject * string) :=
  item ← GetByMediaID mediaID;
  content ← read_file (MediaStoragePath item);
  mret (item, content).
End media.
