(* ===== verification/Messaging.v ===== *)
(** * Channel messaging service: [internal/service/messaging.go] *)
From S2P Require Import Prelude Go Schema Config Store SpaceRepo ChannelRepo MessageRepo CursorNonceRepo.
From S2P Require Import BlobRepo Media.

Record AttachmentInput := mkAttachmentInput {
  ai_MediaID : string; ai_OriginalName : string; ai_MIMEType : string; ai_Content : string }.
Record SendMessageInput := mkSendMessageInput {
  smi_ChannelID : Z; smi_ClientMsgID : string; smi_MessageType : MessageType; smi_Text : string;
  smi_Images : list AttachmentInput; smi_Files : list AttachmentInput }.

Definition inferMessageType (i : SendMessageInput) : MessageType :=
  if 0 <? zlen (smi_Images i) then TypeImage
  else if 0 <? zlen (smi_Files i) then TypeFile
  else TypeText.

Definition invalid (post : string) : Err := Errorw "" ErrInvalidMessage (": " +:+ post).

Section messaging.
Context `{Env} `{MediaLib} (cfg : Config).

(** The checks that need neither the database nor the clock, in order. *)
Definition validate_static (ch : Channel) (perm : Permission) (i : SendMessageInput) : option Err :=
  let clientMsgID := TrimSpace (smi_ClientMsgID i) in
  let text := TrimSpace (smi_Text i) in
  let nimg := zlen (smi_Images i) in
  let nfile := zlen (smi_Files i) in
  if (strlen clientMsgID <? 8) || (64 <? strlen clientMsgID) then Some (invalid "client_msg_id must be 8-64 chars")
  else if MaxTextLen cfg <? strlen text then Some (invalid "text too long")
  else if MaxImagesPerMessage cfg <? nimg then Some (invalid "too many images")
  else if MaxFilesPerMessage cfg <? nfile then Some (invalid "too many files")
  else if (0 <? nimg) && (0 <? nfile) then Some (invalid "images and files cannot coexist")
  else if (text =@ ""%string) && (nimg =? 0) && (nfile =? 0) then Some (invalid "empty message")
  else if (nimg =? 0) && (nfile =? 0) && negb (inferMessageType i =@ TypeText)
  then Some (invalid "invalid text message type")
  else if (0 <? nimg) && negb (CanSendImage perm) then Some ErrForbidden
  else if (nimg =? 0) && (0 <? nfile) && negb (CanSendFile perm) then Some ErrForbidden
  else if negb (CanSendMessage perm) then Some ErrForbidden
  else if (ChanType ch =@ TypeBroadcast) && negb (PermRole perm =@ RoleOwner) && negb (PermRole perm =@ RoleAdmin)
  then Some ErrForbidden
  else None.

(** [time.Since(last) < seconds]: [last] is in milliseconds, the clock in nanoseconds. *)
Definition slow_mode_active (nowNs lastMs seconds : Z) : bool :=
  nowNs - lastMs * ns_per_ms <? seconds * ns_per_s.

Definition validateMessage (ch : Channel) (perm : Permission) (userID : Z) (i : SendMessageInput) : M unit :=
  _ ← (match validate_static ch perm i with Some e => throw e | None => mret tt end);
  if 0 <? SlowModeSeconds ch then
    lastTime ← GetLastMessageTime (ChannelID ch) userID;
    nowNs ← time_now;
    match lastTime with
    | Some last => when (slow_mode_active nowNs last (SlowModeSeconds ch)) (invalid "slow mode active")
    | None => mret tt
    end
  else mret tt.

Fixpoint resolve (userID : Z) (kind : Kind) (source : list AttachmentInput) : M (list Z) :=
  match source with
  | [] => mret []
  | item :: source =>
    obj ← (if negb (ai_MediaID item =@ ""%string) && (strlen (ai_Content item) =? 0)
           then GetMediaByID (ai_MediaID item)
           else SaveUploadedBlob cfg (mkSaveUploadedBlobInput kind (ai_OriginalName item) (ai_MIMEType item)
                  (ai_Content item) userID));
    out ← resolve userID kind source;
    mret (MediaDBID obj :: out)
  end.

Definition resolveAttachments (userID : Z) (i : SendMessageInput) : M (list Z) :=
  if 0 <? zlen (smi_Images i) then resolve userID KindImage (smi_Images i)
  else if 0 <? zlen (smi_Files i) then resolve userID KindFile (smi_Files i)
  else mret [].

Definition SendMessage (ctx : Ctx) (userID : Z) (i : SendMessageInput) : M Message :=
  ch ← GetByChannelID (smi_ChannelID i);
  perm ← GetPermission (smi_ChannelID i) userID;
  _ ← when (negb (CanView perm)) ErrForbidden;
  _ ← validateMessage ch perm userID i;
  attachments ← resolveAttachments userID i;
  Create ctx (mkCreateMessageInput (smi_ChannelID i) userID (smi_ClientMsgID i) (inferMessageType i)
    (TrimSpace (smi_Text i)) attachments).

Definition SyncChannel (userID channelID afterSeq limit : Z) : M (list Message * Z * bool) :=
  member ← IsUserMember channelID userID;
  _ ← when (negb member) ErrForbidden;
  let limit := if limit =? 0 then DefaultSyncLimit cfg else limit in
  let limit := if MaxSyncLimit cfg <? limit then MaxSyncLimit cfg else limit in
  items ← ListAfterSeq channelID afterSeq (u32 (limit + 1));
  let hasMore := limit <? u32 (zlen items) in
  let items := if hasMore then take (Z.to_nat limit) items else items in
  let nextAfterSeq := match last items with Some m => Seq m | None => afterSeq end in
  mret (items, nextAfterSeq, hasMore).

Definition AckDelivered (userID channelID seq : Z) : M unit :=
  member ← IsUserMember channelID userID;
  _ ← when (negb member) ErrForbidden;
  UpsertDeliveredSeq userID channelID seq.

Definition UpdateRead (userID channelID seq : Z) : M unit :=
  member ← IsUserMember channelID userID;
  _ ← when (negb member) ErrForbidden;
  UpsertReadSeq userID channelID seq.

Definition CleanupExpired (ctx : Ctx) : M Z :=
  t ← now; CleanupExpiredMessages ctx t 200.
End messaging.
