(* ===== verification/DirectService.v ===== *)
(** * Direct messaging service: [internal/service/direct_chat.go] *)
From S2P Require Import Prelude Go Schema Config Store SpaceRepo UserRepo DirectRepo Proto.
Import sessionv1.

Definition messageTypeToProto (t : MessageType) : Z :=
  match t with
  | TypeImage => MessageType_IMAGE
  | TypeFile => MessageType_FILE
  | TypeSystem => MessageType_SYSTEM
  | _ => MessageType_TEXT
  end.

Definition protoToMessageType (t : Z) : MessageType :=
  if t =? MessageType_IMAGE then TypeImage
  else if t =? MessageType_FILE then TypeFile
  else if t =? MessageType_SYSTEM then TypeSystem
  else TypeText.

Definition otherParticipant (conv : DirectConversation) (self : Z) : Z :=
  if UserLowID conv =? self then UserHighID conv else UserLowID conv.

Definition to_direct_event (m : DirectMessage) : DirectMessageEvent :=
  mkDirectMessageEvent (DMConversationID m) (DMMessageID m) (DMSeq m) (SenderExternalID m)
    (RecipientExternalID m) (messageTypeToProto (DMMessageType m)) (DMText m) (CreatedAtMs m).

(** [uint64(time.Now().UTC().UnixMilli())] *)
Definition now_ms : M Z := ns ← time_now; mret (u64 (truncate_ms ns)).

Section direct.
Context `{Env} (cfg : Config).

Definition OpenConversation (ctx : Ctx) (userID : Z) (peerUserID : string) : M OpenDirectConversationResp :=
  let peer := TrimSpace peerUserID in
  _ ← when (peer =@ ""%string) ErrInvalidMessage;
  u ← GetByUserID peer;
  _ ← when (UserDBID u =? userID) ErrInvalidMessage;
  conv ← GetOrCreateConversation ctx userID (UserDBID u);
  mret (mkOpenDirectConversationResp true (ConversationID conv) (UserID u) (LastSeq conv) "ok").

Definition ListConversations (userID : Z) : M ListDirectConversationsResp :=
  items ← ListConversationsForUser userID;
  mret (mkListDirectConversationsResp ((fun it =>
    mkDirectConversationSummary (ItemConversationID it) (PeerUserID it) (PeerDisplayName it)
      (ItemLastSeq it) (ItemLastMessageAtMs it)) <$> items)).

(** The conversation and the recipient a request addresses. *)
Definition resolve_target (ctx : Ctx) (senderUserID : Z) (req : SendDirectMessageReq) : M (DirectConversation * Z) :=
  let cid := TrimSpace (SendDirectMessageReq_ConversationId req) in
  if negb (cid =@ ""%string) then
    c ← GetConversationByExternalID cid;
    _ ← when (negb (senderUserID =? UserLowID c) && negb (senderUserID =? UserHighID c)) ErrForbidden;
    mret (c, otherParticipant c senderUserID)
  else
    let to := TrimSpace (SendDirectMessageReq_ToUserId req) in
    _ ← when (to =@ ""%string) ErrInvalidMessage;
    u ← GetByUserID to;
    conv ← GetOrCreateConversation ctx senderUserID (UserDBID u);
    mret (conv, UserDBID u).

Definition forbidden_of (e : Err) : Err := if errors_is e ErrDirectChatForbidden then ErrForbidden else e.

(** The acknowledgement, and the event with the recipient it goes to. *)
Definition SendDirectMessage (ctx : Ctx) (senderUserID : Z) (req : SendDirectMessageReq)
  : M (SendDirectMessageAck * option (DirectMessageEvent * Z)) :=
  let clientMsgID := TrimSpace (SendDirectMessageReq_ClientMsgId req) in
  _ ← when (clientMsgID =@ ""%string) ErrInvalidMessage;
  let text := TrimSpace (SendDirectMessageReq_Text req) in
  _ ← when (text =@ ""%string) ErrInvalidMessage;
  _ ← when ((0 <? MaxTextLen cfg) && (MaxTextLen cfg <? rune_count text)) ErrInvalidMessage;
  let mt := protoToMessageType (SendDirectMessageReq_MessageType req) in
  _ ← when (negb (mt =@ TypeText)) ErrInvalidMessage;
  '(conv, recipientID) ← resolve_target ctx senderUserID req;
  existing ← try (GetDirectMessageByClientMsgID (ConversationID conv) senderUserID clientMsgID);
  match existing with
  | inl e =>
    if negb (errors_is e ErrNotFound) then throw e
    else
      msg ← map_err forbidden_of (CreateDirectMessage ctx
              (mkCreateDirectMessageInput (ConversationID conv) senderUserID recipientID clientMsgID mt text));
      nowMs ← now_ms;
      mret (mkSendDirectMessageAck true (ConversationID conv) clientMsgID (DMMessageID msg) (DMSeq msg) nowMs "stored",
            Some (to_direct_event msg, recipientID))
  | inr existing =>
    nowMs ← now_ms;
    mret (mkSendDirectMessageAck true (DMConversationID existing) clientMsgID (DMMessageID existing) (DMSeq existing)
            nowMs "stored", None)
  end.

Definition AckDirectMessageService (recipientUserID : Z) (req : AckDirectMessageReq)
  : M (AckDirectMessageResp * option (DirectPeerAckEvent * Z)) :=
  let mid := TrimSpace (AckDirectMessageReq_MessageId req) in
  _ ← when (mid =@ ""%string) ErrInvalidMessage;
  nowMs ← now_ms;
  '(already, senderUID, convID) ← map_err forbidden_of (AckDirectMessage mid recipientUserID nowMs);
  recv ← GetByID recipientUserID;
  let resp := mkAckDirectMessageResp true mid "ok" in
  mret (resp, if (already : bool) then None
              else Some (mkDirectPeerAckEvent convID mid nowMs (UserID recv), senderUID)).

Definition SyncDirectMessages (userID : Z) (req : SyncDirectMessagesReq) : M SyncDirectMessagesResp :=
  let cid := TrimSpace (SyncDirectMessagesReq_ConversationId req) in
  _ ← when (cid =@ ""%string) ErrInvalidMessage;
  conv ← GetConversationByExternalID cid;
  _ ← when (negb (userID =? UserLowID conv) && negb (userID =? UserHighID conv)) ErrForbidden;
  let limit := if SyncDirectMessagesReq_Limit req =? 0 then 50 else SyncDirectMessagesReq_Limit req in
  '(items, nextSeq, hasMore) ← ListPendingDirectMessages cid userID (SyncDirectMessagesReq_AfterSeq req) limit;
  mret (mkSyncDirectMessagesResp cid (to_direct_event <$> items) nextSeq hasMore).
End direct.
