(* ===== verification/DbInv.v ===== *)
(** * The database invariant and every method that writes

    [db_inv] collects the invariants of the components and [db_effect]
    everything a committed statement or transaction can do; the effects
    keep the invariant, and every repository method moves the database by
    effects only, from any world and whatever statements fail. *)
From S2P Require Import Prelude Go Schema Config Store SpaceRepo SpaceInv UserRepo ChannelRepo ChannelInv.
From S2P Require Import SeqLog MessageRepo MessageInv CursorNonceRepo BlobRepo DirectRepo DirectInv Auth.
From S2P Require Import Bootstrap TableInv Media Messaging DirectService Proto.

Record db_inv `{Env} (d : DB) : Prop := {
  inv_spaces : space_inv d; inv_channels : channels_inv d; inv_messages : msg_inv d;
  inv_direct : direct_inv d; inv_users : user_inv d; inv_cursors : cursor_inv d;
  inv_nonces : nonce_inv d; inv_blobs : blob_inv d }.

Definition dm_tables (d : DB) := (conversations d, direct_messages d).
Definition side_tables (d : DB) := (users d, reads d, nonces d).
Definition blob_tables (d : DB) := (blobs d, media_objects d, message_attachments d).

Section frames.
Context `{Env}.

Lemma direct_inv_keep d d' : dm_tables d' = dm_tables d -> direct_inv d -> direct_inv d'.
Proof. intros [= E1 E2] []. split; rewrite ?E1, ?E2; done. Qed.
Lemma blob_inv_keep d d' : blob_tables d' = blob_tables d -> blob_inv d -> blob_inv d'.
Proof. intros [= E1 E2 E3] []. split; rewrite ?E1, ?E2, ?E3; done. Qed.
Lemma side_inv_keep d d' :
  side_tables d' = side_tables d -> user_inv d -> cursor_inv d -> nonce_inv d -> user_inv d' /\ cursor_inv d' /\ nonce_inv d'.
Proof. intros [= E1 E2 E3] [] [] []. split_and!; split; rewrite ?E1, ?E2, ?E3; done. Qed.

(** The four main effects leave the tables of the other components alone. *)
Definition rest_tables (d : DB) := (dm_tables d, side_tables d, blob_tables d).

Lemma insert_member_rest sid uid role b t d d1 mid :
  insert_member sid uid role b t d = Some (d1, mid) -> rest_tables d1 = rest_tables d.
Proof. unfold insert_member. intros (?&?&?)%bind_Some. case_match; by simplify_eq. Qed.
Lemma insert_server_rest i name t d d1 sid :
  insert_server i name t d = Some (d1, sid) -> rest_tables d1 = rest_tables d.
Proof. unfold insert_server. intros (?&?&?)%bind_Some. case_match; by simplify_eq. Qed.

Lemma space_effect_rest d d' : space_effect d d' -> rest_tables d' = rest_tables d.
Proof.
  intros [ ]; try done; change (rest_tables (refresh ?a ?b ?c)) with (rest_tables c); try done;
    try (erewrite insert_member_rest; eauto; done).
  erewrite insert_member_rest by eauto. by erewrite insert_server_rest by eauto.
Qed.

Lemma channel_effect_rest d d' : channel_effect d d' -> rest_tables d' = rest_tables d.
Proof.
  intros [i s m name sort t d0 d1 d2 cid _ _ _ _ E1 E2|]; [|done].
  change (rest_tables (refresh ?a ?b ?c)) with (rest_tables c).
  apply insert_channel_Some in E1 as (c&_&_&_&_&_&_&_&_&->).
  unfold insert_channel_member in E2. apply bind_Some in E2 as (tbl&_&?). by simplify_eq.
Qed.

Definition dm_side_tables (d : DB) := (dm_tables d, side_tables d).
Lemma mark_all_dm t rs d : dm_side_tables (mark_all t rs d) = dm_side_tables d /\
  blob_tables (mark_all t rs d) = blob_tables d.
Proof.
  revert d. induction rs as [|r rs IH]; intros d; [done|].
  change (mark_all t (r :: rs) d) with (mark_all t rs (mark_deleted (m_id r) t d).1).
  by destruct (IH (mark_deleted (m_id r) t d).1) as [-> ->].
Qed.
Lemma fewer_all_dm t l d : dm_side_tables (fewer_all t l d) = dm_side_tables d /\
  blob_tables (fewer_all t l d) = blob_tables d.
Proof.
  revert d. induction l as [|[k n] l IH]; intros d; [done|].
  change (fewer_all t ((k, n) :: l) d) with
    (fewer_all t l (if n =? 0 then d else (update_channel k (with_fewer n t) d).1)).
  destruct (n =? 0); [done|]. by destruct (IH (update_channel k (with_fewer n t) d).1) as [-> ->].
Qed.

Lemma message_effect_rest d d' : message_effect d d' -> dm_side_tables d' = dm_side_tables d.
Proof.
  intros [i c ext t d0 d1 d2 mid _ _ E1 E2%attach_all_frame|t limit d0].
  - apply insert_message_Some in E1 as (r&_&_&_&_&_&_&_&_&_&_&_&->). by rewrite E2.
  - by rewrite (proj1 (fewer_all_dm _ _ _)), (proj1 (mark_all_dm _ _ _)).
Qed.

Lemma message_effect_blob_inv d d' : message_effect d d' -> blob_inv d -> blob_inv d'.
Proof.
  intros [i c ext t d0 d1 d2 mid _ _ E1 E2|t limit d0] Hb.
  - apply insert_message_Some in E1 as (r&_&_&_&_&_&_&_&_&_&_&_&->).
    apply attach_all_blob_inv in E2; [|by destruct Hb]. by destruct E2.
  - eapply blob_inv_keep; [|exact Hb].
    by rewrite (proj2 (fewer_all_dm _ _ _)), (proj2 (mark_all_dm _ _ _)).
Qed.

(** What the direct-chat effects leave alone. *)
Definition main_tables (d : DB) :=
  (servers d, server_members d, channels d, channel_members d, messages d, side_tables d, blob_tables d).
Lemma direct_effect_rest d d' : direct_effect d d' -> main_tables d' = main_tables d.
Proof.
  intros [cid low high t d0 d1 id _ _ E|i c ext mt ms t d0 d1 id _ _ _ _ E|mid uid ms d0]; [| |done].
  - unfold insert_conv in E. apply bind_Some in E as ([tbl id']&_&?). by simplify_eq.
  - apply insert_direct_Some in E as (r&_&_&_&_&_&_&_&_&_&_&_&_&->). done.
Qed.
Lemma main_inv_keep d d' :
  main_tables d' = main_tables d -> db_inv d -> direct_inv d' -> db_inv d'.
Proof.
  intros [= E1 E2 E3 E4 E5 E6 E7 E8 E9 E10 E11] [Hs Hc Hm Hd Hu Hr Hn Hb] Hd'.
  assert (same_spaces d d') as Hss by (split; rewrite ?E3; done).
  assert (same_msgs d d') as Hsm by (split; rewrite ?E3; done).
  destruct (side_inv_keep d d') as (?&?&?); [unfold side_tables; congruence|done..|].
  split; try done.
  - by rewrite <- Hss.
  - eapply channels_inv_keep; [|done]. split; by rewrite ?E3, ?E4.
  - by rewrite <- Hsm.
  - eapply blob_inv_keep; [|done]. unfold blob_tables. congruence.
Qed.
End frames.

(** ** Every effect keeps the invariant *)
Section effects.
Context `{Env}.

Lemma space_effect_keeps d d' : space_effect d d' -> keeping db_inv d d'.
Proof.
  intros He [Hs Hc Hm Hd Hu Hr Hn Hb]. pose proof (space_effect_rest d d' He) as [[E1 E2]%pair_equal_spec E3]%pair_equal_spec.
  destruct (side_inv_keep d d') as (?&?&?); [done..|].
  split; try done.
  - by eapply space_effect_inv.
  - eapply channels_inv_keep; [by apply space_effect_same_channels|done].
  - by rewrite <- (space_effect_same_msgs d d').
  - by eapply direct_inv_keep.
  - by eapply blob_inv_keep.
Qed.

Lemma channel_effect_keeps d d' : channel_effect d d' -> keeping db_inv d d'.
Proof.
  intros He [Hs Hc Hm Hd Hu Hr Hn Hb]. pose proof (channel_effect_rest d d' He) as [[E1 E2]%pair_equal_spec E3]%pair_equal_spec.
  destruct (side_inv_keep d d') as (?&?&?); [done..|].
  destruct (channel_effect_inv d d' He Hs Hc). split; try done.
  - by eapply channel_effect_msg_inv.
  - by eapply direct_inv_keep.
  - by eapply blob_inv_keep.
Qed.

Lemma message_effect_keeps d d' : message_effect d d' -> keeping db_inv d d'.
Proof.
  intros He [Hs Hc Hm Hd Hu Hr Hn Hb]. pose proof (message_effect_rest d d' He) as [E1 E2]%pair_equal_spec.
  destruct (side_inv_keep d d') as (?&?&?); [done..|].
  destruct (message_effect_same d d' He) as [Hss Hsc]. split; try done.
  - by rewrite <- Hss.
  - by eapply channels_inv_keep.
  - by eapply message_effect_inv.
  - by eapply direct_inv_keep.
  - by eapply message_effect_blob_inv.
Qed.

Lemma direct_effect_keeps d d' : direct_effect d d' -> keeping db_inv d d'.
Proof.
  intros He Hi. eapply main_inv_keep; [by apply direct_effect_rest|done|].
  eapply direct_effect_inv; [done|by apply inv_direct].
Qed.

(** Statements on the side tables and on the blob tables. *)
Definition core_tables (d : DB) :=
  (servers d, server_members d, channels d, channel_members d, messages d, conversations d, direct_messages d).

Lemma core_inv_keep d d' :
  core_tables d' = core_tables d -> db_inv d -> user_inv d' -> cursor_inv d' -> nonce_inv d' -> blob_inv d' -> db_inv d'.
Proof.
  intros [= E1 E2 E3 E4 E5 E6 E7] [Hs Hc Hm Hd _ _ _ _] ? ? ? ?.
  assert (same_spaces d d') as Hss by (split; rewrite ?E3; done).
  assert (same_msgs d d') as Hsm by (split; rewrite ?E3; done).
  split; try done.
  - by rewrite <- Hss.
  - eapply channels_inv_keep; [|done]. split; by rewrite ?E3, ?E4.
  - by rewrite <- Hsm.
  - eapply direct_inv_keep; [|done]. unfold dm_tables. congruence.
Qed.

Lemma db_inv_users d f : db_inv d -> user_inv (set_users f d) -> db_inv (set_users f d).
Proof. intros Hi Hu. eapply core_inv_keep; [|exact Hi|..]; try done; destruct Hi as [? ? ? ? ? [] [] []]; by split. Qed.
Lemma db_inv_reads d f : db_inv d -> cursor_inv (set_reads f d) -> db_inv (set_reads f d).
Proof. intros Hi Hu. eapply core_inv_keep; [|exact Hi|..]; try done; destruct Hi as [? ? ? ? [] ? [] []]; by split. Qed.
Lemma db_inv_nonces d f : db_inv d -> nonce_inv (set_nonces f d) -> db_inv (set_nonces f d).
Proof. intros Hi Hu. eapply core_inv_keep; [|exact Hi|..]; try done; destruct Hi as [? ? ? ? [] [] ? []]; by split. Qed.
Lemma db_inv_nodes d f : db_inv d -> db_inv (set_nodes f d).
Proof. intros Hi. eapply core_inv_keep; [|exact Hi|..]; try done; destruct Hi as [? ? ? ? [] [] [] []]; by split. Qed.
Lemma db_inv_blobs d f : db_inv d -> blob_inv (set_blobs f d) -> db_inv (set_blobs f d).
Proof. intros Hi Hu. eapply core_inv_keep; [|exact Hi|..]; try done; destruct Hi as [? ? ? ? [] [] [] ?]; by split. Qed.
Lemma db_inv_media d f : db_inv d -> blob_inv (set_media_objects f d) -> db_inv (set_media_objects f d).
Proof. intros Hi Hu. eapply core_inv_keep; [|exact Hi|..]; try done; destruct Hi as [? ? ? ? [] [] [] ?]; by split. Qed.
End effects.

(** ** Everything a statement or a transaction can do to the database *)
Inductive db_effect `{Env} : DB -> DB -> Prop :=
| de_space d d' : space_effect d d' -> db_effect d d'
| de_channel d d' : channel_effect d d' -> db_effect d d'
| de_message d d' : message_effect d d' -> db_effect d d'
| de_direct d d' : direct_effect d d' -> db_effect d d'
| de_user ext peer pk t d d' : upsert_user ext peer pk t d = Some (d', tt) -> db_effect d d'
| de_login uid pk t d : db_effect d (set_users (update_rows (fun u => u_id u =? uid) (with_login pk t)) d)
| de_delivered uid cid seq t d d' :
    upsert_cursor uid cid (with_delivered seq t) (fun id => mkReadRow id uid cid seq 0 t) d = Some (d', tt) ->
    db_effect d d'
| de_read uid cid seq t d d' :
    upsert_cursor uid cid (with_read seq t) (fun id => mkReadRow id uid cid 0 seq t) d = Some (d', tt) ->
    db_effect d d'
| de_nonce h c n iss ex t d d' : insert_nonce h c n iss ex t d = Some (d', tt) -> db_effect d d'
| de_consume h c n t d : db_effect d (consume_nonce h c n t d).1
| de_blob i t d d' : insert_blob i t d = Some (d', tt) -> db_effect d d'
| de_media i t d d' : insert_media i t d = Some (d', tt) -> db_effect d d'
| de_inc id d : db_effect d (set_blobs (update_rows (fun b => b_id b =? id) inc_ref) d)
| de_node r nid t d d' : upsert_node r nid t d = Some (d', tt) -> db_effect d d'.

Section effect_inv.
Context `{Env}.

Lemma upsert_cursor_keeps uid cid f mk d d' :
  (forall r, rd_id (f r) = rd_id r /\ rd_user_id (f r) = rd_user_id r /\ rd_channel_id (f r) = rd_channel_id r) ->
  (forall i, rd_id (mk i) = i /\ rd_user_id (mk i) = uid /\ rd_channel_id (mk i) = cid) ->
  upsert_cursor uid cid f mk d = Some (d', tt) -> db_inv d -> db_inv d'.
Proof.
  intros Hf Hmk E Hi. pose proof (upsert_cursor_inv _ _ _ _ _ _ _ Hf Hmk E (inv_cursors d Hi)) as Hu.
  unfold upsert_cursor in E. destruct (channel_by_id cid d); [|by simplify_eq].
  apply bind_Some in E as (tbl&_&?). simplify_eq. by apply db_inv_reads.
Qed.

Lemma db_effect_inv d d' : db_effect d d' -> db_inv d -> db_inv d'.
Proof.
  intros [d0 d1 E|d0 d1 E|d0 d1 E|d0 d1 E|ext peer pk t d0 d1 E|uid pk t d0|uid cid seq t d0 d1 E|uid cid seq t d0 d1 E
    |h c n iss ex t d0 d1 E|h c n t d0|i t d0 d1 E|i t d0 d1 E|id d0|r nid t d0 d1 E] Hi.
  - by eapply space_effect_keeps.
  - by eapply channel_effect_keeps.
  - by eapply message_effect_keeps.
  - by eapply direct_effect_keeps.
  - pose proof (upsert_user_inv _ _ _ _ _ _ _ E (inv_users _ Hi)) as Hu.
    unfold upsert_user in E. apply bind_Some in E as (tbl&_&?). simplify_eq. by apply db_inv_users.
  - apply db_inv_users; [done|]. by apply update_login_inv, Hi.
  - by eapply upsert_cursor_keeps; [..|exact E|].
  - by eapply upsert_cursor_keeps; [..|exact E|].
  - pose proof (insert_nonce_inv _ _ _ _ _ _ _ _ _ E (inv_nonces _ Hi)) as Hu.
    unfold insert_nonce in E. apply bind_Some in E as ([tbl id]&_&?). simplify_eq. by apply db_inv_nonces.
  - apply db_inv_nonces; [done|]. by apply consume_nonce_inv, Hi.
  - pose proof (insert_blob_inv _ _ _ _ _ E (inv_blobs _ Hi)) as Hu.
    unfold insert_blob in E. apply bind_Some in E as ([tbl id]&_&?). simplify_eq. by apply db_inv_blobs.
  - pose proof (insert_media_inv _ _ _ _ _ E (inv_blobs _ Hi)) as Hu.
    unfold insert_media in E. apply bind_Some in E as ([tbl id]&_&?). simplify_eq. by apply db_inv_media.
  - apply db_inv_blobs; [done|].
    destruct (inv_blobs _ Hi). split; simpl; rewrite ?map_update_where by done; try done. by apply table_wf_update.
  - unfold upsert_node in E. apply bind_Some in E as (tbl&_&?). simplify_eq. by apply db_inv_nodes.
Qed.

(** The database moved by any number of effects. *)
Definition evolves : DB -> DB -> Prop := rtc db_effect.

Lemma evolves_inv d d' : evolves d d' -> db_inv d -> db_inv d'.
Proof. induction 1; [done|]. intros Hi. eauto using db_effect_inv. Qed.

(** Any preorder the effects respect holds between the two ends. *)
Lemma evolves_in (R : DB -> DB -> Prop) `{!PreOrder R} d d' :
  (forall d d', db_effect d d' -> R d d') -> evolves d d' -> R d d'.
Proof. intros HR. induction 1 as [|d1 d2 d3 He _ IH]; [done|]. etrans; [by apply HR|done]. Qed.
End effect_inv.

(** ** Every method moves the database by effects only *)
Section methods.
Context `{Env}.
Abbreviation safe := (keeps evolves).

Lemma safe_effect {A} (P : DB -> DB -> Prop) (m : M A) :
  (forall d d', P d d' -> db_effect d d') -> (forall w, wp m w (fun w' _ => unchanged_or P w w')) -> safe m.
Proof. intros HP Hm. eapply keeps_effect; [apply _| |exact Hm]. intros d d' Hd. by apply rtc_once, HP. Qed.

Lemma safe_addSpaceMember ctx sid uid po : safe (addSpaceMember ctx sid uid po).
Proof. eapply safe_effect; [apply de_space|intros; apply addSpaceMember_db]. Qed.
Lemma safe_CreateSpace ctx i : safe (CreateSpace ctx i).
Proof. eapply safe_effect; [apply de_space|intros; apply CreateSpace_db]. Qed.
Lemma safe_KickSpaceMember ctx sid uid : safe (KickSpaceMember ctx sid uid).
Proof. eapply safe_effect; [apply de_space|intros; apply KickSpaceMember_db]. Qed.
Lemma safe_BanSpaceMember ctx sid uid : safe (BanSpaceMember ctx sid uid).
Proof. eapply safe_effect; [apply de_space|intros; apply BanSpaceMember_db]. Qed.
Lemma safe_UnbanSpaceMember ctx sid uid : safe (UnbanSpaceMember ctx sid uid).
Proof. eapply safe_effect; [apply de_space|intros; apply UnbanSpaceMember_db]. Qed.
Lemma safe_SetSpaceAllowChannelCreation ctx sid b : safe (SetSpaceAllowChannelCreation ctx sid b).
Proof. eapply safe_effect; [apply de_space|intros; apply SetSpaceAllowChannelCreation_db]. Qed.
Lemma safe_SetSpaceMemberRole ctx sid uid r : safe (SetSpaceMemberRole ctx sid uid r).
Proof. eapply safe_effect; [apply de_space|intros; apply SetSpaceMemberRole_db]. Qed.
Lemma safe_CreateChannel ctx i : safe (CreateChannel ctx i).
Proof. eapply safe_effect; [apply de_channel|intros; apply CreateChannel_db]. Qed.
Lemma safe_SetGroupAutoDelete ctx cid n : safe (SetGroupAutoDeleteAfterSeconds ctx cid n).
Proof. eapply safe_effect; [apply de_channel|intros; apply SetGroupAutoDelete_db]. Qed.
Lemma safe_Create ctx i : safe (Create ctx i).
Proof. eapply safe_effect; [apply de_message|intros; apply Create_db]. Qed.
Lemma safe_Cleanup ctx t l : safe (CleanupExpiredMessages ctx t l).
Proof. eapply safe_effect; [apply de_message|intros; apply CleanupExpiredMessages_db]. Qed.
Lemma safe_GetOrCreateConversation ctx a b : safe (GetOrCreateConversation ctx a b).
Proof. eapply safe_effect; [apply de_direct|intros; apply GetOrCreateConversation_db]. Qed.
Lemma safe_CreateDirectMessage ctx i : safe (CreateDirectMessage ctx i).
Proof. eapply safe_effect; [apply de_direct|intros; apply CreateDirectMessage_db]. Qed.
Lemma safe_AckDirectMessage mid uid ms : safe (AckDirectMessage mid uid ms).
Proof. eapply safe_effect; [apply de_direct|intros; apply AckDirectMessage_db]. Qed.

(** Methods that are one statement. *)
Lemma safe_exec (u : DB -> option (DB * unit)) : (forall d d', u d = Some (d', tt) -> db_effect d d') -> safe (exec u).
Proof. intros Hu. apply keeps_exec; [apply _|]. intros d d' [] E. by apply rtc_once, Hu. Qed.
Lemma safe_exec_ {A} (u : DB -> DB * A) : (forall d, db_effect d (u d).1) -> safe (exec_ u).
Proof. intros Hu. apply keeps_exec_; [apply _|]. intros d. by apply rtc_once. Qed.

Lemma safe_CreateIfNotExists peer pk : safe (CreateIfNotExistsByPeerID peer pk).
Proof. unfold CreateIfNotExistsByPeerID, GetByPeerID. solve_keeps. apply safe_exec, de_user. Qed.
Lemma safe_UpdateLogin uid pk t : safe (UpdateLogin uid pk t).
Proof. unfold UpdateLogin. solve_keeps. apply safe_exec_. intros d. apply de_login. Qed.
Lemma safe_UpsertDeliveredSeq uid cid n : safe (UpsertDeliveredSeq uid cid n).
Proof. unfold UpsertDeliveredSeq. solve_keeps. apply safe_exec, de_delivered. Qed.
Lemma safe_UpsertReadSeq uid cid n : safe (UpsertReadSeq uid cid n).
Proof. unfold UpsertReadSeq. solve_keeps. apply safe_exec, de_read. Qed.
Lemma safe_StoreNonce h c n i e : safe (StoreNonce h c n i e).
Proof. unfold StoreNonce. solve_keeps. apply safe_exec, de_nonce. Qed.
Lemma safe_UseNonce h c n t : safe (UseNonce h c n t).
Proof. unfold UseNonce. solve_keeps. apply safe_exec_. intros d. apply de_consume. Qed.
Lemma safe_CreateBlob i : safe (CreateBlob i).
Proof. unfold CreateBlob, GetBySHA256. solve_keeps. apply safe_exec, de_blob. Qed.
Lemma safe_CreateMedia i : safe (CreateMedia i).
Proof. unfold CreateMedia, GetByMediaID. solve_keeps. apply safe_exec, de_media. Qed.
Lemma safe_IncRef id : safe (IncRef id).
Proof. unfold IncRef. solve_keeps. apply safe_exec_. intros d. apply de_inc. Qed.
Lemma safe_Upsert r : safe (Upsert r).
Proof. unfold Upsert. solve_keeps. apply safe_exec, de_node. Qed.
End methods.

#[export] Hint Resolve safe_addSpaceMember safe_CreateSpace safe_KickSpaceMember safe_BanSpaceMember
  safe_UnbanSpaceMember safe_SetSpaceAllowChannelCreation safe_SetSpaceMemberRole safe_CreateChannel
  safe_SetGroupAutoDelete safe_Create safe_Cleanup safe_GetOrCreateConversation safe_CreateDirectMessage
  safe_AckDirectMessage keeps_loadDirect safe_CreateIfNotExists safe_UpdateLogin safe_UpsertDeliveredSeq
  safe_UpsertReadSeq safe_StoreNonce safe_UseNonce safe_CreateBlob safe_CreateMedia safe_IncRef safe_Upsert : keeps.
