(* ===== verification/Session.v ===== *)
(** * Session manager state: [internal/session/manager.go], [realtime.go] and [convert.go]

    The manager keeps the channel subscriptions, the direct-message
    sessions and the realtime (WebSocket) subscribers; a session is named
    by an identifier standing for its [*ConnSession] pointer. *)
From S2P Require Import Prelude Go Encoding Schema Config Store SpaceRepo UserRepo ChannelRepo MessageRepo.
From S2P Require Import BlobRepo Proto Codec Auth Media Messaging DirectService.
Import sessionv1.

Abbreviation Sid := positive.
Abbreviation Rid := positive.

Record ConnSession := mkConnSession {
  authenticated : bool; hello : option Hello; issuedChallenge : option Challenge;
  authResult : option Result; subscribed : gset Z }.
Definition new_session : ConnSession := mkConnSession false None None None ∅.

(** What [NewManager] is given. *)
Record ManagerConf := mkManagerConf {
  mc_cfg : Config; nodePeerID : string; nodeID : Z; blobURLBase : string; globalAdminPeerID : string;
  directMessaging : bool }.

Record Sent := mkSent { sent_to : Sid; sent_type : Z; sent_request : string; sent_body : Body }.

Record Mgr := mkMgr {
  g_world : World;
  g_sessions : gmap Sid ConnSession;
  g_subscriptions : gmap Z (gset Sid);
  g_direct : gmap Z (gset Sid);
  g_realtime : gmap Z (gset Rid);
  g_sent : list Sent;                     (** envelopes written, oldest first *)
  g_pushed : list (Rid * (Z * MessageEvent)); (** [RealtimeDeliver] calls, oldest first *)
  g_broken : gset Sid }.                  (** sessions whose stream no longer accepts writes *)

Definition set_world w g := mkMgr w (g_sessions g) (g_subscriptions g) (g_direct g) (g_realtime g) (g_sent g) (g_pushed g) (g_broken g).
Definition set_sessions f g := mkMgr (g_world g) (f (g_sessions g)) (g_subscriptions g) (g_direct g) (g_realtime g) (g_sent g) (g_pushed g) (g_broken g).
Definition set_subscriptions f g := mkMgr (g_world g) (g_sessions g) (f (g_subscriptions g)) (g_direct g) (g_realtime g) (g_sent g) (g_pushed g) (g_broken g).
Definition set_direct f g := mkMgr (g_world g) (g_sessions g) (g_subscriptions g) (f (g_direct g)) (g_realtime g) (g_sent g) (g_pushed g) (g_broken g).
Definition set_realtime f g := mkMgr (g_world g) (g_sessions g) (g_subscriptions g) (g_direct g) (f (g_realtime g)) (g_sent g) (g_pushed g) (g_broken g).
Definition set_sent f g := mkMgr (g_world g) (g_sessions g) (g_subscriptions g) (g_direct g) (g_realtime g) (f (g_sent g)) (g_pushed g) (g_broken g).
Definition set_pushed f g := mkMgr (g_world g) (g_sessions g) (g_subscriptions g) (g_direct g) (g_realtime g) (g_sent g) (f (g_pushed g)) (g_broken g).

Abbreviation G := (SE Mgr).
Definition lift {A} (m : M A) : G A := fun g => let '(w, r) := m (g_world g) in (set_world w g, r).
Definition modify (f : Mgr -> Mgr) : G unit := fun g => (f g, inr tt).
Definition gets {A} (f : Mgr -> A) : G A := fun g => (g, inr (f g)).

(** ** Sets of subscribers in a map: an empty set is removed from the map *)
Definition sub_add {K : Type} `{Countable K} (k : Z) (x : K) (m : gmap Z (gset K)) : gmap Z (gset K) :=
  <[k := {[x]} ∪ default ∅ (m !! k)]> m.
Definition sub_del {K : Type} `{Countable K} (k : Z) (x : K) (m : gmap Z (gset K)) : gmap Z (gset K) :=
  let s := default ∅ (m !! k) ∖ {[x]} in
  if decide (s = ∅) then delete k m else <[k := s]> m.

(** ** Conversions ([convert.go]) *)
Definition toVisibility (v : Visibility) : Z :=
  match v with VisibilityPublic => Visibility_PUBLIC | _ => Visibility_PRIVATE end.
Definition toDomainVisibility (v : Z) : Visibility :=
  if v =? Visibility_PUBLIC then VisibilityPublic else VisibilityPrivate.
Definition toChannelType (t : ChannelType) : Z :=
  match t with TypeSpace => ChannelType_GROUP | _ => ChannelType_BROADCAST end.
Definition toProtoMessageType (t : MessageType) : Z :=
  match t with
  | TypeImage => MessageType_IMAGE | TypeFile => MessageType_FILE | TypeSystem => MessageType_SYSTEM
  | _ => MessageType_TEXT
  end.
Definition toDomainMessageType (t : Z) : MessageType :=
  if t =? MessageType_IMAGE then TypeImage
  else if t =? MessageType_FILE then TypeFile
  else if t =? MessageType_SYSTEM then TypeSystem
  else TypeText.
Definition toDomainMemberRole (r : Z) : Err + Role :=
  if r =? MemberRole_OWNER then inr RoleOwner
  else if r =? MemberRole_ADMIN then inr RoleAdmin
  else if r =? MemberRole_MEMBER then inr RoleMember
  else if r =? MemberRole_SUBSCRIBER then inr RoleSubscriber
  else inl (Errorf "unsupported member role").
Definition toProtoMemberRole (r : Role) : Z :=
  match r with
  | RoleOwner => MemberRole_OWNER | RoleAdmin => MemberRole_ADMIN | RoleMember => MemberRole_MEMBER
  | RoleSubscriber => MemberRole_SUBSCRIBER | RoleOther _ => MemberRole_MEMBER_ROLE_UNSPECIFIED
  end.

(** [unixMilliOrZero]: a stored time is never Go's zero [time.Time]. *)
Definition unixMilliOrZero (ms : Z) : Z := u64 ms.
Definition toSpaceMemberSummary (i : SpaceMember) : SpaceMemberSummary :=
  mkSpaceMemberSummary (MemberID i) (MemberUserID i) (MemberDisplayName i) (MemberAvatarURL i)
    (toProtoMemberRole (MemberRole i)) (Nickname i) (IsMuted i) (IsBanned i) (u64 (JoinedAt i))
    (unixMilliOrZero (LastSeenAt i)).
Definition toSpaceMemberSummaries (l : list SpaceMember) : list SpaceMemberSummary := toSpaceMemberSummary <$> l.

Definition toChannelSummary (c : Channel) : ChannelSummary :=
  mkChannelSummary (ChannelID c) (SpaceDBID c) (toChannelType (ChanType c)) (ChannelName c)
    (ChannelDescription c) (toVisibility (ChannelVisibility c)) (SlowModeSeconds c)
    (AutoDeleteAfterSeconds c) (MessageSeq c) (ChannelMemberCount c) (CanView (ChanPermission c))
    (CanSendMessage (ChanPermission c)) (CanSendImage (ChanPermission c)) (CanSendFile (ChanPermission c)).
Definition toChannelSummaries (l : list Channel) : list ChannelSummary := toChannelSummary <$> l.

Definition toSendMessageInput (req : SendMessageReq) : SendMessageInput :=
  let base := mkSendMessageInput (SendMessageReq_ChannelId req) (SendMessageReq_ClientMsgId req)
                (toDomainMessageType (SendMessageReq_MessageType req)) in
  match SendMessageReq_Content req with
  | None => base ""%string [] []
  | Some c =>
    base (MessageContent_Text c)
      ((fun i => mkAttachmentInput (MediaImage_MediaId i) (MediaImage_OriginalName i) (MediaImage_MimeType i)
                   (MediaImage_InlineData i)) <$> MessageContent_Images c)
      ((fun f => mkAttachmentInput (MediaFile_MediaId f) (MediaFile_FileName f) (MediaFile_MimeType f)
                   (MediaFile_InlineData f)) <$> MessageContent_Files c)
  end.

Definition blobURL (base storagePath : string) : string :=
  TrimRightSlash base +:+ "/" +:+ TrimLeftSlash storagePath.

Definition to_media_image (base : string) (a : Attachment) : MediaImage :=
  mkMediaImage (AttMediaID a) (AttBlobID a) (AttSHA256 a) (blobURL base (AttStoragePath a)) (AttWidth a)
    (AttHeight a) (AttMIMEType a) (AttSize a) "" (AttOriginalName a).
Definition to_media_file (base : string) (a : Attachment) : MediaFile :=
  let cid := negb (AttFileCID a =@ ""%string) in
  mkMediaFile (AttMediaID a) (AttBlobID a) (if cid then "" else AttSHA256 a) (AttOriginalName a)
    (blobURL base (AttStoragePath a)) (AttMIMEType a) (AttSize a) "" (if cid then AttFileCID a else "").
Definition toMessageEvent (m : Message) (base : string) : MessageEvent :=
  mkMessageEvent (ChannelDBID m) (MessageID m) (Seq m) (SenderUserExtID m) (toProtoMessageType (MsgType m))
    (Some (mkMessageContent (to_media_image base <$> ContentImages (MsgContent m))
             (to_media_file base <$> ContentFiles (MsgContent m)) (ContentText (MsgContent m))))
    (u64 (MsgCreatedAt m)).

(** ** Subscriptions *)
Definition update_session (sid : Sid) (f : ConnSession -> ConnSession) : Mgr -> Mgr := set_sessions (alter f sid).
Definition with_subscribed (f : gset Z -> gset Z) (s : ConnSession) : ConnSession :=
  mkConnSession (authenticated s) (hello s) (issuedChallenge s) (authResult s) (f (subscribed s)).

Definition SubscribeChannel (sid : Sid) (channelID : Z) (g : Mgr) : Mgr :=
  update_session sid (with_subscribed (fun c => {[channelID]} ∪ c))
    (set_subscriptions (sub_add channelID sid) g).
Definition unsubscribe (sid : Sid) (channelID : Z) (g : Mgr) : Mgr :=
  set_subscriptions (sub_del channelID sid)
    (update_session sid (with_subscribed (fun c => c ∖ {[channelID]})) g).

Definition user_of (s : ConnSession) : option User := res_User <$> authResult s.

Definition registerDirectUserSession (sid : Sid) (g : Mgr) : Mgr :=
  match g_sessions g !! sid ≫= user_of with
  | Some u => set_direct (sub_add (UserDBID u) sid) g
  | None => g
  end.

(** [unregisterSession], after which the stream is closed and the session is gone. *)
Definition unregisterSession (sid : Sid) (g : Mgr) : Mgr :=
  match g_sessions g !! sid with
  | None => g
  | Some s =>
    let g := match user_of s with
             | Some u => if decide (is_Some (g_direct g !! UserDBID u))
                         then set_direct (sub_del (UserDBID u) sid) g else g
             | None => g
             end in
    set_sessions (delete sid)
      (set_subscriptions (fun m => set_fold (fun c m => sub_del c sid m) m (subscribed s)) g)
  end.

(** ** Realtime subscribers ([realtime.go]) *)
Definition RegisterRealtimeSubscriber (channelID : Z) (sub : Rid) : Mgr -> Mgr := set_realtime (sub_add channelID sub).
Definition UnregisterRealtimeSubscriber (channelID : Z) (sub : Rid) : Mgr -> Mgr := set_realtime (sub_del channelID sub).
Definition UnregisterRealtimeSubscriberAll (sub : Rid) : Mgr -> Mgr :=
  set_realtime (fun m => foldr (fun c m => sub_del c sub m) m (map_to_list m).*1).
