(* ===== verification/SessionInv.v ===== *)
(** * The session tables: subscriptions, direct sessions and realtime subscribers

    [subscriptions] of the manager and [subscribed] of every session are
    two views of one relation; the operations keep them in step, and keep
    no empty set in a map. *)
From S2P Require Import Prelude Go Schema Store Proto Auth Session.

(** ** Maps of sets *)
Section subs.
Context {K : Type} `{Countable K}.
Implicit Types (m : gmap Z (gset K)) (x : K).

Definition members_of m (k : Z) : gset K := default ∅ (m !! k).
Definition no_empty m : Prop := forall k, m !! k <> Some ∅.

Lemma members_of_add m k x k' y :
  y ∈ members_of (sub_add k x m) k' <-> (k' = k /\ y = x) \/ y ∈ members_of m k'.
Proof.
  unfold members_of, sub_add. destruct (decide (k' = k)) as [->|Hn].
  - rewrite lookup_insert_eq. simpl. set_solver.
  - rewrite lookup_insert_ne by done. naive_solver.
Qed.

Lemma members_of_del m k x k' y :
  y ∈ members_of (sub_del k x m) k' <-> y ∈ members_of m k' /\ ~ (k' = k /\ y = x).
Proof.
  unfold members_of, sub_del. destruct (decide (k' = k)) as [->|Hn].
  - case_decide as E; [rewrite lookup_delete_eq|rewrite lookup_insert_eq]; simpl; set_solver.
  - case_decide as E; [rewrite lookup_delete_ne by done|rewrite lookup_insert_ne by done]; naive_solver.
Qed.

Lemma no_empty_add m k x : no_empty m -> no_empty (sub_add k x m).
Proof.
  intros Hm k'. unfold sub_add. destruct (decide (k' = k)) as [->|?].
  - rewrite lookup_insert_eq. intros E. injection E as E. set_solver.
  - by rewrite lookup_insert_ne.
Qed.
Lemma no_empty_del m k x : no_empty m -> no_empty (sub_del k x m).
Proof.
  intros Hm k'. unfold sub_del. destruct (decide (k' = k)) as [->|?].
  - case_decide; [by rewrite lookup_delete_eq|]. rewrite lookup_insert_eq. congruence.
  - case_decide; [by rewrite lookup_delete_ne|by rewrite lookup_insert_ne].
Qed.

(** Removing one subscriber from several sets, in any order. *)
Lemma members_of_del_list m (ks : list Z) x k y :
  y ∈ members_of (foldr (fun c m => sub_del c x m) m ks) k <-> y ∈ members_of m k /\ ~ (k ∈ ks /\ y = x).
Proof.
  induction ks as [|c ks IH]; simpl; [set_solver|]. rewrite members_of_del, IH. set_solver.
Qed.
Lemma no_empty_del_list m (ks : list Z) x : no_empty m -> no_empty (foldr (fun c m => sub_del c x m) m ks).
Proof. intros Hm. induction ks; simpl; auto using no_empty_del. Qed.
End subs.

(** ** The invariant *)
Definition subscriptions_of (g : Mgr) (sid : Sid) : gset Z := default ∅ (subscribed <$> g_sessions g !! sid).

Record sess_inv (g : Mgr) : Prop := {
  se_views : forall sid cid, sid ∈ members_of (g_subscriptions g) cid <-> cid ∈ subscriptions_of g sid;
  se_subs : no_empty (g_subscriptions g);
  se_direct : no_empty (g_direct g);
  se_realtime : no_empty (g_realtime g) }.

Lemma subscriptions_of_update sid f g sid' :
  (forall s, subscribed (f s) = subscribed s) -> subscriptions_of (update_session sid f g) sid' = subscriptions_of g sid'.
Proof.
  intros Hf. unfold subscriptions_of, update_session. simpl. rewrite lookup_alter.
  case_decide; subst; [|done]. destruct (g_sessions g !! _); simpl; by rewrite ?Hf.
Qed.

Lemma sess_inv_update sid f g :
  (forall s, subscribed (f s) = subscribed s) -> sess_inv g -> sess_inv (update_session sid f g).
Proof.
  intros Hf [H1 H2 H3 H4]. split; simpl; try done. intros sid' cid. by rewrite subscriptions_of_update.
Qed.

Lemma sess_inv_connect sid g :
  g_sessions g !! sid = None -> sess_inv g -> sess_inv (set_sessions <[sid := new_session]> g).
Proof.
  intros Hs [H1 H2 H3 H4]. split; simpl; try done. intros sid' cid. rewrite H1. unfold subscriptions_of. simpl.
  destruct (decide (sid' = sid)) as [->|?]; [by rewrite lookup_insert_eq, Hs|by rewrite lookup_insert_ne].
Qed.

Lemma sess_inv_subscribe sid cid g :
  is_Some (g_sessions g !! sid) -> sess_inv g -> sess_inv (SubscribeChannel sid cid g).
Proof.
  intros [s Hs] [H1 H2 H3 H4]. split; simpl; [|by apply no_empty_add|done..].
  intros sid' cid'. rewrite members_of_add, H1. unfold subscriptions_of. simpl. rewrite lookup_alter.
  case_decide as E; subst; [rewrite Hs; simpl|]; set_solver.
Qed.

Lemma sess_inv_unsubscribe sid cid g : sess_inv g -> sess_inv (unsubscribe sid cid g).
Proof.
  intros [H1 H2 H3 H4]. split; simpl; [|by apply no_empty_del|done..].
  intros sid' cid'. rewrite members_of_del, H1. unfold subscriptions_of. simpl. rewrite lookup_alter.
  case_decide as E; subst; [|naive_solver]. destruct (g_sessions g !! _); simpl; set_solver.
Qed.

Lemma sess_inv_register sid g : sess_inv g -> sess_inv (registerDirectUserSession sid g).
Proof.
  intros [H1 H2 H3 H4]. unfold registerDirectUserSession. case_match; [|by split].
  split; simpl; try done. by apply no_empty_add.
Qed.

(** What [unregisterSession] leaves of the direct sessions. *)
Definition direct_after (sid : Sid) (s : ConnSession) (m : gmap Z (gset Sid)) : gmap Z (gset Sid) :=
  match user_of s with
  | Some u => if decide (is_Some (m !! UserDBID u)) then sub_del (UserDBID u) sid m else m
  | None => m
  end.

Lemma unregisterSession_eq sid s g :
  g_sessions g !! sid = Some s ->
  unregisterSession sid g =
  set_sessions (delete sid) (set_subscriptions
    (fun m => foldr (fun c m => sub_del c sid m) m (elements (subscribed s)))
    (set_direct (direct_after sid s) g)).
Proof.
  intros Hs. unfold unregisterSession, direct_after, set_fold. rewrite Hs.
  unfold set_direct, set_subscriptions, set_sessions. simpl. by destruct (user_of s); [case_decide|].
Qed.

Lemma sess_inv_unregister sid g : sess_inv g -> sess_inv (unregisterSession sid g).
Proof.
  intros [H1 H2 H3 H4]. destruct (g_sessions g !! sid) as [s|] eqn:Hs.
  2: { unfold unregisterSession. rewrite Hs. by split. }
  rewrite (unregisterSession_eq sid s) by done. split; simpl; [|by apply no_empty_del_list| |done].
  - intros sid' cid. rewrite members_of_del_list, H1, elem_of_elements.
    unfold subscriptions_of. simpl. destruct (decide (sid' = sid)) as [->|?].
    + rewrite lookup_delete_eq, Hs. simpl. set_solver.
    + rewrite lookup_delete_ne by done. naive_solver.
  - unfold direct_after. repeat case_match; try case_decide; auto using no_empty_del.
Qed.

Lemma sess_inv_realtime f g :
  (forall m, no_empty m -> no_empty (f m)) -> sess_inv g -> sess_inv (set_realtime f g).
Proof. intros Hf [H1 H2 H3 H4]. split; simpl; auto. Qed.

(** The invariant does not look at the world or at what was written. *)
Lemma sess_inv_keep g g' :
  g_sessions g' = g_sessions g -> g_subscriptions g' = g_subscriptions g -> g_direct g' = g_direct g ->
  g_realtime g' = g_realtime g -> sess_inv g -> sess_inv g'.
Proof.
  intros E1 E2 E3 E4 [H1 H2 H3 H4]. split; rewrite ?E2, ?E3, ?E4; try done.
  intros sid cid. unfold subscriptions_of. rewrite E1. apply H1.
Qed.
