(* ===== verification/Manager.v ===== *)
(** * Session manager operations: the shared helpers of [manager.go] and the
    HTTP-facing operations ([...ForAPI]) of [manager.go] and [manager_v1_rest.go] *)
From S2P Require Import Prelude Go Encoding Schema Config Store SpaceRepo UserRepo ChannelRepo MessageRepo.
From S2P Require Import BlobRepo Proto Codec Auth Media Messaging DirectRepo DirectService Session.
Import sessionv1.

Definition quote : ascii := byte 34.
(** Configuration values may come wrapped in double quotes. *)
Definition trimPeerIDForCompare (s : string) : string :=
  let s := TrimSpace s in
  if (2 <=? strlen s) && (head (to_bytes s) =@ Some quote) && (last (to_bytes s) =@ Some quote)
  then TrimSpace (of_bytes (take (length (to_bytes s) - 2) (drop 1 (to_bytes s))))
  else s.

Section manager.
Context `{Env} `{Libp2p} `{MediaLib} `{Protobuf} (mc : ManagerConf).

(** [NewManager] trims the configured id before storing it. *)
Definition stored_admin : string := trimPeerIDForCompare (globalAdminPeerID mc).
Definition isGlobalAdmin (clientPeerID : string) : bool :=
  let cfgRaw := trimPeerIDForCompare stored_admin in
  if cfgRaw =@ ""%string then false
  else match Decode cfgRaw, Decode (trimPeerIDForCompare clientPeerID) with
       | inr cfgID, inr userID => cfgID =@ userID
       | _, _ => false
       end.

(** ** Writing *)
(** [ConnSession.write] *)
Definition write (sid : Sid) (msgType : Z) (requestID : string) (body : Body) : G unit :=
  nowNs ← lift time_now;
  env ← pure_check id (NewEnvelope nowNs msgType requestID body);
  _ ← pure_check id (WriteEnvelope env);
  broken ← gets (fun g => bool_decide (sid ∈ g_broken g));
  if (broken : bool) then throw ErrDriver
  else modify (set_sent (fun l => l ++ [mkSent sid msgType requestID body])).

(** [ConnSession.writeError]; its own error is dropped by the caller. *)
Definition writeError (sid : Sid) (requestID : string) (code : Z) (message : string) : G unit :=
  write sid MsgType_ERROR requestID (BErrorMsg (mkErrorMsg code message)).

(** Writing to several sessions: a failure is logged and the next one is tried. *)
Fixpoint write_each (msgType : Z) (body : Body) (targets : list Sid) : G unit :=
  match targets with
  | [] => mret tt
  | sid :: targets => _ ← try (write sid msgType "" body); write_each msgType body targets
  end.

Definition DeliverMessage (channelID : Z) (msg : Message) : G unit :=
  let event := toMessageEvent msg (blobURLBase mc) in
  targets ← gets (fun g => elements (default ∅ (g_subscriptions g !! channelID)));
  rt ← gets (fun g => elements (default ∅ (g_realtime g !! channelID)));
  _ ← write_each MsgType_MESSAGE_EVENT (BMessageEvent event) targets;
  modify (set_pushed (fun l => l ++ ((fun r => (r, (channelID, event))) <$> rt))).

Definition deliver_to_user (userID : Z) (msgType : Z) (body : Body) : G unit :=
  targets ← gets (fun g => elements (default ∅ (g_direct g !! userID)));
  write_each msgType body targets.
Definition deliverDirectMessageToUser (userID : Z) (ev : DirectMessageEvent) : G unit :=
  deliver_to_user userID MsgType_DIRECT_MESSAGE_EVENT (BDirectMessageEvent ev).
Definition deliverDirectPeerAckToUser (userID : Z) (ev : DirectPeerAckEvent) : G unit :=
  deliver_to_user userID MsgType_DIRECT_PEER_ACK_EVENT (BDirectPeerAckEvent ev).

(** ** Space summaries *)
Definition is_admin_role (r : Role) : bool := (r =@ RoleOwner) || (r =@ RoleAdmin).

Definition effectiveAllowChannelCreation (item : Space) (userID : Z) (userPeerID : string) : M bool :=
  if AllowChannelCreation item then mret true
  else if negb (isGlobalAdmin userPeerID) then mret false
  else
    role ← try (GetMemberRole (SpaceID item) userID);
    match role with
    | inl e => if e =@ ErrNotFound then mret false else throw e
    | inr r => mret (is_admin_role r)
    end.

Definition spaceSummaryForViewer (item : Space) (userID : Z) (userPeerID : string) : M SpaceSummary :=
  allow ← effectiveAllowChannelCreation item userID userPeerID;
  mret (mkSpaceSummary (SpaceID item) (SpaceName item) (SpaceAvatarURL item) (SpaceDescription item)
    (toVisibility (SpaceVisibility item)) (SpaceMemberCount item) allow).

Fixpoint spaceSummariesForViewer (items : list Space) (userID : Z) (userPeerID : string) : M (list SpaceSummary) :=
  match items with
  | [] => mret []
  | item :: items =>
    sum ← spaceSummaryForViewer item userID userPeerID;
    out ← spaceSummariesForViewer items userID userPeerID;
    mret (sum :: out)
  end.

(** ** Directory service ([internal/service/directory.go]) *)
Definition ListSpaces (userID : Z) : M (list Space) := ListByUserID userID.
Definition ListChannels (userID spaceID : Z) : M (list Channel) := ListBySpaceIDForUser spaceID userID.

(** ** Operations for the HTTP API *)
Definition ListSpacesForAPI (userID : Z) (userPeerID : string) : M (list SpaceSummary) :=
  servers ← ListSpaces userID;
  spaceSummariesForViewer servers userID userPeerID.

Definition ListChannelsForAPI (userID spaceID : Z) : M (list ChannelSummary) :=
  channels ← ListChannels userID spaceID;
  mret (toChannelSummaries channels).

Definition SendMessageForAPI (ctx : Ctx) (userID : Z) (req : SendMessageReq) : G Message :=
  msg ← lift (SendMessage (mc_cfg mc) ctx userID (toSendMessageInput req));
  _ ← DeliverMessage (ChannelDBID msg) msg;
  mret msg.

Definition SyncChannelForAPI (userID channelID afterSeq limit : Z) : M (list MessageEvent * Z * bool) :=
  '(items, nextAfterSeq, hasMore) ← SyncChannel (mc_cfg mc) userID channelID afterSeq limit;
  mret ((fun item => toMessageEvent item (blobURLBase mc)) <$> items, nextAfterSeq, hasMore).

Definition JoinSpaceForAPI (ctx : Ctx) (userID : Z) (userPeerID : string) (spaceID : Z) : M SpaceSummary :=
  item ← JoinSpace ctx spaceID userID;
  spaceSummaryForViewer item userID userPeerID.

Definition ListSpaceMembersForAPI (userID spaceID afterMemberID limit : Z) : M ListSpaceMembersResp :=
  actorRole ← GetMemberRole spaceID userID;
  _ ← when (negb (actorRole =@ RoleOwner) && negb (actorRole =@ RoleAdmin)) ErrAdminRoleRequired;
  let limit := if limit =? 0 then 20 else limit in
  let limit := if 100 <? limit then 100 else limit in
  items ← ListSpaceMembers spaceID afterMemberID (u32 (limit + 1));
  let hasMore := limit <? u32 (zlen items) in
  let items := if hasMore then take (Z.to_nat limit) items else items in
  mret (mkListSpaceMembersResp spaceID (toSpaceMemberSummaries items)
    (match last items with Some m => MemberID m | None => 0 end) hasMore).

(** The permission loop of GET_MEDIA: a lookup error means "not here". *)
Fixpoint may_view (userID : Z) (channelIDs : list Z) : M bool :=
  match channelIDs with
  | [] => mret false
  | channelID :: channelIDs =>
    perm ← try (GetPermission channelID userID);
    match perm with
    | inl _ => may_view userID channelIDs
    | inr p => if CanView p then mret true else may_view userID channelIDs
    end
  end.

Definition inline_media_file (item : MediaObject) (content : string) : MediaFile :=
  let cid := (MediaKind item =@ KindFile) && negb (MediaFileCID item =@ ""%string) in
  mkMediaFile (MediaID item) (MediaBlobID item) (if cid then "" else MediaSHA256 item)
    (MediaOriginalName item) "" (MediaMIMEType item) (MediaSize item) content
    (if cid then MediaFileCID item else "").

Definition GetMediaForAPI (userID : Z) (mediaID : string) : M GetMediaResp :=
  channelIDs ← ListChannelIDsByMediaID mediaID;
  allowed ← may_view userID channelIDs;
  _ ← when (negb allowed) ErrForbidden;
  '(item, content) ← DownloadMediaByID mediaID;
  mret (mkGetMediaResp true mediaID (Some (inline_media_file item content)) "ok").

Definition CreateSpaceForAPI (ctx : Ctx) (userID : Z) (userPeerID : string) (req : CreateSpaceReq) : M CreateSpaceResp :=
  _ ← when (negb (isGlobalAdmin userPeerID)) ErrCreateSpacePermission;
  item ← CreateSpace ctx (mkCreateSpaceInput (nodeID mc) userID (CreateSpaceReq_Name req)
           (CreateSpaceReq_Description req) (toDomainVisibility (CreateSpaceReq_Visibility req)) true);
  sum ← spaceSummaryForViewer item userID userPeerID;
  mret (mkCreateSpaceResp true (SpaceID item) (Some sum) "created").

Definition GetCreateSpacePermissionsForAPI (userPeerID : string) : M GetCreateSpacePermissionsResp :=
  mret (mkGetCreateSpacePermissionsResp true (isGlobalAdmin userPeerID) "ok").

Definition GetCreateGroupPermissionsForAPI (userID : Z) (userPeerID : string) (spaceID : Z)
  : M GetCreateGroupPermissionsResp :=
  spaceItem ← GetBySpaceID spaceID;
  role ← GetMemberRole spaceID userID;
  canCreateGroup ← CanCreateGroup spaceID userID;
  let canCreateGroup := if isGlobalAdmin userPeerID && is_admin_role role then true else canCreateGroup in
  spaceSum ← spaceSummaryForViewer spaceItem userID userPeerID;
  mret (mkGetCreateGroupPermissionsResp true spaceID (Some spaceSum) (toProtoMemberRole role) canCreateGroup "ok").

Definition AdminSetSpaceMemberRoleForAPI (ctx : Ctx) (userID spaceID : Z) (targetUserExtID : string) (protoRole : Z)
  : M AdminSetSpaceMemberRoleResp :=
  role ← pure_check id (toDomainMemberRole protoRole);
  actorRole ← GetMemberRole spaceID userID;
  _ ← (if role =@ RoleOwner then when (negb (actorRole =@ RoleOwner)) ErrOwnerRoleRequired
       else when (negb (actorRole =@ RoleOwner) && negb (actorRole =@ RoleAdmin)) ErrAdminRoleRequired);
  target ← GetByUserID targetUserExtID;
  _ ← SetSpaceMemberRole ctx spaceID (UserDBID target) role;
  mret (mkAdminSetSpaceMemberRoleResp true spaceID targetUserExtID protoRole "updated").

Definition AdminSetSpaceChannelCreationForAPI (ctx : Ctx) (userID spaceID : Z) (allow : bool)
  : M AdminSetSpaceChannelCreationResp :=
  actorRole ← GetMemberRole spaceID userID;
  _ ← when (negb (actorRole =@ RoleOwner) && negb (actorRole =@ RoleAdmin)) ErrAdminRoleRequired;
  _ ← SetSpaceAllowChannelCreation ctx spaceID allow;
  mret (mkAdminSetSpaceChannelCreationResp true spaceID allow "updated").

Definition AdminSetGroupAutoDeleteForAPI (ctx : Ctx) (userID channelID seconds : Z) : M AdminSetGroupAutoDeleteResp :=
  ch ← GetByChannelID channelID;
  _ ← when (negb (ChanType ch =@ TypeSpace)) ErrAutoDeleteGroupOnly;
  actorRole ← GetMemberRole (SpaceDBID ch) userID;
  _ ← when (negb (actorRole =@ RoleOwner) && negb (actorRole =@ RoleAdmin)) ErrAdminRoleRequired;
  _ ← SetGroupAutoDeleteAfterSeconds ctx channelID seconds;
  _ ← try (CleanupExpired ctx);
  ch ← GetByChannelID channelID;
  mret (mkAdminSetGroupAutoDeleteResp true channelID (AutoDeleteAfterSeconds ch) (Some (toChannelSummary ch)) "updated").

(** Membership commands of an owner or admin. *)
Definition InviteSpaceMemberForAPI (ctx : Ctx) (userID : Z) (userPeerID : string) (spaceID : Z) (target : string)
  : M InviteSpaceMemberResp :=
  actorRole ← GetMemberRole spaceID userID;
  _ ← when (negb (actorRole =@ RoleOwner) && negb (actorRole =@ RoleAdmin)) ErrAdminRoleRequired;
  t ← GetByUserID target;
  item ← InviteSpaceMember ctx spaceID (UserDBID t);
  sum ← spaceSummaryForViewer item userID userPeerID;
  mret (mkInviteSpaceMemberResp true spaceID target (Some sum) "invited").

Definition KickSpaceMemberForAPI (ctx : Ctx) (userID : Z) (userPeerID : string) (spaceID : Z) (target : string)
  : M KickSpaceMemberResp :=
  actorRole ← GetMemberRole spaceID userID;
  _ ← when (negb (actorRole =@ RoleOwner) && negb (actorRole =@ RoleAdmin)) ErrAdminRoleRequired;
  t ← GetByUserID target;
  item ← KickSpaceMember ctx spaceID (UserDBID t);
  sum ← spaceSummaryForViewer item userID userPeerID;
  mret (mkKickSpaceMemberResp true spaceID target (Some sum) "kicked").

Definition BanSpaceMemberForAPI (ctx : Ctx) (userID : Z) (userPeerID : string) (spaceID : Z) (target : string)
  : M BanSpaceMemberResp :=
  actorRole ← GetMemberRole spaceID userID;
  _ ← when (negb (actorRole =@ RoleOwner) && negb (actorRole =@ RoleAdmin)) ErrAdminRoleRequired;
  t ← GetByUserID target;
  item ← BanSpaceMember ctx spaceID (UserDBID t);
  sum ← spaceSummaryForViewer item userID userPeerID;
  mret (mkBanSpaceMemberResp true spaceID target (Some sum) "banned").

Definition UnbanSpaceMemberForAPI (ctx : Ctx) (userID : Z) (userPeerID : string) (spaceID : Z) (target : string)
  : M UnbanSpaceMemberResp :=
  actorRole ← GetMemberRole spaceID userID;
  _ ← when (negb (actorRole =@ RoleOwner) && negb (actorRole =@ RoleAdmin)) ErrAdminRoleRequired;
  t ← GetByUserID target;
  item ← UnbanSpaceMember ctx spaceID (UserDBID t);
  sum ← spaceSummaryForViewer item userID userPeerID;
  mret (mkUnbanSpaceMemberResp true spaceID target (Some sum) "unbanned").

Definition CreateGroupForAPI (ctx : Ctx) (userID : Z) (userPeerID : string) (req : CreateGroupReq) : M CreateGroupResp :=
  item ← CreateChannel ctx (mkCreateChannelInput (CreateGroupReq_SpaceId req) userID TypeSpace
           (CreateGroupReq_Name req) (CreateGroupReq_Description req)
           (toDomainVisibility (CreateGroupReq_Visibility req)) (CreateGroupReq_SlowModeSeconds req)
           (isGlobalAdmin userPeerID));
  mret (mkCreateGroupResp true (CreateGroupReq_SpaceId req) (ChannelID item) (Some (toChannelSummary item)) "created").

Definition CreateChannelForAPI (ctx : Ctx) (userID : Z) (userPeerID : string) (req : CreateChannelReq)
  : M CreateChannelResp :=
  item ← CreateChannel ctx (mkCreateChannelInput (CreateChannelReq_SpaceId req) userID TypeBroadcast
           (CreateChannelReq_Name req) (CreateChannelReq_Description req)
           (toDomainVisibility (CreateChannelReq_Visibility req)) (CreateChannelReq_SlowModeSeconds req)
           (isGlobalAdmin userPeerID));
  mret (mkCreateChannelResp true (CreateChannelReq_SpaceId req) (ChannelID item) (Some (toChannelSummary item)) "created").

Definition AckDeliveredForAPI (userID channelID ackedSeq : Z) : M unit := AckDelivered userID channelID ackedSeq.
Definition UpdateReadForAPI (userID channelID lastReadSeq : Z) : M unit := UpdateRead userID channelID lastReadSeq.
Definition IsChannelMemberForWS (userID channelID : Z) : M bool := IsUserMember channelID userID.
End manager.
