(* ===== verification/Dispatch.v ===== *)
(** * Stream sessions: [dispatch], [Authenticate] and [HandleStream] of [manager.go]

    One definition per case of the [switch] of [dispatch]; all of them run
    under [context.Background()]. *)
From S2P Require Import Prelude Go Encoding Schema Config Store SpaceRepo UserRepo ChannelRepo MessageRepo.
From S2P Require Import BlobRepo Proto Codec Auth Media Messaging DirectRepo DirectService Session Manager.
Import sessionv1.

(** [int64(x)] of a [uint64] *)
Definition i64 (z : Z) : Z := u64 (z + 9223372036854775808) - 9223372036854775808.

Section dispatch.
Context `{Env} `{Libp2p} `{MediaLib} `{Protobuf} (mc : ManagerConf).

Definition unmarshal {A} (x : Err + A) : G A := pure_check id x.
Definition reply (sid : Sid) (env : Envelope) (msgType : Z) (body : Body) : G unit :=
  write sid msgType (Envelope_RequestId env) body.

Definition with_hello (h : Hello) (s : ConnSession) : ConnSession :=
  mkConnSession (authenticated s) (Some h) (issuedChallenge s) (authResult s) (subscribed s).
Definition with_challenge (c : Challenge) (s : ConnSession) : ConnSession :=
  mkConnSession (authenticated s) (hello s) (Some c) (authResult s) (subscribed s).
Definition with_auth (r : Result) (s : ConnSession) : ConnSession :=
  mkConnSession true (hello s) (issuedChallenge s) (Some r) (subscribed s).

(** ** Before authentication *)
Definition on_HELLO (sid : Sid) (env : Envelope) : G unit :=
  h ← unmarshal (UnmarshalHello (Envelope_Body env));
  _ ← modify (update_session sid (with_hello h));
  challenge ← lift (IssueChallenge (mc_cfg mc) (Hello_ClientPeerId h) (nodePeerID mc));
  _ ← modify (update_session sid (with_challenge challenge));
  reply sid env MsgType_AUTH_CHALLENGE (BAuthChallenge (mkAuthChallenge (ch_NodePeerID challenge)
    (ch_Nonce challenge) (u64 (ch_IssuedAt challenge / ns_per_ms)) (u64 (ch_ExpiresAt challenge / ns_per_ms))
    "meshserver-session")).

Definition Authenticate (sid : Sid) (prove : AuthProve) : G Result :=
  issued ← gets (fun g => g_sessions g !! sid ≫= issuedChallenge);
  match issued with
  | None => throw (Errorf "missing challenge")
  | Some _ =>
    result ← lift (VerifyChallenge (mc_cfg mc) (mkVerifyChallengeInput (AuthProve_ClientPeerId prove) (nodePeerID mc)
               (AuthProve_Nonce prove) (i64 (AuthProve_IssuedAtMs prove) * ns_per_ms)
               (i64 (AuthProve_ExpiresAtMs prove) * ns_per_ms) (AuthProve_Signature prove)
               (AuthProve_PublicKey prove)));
    _ ← modify (update_session sid (with_auth result));
    mret result
  end.

Definition on_AUTH_PROVE (sid : Sid) (env : Envelope) : G unit :=
  prove ← unmarshal (UnmarshalAuthProve (Envelope_Body env));
  result ← Authenticate sid prove;
  let user := res_User result in
  servers ← lift (ListSpaces (UserDBID user));
  spaces ← lift (spaceSummariesForViewer mc servers (UserDBID user) (PeerID user));
  _ ← modify (registerDirectUserSession sid);
  reply sid env MsgType_AUTH_RESULT (BAuthResult (mkAuthResult true (res_SessionID result) (UserID user)
    (DisplayName user) (res_Message result) spaces)).

Definition on_PING (sid : Sid) (env : Envelope) : G unit :=
  ping ← unmarshal (UnmarshalPing (Envelope_Body env));
  reply sid env MsgType_PONG (BPong (mkPong (Ping_Nonce ping))).

(** ** Directory *)
Definition on_LIST_SPACES_REQ (sid : Sid) (env : Envelope) (user : User) : G unit :=
  servers ← lift (ListSpaces (UserDBID user));
  spaces ← lift (spaceSummariesForViewer mc servers (UserDBID user) (PeerID user));
  reply sid env MsgType_LIST_SPACES_RESP (BListSpacesResp (mkListSpacesResp spaces)).

Definition on_LIST_CHANNELS_REQ (sid : Sid) (env : Envelope) (user : User) : G unit :=
  req ← unmarshal (UnmarshalListChannelsReq (Envelope_Body env));
  channels ← lift (ListChannels (UserDBID user) (ListChannelsReq_SpaceId req));
  reply sid env MsgType_LIST_CHANNELS_RESP
    (BListChannelsResp (mkListChannelsResp (ListChannelsReq_SpaceId req) (toChannelSummaries channels))).

Definition admin_required : Err := Errorf "admin role required".

Definition on_LIST_SPACE_MEMBERS_REQ (sid : Sid) (env : Envelope) (user : User) : G unit :=
  req ← unmarshal (UnmarshalListSpaceMembersReq (Envelope_Body env));
  actorRole ← lift (GetMemberRole (ListSpaceMembersReq_SpaceId req) (UserDBID user));
  _ ← when (negb (actorRole =@ RoleOwner) && negb (actorRole =@ RoleAdmin)) admin_required;
  let limit := if ListSpaceMembersReq_Limit req =? 0 then 20 else ListSpaceMembersReq_Limit req in
  let limit := if 100 <? limit then 100 else limit in
  items ← lift (ListSpaceMembers (ListSpaceMembersReq_SpaceId req) (ListSpaceMembersReq_AfterMemberId req)
                  (u32 (limit + 1)));
  let hasMore := limit <? u32 (zlen items) in
  let items := if hasMore then take (Z.to_nat limit) items else items in
  reply sid env MsgType_LIST_SPACE_MEMBERS_RESP (BListSpaceMembersResp
    (mkListSpaceMembersResp (ListSpaceMembersReq_SpaceId req) (toSpaceMemberSummaries items)
       (match last items with Some m => MemberID m | None => 0 end) hasMore)).

(** ** Spaces *)
Definition on_CREATE_SPACE_REQ (sid : Sid) (env : Envelope) (user : User) : G unit :=
  req ← unmarshal (UnmarshalCreateSpaceReq (Envelope_Body env));
  _ ← when (negb (isGlobalAdmin mc (PeerID user))) (Errorf "create space permission required");
  item ← lift (CreateSpace Background (mkCreateSpaceInput (nodeID mc) (UserDBID user) (CreateSpaceReq_Name req)
           (CreateSpaceReq_Description req) (toDomainVisibility (CreateSpaceReq_Visibility req)) true));
  sum ← lift (spaceSummaryForViewer mc item (UserDBID user) (PeerID user));
  reply sid env MsgType_CREATE_SPACE_RESP
    (BCreateSpaceResp (mkCreateSpaceResp true (SpaceID item) (Some sum) "created")).

Definition on_GET_CREATE_SPACE_PERMISSIONS_REQ (sid : Sid) (env : Envelope) (user : User) : G unit :=
  _ ← unmarshal (UnmarshalGetCreateSpacePermissionsReq (Envelope_Body env));
  reply sid env MsgType_GET_CREATE_SPACE_PERMISSIONS_RESP (BGetCreateSpacePermissionsResp
    (mkGetCreateSpacePermissionsResp true (isGlobalAdmin mc (PeerID user)) "ok")).

Definition on_GET_CREATE_GROUP_PERMISSIONS_REQ (sid : Sid) (env : Envelope) (user : User) : G unit :=
  req ← unmarshal (UnmarshalGetCreateGroupPermissionsReq (Envelope_Body env));
  let spaceID := GetCreateGroupPermissionsReq_SpaceId req in
  spaceItem ← lift (GetBySpaceID spaceID);
  role ← lift (GetMemberRole spaceID (UserDBID user));
  canCreateGroup ← lift (CanCreateGroup spaceID (UserDBID user));
  let canCreateGroup := if isGlobalAdmin mc (PeerID user) && ((role =@ RoleOwner) || (role =@ RoleAdmin))
                        then true else canCreateGroup in
  spaceSum ← lift (spaceSummaryForViewer mc spaceItem (UserDBID user) (PeerID user));
  reply sid env MsgType_GET_CREATE_GROUP_PERMISSIONS_RESP (BGetCreateGroupPermissionsResp
    (mkGetCreateGroupPermissionsResp true spaceID (Some spaceSum) (toProtoMemberRole role) canCreateGroup "ok")).

Definition on_JOIN_SPACE_REQ (sid : Sid) (env : Envelope) (user : User) : G unit :=
  req ← unmarshal (UnmarshalJoinSpaceReq (Envelope_Body env));
  item ← lift (JoinSpace Background (JoinSpaceReq_SpaceId req) (UserDBID user));
  sum ← lift (spaceSummaryForViewer mc item (UserDBID user) (PeerID user));
  reply sid env MsgType_JOIN_SPACE_RESP
    (BJoinSpaceResp (mkJoinSpaceResp true (JoinSpaceReq_SpaceId req) (Some sum) "joined")).

Definition on_ADMIN_SET_SPACE_MEMBER_ROLE_REQ (sid : Sid) (env : Envelope) (user : User) : G unit :=
  req ← unmarshal (UnmarshalAdminSetSpaceMemberRoleReq (Envelope_Body env));
  let spaceID := AdminSetSpaceMemberRoleReq_SpaceId req in
  role ← unmarshal (toDomainMemberRole (AdminSetSpaceMemberRoleReq_Role req));
  actorRole ← lift (GetMemberRole spaceID (UserDBID user));
  _ ← (if role =@ RoleOwner then when (negb (actorRole =@ RoleOwner)) (Errorf "owner role required")
       else when (negb (actorRole =@ RoleOwner) && negb (actorRole =@ RoleAdmin)) admin_required);
  target ← lift (GetByUserID (AdminSetSpaceMemberRoleReq_TargetUserId req));
  _ ← lift (SetSpaceMemberRole Background spaceID (UserDBID target) role);
  reply sid env MsgType_ADMIN_SET_SPACE_MEMBER_ROLE_RESP (BAdminSetSpaceMemberRoleResp
    (mkAdminSetSpaceMemberRoleResp true spaceID (AdminSetSpaceMemberRoleReq_TargetUserId req)
       (AdminSetSpaceMemberRoleReq_Role req) "updated")).

Definition on_ADMIN_SET_SPACE_CHANNEL_CREATION_REQ (sid : Sid) (env : Envelope) (user : User) : G unit :=
  req ← unmarshal (UnmarshalAdminSetSpaceChannelCreationReq (Envelope_Body env));
  let spaceID := AdminSetSpaceChannelCreationReq_SpaceId req in
  let allow := AdminSetSpaceChannelCreationReq_AllowChannelCreation req in
  actorRole ← lift (GetMemberRole spaceID (UserDBID user));
  _ ← when (negb (actorRole =@ RoleOwner) && negb (actorRole =@ RoleAdmin)) admin_required;
  _ ← lift (SetSpaceAllowChannelCreation Background spaceID allow);
  reply sid env MsgType_ADMIN_SET_SPACE_CHANNEL_CREATION_RESP
    (BAdminSetSpaceChannelCreationResp (mkAdminSetSpaceChannelCreationResp true spaceID allow "updated")).

Definition on_INVITE_SPACE_MEMBER_REQ (sid : Sid) (env : Envelope) (user : User) : G unit :=
  req ← unmarshal (UnmarshalInviteSpaceMemberReq (Envelope_Body env));
  let spaceID := InviteSpaceMemberReq_SpaceId req in
  actorRole ← lift (GetMemberRole spaceID (UserDBID user));
  _ ← when (negb (actorRole =@ RoleOwner) && negb (actorRole =@ RoleAdmin)) admin_required;
  target ← lift (GetByUserID (InviteSpaceMemberReq_TargetUserId req));
  item ← lift (InviteSpaceMember Background spaceID (UserDBID target));
  sum ← lift (spaceSummaryForViewer mc item (UserDBID user) (PeerID user));
  reply sid env MsgType_INVITE_SPACE_MEMBER_RESP (BInviteSpaceMemberResp
    (mkInviteSpaceMemberResp true spaceID (InviteSpaceMemberReq_TargetUserId req) (Some sum) "invited")).

Definition on_KICK_SPACE_MEMBER_REQ (sid : Sid) (env : Envelope) (user : User) : G unit :=
  req ← unmarshal (UnmarshalKickSpaceMemberReq (Envelope_Body env));
  let spaceID := KickSpaceMemberReq_SpaceId req in
  actorRole ← lift (GetMemberRole spaceID (UserDBID user));
  _ ← when (negb (actorRole =@ RoleOwner) && negb (actorRole =@ RoleAdmin)) admin_required;
  target ← lift (GetByUserID (KickSpaceMemberReq_TargetUserId req));
  item ← lift (KickSpaceMember Background spaceID (UserDBID target));
  sum ← lift (spaceSummaryForViewer mc item (UserDBID user) (PeerID user));
  reply sid env MsgType_KICK_SPACE_MEMBER_RESP (BKickSpaceMemberResp
    (mkKickSpaceMemberResp true spaceID (KickSpaceMemberReq_TargetUserId req) (Some sum) "kicked")).

Definition on_BAN_SPACE_MEMBER_REQ (sid : Sid) (env : Envelope) (user : User) : G unit :=
  req ← unmarshal (UnmarshalBanSpaceMemberReq (Envelope_Body env));
  let spaceID := BanSpaceMemberReq_SpaceId req in
  actorRole ← lift (GetMemberRole spaceID (UserDBID user));
  _ ← when (negb (actorRole =@ RoleOwner) && negb (actorRole =@ RoleAdmin)) admin_required;
  target ← lift (GetByUserID (BanSpaceMemberReq_TargetUserId req));
  item ← lift (BanSpaceMember Background spaceID (UserDBID target));
  sum ← lift (spaceSummaryForViewer mc item (UserDBID user) (PeerID user));
  reply sid env MsgType_BAN_SPACE_MEMBER_RESP (BBanSpaceMemberResp
    (mkBanSpaceMemberResp true spaceID (BanSpaceMemberReq_TargetUserId req) (Some sum) "banned")).

Definition on_UNBAN_SPACE_MEMBER_REQ (sid : Sid) (env : Envelope) (user : User) : G unit :=
  req ← unmarshal (UnmarshalUnbanSpaceMemberReq (Envelope_Body env));
  let spaceID := UnbanSpaceMemberReq_SpaceId req in
  actorRole ← lift (GetMemberRole spaceID (UserDBID user));
  _ ← when (negb (actorRole =@ RoleOwner) && negb (actorRole =@ RoleAdmin)) admin_required;
  target ← lift (GetByUserID (UnbanSpaceMemberReq_TargetUserId req));
  item ← lift (UnbanSpaceMember Background spaceID (UserDBID target));
  sum ← lift (spaceSummaryForViewer mc item (UserDBID user) (PeerID user));
  reply sid env MsgType_UNBAN_SPACE_MEMBER_RESP (BUnbanSpaceMemberResp
    (mkUnbanSpaceMemberResp true spaceID (UnbanSpaceMemberReq_TargetUserId req) (Some sum) "unbanned")).

(** ** Channels *)
Definition on_SUBSCRIBE_CHANNEL_REQ (sid : Sid) (env : Envelope) (user : User) : G unit :=
  req ← unmarshal (UnmarshalSubscribeChannelReq (Envelope_Body env));
  let channelID := SubscribeChannelReq_ChannelId req in
  member ← lift (IsUserMember channelID (UserDBID user));
  _ ← when (negb member) (Errorf "not a channel member");
  ch ← lift (GetByChannelID channelID);
  _ ← modify (SubscribeChannel sid channelID);
  reply sid env MsgType_SUBSCRIBE_CHANNEL_RESP
    (BSubscribeChannelResp (mkSubscribeChannelResp true channelID (MessageSeq ch) "subscribed")).

Definition on_UNSUBSCRIBE_CHANNEL_REQ (sid : Sid) (env : Envelope) (user : User) : G unit :=
  req ← unmarshal (UnmarshalUnsubscribeChannelReq (Envelope_Body env));
  let channelID := UnsubscribeChannelReq_ChannelId req in
  _ ← modify (unsubscribe sid channelID);
  reply sid env MsgType_UNSUBSCRIBE_CHANNEL_RESP
    (BUnsubscribeChannelResp (mkUnsubscribeChannelResp true channelID)).

Definition on_ADMIN_SET_GROUP_AUTO_DELETE_REQ (sid : Sid) (env : Envelope) (user : User) : G unit :=
  req ← unmarshal (UnmarshalAdminSetGroupAutoDeleteReq (Envelope_Body env));
  let channelID := AdminSetGroupAutoDeleteReq_ChannelId req in
  ch ← lift (GetByChannelID channelID);
  _ ← when (negb (ChanType ch =@ TypeSpace)) (Errorf "auto delete is only supported for group channels");
  actorRole ← lift (GetMemberRole (SpaceDBID ch) (UserDBID user));
  _ ← when (negb (actorRole =@ RoleOwner) && negb (actorRole =@ RoleAdmin)) admin_required;
  _ ← lift (SetGroupAutoDeleteAfterSeconds Background channelID (AdminSetGroupAutoDeleteReq_AutoDeleteAfterSeconds req));
  _ ← lift (try (CleanupExpired Background));
  ch ← lift (GetByChannelID channelID);
  reply sid env MsgType_ADMIN_SET_GROUP_AUTO_DELETE_RESP (BAdminSetGroupAutoDeleteResp
    (mkAdminSetGroupAutoDeleteResp true channelID (AutoDeleteAfterSeconds ch) (Some (toChannelSummary ch)) "updated")).

Definition on_CREATE_GROUP_REQ (sid : Sid) (env : Envelope) (user : User) : G unit :=
  req ← unmarshal (UnmarshalCreateGroupReq (Envelope_Body env));
  item ← lift (CreateChannel Background (mkCreateChannelInput (CreateGroupReq_SpaceId req) (UserDBID user) TypeSpace
           (CreateGroupReq_Name req) (CreateGroupReq_Description req)
           (toDomainVisibility (CreateGroupReq_Visibility req)) (CreateGroupReq_SlowModeSeconds req)
           (isGlobalAdmin mc (PeerID user))));
  reply sid env MsgType_CREATE_GROUP_RESP (BCreateGroupResp
    (mkCreateGroupResp true (CreateGroupReq_SpaceId req) (ChannelID item) (Some (toChannelSummary item)) "created")).

Definition on_CREATE_CHANNEL_REQ (sid : Sid) (env : Envelope) (user : User) : G unit :=
  req ← unmarshal (UnmarshalCreateChannelReq (Envelope_Body env));
  item ← lift (CreateChannel Background (mkCreateChannelInput (CreateChannelReq_SpaceId req) (UserDBID user) TypeBroadcast
           (CreateChannelReq_Name req) (CreateChannelReq_Description req)
           (toDomainVisibility (CreateChannelReq_Visibility req)) (CreateChannelReq_SlowModeSeconds req)
           (isGlobalAdmin mc (PeerID user))));
  reply sid env MsgType_CREATE_CHANNEL_RESP (BCreateChannelResp
    (mkCreateChannelResp true (CreateChannelReq_SpaceId req) (ChannelID item) (Some (toChannelSummary item)) "created")).

(** ** Messages *)
Definition on_SEND_MESSAGE_REQ (sid : Sid) (env : Envelope) (user : User) : G unit :=
  req ← unmarshal (UnmarshalSendMessageReq (Envelope_Body env));
  msg ← lift (SendMessage (mc_cfg mc) Background (UserDBID user) (toSendMessageInput req));
  nowMs ← lift now_ms;
  _ ← reply sid env MsgType_SEND_MESSAGE_ACK (BSendMessageAck (mkSendMessageAck true (ChannelDBID msg)
        (ClientMsgID msg) (MessageID msg) (Seq msg) nowMs "stored"));
  DeliverMessage mc (ChannelDBID msg) msg.

Definition on_CHANNEL_DELIVER_ACK (sid : Sid) (env : Envelope) (user : User) : G unit :=
  req ← unmarshal (UnmarshalChannelDeliverAck (Envelope_Body env));
  lift (AckDelivered (UserDBID user) (ChannelDeliverAck_ChannelId req) (ChannelDeliverAck_AckedSeq req)).

Definition on_CHANNEL_READ_UPDATE (sid : Sid) (env : Envelope) (user : User) : G unit :=
  req ← unmarshal (UnmarshalChannelReadUpdate (Envelope_Body env));
  lift (UpdateRead (UserDBID user) (ChannelReadUpdate_ChannelId req) (ChannelReadUpdate_LastReadSeq req)).

Definition on_SYNC_CHANNEL_REQ (sid : Sid) (env : Envelope) (user : User) : G unit :=
  req ← unmarshal (UnmarshalSyncChannelReq (Envelope_Body env));
  '(items, nextAfterSeq, hasMore) ← lift (SyncChannel (mc_cfg mc) (UserDBID user) (SyncChannelReq_ChannelId req)
                                            (SyncChannelReq_AfterSeq req) (SyncChannelReq_Limit req));
  reply sid env MsgType_SYNC_CHANNEL_RESP (BSyncChannelResp (mkSyncChannelResp (SyncChannelReq_ChannelId req)
    ((fun item => toMessageEvent item (blobURLBase mc)) <$> items) nextAfterSeq hasMore)).

Definition on_GET_MEDIA_REQ (sid : Sid) (env : Envelope) (user : User) : G unit :=
  req ← unmarshal (UnmarshalGetMediaReq (Envelope_Body env));
  let mediaID := GetMediaReq_MediaId req in
  channelIDs ← lift (ListChannelIDsByMediaID mediaID);
  allowed ← lift (may_view (UserDBID user) channelIDs);
  _ ← when (negb allowed) (Errorf "forbidden");
  '(item, content) ← lift (DownloadMediaByID mediaID);
  reply sid env MsgType_GET_MEDIA_RESP
    (BGetMediaResp (mkGetMediaResp true mediaID (Some (inline_media_file item content)) "ok")).

(** ** Direct messages *)
Definition direct_available : G unit := when (negb (directMessaging mc)) (Errorf "direct messaging not available").

Definition on_OPEN_DIRECT_CONVERSATION_REQ (sid : Sid) (env : Envelope) (user : User) : G unit :=
  _ ← direct_available;
  req ← unmarshal (UnmarshalOpenDirectConversationReq (Envelope_Body env));
  resp ← lift (OpenConversation Background (UserDBID user) (OpenDirectConversationReq_PeerUserId req));
  reply sid env MsgType_OPEN_DIRECT_CONVERSATION_RESP (BOpenDirectConversationResp resp).

Definition on_LIST_DIRECT_CONVERSATIONS_REQ (sid : Sid) (env : Envelope) (user : User) : G unit :=
  _ ← direct_available;
  _ ← unmarshal (UnmarshalListDirectConversationsReq (Envelope_Body env));
  resp ← lift (ListConversations (UserDBID user));
  reply sid env MsgType_LIST_DIRECT_CONVERSATIONS_RESP (BListDirectConversationsResp resp).

Definition on_SEND_DIRECT_MESSAGE_REQ (sid : Sid) (env : Envelope) (user : User) : G unit :=
  _ ← direct_available;
  req ← unmarshal (UnmarshalSendDirectMessageReq (Envelope_Body env));
  '(ack, ev) ← lift (SendDirectMessage (mc_cfg mc) Background (UserDBID user) req);
  _ ← reply sid env MsgType_SEND_DIRECT_MESSAGE_ACK (BSendDirectMessageAck ack);
  match ev with
  | Some (ev, recvID) => if negb (recvID =? 0) then deliverDirectMessageToUser recvID ev else mret tt
  | None => mret tt
  end.

Definition on_ACK_DIRECT_MESSAGE_REQ (sid : Sid) (env : Envelope) (user : User) : G unit :=
  _ ← direct_available;
  req ← unmarshal (UnmarshalAckDirectMessageReq (Envelope_Body env));
  '(ackResp, peerEv) ← lift (AckDirectMessageService (UserDBID user) req);
  _ ← reply sid env MsgType_ACK_DIRECT_MESSAGE_RESP (BAckDirectMessageResp ackResp);
  match peerEv with
  | Some (ev, senderUID) => if negb (senderUID =? 0) then deliverDirectPeerAckToUser senderUID ev else mret tt
  | None => mret tt
  end.

Definition on_SYNC_DIRECT_MESSAGES_REQ (sid : Sid) (env : Envelope) (user : User) : G unit :=
  _ ← direct_available;
  req ← unmarshal (UnmarshalSyncDirectMessagesReq (Envelope_Body env));
  resp ← lift (SyncDirectMessages (UserDBID user) req);
  reply sid env MsgType_SYNC_DIRECT_MESSAGES_RESP (BSyncDirectMessagesResp resp).

(** ** [dispatch] *)
Definition handler : Type := Sid -> Envelope -> User -> G unit.
Definition authed_handlers : list (Z * handler) := [
  (MsgType_LIST_SPACES_REQ, on_LIST_SPACES_REQ);
  (MsgType_LIST_CHANNELS_REQ, on_LIST_CHANNELS_REQ);
  (MsgType_LIST_SPACE_MEMBERS_REQ, on_LIST_SPACE_MEMBERS_REQ);
  (MsgType_CREATE_SPACE_REQ, on_CREATE_SPACE_REQ);
  (MsgType_GET_CREATE_SPACE_PERMISSIONS_REQ, on_GET_CREATE_SPACE_PERMISSIONS_REQ);
  (MsgType_GET_CREATE_GROUP_PERMISSIONS_REQ, on_GET_CREATE_GROUP_PERMISSIONS_REQ);
  (MsgType_SUBSCRIBE_CHANNEL_REQ, on_SUBSCRIBE_CHANNEL_REQ);
  (MsgType_UNSUBSCRIBE_CHANNEL_REQ, on_UNSUBSCRIBE_CHANNEL_REQ);
  (MsgType_ADMIN_SET_SPACE_MEMBER_ROLE_REQ, on_ADMIN_SET_SPACE_MEMBER_ROLE_REQ);
  (MsgType_ADMIN_SET_SPACE_CHANNEL_CREATION_REQ, on_ADMIN_SET_SPACE_CHANNEL_CREATION_REQ);
  (MsgType_ADMIN_SET_GROUP_AUTO_DELETE_REQ, on_ADMIN_SET_GROUP_AUTO_DELETE_REQ);
  (MsgType_JOIN_SPACE_REQ, on_JOIN_SPACE_REQ);
  (MsgType_INVITE_SPACE_MEMBER_REQ, on_INVITE_SPACE_MEMBER_REQ);
  (MsgType_KICK_SPACE_MEMBER_REQ, on_KICK_SPACE_MEMBER_REQ);
  (MsgType_BAN_SPACE_MEMBER_REQ, on_BAN_SPACE_MEMBER_REQ);
  (MsgType_UNBAN_SPACE_MEMBER_REQ, on_UNBAN_SPACE_MEMBER_REQ);
  (MsgType_CREATE_GROUP_REQ, on_CREATE_GROUP_REQ);
  (MsgType_CREATE_CHANNEL_REQ, on_CREATE_CHANNEL_REQ);
  (MsgType_SEND_MESSAGE_REQ, on_SEND_MESSAGE_REQ);
  (MsgType_CHANNEL_DELIVER_ACK, on_CHANNEL_DELIVER_ACK);
  (MsgType_CHANNEL_READ_UPDATE, on_CHANNEL_READ_UPDATE);
  (MsgType_SYNC_CHANNEL_REQ, on_SYNC_CHANNEL_REQ);
  (MsgType_OPEN_DIRECT_CONVERSATION_REQ, on_OPEN_DIRECT_CONVERSATION_REQ);
  (MsgType_LIST_DIRECT_CONVERSATIONS_REQ, on_LIST_DIRECT_CONVERSATIONS_REQ);
  (MsgType_SEND_DIRECT_MESSAGE_REQ, on_SEND_DIRECT_MESSAGE_REQ);
  (MsgType_ACK_DIRECT_MESSAGE_REQ, on_ACK_DIRECT_MESSAGE_REQ);
  (MsgType_SYNC_DIRECT_MESSAGES_REQ, on_SYNC_DIRECT_MESSAGES_REQ);
  (MsgType_GET_MEDIA_REQ, on_GET_MEDIA_REQ)].

Definition find_handler (t : Z) : option handler :=
  snd <$> List.find (fun kv => kv.1 =? t) authed_handlers.

(** The user of an authenticated session. *)
Definition session_user (sid : Sid) (g : Mgr) : option User :=
  s ← g_sessions g !! sid;
  if authenticated s then user_of s else None.

Definition dispatch (sid : Sid) (env : Envelope) : G unit :=
  let t := Envelope_MsgType env in
  if t =? MsgType_HELLO then on_HELLO sid env
  else if t =? MsgType_AUTH_PROVE then on_AUTH_PROVE sid env
  else if t =? MsgType_PING then on_PING sid env
  else
    u ← gets (session_user sid);
    match u with
    | None => throw (Errorf "authentication required")
    | Some user =>
      match find_handler t with
      | Some h => h sid env user
      | None => throw (Errorf ("unsupported message type " +:+ MsgType_String t))
      end
    end.

(** ** The stream loop *)
Definition handle_envelope (sid : Sid) (env : Envelope) : G unit :=
  r ← try (dispatch sid env);
  match r with
  | inr _ => mret tt
  | inl e => _ ← try (writeError sid (Envelope_RequestId env) 400 (error_text e)); mret tt
  end.

Fixpoint handle_all (sid : Sid) (envs : list Envelope) : G unit :=
  match envs with
  | [] => mret tt
  | env :: envs => _ ← handle_envelope sid env; handle_all sid envs
  end.

(** A stream on which no other session's events interleave. *)
Definition HandleStream (sid : Sid) (stream : bytes) : G unit :=
  _ ← modify (set_sessions <[sid := new_session]>);
  _ ← handle_all sid (read_stream stream).1;
  modify (unregisterSession sid).
End dispatch.
