(* ===== verification/System.v ===== *)
(** * The running system: events, reachable states and their invariant

    The events are what [internal/app/app.go] wires together: libp2p
    streams served by [HandleStream] (connect, one event per envelope,
    disconnect), calls of the HTTP and WebSocket API on the session
    manager, the periodic cleanup, and the environment (time passes,
    database statements start failing, streams break). *)
From S2P Require Import Prelude Go Schema Config Store SpaceRepo SpaceInv UserRepo ChannelRepo ChannelInv.
From S2P Require Import SeqLog MessageRepo MessageInv CursorNonceRepo BlobRepo DirectRepo DirectInv Proto Codec.
From S2P Require Import Auth Bootstrap TableInv Media Messaging DirectService DbInv Session SessionInv Manager.
From S2P Require Import Dispatch.
Import sessionv1.

(** ** Services keep the database invariant *)
Lemma keeps_pure_check {A} R `{!PreOrder R} f (x : Err + A) : keeps R (pure_check f x).
Proof. destruct x; [apply keeps_throw|apply keeps_ret]; done. Qed.
Lemma keeps_file_op {A} R `{!PreOrder R} (fail ok : World -> World * (Err + A)) :
  (forall w, w_db (fail w).1 = w_db w) -> (forall w, w_db (ok w).1 = w_db w) -> keeps R (file_op fail ok).
Proof.
  intros Hf Ho w. unfold wp, file_op. destruct (fault w); [rewrite Hf|rewrite Ho]; simpl; reflexivity.
Qed.
#[export] Hint Resolve keeps_pure_check : keeps.

Section reads.
Context `{Env} `{Libp2p} `{MediaLib} (R : DB -> DB -> Prop) `{!PreOrder R}.

Lemma keeps_Exists p : keeps R (Exists p).
Proof. intros w. unfold wp, Exists. simpl. reflexivity. Qed.
Lemma keeps_Write p c : keeps R (Write p c).
Proof. unfold Write, write_file. solve_keeps; first [by apply keeps_file_op|apply keeps_Exists]. Qed.
Lemma keeps_read_file p : keeps R (read_file p).
Proof. by apply keeps_file_op. Qed.
Lemma keeps_newBlobID : keeps R newBlobID.
Proof. unfold newBlobID, newGeneratedID. solve_keeps. Qed.
Lemma keeps_newMediaID : keeps R newMediaID.
Proof. unfold newMediaID, newGeneratedID. solve_keeps. Qed.
Lemma keeps_newSessionID : keeps R newSessionID.
Proof. unfold newSessionID. solve_keeps. Qed.
Lemma keeps_now_ms : keeps R now_ms.
Proof. unfold now_ms. solve_keeps. Qed.
Lemma keeps_may_view uid cids : keeps R (may_view uid cids).
Proof. induction cids; simpl; unfold GetPermission; solve_keeps; done. Qed.
Lemma keeps_spaceSummary mc item uid peer : keeps R (spaceSummaryForViewer mc item uid peer).
Proof. unfold spaceSummaryForViewer, effectiveAllowChannelCreation, GetMemberRole. solve_keeps. Qed.
Lemma keeps_spaceSummaries mc items uid peer : keeps R (spaceSummariesForViewer mc items uid peer).
Proof. induction items; simpl; solve_keeps; first [done|apply keeps_spaceSummary]. Qed.
End reads.
#[export] Hint Resolve keeps_Exists keeps_Write keeps_read_file keeps_newBlobID keeps_newMediaID keeps_newSessionID
  keeps_now_ms keeps_may_view keeps_spaceSummary keeps_spaceSummaries : keeps.

(** Methods that are one query. *)
#[export] Hint Unfold ListByUserID GetBySpaceID GetMemberRole CanCreateGroup ListSpaceMembers ListBySpaceIDForUser
  GetByChannelID IsUserMember GetPermission GetLastMessageTime ListChannelIDsByMediaID GetBySHA256 GetByMediaID
  GetByPeerID GetByID GetByUserID GetConversationByExternalID ListConversationsForUser GetDirectMessageByClientMsgID
  GetMediaByID ListPendingDirectMessages ListSpaces ListChannels : keeps.
Ltac walk := repeat (autounfold with keeps; solve_keeps).

Section services.
Context `{Env} `{Libp2p} `{MediaLib} `{Protobuf} (cfg : Config) (mc : ManagerConf).
Abbreviation safe := (keeps evolves).

Lemma safe_IssueChallenge c n : safe (IssueChallenge cfg c n).
Proof. unfold IssueChallenge. walk. Qed.
Lemma safe_VerifyChallenge i : safe (VerifyChallenge cfg i).
Proof. unfold VerifyChallenge. walk. Qed.
Lemma safe_SaveUploadedBlob i : safe (SaveUploadedBlob cfg i).
Proof. unfold SaveUploadedBlob, Put. walk. Qed.
Lemma safe_resolve uid k l : safe (resolve cfg uid k l).
Proof. induction l; simpl; walk; first [done|apply safe_SaveUploadedBlob]. Qed.
Lemma safe_SendMessage ctx uid i : safe (SendMessage cfg ctx uid i).
Proof. unfold SendMessage, validateMessage, resolveAttachments. walk; apply safe_resolve. Qed.
Lemma safe_SyncChannel uid cid a l : safe (SyncChannel cfg uid cid a l).
Proof. unfold SyncChannel, ListAfterSeq. walk. Qed.
Lemma safe_AckDelivered uid cid n : safe (AckDelivered uid cid n).
Proof. unfold AckDelivered. walk. Qed.
Lemma safe_UpdateRead uid cid n : safe (UpdateRead uid cid n).
Proof. unfold UpdateRead. walk. Qed.
Lemma safe_CleanupExpired ctx : safe (CleanupExpired ctx).
Proof. unfold CleanupExpired. walk. Qed.
Lemma safe_OpenConversation ctx uid p : safe (OpenConversation ctx uid p).
Proof. unfold OpenConversation. walk. Qed.
Lemma safe_ListConversations uid : safe (ListConversations uid).
Proof. unfold ListConversations. walk. Qed.
Lemma safe_SendDirectMessage ctx uid r : safe (SendDirectMessage cfg ctx uid r).
Proof. unfold SendDirectMessage, resolve_target. walk. Qed.
Lemma safe_AckDirect uid r : safe (AckDirectMessageService uid r).
Proof. unfold AckDirectMessageService. walk. Qed.
Lemma safe_SyncDirect uid r : safe (SyncDirectMessages uid r).
Proof. unfold SyncDirectMessages. walk. Qed.
Lemma safe_Download id : safe (DownloadMediaByID id).
Proof. unfold DownloadMediaByID. walk. Qed.
Lemma safe_Join ctx s u : safe (JoinSpace ctx s u).
Proof. unfold JoinSpace. walk. Qed.
Lemma safe_Invite ctx s u : safe (InviteSpaceMember ctx s u).
Proof. unfold InviteSpaceMember. walk. Qed.
Lemma safe_Bootstrap ctx p s : safe (BootstrapDefaultAdmin ctx p s).
Proof. unfold BootstrapDefaultAdmin, ensureAdminMembership, InviteSpaceMember. walk. Qed.
End services.
#[export] Hint Resolve safe_IssueChallenge safe_VerifyChallenge safe_SaveUploadedBlob safe_SendMessage safe_SyncChannel safe_AckDelivered
  safe_UpdateRead safe_CleanupExpired safe_OpenConversation safe_ListConversations safe_SendDirectMessage
  safe_AckDirect safe_SyncDirect safe_Download safe_Join safe_Invite safe_Bootstrap : keeps.

(** ** Computations of the manager *)
(** The database evolved from [d0], and while a session is being served, the session is there. *)
Definition present (o : option Sid) (g : Mgr) : Prop :=
  match o with Some sid => is_Some (g_sessions g !! sid) | None => True end.
Record serving `{Env} (d0 : DB) (o : option Sid) (g : Mgr) : Prop := {
  sv_db : evolves d0 (w_db (g_world g));
  sv_sess : sess_inv g;
  sv_sid : present o g }.

Definition gkeeps {A} (I : Mgr -> Prop) (m : G A) : Prop := forall g, I g -> wp m g (fun g' _ => I g').

Create HintDb gkeeps.

Section gkeeps.
Context (I : Mgr -> Prop).
Lemma gkeeps_ret {A} (a : A) : gkeeps I (mret a).
Proof. intros g Hg. by apply wp_ret. Qed.
Lemma gkeeps_throw {A} e : gkeeps I (throw e : G A).
Proof. intros g Hg. by apply wp_throw. Qed.
Lemma gkeeps_bind {A B} (m : G A) (k : A -> G B) :
  gkeeps I m -> (forall a, gkeeps I (k a)) -> gkeeps I (m ≫= k).
Proof.
  intros Hm Hk g Hg. apply wp_bind. eapply wp_mono; [by apply Hm|]. simpl. intros g1 [e|a] H1; [done|].
  eapply wp_mono; [by apply Hk|]. done.
Qed.
Lemma gkeeps_try {A} (m : G A) : gkeeps I m -> gkeeps I (try m).
Proof. intros Hm g Hg. apply wp_try. by apply Hm. Qed.
Lemma gkeeps_when b e : gkeeps I (when b e).
Proof. unfold when. destruct b; [apply gkeeps_throw|apply gkeeps_ret]. Qed.
Lemma gkeeps_gets {A} (f : Mgr -> A) : gkeeps I (gets f).
Proof. intros g Hg. done. Qed.
Lemma gkeeps_pure_check {A} f (x : Err + A) : gkeeps I (pure_check f x).
Proof. destruct x; [apply gkeeps_throw|apply gkeeps_ret]. Qed.
Lemma gkeeps_modify f : (forall g, I g -> I (f g)) -> gkeeps I (modify f).
Proof. intros Hf g Hg. by apply Hf. Qed.
End gkeeps.
#[export] Hint Resolve gkeeps_ret gkeeps_throw gkeeps_when gkeeps_gets gkeeps_pure_check : gkeeps.

Ltac solve_gkeeps :=
  repeat match goal with
  | |- gkeeps _ (mbind _ _) => apply gkeeps_bind; [|intros ?]
  | |- gkeeps _ (try _) => apply gkeeps_try
  | |- gkeeps _ (let '(_, _) := ?x in _) => destruct x
  | |- gkeeps _ (if ?b then _ else _) => destruct b
  | |- gkeeps _ (match ?x with _ => _ end) => destruct x eqn:?
  | |- gkeeps _ _ => solve [eauto with gkeeps]
  end.

Section manager_keeps.
Context `{Env} `{Libp2p} `{MediaLib} `{Protobuf} (mc : ManagerConf) (d0 : DB) (o : option Sid).
Abbreviation gsafe := (gkeeps (serving d0 o)).

Lemma gsafe_lift {A} (m : M A) : keeps evolves m -> gsafe (lift m).
Proof.
  intros Hm g [Hd Hs Hx]. specialize (Hm (g_world g)). unfold wp, lift in *.
  destruct (m (g_world g)) as [w r]. simpl in *. split; simpl; [by etrans| |done].
  by eapply (sess_inv_keep g).
Qed.

Lemma gsafe_sent f : gsafe (modify (set_sent f)).
Proof. apply gkeeps_modify. intros g [? ? ?]. split; try done. by eapply (sess_inv_keep g). Qed.
Lemma gsafe_pushed f : gsafe (modify (set_pushed f)).
Proof. apply gkeeps_modify. intros g [? ? ?]. split; try done. by eapply (sess_inv_keep g). Qed.

Lemma gsafe_update sid f : (forall s, subscribed (f s) = subscribed s) -> gkeeps (serving d0 (Some sid)) (modify (update_session sid f)).
Proof.
  intros Hf. apply gkeeps_modify. intros g [? ? Hx]. split; [done|by apply sess_inv_update|].
  simpl. rewrite lookup_alter_eq. by apply fmap_is_Some.
Qed.
Lemma gsafe_subscribe sid cid : gkeeps (serving d0 (Some sid)) (modify (SubscribeChannel sid cid)).
Proof.
  apply gkeeps_modify. intros g [? ? Hx]. split; [done|by apply sess_inv_subscribe|].
  simpl. rewrite lookup_alter_eq. by apply fmap_is_Some.
Qed.
Lemma gsafe_unsubscribe sid cid : gkeeps (serving d0 (Some sid)) (modify (unsubscribe sid cid)).
Proof.
  apply gkeeps_modify. intros g [? ? Hx]. split; [done|by apply sess_inv_unsubscribe|].
  simpl. rewrite lookup_alter_eq. by apply fmap_is_Some.
Qed.
Lemma gsafe_register sid : gkeeps (serving d0 (Some sid)) (modify (registerDirectUserSession sid)).
Proof.
  apply gkeeps_modify. intros g [? ? Hx]. pose proof (sess_inv_register sid g) as Hr.
  unfold registerDirectUserSession in *. case_match; split; auto.
Qed.
End manager_keeps.
#[export] Hint Resolve gsafe_sent gsafe_pushed gsafe_subscribe gsafe_unsubscribe gsafe_register : gkeeps.
#[export] Hint Extern 1 (gkeeps _ (lift _)) => apply gsafe_lift; solve [walk] : gkeeps.
#[export] Hint Extern 1 (gkeeps _ (modify (update_session _ _))) => apply gsafe_update; done : gkeeps.

Create HintDb handlers.
#[export] Hint Unfold on_HELLO on_AUTH_PROVE on_PING on_LIST_SPACES_REQ on_LIST_CHANNELS_REQ
  on_LIST_SPACE_MEMBERS_REQ on_CREATE_SPACE_REQ on_GET_CREATE_SPACE_PERMISSIONS_REQ
  on_GET_CREATE_GROUP_PERMISSIONS_REQ on_JOIN_SPACE_REQ on_ADMIN_SET_SPACE_MEMBER_ROLE_REQ
  on_ADMIN_SET_SPACE_CHANNEL_CREATION_REQ on_INVITE_SPACE_MEMBER_REQ on_KICK_SPACE_MEMBER_REQ
  on_BAN_SPACE_MEMBER_REQ on_UNBAN_SPACE_MEMBER_REQ on_SUBSCRIBE_CHANNEL_REQ on_UNSUBSCRIBE_CHANNEL_REQ
  on_ADMIN_SET_GROUP_AUTO_DELETE_REQ on_CREATE_GROUP_REQ on_CREATE_CHANNEL_REQ on_SEND_MESSAGE_REQ
  on_CHANNEL_DELIVER_ACK on_CHANNEL_READ_UPDATE on_SYNC_CHANNEL_REQ on_GET_MEDIA_REQ
  on_OPEN_DIRECT_CONVERSATION_REQ on_LIST_DIRECT_CONVERSATIONS_REQ on_SEND_DIRECT_MESSAGE_REQ
  on_ACK_DIRECT_MESSAGE_REQ on_SYNC_DIRECT_MESSAGES_REQ Authenticate reply unmarshal
  deliverDirectMessageToUser deliverDirectPeerAckToUser direct_available writeError : handlers.

Section write_keeps.
Context `{Env} `{Libp2p} `{MediaLib} `{Protobuf} (mc : ManagerConf) (d0 : DB) (o : option Sid).
Abbreviation gsafe := (gkeeps (serving d0 o)).

Lemma gsafe_write sid' t r b : gsafe (write sid' t r b).
Proof. unfold write. solve_gkeeps. Qed.
#[local] Hint Resolve gsafe_write : gkeeps.
Lemma gsafe_write_each t b l : gsafe (write_each t b l).
Proof. induction l; simpl; solve_gkeeps; done. Qed.
#[local] Hint Resolve gsafe_write_each : gkeeps.
Lemma gsafe_DeliverMessage cid m : gsafe (DeliverMessage mc cid m).
Proof. unfold DeliverMessage. solve_gkeeps. Qed.
Lemma gsafe_deliver_to_user u t b : gsafe (deliver_to_user u t b).
Proof. unfold deliver_to_user. solve_gkeeps. Qed.
End write_keeps.
#[export] Hint Resolve gsafe_write gsafe_write_each gsafe_DeliverMessage gsafe_deliver_to_user : gkeeps.

Section dispatch_keeps.
Context `{Env} `{Libp2p} `{MediaLib} `{Protobuf} (mc : ManagerConf) (d0 : DB) (sid : Sid).

Lemma gsafe_handler t h env u : find_handler mc t = Some h -> gkeeps (serving d0 (Some sid)) (h sid env u).
Proof.
  unfold find_handler. intros ([t' h']&E&->)%fmap_Some. apply find_some in E as [Hin _].
  unfold authed_handlers in Hin. simpl in Hin.
  repeat (destruct Hin as [Hin|Hin]; [injection Hin as <- <-|]); [..|done]; simpl.
  all: autounfold with handlers; solve_gkeeps.
Qed.

Lemma gsafe_dispatch env : gkeeps (serving d0 (Some sid)) (dispatch mc sid env).
Proof.
  unfold dispatch. autounfold with handlers. solve_gkeeps. by eapply gsafe_handler.
Qed.
#[local] Hint Resolve gsafe_dispatch : gkeeps.

Lemma gsafe_handle_envelope env : gkeeps (serving d0 (Some sid)) (handle_envelope mc sid env).
Proof. unfold handle_envelope. autounfold with handlers. solve_gkeeps. Qed.
End dispatch_keeps.

(** ** Events *)
(** Calls of the HTTP and WebSocket API on the services ([internal/api]). *)
Inductive ApiCall :=
| ApiIssueChallenge (client : string)
| ApiVerifyChallenge (i : VerifyChallengeInput)
| ApiListSpaces (uid : Z) (peer : string)
| ApiListChannels (uid spaceID : Z)
| ApiSendMessage (uid : Z) (req : SendMessageReq)
| ApiSyncChannel (uid cid after limit : Z)
| ApiJoinSpace (uid : Z) (peer : string) (spaceID : Z)
| ApiListSpaceMembers (uid spaceID after limit : Z)
| ApiGetMedia (uid : Z) (mediaID : string)
| ApiCreateSpace (uid : Z) (peer : string) (req : CreateSpaceReq)
| ApiCreateGroupPermissions (uid : Z) (peer : string) (spaceID : Z)
| ApiSetMemberRole (uid spaceID : Z) (target : string) (role : Z)
| ApiSetChannelCreation (uid spaceID : Z) (allow : bool)
| ApiSetAutoDelete (uid cid seconds : Z)
| ApiInvite (uid : Z) (peer : string) (spaceID : Z) (target : string)
| ApiKick (uid : Z) (peer : string) (spaceID : Z) (target : string)
| ApiBan (uid : Z) (peer : string) (spaceID : Z) (target : string)
| ApiUnban (uid : Z) (peer : string) (spaceID : Z) (target : string)
| ApiCreateGroup (uid : Z) (peer : string) (req : CreateGroupReq)
| ApiCreateChannel (uid : Z) (peer : string) (req : CreateChannelReq)
| ApiAckDelivered (uid cid seq : Z)
| ApiUpdateRead (uid cid seq : Z)
| ApiGetUser (uid : Z)
| ApiUploadMedia (i : SaveUploadedBlobInput)
| ApiIsChannelMember (uid cid : Z).

Inductive Event :=
| EvConnect (sid : Sid)
| EvEnvelope (sid : Sid) (env : Envelope)
| EvDisconnect (sid : Sid)
| EvApi (c : ApiCall)
| EvRealtime (add : bool) (cid : Z) (sub : Rid)
| EvRealtimeClosed (sub : Rid)
| EvCleanup
| EvBootstrap (peer : string) (spaceID : Z)
| EvTime (ns : Z)
| EvFaults (l : list bool)
| EvBroken (sid : Sid).

Definition set_broken f g := mkMgr (g_world g) (g_sessions g) (g_subscriptions g) (g_direct g) (g_realtime g) (g_sent g) (g_pushed g) (f (g_broken g)).
Definition set_clock ns w := mkWorld (w_db w) ns (w_draws w) (w_files w) (w_faults w) (w_leaked w).
Definition set_faults l w := mkWorld (w_db w) (w_clock w) (w_draws w) (w_files w) l (w_leaked w).

Section events.
Context `{Env} `{Libp2p} `{MediaLib} `{Protobuf} (mc : ManagerConf).

Definition ignore {A} (m : G A) : G unit := _ ← m; mret tt.

Definition run_api (c : ApiCall) : G unit :=
  let ctx := RequestCtx in
  match c with
  | ApiIssueChallenge client => ignore (lift (IssueChallenge (mc_cfg mc) client (nodePeerID mc)))
  | ApiVerifyChallenge i => ignore (lift (VerifyChallenge (mc_cfg mc) i))
  | ApiListSpaces uid peer => ignore (lift (ListSpacesForAPI mc uid peer))
  | ApiListChannels uid s => ignore (lift (ListChannelsForAPI uid s))
  | ApiSendMessage uid req => ignore (SendMessageForAPI mc ctx uid req)
  | ApiSyncChannel uid cid a l => ignore (lift (SyncChannelForAPI mc uid cid a l))
  | ApiJoinSpace uid peer s => ignore (lift (JoinSpaceForAPI mc ctx uid peer s))
  | ApiListSpaceMembers uid s a l => ignore (lift (ListSpaceMembersForAPI uid s a l))
  | ApiGetMedia uid m => ignore (lift (GetMediaForAPI uid m))
  | ApiCreateSpace uid peer req => ignore (lift (CreateSpaceForAPI mc ctx uid peer req))
  | ApiCreateGroupPermissions uid peer s => ignore (lift (GetCreateGroupPermissionsForAPI mc uid peer s))
  | ApiSetMemberRole uid s t r => ignore (lift (AdminSetSpaceMemberRoleForAPI ctx uid s t r))
  | ApiSetChannelCreation uid s b => ignore (lift (AdminSetSpaceChannelCreationForAPI ctx uid s b))
  | ApiSetAutoDelete uid cid n => ignore (lift (AdminSetGroupAutoDeleteForAPI ctx uid cid n))
  | ApiInvite uid peer s t => ignore (lift (InviteSpaceMemberForAPI mc ctx uid peer s t))
  | ApiKick uid peer s t => ignore (lift (KickSpaceMemberForAPI mc ctx uid peer s t))
  | ApiBan uid peer s t => ignore (lift (BanSpaceMemberForAPI mc ctx uid peer s t))
  | ApiUnban uid peer s t => ignore (lift (UnbanSpaceMemberForAPI mc ctx uid peer s t))
  | ApiCreateGroup uid peer req => ignore (lift (CreateGroupForAPI mc ctx uid peer req))
  | ApiCreateChannel uid peer req => ignore (lift (CreateChannelForAPI mc ctx uid peer req))
  | ApiAckDelivered uid cid n => ignore (lift (AckDeliveredForAPI uid cid n))
  | ApiUpdateRead uid cid n => ignore (lift (UpdateReadForAPI uid cid n))
  | ApiGetUser uid => ignore (lift (GetByID uid))
  | ApiUploadMedia i => ignore (lift (SaveUploadedBlob (mc_cfg mc) i))
  | ApiIsChannelMember uid cid => ignore (lift (IsChannelMemberForWS uid cid))
  end.

(** Streams are opened under fresh names and time does not go back. *)
Definition enabled (e : Event) (g : Mgr) : Prop :=
  match e with
  | EvConnect sid => g_sessions g !! sid = None
  | EvEnvelope sid _ | EvDisconnect sid => is_Some (g_sessions g !! sid)
  | EvTime ns => w_clock (g_world g) <= ns
  | _ => True
  end.
#[export] Instance enabled_dec e g : Decision (enabled e g).
Proof. destruct e; simpl; apply _. Defined.

Definition run_event (e : Event) (g : Mgr) : Mgr :=
  match e with
  | EvConnect sid => set_sessions <[sid := new_session]> g
  | EvEnvelope sid env => (handle_envelope mc sid env g).1
  | EvDisconnect sid => unregisterSession sid g
  | EvApi c => (run_api c g).1
  | EvRealtime true cid sub => RegisterRealtimeSubscriber cid sub g
  | EvRealtime false cid sub => UnregisterRealtimeSubscriber cid sub g
  | EvRealtimeClosed sub => UnregisterRealtimeSubscriberAll sub g
  | EvCleanup => (lift (CleanupExpired Background) g).1
  | EvBootstrap peer s => (lift (BootstrapDefaultAdmin Background peer s) g).1
  | EvTime ns => set_world (set_clock ns (g_world g)) g
  | EvFaults l => set_world (set_faults l (g_world g)) g
  | EvBroken sid => set_broken (union {[sid]}) g
  end.

Inductive sys_step (g : Mgr) : Mgr -> Prop :=
| sys_event e : enabled e g -> sys_step g (run_event e g).

Definition initial (clock : Z) : Mgr := mkMgr (mkWorld empty_db clock 0 ∅ [] []) ∅ ∅ ∅ ∅ [] [] ∅.
Definition reachable (g : Mgr) : Prop := exists clock, rtc sys_step (initial clock) g.
End events.

(** ** Every event keeps the invariant *)
Definition sys_inv `{Env} (g : Mgr) : Prop := db_inv (w_db (g_world g)) /\ sess_inv g.

Create HintDb api.
#[export] Hint Unfold ListSpacesForAPI ListChannelsForAPI SendMessageForAPI SyncChannelForAPI JoinSpaceForAPI
  ListSpaceMembersForAPI GetMediaForAPI CreateSpaceForAPI GetCreateGroupPermissionsForAPI
  AdminSetSpaceMemberRoleForAPI AdminSetSpaceChannelCreationForAPI AdminSetGroupAutoDeleteForAPI
  InviteSpaceMemberForAPI KickSpaceMemberForAPI BanSpaceMemberForAPI UnbanSpaceMemberForAPI CreateGroupForAPI
  CreateChannelForAPI AckDeliveredForAPI UpdateReadForAPI IsChannelMemberForWS : api.

Lemma db_inv_empty `{Env} : db_inv empty_db.
Proof.
  split; [split; [split|..]|split|split; [split|]|split|split|split|split|split]; simpl;
    unfold max_u32, max_u64; try apply table_wf_empty; try (by intros; set_solver); try constructor; try lia.
Qed.

Section events_keep.
Context `{Env} `{Libp2p} `{MediaLib} `{Protobuf} (mc : ManagerConf).

Lemma gsafe_run_api d0 c : gkeeps (serving d0 None) (run_api mc c).
Proof. destruct c; unfold run_api, ignore; autounfold with api; solve_gkeeps. Qed.

(** What an event does: the database evolves and the session tables stay consistent. *)
Definition moves (g g' : Mgr) : Prop := evolves (w_db (g_world g)) (w_db (g_world g')) /\ sess_inv g'.

(** A computation of the manager. *)
Lemma gsafe_run {A} o (m : G A) g :
  gkeeps (serving (w_db (g_world g)) o) m -> sess_inv g -> present o g -> moves g (m g).1.
Proof. intros Hm Hs Hp. destruct (Hm g) as [? ? _]; [by split|]. done. Qed.

Lemma run_event_moves e g : enabled e g -> sess_inv g -> moves g (run_event mc e g).
Proof.
  intros He Hs. destruct e as [sid|sid env|sid|c|[] cid sub|sub| |peer s|ns|l|sid]; simpl in *.
  - split; [done|by apply sess_inv_connect].
  - by apply (gsafe_run (Some sid)); [apply gsafe_handle_envelope|..].
  - split; [|by apply sess_inv_unregister]. unfold unregisterSession. repeat case_match; done.
  - by apply (gsafe_run None); [apply gsafe_run_api|..].
  - split; [done|]. apply sess_inv_realtime; [|done]. intros. by apply no_empty_add.
  - split; [done|]. apply sess_inv_realtime; [|done]. intros. by apply no_empty_del.
  - split; [done|]. apply sess_inv_realtime; [|done]. intros. by apply no_empty_del_list.
  - apply (gsafe_run None); [|done..]. apply gsafe_lift. walk.
  - apply (gsafe_run None); [|done..]. apply gsafe_lift. walk.
  - split; [done|]. by eapply (sess_inv_keep g).
  - split; [done|]. by eapply (sess_inv_keep g).
  - split; [done|]. by eapply (sess_inv_keep g).
Qed.

Lemma run_event_inv e g : enabled e g -> sys_inv g -> sys_inv (run_event mc e g).
Proof.
  intros He [Hd Hs]. destruct (run_event_moves e g He Hs) as [Hm Hs']. split; [by eapply evolves_inv|done].
Qed.

(** A run moves the database by effects. *)
Lemma steps_evolve g g' : rtc (sys_step mc) g g' -> sess_inv g -> moves g g'.
Proof.
  induction 1 as [|g1 g2 g3 [e He] _ IH]; intros Hs; [done|].
  destruct (run_event_moves e g1 He Hs) as [Hm Hs']. destruct (IH Hs') as [Hm' ?]. split; [by etrans|done].
Qed.

Lemma initial_inv clock : sys_inv (initial clock).
Proof.
  split; [apply db_inv_empty|]. split; simpl; try (by intros k; rewrite lookup_empty).
  intros sid cid. unfold members_of, subscriptions_of. simpl. by rewrite !lookup_empty.
Qed.

Lemma reachable_inv g : reachable mc g -> sys_inv g.
Proof.
  intros [clock Hr]. pose proof (initial_inv clock) as Hi. revert Hi.
  induction Hr as [|g1 g2 g3 [e He] _ IH]; [done|]. intros Hi. by apply IH, run_event_inv.
Qed.
End events_keep.
