(* ===== verification/Demo.v ===== *)
(** * A concrete environment and a concrete run

    Small executable instances of the parameters (collation, random bytes,
    libp2p keys, protobuf, media libraries) and a state reached from the
    empty database: three users, one space owned by the first with the
    second as a member, and one group channel.  They show that the
    hypotheses of the theorems can be met. *)
From S2P Require Import Prelude Go Encoding Schema Config Store SpaceRepo DbInv Proto Codec Auth Media Session.
From S2P Require Import Manager Dispatch System.
Import sessionv1.

(** Draws differ from each other; strings compare bytewise. *)
Definition demo_rand (len draw : nat) : string :=
  of_bytes (take len (be32 (Z.of_nat draw) ++ repeat (byte 7) len)).
#[export] Instance demo_env : Env := {
  sort_key := fun s => s;
  rand_read := demo_rand;
  short_write := fun c => (String.length c / 2)%nat;
  Quote := fun s => s }.

(** A key is its own peer id, and a signature is the key followed by the text. *)
Definition demo_sign (key payload : string) : string := key +:+ payload.
#[export] Instance demo_libp2p : Libp2p := {
  PubKey_t := string;
  UnmarshalPublicKey := fun s => if s =@ ""%string then inl (Errorf "empty key") else inr s;
  IDFromPublicKey := fun k => inr k;
  Verify := fun k payload sig => inr (sig =@ demo_sign k payload);
  Decode := fun s => if s =@ ""%string then inl (Errorf "empty id") else inr s }.

#[export] Instance demo_media : MediaLib := {
  DetectContentType := fun _ => "application/octet-stream"%string;
  DecodeConfig := fun _ => None;
  UnixFSFileCID := fun _ p => inr (hex_encode p) }.

Definition demo_clock : Z := 1700000000000 * ns_per_ms.

(** Envelopes: the body length, then the numbers as 32-bit words, the body and the request id. *)
Definition marshal_envelope (e : Envelope) : string :=
  of_bytes (be32 (strlen (Envelope_Body e)) ++ be32 (Envelope_Version e) ++ be32 (Envelope_MsgType e)
    ++ be32 (Envelope_TimestampMs e / 4294967296) ++ be32 (Envelope_TimestampMs e mod 4294967296)
    ++ to_bytes (Envelope_Body e) ++ to_bytes (Envelope_RequestId e)).
Definition word (i : nat) (l : bytes) : Z := be32_decode (take 4 (drop (4 * i) l)).
Definition unmarshal_envelope (s : string) : Err + Envelope :=
  let l := to_bytes s in
  if (length l <? 20)%nat then inl (Errorf "unexpected EOF")
  else let n := Z.to_nat (word 0 l) in
       inr (mkEnvelope (word 1 l) (word 2 l) (of_bytes (drop (20 + n) l)) (word 3 l * 4294967296 + word 4 l)
              (of_bytes (take n (drop 20 l)))).

(** Request bodies: a byte for the number, the rest for the text. *)
Definition num (s : string) : Z := match to_bytes s with a :: _ => Z_of_byte a | [] => 0 end.
Definition rest (s : string) : string := of_bytes (drop 1 (to_bytes s)).
Definition body (n : nat) (s : string) : string := of_bytes (byte n :: to_bytes s).
Definition not_decoded : Err := Errorf "not decoded".
Definition demo_text (cid : Z) (clientMsgID text : string) : SendMessageReq :=
  mkSendMessageReq cid clientMsgID MessageType_TEXT (Some (mkMessageContent [] [] text)).

(** The proof of a client for the challenge with the given random draw, issued at [demo_clock]. *)
Definition demo_prove (s : string) : Err + AuthProve :=
  let nonce := demo_rand 32 (Z.to_nat (num s)) in
  let issued := truncate_ms demo_clock in
  let expires := issued + 300000 in
  inr (mkAuthProve (rest s) nonce issued expires
    (demo_sign (rest s) (BuildChallengePayload (Libp2pProtocolID defaults) (rest s) "node" nonce
       (issued * ns_per_ms) (expires * ns_per_ms))) (rest s)).

#[export] Instance demo_protobuf : Protobuf := {
  Marshal := fun _ => inr "body"%string;
  MarshalEnvelope := fun env => inr (marshal_envelope env);
  UnmarshalEnvelope := unmarshal_envelope;
  UnmarshalHello := fun s => inr (mkHello s "" "");
  UnmarshalAuthProve := demo_prove;
  UnmarshalPing := fun s => inr (mkPing (num s));
  UnmarshalListChannelsReq := fun _ => inl not_decoded;
  UnmarshalListSpaceMembersReq := fun _ => inl not_decoded;
  UnmarshalCreateSpaceReq := fun _ => inl not_decoded;
  UnmarshalGetCreateSpacePermissionsReq := fun _ => inl not_decoded;
  UnmarshalGetCreateGroupPermissionsReq := fun _ => inl not_decoded;
  UnmarshalSubscribeChannelReq := fun s => inr (mkSubscribeChannelReq (num s) 0);
  UnmarshalUnsubscribeChannelReq := fun s => inr (mkUnsubscribeChannelReq (num s));
  UnmarshalAdminSetSpaceMemberRoleReq := fun _ => inl not_decoded;
  UnmarshalAdminSetSpaceChannelCreationReq := fun _ => inl not_decoded;
  UnmarshalAdminSetGroupAutoDeleteReq := fun _ => inl not_decoded;
  UnmarshalJoinSpaceReq := fun s => inr (mkJoinSpaceReq (num s));
  UnmarshalInviteSpaceMemberReq := fun _ => inl not_decoded;
  UnmarshalKickSpaceMemberReq := fun s => inr (mkKickSpaceMemberReq (num s) (rest s));
  UnmarshalBanSpaceMemberReq := fun _ => inl not_decoded;
  UnmarshalUnbanSpaceMemberReq := fun _ => inl not_decoded;
  UnmarshalCreateGroupReq := fun _ => inl not_decoded;
  UnmarshalCreateChannelReq := fun _ => inl not_decoded;
  UnmarshalSendMessageReq := fun s => inr (demo_text 1 s s);
  UnmarshalChannelDeliverAck := fun _ => inl not_decoded;
  UnmarshalChannelReadUpdate := fun _ => inl not_decoded;
  UnmarshalSyncChannelReq := fun s => inr (mkSyncChannelReq (num s) 0 0);
  UnmarshalOpenDirectConversationReq := fun _ => inl not_decoded;
  UnmarshalListDirectConversationsReq := fun _ => inl not_decoded;
  UnmarshalSendDirectMessageReq := fun s => inr (mkSendDirectMessageReq "" s "direct-1" MessageType_TEXT "hello");
  UnmarshalAckDirectMessageReq := fun _ => inl not_decoded;
  UnmarshalSyncDirectMessagesReq := fun _ => inl not_decoded;
  UnmarshalGetMediaReq := fun _ => inl not_decoded }.

Definition demo_mc : ManagerConf := mkManagerConf defaults "node" 1 "/blobs/" "alice" true.

(** ** Running events *)
Fixpoint run_events (es : list Event) (g : Mgr) : option Mgr :=
  match es with
  | [] => Some g
  | e :: es => if decide (enabled e g) then run_events es (run_event demo_mc e g) else None
  end.

Lemma run_events_rtc es g g' : run_events es g = Some g' -> rtc (sys_step demo_mc) g g'.
Proof.
  revert g. induction es as [|e es IH]; intros g E; simpl in E; [by simplify_eq|].
  case_decide as He; [|done]. eapply rtc_l; [by apply sys_event|]. by apply IH.
Qed.
Lemma run_events_reachable es g clock : run_events es (initial clock) = Some g -> reachable demo_mc g.
Proof. intros E. exists clock. by eapply run_events_rtc. Qed.

Definition demo_setup : list Event := [
  EvBootstrap "alice" 1; EvBootstrap "bob" 1; EvBootstrap "carol" 1;
  EvApi (ApiCreateSpace 1 "alice" (mkCreateSpaceReq "garden" "" Visibility_PUBLIC true));
  EvApi (ApiCreateGroup 1 "alice" (mkCreateGroupReq 1 "general" "" Visibility_PUBLIC 0));
  EvApi (ApiJoinSpace 2 "bob" 1)].
(** The state the events lead to. *)
Definition after (es : list Event) : Mgr := default (initial demo_clock) (run_events es (initial demo_clock)).

Lemma after_reachable es : is_Some (run_events es (initial demo_clock)) -> reachable demo_mc (after es).
Proof. intros [g E]. eapply run_events_reachable. unfold after. by rewrite E. Qed.

Definition demo : Mgr := Eval vm_compute in after demo_setup.
Lemma demo_reachable : reachable demo_mc demo.
Proof.
  change demo with (default (initial demo_clock) (Some demo)).
  assert (run_events demo_setup (initial demo_clock) = Some demo) as E by (vm_compute; reflexivity).
  by eapply run_events_reachable.
Qed.
Lemma demo_inv : db_inv (w_db (g_world demo)).
Proof. exact (proj1 (reachable_inv demo_mc demo demo_reachable)). Qed.

(** ** A busier state: two messages, an authenticated and subscribed session, a direct message *)
Definition env_of (t : Z) (body : string) : Envelope := mkEnvelope 1 t "req" 0 body.
Definition bob_id : string := "u_00000001070707070707".
Definition busy_events : list Event := demo_setup ++ [
  EvApi (ApiSendMessage 1 (demo_text 1 "client-0001" "first"));
  EvApi (ApiSendMessage 1 (demo_text 1 "client-0002" "second"));
  EvConnect 1;
  EvEnvelope 1 (env_of MsgType_HELLO "alice");
  EvEnvelope 1 (env_of MsgType_AUTH_PROVE (body 5 "alice"));
  EvEnvelope 1 (env_of MsgType_SUBSCRIBE_CHANNEL_REQ (body 1 ""));
  EvEnvelope 1 (env_of MsgType_SEND_DIRECT_MESSAGE_REQ bob_id)].
Definition busy : Mgr := Eval vm_compute in after busy_events.
Lemma busy_reachable : reachable demo_mc busy.
Proof.
  assert (run_events busy_events (initial demo_clock) = Some busy) as E by (vm_compute; reflexivity).
  by eapply run_events_reachable.
Qed.

Definition demo_space : ServerRow :=
  Eval vm_compute in hd (mkServerRow 0 0 0 "" None None VisibilityPublic false 0 0 0 0 0) (rows (servers (w_db (g_world busy)))).
Definition demo_channel : ChannelRow :=
  Eval vm_compute in hd (mkChannelRow 0 0 TypeSpace "" None VisibilityPublic 0 0 0 0 0 0 0 0 0 0 0) (rows (channels (w_db (g_world busy)))).
Definition demo_conv : ConvRow :=
  Eval vm_compute in hd (mkConvRow 0 "" 0 0 0 0 0 0) (rows (conversations (w_db (g_world busy)))).
