(* ===== verification/Safety.v ===== *)
(** * What holds in every reachable state

    The system invariant of System.v, spelled out per component: these are
    the statements a user of the server relies on, whatever requests were
    made, in whatever order, and whatever statements failed on the way. *)
From S2P Require Import Prelude Go Encoding Schema Config Store SpaceRepo SpaceInv UserRepo ChannelRepo.
From S2P Require Import ChannelInv SeqLog MessageRepo MessageInv CursorNonceRepo BlobRepo DirectRepo DirectInv.
From S2P Require Import Proto Codec Auth TableInv Media DbInv Session SessionInv Manager Dispatch System Demo.
Import sessionv1.

Section safety.
Context `{Env} `{Libp2p} `{MediaLib} `{Protobuf} (mc : ManagerConf).

Lemma reachable_db g : reachable mc g -> db_inv (w_db (g_world g)).
Proof. intros Hr. apply (reachable_inv mc g Hr). Qed.

(** C1: No event breaks the invariants.  Connecting, any envelope of any
    session, any call of the HTTP API, the periodic cleanup, the admin
    bootstrap, disconnecting, and database statements failing at any point
    all lead from a state with consistent tables (owners, counters, logs,
    unique keys) and consistent subscription tables to another one. *)
Theorem events_keep_invariant e g : enabled e g -> sys_inv g -> sys_inv (run_event mc e g).
Proof. apply run_event_inv. Qed.

(** Every space always has exactly one member with the role owner: the
    user recorded as its owner; and its stored member and channel counts
    are the numbers of members that are not banned and of active channels. *)
Theorem space_single_owner g s :
  reachable mc g -> s ∈ rows (servers (w_db (g_world g))) ->
  let d := w_db (g_world g) in
  (exists m, where_ (fun m => (sm_space_id m =? s_id s) && (sm_role m =@ RoleOwner)) (rows (server_members d)) = [m]
     /\ sm_user_id m = s_owner_user_id s) /\
  s_member_count s = count_where (fun m => (sm_space_id m =? s_id s) && negb (sm_is_banned m)) (rows (server_members d)) /\
  s_channel_count s = count_where (fun c => (c_space_id c =? s_id s) && (c_status c =? 1)) (rows (channels d)).
Proof.
  intros Hr%reachable_db Hs d. pose proof (inv_spaces _ Hr) as [Hm Hc _]. split; [|apply Hc; done].
  destruct (mi_owner _ Hm s Hs) as [(m&Hin&Ek) Hall]. exists m. injection Ek as E1 E2. split; [|done].
  apply (where_singleton member_key); [apply (mi_unique _ Hm)|done|..].
  - rewrite E1, Z.eqb_refl. apply bool_decide_eq_true. by apply Hall.
  - intros m' Hm' Hp. bools. unfold member_key. rewrite E1, E2. f_equal; [done|]. by apply Hall.
Qed.

(** C10: The messages of a channel, in the order they were stored, carry the
    sequence numbers 1, 2, ..., up to the channel's [message_seq], without
    gaps or repetitions, and the stored message count is the number of
    messages not deleted. *)
Theorem channel_log_contiguous g c :
  reachable mc g -> c ∈ rows (channels (w_db (g_world g))) ->
  let ms := where_ (fun m => m_channel_id m =? c_id c) (rows (messages (w_db (g_world g)))) in
  map m_seq ms = seqZ 1 (c_message_seq c) /\ c_message_count c = count_where is_normal ms.
Proof.
  intros Hr%reachable_db Hc ms. pose proof (inv_messages _ Hr) as [Hb Hn]. split.
  - apply (mg_log _ Hb c Hc).
  - rewrite (Hn c Hc). unfold count_normal, count_where, ms. by rewrite where_where.
Qed.

(** Each channel's only member is the user who created it, with every
    permission: no operation of the program ever adds another one. *)
Theorem channel_members_only_creator g c :
  reachable mc g -> c ∈ rows (channels (w_db (g_world g))) ->
  exists cm, where_ (fun cm => cm_channel_id cm =? c_id c) (rows (channel_members (w_db (g_world g)))) = [cm] /\
    cm_user_id cm = c_created_by c /\ to_permission cm = owner_permission.
Proof.
  intros Hr%reachable_db Hc. pose proof (inv_channels _ Hr) as Hci.
  destruct (ci_has _ Hci c Hc) as (cm&Hcm&Ek). injection Ek as E1 E2.
  exists cm. split; [|split; [done|by apply (ci_full _ Hci)]].
  apply (where_singleton (fun cm => (cm_channel_id cm, cm_user_id cm))); [apply (ci_unique _ Hci)|done|lia|].
  intros x Hx Hp. bools. destruct (ci_creator _ Hci x Hx) as (c'&Hc'&Ek). injection Ek as E3 E4.
  assert (c' = c) as -> by (eapply (NoDup_key_inj c_id); [apply wf_nodup, (ci_channels _ Hci)|done..|congruence]).
  congruence.
Qed.

(** C39: There is one direct conversation per unordered pair of users; its
    messages carry the numbers 1 .. [last_seq] in the order they were
    stored, and go from one of the two participants to the other. *)
Theorem direct_conversations_ok g c :
  reachable mc g -> c ∈ rows (conversations (w_db (g_world g))) ->
  let d := w_db (g_world g) in
  let ms := where_ (fun m => sql_eq (dm_conversation_id m) (dc_conversation_id c)) (rows (direct_messages d)) in
  dc_user_low_id c < dc_user_high_id c /\
  where_ (fun c' => (dc_user_low_id c' =? dc_user_low_id c) && (dc_user_high_id c' =? dc_user_high_id c))
    (rows (conversations d)) = [c] /\
  map dm_seq ms = seqZ 1 (dc_last_seq c) /\
  (forall m, m ∈ ms -> participants_ok c m).
Proof.
  intros Hr%reachable_db Hc d ms. pose proof (inv_direct _ Hr) as Hi. split_and!.
  - by apply (di_order _ Hi).
  - apply (where_singleton pair_key); [apply (di_pair _ Hi)|done|lia|].
    intros c' _ Hp. unfold pair_key. f_equal; lia.
  - apply (di_log _ Hi c Hc).
  - intros m [Hin Hm]%elem_of_where. by apply (di_part _ Hi).
Qed.

(** A retried request finds its first message: no two messages of a
    channel have the same sender and client message id (as MySQL compares
    them), and the same holds for direct messages in a conversation;
    there is one account per peer id, and one record per nonce, per
    content hash and per user and channel for the read cursors. *)
Theorem unique_keys g :
  reachable mc g -> let d := w_db (g_world g) in
  NoDup (map (fun m => (m_channel_id m, m_sender_user_id m, sort_key (m_client_msg_id m))) (rows (messages d))) /\
  NoDup (map (fun m => (sort_key (dm_conversation_id m), dm_sender_user_id m, sort_key (dm_client_msg_id m)))
           (rows (direct_messages d))) /\
  NoDup (map (fun u => sort_key (u_peer_id u)) (rows (users d))) /\
  NoDup (map (fun n => sort_key (n_nonce_hash n)) (rows (nonces d))) /\
  NoDup (map (fun b => sort_key (b_sha256 b)) (rows (blobs d))) /\
  NoDup (map (fun r => (rd_user_id r, rd_channel_id r)) (rows (reads d))).
Proof.
  intros Hr%reachable_db d. destruct Hr as [_ _ [Hm _] Hd Hu Hc Hn Hb]. split_and!.
  - apply (mg_client _ Hm).
  - apply (di_client _ Hd).
  - apply (ui_peer_id _ Hu).
  - apply (ni_key _ Hn).
  - apply (bi_sha _ Hb).
  - apply (ri_key _ Hc).
Qed.

(** The manager's table of channel subscribers and the subscriptions
    each live session holds are the same relation; a session that is gone
    subscribes to nothing; and no empty subscriber set is kept. *)
Theorem subscription_tables_agree g :
  reachable mc g ->
  (forall sid cid, sid ∈ default ∅ (g_subscriptions g !! cid) <->
     exists s, g_sessions g !! sid = Some s /\ cid ∈ subscribed s) /\
  (forall cid, g_subscriptions g !! cid <> Some ∅) /\ (forall uid, g_direct g !! uid <> Some ∅) /\
  (forall cid, g_realtime g !! cid <> Some ∅).
Proof.
  intros Hr. destruct (reachable_inv mc g Hr) as [_ [H1' H2' H3' H4']]. split; [|done].
  intros sid cid. fold (members_of (g_subscriptions g) cid). rewrite H1'. unfold subscriptions_of.
  destruct (g_sessions g !! sid); simpl; set_solver.
Qed.
End safety.

(** ** The concrete run *)
Lemma events_keep_invariant_witness : sys_inv (run_event demo_mc EvCleanup demo).
Proof.
  refine (events_keep_invariant demo_mc EvCleanup demo _ _); [exact I|].
  apply (reachable_inv demo_mc), demo_reachable.
Defined.

Lemma space_single_owner_witness : s_member_count demo_space = 2.
Proof.
  assert (demo_space ∈ rows (servers (w_db (g_world busy)))) as Hs by apply list_elem_of_here.
  destruct (space_single_owner demo_mc busy demo_space busy_reachable Hs) as (_&E&_).
  etrans; [exact E|]. vm_compute. reflexivity.
Defined.

Lemma channel_log_contiguous_witness :
  map m_seq (where_ (fun m => m_channel_id m =? 1) (rows (messages (w_db (g_world busy))))) = [1; 2].
Proof.
  assert (demo_channel ∈ rows (channels (w_db (g_world busy)))) as Hc by apply list_elem_of_here.
  etrans; [exact (proj1 (channel_log_contiguous demo_mc busy demo_channel busy_reachable Hc))|]. vm_compute. reflexivity.
Defined.

Lemma channel_members_only_creator_witness :
  exists cm, where_ (fun cm => cm_channel_id cm =? 1) (rows (channel_members (w_db (g_world busy)))) = [cm] /\
    cm_user_id cm = 1.
Proof.
  assert (demo_channel ∈ rows (channels (w_db (g_world busy)))) as Hc by apply list_elem_of_here.
  destruct (channel_members_only_creator demo_mc busy demo_channel busy_reachable Hc) as (cm&E1&E2&_).
  exists cm. split; [exact E1|exact E2].
Defined.

Lemma direct_conversations_ok_witness : dc_user_low_id demo_conv < dc_user_high_id demo_conv.
Proof.
  assert (demo_conv ∈ rows (conversations (w_db (g_world busy)))) as Hc by apply list_elem_of_here.
  exact (proj1 (direct_conversations_ok demo_mc busy demo_conv busy_reachable Hc)).
Defined.

Lemma unique_keys_witness : NoDup (map u_peer_id (rows (users (w_db (g_world busy))))).
Proof. exact (proj1 (proj2 (proj2 (unique_keys demo_mc busy busy_reachable)))). Defined.

Lemma subscription_tables_agree_witness :
  exists s, g_sessions busy !! 1%positive = Some s /\ 1 ∈ subscribed s.
Proof.
  apply (proj1 (subscription_tables_agree demo_mc busy busy_reachable) 1%positive 1).
  by apply (bool_decide_unpack _).
Defined.
