(* ===== verification/Membership.v ===== *)
(** * Membership of a space as an abstract machine

    A space is its owner, its visibility and its roster: the role of every
    user it knows and whether the user is banned.  The membership methods
    of the repository implement this machine: this file states it,
    abstracts the tables to it, and proves the refinement. *)
From S2P Require Import Prelude Go Schema Store SpaceRepo SpaceInv DbInv Session System Demo.

(** ** The machine *)
Record ASpace := mkASpace { a_owner : Z; a_visibility : Visibility; a_members : gmap Z (Role * bool) }.

Inductive Cmd :=
| CJoin (uid : Z) | CInvite (uid : Z) | CKick (uid : Z) | CBan (uid : Z) | CUnban (uid : Z)
| CSetRole (uid : Z) (role : Role).
#[export] Instance Cmd_eq_dec : EqDecision Cmd.
Proof. solve_decision. Defined.

Definition set_members (a : ASpace) (m : gmap Z (Role * bool)) : ASpace := mkASpace (a_owner a) (a_visibility a) m.
Definition assign_role (role : Role) (p : Role * bool) : Role * bool := (role, p.2).
Definition no_membership : Err := wrap "load target space membership" ErrNotFound.

Definition enter (publicOnly : bool) (uid : Z) (a : ASpace) : Err + ASpace :=
  match a_members a !! uid with
  | Some (_, true) => inl (Errorf "user is banned")
  | Some (_, false) => inr a
  | None => if publicOnly && negb (a_visibility a =@ VisibilityPublic) then inl (Errorf "space is private")
            else inr (set_members a (<[uid := (RoleMember, false)]> (a_members a)))
  end.

Definition change_role (uid : Z) (role : Role) (a : ASpace) : Err + ASpace :=
  match a_members a !! uid with
  | None => inl no_membership
  | Some _ =>
    if uid =? a_owner a then
      if role =@ RoleOwner then inr (set_members a (alter (assign_role RoleOwner) uid (a_members a)))
      else inl (Errorf "current owner role cannot be changed directly")
    else if role =@ RoleOwner then
      inr (mkASpace uid (a_visibility a)
             (alter (assign_role RoleOwner) uid (alter (assign_role RoleAdmin) (a_owner a) (a_members a))))
    else inr (set_members a (alter (assign_role role) uid (a_members a)))
  end.

Definition astep `{Env} (c : Cmd) (a : ASpace) : Err + ASpace :=
  match c with
  | CJoin uid => enter true uid a
  | CInvite uid => enter false uid a
  | CKick uid =>
    if uid =? a_owner a then inl (Errorf "current owner cannot be removed")
    else match a_members a !! uid with
         | None => inl no_membership
         | Some (_, true) => inl (Errorf "user is banned")
         | Some (_, false) => inr (set_members a (delete uid (a_members a)))
         end
  | CBan uid =>
    if uid =? a_owner a then inl (Errorf "current owner cannot be banned")
    else match a_members a !! uid with
         | Some (_, true) => inr a
         | _ => inr (set_members a (<[uid := (RoleMember, true)]> (a_members a)))
         end
  | CUnban uid =>
    if uid =? a_owner a then inl (Errorf "current owner cannot be unbanned")
    else match a_members a !! uid with
         | None => inl no_membership
         | Some (_, false) => inr a
         | Some (r, true) => inr (set_members a (<[uid := (r, false)]> (a_members a)))
         end
  | CSetRole uid role =>
    if TrimSpace (role_text role) =@ ""%string then inl (Errorf "set member role: role is required")
    else if negb (role_enum role) then inl (Errorf ("set member role: unsupported role " +:+ Quote (role_text role)))
    else change_role uid role a
  end.

(** ** Abstraction *)
Definition standing (m : MemberRow) : Role * bool := (sm_role m, sm_is_banned m).
Definition roster (sid : Z) (d : DB) : gmap Z (Role * bool) :=
  list_to_map ((fun m => (sm_user_id m, standing m)) <$> where_ (fun m => sm_space_id m =? sid) (rows (server_members d))).
Definition abs (sid : Z) (d : DB) : option ASpace :=
  (fun s => mkASpace (s_owner_user_id s) (s_visibility s) (roster sid d)) <$> server_by_id sid d.

Section commands.
Context `{Env}.
(** The repository method of a command. *)
Definition run_cmd (ctx : Ctx) (sid : Z) (c : Cmd) : M unit :=
  match c with
  | CJoin uid => _ ← JoinSpace ctx sid uid; mret tt
  | CInvite uid => _ ← InviteSpaceMember ctx sid uid; mret tt
  | CKick uid => _ ← KickSpaceMember ctx sid uid; mret tt
  | CBan uid => _ ← BanSpaceMember ctx sid uid; mret tt
  | CUnban uid => _ ← UnbanSpaceMember ctx sid uid; mret tt
  | CSetRole uid role => SetSpaceMemberRole ctx sid uid role
  end.
End commands.

(** ** Lookups *)
Lemma lookup_roster sid d uid : roster sid d !! uid = standing <$> member_row sid uid d.
Proof.
  unfold roster, member_row, where_, first_where, is_member.
  induction (rows (server_members d)) as [|m l IH]; [done|]. simpl.
  destruct (sm_space_id m =? sid); simpl; [|done].
  destruct (sm_user_id m =? uid) eqn:E.
  - apply Z.eqb_eq in E. subst. by rewrite lookup_insert_eq.
  - rewrite lookup_insert_ne; [done|]. lia.
Qed.

Lemma member_row_insert sid uid role b t d d1 mid sid' uid' :
  member_row sid uid d = None -> insert_member sid uid role b t d = Some (d1, mid) ->
  standing <$> member_row sid' uid' d1 =
  if (sid' =? sid) && (uid' =? uid) then Some (role, b) else standing <$> member_row sid' uid' d.
Proof.
  intros Hn E. unfold insert_member in E. apply bind_Some in E as ([tbl id]&E&?). simplify_eq.
  apply insert_row_Some in E as (_&_&_&Er&_). unfold member_row in *. simpl. rewrite Er, first_where_app.
  destruct ((sid' =? sid) && (uid' =? uid)) eqn:E.
  - apply andb_true_iff in E as [E1%Z.eqb_eq E2%Z.eqb_eq]. subst. rewrite Hn. simpl. unfold is_member. simpl.
    by rewrite !Z.eqb_refl.
  - destruct (first_where (is_member sid' uid') (rows (server_members d))); [done|]. simpl. unfold is_member. simpl.
    by replace ((sid =? sid') && (uid =? uid')) with false by lia.
Qed.

Lemma member_row_update sid uid f d sid' uid' :
  (forall m, member_key (f m) = member_key m) ->
  member_row sid' uid' (update_member sid uid f d).1 =
  (if (sid' =? sid) && (uid' =? uid) then f <$> member_row sid' uid' d else member_row sid' uid' d).
Proof.
  intros Hf. unfold member_row. simpl. rewrite first_where_update.
  2: { intros m _ _. unfold is_member. specialize (Hf m). unfold member_key in Hf. injection Hf as -> ->. done. }
  destruct (first_where (is_member sid' uid') (rows (server_members d))) as [m|] eqn:E; simpl; [|by case_match].
  apply first_where_Some in E as [E _]. unfold is_member in *.
  destruct ((sid' =? sid) && (uid' =? uid)) eqn:E'.
  - by replace ((sm_space_id m =? sid) && (sm_user_id m =? uid)) with true by lia.
  - by replace ((sm_space_id m =? sid) && (sm_user_id m =? uid)) with false by lia.
Qed.

Lemma member_row_delete sid uid d sid' uid' :
  member_row sid' uid' (delete_member sid uid d).1 =
  if (sid' =? sid) && (uid' =? uid) then None else member_row sid' uid' d.
Proof.
  unfold member_row. simpl. unfold delete_where, first_where.
  induction (rows (server_members d)) as [|m l IH]; simpl; [by case_match|].
  destruct (is_member sid uid m) eqn:E; simpl.
  - rewrite IH. destruct (is_member sid' uid' m) eqn:E'; [|done]. unfold is_member in *.
    by replace ((sid' =? sid) && (uid' =? uid)) with true by lia.
  - destruct (is_member sid' uid' m) eqn:E'; [|done]. unfold is_member in *.
    by replace ((sid' =? sid) && (uid' =? uid)) with false by lia.
Qed.

(** The space row after the counters were refreshed. *)
Definition same_space (s s' : ServerRow) : Prop :=
  s_owner_user_id s' = s_owner_user_id s /\ s_visibility s' = s_visibility s.

Lemma server_by_id_update sid f d sid' :
  (forall s, s_id (f s) = s_id s) ->
  server_by_id sid' (update_server sid f d).1 =
  (fun s => if s_id s =? sid then f s else s) <$> server_by_id sid' d.
Proof. intros Hf. unfold server_by_id. simpl. apply first_where_update. intros s _ _. by rewrite Hf. Qed.

(** ** How the statements change the abstraction *)
Definition on_members (f : gmap Z (Role * bool) -> gmap Z (Role * bool)) (a : ASpace) : ASpace :=
  set_members a (f (a_members a)).
Definition at_space {A} (sid sid' : Z) (f : A -> A) (a : A) : A := if sid' =? sid then f a else a.

Lemma abs_refresh sid t d sid' : abs sid' (refresh sid t d) = abs sid' d.
Proof.
  unfold abs. unfold refresh, server_by_id. simpl. rewrite first_where_update by done. unfold server_by_id.
  destruct (first_where _ (rows (servers d))) as [s|]; [|done]. simpl. by destruct (s_id s =? sid).
Qed.

(** The table of members changed, the spaces did not. *)
Lemma abs_members d d' f sid' :
  servers d' = servers d -> (forall uid, roster sid' d' !! uid = f (roster sid' d) !! uid) ->
  abs sid' d' = on_members f <$> abs sid' d.
Proof.
  intros Es Hr. unfold abs, server_by_id. rewrite Es. destruct (first_where _ _); [|done]. simpl.
  unfold on_members, set_members. simpl. do 2 f_equal. by apply map_eq.
Qed.

Lemma abs_insert sid uid role b t d d1 mid sid' :
  member_row sid uid d = None -> insert_member sid uid role b t d = Some (d1, mid) ->
  abs sid' d1 = on_members (at_space sid sid' <[uid := (role, b)]>) <$> abs sid' d.
Proof.
  intros Hn E. apply abs_members.
  - unfold insert_member in E. apply bind_Some in E as ([tbl id]&_&?). by simplify_eq.
  - intros uid'. rewrite lookup_roster, (member_row_insert _ _ _ _ _ _ _ _ sid' uid' Hn E). unfold at_space.
    destruct (sid' =? sid); simpl; [|by rewrite lookup_roster]. destruct (uid' =? uid) eqn:E'.
    + assert (uid' = uid) as -> by lia. by rewrite lookup_insert_eq.
    + rewrite lookup_insert_ne by lia. by rewrite lookup_roster.
Qed.

Lemma abs_update sid uid f g d sid' :
  (forall m, member_key (f m) = member_key m) -> (forall m, standing (f m) = g (standing m)) ->
  abs sid' (update_member sid uid f d).1 = on_members (at_space sid sid' (alter g uid)) <$> abs sid' d.
Proof.
  intros Hk Hg. apply abs_members; [done|]. intros uid'. rewrite lookup_roster, member_row_update by done.
  unfold at_space. destruct (sid' =? sid); simpl; [|by rewrite lookup_roster].
  rewrite lookup_alter, !lookup_roster. destruct (uid' =? uid) eqn:E.
  - rewrite decide_True by lia. assert (uid' = uid) as -> by lia. destruct (member_row _ _ d); simpl; by rewrite ?Hg.
  - by rewrite decide_False by lia.
Qed.

Lemma abs_delete sid uid d sid' :
  abs sid' (delete_member sid uid d).1 = on_members (at_space sid sid' (delete uid)) <$> abs sid' d.
Proof.
  apply abs_members; [done|]. intros uid'. rewrite lookup_roster, member_row_delete. unfold at_space.
  destruct (sid' =? sid); simpl; [|by rewrite lookup_roster]. destruct (uid' =? uid) eqn:E.
  - assert (uid' = uid) as -> by lia. by rewrite lookup_delete_eq.
  - rewrite lookup_delete_ne by lia. by rewrite lookup_roster.
Qed.

Lemma abs_owner sid uid t d sid' :
  abs sid' (update_server sid (with_owner uid t) d).1 =
  at_space sid sid' (fun a => mkASpace uid (a_visibility a) (a_members a)) <$> abs sid' d.
Proof.
  unfold abs. rewrite server_by_id_update by done. unfold at_space.
  destruct (server_by_id sid' d) as [s|] eqn:E; [|done]. apply first_where_Some in E as [E _]. simpl.
  assert (s_id s = sid') as -> by lia. by destruct (sid' =? sid).
Qed.

Lemma alter_known {A} (f : A -> A) k (m : gmap Z A) x : m !! k = Some x -> alter f k m = <[k := f x]> m.
Proof.
  intros E. apply map_eq. intros k'. rewrite lookup_alter. destruct (decide (k = k')) as [<-|Hn].
  - by rewrite E, lookup_insert_eq.
  - by rewrite lookup_insert_ne by done.
Qed.

(** ** Refinement *)
Lemma locked_none k w : w_leaked w = [] -> locked k w = false.
Proof. unfold locked. by intros ->. Qed.

(** What a command owes to the machine. *)
Record refines (sid : Z) (w : World) (spec : Err + ASpace) (w' : World) (r : Err + unit) : Prop := {
  rf_result : match spec with
              | inl e => r = inl e /\ w_db w' = w_db w
              | inr a' => r = inr tt /\ abs sid (w_db w') = Some a'
              end;
  rf_others : forall sid', sid' <> sid -> abs sid' (w_db w') = abs sid' (w_db w);
  rf_next : next_id (server_members (w_db w')) <= next_id (server_members (w_db w)) + 1 }.

Section refinement.
Context `{Env}.

Lemma abs_None sid d : server_by_id sid d = None -> abs sid d = None.
Proof. unfold abs. by intros ->. Qed.

(** Failed branches are impossible in a healthy world. *)
Ltac impossible :=
  first [ solve_fault
        | match goal with
          | H1 : locked _ _ = true |- _ => by rewrite locked_none in H1
          | H1 : w_faults _ <> [], H0 : w_faults _ = [] |- _ => destruct H1; cbn; by rewrite H0
          end ].
(** The machine's branch, from the rows the method read. *)
Ltac machine :=
  unfold astep, enter, change_role, no_membership; cbn [a_members a_owner a_visibility]; rewrite ?lookup_roster;
  repeat match goal with
  | H1 : negb (sm_is_banned _) = true |- _ => apply negb_true_iff in H1
  | H1 : negb (sm_is_banned _) = false |- _ => apply negb_false_iff in H1
  | H1 : member_row _ _ _ = _ |- _ => rewrite H1; cbn [fmap option_fmap option_map standing]
  | H1 : sm_is_banned _ = _ |- _ => rewrite H1
  | H1 : (_ =? _) = _ |- _ => rewrite H1
  | H1 : bool_decide _ = _ |- _ => rewrite H1
  | H1 : _ && _ = _ |- _ => rewrite H1
  | H1 : negb _ = _ |- _ => rewrite H1
  end; cbn [negb andb].

Lemma refines_error sid w w' e : w_db w' = w_db w -> refines sid w (inl e) w' (inl e).
Proof. intros E. split; rewrite ?E; [done..|lia]. Qed.

Lemma refines_noop sid w w' a : w_db w' = w_db w -> abs sid (w_db w) = Some a -> refines sid w (inr a) w' (inr tt).
Proof. intros E Ha. split; rewrite ?E; [done..|lia]. Qed.

Lemma refines_change sid w w' a a' f :
  (forall sid', abs sid' (w_db w') = at_space sid sid' f <$> abs sid' (w_db w)) ->
  abs sid (w_db w) = Some a -> a' = f a ->
  next_id (server_members (w_db w')) <= next_id (server_members (w_db w)) + 1 ->
  refines sid w (inr a') w' (inr tt).
Proof.
  intros Hall Ha -> Hn. split; [| |done].
  - split; [done|]. rewrite Hall, Ha. unfold at_space. simpl. by rewrite Z.eqb_refl.
  - intros sid' Hne. rewrite Hall. unfold at_space. replace (sid' =? sid) with false by lia. apply option_fmap_id.
Qed.

Lemma at_members sid sid' f a : at_space sid sid' (on_members f) a = on_members (at_space sid sid' f) a.
Proof. unfold at_space. destruct (_ =? _); [done|]. by destruct a. Qed.

(** The space is still there when the method reads it back. *)
Lemma still_there sid d d' f :
  (forall sid', abs sid' d' = at_space sid sid' f <$> abs sid' d) -> is_Some (abs sid d) ->
  to_space <$> server_by_id sid d' = None -> False.
Proof.
  intros Hall [a Ha] Hn%fmap_None%abs_None. by rewrite Hall, Ha in Hn.
Qed.

Lemma abs_known sid d s : server_by_id sid d = Some s ->
  abs sid d = Some (mkASpace (s_owner_user_id s) (s_visibility s) (roster sid d)).
Proof. unfold abs. by intros ->. Qed.

(** The effect on every abstraction. *)
Definition changes (sid : Z) (f : ASpace -> ASpace) (d d' : DB) : Prop :=
  forall sid', abs sid' d' = at_space sid sid' f <$> abs sid' d.

Lemma changes_refresh sid f t d d' : changes sid f d d' -> changes sid f d (refresh sid t d').
Proof. intros Hc sid'. rewrite abs_refresh. apply Hc. Qed.
Lemma changes_members sid f d d' :
  (forall sid', abs sid' d' = on_members (at_space sid sid' f) <$> abs sid' d) -> changes sid (on_members f) d d'.
Proof. intros Hc sid'. rewrite Hc. apply option_fmap_ext. intros a. by rewrite at_members. Qed.
Lemma changes_insert sid uid role b t d d1 mid :
  member_row sid uid d = None -> insert_member sid uid role b t d = Some (d1, mid) ->
  changes sid (on_members <[uid := (role, b)]>) d d1.
Proof. intros Hn E. apply changes_members. intros sid'. by eapply abs_insert. Qed.
Lemma changes_delete sid uid d : changes sid (on_members (delete uid)) d (delete_member sid uid d).1.
Proof. apply changes_members. intros sid'. apply abs_delete. Qed.
Lemma changes_update sid uid f g d :
  (forall m, member_key (f m) = member_key m) -> (forall m, standing (f m) = g (standing m)) ->
  changes sid (on_members (alter g uid)) d (update_member sid uid f d).1.
Proof. intros Hk Hg. apply changes_members. intros sid'. by apply abs_update. Qed.
Lemma changes_owner sid uid t d :
  changes sid (fun a => mkASpace uid (a_visibility a) (a_members a)) d (update_server sid (with_owner uid t) d).1.
Proof. intros sid'. apply abs_owner. Qed.
Lemma changes_trans sid f g d1 d2 d3 : changes sid f d1 d2 -> changes sid g d2 d3 -> changes sid (g ∘ f) d1 d3.
Proof.
  intros H1 H2 sid'. rewrite H2, H1, <- option_fmap_compose. apply option_fmap_ext. intros a. simpl.
  unfold at_space. by destruct (_ =? _).
Qed.

Lemma changes_transfer s uid t d :
  changes (s_id s) (fun a => mkASpace uid (a_visibility a)
    (alter (assign_role RoleOwner) uid (alter (assign_role RoleAdmin) (s_owner_user_id s) (a_members a))))
    d (transfer s uid t d).
Proof.
  pose proof (changes_update (s_id s) (s_owner_user_id s) (with_role RoleAdmin t) (assign_role RoleAdmin) d) as H1.
  pose proof (changes_update (s_id s) uid (with_role RoleOwner t) (assign_role RoleOwner)
    (update_member (s_id s) (s_owner_user_id s) (with_role RoleAdmin t) d).1) as H2.
  refine (changes_trans _ _ _ _ _ _ (changes_trans _ _ _ _ _ _ (H1 _ _) (H2 _ _)) (changes_owner _ _ _ _)); done.
Qed.

(** Closes the branch of a committed change [Hc : changes ...]. *)
Ltac committed Hc :=
  match goal with
  | H1 : to_space <$> server_by_id _ _ = None |- _ => exfalso; eapply still_there; [exact Hc| |exact H1]; eauto using abs_known
  | _ => eapply refines_change; [exact Hc|by apply abs_known|simpl|]
  end.

Lemma insert_member_ok sid uid role b t d :
  member_row sid uid d = None -> next_id (server_members d) <= max_u64 ->
  insert_member sid uid role b t d <> None.
Proof.
  intros Hn Hm. unfold insert_member. rewrite insert_row_ok; [done..|].
  intros m Hin. by apply (proj1 (first_where_None _ _) Hn).
Qed.
Lemma insert_member_next sid uid role b t d d1 mid :
  insert_member sid uid role b t d = Some (d1, mid) ->
  next_id (server_members d1) = next_id (server_members d) + 1.
Proof.
  unfold insert_member. intros ([tbl id]&E&?)%bind_Some. simplify_eq. simpl.
  by apply insert_row_Some in E as (_&_&_&_&->).
Qed.

(** Every command in a world without faults and leaked locks. *)
Section one_command.
Context (ctx : Ctx) (w : World) (s : ServerRow).
Context (Hf : w_faults w = []) (Hl : w_leaked w = []) (Hs : server_by_id (s_id s) (w_db w) = Some s).
Context (Hcap : next_id (server_members (w_db w)) <= max_u64).
Abbreviation known := (mkASpace (s_owner_user_id s) (s_visibility s) (roster (s_id s) (w_db w))).

Ltac run := repeat run_step; try solve_fault; simplify_eq; try impossible.
Ltac insert_fails :=
  match goal with H1 : insert_member _ _ _ _ _ _ = None |- _ => exfalso; by eapply insert_member_ok in H1 end.
Ltac next_bound := match goal with E : w_db ?w' = _ |- _ => simpl; rewrite E; simpl; try (erewrite insert_member_next by eassumption); lia end.
Ltac unchanged_case := first [match goal with H1 : to_space <$> server_by_id _ _ = None |- _ => by rewrite Hs in H1 end | apply refines_error; by destruct ctx | apply refines_noop; [by destruct ctx|by apply abs_known]].

Ltac by_change f :=
  match goal with E : w_db ?w' = _ |- _ =>
    assert (changes (s_id s) f (w_db w) (w_db w')) as Hc
      by (rewrite E; repeat apply changes_refresh; first [eapply changes_insert; eassumption
            | apply changes_delete | by apply changes_update | eassumption]);
    committed Hc
  end; first [done|next_bound|idtac].

Lemma enter_refines po uid :
  wp (_ ← addSpaceMember ctx (s_id s) uid po; mret tt) w (refines (s_id s) w (enter po uid known)).
Proof using All.
  unfold addSpaceMember, GetBySpaceID. run; machine; try insert_fails; try unchanged_case.
  all: by_change (on_members <[uid := (RoleMember, false)]>).
Qed.

Lemma kick_refines uid : wp (run_cmd ctx (s_id s) (CKick uid)) w (refines (s_id s) w (astep (CKick uid) known)).
Proof using All.
  unfold run_cmd, KickSpaceMember, GetBySpaceID. run; machine; try unchanged_case.
  all: by_change (on_members (delete uid)).
Qed.

Lemma ban_refines uid : wp (run_cmd ctx (s_id s) (CBan uid)) w (refines (s_id s) w (astep (CBan uid) known)).
Proof using All.
  unfold run_cmd, BanSpaceMember, GetBySpaceID. run; machine; try insert_fails; try unchanged_case.
  1-2: by_change (on_members <[uid := (RoleMember, true)]>).
  all: by_change (on_members (alter (fun _ => (RoleMember, true)) uid)).
  unfold on_members. simpl. erewrite alter_known; [done|]. rewrite lookup_roster. by simplify_option_eq.
Qed.

Lemma unban_refines uid : wp (run_cmd ctx (s_id s) (CUnban uid)) w (refines (s_id s) w (astep (CUnban uid) known)).
Proof using All.
  unfold run_cmd, UnbanSpaceMember, GetBySpaceID. run; machine; try unchanged_case.
  all: by_change (on_members (alter (fun p => (p.1, false)) uid)).
  unfold on_members. simpl. erewrite alter_known; [|rewrite lookup_roster; by simplify_option_eq]. done.
Qed.

Lemma role_refines uid role :
  wp (run_cmd ctx (s_id s) (CSetRole uid role)) w (refines (s_id s) w (astep (CSetRole uid role) known)).
Proof using All.
  unfold run_cmd, SetSpaceMemberRole. run; machine; try unchanged_case.
  - destruct (uid =? s_owner_user_id s), (role =@ RoleOwner); done || unchanged_case.
  - destruct (uid =? s_owner_user_id s) eqn:Eo; [done|].
    pose proof (changes_transfer s uid (truncate_ms (w_clock w)) (w_db w)) as Hc.
    eapply refines_change; [exact Hc|by apply abs_known|done|simpl; lia].
  - destruct (uid =? s_owner_user_id s) eqn:Eo; [|done].
    eapply (refines_change _ _ _ _ _ (on_members (alter (assign_role RoleOwner) uid)));
      [by apply changes_update|by apply abs_known|done|simpl; lia].
  - destruct (uid =? s_owner_user_id s) eqn:Eo; [done|].
    eapply (refines_change _ _ _ _ _ (on_members (alter (assign_role role) uid)));
      [by apply changes_update|by apply abs_known|done|simpl; lia].
Qed.

Lemma run_cmd_refines c : wp (run_cmd ctx (s_id s) c) w (refines (s_id s) w (astep c known)).
Proof using All.
  destruct c; [apply (enter_refines true)|apply (enter_refines false)|apply kick_refines|apply ban_refines
    |apply unban_refines|apply role_refines].
Qed.
End one_command.

(** The request context keeps the world healthy: nothing is left open. *)
Lemma frame_healthy w w' : frame w w' -> healthy w -> healthy w'.
Proof. intros [_ Hl _ Hf] [H1 H2]. split; [auto|congruence]. Qed.

Lemma run_cmd_frame sid c w : wp (run_cmd RequestCtx sid c) w (fun w' _ => frame w w').
Proof.
  destruct c; unfold run_cmd, JoinSpace, InviteSpaceMember, addSpaceMember, KickSpaceMember, BanSpaceMember,
    UnbanSpaceMember, SetSpaceMemberRole, GetBySpaceID; repeat run_step.
  all: solve_frame.
Qed.
Lemma run_cmd_healthy sid c w : healthy w -> wp (run_cmd RequestCtx sid c) w (fun w' _ => healthy w').
Proof. intros Hh. eapply wp_mono; [apply run_cmd_frame|]. simpl. intros w' _ Hf. by eapply frame_healthy. Qed.

(** Commands one after the other; a command that fails changes nothing. *)
Fixpoint run_cmds (sid : Z) (cs : list Cmd) : M unit :=
  match cs with
  | [] => mret tt
  | c :: cs => _ ← try (run_cmd RequestCtx sid c); run_cmds sid cs
  end.
Definition asteps (cs : list Cmd) (a : ASpace) : ASpace :=
  fold_left (fun a c => match astep c a with inl _ => a | inr a' => a' end) cs a.

Lemma run_cmds_refine sid cs w a :
  healthy w -> next_id (server_members (w_db w)) + zlen cs <= max_u64 + 1 -> abs sid (w_db w) = Some a ->
  wp (run_cmds sid cs) w (fun w' _ => healthy w' /\ abs sid (w_db w') = Some (asteps cs a) /\
    next_id (server_members (w_db w')) <= next_id (server_members (w_db w)) + zlen cs).
Proof.
  revert w a. induction cs as [|c cs IH]; intros w a Hh Hn Ha; simpl; [apply wp_ret; split_and!; [done..|unfold zlen; simpl; lia]|].
  unfold zlen in Hn. simpl in Hn.
  pose proof (run_cmd_healthy sid c w Hh) as Hh'. pose proof Hh as [Hf Hl]. pose proof Ha as Ha0. unfold abs in Ha0.
  apply fmap_Some in Ha0 as (s&Hs&Ea). destruct (server_by_id_Some _ _ _ Hs) as [<- _].
  pose proof (run_cmd_refines RequestCtx w s Hf Hl Hs ltac:(lia) c) as [Hr _ Hnx]. rewrite <- Ea in Hr.
  apply wp_bind, wp_try. unfold wp in *. destruct (run_cmd RequestCtx (s_id s) c w) as [w1 r]. simpl in *.
  assert (abs (s_id s) (w_db w1) = Some (match astep c a with inl _ => a | inr a' => a' end)) as Ha1
    by (destruct (astep c a); destruct Hr as [_ ->]; done).
  destruct (IH w1 _ Hh' ltac:(unfold zlen; lia) Ha1) as (?&?&?). split_and!; [done..|]. unfold zlen in *. simpl. lia.
Qed.

(** C2: The membership methods implement the abstract machine.  In a world
    without faults and without locks left behind, joining, inviting,
    kicking, banning, unbanning and setting a role succeed exactly when the
    machine allows it, fail with the machine's error otherwise, leave the
    tables as they were when they fail, change the roster and the owner of
    the space as the machine says when they succeed, and never change
    another space. *)
Theorem membership_refines ctx sid c w a :
  healthy w -> next_id (server_members (w_db w)) <= max_u64 -> abs sid (w_db w) = Some a ->
  let '(w', r) := run_cmd ctx sid c w in
  match astep c a with
  | inl e => r = inl e /\ w_db w' = w_db w
  | inr a' => r = inr tt /\ abs sid (w_db w') = Some a'
  end /\ (forall sid', sid' <> sid -> abs sid' (w_db w') = abs sid' (w_db w)).
Proof.
  intros [Hf Hl] Hn Ha. pose proof Ha as Ha0. unfold abs in Ha0. apply fmap_Some in Ha0 as (s&Hs&->).
  destruct (server_by_id_Some _ _ _ Hs) as [<- _].
  pose proof (run_cmd_refines ctx w s Hf Hl Hs Hn c) as [H1 H2 _].
  destruct (run_cmd ctx (s_id s) c w). done.
Qed.

(** The same for any sequence of commands over HTTP: the tables after
    the run are those of the machine's run, in which a refused command is
    skipped. *)
Theorem membership_sequence_refines sid cs w a :
  healthy w -> next_id (server_members (w_db w)) + zlen cs <= max_u64 + 1 -> abs sid (w_db w) = Some a ->
  abs sid (w_db (run_cmds sid cs w).1) = Some (asteps cs a).
Proof. intros Hh Hn Ha. by apply (run_cmds_refine sid cs w a). Qed.

(** A banned user stays banned, whatever the other commands are. *)
Lemma astep_banned c a uid a' r :
  c <> CUnban uid -> a_members a !! uid = Some (r, true) -> astep c a = inr a' ->
  exists r', a_members a' !! uid = Some (r', true).
Proof.
  intros Hc Hb E. unfold astep, enter, change_role in E. unfold set_members, assign_role in *.
  repeat (case_match; simplify_eq); simpl; rewrite ?lookup_insert, ?lookup_alter, ?lookup_delete;
    repeat case_decide; subst; rewrite ?lookup_alter, ?Hb; simpl; repeat case_decide; subst; simpl;
    rewrite ?Hb; simpl; eauto; try congruence.
Qed.


Lemma asteps_banned cs a uid r :
  CUnban uid ∉ cs -> a_members a !! uid = Some (r, true) -> exists r', a_members (asteps cs a) !! uid = Some (r', true).
Proof.
  revert a r. induction cs as [|c cs IH]; intros a r Hc Hb; simpl; [eauto|].
  destruct (astep c a) as [e|a'] eqn:E; [eapply IH; [set_solver|done]|].
  destruct (astep_banned c a uid a' r) as [r' Hb']; [set_solver|done..|]. eapply IH; [set_solver|done].
Qed.

Lemma safe_run_cmd ctx sid c : keeps evolves (run_cmd ctx sid c).
Proof. destruct c; unfold run_cmd; walk. Qed.
Lemma safe_run_cmds sid cs : keeps evolves (run_cmds sid cs).
Proof. induction cs; simpl; solve_keeps; try done. apply safe_run_cmd. Qed.

(** A banned member has no role. *)
Lemma banned_no_role sid uid d r :
  members_inv d -> roster sid d !! uid = Some (r, true) -> role_of sid uid d = None.
Proof.
  intros Hi Hr. rewrite lookup_roster in Hr. apply fmap_Some in Hr as (m&Hm&E). unfold role_of.
  destruct (server_by_id sid d); [|done]. simpl. apply fmap_None, first_where_None. intros m' Hin.
  destruct (is_member sid uid m') eqn:Ek; [|done]. simpl. injection E as _ E.
  apply member_row_Some in Hm as (E1&E2&Hm). apply is_member_key in Ek.
  assert (m' = m) as ->; [|by rewrite <- E].
  eapply (NoDup_key_inj member_key); [apply (mi_unique d Hi)|done..|]. rewrite Ek. unfold member_key. congruence.
Qed.

Lemma bind_unit_err {A} (m : M A) w e (P : Prop) :
  ((_ ← m; mret tt) w).2 = inl e /\ P -> (m w).2 = inl e /\ P.
Proof. unfold mbind, SE_bind. destruct (m w) as [w' [e'|a]]; simpl; intros [[= ->] ?]; done. Qed.

Lemma role_of_absent sid uid w : healthy w -> role_of sid uid (w_db w) = None -> (GetMemberRole sid uid w).2 = inl ErrNotFound.
Proof. intros [Hf _] Hr. unfold GetMemberRole, fetchOne, sql. rewrite fault_healthy by done. simpl. by rewrite Hr. Qed.

(** C37: A ban lasts until it is lifted.  On a database that works, after a
    user other than the owner
    was banned from a space, and whatever membership commands follow
    except unbanning that user, the user has no role in the space, and
    joining it and being invited to it are refused. *)
Theorem ban_lasts sid uid cs w a :
  healthy w -> db_inv (w_db w) -> next_id (server_members (w_db w)) + zlen cs + 2 <= max_u64 ->
  abs sid (w_db w) = Some a -> uid <> a_owner a -> CUnban uid ∉ cs ->
  let w2 := (run_cmds sid (CBan uid :: cs) w).1 in
  (GetMemberRole sid uid w2).2 = inl ErrNotFound /\
  (JoinSpace RequestCtx sid uid w2).2 = inl (Errorf "user is banned") /\
  (InviteSpaceMember RequestCtx sid uid w2).2 = inl (Errorf "user is banned").
Proof.
  intros Hh Hi Hn Ha Ho Hc w2.
  pose proof (run_cmds_refine sid (CBan uid :: cs) w a Hh ltac:(unfold zlen in *; simpl; lia) Ha) as (Hh2&Ha2&Hn2).
  fold w2 in Hh2, Ha2, Hn2. assert (db_inv (w_db w2)) as Hi2 by (eapply evolves_inv; [apply (safe_run_cmds sid (CBan uid :: cs) w)|done]).
  destruct (asteps_banned cs (match astep (CBan uid) a with inl _ => a | inr a' => a' end) uid
    (match a_members a !! uid with Some (r, true) => r | _ => RoleMember end)) as [r Hr]; [done|..].
  { simpl. replace (uid =? a_owner a) with false by lia.
    destruct (a_members a !! uid) as [[r []]|] eqn:E; [done|..]; simpl; by rewrite lookup_insert_eq. }
  change (a_members (asteps (CBan uid :: cs) a) !! uid = Some (r, true)) in Hr.
  pose proof Ha2 as Ha3. unfold abs in Ha3. apply fmap_Some in Ha3 as (s&Hs&Es).
  rewrite Es in Hr. simpl in Hr. destruct (server_by_id_Some _ _ _ Hs) as [<- _]. split.
  - apply role_of_absent; [done|]. eapply banned_no_role; [apply si_members, Hi2|done].
  - assert (next_id (server_members (w_db w2)) <= max_u64) as Hcap by (unfold zlen in *; simpl in Hn2; lia).
    destruct Hh2 as [Hf Hl]. split.
    + pose proof (enter_refines RequestCtx w2 s Hf Hl Hs Hcap true uid) as [Hres _ _].
      unfold enter in Hres. simpl in Hres. rewrite Hr in Hres. by apply bind_unit_err in Hres as [? _].
    + pose proof (enter_refines RequestCtx w2 s Hf Hl Hs Hcap false uid) as [Hres _ _].
      unfold enter in Hres. simpl in Hres. rewrite Hr in Hres. by apply bind_unit_err in Hres as [? _].
Qed.

End refinement.

(** ** The concrete run *)
Definition demo_world : World := Eval vm_compute in g_world demo.
Lemma demo_healthy : healthy demo_world.
Proof. split; reflexivity. Qed.
Definition demo_roster : gmap Z (Role * bool) := {[1 := (RoleOwner, false); 2 := (RoleMember, false)]}.

Lemma membership_refines_witness :
  let '(w', r) := run_cmd Background 1 (CKick 2) demo_world in
  r = inr tt /\ abs 1 (w_db w') = Some (mkASpace 1 VisibilityPublic {[1 := (RoleOwner, false)]}).
Proof.
  pose proof (membership_refines Background 1 (CKick 2) demo_world (mkASpace 1 VisibilityPublic demo_roster)
    demo_healthy) as Hm.
  assert (next_id (server_members (w_db demo_world)) <= max_u64) as Hn by (vm_compute; discriminate).
  specialize (Hm Hn). assert (abs 1 (w_db demo_world) = Some (mkASpace 1 VisibilityPublic demo_roster)) as Ha by reflexivity.
  specialize (Hm Ha). destruct (run_cmd Background 1 (CKick 2) demo_world) as [w' r].
  destruct Hm as [Hm _]. exact Hm.
Defined.

Lemma membership_sequence_refines_witness :
  abs 1 (w_db (run_cmds 1 [CJoin 3; CSetRole 3 RoleOwner; CKick 1; CBan 2] demo_world).1) =
  Some (mkASpace 3 VisibilityPublic {[2 := (RoleMember, true); 3 := (RoleOwner, false)]}).
Proof.
  etrans; [apply (membership_sequence_refines 1 _ demo_world (mkASpace 1 VisibilityPublic demo_roster) demo_healthy)|];
    [vm_compute; discriminate|reflexivity|reflexivity].
Defined.

Lemma ban_lasts_witness :
  (JoinSpace RequestCtx 1 2 (run_cmds 1 [CBan 2; CSetRole 2 RoleAdmin; CJoin 2; CKick 2] demo_world).1).2
  = inl (Errorf "user is banned").
Proof.
  refine (proj1 (proj2 (ban_lasts 1 2 [CSetRole 2 RoleAdmin; CJoin 2; CKick 2] demo_world
    (mkASpace 1 VisibilityPublic demo_roster) demo_healthy demo_inv _ _ _ _)));
    [vm_compute; discriminate|reflexivity|discriminate|by apply (bool_decide_unpack _)].
Defined.
