(* ===== verification/Leaks.v ===== *)
(** * Transactions left open

    The deferred rollback of the repository methods tests the local
    variable [err].  The refusals that return a fresh error without
    assigning [err] leave the transaction, and the row locks it took,
    open.  For an HTTP request the cancellation of the request context
    rolls it back; a libp2p stream runs under [context.Background()]. *)
From S2P Require Import Prelude Go Schema Store SpaceRepo SpaceInv UserRepo ChannelRepo Session Manager Membership Demo.

Section leaks.
Context `{Env}.

(** The space row is locked by an unfinished transaction. *)
Definition blocked (sid : Z) (w : World) : Prop := locked (LockServer sid) w = true.

Lemma blocked_tick sid w : blocked sid w -> blocked sid (tick w).
Proof. done. Qed.

Lemma wp_blocked_fetch {A} f sid (k : ServerRow -> TxM A) t Q :
  blocked sid (tx_world t) ->
  (forall t' e, w_db (tx_world t') = w_db (tx_world t) -> tx_done t' = tx_done t -> Q t' (inl e)) ->
  wp (check_for_update f lock_server (server_by_id sid) ≫= k) t Q.
Proof.
  intros Hb HQ. repeat wp_step; try (apply HQ; done). exfalso.
  match goal with Hs : server_by_id _ _ = Some _ |- _ => apply server_by_id_Some in Hs as [E _] end.
  unfold blocked, lock_server in *. congruence.
Qed.

(** Nothing that starts by locking the space row gets through. *)
Lemma blocked_tx {A} ctx g f sid (k : ServerRow -> TxM A) w :
  blocked sid w ->
  wp (run_tx ctx g (check_for_update f lock_server (server_by_id sid) ≫= k)) w
    (fun w' r => w_db w' = w_db w /\ exists e, r = inl e).
Proof.
  intros Hb. apply wp_run_tx; intros Hf; [eauto|]. apply wp_blocked_fetch; [done|].
  intros t' e Ed Edone. simpl in *. split; [|eauto]. by rewrite finish_unchanged.
Qed.

Definition refused {A} (w w' : World) (r : Err + A) : Prop := w_db w' = w_db w /\ exists e, r = inl e.

Lemma refused_bind {A B} (m : M A) (k : A -> M B) w : wp m w (refused w) -> wp (m ≫= k) w (refused w).
Proof.
  intros Hm. apply wp_bind. eapply wp_mono; [exact Hm|]. simpl. intros w' r [Hd [e ->]]. split; eauto.
Qed.
Lemma refused_when {A} b e (m : M A) w : wp m w (refused w) -> wp (_ ← when b e; m) w (refused w).
Proof. intros Hm. apply wp_bind, wp_when; intros _; [split; eauto|done]. Qed.

Lemma blocked_cmd ctx sid c w : blocked sid w -> wp (run_cmd ctx sid c) w (refused w).
Proof.
  intros Hb. destruct c; unfold run_cmd, JoinSpace, InviteSpaceMember, addSpaceMember, KickSpaceMember, BanSpaceMember,
    UnbanSpaceMember, SetSpaceMemberRole; repeat first [apply refused_when|apply refused_bind]; by apply blocked_tx.
Qed.

Lemma blocked_CreateChannel ctx i w : blocked (cci_SpaceID i) w -> wp (CreateChannel ctx i) w (refused w).
Proof.
  intros Hb. unfold CreateChannel. repeat apply refused_when. by apply blocked_tx.
Qed.

(** What the refused kick of an owner leaves behind. *)
Lemma kick_owner_leaks sid s w :
  healthy w -> server_by_id sid (w_db w) = Some s ->
  wp (KickSpaceMember Background sid (s_owner_user_id s)) w (fun w' r =>
    r = inl (Errorf "current owner cannot be removed") /\ w_db w' = w_db w /\ w_leaked w' = [[LockServer sid]]).
Proof.
  intros [Hf Hl] Hs. unfold KickSpaceMember, GetBySpaceID. repeat run_step; try solve_fault; simplify_eq.
  all: try lia.
  - by rewrite locked_none in *.
  - apply server_by_id_Some in Hs as [<- _]. by rewrite Hl.
Qed.

(** C40: A refused kick of the owner over a libp2p stream locks the space.
    On a database that works the kick is refused and the tables stay as they were, but the
    transaction stays open with the lock on the space row: from then on
    every membership command on that space, from any client, and every
    creation of a channel or group in it, fails and changes nothing. *)
Theorem kick_owner_locks_space sid s w :
  healthy w -> server_by_id sid (w_db w) = Some s ->
  let '(w1, r) := KickSpaceMember Background sid (s_owner_user_id s) w in
  r = inl (Errorf "current owner cannot be removed") /\ w_db w1 = w_db w /\ w_leaked w1 = [[LockServer sid]] /\
  (forall ctx c, exists e, (run_cmd ctx sid c w1).2 = inl e /\ w_db (run_cmd ctx sid c w1).1 = w_db w) /\
  (forall ctx i, cci_SpaceID i = sid ->
     exists e, (CreateChannel ctx i w1).2 = inl e /\ w_db (CreateChannel ctx i w1).1 = w_db w).
Proof.
  intros Hh Hs. pose proof (kick_owner_leaks sid s w Hh Hs) as Hk. unfold wp in Hk.
  destruct (KickSpaceMember _ _ _ w) as [w1 r]. simpl in Hk. destruct Hk as (Hr&Hd&Hl).
  assert (blocked sid w1) as Hb by (unfold blocked, locked; rewrite Hl; simpl; by rewrite bool_decide_true by set_solver).
  split_and!; [done..| |].
  - intros ctx c. destruct (blocked_cmd ctx sid c w1 Hb) as [Hd' [e He]]. exists e. split; congruence.
  - intros ctx i Ei. rewrite <- Ei in Hb. destruct (blocked_CreateChannel ctx i w1 Hb) as [Hd' [e He]].
    exists e. split; congruence.
Qed.

(** An HTTP request leaves no transaction open: whatever statements
    fail, a membership command under the request context ends with the
    unfinished transactions it started with. *)
Theorem http_commands_leak_nothing sid c w : w_leaked (run_cmd RequestCtx sid c w).1 = w_leaked w.
Proof. apply (fr_leaked _ _ (run_cmd_frame sid c w)). Qed.
End leaks.

Lemma kick_owner_locks_space_witness :
  let '(w1, r) := KickSpaceMember Background 1 1 demo_world in
  w_leaked w1 = [[LockServer 1]] /\ exists e, (run_cmd RequestCtx 1 (CJoin 3) w1).2 = inl e.
Proof.
  pose proof (kick_owner_locks_space 1 demo_space demo_world demo_healthy) as Hk.
  assert (server_by_id 1 (w_db demo_world) = Some demo_space) as Hs by reflexivity. specialize (Hk Hs).
  change (s_owner_user_id demo_space) with 1 in Hk.
  destruct (KickSpaceMember Background 1 1 demo_world) as [w1 r]. destruct Hk as (_&_&Hl&Hc&_). split; [exact Hl|].
  destruct (Hc RequestCtx (CJoin 3)) as [e [He _]]. exists e. exact He.
Defined.
