(* ===== verification/History.v ===== *)
(** * Nothing is forgotten

    Messages, direct messages, read cursors, nonces, accounts,
    conversations, blobs, channels and their members are never removed, and a row only
    moves forward: a message can only turn from normal to deleted, a
    direct message can be acknowledged once, cursors and sequence numbers
    only grow, a used nonce stays used.  This holds along every run,
    whatever fails. *)
From S2P Require Import Prelude Go Encoding Schema Config Store SpaceRepo SpaceInv UserRepo ChannelRepo.
From S2P Require Import ChannelInv SeqLog MessageRepo MessageInv CursorNonceRepo BlobRepo DirectRepo DirectInv.
From S2P Require Import Proto Codec Auth Bootstrap TableInv Media DbInv Session SessionInv Manager Dispatch.
From S2P Require Import System Demo.

(** ** Tables that only grow *)
Section extends.
Context {R : Type} (le : R -> R -> Prop) `{!PreOrder le}.

Definition extends (t t' : Table R) : Prop :=
  exists l1 l2, rows t' = l1 ++ l2 /\ Forall2 le (rows t) l1.

#[export] Instance extends_preorder : PreOrder extends.
Proof using Type*.
  split.
  - intros t. exists (rows t), []. rewrite app_nil_r. split; [done|]. reflexivity.
  - intros t1 t2 t3 (l1&l2&E1&H1) (l3&l4&E2&H2). rewrite E1 in H2.
    apply Forall2_app_inv_l in H2 as (l5&l6&H5&H6&->). exists l5, (l6 ++ l4). rewrite app_assoc. split; [done|].
    by etrans.
Qed.

Lemma extends_update p f t : (forall r, r ∈ rows t -> p r = true -> le r (f r)) -> extends t (update_rows p f t).
Proof using Type*.
  intros Hf. exists (update_where p f (rows t)), []. rewrite app_nil_r. split; [done|].
  unfold update_where. revert Hf. induction (rows t) as [|r l IH]; intros Hf; simpl; constructor.
  - destruct (p r) eqn:E; [apply Hf; [set_solver|done]|done].
  - apply IH. intros r' Hr'. apply Hf. set_solver.
Qed.

Lemma extends_snoc t t' l : rows t' = rows t ++ l -> extends t t'.
Proof using Type*. intros E. exists (rows t), l. split; [done|]. reflexivity. Qed.

Lemma extends_insert max dup mk t t' id : insert_row max dup mk t = Some (t', id) -> extends t t'.
Proof using Type*. intros (_&_&_&E&_)%insert_row_Some. by eapply extends_snoc. Qed.

Lemma extends_upsert max dup f mk t t' :
  (forall r, r ∈ rows t -> dup r = true -> le r (f r)) -> upsert_row max dup f mk t = Some t' -> extends t t'.
Proof using Type*.
  unfold upsert_row. intros Hf E. destruct (existsb dup (rows t)); [simplify_eq; by apply extends_update|].
  apply fmap_Some in E as ([t1 id]&E&->). by eapply extends_insert.
Qed.

(** A row of the table is still there. *)
Lemma extends_elem t t' r : extends t t' -> r ∈ rows t -> exists r', r' ∈ rows t' /\ le r r'.
Proof using Type*.
  intros (l1&l2&E&Hl) Hr. apply list_elem_of_lookup in Hr as [i Hi].
  eapply Forall2_lookup_l in Hl as (r'&Hi'&Hle); [|exact Hi]. exists r'. split; [|done].
  rewrite E. apply elem_of_app. left. by eapply list_elem_of_lookup_2.
Qed.
End extends.

(** ** How a row moves *)
Definition msg_le (m m' : MessageRow) : Prop :=
  m' = m \/ (m_status m = StatusNormal /\ exists t, m' = with_deleted t m).
Definition dm_le (m m' : DirectRow) : Prop :=
  m' = m \/ (dm_recipient_acked_at_ms m = None /\ exists ms, m' = with_acked ms m).
Definition nonce_le (n n' : NonceRow) : Prop := n' = n \/ (n_used_at n = None /\ exists t, n' = with_used t n).
Definition cursor_le (r r' : ReadRow) : Prop :=
  (rd_id r' = rd_id r /\ rd_user_id r' = rd_user_id r /\ rd_channel_id r' = rd_channel_id r) /\
  rd_last_delivered_seq r <= rd_last_delivered_seq r' /\ rd_last_read_seq r <= rd_last_read_seq r'.
Definition user_le (u u' : UserRow) : Prop :=
  u_id u' = u_id u /\ u_user_id u' = u_user_id u /\ u_peer_id u' = u_peer_id u /\ u_display_name u' = u_display_name u.
Definition conv_le (c c' : ConvRow) : Prop :=
  (dc_id c' = dc_id c /\ dc_conversation_id c' = dc_conversation_id c /\ pair_key c' = pair_key c) /\
  dc_last_seq c <= dc_last_seq c'.
Definition blob_le (b b' : BlobRow) : Prop :=
  (b_id b' = b_id b /\ b_blob_id b' = b_blob_id b /\ b_sha256 b' = b_sha256 b /\ b_size b' = b_size b /\
   b_storage_path b' = b_storage_path b) /\ b_ref_count b <= b_ref_count b'.
Definition channel_le (c c' : ChannelRow) : Prop :=
  (c_id c' = c_id c /\ c_space_id c' = c_space_id c /\ c_type c' = c_type c /\ c_name c' = c_name c /\
   c_created_by c' = c_created_by c) /\ c_message_seq c <= c_message_seq c'.

Definition cm_le (m m' : ChannelMemberRow) : Prop :=
  cm_id m' = cm_id m /\ cm_channel_id m' = cm_channel_id m /\ cm_user_id m' = cm_user_id m.

#[export] Instance cm_le_preorder : PreOrder cm_le.
Proof. split; [done|]. intros r1 r2 r3 (?&?&?) (?&?&?). unfold cm_le. split_and!; congruence. Qed.
#[export] Instance msg_le_preorder : PreOrder msg_le.
Proof.
  split; [by left|]. intros m1 m2 m3 [->|[H1 [t ->]]] [->|[H2 [t' ->]]]; unfold msg_le; eauto.
Qed.
#[export] Instance dm_le_preorder : PreOrder dm_le.
Proof.
  split; [by left|]. intros m1 m2 m3 [->|[H1 [t ->]]] [->|[H2 [t' ->]]]; unfold dm_le; eauto.
Qed.
#[export] Instance nonce_le_preorder : PreOrder nonce_le.
Proof.
  split; [by left|]. intros m1 m2 m3 [->|[H1 [t ->]]] [->|[H2 [t' ->]]]; unfold nonce_le; eauto.
Qed.
#[export] Instance cursor_le_preorder : PreOrder cursor_le.
Proof. split; [done|]. intros r1 r2 r3 [(?&?&?) ?] [(?&?&?) ?]. split; [split_and!; congruence|lia]. Qed.
#[export] Instance user_le_preorder : PreOrder user_le.
Proof. split; [done|]. intros r1 r2 r3 (?&?&?&?) (?&?&?&?). unfold user_le. split_and!; congruence. Qed.
#[export] Instance conv_le_preorder : PreOrder conv_le.
Proof. split; [done|]. intros r1 r2 r3 [(?&?&?) ?] [(?&?&?) ?]. split; [split_and!; congruence|lia]. Qed.
#[export] Instance blob_le_preorder : PreOrder blob_le.
Proof. split; [done|]. intros r1 r2 r3 [(?&?&?&?&?) ?] [(?&?&?&?&?) ?]. split; [split_and!; congruence|lia]. Qed.
#[export] Instance channel_le_preorder : PreOrder channel_le.
Proof. split; [done|]. intros r1 r2 r3 [(?&?&?&?&?) ?] [(?&?&?&?&?) ?]. split; [split_and!; congruence|lia]. Qed.

(** ** The whole database *)
Record grows (d d' : DB) : Prop := {
  gr_messages : extends msg_le (messages d) (messages d');
  gr_direct : extends dm_le (direct_messages d) (direct_messages d');
  gr_nonces : extends nonce_le (nonces d) (nonces d');
  gr_cursors : extends cursor_le (reads d) (reads d');
  gr_users : extends user_le (users d) (users d');
  gr_convs : extends conv_le (conversations d) (conversations d');
  gr_blobs : extends blob_le (blobs d) (blobs d');
  gr_media : extends eq (media_objects d) (media_objects d');
  gr_atts : extends eq (message_attachments d) (message_attachments d');
  gr_channels : extends channel_le (channels d) (channels d');
  gr_members : extends cm_le (channel_members d) (channel_members d') }.
#[export] Instance grows_preorder : PreOrder grows.
Proof.
  split; [intros d; split; reflexivity|]. intros d1 d2 d3 [] []. split; by etrans.
Qed.

(** Under the invariant, where sequence numbers do not wrap around. *)
Definition inv_grows `{Env} (d d' : DB) : Prop := db_inv d -> db_inv d' /\ grows d d'.
#[export] Instance inv_grows_preorder `{Env} : PreOrder inv_grows.
Proof.
  split; [done|]. intros d1 d2 d3 H12 H23 Hi. destruct (H12 Hi) as [Hi2 ?]. destruct (H23 Hi2) as [Hi3 ?].
  split; [done|]. by etrans.
Qed.

(** Changes of one table. *)
Ltac one_table := split; simpl; try reflexivity.

Section effects.
Context `{Env}.

Lemma grows_refresh sid t d : grows d (refresh sid t d).
Proof. one_table. apply extends_update; [apply _|]. done. Qed.

Lemma grows_update_channel cid f d :
  (forall c, c ∈ rows (channels d) -> c_id c = cid -> channel_le c (f c)) -> grows d (update_channel cid f d).1.
Proof. intros Hf. one_table. apply extends_update; [apply _|]. intros c Hc E. apply Hf; [done|lia]. Qed.

Lemma insert_member_grows sid uid role b t d d1 mid : insert_member sid uid role b t d = Some (d1, mid) -> grows d d1.
Proof. unfold insert_member. intros ([tbl id]&_&?)%bind_Some. simplify_eq. one_table. Qed.
Lemma insert_server_grows i name t d d1 sid : insert_server i name t d = Some (d1, sid) -> grows d d1.
Proof. unfold insert_server. intros ([tbl id]&_&?)%bind_Some. simplify_eq. one_table. Qed.

Lemma space_effect_grows d d' : space_effect d d' -> grows d d'.
Proof.
  intros [ ]; try (by one_table); (etrans; [|apply grows_refresh]); eauto using insert_member_grows; try (by one_table).
  etrans; eauto using insert_member_grows, insert_server_grows.
Qed.

Lemma channel_effect_grows d d' : channel_effect d d' -> grows d d'.
Proof.
  intros [i s m name sort t d0 d1 d2 cid _ _ _ _ E1 E2|c seconds t d0 _ _]; [|by apply grows_update_channel].
  etrans; [|apply grows_refresh]. unfold insert_channel in E1. case_match; [done|].
  apply bind_Some in E1 as ([tbl id]&E1&?). simplify_eq.
  unfold insert_channel_member in E2. apply bind_Some in E2 as (tbl2&E2&?). simplify_eq.
  one_table; [by eapply extends_insert; [apply _|]|]. by eapply extends_upsert; [apply _| |exact E2].
Qed.

Lemma mark_all_grows t rs d : grows d (mark_all t rs d).
Proof.
  revert d. induction rs as [|r rs IH]; intros d; [done|].
  change (mark_all t (r :: rs) d) with (mark_all t rs (mark_deleted (m_id r) t d).1).
  etrans; [|apply IH]. one_table. apply extends_update; [apply _|]. intros m _ Hm. unfold is_normal in Hm. bools. right. eauto.
Qed.
Lemma fewer_all_grows t l d : grows d (fewer_all t l d).
Proof.
  revert d. induction l as [|[k n] l IH]; intros d; [done|].
  change (fewer_all t ((k, n) :: l) d) with (fewer_all t l (if n =? 0 then d else (update_channel k (with_fewer n t) d).1)).
  etrans; [|apply IH]. destruct (n =? 0); [done|]. by apply grows_update_channel.
Qed.

Lemma attach_all_grows mid t idx media d d' : attach_all mid t idx media d = Some d' -> grows d d'.
Proof.
  revert idx d. induction media as [|x media IH]; intros idx d E; simpl in E; [by simplify_eq|].
  apply bind_Some in E as ([d1 id]&E1&E2). etrans; [|by eapply IH].
  unfold insert_attachment in E1. apply bind_Some in E1 as ([tbl id']&E1&?). simplify_eq. one_table.
  - apply extends_update; [apply _|]. intros b _ _. split; [done|simpl; lia].
  - by eapply extends_insert; [apply _|].
Qed.

Lemma message_effect_grows d d' : db_inv d -> message_effect d d' -> grows d d'.
Proof.
  intros Hi He. destruct He as [i c ext t d0 d1 d2 mid Hc _ E1 E2|t limit d0].
  - pose proof (insert_message_Some _ _ _ _ _ _ _ _ E1) as (r&_&_&_&_&_&_&_&Emid&Hmax&_&_&Ed1).
    apply channel_by_id_Some in Hc as [_ Hc].
    rewrite (next_seq_u64 d0 c (inv_messages _ Hi) Hc) by lia.
    assert (grows d0 d1) as G1 by (rewrite Ed1; one_table; by eapply extends_snoc; [apply _|]).
    apply attach_all_grows in E2 as G2. etrans; [exact G1|]. etrans; [exact G2|].
    apply grows_update_channel. intros c' Hc' Eid. split; [done|]. simpl.
    apply attach_all_frame in E2. rewrite E2, Ed1 in Hc'. simpl in Hc'.
    assert (c' = c) as ->; [|lia].
    eapply (NoDup_key_inj c_id); [apply wf_nodup, (ci_channels _ (inv_channels _ Hi))|done..].
  - etrans; [apply mark_all_grows|apply fewer_all_grows].
Qed.

Lemma direct_effect_grows d d' : db_inv d -> direct_effect d d' -> grows d d'.
Proof.
  intros Hi He. destruct He as [cid low high t d0 d1 id _ _ E|i c ext mt ms t d0 d1 id Hc _ _ _ E|mid uid ms d0].
  - unfold insert_conv in E. apply bind_Some in E as ([tbl id']&E&?). simplify_eq. one_table.
    by eapply extends_insert; [apply _|].
  - apply insert_direct_Some in E as (r&_&_&_&_&_&_&_&_&Eid&Hmax&_&_&->).
    apply conv_by_external_Some in Hc as [_ Hc]. pose proof (inv_direct _ Hi) as Hdi.
    rewrite (next_dm_seq_u64 d0) by (done || lia). one_table; [by eapply extends_snoc; [apply _|]|].
    apply extends_update; [apply _|]. intros c' Hc' E'. split; [done|]. simpl.
    assert (c' = c) as ->; [|lia]. eapply (NoDup_key_inj dc_id); [apply wf_nodup, (di_convs _ Hdi)|done..|lia].
  - one_table. apply extends_update; [apply _|]. intros m _ Hm. unfold ackable in Hm. bools. right. eauto.
Qed.

Lemma upsert_cursor_grows uid cid f mk d d' :
  (forall r, cursor_le r (f r)) -> upsert_cursor uid cid f mk d = Some (d', tt) -> grows d d'.
Proof.
  intros Hf E. unfold upsert_cursor in E. destruct (channel_by_id cid d); [|by simplify_eq].
  apply bind_Some in E as (tbl&E&?). simplify_eq. one_table. eapply extends_upsert; [apply _|auto|exact E].
Qed.

Lemma db_effect_grows d d' : db_effect d d' -> inv_grows d d'.
Proof.
  intros He Hi. split; [by eapply db_effect_inv|].
  destruct He as [d0 d1 E|d0 d1 E|d0 d1 E|d0 d1 E|ext peer pk t d0 d1 E|uid pk t d0|uid cid seq t d0 d1 E
    |uid cid seq t d0 d1 E|h c n iss ex t d0 d1 E|h c n t d0|i t d0 d1 E|i t d0 d1 E|id d0|r nid t d0 d1 E].
  - by apply space_effect_grows.
  - by apply channel_effect_grows.
  - by apply message_effect_grows.
  - by apply direct_effect_grows.
  - unfold upsert_user in E. apply bind_Some in E as (tbl&E&?). simplify_eq. one_table.
    eapply extends_upsert; [apply _| |exact E]. done.
  - one_table. by apply extends_update; [apply _|].
  - eapply upsert_cursor_grows; [|exact E]. intros r0. split; [done|simpl; lia].
  - eapply upsert_cursor_grows; [|exact E]. intros r0. split; [done|simpl; lia].
  - unfold insert_nonce in E. apply bind_Some in E as ([tbl id]&E&?). simplify_eq. one_table.
    by eapply extends_insert; [apply _|].
  - one_table. apply extends_update; [apply _|]. intros n0 _ Hn. unfold usable_nonce in Hn. bools. right. eauto.
  - unfold insert_blob in E. apply bind_Some in E as ([tbl id]&E&?). simplify_eq. one_table.
    by eapply extends_insert; [apply _|].
  - unfold insert_media in E. apply bind_Some in E as ([tbl id]&E&?). simplify_eq. one_table.
    by eapply extends_insert; [apply _|].
  - one_table. apply extends_update; [apply _|]. intros b _ _. split; [done|simpl; lia].
  - unfold upsert_node in E. apply bind_Some in E as (tbl&_&?). simplify_eq. one_table.
Qed.

Lemma evolves_grows d d' : evolves d d' -> db_inv d -> grows d d'.
Proof. intros He Hi. by apply (evolves_in inv_grows d d' db_effect_grows He). Qed.
End effects.

(** ** What belongs to a message stays as it is *)
Section attachments.
Context `{Env}.

Definition atts_of (mid : Z) (d : DB) : list AttachmentRow :=
  where_ (fun ma => ma_message_id ma =? mid) (rows (message_attachments d)).
(** The attachment rows of the ids given out so far are final. *)
Record atts_kept (d d' : DB) : Prop := {
  ak_next : next_id (messages d) <= next_id (messages d');
  ak_rows mid : mid < next_id (messages d) -> atts_of mid d' = atts_of mid d }.
#[export] Instance atts_kept_preorder : PreOrder atts_kept.
Proof.
  split; [by split|]. intros d1 d2 d3 [N1 R1] [N2 R2]. split; [lia|]. intros mid Hm.
  by rewrite R2, R1 by lia.
Qed.
Lemma atts_kept_frame d d' :
  messages d' = messages d -> message_attachments d' = message_attachments d -> atts_kept d d'.
Proof. intros E1 E2. split; [by rewrite E1|]. intros mid _. unfold atts_of. by rewrite E2. Qed.

Lemma attach_all_atts mid t idx media d d' x :
  attach_all mid t idx media d = Some d' -> x <> mid -> atts_of x d' = atts_of x d.
Proof.
  intros E Hx. revert idx d E. induction media as [|y media IH]; intros idx d E; simpl in E; [by simplify_eq|].
  apply bind_Some in E as ([d1 id]&E1&E2). rewrite (IH _ _ E2). unfold insert_attachment in E1.
  apply bind_Some in E1 as ([tbl id']&(_&_&_&Er&_)%insert_row_Some&?). simplify_eq. unfold atts_of. simpl.
  rewrite Er, where_app. unfold where_ at 2. simpl. destruct (mid =? x) eqn:E; [lia|apply app_nil_r].
Qed.
Lemma mark_all_kept t rs d : atts_kept d (mark_all t rs d).
Proof.
  revert d. induction rs as [|r rs IH]; intros d; [done|].
  change (mark_all t (r :: rs) d) with (mark_all t rs (mark_deleted (m_id r) t d).1). etrans; [|apply IH]. by split.
Qed.
Lemma fewer_all_kept t l d : atts_kept d (fewer_all t l d).
Proof.
  revert d. induction l as [|[k n] l IH]; intros d; [done|].
  change (fewer_all t ((k, n) :: l) d) with (fewer_all t l (if n =? 0 then d else (update_channel k (with_fewer n t) d).1)).
  etrans; [|apply IH]. by destruct (n =? 0).
Qed.
Lemma message_effect_kept d d' : message_effect d d' -> atts_kept d d'.
Proof.
  intros [i c ext t d0 d1 d2 mid _ _ E1 E2|t limit d0]; [|by rewrite <- fewer_all_kept, <- mark_all_kept].
  apply insert_message_Some in E1 as (r&_&_&_&_&_&_&_&Emid&_&_&_&Ed1).
  pose proof (attach_all_frame _ _ _ _ _ _ E2) as Hf. assert (messages d2 = messages d1) as Em by (by rewrite Hf).
  split; simpl.
  - rewrite Em, Ed1. simpl. lia.
  - intros x Hx. change (atts_of x d2 = atts_of x d0). rewrite (attach_all_atts _ _ _ _ _ _ x E2) by lia. by rewrite Ed1.
Qed.

Ltac frame_effect :=
  repeat match goal with
  | E : _ ≫= _ = Some _ |- _ => apply bind_Some in E as (?&?&E)
  | x : (_ * _)%type |- _ => destruct x
  | x : unit |- _ => destruct x
  end; simplify_eq; by apply atts_kept_frame.
Lemma space_effect_kept d d' : space_effect d d' -> atts_kept d d'.
Proof. intros [ ]; unfold insert_server, insert_member in *; try (by apply atts_kept_frame); frame_effect. Qed.
Lemma channel_effect_kept d d' : channel_effect d d' -> atts_kept d d'.
Proof.
  intros [i s m name sort t d0 d1 d2 cid _ _ _ _ E1 E2|c seconds t d0 _ _]; [|by apply atts_kept_frame].
  unfold insert_channel in E1. case_match; [done|]. unfold insert_channel_member in E2. frame_effect.
Qed.
Lemma direct_effect_kept d d' : direct_effect d d' -> atts_kept d d'.
Proof.
  intros [cid low high t d0 d1 id _ _ E|i c ext mt ms t d0 d1 id Hc _ _ _ E|mid uid ms d0]; [|..|by apply atts_kept_frame].
  - unfold insert_conv in E. frame_effect.
  - apply insert_direct_Some in E as (r&_&_&_&_&_&_&_&_&_&_&_&_&->). by apply atts_kept_frame.
Qed.
Lemma db_effect_kept d d' : db_effect d d' -> atts_kept d d'.
Proof.
  intros He. destruct He as [d0 d1 E|d0 d1 E|d0 d1 E|d0 d1 E|ext peer pk t d0 d1 E|uid pk t d0|uid cid seq t d0 d1 E
    |uid cid seq t d0 d1 E|h c n iss ex t d0 d1 E|h c n t d0|i t d0 d1 E|i t d0 d1 E|id d0|r nid t d0 d1 E].
  - by apply space_effect_kept.
  - by apply channel_effect_kept.
  - by apply message_effect_kept.
  - by apply direct_effect_kept.
  - unfold upsert_user in E. frame_effect.
  - by apply atts_kept_frame.
  - unfold upsert_cursor in E. destruct (channel_by_id cid d0); [frame_effect|by simplify_eq].
  - unfold upsert_cursor in E. destruct (channel_by_id cid d0); [frame_effect|by simplify_eq].
  - unfold insert_nonce in E. frame_effect.
  - by apply atts_kept_frame.
  - unfold insert_blob in E. frame_effect.
  - unfold insert_media in E. frame_effect.
  - by apply atts_kept_frame.
  - unfold upsert_node in E. frame_effect.
Qed.
Lemma evolves_kept d d' : evolves d d' -> atts_kept d d'.
Proof. apply evolves_in, db_effect_kept. apply _. Qed.

(** The row a key leads to is found later too. *)
Lemma extends_first {R} (le : R -> R -> Prop) (p : R -> bool) t t' r :
  (forall r r', le r r' -> p r' = p r) -> extends le t t' -> first_where p (rows t) = Some r ->
  exists r', first_where p (rows t') = Some r' /\ le r r'.
Proof.
  intros Hp (l1&l2&->&Hl). rewrite first_where_app. generalize (first_where p l2). intros o.
  induction Hl as [|x y l l' Hxy _ IH]; simpl; [done|]. rewrite (Hp _ _ Hxy).
  destruct (p x); [|done]. intros E. simplify_eq. by exists y.
Qed.
Lemma joined_later d d' ma a : grows d d' -> joined_attachment d ma = Some a -> joined_attachment d' ma = Some a.
Proof.
  intros Hg E. unfold joined_attachment in *. apply bind_Some in E as (mo&Emo&E). apply bind_Some in E as (b&Eb&E).
  destruct (extends_first eq _ _ _ mo ltac:(by intros ? ? ->) (gr_media _ _ Hg) Emo) as (?&->&<-). simpl.
  destruct (extends_first blob_le (fun b => b_id b =? mo_blob_id mo) _ _ b ltac:(by intros ? ? [(->&_) _]) (gr_blobs _ _ Hg) Eb)
    as (b'&->&(_&E1&E2&_&E3)&_). simpl. by rewrite E1, E2, E3.
Qed.
End attachments.

(** A used nonce matches no later attempt to use it. *)
Lemma used_unusable `{Env} d n t client node now :
  nonce_inv d -> n ∈ rows (nonces d) -> n_used_at n = Some t ->
  count_where (usable_nonce (n_nonce_hash n) client node now) (rows (nonces d)) = 0.
Proof.
  intros Hi Hn Hu. apply count_where_zero. intros x Hx. apply not_true_iff_false. intros Hp.
  unfold usable_nonce in Hp. bools.
  match goal with E : sql_eq (n_nonce_hash x) _ = true |- _ => apply sql_eq_spec in E as Ek end.
  assert (x = n) as -> by (eapply (NoDup_key_inj (fun n => sort_key (n_nonce_hash n))); [apply (ni_key _ Hi)|done..]).
  congruence.
Qed.

Section history.
Context `{Env} `{Libp2p} `{MediaLib} `{Protobuf} (mc : ManagerConf).

Lemma run_grows g g' : reachable mc g -> rtc (sys_step mc) g g' -> grows (w_db (g_world g)) (w_db (g_world g')).
Proof.
  intros Hr Hs. destruct (reachable_inv mc g Hr) as [Hd Hi]. destruct (steps_evolve mc g g' Hs Hi) as [He _].
  by apply evolves_grows.
Qed.

(** C38: A stored message is never lost or altered.  Along any run every
    message that was in the database is still there with the same id,
    channel, sequence number, sender, client id, type, text and time; the
    only change it can undergo is to be marked deleted, once. *)
Theorem messages_durable g g' m :
  reachable mc g -> rtc (sys_step mc) g g' -> m ∈ rows (messages (w_db (g_world g))) ->
  exists m', m' ∈ rows (messages (w_db (g_world g'))) /\
    (m' = m \/ (m_status m = StatusNormal /\ exists t, m' = with_deleted t m)).
Proof. intros Hr Hs Hm. by apply (extends_elem _ _ _ m (gr_messages _ _ (run_grows g g' Hr Hs))). Qed.

(** A direct message is never lost or altered, and is acknowledged at
    most once: once it has an acknowledgement time, that time stays. *)
Theorem direct_messages_durable g g' m :
  reachable mc g -> rtc (sys_step mc) g g' -> m ∈ rows (direct_messages (w_db (g_world g))) ->
  exists m', m' ∈ rows (direct_messages (w_db (g_world g'))) /\
    (m' = m \/ (dm_recipient_acked_at_ms m = None /\ exists ms, m' = with_acked ms m)).
Proof. intros Hr Hs Hm. by apply (extends_elem _ _ _ m (gr_direct _ _ (run_grows g g' Hr Hs))). Qed.

(** Read cursors never go back: along any run the delivered and the
    read position of a user in a channel only grow. *)
Theorem cursors_monotone g g' r :
  reachable mc g -> rtc (sys_step mc) g g' -> r ∈ rows (reads (w_db (g_world g))) ->
  exists r', cursor (rd_user_id r) (rd_channel_id r) (w_db (g_world g')) = Some r' /\
    rd_last_delivered_seq r <= rd_last_delivered_seq r' /\ rd_last_read_seq r <= rd_last_read_seq r'.
Proof.
  intros Hr Hs Hin. destruct (extends_elem _ _ _ r (gr_cursors _ _ (run_grows g g' Hr Hs)) Hin) as (r'&Hr'&(_&E1&E2)&Hle).
  exists r'. split; [|done]. destruct (reachable_inv mc g Hr) as [Hd Hi].
  destruct (steps_evolve mc g g' Hs Hi) as [He _]. pose proof (inv_cursors _ (evolves_inv _ _ He Hd)) as Hc.
  apply (first_where_unique (fun r => (rd_user_id r, rd_channel_id r))); [apply (ri_key _ Hc)|done|..].
  - unfold is_cursor. lia.
  - intros x _ Hx. unfold is_cursor in Hx. f_equal; lia.
Qed.

(** A nonce is used at most once: along any run a nonce that was used
    is still recorded as used, so it cannot be consumed again at any later
    time. *)
Theorem used_nonce_stays_used g g' n t :
  reachable mc g -> rtc (sys_step mc) g g' -> n ∈ rows (nonces (w_db (g_world g))) -> n_used_at n = Some t ->
  n ∈ rows (nonces (w_db (g_world g'))) /\
  forall client node now, (consume_nonce (n_nonce_hash n) client node now (w_db (g_world g'))).2 = 0.
Proof.
  intros Hr Hs Hn Hu. destruct (extends_elem _ _ _ n (gr_nonces _ _ (run_grows g g' Hr Hs)) Hn)
    as (n'&Hn'&[->|[Hx _]]); [|congruence]. split; [done|]. intros client node now. simpl.
  destruct (reachable_inv mc g Hr) as [Hd Hi]. destruct (steps_evolve mc g g' Hs Hi) as [He _].
  pose proof (inv_nonces _ (evolves_inv _ _ He Hd)) as Hni. by eapply used_unusable.
Qed.

(** Accounts are permanent: a user keeps id, external id, peer id and
    display name along any run. *)
Theorem accounts_permanent g g' u :
  reachable mc g -> rtc (sys_step mc) g g' -> u ∈ rows (users (w_db (g_world g))) ->
  exists u', u' ∈ rows (users (w_db (g_world g'))) /\ u_id u' = u_id u /\ u_user_id u' = u_user_id u /\
    u_peer_id u' = u_peer_id u /\ u_display_name u' = u_display_name u.
Proof. intros Hr Hs Hm. by apply (extends_elem _ _ _ u (gr_users _ _ (run_grows g g' Hr Hs))). Qed.
End history.

(** ** The concrete run: the messages of the busy state after a client update, a cleanup and a disconnection *)
Definition later_events : list Event :=
  [EvApi (ApiUpdateRead 1 1 2); EvCleanup; EvDisconnect 1; EvApi (ApiUpdateRead 1 1 1)].
Definition later : Mgr := Eval vm_compute in default busy (run_events later_events busy).
Lemma busy_to_later : rtc (sys_step demo_mc) busy later.
Proof. apply (run_events_rtc later_events). vm_compute. reflexivity. Qed.
Lemma later_reachable : reachable demo_mc later.
Proof. destruct busy_reachable as [c Hc]. exists c. etrans; [exact Hc|apply busy_to_later]. Qed.

Definition first_message : MessageRow :=
  Eval vm_compute in hd (mkMessageRow 0 "" 0 0 0 "" TypeText None StatusNormal 0 0 None) (rows (messages (w_db (g_world busy)))).
Lemma messages_durable_witness : exists m', m' ∈ rows (messages (w_db (g_world later))) /\ m_seq m' = 1.
Proof.
  destruct (messages_durable demo_mc busy later first_message busy_reachable busy_to_later) as (m'&Hm&Hc).
  - apply list_elem_of_here.
  - exists m'. split; [exact Hm|]. destruct Hc as [->|[_ [t ->]]]; reflexivity.
Defined.

Definition first_direct : DirectRow :=
  Eval vm_compute in hd (mkDirectRow 0 "" "" 0 0 0 "" TypeText None 0 None 0) (rows (direct_messages (w_db (g_world busy)))).
Lemma direct_messages_durable_witness :
  exists m', m' ∈ rows (direct_messages (w_db (g_world later))) /\ dm_text_content m' = Some "hello"%string.
Proof.
  destruct (direct_messages_durable demo_mc busy later first_direct busy_reachable busy_to_later) as (m'&Hm&Hc).
  - apply list_elem_of_here.
  - exists m'. split; [exact Hm|]. destruct Hc as [->|[_ [t ->]]]; reflexivity.
Defined.

(** The second update asked for an earlier position. *)
Definition read_once : Mgr := Eval vm_compute in default busy (run_events [EvApi (ApiUpdateRead 1 1 2)] busy).
Lemma busy_to_read : rtc (sys_step demo_mc) busy read_once.
Proof. apply (run_events_rtc [EvApi (ApiUpdateRead 1 1 2)]). vm_compute. reflexivity. Qed.
Lemma read_reachable : reachable demo_mc read_once.
Proof. destruct busy_reachable as [c Hc]. exists c. etrans; [exact Hc|apply busy_to_read]. Qed.
Lemma read_to_later : rtc (sys_step demo_mc) read_once later.
Proof. apply (run_events_rtc (tail later_events)). vm_compute. reflexivity. Qed.
Definition read_row : ReadRow := Eval vm_compute in hd (mkReadRow 0 0 0 0 0 0) (rows (reads (w_db (g_world read_once)))).
Lemma cursors_monotone_witness :
  exists r', cursor 1 1 (w_db (g_world later)) = Some r' /\ 2 <= rd_last_read_seq r'.
Proof.
  destruct (cursors_monotone demo_mc read_once later read_row read_reachable read_to_later) as (r'&Hc&_&Hle).
  - apply list_elem_of_here.
  - exists r'. split; [exact Hc|exact Hle].
Defined.

Definition used_nonce : NonceRow :=
  Eval vm_compute in hd (mkNonceRow 0 "" "" "" 0 0 None 0) (rows (nonces (w_db (g_world busy)))).
Lemma used_nonce_stays_used_witness :
  (consume_nonce (n_nonce_hash used_nonce) "alice" "node" 0 (w_db (g_world later))).2 = 0.
Proof.
  refine (proj2 (used_nonce_stays_used demo_mc busy later used_nonce _ busy_reachable busy_to_later _ _) _ _ _).
  - apply list_elem_of_here.
  - reflexivity.
Defined.

Lemma accounts_permanent_witness : exists u', u' ∈ rows (users (w_db (g_world later))) /\ u_peer_id u' = "alice"%string.
Proof.
  destruct (accounts_permanent demo_mc busy later (hd (mkUserRow 0 "" "" None "" None None 0 None 0 0)
    (rows (users (w_db (g_world busy))))) busy_reachable busy_to_later) as (u'&Hu&_&_&E&_).
  - apply list_elem_of_here.
  - exists u'. split; [exact Hu|exact E].
Defined.
