(* ===== verification/AuthThms.v ===== *)
(** * Authentication: soundness, single use and completeness

    A successful verification means a valid signature by the key of the
    claimed peer over the challenge of this node, with a nonce this node
    issued to that peer, not expired and not used before; it can happen
    once per nonce; and an honest client within the time limit succeeds. *)
From S2P Require Import Prelude Go Encoding Schema Config Store SpaceRepo SpaceInv UserRepo CursorNonceRepo.
From S2P Require Import Auth TableInv DbInv Session Manager Dispatch System History Demo.

Section auth_thms.
Context `{Env} `{Libp2p} (cfg : Config).

Definition claimed_payload (i : VerifyChallengeInput) : string :=
  BuildChallengePayload (Libp2pProtocolID cfg) (vi_ClientPeerID i) (vi_NodePeerID i) (vi_Nonce i) (vi_IssuedAt i)
    (vi_ExpiresAt i).

(** The nonce record a proof uses. *)
Definition spendable (i : VerifyChallengeInput) (ms : Z) (n : NonceRow) : Prop :=
  sort_key (n_nonce_hash n) = sort_key (nonceHash (vi_Nonce i)) /\
  sort_key (n_client_peer_id n) = sort_key (vi_ClientPeerID i) /\
  sort_key (n_node_peer_id n) = sort_key (vi_NodePeerID i) /\ n_used_at n = None /\ ms <= n_expires_at n.

Lemma usable_spendable i ms n :
  usable_nonce (nonceHash (vi_Nonce i)) (vi_ClientPeerID i) (vi_NodePeerID i) ms n = true <-> spendable i ms n.
Proof.
  unfold usable_nonce, spendable. rewrite !andb_true_iff, !sql_eq_spec, bool_decide_eq_true, Z.leb_le. tauto.
Qed.

Lemma wp_pure_check {S A} g (x : Err + A) (s : S) Q :
  (forall e, x = inl e -> Q s (inl (g e))) -> (forall a, x = inr a -> Q s (inr a)) -> wp (pure_check g x) s Q.
Proof. destruct x; intros H1 H2; [by apply H1|by apply H2]. Qed.

Lemma wp_evolve {A} (m : M A) w Q :
  keeps evolves m -> (forall w' r, evolves (w_db w) (w_db w') -> Q w' r) -> wp m w Q.
Proof. intros Hm HQ. eapply wp_mono; [apply Hm|]. simpl. auto. Qed.

Lemma wp_CreateIfNotExists peer pk w Q :
  (forall w' e, evolves (w_db w) (w_db w') -> Q w' (inl e)) ->
  (forall w' u, evolves (w_db w) (w_db w') -> sort_key (PeerID u) = sort_key peer -> Q w' (inr u)) ->
  wp (CreateIfNotExistsByPeerID peer pk) w Q.
Proof.
  intros He Hu. pose proof (safe_CreateIfNotExists peer pk w) as Hev.
  assert (wp (CreateIfNotExistsByPeerID peer pk) w (fun _ r => forall u, r = inr u -> sort_key (PeerID u) = sort_key peer)) as Hp.
  { unfold CreateIfNotExistsByPeerID, GetByPeerID. repeat wp_step; intros; simplify_eq.
    match goal with Hx : to_user <$> _ = Some _ |- _ => apply fmap_Some in Hx as (x&Ex&->) end.
    apply first_where_Some in Ex as [Ex _]. by apply sql_eq_spec. }
  unfold wp in *. destruct (CreateIfNotExistsByPeerID peer pk w) as [w' [e|u]]; simpl in *; auto.
Qed.

Ltac auth_step :=
  match goal with
  | |- wp (pure_check _ _) _ _ => apply wp_pure_check; intros
  | |- wp (CreateIfNotExistsByPeerID _ _) _ _ => apply wp_CreateIfNotExists; intros
  | |- wp (UpdateLogin _ _ _) _ _ => apply wp_evolve; [solve [eauto with keeps]|intros ? [?|?] ?]
  | |- wp newSessionID _ _ => apply wp_evolve; [solve [eauto with keeps typeclass_instances]|intros ? [?|?] ?]
  | _ => wp_step
  end.

(** What a successful verification has checked and done. *)
Record proved (i : VerifyChallengeInput) (d d' : DB) (ms : Z) (res : Result) : Prop := {
  pv_time : vi_IssuedAt i - minute <= ms * ns_per_ms <= vi_ExpiresAt i;
  pv_key : exists k, UnmarshalPublicKey (vi_PublicKey i) = inr k /\ IDFromPublicKey k = inr (vi_ClientPeerID i) /\
             Verify k (claimed_payload i) (vi_Signature i) = inr true;
  pv_nonce : exists n, n ∈ rows (nonces d) /\ spendable i ms n;
  pv_user : sort_key (PeerID (res_User res)) = sort_key (vi_ClientPeerID i);
  pv_after : evolves (consume_nonce (nonceHash (vi_Nonce i)) (vi_ClientPeerID i) (vi_NodePeerID i) ms d).1 d' }.

Lemma VerifyChallenge_proved i w :
  wp (VerifyChallenge cfg i) w (fun w' r =>
    forall res, r = inr res -> proved i (w_db w) (w_db w') (truncate_ms (w_clock w)) res).
Proof.
  unfold VerifyChallenge, UseNonce. repeat auth_step. all: intros; simplify_eq. bools. split; simpl.
  - lia.
  - eexists. split_and!; [done|congruence|]. unfold claimed_payload. congruence.
  - match goal with Hx : (consume_nonce _ _ _ _ _).2 <> 0 |- _ => apply count_where_pos in Hx as (n&Hn&Hu) end.
    exists n. split; [done|]. by apply usable_spendable.
  - done.
  - etrans; [|eassumption]. etrans; [eassumption|]. done.
Qed.

(** C3: Authentication is sound.  Whatever statements fail, when a proof is
    accepted then it is within its time limits, its public key is the key
    of the claimed peer id, its signature is valid under that key for the
    challenge text naming this protocol, client, node, nonce and times,
    this node had stored the nonce for that client and node, it had not
    expired and had not been used; and the session belongs to the account
    of that peer id. *)
Theorem authentication_sound i w w' res :
  VerifyChallenge cfg i w = (w', inr res) ->
  let ms := truncate_ms (w_clock w) in
  (exists k, UnmarshalPublicKey (vi_PublicKey i) = inr k /\ IDFromPublicKey k = inr (vi_ClientPeerID i) /\
     Verify k (BuildChallengePayload (Libp2pProtocolID cfg) (vi_ClientPeerID i) (vi_NodePeerID i) (vi_Nonce i)
       (vi_IssuedAt i) (vi_ExpiresAt i)) (vi_Signature i) = inr true) /\
  (exists n, n ∈ rows (nonces (w_db w)) /\ spendable i ms n) /\
  vi_IssuedAt i - minute <= ms * ns_per_ms <= vi_ExpiresAt i /\
  sort_key (PeerID (res_User res)) = sort_key (vi_ClientPeerID i).
Proof.
  intros E ms. pose proof (VerifyChallenge_proved i w) as Hp. unfold wp in Hp. rewrite E in Hp.
  destruct (Hp res eq_refl). done.
Qed.

(** The nonce is used after a success. *)
Lemma proved_used i d d' ms res :
  db_inv d -> proved i d d' ms res ->
  exists n, n ∈ rows (nonces d') /\ n_used_at n = Some ms /\ sort_key (n_nonce_hash n) = sort_key (nonceHash (vi_Nonce i)).
Proof.
  intros Hi [_ _ (n&Hn&Hs) _ He].
  assert (db_inv (consume_nonce (nonceHash (vi_Nonce i)) (vi_ClientPeerID i) (vi_NodePeerID i) ms d).1) as Hi1.
  { eapply db_effect_inv; [apply de_consume|done]. }
  assert (with_used ms n ∈ rows (nonces (consume_nonce (nonceHash (vi_Nonce i)) (vi_ClientPeerID i) (vi_NodePeerID i) ms d).1)) as Hu.
  { simpl. apply elem_of_update_where. exists n. split; [done|].
    by rewrite (proj2 (usable_spendable i ms n) Hs). }
  destruct (extends_elem _ _ _ _ (gr_nonces _ _ (evolves_grows _ _ He Hi1)) Hu) as (n'&Hn'&[->|[Hx _]]); [|done].
  exists (with_used ms n). split_and!; [done..|]. apply Hs.
Qed.

(** C4: No replay.  After a proof was accepted, no proof with the same nonce
    is accepted again: not by the same client nor by another, not later,
    and whatever happened to the database in between. *)
Theorem no_replay i i' w w' w2 res :
  db_inv (w_db w) -> VerifyChallenge cfg i w = (w', inr res) -> evolves (w_db w') (w_db w2) ->
  sort_key (nonceHash (vi_Nonce i')) = sort_key (nonceHash (vi_Nonce i)) ->
  exists e, (VerifyChallenge cfg i' w2).2 = inl e.
Proof.
  intros Hi E He Hk. pose proof (VerifyChallenge_proved i w) as Hp. unfold wp in Hp. rewrite E in Hp.
  specialize (Hp res eq_refl). simpl in Hp. destruct (proved_used _ _ _ _ _ Hi Hp) as (n&Hn&Hu&Hnk).
  assert (db_inv (w_db w')) as Hi'.
  { eapply evolves_inv; [apply (pv_after _ _ _ _ _ Hp)|]. eapply db_effect_inv; [apply de_consume|done]. }
  destruct (extends_elem _ _ _ _ (gr_nonces _ _ (evolves_grows _ _ He Hi')) Hn) as (n'&Hn'&[->|[Hx _]]); [|congruence].
  pose proof (VerifyChallenge_proved i' w2) as Hp2. unfold wp in Hp2.
  destruct (VerifyChallenge cfg i' w2) as [w3 [e|res2]]; [eauto|]. exfalso.
  destruct (Hp2 res2 eq_refl) as [_ _ (n2&Hn2&(Hk2&_&_&Hnone&_)) _ _]. simpl in *.
  assert (n2 = n) as ->; [|congruence].
  eapply (NoDup_key_inj (fun n => sort_key (n_nonce_hash n)));
    [apply (ni_key _ (inv_nonces _ (evolves_inv _ _ He Hi')))|done..|congruence].
Qed.

(** ** An honest client *)
Lemma wp_rand_bytes n w Q : Q (set_draws (S (w_draws w)) w) (inr (rand_read n (w_draws w))) -> wp (rand_bytes n) w Q.
Proof. done. Qed.
Ltac issue_step := first [apply wp_rand_bytes; cbn [w_db w_clock w_draws w_faults w_leaked set_draws] in *|auth_step].

(** The challenge issued in a world. *)
Definition issued (client node : string) (w : World) : Challenge :=
  let nonce := rand_read 32 (w_draws w) in
  let t := truncate_ms (w_clock w) * ns_per_ms in
  mkChallenge client node nonce t (t + ChallengeTTL cfg)
    (BuildChallengePayload (Libp2pProtocolID cfg) client node nonce t (t + ChallengeTTL cfg)).
(** The answer of the owner of key [pk] with signature [sig]. *)
Definition answer (ch : Challenge) (sig pk : string) : VerifyChallengeInput :=
  mkVerifyChallengeInput (ch_ClientPeerID ch) (ch_NodePeerID ch) (ch_Nonce ch) (ch_IssuedAt ch) (ch_ExpiresAt ch) sig pk.

Lemma IssueChallenge_ok client node w :
  w_faults w = [] -> next_id (nonces (w_db w)) <= max_u64 ->
  (forall n, n ∈ rows (nonces (w_db w)) -> sort_key (n_nonce_hash n) <> sort_key (nonceHash (rand_read 32 (w_draws w)))) ->
  wp (IssueChallenge cfg client node) w (fun w1 r => r = inr (issued client node w) /\
    w_faults w1 = [] /\ w_clock w1 = w_clock w /\ w_draws w1 = S (w_draws w) /\ users (w_db w1) = users (w_db w) /\
    exists n, n ∈ rows (nonces (w_db w1)) /\ n_nonce_hash n = nonceHash (rand_read 32 (w_draws w)) /\
      n_client_peer_id n = client /\ n_node_peer_id n = node /\ n_used_at n = None /\
      n_expires_at n = datetime3 (ch_ExpiresAt (issued client node w))).
Proof.
  intros Hf Hn Hfresh. unfold IssueChallenge, StoreNonce. repeat issue_step.
  - exfalso. unfold fault in *. simpl in *. by rewrite Hf in *.
  - exfalso. match goal with E : insert_nonce _ _ _ _ _ _ _ = None |- _ => unfold insert_nonce in E; rewrite insert_row_ok in E end;
      [done..|]. intros n Hin. apply not_true_iff_false. intros E%sql_eq_spec. by eapply Hfresh.
  - match goal with E : insert_nonce _ _ _ _ _ _ _ = Some _ |- _ => unfold insert_nonce in E; apply bind_Some in E as ([tbl id]&E&?) end.
    simplify_eq. match goal with E : insert_row _ _ _ _ = _ |- _ => apply insert_row_Some in E as (_&_&_&Er&_) end.
    split; [done|]. simpl. rewrite Hf. split_and!; [done..|]. eexists. split; [rewrite Er; apply elem_of_snoc; by right|done].
Qed.

Lemma upsert_user_found ext peer pk t d :
  next_id (users d) <= max_u64 -> (forall u, u ∈ rows (users d) -> sort_key (u_user_id u) <> sort_key ext) ->
  exists d', upsert_user ext peer pk t d = Some (d', tt) /\ is_Some (user_by_peer peer d').
Proof.
  intros Hn Hfresh. unfold upsert_user.
  assert (existsb (fun u => sql_eq (u_user_id u) ext) (rows (users d)) = false) as ->.
  { apply not_true_iff_false. intros (u&Hu%list_elem_of_In&E%sql_eq_spec)%existsb_exists. by eapply Hfresh. }
  unfold upsert_row. destruct (existsb _ (rows (users d))) eqn:E.
  - eexists. split; [done|]. apply existsb_exists in E as (u&Hu%list_elem_of_In&Ep).
    eapply (first_where_is_Some _ _ (with_pubkey pk t u)); [|exact Ep]. simpl. apply elem_of_update_where.
    exists u. by rewrite Ep.
  - unfold insert_row. rewrite E. replace (max_u64 <? next_id (users d)) with false by lia. simpl. eexists. split; [done|].
    eapply first_where_is_Some; [simpl; apply elem_of_snoc; by right|]. simpl. apply sql_eq_refl.
Qed.

Lemma CreateIfNotExists_ok peer pk w :
  w_faults w = [] -> next_id (users (w_db w)) <= max_u64 ->
  (forall u, u ∈ rows (users (w_db w)) -> sort_key (u_user_id u) <> sort_key ("u_" +:+ hex_encode (rand_read 10 (w_draws w)))) ->
  wp (CreateIfNotExistsByPeerID peer pk) w (fun w' r => w_faults w' = [] /\ exists u, r = inr u).
Proof.
  intros Hf Hn Hfresh. unfold CreateIfNotExistsByPeerID, GetByPeerID.
  destruct (upsert_user_found _ peer (emptyBytesToNil pk) (truncate_ms (w_clock w)) _ Hn Hfresh) as (d'&Eu&[u0 Hu0]).
  repeat wp_step.
  all: try solve_fault.
  all: change ("u" +:+ "_" +:+ ?x) with ("u_" +:+ x) in *; simplify_eq.
  - rewrite Hu0 in *. done.
  - simpl. rewrite Hf. eauto.
Qed.

Lemma VerifyChallenge_ok i w k n :
  w_faults w = [] ->
  vi_IssuedAt i - minute <= truncate_ms (w_clock w) * ns_per_ms <= vi_ExpiresAt i ->
  UnmarshalPublicKey (vi_PublicKey i) = inr k -> IDFromPublicKey k = inr (vi_ClientPeerID i) ->
  Verify k (claimed_payload i) (vi_Signature i) = inr true ->
  n ∈ rows (nonces (w_db w)) -> spendable i (truncate_ms (w_clock w)) n ->
  next_id (users (w_db w)) <= max_u64 ->
  (forall u, u ∈ rows (users (w_db w)) -> sort_key (u_user_id u) <> sort_key ("u_" +:+ hex_encode (rand_read 10 (w_draws w)))) ->
  wp (VerifyChallenge cfg i) w (fun w' r => w_faults w' = [] /\ exists res, r = inr res).
Proof.
  intros Hf Ht Hk Hid Hsig Hn Hs Hun Huf. unfold claimed_payload in Hsig.
  unfold VerifyChallenge, UseNonce, UpdateLogin, newSessionID.
  repeat first [apply wp_rand_bytes
    |match goal with |- wp (CreateIfNotExistsByPeerID _ _) _ _ => eapply wp_mono;
       [apply CreateIfNotExists_ok; simpl; [by rewrite Hf|done..]|intros ? ? [? [? ->]]] end
    |apply wp_pure_check; intros|wp_step]; try solve_fault; eauto.
  all: repeat match goal with E1 : ?x = inr _, E2 : ?x = _ |- _ => rewrite E1 in E2; simplify_eq end.
  - bools. lia.
  - by rewrite bool_decide_true in *.
  - exfalso. bools. match goal with E : (consume_nonce _ _ _ _ _).2 = 0 |- _ => simpl in E;
      eapply count_where_pos_inv; [exact E|exact Hn|by apply usable_spendable] end.
  - split; [|eauto]. match goal with E : w_faults _ = [] |- tail (w_faults _) = [] => by rewrite E end.
Qed.

(** A time before the limit is before the limit as the column stores it. *)
Lemma datetime3_le ms x : ms * ns_per_ms <= x -> ms <= datetime3 x.
Proof.
  unfold datetime3, ns_per_ms. intros Hx. apply Z.div_le_lower_bound; [lia|].
  assert (ms * 1000 <= x / 1000) by (apply Z.div_le_lower_bound; lia). lia.
Qed.

(** An honest client gets in.  In a world without faults, when the node
    issues a challenge (its random nonce being new) and the owner of the
    key of the client's peer id answers it with a valid signature before
    it expires, the verification succeeds and yields a session. *)
Theorem honest_client_authenticates client node pk k sig w now :
  healthy w -> w_clock w <= now ->
  truncate_ms now * ns_per_ms <= ch_ExpiresAt (issued client node w) ->
  next_id (nonces (w_db w)) <= max_u64 -> next_id (users (w_db w)) <= max_u64 ->
  (forall n, n ∈ rows (nonces (w_db w)) -> sort_key (n_nonce_hash n) <> sort_key (nonceHash (rand_read 32 (w_draws w)))) ->
  (forall u, u ∈ rows (users (w_db w)) -> sort_key (u_user_id u) <> sort_key ("u_" +:+ hex_encode (rand_read 10 (S (w_draws w))))) ->
  UnmarshalPublicKey pk = inr k -> IDFromPublicKey k = inr client ->
  Verify k (ch_Payload (issued client node w)) sig = inr true ->
  exists w1 w2 res,
    IssueChallenge cfg client node w = (w1, inr (issued client node w)) /\
    VerifyChallenge cfg (answer (issued client node w) sig pk) (set_clock now w1) = (w2, inr res).
Proof.
  intros [Hf _] Hnow Hexp Hnn Hun Hnf Huf Hk Hid Hsig.
  pose proof (IssueChallenge_ok client node w Hf Hnn Hnf) as Hi. unfold wp in Hi.
  destruct (IssueChallenge cfg client node w) as [w1 r] eqn:Ei. simpl in Hi.
  destruct Hi as (->&Hf1&_&Hd1&Hu1&(n&Hn&En1&En2&En3&En4&En5)). exists w1.
  assert (truncate_ms (w_clock w) <= truncate_ms now) as Hms by (by apply Z.div_le_mono).
  pose proof (VerifyChallenge_ok (answer (issued client node w) sig pk) (set_clock now w1) k n) as Hv.
  destruct Hv as [_ [res Hres]]; simpl; try done.
  - simpl in Hexp. unfold minute, ns_per_s, ns_per_ms in *. lia.
  - unfold spendable. simpl. rewrite En1, En2, En3, En4, En5. split_and!; try done. by apply datetime3_le.
  - by rewrite Hu1.
  - rewrite Hu1, Hd1. done.
  - destruct (VerifyChallenge cfg _ (set_clock now w1)) as [w2 r]. simpl in Hres. subst. eauto.
Qed.
End auth_thms.

(** ** The concrete run *)
Definition start_world : World := Eval vm_compute in g_world demo.
Definition alice_challenge : Challenge := issued defaults "alice" "node" start_world.
Definition issued_world : World := Eval vm_compute in (IssueChallenge defaults "alice" "node" start_world).1.
Definition alice_proof : VerifyChallengeInput :=
  answer alice_challenge (demo_sign "alice" (ch_Payload alice_challenge)) "alice".
Definition proved_world : World := Eval vm_compute in (VerifyChallenge defaults alice_proof issued_world).1.
Definition alice_result : Result :=
  Eval vm_compute in match (VerifyChallenge defaults alice_proof issued_world).2 with
                     | inr r => r
                     | inl _ => mkResult "" (mkUser 0 "" "" None "" "" "" 0 0 0 0) ""
                     end.
Lemma alice_proved : VerifyChallenge defaults alice_proof issued_world = (proved_world, inr alice_result).
Proof. vm_compute. reflexivity. Qed.

Lemma authentication_sound_witness : PeerID (res_User alice_result) = "alice"%string.
Proof. exact (proj2 (proj2 (proj2 (authentication_sound defaults alice_proof issued_world proved_world alice_result alice_proved)))). Defined.

Lemma issued_inv : db_inv (w_db issued_world).
Proof.
  assert (evolves (w_db start_world) (w_db issued_world)) as He.
  { pose proof (safe_IssueChallenge defaults "alice" "node" start_world) as Hs. unfold wp in Hs.
    change (w_db (IssueChallenge defaults "alice" "node" start_world).1) with (w_db issued_world) in Hs. exact Hs. }
  eapply evolves_inv; [exact He|exact demo_inv].
Qed.

Lemma no_replay_witness : exists e, (VerifyChallenge defaults alice_proof proved_world).2 = inl e.
Proof.
  refine (no_replay defaults alice_proof alice_proof issued_world proved_world proved_world alice_result
    issued_inv alice_proved _ _); [apply rtc_refl|reflexivity].
Defined.

Lemma honest_client_authenticates_witness :
  exists w1 w2 res, IssueChallenge defaults "alice" "node" start_world = (w1, inr alice_challenge) /\
    VerifyChallenge defaults alice_proof (set_clock (demo_clock + minute) w1) = (w2, inr res).
Proof.
  apply (honest_client_authenticates defaults "alice" "node" "alice" ("alice"%string : @PubKey_t demo_libp2p)
    (demo_sign "alice" (ch_Payload alice_challenge)) start_world (demo_clock + minute)).
  - split; reflexivity.
  - vm_compute. discriminate.
  - vm_compute. discriminate.
  - vm_compute. discriminate.
  - vm_compute. discriminate.
  - apply Forall_forall. constructor.
  - apply Forall_forall. repeat constructor; vm_compute; discriminate.
  - reflexivity.
  - reflexivity.
  - vm_compute. reflexivity.
Defined.
