(* ===== verification/SessionThms.v ===== *)
(** * Sessions: who is authenticated, who receives what

    A session acts for a user only after that user's proof was accepted on
    it; a message event goes to exactly the sessions subscribed to the
    channel; a closed session is forgotten. *)
From S2P Require Import Prelude Go Encoding Schema Config Store SpaceRepo UserRepo ChannelRepo MessageRepo.
From S2P Require Import BlobRepo Proto Codec Auth Media Messaging DirectRepo DirectService DbInv Session.
From S2P Require Import SessionInv Manager Dispatch System Demo AuthThms.
Import sessionv1.

(** ** Authentication state *)
(** What a session is authenticated as. *)
Definition auth_view (g : Mgr) : gmap Sid (bool * option Result) :=
  (fun s => (authenticated s, authResult s)) <$> g_sessions g.
Definition same_auth (v : gmap Sid (bool * option Result)) (g : Mgr) : Prop := auth_view g = v.

Lemma auth_view_update sid f g :
  (forall s, authenticated (f s) = authenticated s /\ authResult (f s) = authResult s) ->
  auth_view (update_session sid f g) = auth_view g.
Proof.
  intros Hf. unfold auth_view, update_session. apply map_eq. intros i. simpl. rewrite !lookup_fmap, lookup_alter.
  case_decide; subst; [|done]. destruct (g_sessions g !! _) as [s|]; simpl; [|done]. destruct (Hf s) as [-> ->]. done.
Qed.

Section same_auth.
Context `{Env} `{Libp2p} `{MediaLib} `{Protobuf} (mc : ManagerConf) (v : gmap Sid (bool * option Result)).
Abbreviation keep := (gkeeps (same_auth v)).

Lemma auth_lift {A} (m : M A) : keep (lift m).
Proof. intros g Hg. unfold wp, lift. by destruct (m (g_world g)). Qed.
Lemma auth_sent f : keep (modify (set_sent f)).
Proof. by apply gkeeps_modify. Qed.
Lemma auth_pushed f : keep (modify (set_pushed f)).
Proof. by apply gkeeps_modify. Qed.
Lemma auth_update sid f :
  (forall s, authenticated (f s) = authenticated s /\ authResult (f s) = authResult s) -> keep (modify (update_session sid f)).
Proof. intros Hf. apply gkeeps_modify. intros g Hg. unfold same_auth. by rewrite auth_view_update. Qed.
Lemma auth_subscribe sid cid : keep (modify (SubscribeChannel sid cid)).
Proof.
  apply gkeeps_modify. intros g Hg. unfold same_auth, SubscribeChannel.
  rewrite auth_view_update; done.
Qed.
Lemma auth_unsubscribe sid cid : keep (modify (unsubscribe sid cid)).
Proof.
  apply gkeeps_modify. intros g Hg. unfold same_auth, unsubscribe.
  change (auth_view (set_subscriptions ?f ?x)) with (auth_view x). rewrite auth_view_update; done.
Qed.
Lemma auth_register sid : keep (modify (registerDirectUserSession sid)).
Proof. apply gkeeps_modify. intros g Hg. unfold registerDirectUserSession. by case_match. Qed.
End same_auth.
#[export] Hint Resolve auth_lift auth_sent auth_pushed auth_subscribe auth_unsubscribe auth_register : gkeeps.
#[export] Hint Extern 1 (gkeeps (same_auth _) (modify (update_session _ _))) => apply auth_update; done : gkeeps.

Section auth_writes.
Context `{Env} `{Libp2p} `{MediaLib} `{Protobuf} (mc : ManagerConf) (v : gmap Sid (bool * option Result)).
Abbreviation keep := (gkeeps (same_auth v)).
Lemma auth_write sid t r b : keep (write sid t r b).
Proof. unfold write. solve_gkeeps. Qed.
#[local] Hint Resolve auth_write : gkeeps.
Lemma auth_write_each t b l : keep (write_each t b l).
Proof. induction l; simpl; solve_gkeeps; done. Qed.
#[local] Hint Resolve auth_write_each : gkeeps.
Lemma auth_DeliverMessage cid m : keep (DeliverMessage mc cid m).
Proof. unfold DeliverMessage. solve_gkeeps. Qed.
Lemma auth_deliver u t b : keep (deliver_to_user u t b).
Proof. unfold deliver_to_user. solve_gkeeps. Qed.
End auth_writes.
#[export] Hint Resolve auth_write auth_write_each auth_DeliverMessage auth_deliver : gkeeps.

Section auth_dispatch.
Context `{Env} `{Libp2p} `{MediaLib} `{Protobuf} (mc : ManagerConf).

Lemma auth_handler v t h sid env u : find_handler mc t = Some h -> gkeeps (same_auth v) (h sid env u).
Proof.
  unfold find_handler. intros ([t' h']&E&->)%fmap_Some. apply find_some in E as [Hin _].
  unfold authed_handlers in Hin. simpl in Hin.
  repeat (destruct Hin as [Hin|Hin]; [injection Hin as <- <-|]); [..|done]; simpl.
  all: autounfold with handlers; solve_gkeeps.
Qed.

(** Everything but AUTH_PROVE leaves the authentication of all sessions alone. *)
Lemma auth_other v sid env : Envelope_MsgType env <> MsgType_AUTH_PROVE -> gkeeps (same_auth v) (dispatch mc sid env).
Proof.
  intros Ht. unfold dispatch. replace (Envelope_MsgType env =? MsgType_AUTH_PROVE) with false by lia.
  autounfold with handlers. solve_gkeeps. by eapply auth_handler.
Qed.

(** The challenge answer a session's AUTH_PROVE stands for. *)
Definition proof_of (prove : AuthProve) : VerifyChallengeInput :=
  mkVerifyChallengeInput (AuthProve_ClientPeerId prove) (nodePeerID mc) (AuthProve_Nonce prove)
    (i64 (AuthProve_IssuedAtMs prove) * ns_per_ms) (i64 (AuthProve_ExpiresAtMs prove) * ns_per_ms)
    (AuthProve_Signature prove) (AuthProve_PublicKey prove).

Lemma session_user_view sid g g' : auth_view g' !! sid = auth_view g !! sid -> session_user sid g' = session_user sid g.
Proof.
  unfold auth_view, session_user, user_of. rewrite !lookup_fmap.
  destruct (g_sessions g' !! sid) as [s'|], (g_sessions g !! sid) as [s|]; simpl; intros E; try done.
  by injection E as -> ->.
Qed.

Lemma wp_lift {A} (m : M A) g Q :
  Q (set_world (m (g_world g)).1 g) (m (g_world g)).2 -> wp (lift m) g Q.
Proof. unfold wp, lift. by destruct (m (g_world g)). Qed.

Lemma wp_modify f g (Q : Mgr -> Err + unit -> Prop) : Q (f g) (inr tt) -> wp (modify f) g Q.
Proof. done. Qed.
Lemma wp_gets {A} (f : Mgr -> A) g Q : Q g (inr (f g)) -> wp (gets f) g Q.
Proof. done. Qed.

(** AUTH_PROVE: nothing changes, or the session is authenticated by an accepted proof. *)
Lemma auth_prove_view sid env g :
  wp (on_AUTH_PROVE mc sid env) g (fun g' _ => auth_view g' = auth_view g \/
    exists prove res w, UnmarshalAuthProve (Envelope_Body env) = inr prove /\
      VerifyChallenge (mc_cfg mc) (proof_of prove) (g_world g) = (w, inr res) /\
      is_Some (g_sessions g !! sid) /\ auth_view g' = <[sid := (true, Some res)]> (auth_view g)).
Proof.
  unfold on_AUTH_PROVE, unmarshal. apply wp_bind, wp_pure_check; [by left|]. intros prove Hp.
  apply wp_bind. unfold Authenticate. apply wp_bind, wp_gets. simpl.
  destruct (g_sessions g !! sid) as [s|] eqn:Hs; simpl; [|by left].
  destruct (issuedChallenge s); [|by left]. apply wp_bind, wp_lift. fold (proof_of prove).
  destruct (VerifyChallenge _ _ (g_world g)) as [w [e|res]] eqn:Hv; simpl; [by left|].
  apply wp_bind, wp_modify, wp_ret.
  set (g1 := update_session sid (with_auth res) (set_world w g)).
  assert (auth_view g1 = <[sid := (true, Some res)]> (auth_view g)) as E1.
  { apply map_eq. intros i. unfold auth_view. simpl. rewrite lookup_fmap, lookup_alter.
    case_decide as Ed; subst; [rewrite Hs, lookup_insert_eq|rewrite lookup_insert_ne, lookup_fmap]; done. }
  assert (forall m : G unit, gkeeps (same_auth (auth_view g1)) m -> wp m g1 (fun g' _ => auth_view g' = auth_view g1)) as Hrest.
  { intros m Hm. by apply Hm. }
  eapply wp_mono; [apply Hrest; solve_gkeeps|]. simpl. intros g' _ ->. right. rewrite E1. eauto 10.
Qed.

(** C33: A session acts for a user only after a proof.  Processing one
    envelope changes the user a session acts for only when the envelope
    is an AUTH_PROVE on that very session whose proof was accepted, and
    then the session acts for the account the proof authenticated. *)
Theorem authenticated_only_by_proof sid env g sid' :
  session_user sid' (dispatch mc sid env g).1 <> session_user sid' g ->
  sid' = sid /\ Envelope_MsgType env = MsgType_AUTH_PROVE /\
  exists prove res w, UnmarshalAuthProve (Envelope_Body env) = inr prove /\
    VerifyChallenge (mc_cfg mc) (proof_of prove) (g_world g) = (w, inr res) /\
    session_user sid' (dispatch mc sid env g).1 = Some (res_User res).
Proof.
  intros Hne. destruct (decide (Envelope_MsgType env = MsgType_AUTH_PROVE)) as [Et|Et].
  2: { destruct Hne. apply session_user_view. by rewrite (auth_other (auth_view g) sid env Et g eq_refl). }
  assert (dispatch mc sid env g = on_AUTH_PROVE mc sid env g) as Ed.
  { unfold dispatch. rewrite Et. done. }
  rewrite Ed in *. destruct (auth_prove_view sid env g) as [E|(prove&res&w&Hp&Hv&Hs&E)].
  { destruct Hne. apply session_user_view. by rewrite E. }
  assert (sid' = sid) as ->.
  { apply dec_stable. intros Hd. apply Hne, session_user_view. by rewrite E, lookup_insert_ne by done. }
  split_and!; [done..|]. exists prove, res, w. split_and!; [done..|].
  apply (f_equal (lookup sid)) in E. unfold auth_view in E. rewrite lookup_insert_eq, lookup_fmap in E.
  apply fmap_Some in E as (s&Es&E). injection E as E3 E4. unfold session_user, user_of. rewrite Es. simpl.
  by rewrite <- E3, <- E4.
Qed.

(** Nothing but the handshake before authentication.  On a session that
    is not authenticated every envelope other than HELLO, AUTH_PROVE and
    PING is answered with the error 400 "authentication required" and
    changes neither the database nor any session table. *)
Theorem unauthenticated_rejected sid env g :
  session_user sid g = None ->
  Envelope_MsgType env ∉ [MsgType_HELLO; MsgType_AUTH_PROVE; MsgType_PING] ->
  dispatch mc sid env g = (g, inl (Errorf "authentication required")) /\
  (handle_envelope mc sid env g).1 =
  (try (writeError sid (Envelope_RequestId env) 400 "authentication required") g).1.
Proof.
  intros Hu Ht. assert (dispatch mc sid env g = (g, inl (Errorf "authentication required"))) as E.
  { unfold dispatch.
    rewrite !not_elem_of_cons in Ht. destruct Ht as (T1%Z.eqb_neq&T2%Z.eqb_neq&T3%Z.eqb_neq&_). rewrite T1, T2, T3.
    unfold mbind, SE_bind, gets. by rewrite Hu. }
  split; [done|]. unfold handle_envelope, try, mbind, SE_bind. rewrite E. simpl.
  by destruct (writeError _ _ _ _ g).
Qed.
End auth_dispatch.

(** ** Delivery *)
Section delivery.
Context `{Env} `{Libp2p} `{MediaLib} `{Protobuf} (mc : ManagerConf).

(** The message can be encoded and fits into an envelope. *)
Definition fits (ns t : Z) (b : Body) : Prop :=
  exists env bs, NewEnvelope ns t "" b = inr env /\ WriteEnvelope env = inr bs.

(** Sessions that accept writes, in the order of the targets. *)
Definition open_targets (g : Mgr) (targets : list Sid) : list Sid := filter (fun sid => sid ∉ g_broken g) targets.

Lemma write_each_eq t b targets g :
  fits (w_clock (g_world g)) t b ->
  write_each t b targets g =
  (set_sent (fun l => l ++ ((fun sid => mkSent sid t "" b) <$> open_targets g targets)) g, inr tt).
Proof.
  intros (env&bs&E1&E2). revert g E1. induction targets as [|sid targets IH]; intros g E1; simpl.
  { unfold open_targets, set_sent. simpl. rewrite app_nil_r. by destruct g. }
  unfold mbind at 1, SE_bind at 1, try. 
  assert (write sid t "" b g = if decide (sid ∈ g_broken g) then (g, inl ErrDriver)
    else (set_sent (fun l => l ++ [mkSent sid t "" b]) g, inr tt)) as ->.
  { unfold write, lift, time_now, pure_check, gets, mbind, SE_bind. simpl.
    assert (set_world (g_world g) g = g) as -> by (by destruct g). rewrite E1. simpl. rewrite E2. simpl.
    destruct (decide (sid ∈ g_broken g)); [by rewrite bool_decide_true|by rewrite bool_decide_false]. }
  unfold open_targets. rewrite filter_cons. destruct (decide (sid ∈ g_broken g)) as [Hb|Hb].
  - rewrite decide_False by naive_solver. rewrite IH by done. done.
  - rewrite decide_True by done. rewrite IH by done. unfold set_sent. simpl. by rewrite <- app_assoc.
Qed.

(** C30: A message reaches exactly its subscribers.  Delivering a message of
    a channel writes one MESSAGE_EVENT with that message to every session
    subscribed to the channel whose stream still accepts writes, and to
    nobody else, and pushes it once to every realtime subscriber of the
    channel; it changes nothing else. *)
Theorem delivery_exact cid msg g :
  fits (w_clock (g_world g)) MsgType_MESSAGE_EVENT (BMessageEvent (toMessageEvent msg (blobURLBase mc))) ->
  exists sent pushed,
    (DeliverMessage mc cid msg g) =
      (set_pushed (fun l => l ++ pushed) (set_sent (fun l => l ++ sent) g), inr tt) /\
    NoDup (sent_to <$> sent) /\
    (forall sid, sid ∈ sent_to <$> sent <-> sid ∈ default ∅ (g_subscriptions g !! cid) /\ sid ∉ g_broken g) /\
    (forall x, x ∈ sent -> sent_type x = MsgType_MESSAGE_EVENT /\
       sent_body x = BMessageEvent (toMessageEvent msg (blobURLBase mc))) /\
    NoDup pushed.*1 /\
    (forall r, r ∈ pushed.*1 <-> r ∈ default ∅ (g_realtime g !! cid)) /\
    (forall x, x ∈ pushed -> x.2 = (cid, toMessageEvent msg (blobURLBase mc))).
Proof.
  intros Hfit. set (ev := toMessageEvent msg (blobURLBase mc)) in *.
  set (targets := elements (default ∅ (g_subscriptions g !! cid))).
  set (rt := elements (default ∅ (g_realtime g !! cid))).
  exists ((fun sid => mkSent sid MsgType_MESSAGE_EVENT "" (BMessageEvent ev)) <$> open_targets g targets).
  exists ((fun r => (r, (cid, ev))) <$> rt).
  assert (forall l : list Sid, sent_to <$> ((fun sid => mkSent sid MsgType_MESSAGE_EVENT "" (BMessageEvent ev)) <$> l) = l) as Es.
  { intros l. rewrite <- list_fmap_compose. by apply list_fmap_id. }
  assert (((fun r => (r, (cid, ev))) <$> rt).*1 = rt) as Er.
  { rewrite <- list_fmap_compose. by apply list_fmap_id. }
  rewrite Es, Er. split_and!.
  - unfold DeliverMessage, gets, mbind, SE_bind. fold ev targets rt. by rewrite write_each_eq.
  - apply NoDup_filter, NoDup_elements.
  - intros sid. unfold open_targets. rewrite list_elem_of_filter. unfold targets. rewrite elem_of_elements. tauto.
  - by intros x (sid&->&_)%list_elem_of_fmap.
  - apply NoDup_elements.
  - intros r. apply elem_of_elements.
  - by intros x (r&->&_)%list_elem_of_fmap.
Qed.

(** A write leaves the tables of the manager alone. *)
Lemma write_tables sid t r b g :
  wp (write sid t r b) g (fun g' _ => g_subscriptions g' = g_subscriptions g /\ g_sessions g' = g_sessions g).
Proof.
  unfold write. apply wp_bind, wp_lift. simpl. repeat (apply wp_bind, wp_pure_check; intros; [done|]).
  apply wp_bind, wp_gets. by destruct (bool_decide _).
Qed.

(** Only members listen.  Serving SUBSCRIBE_CHANNEL_REQ either fails
    and leaves every subscription alone, or the user is a member of an
    existing channel at that moment and the effect is exactly to add this
    session to the subscribers of that channel. *)
Theorem subscribe_requires_membership sid env user g req :
  UnmarshalSubscribeChannelReq (Envelope_Body env) = inr req ->
  let cid := SubscribeChannelReq_ChannelId req in
  let g' := (on_SUBSCRIBE_CHANNEL_REQ sid env user g).1 in
  ((exists e, (on_SUBSCRIBE_CHANNEL_REQ sid env user g).2 = inl e) /\
   g_subscriptions g' = g_subscriptions g /\ g_sessions g' = g_sessions g) \/
  (is_Some (channel_by_id cid (w_db (g_world g))) /\
   is_Some (channel_member_row cid (UserDBID user) (w_db (g_world g))) /\
   g_subscriptions g' = sub_add cid sid (g_subscriptions g) /\
   g_sessions g' = alter (with_subscribed (fun c => {[cid]} ∪ c)) sid (g_sessions g)).
Proof.
  intros Hreq cid g'.
  assert (wp (on_SUBSCRIBE_CHANNEL_REQ sid env user) g (fun g' r =>
    ((exists e, r = inl e) /\ g_subscriptions g' = g_subscriptions g /\ g_sessions g' = g_sessions g) \/
    (is_Some (channel_by_id cid (w_db (g_world g))) /\
     is_Some (channel_member_row cid (UserDBID user) (w_db (g_world g))) /\
     g_subscriptions g' = sub_add cid sid (g_subscriptions g) /\
     g_sessions g' = alter (with_subscribed (fun c => {[cid]} ∪ c)) sid (g_sessions g)))) as Hw; [|done].
  unfold on_SUBSCRIBE_CHANNEL_REQ, unmarshal. rewrite Hreq. apply wp_bind, wp_ret. fold cid.
  apply wp_bind, wp_lift. set (m := IsUserMember cid (UserDBID user)).
  assert (wp m (g_world g) (fun w r => forall b, r = inr b -> w_db w = w_db (g_world g) /\ (b = true ->
    is_Some (channel_by_id cid (w_db (g_world g))) /\
    is_Some (channel_member_row cid (UserDBID user) (w_db (g_world g)))))) as Hm.
  { unfold m, IsUserMember. repeat wp_step; intros b Hb; simplify_eq. split; [done|].
    destruct (channel_by_id cid (w_db (g_world g))); [|done]. intros Hc. split; [eauto|].
    destruct (count_where_pos (is_channel_member cid (UserDBID user)) (rows (channel_members (w_db (g_world g)))))
      as (cm&Hcm&Hk); [lia|]. by eapply first_where_is_Some. }
  unfold wp in Hm. destruct (m (g_world g)) as [w [e|b]]; simpl in *; [left; eauto|].
  destruct (Hm b eq_refl) as [Hd Hb]. apply wp_bind, wp_when; intros Hn; [left; eauto|]. bools. subst b.
  destruct (Hb eq_refl) as [Hc Hcm]. apply wp_bind, wp_lift. destruct (GetByChannelID cid _) as [w2 [e|ch]]; simpl; [left; eauto|].
  apply wp_bind, wp_modify. unfold reply. eapply wp_mono; [apply write_tables|]. simpl. intros g2 r2 [-> ->]. by right.
Qed.
End delivery.

(** ** Disconnection *)
(** A closed session is forgotten: it is subscribed to no channel and is
    no direct session of the user it acted for, and the subscriptions and
    direct sessions of every other session stay as they were. *)
Theorem disconnect_forgets sid s g :
  sess_inv g -> g_sessions g !! sid = Some s ->
  let g' := unregisterSession sid g in
  g_sessions g' !! sid = None /\
  (forall cid, sid ∉ default ∅ (g_subscriptions g' !! cid)) /\
  (forall u, user_of s = Some u -> sid ∉ default ∅ (g_direct g' !! UserDBID u)) /\
  (forall sid' cid, sid' <> sid -> sid' ∈ default ∅ (g_subscriptions g' !! cid) <-> sid' ∈ default ∅ (g_subscriptions g !! cid)) /\
  (forall sid' uid, sid' <> sid -> sid' ∈ default ∅ (g_direct g' !! uid) <-> sid' ∈ default ∅ (g_direct g !! uid)).
Proof.
  intros Hi Hs g'. pose proof (sess_inv_unregister sid g Hi) as Hi'. fold g' in Hi'.
  assert (g_sessions g' !! sid = None) as Hnone.
  { unfold g'. rewrite (unregisterSession_eq sid s) by done. simpl. apply lookup_delete_eq. }
  split_and!; [done|..].
  - intros cid. fold (members_of (g_subscriptions g') cid). rewrite (se_views _ Hi'). unfold subscriptions_of.
    rewrite Hnone. set_solver.
  - intros u Hu. unfold g'. rewrite (unregisterSession_eq sid s) by done. simpl. unfold direct_after. rewrite Hu.
    fold (members_of (if decide (is_Some (g_direct g !! UserDBID u)) then sub_del (UserDBID u) sid (g_direct g) else g_direct g) (UserDBID u)).
    case_decide as Hd; [rewrite members_of_del; naive_solver|]. unfold members_of.
    destruct (g_direct g !! UserDBID u); [naive_solver|]. set_solver.
  - intros sid' cid Hne. unfold g'. rewrite (unregisterSession_eq sid s) by done. simpl.
    change (default ∅ (?m !! cid)) with (members_of m cid). rewrite members_of_del_list. naive_solver.
  - intros sid' uid Hne. unfold g'. rewrite (unregisterSession_eq sid s) by done. simpl. unfold direct_after.
    change (default ∅ (?m !! uid)) with (members_of m uid).
    destruct (user_of s) as [u|]; [|done]. case_decide; [|done]. rewrite members_of_del. naive_solver.
Qed.

(** ** Concrete runs *)
Definition greeted_events : list Event := demo_setup ++ [EvConnect 1; EvEnvelope 1 (env_of MsgType_HELLO "alice")].
Definition greeted : Mgr := Eval vm_compute in after greeted_events.

Lemma authenticated_only_by_proof_witness :
  exists prove res w, UnmarshalAuthProve (body 3 "alice") = inr prove /\
    VerifyChallenge defaults (proof_of demo_mc prove) (g_world greeted) = (w, inr res) /\
    session_user 1 (dispatch demo_mc 1 (env_of MsgType_AUTH_PROVE (body 3 "alice")) greeted).1 = Some (res_User res).
Proof.
  refine (proj2 (proj2 (authenticated_only_by_proof demo_mc 1 (env_of MsgType_AUTH_PROVE (body 3 "alice")) greeted 1 _))).
  vm_compute. discriminate.
Defined.

Lemma unauthenticated_rejected_witness :
  dispatch demo_mc 1 (env_of MsgType_SUBSCRIBE_CHANNEL_REQ (body 1 "")) greeted =
  (greeted, inl (Errorf "authentication required")).
Proof.
  refine (proj1 (unauthenticated_rejected demo_mc 1 (env_of MsgType_SUBSCRIBE_CHANNEL_REQ (body 1 "")) greeted _ _)).
  - reflexivity.
  - vm_compute. intros Hin. repeat (apply elem_of_cons in Hin as [E|Hin]; [discriminate E|]). by apply elem_of_nil in Hin.
Defined.

(** The first message of [busy], as it is loaded. *)
Definition first_message : Message :=
  Eval vm_compute in match (loadMessageByID 1 (g_world busy)).2 with
                     | inr m => m
                     | inl _ => mkMessage 0 "" 0 0 0 "" "" TypeText "" StatusNormal 0 0 None (mkContent "" [] [])
                     end.

Lemma delivery_exact_witness :
  exists sent, (DeliverMessage demo_mc 1 first_message busy).1.(g_sent) = g_sent busy ++ sent /\
    (forall sid : Sid, sid ∈ sent_to <$> sent <-> sid ∈ ({[1%positive]} : gset Sid) /\ sid ∉ g_broken busy).
Proof.
  assert (fits (w_clock (g_world busy)) MsgType_MESSAGE_EVENT
    (BMessageEvent (toMessageEvent first_message (blobURLBase demo_mc)))) as Hf.
  { unfold fits. do 2 eexists. split; [vm_compute; reflexivity|]. vm_compute. reflexivity. }
  destruct (delivery_exact demo_mc 1 first_message busy Hf) as (sent&pushed&E&_&Hs&_).
  exists sent. split; [rewrite E; reflexivity|exact Hs].
Defined.

Definition alice : User := res_User alice_result.
Definition sub_env : Envelope := env_of MsgType_SUBSCRIBE_CHANNEL_REQ (body 1 "").
Definition authed : Mgr :=
  Eval vm_compute in (dispatch demo_mc 1 (env_of MsgType_AUTH_PROVE (body 3 "alice")) greeted).1.

Lemma subscribe_requires_membership_witness :
  is_Some (channel_member_row 1 1 (w_db (g_world authed))) /\
  g_subscriptions (on_SUBSCRIBE_CHANNEL_REQ 1 sub_env alice authed).1 = sub_add 1 (1%positive : Sid) (g_subscriptions authed).
Proof.
  assert (UnmarshalSubscribeChannelReq (Envelope_Body sub_env) = inr (mkSubscribeChannelReq 1 0)) as Hq
    by (vm_compute; reflexivity).
  destruct (subscribe_requires_membership 1 sub_env alice authed (mkSubscribeChannelReq 1 0) Hq) as [Hl|Hr].
  - exfalso. destruct Hl as [[e He] _]. revert He. vm_compute. discriminate.
  - exact (conj (proj1 (proj2 Hr)) (proj1 (proj2 (proj2 Hr)))).
Defined.

Lemma disconnect_forgets_witness :
  (1%positive : Sid) ∈ default ∅ (g_subscriptions busy !! 1) /\
  (1%positive : Sid) ∉ default ∅ (g_subscriptions (unregisterSession 1 busy) !! 1).
Proof.
  refine (match g_sessions busy !! (1%positive : Sid) as o return g_sessions busy !! (1%positive : Sid) = o -> _ with
          | Some s => fun E => conj _ (proj1 (proj2 (disconnect_forgets 1 s busy _ E)) 1)
          | None => fun E => _ end eq_refl).
  - vm_compute. reflexivity.
  - exact (proj2 (reachable_inv demo_mc busy busy_reachable)).
  - exfalso. revert E. vm_compute. discriminate.
Defined.
