(* ===== verification/CodecThms.v ===== *)
(** * The envelope codec: framing round trip and bounds *)
From S2P Require Import Prelude Go Encoding Proto Codec Demo.
Import sessionv1.

(** ** Big-endian words *)
Lemma Z_of_byte_of_Z z : Z_of_byte (byte_of_Z z) = z mod 256.
Proof.
  unfold Z_of_byte, byte_of_Z, byte. pose proof (Z.mod_pos_bound z 256 ltac:(lia)).
  rewrite Ascii.nat_ascii_embedding by lia. lia.
Qed.

Lemma be32_roundtrip z : 0 <= z <= max_u32 -> be32_decode (be32 z) = z.
Proof.
  intros Hz. unfold be32_decode, be32. cbn [fold_left].
  rewrite !Z_of_byte_of_Z, !Z.shiftr_div_pow2, !Z.shiftl_mul_pow2 by lia.
  change (2 ^ 24) with 16777216. change (2 ^ 16) with 65536. change (2 ^ 8) with 256.
  unfold max_u32 in Hz. Z.to_euclidean_division_equations. lia.
Qed.

Lemma ReadFull_app l r : ReadFull (length l) (l ++ r) = (r, inr l).
Proof.
  unfold ReadFull. rewrite length_app. replace (length l <=? length l + length r)%nat with true by (symmetry; apply Nat.leb_le; lia).
  by rewrite drop_app_length, take_app_length.
Qed.

Section codec_thms.
Context `{Protobuf}.

(** The law of the protobuf runtime: what it encodes it decodes to the same message. *)
Definition decodable (env : Envelope) : Prop :=
  forall s, MarshalEnvelope env = inr s -> UnmarshalEnvelope s = inr env.

(** A written envelope is a header with the payload's length and the payload, within the cap. *)
Lemma WriteEnvelope_Some env bs :
  WriteEnvelope env = inr bs ->
  exists payload, MarshalEnvelope env = inr payload /\ strlen payload <= MaxEnvelopeBytes /\
    bs = be32 (strlen payload) ++ to_bytes payload /\ be32_decode (be32 (strlen payload)) = strlen payload.
Proof.
  unfold WriteEnvelope. destruct (MarshalEnvelope env) as [e|payload]; [done|].
  destruct (MaxEnvelopeBytes <? strlen payload) eqn:Hcap; [done|]. intros E. simplify_eq. exists payload.
  assert (0 <= strlen payload <= max_u32).
  { change MaxEnvelopeBytes with 8388608 in Hcap. unfold strlen, zlen, max_u32 in *. lia. }
  rewrite u32_small by done. split_and!; [done|lia|done|by apply be32_roundtrip].
Qed.

Lemma ReadEnvelope_written env bs rest :
  decodable env -> WriteEnvelope env = inr bs -> ReadEnvelope (bs ++ rest) = (rest, inr env).
Proof.
  intros Hd (payload&Hp&Hcap&->&Hb)%WriteEnvelope_Some. unfold ReadEnvelope.
  rewrite <- app_assoc. rewrite (ReadFull_app (be32 _)), Hb.
  replace (MaxEnvelopeBytes <? strlen payload) with false by lia.
  replace (Z.to_nat (strlen payload)) with (length (to_bytes payload)) by (unfold strlen, zlen; lia).
  rewrite ReadFull_app, of_to_bytes. by rewrite (Hd _ Hp).
Qed.

Lemma written_length env bs : WriteEnvelope env = inr bs -> (4 <= length bs)%nat.
Proof. intros (payload&_&_&->&_)%WriteEnvelope_Some. rewrite length_app. simpl. lia. Qed.

Lemma read_all_written fuel envs parts :
  Forall decodable envs -> Forall2 (fun env bs => WriteEnvelope env = inr bs) envs parts ->
  (length (concat parts) < fuel)%nat -> read_all fuel (concat parts) = (envs, EOF).
Proof.
  intros Hd Hw. revert fuel Hd. induction Hw as [|env bs envs parts Hw _ IH]; intros fuel Hd Hf.
  { by destruct fuel. }
  destruct fuel as [|fuel]; [simpl in Hf; lia|]. apply Forall_cons in Hd as [Hd1 Hd2].
  cbn [read_all concat]. rewrite (ReadEnvelope_written _ _ _ Hd1 Hw).
  pose proof (written_length _ _ Hw). simpl in Hf. rewrite length_app in Hf. rewrite IH by (done || lia). done.
Qed.

(** C35: What is written is read back.  A stream on which envelopes were
    written one after the other is read as exactly those envelopes, in
    order, and then ends with a clean end of file; and reading one of them
    leaves whatever follows it untouched. *)
Theorem stream_roundtrip envs parts rest :
  Forall decodable envs -> Forall2 (fun env bs => WriteEnvelope env = inr bs) envs parts ->
  read_stream (concat parts) = (envs, EOF) /\
  (forall env bs, (env, bs) ∈ zip envs parts -> ReadEnvelope (bs ++ rest) = (rest, inr env)).
Proof.
  intros Hd Hw. split; [apply read_all_written; [done..|lia]|]. intros env bs Hin.
  apply elem_of_lookup_zip_with in Hin as (i&x&y&E&Hx&Hy). simplify_eq.
  apply ReadEnvelope_written; [by eapply (proj1 (Forall_lookup _ _) Hd)|]. by eapply (Forall2_lookup_lr _ _ _ _ _ _ Hw).
Qed.

(** A frame that is cut anywhere gives no envelope. *)
Lemma ReadFull_short n r : (length r < n)%nat -> exists e, ReadFull n r = ([], inl e).
Proof. intros Hr. unfold ReadFull. replace (n <=? length r)%nat with false by (symmetry; apply Nat.leb_gt; lia). eauto. Qed.

(** C36: No partial or oversized envelope is ever handled.  A frame cut
    short at any byte gives an error, not an envelope; a header that
    announces more than [MaxEnvelopeBytes] is refused before any of the
    payload is read; and a successful read takes at most four bytes more
    than [MaxEnvelopeBytes] from the stream, from its front. *)
Theorem read_bounded :
  (forall env bs n, WriteEnvelope env = inr bs -> (n < length bs)%nat ->
     exists e, ReadEnvelope (take n bs) = ([], inl e)) /\
  (forall z rest, MaxEnvelopeBytes < z <= max_u32 ->
     exists e, ReadEnvelope (be32 z ++ rest) = (rest, inl e) /\ errors_is e ErrEnvelopeTooLarge = true) /\
  (forall r r' env, ReadEnvelope r = (r', inr env) ->
     exists frame, r = frame ++ r' /\ 4 <= zlen frame <= 4 + MaxEnvelopeBytes).
Proof.
  split_and!.
  - intros env bs n (payload&_&Hcap&->&Hb)%WriteEnvelope_Some Hn. unfold ReadEnvelope.
    rewrite length_app in Hn. simpl in Hn. destruct (decide (n < 4)%nat) as [Hs|Hs].
    { destruct (ReadFull_short 4 (take n (be32 (strlen payload) ++ to_bytes payload))) as [e ->]; [|eauto].
      rewrite length_take. lia. }
    rewrite take_app_ge by (simpl; lia). rewrite (ReadFull_app (be32 _)), Hb.
    replace (MaxEnvelopeBytes <? strlen payload) with false by lia.
    destruct (ReadFull_short (Z.to_nat (strlen payload)) (take (n - length (be32 (strlen payload))) (to_bytes payload)))
      as [e ->]; [|eauto]. rewrite length_take. unfold strlen, zlen. simpl. lia.
  - intros z rest Hz. unfold ReadEnvelope. rewrite (ReadFull_app (be32 _)).
    change MaxEnvelopeBytes with 8388608 in *. rewrite be32_roundtrip by lia.
    replace (8388608 <? z) with true by lia. eexists. split; [done|]. vm_compute. done.
  - intros r r' env. unfold ReadEnvelope, ReadFull.
    destruct (4 <=? length r)%nat eqn:H4; [|done]. apply Nat.leb_le in H4.
    destruct (MaxEnvelopeBytes <? _) eqn:Hcap; [done|].
    set (len := be32_decode (take 4 r)) in *. destruct (Z.to_nat len <=? length (drop 4 r))%nat eqn:Hl; [|done].
    apply Nat.leb_le in Hl. destruct (UnmarshalEnvelope _); [done|]. intros E. simplify_eq.
    exists (take 4 r ++ take (Z.to_nat len) (drop 4 r)). rewrite <- app_assoc, !take_drop. split; [done|].
    change MaxEnvelopeBytes with 8388608 in *.
    rewrite length_drop in Hl. unfold zlen. rewrite length_app, !length_take, length_drop. lia.
Qed.
End codec_thms.

(** ** Concrete streams *)
Definition demo_stream : list Envelope := [env_of MsgType_HELLO "alice"; env_of MsgType_PING "p"].
Definition demo_parts : list bytes :=
  Eval vm_compute in (fun env => match WriteEnvelope env with inr bs => bs | inl _ => [] end) <$> demo_stream.

Lemma stream_roundtrip_witness : read_stream (concat demo_parts) = (demo_stream, EOF).
Proof.
  refine (proj1 (stream_roundtrip demo_stream demo_parts [] _ _)).
  - unfold demo_stream. repeat apply Forall_cons_2; [| |apply Forall_nil_2].
    all: intros s E; vm_compute in E; injection E as <-; vm_compute; reflexivity.
  - unfold demo_stream, demo_parts. repeat apply Forall2_cons_2; [| |apply Forall2_nil_2]; vm_compute; reflexivity.
Defined.
