(* ===== verification/Paging.v ===== *)
(** * Page-wise reading loses nothing

    Clients read channel messages, pending direct messages and member
    lists in pages: ask for the items after a key, continue from the key
    of the last item while the server says there is more.  The loop is
    analysed once, for any page function that meets its contract; the
    three page functions of the program meet it. *)
From S2P Require Import Prelude Go Encoding Schema Config Store SpaceRepo SpaceInv UserRepo ChannelRepo ChannelInv SeqLog.
From S2P Require Import MessageRepo MessageInv DirectRepo DirectInv Proto Codec Messaging DirectService DbInv.
From S2P Require Import Media Session Manager System Demo.
Import sessionv1.

(** ** Sorted lists and their tails *)
Section tails.
Context {A : Type} (key : A -> Z).

Definition beyond (k : Z) (l : list A) : list A := where_ (fun x => k <? key x) l.
Definition ascending (l : list A) : Prop := StronglySorted Z.lt (map key l).

Lemma ascending_cons x l : ascending (x :: l) <-> ascending l /\ forall y, y ∈ l -> key x < key y.
Proof.
  unfold ascending. simpl. split.
  - intros Hs. apply StronglySorted_inv in Hs as [Hs Hall]. split; [done|]. intros y Hy.
    apply (proj1 (Forall_forall _ _) Hall). apply elem_of_map. eauto.
  - intros [Hs Hlt]. constructor; [done|]. apply Forall_forall. intros z (y&Hy&->)%elem_of_map. auto.
Qed.

Lemma ascending_where p l : ascending l -> ascending (where_ p l).
Proof.
  induction l as [|x l IH]; [done|]. intros [Hs Hlt]%ascending_cons. unfold where_. simpl.
  destruct (p x); [|by apply IH]. apply ascending_cons. split; [by apply IH|].
  intros y Hy%elem_of_where. apply Hlt. tauto.
Qed.

Lemma beyond_all k l : (forall x, x ∈ l -> k < key x) -> beyond k l = l.
Proof.
  intros Hl. unfold beyond. rewrite <- (where_ext (fun _ => true)); [|intros x Hx; specialize (Hl x Hx); lia].
  unfold where_. induction l as [|x l IH]; [done|]. simpl. f_equal. apply IH. intros y Hy. apply Hl. by right.
Qed.

(** What follows the last item of a page is what lies beyond its key. *)
Lemma beyond_split k l l1 x l2 : ascending l -> beyond k l = l1 ++ x :: l2 -> beyond (key x) l = l2.
Proof.
  revert l1. induction l as [|y l IH]; intros l1; [by destruct l1|].
  intros [Hs Hlt]%ascending_cons. unfold beyond, where_. simpl.
  fold (where_ (fun z => k <? key z) l) (where_ (fun z => key x <? key z) l). fold (beyond k l) (beyond (key x) l).
  destruct (k <? key y) eqn:Hk.
  - destruct l1 as [|z l1]; intros E; simplify_eq/=.
    + replace (key x <? key x) with false by lia.
      assert (beyond k l = l) as -> by (apply beyond_all; intros z Hz; specialize (Hlt z Hz); lia).
      by apply beyond_all.
    + assert (x ∈ l) as Hx.
      { assert (x ∈ beyond k l) as Hx%elem_of_where by (rewrite H0; set_solver). tauto. }
      specialize (Hlt x Hx). replace (key x <? key z) with false by lia. by eapply IH.
  - intros E. assert (x ∈ l) as Hx.
    { assert (x ∈ beyond k l) as Hx%elem_of_where by (rewrite E; set_solver). tauto. }
    specialize (Hlt x Hx). replace (key x <? key y) with false by lia. by eapply IH.
Qed.

(** Sorting an ascending list by its key changes nothing. *)
Lemma merge_sort_ascending (R : A -> A -> Prop) `{!RelDecision R} l :
  (forall x y, R x y <-> key x <= key y) -> ascending l -> merge_sort R l = l.
Proof.
  intros HR Hl.
  assert (Transitive R) by (intros x y z; rewrite !HR; lia).
  assert (Total R) by (intros x y; rewrite !HR; lia).
  assert (forall l, ascending l -> StronglySorted R l) as Hsort.
  { clear l Hl. induction l as [|x l IH]; [constructor|]. intros [Hs Hlt]%ascending_cons. constructor; [by apply IH|].
    apply Forall_forall. intros y Hy. apply HR. specialize (Hlt y Hy). lia. }
  apply (StronglySorted_unique_strong R); [|apply StronglySorted_merge_sort; apply _|by apply Hsort|apply merge_sort_Permutation].
  intros x y Hx Hy Hxy Hyx. assert (key x = key y) as Ek by (apply HR in Hxy, Hyx; lia).
  rewrite merge_sort_Permutation in Hx. eapply (NoDup_key_inj key); [|done..].
  clear -Hl. unfold ascending in Hl. induction Hl as [|z zs Hzs IH Hall]; constructor; [|done].
  intros Hin. pose proof (proj1 (Forall_forall _ _) Hall z Hin). lia.
Qed.
End tails.

(** ** The client's loop *)
(** Pages from key [k] on, until the server reports no more; a client with no [fuel] left gives up. *)
Fixpoint collect {B} (fuel : nat) (page : Z -> M (list B * Z * bool)) (k : Z) : M (list B) :=
  match fuel with
  | O => throw (Errorf "gave up")
  | S fuel =>
    '(items, next, more) ← page k;
    if (more : bool) then rest ← collect fuel page next; mret (items ++ rest) else mret items
  end.

(** The contract of a page over the ascending list [l] of what there is to
    read: a first part of what lies beyond [k], each item shown as [R] says,
    the key to continue from, and whether to continue. *)
Definition page_ok {A B} (key : A -> Z) (l : list A) (R : A -> B -> Prop) (k : Z)
    (items : list B) (next : Z) (more : bool) : Prop :=
  exists size, let part := take size (beyond key k l) in
    Forall2 R part items /\
    next = match last part with Some x => key x | None => k end /\
    (if more then part <> [] else (length (beyond key k l) <= size)%nat).

Section loop.
Context {A B : Type} (key : A -> Z) (l : list A) (R : A -> B -> Prop).
Context (page : Z -> M (list B * Z * bool)) (good : World -> Prop).
Context (Hasc : ascending key l).
Context (Hpage : forall k w, good w -> exists w' items next more,
  page k w = (w', inr (items, next, more)) /\ good w' /\ page_ok key l R k items next more).

(** The loop ends and reads everything beyond [k], once and in order. *)
Lemma collect_all fuel k w :
  good w -> (length (beyond key k l) < fuel)%nat ->
  exists w' items, collect fuel page k w = (w', inr items) /\ good w' /\ Forall2 R (beyond key k l) items.
Proof.
  revert k w. induction fuel as [|fuel IH]; intros k w Hg Hf; [lia|].
  destruct (Hpage k w Hg) as (w1&items&next&more&E&Hg1&size&Hi&Hn&Hm). simpl.
  unfold mbind at 1, SE_bind at 1. rewrite E. destruct more; simpl.
  2: { exists w1, items. split; [done|]. split; [done|]. by rewrite take_ge in Hi. }
  destruct (last (take size (beyond key k l))) as [x|] eqn:Hx; [|by apply last_None in Hx].
  apply last_Some in Hx as [l1 Hl1].
  assert (beyond key k l = l1 ++ x :: drop size (beyond key k l)) as Hsplit.
  { rewrite <- (take_drop size (beyond key k l)) at 1. by rewrite Hl1, <- app_assoc. }
  pose proof (beyond_split key k l l1 x _ Hasc Hsplit) as Hb. subst next.
  destruct (IH (key x) w1 Hg1) as (w2&rest&E2&Hg2&Hr).
  { rewrite Hb. rewrite Hsplit, length_app in Hf. simpl in Hf. lia. }
  exists w2, (items ++ rest). unfold mbind, SE_bind. rewrite E2. split; [done|]. split; [done|].
  rewrite <- (take_drop size (beyond key k l)). rewrite Hb in Hr. by apply Forall2_app.
Qed.
End loop.

(** Items that are computed from the rows. *)
Definition image {A B} (f : A -> B) (x : A) (y : B) : Prop := y = f x.
Lemma Forall2_image {A B} (f : A -> B) l l' : Forall2 (image f) l l' <-> l' = f <$> l.
Proof.
  split; [induction 1 as [|x y l l' -> _ ->]; done|]. intros ->. induction l; constructor; done.
Qed.

(** ** Joins that keep the row *)
Section joins.
Context {R S : Type} (f : R -> option S).
(** Filtering before or after the join is the same. *)
Lemma omap_where p q l :
  (forall x y, f x = Some y -> q y = p x) -> omap f (where_ p l) = where_ q (omap f l).
Proof.
  intros Hf. unfold where_. induction l as [|x l IH]; [done|]. simpl.
  destruct (f x) as [y|] eqn:E; simpl.
  - rewrite (Hf _ _ E). destruct (p x); simpl; [rewrite E; by f_equal|done].
  - destruct (p x); simpl; [by rewrite E|done].
Qed.
Lemma length_omap l : (length (omap f l) <= length l)%nat.
Proof. induction l as [|x l IH]; [done|]. simpl. destruct (f x); simpl; unfold omap in *; lia. Qed.
Lemma ascending_omap (key : R -> Z) (key' : S -> Z) l :
  (forall x y, f x = Some y -> key' y = key x) -> ascending key l -> ascending key' (omap f l).
Proof.
  intros Hf. induction l as [|x l IH]; [done|]. intros [Hs Hlt]%ascending_cons. simpl.
  destruct (f x) as [y|] eqn:E; [|by apply IH]. apply ascending_cons. split; [by apply IH|].
  intros z (x'&Hx'&Ez)%list_elem_of_omap. rewrite (Hf _ _ E), (Hf _ _ Ez). auto.
Qed.
End joins.

Lemma where_perm {A} (p : A -> bool) l l' : l ≡ₚ l' -> where_ p l ≡ₚ where_ p l'.
Proof.
  unfold where_. induction 1 as [|x l l' _ IH|x y l|l1 l2 l3 _ IH1 _ IH2]; simpl; [done|by case_match; rewrite ?IH| |by rewrite IH1].
  destruct (p x), (p y); done || apply Permutation_swap.
Qed.
Lemma Forall2_map_eq {A B C} (R : A -> B -> Prop) (f : A -> C) (g : B -> C) l l' :
  (forall x y, R x y -> f x = g y) -> Forall2 R l l' -> f <$> l = g <$> l'.
Proof. intros HR. induction 1 as [|x y l l' Hx _ IH]; [done|]. simpl. f_equal; auto. Qed.
Lemma StronglySorted_where {A} (R : A -> A -> Prop) p l : StronglySorted R l -> StronglySorted R (where_ p l).
Proof.
  induction 1 as [|x l _ IH Hx]; [constructor|]. unfold where_ in *. simpl. destruct (p x); [|done].
  constructor; [done|]. apply Forall_forall. intros y Hy%elem_of_where.
  rewrite Forall_forall in Hx. apply Hx. tauto.
Qed.

(** ** Messages of a channel *)
Section channel_pages.
Context `{Env} `{MediaLib} (cfg : Config).

(** The messages of a channel that are not deleted, with the external ids of their senders. *)
Definition readable (cid : Z) (d : DB) : list (MessageRow * string) :=
  omap (joined_message d) (where_ (fun m => (m_channel_id m =? cid) && is_normal m) (rows (messages d))).
Definition row_seq (r : MessageRow * string) : Z := m_seq r.1.

(** The attachments stored for a message, with the media they refer to. *)
Definition attached (d : DB) (mid : Z) : list (AttachmentRow * Attachment) :=
  omap (joined_attachment d) (where_ (fun ma => ma_message_id ma =? mid) (rows (message_attachments d))).
(** The message shown for a row: its fields and all its attachments, in their stored order. *)
Definition shows (d : DB) (r : MessageRow * string) (m : Message) : Prop :=
  exists atts, atts ≡ₚ attached d (m_id r.1) /\ StronglySorted by_attachment atts /\ m = to_message atts r.

Lemma shows_seq d r m : shows d r m -> row_seq r = Seq m.
Proof. by intros (atts&_&_&->). Qed.
#[local] Instance by_attachment_trans : Transitive by_attachment.
Proof. intros a b c. unfold by_attachment. lia. Qed.
#[local] Instance by_attachment_total : Total by_attachment.
Proof. intros a b. unfold by_attachment. lia. Qed.
Lemma joined_attachment_row d ma a : joined_attachment d ma = Some a -> a.1 = ma.
Proof. unfold joined_attachment. intros (mo&_&E)%bind_Some. apply bind_Some in E as (b&_&E). by simplify_eq. Qed.

Lemma joined_message_row d m r : joined_message d m = Some r -> r.1 = m.
Proof.
  unfold joined_message. destruct (channel_by_id _ _); [|done]. simpl. destruct (user_by_id _ _); [|done].
  simpl. intros E. by simplify_eq.
Qed.

Lemma readable_ascending cid c d :
  msg_base d -> channel_by_id cid d = Some c -> ascending row_seq (readable cid d).
Proof.
  intros Hb [Hc Hin]%channel_by_id_Some. unfold readable.
  apply (ascending_omap _ m_seq); [by intros m r <-%joined_message_row|].
  rewrite <- (where_where is_normal (fun m => m_channel_id m =? cid)). apply ascending_where.
  pose proof (log_ok_sorted c _ (mg_log _ Hb c Hin)) as Hs. simpl in Hs. by rewrite Hc in Hs.
Qed.

Lemma messages_after_eq cid c after d :
  msg_base d -> channel_by_id cid d = Some c -> messages_after cid after d = beyond row_seq after (readable cid d).
Proof.
  intros Hb Hc. unfold messages_after.
  assert (omap (joined_message d) (where_ (fun m => (m_channel_id m =? cid) && (after <? m_seq m) && is_normal m) (rows (messages d)))
          = beyond row_seq after (readable cid d)) as ->.
  { unfold beyond, readable. rewrite <- (omap_where (joined_message d) (fun m => after <? m_seq m)) by (by intros m r <-%joined_message_row).
    rewrite where_where. f_equal. apply where_ext. intros m _. by destruct (m_channel_id m =? cid), (after <? m_seq m), (is_normal m). }
  apply (merge_sort_ascending row_seq); [|by apply ascending_where; eapply readable_ascending].
  done.
Qed.

Lemma hydrate_calm rs w :
  w_faults w = [] -> exists items, hydrateMessages rs w = (w, inr items) /\ Forall2 (shows (w_db w)) rs items.
Proof.
  intros Hw. destruct rs as [|r0 rs]; [exists []; split; [done|constructor]|]. set (l := r0 :: rs). unfold hydrateMessages.
  change (match l with [] => _ | _ :: _ => ?x end) with x. eexists.
  rewrite (bind_run _ _ _ _ _ (map_err_run _ _ _ _ _ (query_calm w Hw _))). split; [done|].
  set (atts := merge_sort _ _). apply Forall2_fmap_r, Forall_Forall2_diag, Forall_forall. intros r Hr.
  set (mine := fun a : AttachmentRow * Attachment => ma_message_id a.1 =? m_id r.1).
  exists (where_ mine atts). split; [|split].
  - unfold atts, attached. rewrite (where_perm mine _ _ (merge_sort_Permutation by_attachment _)).
    rewrite <- (omap_where (joined_attachment (w_db w)) (fun ma => ma_message_id ma =? m_id r.1)) by (by intros ma a <-%joined_attachment_row).
    rewrite where_where, (where_ext _ (fun ma => ma_message_id ma =? m_id r.1)); [done|]. intros ma _.
    destruct (ma_message_id ma =? m_id r.1) eqn:E; [|by rewrite andb_false_r]. rewrite andb_true_r. apply existsb_exists.
    exists r. split; [by apply list_elem_of_In|lia].
  - apply StronglySorted_where, StronglySorted_merge_sort; apply _.
  - assert (where_ mine (where_ mine atts) = where_ mine atts) as Em.
    { rewrite where_where. apply where_ext. intros a _. by destruct (mine a). }
    unfold to_message. fold mine. by rewrite Em.
Qed.

Lemma ListAfterSeq_calm cid k n w :
  w_faults w = [] -> exists items, ListAfterSeq cid k n w = (w, inr items) /\
    Forall2 (shows (w_db w)) (take (Z.to_nat n) (messages_after cid k (w_db w))) items.
Proof.
  intros Hw. destruct (hydrate_calm (take (Z.to_nat n) (messages_after cid k (w_db w))) w Hw) as (items&E&Hi).
  exists items. split; [|done]. unfold ListAfterSeq. by rewrite (bind_run _ _ _ _ _ (map_err_run _ _ _ _ _ (query_calm w Hw _))).
Qed.

(** The number of messages of a page. *)
Definition page_size (limit : Z) : Z :=
  let limit := if limit =? 0 then DefaultSyncLimit cfg else limit in
  if MaxSyncLimit cfg <? limit then MaxSyncLimit cfg else limit.

Lemma SyncChannel_page uid cid c k limit d :
  msg_base d -> channel_by_id cid d = Some c -> is_Some (channel_member_row cid uid d) ->
  0 < page_size limit < max_u32 ->
  forall w, w_faults w = [] -> w_db w = d -> exists items next more,
    SyncChannel cfg uid cid k limit w = (w, inr (items, next, more)) /\
    page_ok row_seq (readable cid d) (shows d) k items next more.
Proof.
  intros Hb Hc [cm Hcm] Hsize w Hw Hd. unfold SyncChannel, IsUserMember.
  rewrite (bind_run _ _ _ _ _ (map_err_run _ _ _ _ _ (query_calm w Hw _))). rewrite Hd, Hc.
  assert ((0 <? count_where (is_channel_member cid uid) (rows (channel_members d))) = true) as ->.
  { apply first_where_Some in Hcm as [Hk Hin]. pose proof (count_where_nonneg (is_channel_member cid uid) (rows (channel_members d))).
    assert (count_where (is_channel_member cid uid) (rows (channel_members d)) <> 0) by (intros E; by eapply count_where_pos_inv).
    lia. }
  rewrite (bind_run _ _ w w tt) by done. fold (page_size limit). set (n := page_size limit) in *.
  rewrite (u32_small (n + 1)) by lia. destruct (ListAfterSeq_calm cid k (n + 1) w Hw) as (items0&E&Hall).
  rewrite Hd, (messages_after_eq cid c) in Hall by done. rewrite (bind_run _ _ _ _ _ E). set (l := beyond row_seq k (readable cid d)) in *.
  assert (zlen items0 = Z.min (n + 1) (zlen l)) as Hlen.
  { unfold zlen. rewrite <- (Forall2_length _ _ _ Hall), length_take. lia. }
  assert (u32 (zlen items0) = zlen items0) as -> by (apply u32_small; unfold zlen in *; lia).
  set (items := if n <? zlen items0 then take (Z.to_nat n) items0 else items0).
  assert (Forall2 (shows d) (take (Z.to_nat n) l) items) as Hitems.
  { unfold items. destruct (n <? zlen items0) eqn:Hm.
    - apply (Forall2_take _ _ _ (Z.to_nat n)) in Hall. rewrite take_take in Hall. by replace (Z.to_nat n `min` Z.to_nat (n + 1))%nat with (Z.to_nat n) in Hall by lia.
    - unfold zlen in *. rewrite take_ge in Hall by lia. by rewrite take_ge by lia. }
  do 3 eexists. split; [done|]. exists (Z.to_nat n). simpl. fold l. split_and!; [done| |].
  - pose proof (Forall2_map_eq _ row_seq Seq _ _ (shows_seq _) Hitems) as Em.
    apply (f_equal last) in Em. rewrite !fmap_last in Em. destruct (last items), (last (take _ l)); by simplify_eq/=.
  - unfold items. destruct (n <? zlen items0) eqn:Hm; unfold zlen in *; [|lia].
    intros E2%(f_equal length). rewrite length_take in E2. simpl in E2. lia.
Qed.

(** C15: Synchronisation is complete.  On a database that works, a member
    who keeps asking for the next page of a channel, from any position,
    stops after at most one page more than there are messages and has then
    received every message of the channel beyond that position that is not
    deleted, each once and in the order of the sequence numbers, with all
    fields stored for it and all its attachments in their stored order.
    The size of a page is the limit asked for, the default for 0, cut to
    the configured maximum; it must be less than 2^32 - 1, since the code
    asks the database for one message more. *)
Theorem channel_sync_complete uid cid c k limit w :
  db_inv (w_db w) -> w_faults w = [] -> channel_by_id cid (w_db w) = Some c ->
  is_Some (channel_member_row cid uid (w_db w)) -> 0 < page_size limit < max_u32 ->
  let wanted := where_ (fun m => (m_channel_id m =? cid) && is_normal m && (k <? m_seq m)) (rows (messages (w_db w))) in
  StronglySorted Z.lt (map m_seq wanted) /\
  exists items, collect (S (length wanted)) (fun k => SyncChannel cfg uid cid k limit) k w = (w, inr items) /\
    Forall2 (shows (w_db w)) (omap (joined_message (w_db w)) wanted) items.
Proof.
  intros Hi Hw Hc Hm Hsize wanted. set (d := w_db w) in *. pose proof (mg_base _ (inv_messages _ Hi)) as Hb.
  assert (beyond row_seq k (readable cid d) = omap (joined_message d) wanted) as Eb.
  { unfold beyond, readable. rewrite <- (omap_where (joined_message d) (fun m => k <? m_seq m)) by (by intros m r <-%joined_message_row).
    by rewrite where_where. }
  split.
  - unfold wanted. rewrite <- (where_where (fun m => k <? m_seq m)), <- (where_where is_normal).
    apply (ascending_where m_seq), (ascending_where m_seq). apply channel_by_id_Some in Hc as [Hc Hin].
    pose proof (log_ok_sorted c _ (mg_log _ Hb c Hin)) as Hs. simpl in Hs. by rewrite Hc in Hs.
  - destruct (collect_all row_seq (readable cid d) (shows d)
      (fun k => SyncChannel cfg uid cid k limit) (eq w)) with (fuel := S (length wanted)) (k := k) (w := w)
      as (w'&items&E&<-&Hitems).
    + by eapply readable_ascending.
    + intros k' ? <-. destruct (SyncChannel_page uid cid c k' limit d Hb Hc Hm Hsize w Hw eq_refl) as (items&next&more&E&Hp).
      by exists w, items, next, more.
    + done.
    + rewrite Eb. pose proof (length_omap (joined_message d) wanted). lia.
    + exists items. by rewrite Eb in Hitems.
Qed.
End channel_pages.

(** ** Pending direct messages *)
Section direct_pages.
Context `{Env}.

Definition pending (cid : string) (uid : Z) (m : DirectRow) : bool :=
  sql_eq (dm_conversation_id m) cid && (dm_recipient_user_id m =? uid) && (dm_recipient_acked_at_ms m =@ None).
Definition undelivered (cid : string) (uid : Z) (d : DB) : list DirectMessage :=
  omap (to_direct d) (where_ (pending cid uid) (rows (direct_messages d))).
Definition direct_page (uid : Z) (conv : string) (limit k : Z) : M (list DirectMessageEvent * Z * bool) :=
  r ← SyncDirectMessages uid (mkSyncDirectMessagesReq conv k limit);
  mret (SyncDirectMessagesResp_Messages r, SyncDirectMessagesResp_NextAfterSeq r, SyncDirectMessagesResp_HasMore r).

Lemma to_direct_seq d m x : to_direct d m = Some x -> DMSeq x = dm_seq m.
Proof.
  unfold to_direct. intros (su&_&E)%bind_Some. apply bind_Some in E as (ru&_&E). by simplify_eq.
Qed.

Lemma pending_rows_ascending cid c uid d :
  direct_inv d -> conv_by_external cid d = Some c ->
  ascending dm_seq (where_ (pending cid uid) (rows (direct_messages d))).
Proof.
  intros Hi [Ek Hin]%conv_by_external_Some.
  rewrite (where_ext _ (fun m => log_in c m && ((dm_recipient_user_id m =? uid) && (dm_recipient_acked_at_ms m =@ None)))).
  - rewrite <- where_where. apply ascending_where. apply (log_ok_sorted c _ (di_log _ Hi c Hin)).
  - intros m _. unfold pending. simpl. unfold sql_eq. by rewrite Ek, andb_assoc.
Qed.

Lemma pending_after_eq cid c uid k d :
  direct_inv d -> conv_by_external cid d = Some c -> pending_after cid uid k d = beyond DMSeq k (undelivered cid uid d).
Proof.
  intros Hi Hc. unfold pending_after, beyond, undelivered.
  rewrite <- (omap_where (to_direct d) (fun m => k <? dm_seq m)) by (by intros m x ->%to_direct_seq).
  rewrite where_where. apply (merge_sort_ascending DMSeq); [done|].
  apply (ascending_omap _ dm_seq); [by intros m x ->%to_direct_seq|]. rewrite <- where_where.
  apply ascending_where. by eapply pending_rows_ascending.
Qed.

Lemma ListPending_page uid cid c k limit w :
  direct_inv (w_db w) -> w_faults w = [] -> conv_by_external cid (w_db w) = Some c -> 0 <= limit ->
  exists items next more, ListPendingDirectMessages cid uid k limit w = (w, inr (items, next, more)) /\
    page_ok DMSeq (undelivered cid uid (w_db w)) (image id) k items next more.
Proof.
  intros Hi Hw Hc Hlim. unfold ListPendingDirectMessages.
  set (n := if (limit =? 0) || (500 <? limit) then 100 else limit).
  assert (0 < n <= 500) as Hn by (unfold n; destruct ((limit =? 0) || (500 <? limit)) eqn:E; lia).
  rewrite (bind_run _ _ _ _ _ (query_calm w Hw _)), (pending_after_eq cid c) by done.
  set (l := beyond DMSeq k (undelivered cid uid (w_db w))). do 3 eexists. split; [done|].
  exists (Z.to_nat n). simpl. fold l. split_and!; [by rewrite Forall2_image, list_fmap_id|done|].
  assert (zlen (take (Z.to_nat n) l) = Z.min n (zlen l)) as Hlen by (unfold zlen; rewrite length_take; lia).
  rewrite u32_small by (unfold max_u32, zlen in *; lia).
  destruct (zlen (take (Z.to_nat n) l) =? n) eqn:E; unfold zlen in *; [|lia].
  intros E2. apply Z.eqb_eq in E. rewrite E2 in E. cbn [length] in E. lia.
Qed.

Lemma SyncDirect_page uid conv c k limit w :
  let cid := TrimSpace conv in
  direct_inv (w_db w) -> w_faults w = [] -> cid <> ""%string -> conv_by_external cid (w_db w) = Some c ->
  uid = dc_user_low_id c \/ uid = dc_user_high_id c -> 0 <= limit ->
  exists items next more, direct_page uid conv limit k w = (w, inr (items, next, more)) /\
    page_ok DMSeq (undelivered cid uid (w_db w)) (image to_direct_event) k items next more.
Proof.
  intros cid Hi Hw Hne Hc Hu Hlim.
  destruct (ListPending_page uid cid c k (if limit =? 0 then 50 else limit) w) as (items&next&more&E&size&Hs&Hn&Hm);
    [done..|destruct (limit =? 0); lia|].
  exists (to_direct_event <$> items), next, more. split.
  - unfold direct_page. refine (bind_run _ _ _ _ (mkSyncDirectMessagesResp cid (to_direct_event <$> items) next more) _).
    unfold SyncDirectMessages. simpl. fold cid. rewrite bool_decide_false by done. rewrite (bind_run _ _ w w tt) by done.
    assert (TrimSpace cid = cid) as Et by apply TrimSpace_idem. unfold GetConversationByExternalID.
    rewrite (bind_run _ _ w w (to_conversation c)) by (by rewrite fetchOne_calm, Et, Hc). simpl.
    replace (negb (uid =? dc_user_low_id c) && negb (uid =? dc_user_high_id c)) with false by lia.
    rewrite (bind_run _ _ w w tt) by done. by rewrite (bind_run _ _ _ _ _ E).
  - exists size. rewrite Forall2_image, list_fmap_id in Hs. subst items. split; [by rewrite Forall2_image|done].
Qed.

(** No pending direct message is missed.  A participant who keeps
    asking for the next page of a conversation, from any position and with
    any limit, stops and has then received exactly the messages addressed
    to them beyond that position that they have not acknowledged, each
    once and in the order they were sent. *)
Theorem direct_sync_complete uid conv c k limit w :
  let cid := TrimSpace conv in
  db_inv (w_db w) -> w_faults w = [] -> cid <> ""%string -> conv_by_external cid (w_db w) = Some c ->
  uid = dc_user_low_id c \/ uid = dc_user_high_id c -> 0 <= limit ->
  let wanted := where_ (fun m => pending cid uid m && (k <? dm_seq m)) (rows (direct_messages (w_db w))) in
  StronglySorted Z.lt (map dm_seq wanted) /\
  collect (S (length wanted)) (direct_page uid conv limit) k w =
    (w, inr (to_direct_event <$> omap (to_direct (w_db w)) wanted)).
Proof.
  intros cid Hi Hw Hne Hc Hu Hlim wanted. set (d := w_db w) in *. pose proof (inv_direct _ Hi) as Hd.
  assert (beyond DMSeq k (undelivered cid uid d) = omap (to_direct d) wanted) as Eb.
  { unfold beyond, undelivered. rewrite <- (omap_where (to_direct d) (fun m => k <? dm_seq m)) by (by intros m x ->%to_direct_seq).
    by rewrite where_where. }
  assert (ascending dm_seq (where_ (pending cid uid) (rows (direct_messages d)))) as Hasc
    by (by eapply pending_rows_ascending).
  split; [unfold wanted; rewrite <- where_where; by apply (ascending_where dm_seq)|].
  destruct (collect_all DMSeq (undelivered cid uid d) (image to_direct_event) (direct_page uid conv limit) (eq w))
    with (fuel := S (length wanted)) (k := k) (w := w) as (w'&items&E&<-&Hitems).
  - eapply ascending_omap; [|exact Hasc]. by intros m x ->%to_direct_seq.
  - intros k' ? <-. destruct (SyncDirect_page uid conv c k' limit w Hd Hw Hne Hc Hu Hlim) as (items&next&more&E&Hp).
    by exists w, items, next, more.
  - done.
  - rewrite Eb. pose proof (length_omap (to_direct d) wanted). lia.
  - rewrite Eb, Forall2_image in Hitems. by rewrite E, Hitems.
Qed.
End direct_pages.

(** ** Concrete loops over the busy state *)
Definition busy_world : World := Eval vm_compute in g_world busy.
Lemma busy_world_inv : db_inv (w_db busy_world).
Proof. exact (proj1 (reachable_inv demo_mc busy busy_reachable)). Qed.

Lemma channel_sync_complete_witness :
  exists items, collect 3 (fun k => SyncChannel defaults 1 1 k 1) 0 busy_world = (busy_world, inr items) /\
    (Seq <$> items) = [1; 2].
Proof.
  destruct (channel_sync_complete defaults 1 1 demo_channel 0 1 busy_world) as [_ (items&E&Hi)].
  - exact busy_world_inv.
  - reflexivity.
  - reflexivity.
  - vm_compute. by eexists.
  - vm_compute. split; reflexivity.
  - exists items. split; [exact E|].
    rewrite <- (Forall2_map_eq _ row_seq Seq _ _ (shows_seq _) Hi).
    vm_compute. reflexivity.
Defined.

Lemma direct_sync_complete_witness :
  exists ev, collect 2 (direct_page 2 (dc_conversation_id demo_conv) 5) 0 busy_world = (busy_world, inr [ev]) /\
    DirectMessageEvent_Text ev = "hello"%string.
Proof.
  destruct (direct_sync_complete 2 (dc_conversation_id demo_conv) demo_conv 0 5 busy_world) as [_ E].
  - exact busy_world_inv.
  - reflexivity.
  - vm_compute. discriminate.
  - vm_compute. reflexivity.
  - right. reflexivity.
  - vm_compute. discriminate.
  - eexists. split; [exact E|]. vm_compute. reflexivity.
Defined.
