(* ===== verification/MessageThms.v ===== *)
(** * Posting messages: results, retries, permissions, expiry *)
From S2P Require Import Prelude Go Encoding Schema Config Store SpaceRepo SpaceInv UserRepo ChannelRepo ChannelInv SeqLog.
From S2P Require Import MessageRepo MessageInv CursorNonceRepo BlobRepo TableInv Media Messaging DbInv History.
From S2P Require Import Proto Session Manager System Demo Paging.
Import sessionv1.

(** The message a row is shown as, attachments aside. *)
Record shown_as (m : MessageRow) (msg : Message) : Prop := {
  sh_id : MsgID msg = m_id m; sh_ext : MessageID msg = m_message_id m; sh_channel : ChannelDBID msg = m_channel_id m;
  sh_seq : Seq msg = m_seq m; sh_sender : SenderUserID msg = m_sender_user_id m;
  sh_client : ClientMsgID msg = m_client_msg_id m; sh_type : MsgType msg = m_message_type m;
  sh_text : TextContent msg = coalesce (m_text_content m); sh_created : MsgCreatedAt msg = m_created_at m }.

Section create.
Context `{Env}.

Definition new_message (i : CreateMessageInput) (ext : string) (cid seq t mid : Z) : MessageRow :=
  mkMessageRow mid ext cid seq (cmi_SenderUserID i) (cmi_ClientMsgID i) (cmi_MessageType i)
    (nullableString (cmi_Text i)) StatusNormal t t None.

Lemma insert_message_row i ext cid seq t d d1 mid :
  insert_message i ext cid seq t d = Some (d1, mid) ->
  mid = next_id (messages d) /\ rows (messages d1) = rows (messages d) ++ [new_message i ext cid seq t mid].
Proof.
  unfold insert_message. intros E. case_match; [done|]. apply bind_Some in E as ([tbl id]&E&?). simplify_eq.
  apply insert_row_Some in E as (->&_&_&Er&_). done.
Qed.

(** The whole message: its row, the external id of its sender and its attachments. *)
Definition message_of (d : DB) (m : MessageRow) (ext : string) : Message :=
  to_message (merge_sort by_attachment (attached d (m_id m))) (m, ext).
Lemma message_of_shown d m ext : shown_as m (message_of d m ext).
Proof. done. Qed.
Lemma hydrate_one d (r : MessageRow * string) :
  omap (joined_attachment d) (where_ (fun ma => existsb (fun r => m_id r.1 =? ma_message_id ma) [r]) (rows (message_attachments d)))
  = attached d (m_id r.1).
Proof. unfold attached. f_equal. apply where_ext. intros ma _. simpl. by rewrite orb_false_r, Z.eqb_sym. Qed.

Lemma wp_loadMessageByID id w (Q : World -> Err + Message -> Prop) :
  (forall w' e, w_db w' = w_db w -> Q w' (inl e)) ->
  (forall w' m u, w_db w' = w_db w -> message_by_id id (w_db w) = Some m ->
     user_by_id (m_sender_user_id m) (w_db w) = Some u -> Q w' (inr (message_of (w_db w) m (u_user_id u)))) ->
  wp (loadMessageByID id) w Q.
Proof.
  intros Hf Hok. unfold loadMessageByID, hydrateMessages. repeat wp_step; try (by apply Hf).
  match goal with Hx : _ = Some ?r, Hl : _ = _ :: _ |- _ => rename Hx into Hr; rename Hl into Hitems end.
  apply bind_Some in Hr as (row&Hm&Hj). unfold joined_message in Hj.
  apply bind_Some in Hj as (c&_&Hj). apply bind_Some in Hj as (u&Hu&Hj). simplify_eq/=.
  rewrite (hydrate_one _ (row, u_user_id u)) in *. simpl in *. by eapply Hok.
Qed.

Lemma created_rows i ext c t d d1 d2 mid :
  db_inv d -> channel_by_id (cmi_ChannelID i) d = Some c ->
  insert_message i ext (c_id c) (u64 (c_message_seq c + 1)) t d = Some (d1, mid) ->
  attach_all mid t 0 (cmi_AttachmentMedia i) d1 = Some d2 ->
  mid = next_id (messages d) /\
  rows (messages (update_channel (c_id c) (with_seq (u64 (c_message_seq c + 1)) t) d2).1) =
  rows (messages d) ++ [new_message i ext (cmi_ChannelID i) (c_message_seq c + 1) t mid].
Proof.
  intros Hi [Hc Hin]%channel_by_id_Some Hins Hatt. pose proof (insert_message_Some _ _ _ _ _ _ _ _ Hins) as Hb.
  destruct Hb as (r&_&_&_&_&_&_&_&Hmid&Hmax&_).
  rewrite (next_seq_u64 d c (inv_messages _ Hi) Hin) in * by lia.
  apply insert_message_row in Hins as [-> Hrows]. split; [done|]. rewrite (attach_all_frame _ _ _ _ _ _ Hatt).
  simpl. by rewrite Hrows, Hc.
Qed.

(** The committed work of [Create]: the message that is there afterwards. *)
Lemma wp_Create ctx i w :
  db_inv (w_db w) ->
  let cid := cmi_ChannelID i in
  wp (Create ctx i) w (fun w' r =>
    (w_db w' = w_db w \/ exists c ext t, channel_by_id cid (w_db w) = Some c /\
       message_by_client cid (cmi_SenderUserID i) (cmi_ClientMsgID i) (w_db w) = None /\
       rows (messages (w_db w')) = rows (messages (w_db w)) ++
         [new_message i ext cid (c_message_seq c + 1) t (next_id (messages (w_db w)))]) /\
    (forall msg, r = inr msg -> exists m, m ∈ rows (messages (w_db w')) /\
       same_client_msg cid (cmi_SenderUserID i) (cmi_ClientMsgID i) m = true /\
       exists u, user_by_id (m_sender_user_id m) (w_db w') = Some u /\ msg = message_of (w_db w') m (u_user_id u))).
Proof.
  intros Hi cid. subst cid. unfold Create, getMessageByClientMsgIDTx.
  repeat first [ wp_step
    | apply wp_create_attachments; [intros ? ? []|intros ? [] ?]; cbn [tx_world tx_err tx_locks tx_done] in * ].
  all: try (split; [left; first [done | rewrite finish_unchanged; simpl; congruence]|by intros]).
  all: apply wp_loadMessageByID; intros w'; cbn [w_db tick set_db].
  - intros e ->. destruct (created_rows _ _ _ _ _ _ _ _ Hi H2 H7 H8) as [-> Er]. split; [|by intros].
    right. exists a. do 2 eexists. split_and!; [done| |done]. by destruct (channel_by_id_Some _ _ _ H2) as [<- _].
  - intros m u -> Hm Hu. destruct (created_rows _ _ _ _ _ _ _ _ Hi H2 H7 H8) as [-> Er].
    pose proof (channel_by_id_Some _ _ _ H2) as [Hc _].
    split; [right; exists a; do 2 eexists; split_and!; [done|by rewrite <- Hc|done]|].
    intros ? E. simplify_eq. exists m. apply first_where_Some in Hm as [Hk Hm]. split_and!; [done| |by exists u].
    rewrite Er in Hm. apply elem_of_app in Hm as [Hm| ->%list_elem_of_singleton].
    + pose proof (wf_bound _ _ (mg_table _ (mg_base _ (inv_messages _ Hi))) m Hm). lia.
    + unfold same_client_msg. simpl. rewrite sql_eq_refl. lia.
  - intros e ->. split; [by left|by intros].
  - intros m u -> Hm Hu. split; [by left|]. intros ? E. simplify_eq. exists m.
    apply first_where_Some in Hm as [Hk Hm]. apply first_where_Some in H5 as [Hc Ha].
    split_and!; [done| |by exists u]. destruct (channel_by_id_Some _ _ _ H2) as [<- _].
    enough (m = a0) by (by subst).
    eapply (NoDup_key_inj m_id); [apply (wf_nodup _ _ (mg_table _ (mg_base _ (inv_messages _ Hi))))|done..|lia].
Qed.

Lemma message_by_client_found cid uid client d m :
  db_inv d -> m ∈ rows (messages d) -> same_client_msg cid uid client m = true -> message_by_client cid uid client d = Some m.
Proof.
  intros Hi Hm Hk. apply (first_where_unique client_key); [apply (mg_client _ (mg_base _ (inv_messages _ Hi)))|done..|].
  intros m' _ Hk'. unfold same_client_msg in *. bools. unfold client_key.
  repeat match goal with Hx : sql_eq _ _ = true |- _ => apply sql_eq_spec in Hx end. f_equal; [f_equal; lia|congruence].
Qed.

(** C11: What posting does.  Whatever statements fail, creating a message
    either leaves the database as it was or appends exactly one message to
    the messages, with the next sequence number of its channel and the
    sender, client id, type and text of the request, which no earlier
    message of that sender and client id exists for; and a message that
    is returned is the stored message of that sender and client id. *)
Theorem create_outcome ctx i w :
  db_inv (w_db w) ->
  let '(w', r) := Create ctx i w in
  (w_db w' = w_db w \/ exists c ext t, channel_by_id (cmi_ChannelID i) (w_db w) = Some c /\
     message_by_client (cmi_ChannelID i) (cmi_SenderUserID i) (cmi_ClientMsgID i) (w_db w) = None /\
     rows (messages (w_db w')) = rows (messages (w_db w)) ++
       [new_message i ext (cmi_ChannelID i) (c_message_seq c + 1) t (next_id (messages (w_db w)))]) /\
  (forall msg, r = inr msg -> exists m,
     message_by_client (cmi_ChannelID i) (cmi_SenderUserID i) (cmi_ClientMsgID i) (w_db w') = Some m /\ shown_as m msg).
Proof.
  intros Hi. pose proof (wp_Create ctx i w Hi) as Hw. pose proof (safe_Create ctx i w) as Hs. unfold wp in *.
  destruct (Create ctx i w) as [w' r]. simpl in *. destruct Hw as [H1 H2]. split; [done|]. intros msg Er.
  destruct (H2 msg Er) as (m&Hm&Hk&u&_&->). exists m. split; [|apply message_of_shown].
  apply message_by_client_found; [by eapply evolves_inv|done..].
Qed.

(** A row of an earlier state, later. *)
Lemma later_channel d d' cid c : db_inv d -> evolves d d' -> channel_by_id cid d = Some c ->
  is_Some (channel_by_id cid d').
Proof.
  intros Hi He [Hc Hin]%channel_by_id_Some.
  destruct (extends_elem _ _ _ c (gr_channels _ _ (evolves_grows d d' He Hi)) Hin) as (c'&Hc'&Hle).
  apply (first_where_is_Some _ _ c'); [done|]. unfold channel_le in Hle. lia.
Qed.

Lemma later_user d d' uid u : db_inv d -> evolves d d' -> user_by_id uid d = Some u ->
  exists u', user_by_id uid d' = Some u' /\ u_user_id u' = u_user_id u.
Proof.
  intros Hi He Hu. destruct (extends_first user_le (fun u => u_id u =? uid) _ _ u ltac:(by intros ? ? [-> _])
    (gr_users _ _ (evolves_grows d d' He Hi)) Hu) as (u'&Hu'&_&E&_). by exists u'.
Qed.
Lemma later_message d d' m : db_inv d -> evolves d d' -> m ∈ rows (messages d) ->
  exists m', m' ∈ rows (messages d') /\ (m' = m \/ exists t, m' = with_deleted t m).
Proof.
  intros Hi He Hm. destruct (extends_elem _ _ _ m (gr_messages _ _ (evolves_grows d d' He Hi)) Hm) as (m'&Hm'&Hle).
  exists m'. split; [done|]. destruct Hle as [->|[_ Ht]]; auto.
Qed.

(** The attachments of a message that is there. *)
Definition attachments_known (d : DB) : Prop :=
  Forall (fun ma => is_Some (joined_attachment d ma)) (rows (message_attachments d)).
Lemma omap_later {A B} (f g : A -> option B) l :
  (forall x y, f x = Some y -> g x = Some y) -> Forall (fun x => is_Some (f x)) l -> omap g l = omap f l.
Proof. intros Hfg. induction 1 as [|x l [y E] _ IH]; [done|]. simpl. rewrite E, (Hfg _ _ E). f_equal. exact IH. Qed.
Lemma attached_later d d' m :
  db_inv d -> evolves d d' -> attachments_known d -> m ∈ rows (messages d) -> attached d' (m_id m) = attached d (m_id m).
Proof.
  intros Hi He Hk Hm. unfold attached. fold (atts_of (m_id m) d) (atts_of (m_id m) d').
  rewrite (ak_rows _ _ (evolves_kept d d' He)).
  - apply omap_later; [by intros ma a; apply joined_later, evolves_grows|]. apply Forall_forall. intros ma [_ Hma]%elem_of_where.
    by apply (proj1 (Forall_forall _ _) Hk).
  - apply (wf_bound _ _ (mg_table _ (mg_base _ (inv_messages _ Hi)))). done.
Qed.

Lemma load_calm w m u :
  db_inv (w_db w) -> w_faults w = [] -> m ∈ rows (messages (w_db w)) -> user_by_id (m_sender_user_id m) (w_db w) = Some u ->
  loadMessageByID (m_id m) w = (w, inr (message_of (w_db w) m (u_user_id u))).
Proof.
  intros Hi Hw Hm Hu. pose proof (mg_base _ (inv_messages _ Hi)) as Hb.
  assert (message_by_id (m_id m) (w_db w) = Some m) as E1.
  { apply (first_where_unique m_id); [apply (wf_nodup _ _ (mg_table _ Hb))|done|lia|]. intros m' _ ?. lia. }
  destruct (mg_fk _ Hb m Hm) as (c&Hc&Ec).
  destruct (first_where_is_Some (fun c => c_id c =? m_channel_id m) (rows (channels (w_db w))) c) as [c' E2]; [done|lia|].
  unfold loadMessageByID. rewrite (bind_run _ _ w w (m, u_user_id u)).
  - unfold hydrateMessages. rewrite (bind_run _ _ w w [message_of (w_db w) m (u_user_id u)]); [done|].
    rewrite (bind_run _ _ _ _ _ (map_err_run _ _ _ _ _ (query_calm w Hw _))).
    by rewrite (hydrate_one (w_db w) (m, u_user_id u)).
  - rewrite fetchOne_calm by done. rewrite E1. simpl. unfold joined_message, channel_by_id. by rewrite E2, Hu.
Qed.

(** A request that was accepted before. *)
Lemma Create_again ctx i w m u :
  db_inv (w_db w) -> healthy w -> m ∈ rows (messages (w_db w)) ->
  same_client_msg (cmi_ChannelID i) (cmi_SenderUserID i) (cmi_ClientMsgID i) m = true ->
  user_by_id (m_sender_user_id m) (w_db w) = Some u ->
  Create ctx i w = (w, inr (message_of (w_db w) m (u_user_id u))).
Proof.
  intros Hi [Hf Hl] Hm Hk Hu. pose proof (load_calm w m u Hi Hf Hm Hu) as E.
  pose proof (mg_base _ (inv_messages _ Hi)) as Hb. destruct (mg_fk _ Hb m Hm) as (c&Hc&Ec).
  assert (m_channel_id m = cmi_ChannelID i) as Em by (unfold same_client_msg in Hk; bools; lia).
  assert (channel_by_id (cmi_ChannelID i) (w_db w) = Some c) as Hcid.
  { apply (first_where_unique c_id); [apply (wf_nodup _ _ (ci_channels _ (inv_channels _ Hi)))|done|lia|]. intros c' _ ?. lia. }
  unfold Create. rewrite (bind_run _ _ w w (m_id m)); [done|].
  apply (run_tx_commit _ _ _ _ (mkTx w None [lock_channel c] true)); [done| |done].
  proceed (check_for_update_calm _ _ _ _ Hf Hl _ _ _ _ Hcid).
  assert (message_by_client (c_id c) (cmi_SenderUserID i) (cmi_ClientMsgID i) (w_db w) = Some m) as Hfound
    by (apply message_by_client_found; by rewrite ?Ec, ?Em).
  proceed (assign_fetch_found _ _ _ _ Hf _ _ Hfound). proceed (commit_calm _ _ _ _ Hf _). done.
Qed.

(** The identifier of the next message. *)
Definition next_message_id (w : World) : string := "msg_" +:+ hex_encode (rand_read 10 (w_draws w)).

Lemma insert_message_ok i c t d ext :
  db_inv d -> channel_by_id (cmi_ChannelID i) d = Some c -> message_type_enum (cmi_MessageType i) = true ->
  next_id (messages d) <= max_u64 ->
  (forall m, m ∈ rows (messages d) -> sql_eq (m_message_id m) ext = false) ->
  message_by_client (c_id c) (cmi_SenderUserID i) (cmi_ClientMsgID i) d = None ->
  exists d1 mid, insert_message i ext (c_id c) (u64 (c_message_seq c + 1)) t d = Some (d1, mid) /\
    d1 = set_messages (fun _ => messages d1) d.
Proof.
  intros Hi [Hc Hin]%channel_by_id_Some Ht Hn Hfresh Hnew. unfold insert_message. rewrite Ht. simpl.
  rewrite (next_seq_u64 d c (inv_messages _ Hi) Hin Hn). rewrite insert_row_ok; [by do 2 eexists|done|].
  intros m Hm. apply orb_false_iff. split; [apply orb_false_iff; split; [by apply Hfresh|]|].
  - destruct (m_channel_id m =? c_id c) eqn:E; [|done]. simpl.
    pose proof (log_ok_bound c _ m (mg_log _ (mg_base _ (inv_messages _ Hi)) c Hin) Hm E) as Hb. simpl in Hb. lia.
  - destruct (same_client_msg _ _ _ m) eqn:E; [|done].
    destruct (first_where_is_Some _ _ m Hm E) as [? Hx]. unfold message_by_client in Hnew. congruence.
Qed.

(** Posting works.  On a database that works, a text message from a
    known user to an existing channel that was not sent before is stored
    under the next sequence number of the channel and returned with the
    text of the request. *)
Theorem create_succeeds ctx i c w :
  db_inv (w_db w) -> healthy w -> channel_by_id (cmi_ChannelID i) (w_db w) = Some c ->
  is_Some (user_by_id (cmi_SenderUserID i) (w_db w)) -> message_type_enum (cmi_MessageType i) = true ->
  cmi_AttachmentMedia i = [] -> next_id (messages (w_db w)) <= max_u64 ->
  (forall m, m ∈ rows (messages (w_db w)) -> sql_eq (m_message_id m) (next_message_id w) = false) ->
  message_by_client (cmi_ChannelID i) (cmi_SenderUserID i) (cmi_ClientMsgID i) (w_db w) = None ->
  exists w' msg, Create ctx i w = (w', inr msg) /\ healthy w' /\ MessageID msg = next_message_id w /\
    ChannelDBID msg = cmi_ChannelID i /\ Seq msg = c_message_seq c + 1 /\ SenderUserID msg = cmi_SenderUserID i /\
    TextContent msg = cmi_Text i /\ MsgCreatedAt msg = truncate_ms (w_clock w).
Proof.
  intros Hi [Hf Hl] Hc Hu Ht Hatt Hn Hfresh Hnew. pose proof (channel_by_id_Some _ _ _ Hc) as [Ec Hin].
  rewrite <- Ec in Hnew. set (t := truncate_ms (w_clock w)).
  destruct (insert_message_ok i c t (w_db w) (next_message_id w) Hi Hc Ht Hn Hfresh Hnew) as (d1&mid&Hins&Hd1).
  assert (attach_all mid t 0 (cmi_AttachmentMedia i) d1 = Some d1) as Hall by (by rewrite Hatt).
  destruct (created_rows _ _ _ _ _ _ _ _ Hi Hc Hins Hall) as [Hmid Hrows].
  set (d' := (update_channel (c_id c) (with_seq (u64 (c_message_seq c + 1)) t) d1).1) in *.
  set (w' := set_db d' (set_draws (S (w_draws w)) w)).
  assert (evolves (w_db w) d') as He.
  { apply rtc_once, de_message. eapply meff_create; [by rewrite Ec|done|done|done]. }
  pose proof (evolves_inv _ _ He Hi) as Hi'. assert (w_faults w' = []) as Hf' by done.
  set (m := new_message i (next_message_id w) (cmi_ChannelID i) (c_message_seq c + 1) t mid) in *.
  destruct Hu as [u Hu]. destruct (later_user (w_db w) d' _ u Hi He Hu) as (u'&Hu'&_).
  assert (loadMessageByID mid w' = (w', inr (message_of d' m (u_user_id u')))) as Hload.
  { apply (load_calm w' m u'); [done|done|change (m ∈ rows (messages d')); rewrite Hrows; set_solver|done]. }
  exists w', (message_of d' m (u_user_id u')). split_and!; try done.
  2: { simpl. unfold nullableString. destruct (decide (cmi_Text i = ""%string)) as [E|E].
       - by rewrite E.
       - by rewrite bool_decide_false. }
  unfold Create. rewrite (bind_run _ _ w w' mid); [done|].
  eapply (run_tx_commit _ _ _ _ (mkTx w' (Some ErrNotFound) [lock_channel c] true)); [done| |done].
  proceed (check_for_update_calm _ _ _ _ Hf Hl _ _ _ _ Hc).
  proceed (assign_fetch_missing _ _ _ _ Hf _ Hnew). rewrite bool_decide_true by done. simpl negb. cbv iota.
  proceed (tx_lift_run w _ _ _ now w t eq_refl).
  proceed (tx_lift_run w _ _ _ (newExternalID "msg") (set_draws (S (w_draws w)) w) (next_message_id w) eq_refl).
  assert (w_faults (set_draws (S (w_draws w)) w) = []) as Hf1 by done.
  proceed (check_exec_calm _ _ _ _ Hf1 _ _ _ _ Hins). rewrite Hatt.
  etrans; [by eapply bind_run|]. cbv beta.
  proceed (check_exec__calm (set_db d1 (set_draws (S (w_draws w)) w)) _ _ _ Hf1 _ _).
  proceed (commit_exec_calm w' _ _ _ Hf' _). done.
Qed.
End create.

(** ** Who may post *)
Section posting.
Context `{Env} `{MediaLib} (cfg : Config).

Definition same_chat (d d' : DB) : Prop := messages d' = messages d /\ channels d' = channels d.
#[export] Instance same_chat_preorder : PreOrder same_chat.
Proof. split; [done|]. intros d1 d2 d3 [E1 E2] [E3 E4]. split; congruence. Qed.

Lemma same_chat_CreateBlob i : keeps same_chat (CreateBlob i).
Proof.
  unfold CreateBlob, GetBySHA256. solve_keeps. apply keeps_exec; [apply _|]. intros d d' ? E.
  unfold insert_blob in E. apply bind_Some in E as ([tbl id]&_&E). by simplify_eq.
Qed.
Lemma same_chat_CreateMedia i : keeps same_chat (CreateMedia i).
Proof.
  unfold CreateMedia, GetByMediaID. solve_keeps. apply keeps_exec; [apply _|]. intros d d' ? E.
  unfold insert_media in E. apply bind_Some in E as ([tbl id]&_&E). by simplify_eq.
Qed.
#[local] Hint Resolve same_chat_CreateBlob same_chat_CreateMedia : keeps.
Lemma same_chat_resolve uid k l : keeps same_chat (resolve cfg uid k l).
Proof. induction l as [|item l IH]; simpl; unfold SaveUploadedBlob, Put; walk; done. Qed.
#[local] Hint Resolve same_chat_resolve : keeps.
Lemma same_chat_attachments uid i : keeps same_chat (resolveAttachments cfg uid i).
Proof. unfold resolveAttachments. walk. Qed.
Lemma evolves_attachments uid i : keeps evolves (resolveAttachments cfg uid i).
Proof. unfold resolveAttachments. walk; apply safe_resolve. Qed.

(** The checks a message has passed, on the tables it was checked against. *)
Definition may_post (uid : Z) (i : SendMessageInput) (clock : Z) (d : DB) (c : ChannelRow) (cm : ChannelMemberRow) : Prop :=
  channel_by_id (smi_ChannelID i) d = Some c /\ channel_member_row (smi_ChannelID i) uid d = Some cm /\
  cm_can_view cm = true /\ validate_static cfg (to_channel zero_permission c) (to_permission cm) i = None /\
  (0 < c_slow_mode_seconds c -> forall last, last_message (c_id c) uid d = Some last ->
     slow_mode_active clock (m_created_at last) (c_slow_mode_seconds c) = false).

(** One more message, of the user, in the channel of the request. *)
Definition one_more (uid : Z) (i : SendMessageInput) (c : ChannelRow) (d d' : DB) : Prop :=
  exists m, rows (messages d') = rows (messages d) ++ [m] /\
    m_channel_id m = smi_ChannelID i /\ m_sender_user_id m = uid /\ m_seq m = c_message_seq c + 1 /\
    m_client_msg_id m = smi_ClientMsgID i /\ m_message_type m = inferMessageType i /\
    coalesce (m_text_content m) = TrimSpace (smi_Text i).

Lemma coalesce_nullable s : coalesce (nullableString s) = s.
Proof. unfold nullableString. by destruct (decide (s = ""%string)) as [->|E]; [|rewrite bool_decide_false]. Qed.

Definition not_sent (uid : Z) (i : SendMessageInput) (d : DB) : Prop :=
  message_by_client (smi_ChannelID i) uid (smi_ClientMsgID i) d = None.
Lemma post_checked ctx uid i w c :
  db_inv (w_db w) -> channel_by_id (smi_ChannelID i) (w_db w) = Some c ->
  wp (attachments ← resolveAttachments cfg uid i;
      Create ctx (mkCreateMessageInput (smi_ChannelID i) uid (smi_ClientMsgID i) (inferMessageType i)
        (TrimSpace (smi_Text i)) attachments)) w
    (fun w' _ => messages (w_db w') = messages (w_db w) \/ (not_sent uid i (w_db w) /\ one_more uid i c (w_db w) (w_db w'))).
Proof.
  intros Hi Hc. apply wp_bind. pose proof (same_chat_attachments uid i w) as Hsc.
  pose proof (evolves_attachments uid i w) as He. unfold wp in *.
  destruct (resolveAttachments cfg uid i w) as [w1 [e|l]]; simpl in *; destruct Hsc as [E1 E2]; [by left|].
  set (j := mkCreateMessageInput _ _ _ _ _ _). pose proof (wp_Create ctx j w1 (evolves_inv _ _ He Hi)) as Hw.
  unfold wp in Hw. destruct Hw as [[->|(c'&ext&t&Hc'&Hnew&Hr)] _]; [by left|]. right.
  split; [unfold not_sent, message_by_client in *; by rewrite E1 in Hnew|].
  unfold channel_by_id in *. rewrite E2 in Hc'. simpl in Hc'. assert (c' = c) as -> by congruence.
  rewrite E1 in Hr. eexists. split; [exact Hr|]. split_and!; try done. apply coalesce_nullable.
Qed.

(** Everything [SendMessage] can do to the messages. *)
Lemma wp_SendMessage ctx uid i w :
  db_inv (w_db w) ->
  wp (SendMessage cfg ctx uid i) w (fun w' _ => messages (w_db w') = messages (w_db w) \/
    (not_sent uid i (w_db w) /\ exists c cm, may_post uid i (w_clock w) (w_db w) c cm /\ one_more uid i c (w_db w) (w_db w'))).
Proof.
  intros Hi. unfold SendMessage, GetByChannelID, GetPermission, validateMessage, GetLastMessageTime.
  apply wp_bind, wp_fetchOne; [by left|by left|]. intros ch _ (c&Hc&(s&_&Ech)%bind_Some)%bind_Some. simplify_eq.
  apply wp_bind, wp_fetchOne; [by left|by left|]. intros perm _ (c'&_&(cm&Hcm&->)%fmap_Some)%bind_Some.
  apply wp_bind, wp_when; intros Hv; [by left|]. simpl in Hv.
  assert (forall w1, w_db w1 = w_db w -> may_post uid i (w_clock w) (w_db w) c cm ->
    wp (attachments ← resolveAttachments cfg uid i;
        Create ctx (mkCreateMessageInput (smi_ChannelID i) uid (smi_ClientMsgID i) (inferMessageType i)
          (TrimSpace (smi_Text i)) attachments)) w1
      (fun w' _ => messages (w_db w') = messages (w_db w) \/
    (not_sent uid i (w_db w) /\ exists c cm, may_post uid i (w_clock w) (w_db w) c cm /\ one_more uid i c (w_db w) (w_db w')))) as Hpost.
  { intros w1 E Hm. rewrite <- E. eapply wp_mono; [apply (post_checked ctx uid i w1 c); by rewrite E|].
    rewrite E. intros w' r [?|[Hn ?]]; [by left|right]. split; [done|]. by exists c, cm. }
  cbn [w_db tick w_clock] in *.
  repeat first [apply Hpost; [done|]|wp_step]; try (by left).
  all: split_and!; [done|done|by destruct (cm_can_view cm)|done|].
  - intros _ last Hl. simpl in *. rewrite Hl in Heqo0. simpl in Heqo0. by simplify_eq.
  - intros _ last Hl. simpl in *. by rewrite Hl in Heqo0.
  - intros Hpos. simpl in *. lia.
Qed.

(** C13: Only permitted messages are stored.  Whatever statements fail,
    sending a message changes the messages only when the channel exists
    and the user is a member of it who may view it, when the message
    passes every check (lengths, number and kinds of attachments, the
    permission to send them, the role for broadcast channels), and when
    the user's last message is older than the slow-mode interval; the
    change is then exactly one more message, of that user, in that channel,
    with the next sequence number and the trimmed text. *)
Theorem only_permitted_posts ctx uid i w :
  db_inv (w_db w) ->
  let w' := (SendMessage cfg ctx uid i w).1 in
  messages (w_db w') = messages (w_db w) \/
  exists c cm, may_post uid i (w_clock w) (w_db w) c cm /\ one_more uid i c (w_db w) (w_db w').
Proof.
  intros Hi w'. destruct (wp_SendMessage ctx uid i w Hi) as [E|[_ Hm]]; [by left|by right].
Qed.

(** What [SendMessage] returns is a message that is stored. *)
Lemma wp_SendMessage_returns ctx uid i w :
  db_inv (w_db w) ->
  wp (SendMessage cfg ctx uid i) w (fun w' r =>
    forall msg, r = inr msg -> exists m, m ∈ rows (messages (w_db w')) /\ shown_as m msg /\ ContentText (MsgContent msg) = TextContent msg).
Proof.
  intros Hi. unfold SendMessage.
  assert (forall w1, evolves (w_db w) (w_db w1) -> wp (
    attachments ← resolveAttachments cfg uid i;
    Create ctx (mkCreateMessageInput (smi_ChannelID i) uid (smi_ClientMsgID i) (inferMessageType i)
      (TrimSpace (smi_Text i)) attachments)) w1 (fun w' r =>
    forall msg, r = inr msg -> exists m, m ∈ rows (messages (w_db w')) /\ shown_as m msg /\ ContentText (MsgContent msg) = TextContent msg)) as Hpost.
  { intros w1 He. apply wp_bind. pose proof (evolves_attachments uid i w1) as He1. unfold wp in *.
    destruct (resolveAttachments cfg uid i w1) as [w2 [e|l]]; simpl in *; [by intros|].
    assert (db_inv (w_db w2)) as Hi2 by (apply (evolves_inv (w_db w)); [by etrans|done]).
    destruct (wp_Create ctx (mkCreateMessageInput (smi_ChannelID i) uid (smi_ClientMsgID i) (inferMessageType i)
      (TrimSpace (smi_Text i)) l) w2 Hi2) as [_ Hr]. intros msg E. destruct (Hr msg E) as (m&Hm&_&u&_&->).
    by exists m. }
  unfold GetByChannelID, GetPermission, validateMessage, GetLastMessageTime.
  repeat first [apply Hpost; exact (rtc_refl _ _)|wp_step]; try (by intros).
Qed.

(** The message as it is shown after its deletion. *)
Definition as_deleted (t : Z) (msg : Message) : Message :=
  mkMessage (MsgID msg) (MessageID msg) (ChannelDBID msg) (Seq msg) (SenderUserID msg) (SenderUserExtID msg) (ClientMsgID msg)
    (MsgType msg) (TextContent msg) StatusDeleted (MsgCreatedAt msg) t (Some t) (MsgContent msg).
Lemma message_of_later d d' m m' ext :
  db_inv d -> evolves d d' -> attachments_known d -> m ∈ rows (messages d) -> (m' = m \/ exists t, m' = with_deleted t m) ->
  message_of d' m' ext = message_of d m ext \/ exists t, message_of d' m' ext = as_deleted t (message_of d m ext).
Proof.
  intros Hi He Hk Hm Hle. pose proof (attached_later d d' m Hi He Hk Hm) as Ea. unfold message_of.
  destruct Hle as [->|[t ->]]; [left; by rewrite Ea|right]. exists t. simpl. by rewrite Ea.
Qed.

(** C12: Repeating an accepted request has no second effect.  Once the
    repository accepted a message, then at any later time
    (1) the same request on a working database changes nothing at all and
    returns that message again: the same id, channel, sequence number,
    sender, client id, type, text and time, and with every other field and
    the attachments too, unless it was marked deleted meanwhile, when the
    status and the two times of the deletion differ (the attachments under
    the condition that the stored attachments had their media when the
    message was accepted);
    (2) whatever statements fail, no [SendMessage] of the same sender,
    channel and client id changes the messages, whatever else it asks for.
    What (2) returns can be an error: slow mode refuses a retry. *)
Theorem create_idempotent ctx i w w1 msg :
  db_inv (w_db w) -> Create ctx i w = (w1, inr msg) ->
  (forall w2, evolves (w_db w1) (w_db w2) -> healthy w2 -> exists msg', Create ctx i w2 = (w2, inr msg') /\
     (MsgID msg', MessageID msg', ChannelDBID msg', Seq msg') = (MsgID msg, MessageID msg, ChannelDBID msg, Seq msg) /\
     (SenderUserID msg', ClientMsgID msg', MsgType msg', TextContent msg', MsgCreatedAt msg') =
     (SenderUserID msg, ClientMsgID msg, MsgType msg, TextContent msg, MsgCreatedAt msg) /\
     (attachments_known (w_db w1) -> msg' = msg \/ exists t, msg' = as_deleted t msg)) /\
  (forall w2 ctx' j, evolves (w_db w1) (w_db w2) ->
     smi_ChannelID j = cmi_ChannelID i -> smi_ClientMsgID j = cmi_ClientMsgID i ->
     messages (w_db (SendMessage cfg ctx' (cmi_SenderUserID i) j w2).1) = messages (w_db w2)).
Proof.
  intros Hi E. pose proof (wp_Create ctx i w Hi) as Hw. pose proof (safe_Create ctx i w) as Hs. unfold wp in *.
  rewrite E in Hw, Hs. simpl in *. destruct Hw as [_ Hw]. destruct (Hw msg eq_refl) as (m&Hm&Hk&u&Hu&->).
  pose proof (evolves_inv _ _ Hs Hi) as Hi1.
  assert (forall d, evolves (w_db w1) d -> exists m2, m2 ∈ rows (messages d) /\ (m2 = m \/ exists t, m2 = with_deleted t m) /\
    m_sender_user_id m2 = m_sender_user_id m /\
    same_client_msg (cmi_ChannelID i) (cmi_SenderUserID i) (cmi_ClientMsgID i) m2 = true) as Hlater.
  { intros d He. destruct (later_message _ _ m Hi1 He Hm) as (m2&Hm2&Hle). exists m2. split_and!; [done|done|..];
      by destruct Hle as [->|[t ->]]. }
  split; intros w2; [intros He Hh|intros ctx' j He Ec Ecl]; pose proof (evolves_inv _ _ He Hi1) as Hi2;
    destruct (Hlater _ He) as (m2&Hm2&Hle&Es&Hk2).
  - destruct (later_user _ _ _ _ Hi1 He Hu) as (u2&Hu2&Eu). rewrite <- Es in Hu2.
    exists (message_of (w_db w2) m2 (u_user_id u2)). rewrite Eu in *. split_and!.
    + rewrite <- Eu. by apply Create_again.
    + by destruct Hle as [->|[t ->]].
    + by destruct Hle as [->|[t ->]].
    + intros Hatt. by apply message_of_later.
  - destruct (wp_SendMessage ctx' (cmi_SenderUserID i) j w2 Hi2) as [?|[Hn _]]; [done|].
    unfold not_sent in Hn. rewrite Ec, Ecl, (message_by_client_found _ _ _ _ m2) in Hn; done.
Qed.

(** Slow mode also rejects retries.  While the slow-mode interval since
    a user's last message runs, sending that very message again (same
    client id) is refused with "slow mode active": the check comes before
    the lookup that makes sending idempotent. *)
Theorem slow_mode_rejects_retry ctx uid i c s cm last w :
  w_faults w = [] -> channel_by_id (smi_ChannelID i) (w_db w) = Some c -> server_by_id (c_space_id c) (w_db w) = Some s ->
  channel_member_row (smi_ChannelID i) uid (w_db w) = Some cm -> cm_can_view cm = true ->
  validate_static cfg (to_channel zero_permission c) (to_permission cm) i = None ->
  0 < c_slow_mode_seconds c -> last_message (c_id c) uid (w_db w) = Some last ->
  same_client_msg (smi_ChannelID i) uid (smi_ClientMsgID i) last = true ->
  slow_mode_active (w_clock w) (m_created_at last) (c_slow_mode_seconds c) = true ->
  SendMessage cfg ctx uid i w = (w, inl (invalid "slow mode active")).
Proof.
  intros Hw Hc Hs Hcm Hv Hst Hslow Hlast _ Hact. unfold SendMessage, GetByChannelID, GetPermission.
  rewrite (bind_run _ _ w w (to_channel zero_permission c)) by (by rewrite fetchOne_calm, Hc; simpl; rewrite ?Hs).
  rewrite (bind_run _ _ w w (to_permission cm)).
  2: { rewrite fetchOne_calm by done. unfold permission_of. by rewrite Hc, Hcm. }
  rewrite (bind_run _ _ w w tt) by (simpl; by rewrite Hv). apply bind_fail. unfold validateMessage. rewrite Hst.
  rewrite (bind_run _ _ w w tt) by done. simpl. replace (0 <? c_slow_mode_seconds c) with true by lia.
  unfold GetLastMessageTime. rewrite (bind_run _ _ _ _ _ (map_err_run _ _ _ _ _ (query_calm w Hw _))), Hlast.
  simpl. unfold time_now, mbind, SE_bind. by rewrite Hact.
Qed.
End posting.

(** ** Expiry *)
Section expiry.
Context `{Env}.

Lemma delete_expired_calm t m rs w e ls b :
  w_faults w = [] ->
  delete_expired t m rs (mkTx w e ls b) = (mkTx (set_db (mark_all t rs (w_db w)) w) e ls b, inr (count_deleted t m rs (w_db w))).
Proof.
  revert m w. induction rs as [|r rs IH]; intros m w Hw; simpl; [by destruct w|].
  etrans; [eapply bind_run, (check_exec__calm _ _ _ _ Hw)|]. cbv beta. by rewrite IH.
Qed.

Lemma update_counts_calm t counts w e ls b :
  w_faults w = [] ->
  exists e', update_counts t counts (mkTx w e ls b) = (mkTx (set_db (fewer_all t counts (w_db w)) w) e' ls b, inr tt).
Proof.
  revert w e. induction counts as [|[cid n] counts IH]; intros w e Hw; simpl; [exists e; by destruct w|].
  destruct (n =? 0) eqn:En; [by apply IH|].
  destruct (IH (set_db (update_channel cid (with_fewer n t) (w_db w)).1 w) None Hw) as [e' E]. exists e'.
  etrans; [eapply (bind_run _ _ _ (mkTx (set_db (update_channel cid (with_fewer n t) (w_db w)).1 w) None ls b) tt)|].
  - unfold check, assign, tx_sql, mbind, SE_bind. simpl. by rewrite exec__calm.
  - cbv beta. by rewrite E.
Qed.

(** The rows after the loop. *)
Lemma mark_all_rows t rs d :
  rows (messages (mark_all t rs d)) =
  map (fun m => if existsb (fun v => m_id v =? m_id m) rs && is_normal m then with_deleted t m else m) (rows (messages d)).
Proof.
  revert d. induction rs as [|r rs IH]; intros d; simpl.
  { symmetry. rewrite <- (map_id (rows (messages d))) at 2. apply map_ext. by intros. }
  fold (mark_all t rs (mark_deleted (m_id r) t d).1). rewrite IH. simpl. unfold update_where. rewrite map_map.
  apply map_ext. intros m. rewrite (Z.eqb_sym (m_id m)).
  destruct (m_id r =? m_id m) eqn:E1, (is_normal m) eqn:E2; simpl; rewrite ?E2, ?andb_false_r; try done.
Qed.

Lemma mark_all_frame t rs d : mark_all t rs d = set_messages (fun _ => messages (mark_all t rs d)) d.
Proof.
  revert d. induction rs as [|r rs IH]; intros d; [by destruct d|]. simpl.
  fold (mark_all t rs (mark_deleted (m_id r) t d).1). rewrite IH. done.
Qed.
Lemma fewer_all_messages t counts d : messages (fewer_all t counts d) = messages d.
Proof.
  revert d. induction counts as [|[cid n] counts IH]; intros d; [done|]. simpl.
  fold (fewer_all t counts (if n =? 0 then d else (update_channel cid (with_fewer n t) d).1)). rewrite IH. by case_match.
Qed.

(** The sum of the counters. *)
Definition total (m : gmap Z Z) : Z := map_fold (fun _ n s => n + s) 0 m.
Lemma total_bump m cid : total (bump m cid) = total m + 1.
Proof.
  unfold total, bump.
  assert (forall m' n, m' !! cid = None -> map_fold (fun (_ : Z) n s => n + s) 0 (<[cid := n]> m') = n + map_fold (fun _ n s => n + s) 0 m') as Hins.
  { intros m' n Hm. apply map_fold_insert_L; [|done]. intros. lia. }
  destruct (m !! cid) as [n|] eqn:E; simpl.
  - rewrite <- (insert_delete_id m cid n E) at 2. rewrite <- insert_delete_eq.
    rewrite !Hins by apply lookup_delete_eq. lia.
  - rewrite Hins by done. lia.
Qed.

Lemma reported_total l : Forall (fun kv => 0 <= kv.2) l -> foldr (fun (kv : Z * Z) s => kv.2 + s) 0 l <= max_u32 ->
  foldl (fun total kv => u32 (total + u32 kv.2)) 0 l = foldr (fun (kv : Z * Z) s => kv.2 + s) 0 l.
Proof.
  intros Hl Hb.
  assert (forall acc, 0 <= acc -> acc + foldr (fun (kv : Z * Z) s => kv.2 + s) 0 l <= max_u32 ->
    foldl (fun total kv => u32 (total + u32 kv.2)) acc l = acc + foldr (fun (kv : Z * Z) s => kv.2 + s) 0 l) as Hg; [|apply (Hg 0); lia].
  clear Hb. induction Hl as [|[k n] l Hn Hl IH]; intros acc Ha Hb; simpl in *; [lia|].
  assert (0 <= foldr (fun (kv : Z * Z) s => kv.2 + s) 0 l) by (clear -Hl; induction Hl; simpl; lia).
  rewrite (u32_small n) by lia. rewrite u32_small by lia. rewrite IH by lia. lia.
Qed.

Lemma total_list m : total m = foldr (fun (kv : Z * Z) s => kv.2 + s) 0 (map_to_list m).
Proof. unfold total. rewrite map_fold_foldr. generalize (map_to_list m). intros l. by induction l as [|[k n] l IH]; simpl; [|rewrite IH]. Qed.

Lemma count_deleted_reported t rs d :
  total (count_deleted t ∅ rs d) <= max_u32 ->
  foldl (fun total kv => u32 (total + u32 kv.2)) 0 (map_to_list (count_deleted t ∅ rs d)) = total (count_deleted t ∅ rs d).
Proof.
  intros Hb. rewrite total_list in *. apply reported_total; [|done]. apply Forall_forall. intros [k n] Hk%elem_of_map_to_list.
  pose proof (count_deleted_nonneg t ∅ rs d) as Hx. unfold off in Hx.
  assert (0 <= default 0 (count_deleted t ∅ rs d !! k)) as Hy by (apply Hx; intros j; by rewrite lookup_empty).
  by rewrite Hk in Hy.
Qed.

Lemma count_deleted_total t m rs d :
  NoDup (map m_id (rows (messages d))) -> NoDup (map m_id rs) ->
  (forall r, r ∈ rs -> r ∈ rows (messages d) /\ is_normal r = true) ->
  total (count_deleted t m rs d) = total m + zlen rs.
Proof.
  revert m d. induction rs as [|r rs IH]; intros m d Hd Hrs Hin; [unfold zlen; simpl; lia|].
  apply NoDup_cons in Hrs as [Hr Hrs]. rewrite count_deleted_cons.
  destruct (Hin r) as [Hr1 Hr2]; [set_solver|].
  assert ((0 <? (mark_deleted (m_id r) t d).2) = true) as ->.
  { simpl. pose proof (count_where_nonneg (fun m => (m_id m =? m_id r) && is_normal m) (rows (messages d))).
    assert (count_where (fun m => (m_id m =? m_id r) && is_normal m) (rows (messages d)) <> 0); [|lia].
    intros E. eapply count_where_pos_inv; [exact E|exact Hr1|]. simpl. by rewrite Z.eqb_refl, Hr2. }
  rewrite IH; [rewrite total_bump; unfold zlen; simpl; lia| |done|].
  - simpl. by rewrite map_update_where.
  - intros r' Hr'. destruct (Hin r') as [H1 H2]; [set_solver|]. split; [|done]. simpl.
    apply elem_of_update_where. exists r'. split; [done|].
    assert (m_id r' <> m_id r) as Hne by (intros E; apply Hr; rewrite <- E; apply elem_of_map; eauto).
    by rewrite (proj2 (Z.eqb_neq _ _) Hne).
Qed.

(** The messages picked: the oldest expired ones. *)
#[export] Instance by_age_trans : Transitive by_age.
Proof. intros x y z. unfold by_age. lia. Qed.
#[export] Instance by_age_total : Total by_age.
Proof. intros x y. unfold by_age. lia. Qed.

Lemma victims_oldest t n d v m :
  v ∈ load_expired t n d -> m ∈ rows (messages d) -> expired t d m = true -> m ∉ load_expired t n d -> by_age v m.
Proof.
  unfold load_expired. set (l := merge_sort by_age (where_ (expired t d) (rows (messages d)))). intros Hv Hm He Hn.
  assert (m ∈ l) as Hl by (unfold l; rewrite merge_sort_Permutation; by apply elem_of_where).
  rewrite <- (take_drop (Z.to_nat n) l) in Hl. apply elem_of_app in Hl as [Hl|Hl]; [done|].
  assert (StronglySorted by_age (take (Z.to_nat n) l ++ drop (Z.to_nat n) l)) as Hs.
  { rewrite take_drop. apply StronglySorted_merge_sort; apply _. }
  apply StronglySorted_app in Hs as [Hs _]. by apply Hs.
Qed.
Lemma victims_count t n d : 0 <= n -> zlen (load_expired t n d) = Z.min n (count_where (expired t d) (rows (messages d))).
Proof.
  intros Hn. unfold load_expired, count_where, zlen. rewrite length_take, (merge_sort_Permutation by_age). lia.
Qed.
Lemma victims_distinct t n d : NoDup (map m_id (rows (messages d))) -> NoDup (map m_id (load_expired t n d)).
Proof.
  intros Hd. unfold load_expired. set (l := merge_sort by_age (where_ (expired t d) (rows (messages d)))).
  assert (NoDup (map m_id l)) as Hl.
  { unfold l. rewrite (Permutation_map m_id (merge_sort_Permutation by_age _)). by apply NoDup_map_where. }
  rewrite <- (take_drop (Z.to_nat n) l), map_app in Hl. by apply NoDup_app in Hl as [? _].
Qed.

(** What a clean-up does to a database that works. *)
Lemma cleanup_spec ctx t limit w :
  db_inv (w_db w) -> healthy w -> 0 <= limit <= max_u32 ->
  let n := if limit =? 0 then 100 else limit in
  let d := w_db w in
  let victims := load_expired t n d in
  let '(w', r) := CleanupExpiredMessages ctx t limit w in
  r = inr (zlen victims) /\
  zlen victims = Z.min n (count_where (expired t d) (rows (messages d))) /\
  (forall v m, v ∈ victims -> m ∈ rows (messages d) -> expired t d m = true -> m ∉ victims -> by_age v m) /\
  rows (messages (w_db w')) =
    map (fun m => if existsb (fun v => m_id v =? m_id m) victims then with_deleted t m else m) (rows (messages d)) /\
  (exists d', w' = set_db d' w) /\ (victims = [] -> w' = w).
Proof.
  intros Hi [Hf Hl] Hlim n d victims. pose proof (mg_base _ (inv_messages _ Hi)) as Hb.
  pose proof (wf_nodup _ _ (mg_table _ Hb)) as Hids. assert (0 <= n) as Hn by (unfold n; case_match; lia).
  pose proof (victims_count t n d Hn) as Hcount. fold victims in Hcount.
  assert (forall v, v ∈ victims -> v ∈ rows (messages d) /\ is_normal v = true) as Hv.
  { intros v [Hv He]%elem_of_load_expired. split; [done|]. unfold expired in He. by bools. }
  assert (total (count_deleted t ∅ victims d) = zlen victims) as Htot.
  { rewrite count_deleted_total by (done || by apply victims_distinct). by unfold total; rewrite map_fold_empty. }
  assert (rows (messages (mark_all t victims d)) =
    map (fun m => if existsb (fun v => m_id v =? m_id m) victims then with_deleted t m else m) (rows (messages d))) as Hrows.
  { rewrite mark_all_rows. apply map_ext_in. intros m Hm%list_elem_of_In.
    destruct (existsb (fun v => m_id v =? m_id m) victims) eqn:E; [|done]. apply existsb_exists in E as (v&Hvin%list_elem_of_In&E).
    destruct (Hv v Hvin) as [Hv1 Hv2]. assert (v = m) as <- by (eapply (NoDup_key_inj m_id); [done..|lia]). by rewrite Hv2. }
  assert (exists w', CleanupExpiredMessages ctx t limit w = (w', inr (zlen victims)) /\
    messages (w_db w') = messages (mark_all t victims d) /\ (exists d', w' = set_db d' w) /\ (victims = [] -> w' = w)) as (w'&E&Hm&Hw).
  { unfold CleanupExpiredMessages. fold n.
    assert (check (wrap "load expired messages") (query (load_expired t n)) (mkTx w None [] false) =
      (mkTx w None [] false, inr victims)) as E1.
    { unfold check, assign, tx_sql, mbind, SE_bind. simpl. by rewrite query_calm. }
    destruct (zlen victims =? 0) eqn:E0.
    - exists w. assert (victims = []) as Hnil by (unfold zlen in E0; destruct victims; [done|simpl in E0; lia]).
      split; [|split_and!; [by rewrite Hnil|exists (w_db w); by destruct w|done]]. rewrite Hnil.
      apply (run_tx_commit _ _ _ _ (mkTx w None [] true)); [done| |done]. proceed E1. rewrite E0.
      proceed (commit_calm _ _ _ _ Hf _). done.
    - set (counts := count_deleted t ∅ victims d) in *. set (w1 := set_db (mark_all t victims d) w).
      assert (w_faults w1 = []) as Hf1 by done.
      destruct (update_counts_calm t (map_to_list counts) w1 None [] false Hf1) as [e' E2].
      set (w2 := set_db (fewer_all t (map_to_list counts) (w_db w1)) w1) in *. assert (w_faults w2 = []) as Hf2 by done.
      exists w2. split; [|split_and!; [simpl; apply fewer_all_messages|by eexists|intros Hnil; by rewrite Hnil in E0]].
      apply (run_tx_commit _ _ _ _ (mkTx w2 None [] true)); [done| |done]. proceed E1. rewrite E0.
      proceed (delete_expired_calm _ _ _ _ _ _ _ Hf). fold d w1 counts. proceed E2. proceed (commit_calm _ _ _ _ Hf2 _).
      unfold mret, SE_ret. do 2 f_equal. unfold counts in *. rewrite count_deleted_reported by (unfold n, max_u32 in *; destruct (limit =? 0); lia).
      done. }
  rewrite E, Hm. split_and!; [done|done| |done|apply Hw|apply Hw]. intros v m Hvin Hmin He Hno. by eapply victims_oldest.
Qed.

(** Expired messages, and only those, are deleted.  On a database that
    works a clean-up at time [t] marks as deleted the oldest messages that
    are past the auto-deletion time of their channel, at most the given
    number of them (100 for 0), reports how many, and leaves every other
    message exactly as it was. *)
Theorem cleanup_exact ctx t limit w :
  db_inv (w_db w) -> healthy w -> 0 <= limit <= max_u32 ->
  let n := if limit =? 0 then 100 else limit in
  let d := w_db w in
  let victims := load_expired t n d in
  let '(w', r) := CleanupExpiredMessages ctx t limit w in
  r = inr (zlen victims) /\
  zlen victims = Z.min n (count_where (expired t d) (rows (messages d))) /\
  (forall v m, v ∈ victims -> m ∈ rows (messages d) -> expired t d m = true -> m ∉ victims -> by_age v m) /\
  rows (messages (w_db w')) =
    map (fun m => if existsb (fun v => m_id v =? m_id m) victims then with_deleted t m else m) (rows (messages d)).
Proof.
  intros Hi Hh Hlim. pose proof (cleanup_spec ctx t limit w Hi Hh Hlim) as Hc. cbv zeta in *.
  destruct (CleanupExpiredMessages ctx t limit w) as [w' r]. tauto.
Qed.
End expiry.

(** ** Concrete runs *)
Definition third : CreateMessageInput := mkCreateMessageInput 1 1 "client-0003" TypeText "third" [].
Definition posted : World := Eval vm_compute in (Create RequestCtx third busy_world).1.
Definition third_message : Message :=
  Eval vm_compute in match (Create RequestCtx third busy_world).2 with
                     | inr m => m
                     | inl _ => mkMessage 0 "" 0 0 0 "" "" TypeText "" StatusNormal 0 0 None (mkContent "" [] [])
                     end.
Lemma third_posted : Create RequestCtx third busy_world = (posted, inr third_message).
Proof. vm_compute. reflexivity. Qed.

Lemma create_outcome_witness :
  exists m, message_by_client 1 1 "client-0003" (w_db posted) = Some m /\ shown_as m third_message.
Proof.
  pose proof (create_outcome RequestCtx third busy_world busy_world_inv) as Hc. rewrite third_posted in Hc.
  exact (proj2 Hc third_message eq_refl).
Defined.

(** The message repeated, and another text sent under its client id. *)
Lemma create_idempotent_witness :
  (exists msg', Create RequestCtx third posted = (posted, inr msg') /\ (msg' = third_message \/ exists t, msg' = as_deleted t third_message)) /\
  messages (w_db (SendMessage defaults Background 1 (mkSendMessageInput 1 "client-0003" TypeText "other" [] []) posted).1)
  = messages (w_db posted).
Proof.
  destruct (create_idempotent defaults RequestCtx third busy_world posted third_message busy_world_inv third_posted) as [H1 H2].
  split.
  - destruct (H1 posted) as (msg'&E&_&_&Ha); [apply rtc_refl|split; reflexivity|]. exists msg'. split; [exact E|].
    apply Ha. apply Forall_nil_2.
  - apply H2; [apply rtc_refl|reflexivity..].
Defined.

Lemma create_succeeds_witness :
  exists w' msg, Create RequestCtx third busy_world = (w', inr msg) /\ Seq msg = 3 /\ TextContent msg = "third"%string.
Proof.
  destruct (create_succeeds RequestCtx third demo_channel busy_world) as (w'&msg&E&_&_&_&Es&_&Et&_).
  - exact busy_world_inv.
  - split; reflexivity.
  - reflexivity.
  - vm_compute. by eexists.
  - reflexivity.
  - reflexivity.
  - vm_compute. discriminate.
  - apply Forall_forall. repeat constructor; vm_compute; reflexivity.
  - vm_compute. reflexivity.
  - exists w', msg. split; [exact E|split; [exact Es|exact Et]].
Defined.

Definition third_request : SendMessageInput := mkSendMessageInput 1 "client-0003" TypeText " third " [] [].
Lemma only_permitted_posts_witness :
  exists c cm, may_post defaults 1 third_request (w_clock busy_world) (w_db busy_world) c cm /\
    one_more 1 third_request c (w_db busy_world) (w_db (SendMessage defaults RequestCtx 1 third_request busy_world).1).
Proof.
  destruct (only_permitted_posts defaults RequestCtx 1 third_request busy_world busy_world_inv) as [E|E]; [|exact E].
  exfalso. revert E. vm_compute. discriminate.
Defined.

(** The channel with slow mode, and with auto deletion. *)
Definition slow_events : list Event := [
  EvApi (ApiCreateGroup 1 "alice" (mkCreateGroupReq 1 "slow" "" Visibility_PUBLIC 30));
  EvApi (ApiSendMessage 1 (demo_text 2 "client-0001" "slowly"))].
Definition slow_world : World := Eval vm_compute in g_world (default busy (run_events slow_events busy)).
Definition slow_channel : ChannelRow := Eval vm_compute in default demo_channel (channel_by_id 2 (w_db slow_world)).
Definition slow_last : MessageRow :=
  Eval vm_compute in default (new_message third "" 0 0 0 0) (last_message 2 1 (w_db slow_world)).
Definition slow_request : SendMessageInput := mkSendMessageInput 2 "client-0001" TypeText "slowly" [] [].
Definition slow_member : ChannelMemberRow :=
  Eval vm_compute in default (mkChannelMemberRow 0 0 0 RoleOwner true true true true true true 0 0 0) (channel_member_row 2 1 (w_db slow_world)).
Definition slow_space : ServerRow := Eval vm_compute in default demo_space (server_by_id 1 (w_db slow_world)).
Lemma slow_mode_rejects_retry_witness :
  SendMessage defaults Background 1 slow_request slow_world = (slow_world, inl (invalid "slow mode active")).
Proof.
  apply (slow_mode_rejects_retry defaults Background 1 slow_request slow_channel slow_space slow_member slow_last slow_world).
  all: vm_compute; reflexivity.
Defined.

Definition stale_events : list Event := [
  EvApi (ApiSetAutoDelete 1 1 60); EvTime (demo_clock + 2 * minute)].
Definition stale : Mgr := Eval vm_compute in default busy (run_events stale_events busy).
Lemma stale_inv : db_inv (w_db (g_world stale)).
Proof.
  assert (run_events stale_events busy = Some stale) as E by (vm_compute; reflexivity).
  destruct busy_reachable as [clock Hr]. refine (proj1 (reachable_inv demo_mc stale _)).
  exists clock. etrans; [exact Hr|]. by apply run_events_rtc with (es := stale_events).
Qed.
Lemma cleanup_exact_witness :
  let '(w', r) := CleanupExpiredMessages Background (truncate_ms (demo_clock + 2 * minute)) 1 (g_world stale) in
  r = inr 1 /\ (m_status <$> rows (messages (w_db w'))) = [StatusDeleted; StatusNormal].
Proof.
  pose proof (cleanup_exact Background (truncate_ms (demo_clock + 2 * minute)) 1 (g_world stale) stale_inv) as Hc.
  assert (healthy (g_world stale)) as Hh by (split; reflexivity).
  assert (0 <= 1 <= max_u32) as Hb by (vm_compute; split; discriminate). specialize (Hc Hh Hb). cbv zeta in Hc.
  destruct (CleanupExpiredMessages _ _ 1 (g_world stale)) as [w' r]. destruct Hc as (Hr&_&_&Hrows).
  rewrite Hr, Hrows. split; vm_compute; reflexivity.
Defined.
