(* ===== verification/Api.v ===== *)
(** * The two front ends: libp2p envelopes and the HTTP API

    Every request can arrive as an envelope on a session or as a call of
    the HTTP API.  The code for the two is written twice; here they are
    shown to agree, and administration is shown to need an admin role. *)
From S2P Require Import Prelude Go Encoding Schema Config Store SpaceRepo UserRepo ChannelRepo MessageRepo BlobRepo Proto.
From S2P Require Import SpaceInv Codec Auth Media Messaging DirectRepo DirectService DbInv Session SessionInv Manager Dispatch.
From S2P Require Import System Demo Paging.
Import sessionv1.

Section agreement.
Context `{Env} `{Libp2p} `{MediaLib} `{Protobuf} (mc : ManagerConf).

(** The handler does what the API call does: the same changes, the call's
    result as the reply, and an error with the same text. *)
Definition answers {R} (sid : Sid) (env : Envelope) (t : Z) (body : R -> Body) (call : M R) (handler : G unit) : Prop :=
  forall g, match call (g_world g) with
  | (w, inr resp) => handler g = reply sid env t (body resp) (set_world w g)
  | (w, inl e) => exists e', handler g = (set_world w g, inl e') /\ error_text e' = error_text e
  end.

(** A step of both sides, then the rest. *)
Lemma answers_bind {A R} sid env t (body : R -> Body) (m : M A) (k : A -> M R) (h : A -> G unit) :
  (forall a, answers sid env t body (k a) (h a)) -> answers sid env t body (m ≫= k) (lift m ≫= h).
Proof.
  intros Hk g. unfold mbind at 1, SE_bind at 1. unfold mbind, SE_bind, lift.
  destruct (m (g_world g)) as [w [e|a]]; [by exists e|]. specialize (Hk a (set_world w g)). simpl in Hk.
  destruct (k a w) as [w' [e|r]]; done.
Qed.
Lemma answers_when {R} sid env t (body : R -> Body) b e e' (m : M R) (h : G unit) :
  error_text e' = error_text e -> answers sid env t body m h ->
  answers sid env t body (_ ← when b e; m) (_ ← when b e'; h).
Proof.
  intros He Hm g. destruct b; simpl; unfold mbind, SE_bind, throw; simpl; [exists e'; split; [by destruct g|done]|apply Hm].
Qed.
Lemma answers_ret {R} sid env t (body : R -> Body) (r : R) b :
  b = body r -> answers sid env t body (mret r) (reply sid env t b).
Proof. intros -> g. simpl. by destruct g. Qed.
Lemma answers_last {R} sid env t (body b : R -> Body) (m : M R) :
  (forall r, b r = body r) -> answers sid env t body m (r ← lift m; reply sid env t (b r)).
Proof. intros Hb g. unfold mbind, SE_bind, lift. destruct (m (g_world g)) as [w [e|r]]; [by exists e|]. by rewrite Hb. Qed.
Lemma answers_pure {A R} sid env t (body : R -> Body) f (x : Err + A) (k : A -> M R) (h : A -> G unit) :
  (forall a, answers sid env t body (k a) (h a)) ->
  answers sid env t body (a ← pure_check f x; k a) (a ← pure_check f x; h a).
Proof. intros Hk. destruct x as [e|a]; [|apply (Hk a)]. intros g. exists (f e). split; [by destruct g|done]. Qed.
Lemma answers_decoded {A R} sid env t (body : R -> Body) f (a : A) (m : M R) (h : A -> G unit) :
  answers sid env t body m (h a) -> answers sid env t body m (a ← pure_check f (inr a); h a).
Proof. done. Qed.
Lemma answers_fail {R} sid env t (body : R -> Body) e e' :
  error_text e' = error_text e -> answers sid env t body (throw e) (throw e').
Proof. intros He g. simpl. exists e'. split; [by destruct g|done]. Qed.
End agreement.

Ltac agree :=
  repeat first
    [ apply answers_last; intros ?; reflexivity
    | apply answers_bind; intros ?; cbv beta iota zeta
    | apply answers_when; [reflexivity|]
    | apply answers_pure; intros ?; cbv beta iota zeta
    | apply answers_ret; reflexivity
    | match goal with |- answers _ _ _ _ (match ?x with _ => _ end) _ => destruct x end
    | match goal with |- answers _ _ _ _ (mbind _ (match ?x with _ => _ end)) _ => destruct x eqn:? end ].

(** ** The two contexts of a call

    A method runs under the context of a session or of an HTTP request.  The
    runs give the same result; when they end in different worlds, the result
    is an error and the session has left a transaction open. *)
Definition same_but_leak {R} (m1 m2 : M R) : Prop := forall w,
  let '(w2, r2) := m2 w in let '(w1, r1) := m1 w in
  r1 = r2 /\ (w1 = w2 \/ (exists e, r2 = inl e) /\ exists locks, w1 = set_leaked (locks :: w_leaked w2) w2).

(** A transaction that succeeds has committed. *)
Definition closes {A} (m : TxM A) : Prop := forall t a, (m t).2 = inr a -> tx_done (m t).1 = true.
(** One that fails has set [err]. *)
Definition reports {A} (m : TxM A) : Prop := forall t e, (m t).2 = inl e -> is_Some (tx_err (m t).1).

Section contexts.
Context `{Env}.
Lemma same_refl {R} (m : M R) : same_but_leak m m.
Proof. intros w. destruct (m w). auto. Qed.
Lemma same_bind {A R} (m1 m2 : M A) (k1 k2 : A -> M R) :
  same_but_leak m1 m2 -> (forall a, same_but_leak (k1 a) (k2 a)) -> same_but_leak (m1 ≫= k1) (m2 ≫= k2).
Proof.
  intros Hm Hk w. specialize (Hm w). unfold mbind, SE_bind. destruct (m2 w) as [w2 r2], (m1 w) as [w1 r1].
  destruct Hm as [-> Hm]. destruct r2 as [e|a]; [split; [done|]; destruct Hm as [->|[_ ?]]; eauto|].
  destruct Hm as [->|[[e He] _]]; [|done]. apply Hk.
Qed.
Lemma same_run_tx {A} f (body : TxM A) : closes body -> same_but_leak (run_tx Background f body) (run_tx RequestCtx f body).
Proof.
  intros Hc w. unfold run_tx. destruct (fault w); [auto|]. specialize (Hc (mkTx (tick w) None [] false)).
  destruct (body _) as [t [e|a]]; simpl in Hc; (split; [done|]); [|left; by rewrite !finish_done by eauto].
  unfold finish. destruct (tx_done t); [by left|]. destruct (tx_err t); [by left|]. right. eauto.
Qed.
Lemma same_try_tx {A} f (body : TxM A) : closes body -> reports body ->
  same_but_leak (try (run_tx Background f body)) (try (run_tx RequestCtx f body)).
Proof.
  intros Hc Hr w. unfold try, run_tx. destruct (fault w); [auto|]. specialize (Hc (mkTx (tick w) None [] false)).
  specialize (Hr (mkTx (tick w) None [] false)). destruct (body _) as [t r]; simpl in *. split; [done|]. left.
  unfold finish. destruct (tx_done t) eqn:Ed; [done|]. destruct r as [e|a]; [|discriminate (Hc a eq_refl)].
  by destruct (Hr e eq_refl) as [? ->].
Qed.

Lemma closes_throw {A} e : closes (throw e : TxM A).
Proof. done. Qed.
Lemma closes_bind {A B} (m : TxM A) (k : A -> TxM B) : (forall a, closes (k a)) -> closes (m ≫= k).
Proof. intros Hk t b. unfold mbind, SE_bind. destruct (m t) as [t' [e|a]]; [done|]. apply Hk. Qed.
Lemma closes_ret {A B} (m : TxM A) (b : A -> B) : closes m -> closes (a ← m; mret (b a)).
Proof. intros Hm t b'. specialize (Hm t). unfold mbind, SE_bind. destruct (m t) as [t' [e|a]]; [done|]. eauto. Qed.
Lemma closes_commit f : closes (commit f).
Proof. apply closes_bind. by intros [] t []. Qed.

Lemma reports_ret {A} (a : A) : reports (mret a : TxM A).
Proof. done. Qed.
Lemma reports_bind {A B} (m : TxM A) (k : A -> TxM B) : reports m -> (forall a, reports (k a)) -> reports (m ≫= k).
Proof.
  intros Hm Hk t e. specialize (Hm t). unfold mbind, SE_bind. destruct (m t) as [t' [e'|a]]; [|apply Hk].
  simpl. intros _. by apply (Hm e').
Qed.
Lemma reports_check {A} f (stmt : M A) : reports (check f stmt).
Proof.
  intros t e. unfold check, assign, tx_sql, set_err, mbind, SE_bind. destruct (stmt (tx_world t)) as [w [e'|a]]; simpl; [|done].
  eauto.
Qed.
Lemma reports_check_exec {A} f (stmt : M A) : reports (check_exec f stmt).
Proof.
  intros t e. unfold check_exec, tx_sql, set_err, mbind, SE_bind. destruct (stmt (tx_world t)) as [w [e'|a]]; simpl; [|done].
  eauto.
Qed.
Lemma reports_commit f : reports (commit f).
Proof. apply reports_bind; [apply reports_check|]. by intros [] t e. Qed.
Lemma reports_delete_expired t l m : reports (delete_expired t m l).
Proof. revert m. induction l as [|r l IH]; intros m; [apply reports_ret|]. apply reports_bind; [apply reports_check_exec|done]. Qed.
Lemma reports_update_counts t l : reports (update_counts t l).
Proof.
  induction l as [|[c n] l IH]; [apply reports_ret|]. simpl. destruct (n =? 0); [done|].
  apply reports_bind; [apply reports_check|done].
Qed.
End contexts.

(** Goes through two runs of a method that differ in their contexts only. *)
Ltac closing := repeat first
  [ apply closes_throw | apply closes_commit | apply closes_ret, closes_commit | apply closes_bind; intros ?; cbv beta zeta
  | match goal with |- closes (match ?x with _ => _ end) => destruct x end ].
Lemma same_CleanupExpired `{Env} : same_but_leak (try (CleanupExpired Background)) (try (CleanupExpired RequestCtx)).
Proof.
  intros w. apply (same_try_tx (wrap "begin cleanup expired messages tx")).
  - closing.
  - repeat first [apply reports_check|apply reports_commit|apply reports_ret|apply reports_delete_expired|apply reports_update_counts
      |apply reports_bind; [|intros ?]|match goal with |- reports (if ?b then _ else _) => destruct b end].
Qed.
Create HintDb writes.
#[export] Hint Unfold CreateSpace JoinSpace InviteSpaceMember addSpaceMember KickSpaceMember BanSpaceMember UnbanSpaceMember
  SetSpaceMemberRole SetSpaceAllowChannelCreation CreateChannel SetGroupAutoDeleteAfterSeconds : writes.
Ltac same_runs := repeat first
  [ apply same_refl
  | apply same_CleanupExpired
  | apply same_run_tx; closing
  | apply same_bind; [|intros ?; cbv beta iota zeta]
  | match goal with |- same_but_leak (match ?x with _ => _ end) _ => destruct x end ].

Section front_ends.
Context `{Env} `{Libp2p} `{MediaLib} `{Protobuf} (mc : ManagerConf) (sid : Sid) (env : Envelope) (user : User).
Let uid := UserDBID user.
Let peer := PeerID user.

Lemma agree_LIST_SPACES :
  answers sid env MsgType_LIST_SPACES_RESP (fun l => BListSpacesResp (mkListSpacesResp l))
    (ListSpacesForAPI mc uid peer) (on_LIST_SPACES_REQ mc sid env user).
Proof. unfold on_LIST_SPACES_REQ, ListSpacesForAPI. agree. Qed.
Lemma agree_LIST_CHANNELS req : UnmarshalListChannelsReq (Envelope_Body env) = inr req ->
  answers sid env MsgType_LIST_CHANNELS_RESP (fun l => BListChannelsResp (mkListChannelsResp (ListChannelsReq_SpaceId req) l))
    (ListChannelsForAPI uid (ListChannelsReq_SpaceId req)) (on_LIST_CHANNELS_REQ sid env user).
Proof.
  intros Hreq. unfold on_LIST_CHANNELS_REQ, ListChannelsForAPI, unmarshal. rewrite Hreq.
  apply answers_decoded; cbv beta zeta. agree.
Qed.
Lemma agree_LIST_SPACE_MEMBERS req : UnmarshalListSpaceMembersReq (Envelope_Body env) = inr req ->
  answers sid env MsgType_LIST_SPACE_MEMBERS_RESP BListSpaceMembersResp
    (ListSpaceMembersForAPI uid (ListSpaceMembersReq_SpaceId req) (ListSpaceMembersReq_AfterMemberId req) (ListSpaceMembersReq_Limit req)) (on_LIST_SPACE_MEMBERS_REQ sid env user).
Proof.
  intros Hreq. unfold on_LIST_SPACE_MEMBERS_REQ, ListSpaceMembersForAPI, unmarshal. rewrite Hreq.
  apply answers_decoded; cbv beta zeta. agree.
Qed.
Lemma agree_CREATE_SPACE req : UnmarshalCreateSpaceReq (Envelope_Body env) = inr req ->
  answers sid env MsgType_CREATE_SPACE_RESP BCreateSpaceResp
    (CreateSpaceForAPI mc Background uid peer req) (on_CREATE_SPACE_REQ mc sid env user).
Proof.
  intros Hreq. unfold on_CREATE_SPACE_REQ, CreateSpaceForAPI, unmarshal. rewrite Hreq.
  apply answers_decoded; cbv beta zeta. agree.
Qed.
Lemma agree_GET_CREATE_GROUP_PERMISSIONS req : UnmarshalGetCreateGroupPermissionsReq (Envelope_Body env) = inr req ->
  answers sid env MsgType_GET_CREATE_GROUP_PERMISSIONS_RESP BGetCreateGroupPermissionsResp
    (GetCreateGroupPermissionsForAPI mc uid peer (GetCreateGroupPermissionsReq_SpaceId req)) (on_GET_CREATE_GROUP_PERMISSIONS_REQ mc sid env user).
Proof.
  intros Hreq. unfold on_GET_CREATE_GROUP_PERMISSIONS_REQ, GetCreateGroupPermissionsForAPI, unmarshal. rewrite Hreq.
  apply answers_decoded; cbv beta zeta. agree.
Qed.
Lemma agree_JOIN_SPACE req : UnmarshalJoinSpaceReq (Envelope_Body env) = inr req ->
  answers sid env MsgType_JOIN_SPACE_RESP (fun s => BJoinSpaceResp (mkJoinSpaceResp true (JoinSpaceReq_SpaceId req) (Some s) "joined"))
    (JoinSpaceForAPI mc Background uid peer (JoinSpaceReq_SpaceId req)) (on_JOIN_SPACE_REQ mc sid env user).
Proof.
  intros Hreq. unfold on_JOIN_SPACE_REQ, JoinSpaceForAPI, unmarshal. rewrite Hreq.
  apply answers_decoded; cbv beta zeta. agree.
Qed.
Lemma agree_ADMIN_SET_SPACE_MEMBER_ROLE req : UnmarshalAdminSetSpaceMemberRoleReq (Envelope_Body env) = inr req ->
  answers sid env MsgType_ADMIN_SET_SPACE_MEMBER_ROLE_RESP BAdminSetSpaceMemberRoleResp
    (AdminSetSpaceMemberRoleForAPI Background uid (AdminSetSpaceMemberRoleReq_SpaceId req) (AdminSetSpaceMemberRoleReq_TargetUserId req) (AdminSetSpaceMemberRoleReq_Role req)) (on_ADMIN_SET_SPACE_MEMBER_ROLE_REQ sid env user).
Proof.
  intros Hreq. unfold on_ADMIN_SET_SPACE_MEMBER_ROLE_REQ, AdminSetSpaceMemberRoleForAPI, unmarshal. rewrite Hreq.
  apply answers_decoded; cbv beta zeta. agree.
Qed.
Lemma agree_ADMIN_SET_SPACE_CHANNEL_CREATION req : UnmarshalAdminSetSpaceChannelCreationReq (Envelope_Body env) = inr req ->
  answers sid env MsgType_ADMIN_SET_SPACE_CHANNEL_CREATION_RESP BAdminSetSpaceChannelCreationResp
    (AdminSetSpaceChannelCreationForAPI Background uid (AdminSetSpaceChannelCreationReq_SpaceId req) (AdminSetSpaceChannelCreationReq_AllowChannelCreation req)) (on_ADMIN_SET_SPACE_CHANNEL_CREATION_REQ sid env user).
Proof.
  intros Hreq. unfold on_ADMIN_SET_SPACE_CHANNEL_CREATION_REQ, AdminSetSpaceChannelCreationForAPI, unmarshal. rewrite Hreq.
  apply answers_decoded; cbv beta zeta. agree.
Qed.
Lemma agree_ADMIN_SET_GROUP_AUTO_DELETE req : UnmarshalAdminSetGroupAutoDeleteReq (Envelope_Body env) = inr req ->
  answers sid env MsgType_ADMIN_SET_GROUP_AUTO_DELETE_RESP BAdminSetGroupAutoDeleteResp
    (AdminSetGroupAutoDeleteForAPI Background uid (AdminSetGroupAutoDeleteReq_ChannelId req) (AdminSetGroupAutoDeleteReq_AutoDeleteAfterSeconds req)) (on_ADMIN_SET_GROUP_AUTO_DELETE_REQ sid env user).
Proof.
  intros Hreq. unfold on_ADMIN_SET_GROUP_AUTO_DELETE_REQ, AdminSetGroupAutoDeleteForAPI, unmarshal. rewrite Hreq.
  apply answers_decoded; cbv beta zeta. agree.
Qed.
Lemma agree_INVITE_SPACE_MEMBER req : UnmarshalInviteSpaceMemberReq (Envelope_Body env) = inr req ->
  answers sid env MsgType_INVITE_SPACE_MEMBER_RESP BInviteSpaceMemberResp
    (InviteSpaceMemberForAPI mc Background uid peer (InviteSpaceMemberReq_SpaceId req) (InviteSpaceMemberReq_TargetUserId req)) (on_INVITE_SPACE_MEMBER_REQ mc sid env user).
Proof.
  intros Hreq. unfold on_INVITE_SPACE_MEMBER_REQ, InviteSpaceMemberForAPI, unmarshal. rewrite Hreq.
  apply answers_decoded; cbv beta zeta. agree.
Qed.
Lemma agree_KICK_SPACE_MEMBER req : UnmarshalKickSpaceMemberReq (Envelope_Body env) = inr req ->
  answers sid env MsgType_KICK_SPACE_MEMBER_RESP BKickSpaceMemberResp
    (KickSpaceMemberForAPI mc Background uid peer (KickSpaceMemberReq_SpaceId req) (KickSpaceMemberReq_TargetUserId req)) (on_KICK_SPACE_MEMBER_REQ mc sid env user).
Proof.
  intros Hreq. unfold on_KICK_SPACE_MEMBER_REQ, KickSpaceMemberForAPI, unmarshal. rewrite Hreq.
  apply answers_decoded; cbv beta zeta. agree.
Qed.
Lemma agree_BAN_SPACE_MEMBER req : UnmarshalBanSpaceMemberReq (Envelope_Body env) = inr req ->
  answers sid env MsgType_BAN_SPACE_MEMBER_RESP BBanSpaceMemberResp
    (BanSpaceMemberForAPI mc Background uid peer (BanSpaceMemberReq_SpaceId req) (BanSpaceMemberReq_TargetUserId req)) (on_BAN_SPACE_MEMBER_REQ mc sid env user).
Proof.
  intros Hreq. unfold on_BAN_SPACE_MEMBER_REQ, BanSpaceMemberForAPI, unmarshal. rewrite Hreq.
  apply answers_decoded; cbv beta zeta. agree.
Qed.
Lemma agree_UNBAN_SPACE_MEMBER req : UnmarshalUnbanSpaceMemberReq (Envelope_Body env) = inr req ->
  answers sid env MsgType_UNBAN_SPACE_MEMBER_RESP BUnbanSpaceMemberResp
    (UnbanSpaceMemberForAPI mc Background uid peer (UnbanSpaceMemberReq_SpaceId req) (UnbanSpaceMemberReq_TargetUserId req)) (on_UNBAN_SPACE_MEMBER_REQ mc sid env user).
Proof.
  intros Hreq. unfold on_UNBAN_SPACE_MEMBER_REQ, UnbanSpaceMemberForAPI, unmarshal. rewrite Hreq.
  apply answers_decoded; cbv beta zeta. agree.
Qed.
Lemma agree_CREATE_GROUP req : UnmarshalCreateGroupReq (Envelope_Body env) = inr req ->
  answers sid env MsgType_CREATE_GROUP_RESP BCreateGroupResp
    (CreateGroupForAPI mc Background uid peer req) (on_CREATE_GROUP_REQ mc sid env user).
Proof.
  intros Hreq. unfold on_CREATE_GROUP_REQ, CreateGroupForAPI, unmarshal. rewrite Hreq.
  apply answers_decoded; cbv beta zeta. agree.
Qed.
Lemma agree_CREATE_CHANNEL req : UnmarshalCreateChannelReq (Envelope_Body env) = inr req ->
  answers sid env MsgType_CREATE_CHANNEL_RESP BCreateChannelResp
    (CreateChannelForAPI mc Background uid peer req) (on_CREATE_CHANNEL_REQ mc sid env user).
Proof.
  intros Hreq. unfold on_CREATE_CHANNEL_REQ, CreateChannelForAPI, unmarshal. rewrite Hreq.
  apply answers_decoded; cbv beta zeta. agree.
Qed.
Lemma agree_SYNC_CHANNEL req : UnmarshalSyncChannelReq (Envelope_Body env) = inr req ->
  answers sid env MsgType_SYNC_CHANNEL_RESP (fun '(l, next, more) => BSyncChannelResp (mkSyncChannelResp (SyncChannelReq_ChannelId req) l next more))
    (SyncChannelForAPI mc uid (SyncChannelReq_ChannelId req) (SyncChannelReq_AfterSeq req) (SyncChannelReq_Limit req)) (on_SYNC_CHANNEL_REQ mc sid env user).
Proof.
  intros Hreq. unfold on_SYNC_CHANNEL_REQ, SyncChannelForAPI, unmarshal. rewrite Hreq.
  apply answers_decoded; cbv beta zeta. agree.
Qed.
Lemma agree_GET_MEDIA req : UnmarshalGetMediaReq (Envelope_Body env) = inr req ->
  answers sid env MsgType_GET_MEDIA_RESP BGetMediaResp
    (GetMediaForAPI uid (GetMediaReq_MediaId req)) (on_GET_MEDIA_REQ sid env user).
Proof.
  intros Hreq. unfold on_GET_MEDIA_REQ, GetMediaForAPI, unmarshal. rewrite Hreq.
  apply answers_decoded; cbv beta zeta. agree.
Qed.
(** A request that the HTTP API serves too: the type of the envelope, the
    type and body of the reply, and the API call made of its fields. *)
Inductive api_twin (ctx : Ctx) : Z -> forall R : Type, Z -> (R -> Body) -> M R -> Prop :=
| twin_LIST_SPACES : api_twin ctx MsgType_LIST_SPACES_REQ _ MsgType_LIST_SPACES_RESP (fun l => BListSpacesResp (mkListSpacesResp l))
      (ListSpacesForAPI mc uid peer)
| twin_LIST_CHANNELS : forall req, UnmarshalListChannelsReq (Envelope_Body env) = inr req ->
    api_twin ctx MsgType_LIST_CHANNELS_REQ _ MsgType_LIST_CHANNELS_RESP (fun l => BListChannelsResp (mkListChannelsResp (ListChannelsReq_SpaceId req) l))
      (ListChannelsForAPI uid (ListChannelsReq_SpaceId req))
| twin_LIST_SPACE_MEMBERS : forall req, UnmarshalListSpaceMembersReq (Envelope_Body env) = inr req ->
    api_twin ctx MsgType_LIST_SPACE_MEMBERS_REQ _ MsgType_LIST_SPACE_MEMBERS_RESP BListSpaceMembersResp
      (ListSpaceMembersForAPI uid (ListSpaceMembersReq_SpaceId req) (ListSpaceMembersReq_AfterMemberId req) (ListSpaceMembersReq_Limit req))
| twin_CREATE_SPACE : forall req, UnmarshalCreateSpaceReq (Envelope_Body env) = inr req ->
    api_twin ctx MsgType_CREATE_SPACE_REQ _ MsgType_CREATE_SPACE_RESP BCreateSpaceResp
      (CreateSpaceForAPI mc ctx uid peer req)
| twin_GET_CREATE_GROUP_PERMISSIONS : forall req, UnmarshalGetCreateGroupPermissionsReq (Envelope_Body env) = inr req ->
    api_twin ctx MsgType_GET_CREATE_GROUP_PERMISSIONS_REQ _ MsgType_GET_CREATE_GROUP_PERMISSIONS_RESP BGetCreateGroupPermissionsResp
      (GetCreateGroupPermissionsForAPI mc uid peer (GetCreateGroupPermissionsReq_SpaceId req))
| twin_JOIN_SPACE : forall req, UnmarshalJoinSpaceReq (Envelope_Body env) = inr req ->
    api_twin ctx MsgType_JOIN_SPACE_REQ _ MsgType_JOIN_SPACE_RESP (fun s => BJoinSpaceResp (mkJoinSpaceResp true (JoinSpaceReq_SpaceId req) (Some s) "joined"))
      (JoinSpaceForAPI mc ctx uid peer (JoinSpaceReq_SpaceId req))
| twin_ADMIN_SET_SPACE_MEMBER_ROLE : forall req, UnmarshalAdminSetSpaceMemberRoleReq (Envelope_Body env) = inr req ->
    api_twin ctx MsgType_ADMIN_SET_SPACE_MEMBER_ROLE_REQ _ MsgType_ADMIN_SET_SPACE_MEMBER_ROLE_RESP BAdminSetSpaceMemberRoleResp
      (AdminSetSpaceMemberRoleForAPI ctx uid (AdminSetSpaceMemberRoleReq_SpaceId req) (AdminSetSpaceMemberRoleReq_TargetUserId req) (AdminSetSpaceMemberRoleReq_Role req))
| twin_ADMIN_SET_SPACE_CHANNEL_CREATION : forall req, UnmarshalAdminSetSpaceChannelCreationReq (Envelope_Body env) = inr req ->
    api_twin ctx MsgType_ADMIN_SET_SPACE_CHANNEL_CREATION_REQ _ MsgType_ADMIN_SET_SPACE_CHANNEL_CREATION_RESP BAdminSetSpaceChannelCreationResp
      (AdminSetSpaceChannelCreationForAPI ctx uid (AdminSetSpaceChannelCreationReq_SpaceId req) (AdminSetSpaceChannelCreationReq_AllowChannelCreation req))
| twin_ADMIN_SET_GROUP_AUTO_DELETE : forall req, UnmarshalAdminSetGroupAutoDeleteReq (Envelope_Body env) = inr req ->
    api_twin ctx MsgType_ADMIN_SET_GROUP_AUTO_DELETE_REQ _ MsgType_ADMIN_SET_GROUP_AUTO_DELETE_RESP BAdminSetGroupAutoDeleteResp
      (AdminSetGroupAutoDeleteForAPI ctx uid (AdminSetGroupAutoDeleteReq_ChannelId req) (AdminSetGroupAutoDeleteReq_AutoDeleteAfterSeconds req))
| twin_INVITE_SPACE_MEMBER : forall req, UnmarshalInviteSpaceMemberReq (Envelope_Body env) = inr req ->
    api_twin ctx MsgType_INVITE_SPACE_MEMBER_REQ _ MsgType_INVITE_SPACE_MEMBER_RESP BInviteSpaceMemberResp
      (InviteSpaceMemberForAPI mc ctx uid peer (InviteSpaceMemberReq_SpaceId req) (InviteSpaceMemberReq_TargetUserId req))
| twin_KICK_SPACE_MEMBER : forall req, UnmarshalKickSpaceMemberReq (Envelope_Body env) = inr req ->
    api_twin ctx MsgType_KICK_SPACE_MEMBER_REQ _ MsgType_KICK_SPACE_MEMBER_RESP BKickSpaceMemberResp
      (KickSpaceMemberForAPI mc ctx uid peer (KickSpaceMemberReq_SpaceId req) (KickSpaceMemberReq_TargetUserId req))
| twin_BAN_SPACE_MEMBER : forall req, UnmarshalBanSpaceMemberReq (Envelope_Body env) = inr req ->
    api_twin ctx MsgType_BAN_SPACE_MEMBER_REQ _ MsgType_BAN_SPACE_MEMBER_RESP BBanSpaceMemberResp
      (BanSpaceMemberForAPI mc ctx uid peer (BanSpaceMemberReq_SpaceId req) (BanSpaceMemberReq_TargetUserId req))
| twin_UNBAN_SPACE_MEMBER : forall req, UnmarshalUnbanSpaceMemberReq (Envelope_Body env) = inr req ->
    api_twin ctx MsgType_UNBAN_SPACE_MEMBER_REQ _ MsgType_UNBAN_SPACE_MEMBER_RESP BUnbanSpaceMemberResp
      (UnbanSpaceMemberForAPI mc ctx uid peer (UnbanSpaceMemberReq_SpaceId req) (UnbanSpaceMemberReq_TargetUserId req))
| twin_CREATE_GROUP : forall req, UnmarshalCreateGroupReq (Envelope_Body env) = inr req ->
    api_twin ctx MsgType_CREATE_GROUP_REQ _ MsgType_CREATE_GROUP_RESP BCreateGroupResp
      (CreateGroupForAPI mc ctx uid peer req)
| twin_CREATE_CHANNEL : forall req, UnmarshalCreateChannelReq (Envelope_Body env) = inr req ->
    api_twin ctx MsgType_CREATE_CHANNEL_REQ _ MsgType_CREATE_CHANNEL_RESP BCreateChannelResp
      (CreateChannelForAPI mc ctx uid peer req)
| twin_SYNC_CHANNEL : forall req, UnmarshalSyncChannelReq (Envelope_Body env) = inr req ->
    api_twin ctx MsgType_SYNC_CHANNEL_REQ _ MsgType_SYNC_CHANNEL_RESP (fun '(l, next, more) => BSyncChannelResp (mkSyncChannelResp (SyncChannelReq_ChannelId req) l next more))
      (SyncChannelForAPI mc uid (SyncChannelReq_ChannelId req) (SyncChannelReq_AfterSeq req) (SyncChannelReq_Limit req))
| twin_GET_MEDIA : forall req, UnmarshalGetMediaReq (Envelope_Body env) = inr req ->
    api_twin ctx MsgType_GET_MEDIA_REQ _ MsgType_GET_MEDIA_RESP BGetMediaResp
      (GetMediaForAPI uid (GetMediaReq_MediaId req)).

Lemma dispatch_handler g t h : session_user sid g = Some user -> Envelope_MsgType env = t ->
  find_handler mc t = Some h -> t <> MsgType_HELLO -> t <> MsgType_AUTH_PROVE -> t <> MsgType_PING ->
  dispatch mc sid env g = h sid env user g.
Proof.
  intros Hu Ht Hh N1 N2 N3. unfold dispatch. rewrite Ht. rewrite <- Z.eqb_neq in N1, N2, N3. rewrite N1, N2, N3.
  unfold mbind, SE_bind, gets. simpl. by rewrite Hu, Hh.
Qed.
Lemma twin_answers t R rt (body : R -> Body) call : api_twin Background t R rt body call ->
  exists h, find_handler mc t = Some h /\ t <> MsgType_HELLO /\ t <> MsgType_AUTH_PROVE /\ t <> MsgType_PING /\
    answers sid env rt body call (h sid env user).
Proof.
  intros Hw. destruct Hw; (eexists; split; [reflexivity|]; split_and!; [discriminate..|]).
  - apply agree_LIST_SPACES.
  - by apply agree_LIST_CHANNELS.
  - by apply agree_LIST_SPACE_MEMBERS.
  - by apply agree_CREATE_SPACE.
  - by apply agree_GET_CREATE_GROUP_PERMISSIONS.
  - by apply agree_JOIN_SPACE.
  - by apply agree_ADMIN_SET_SPACE_MEMBER_ROLE.
  - by apply agree_ADMIN_SET_SPACE_CHANNEL_CREATION.
  - by apply agree_ADMIN_SET_GROUP_AUTO_DELETE.
  - by apply agree_INVITE_SPACE_MEMBER.
  - by apply agree_KICK_SPACE_MEMBER.
  - by apply agree_BAN_SPACE_MEMBER.
  - by apply agree_UNBAN_SPACE_MEMBER.
  - by apply agree_CREATE_GROUP.
  - by apply agree_CREATE_CHANNEL.
  - by apply agree_SYNC_CHANNEL.
  - by apply agree_GET_MEDIA.
Qed.

(** The call of a session and the one of an HTTP request. *)
Lemma twin_contexts t R rt (body : R -> Body) call : api_twin RequestCtx t R rt body call ->
  exists call', api_twin Background t R rt body call' /\ same_but_leak call' call.
Proof.
  intros Hw. destruct Hw; eexists; (split; [by constructor|]); first [by apply same_refl|autounfold with api writes; same_runs].
Qed.

End front_ends.

(** ** Administration needs a role *)
Section administration.
Context `{Env} `{Libp2p} `{MediaLib} `{Protobuf} (mc : ManagerConf) (ctx : Ctx) (uid : Z) (peer : string).

(** The user's role in the space, if they are in it and not banned, is one of those required. *)
Definition holds_role (ok : Role -> bool) (sid : Z) (d : DB) : bool :=
  match role_of sid uid d with Some r => ok r | None => false end.
Definition may_create_channel (sid : Z) (d : DB) : bool :=
  match server_by_id sid d with
  | Some s => (s_allow_channel_creation s || isGlobalAdmin mc peer) && holds_role is_admin_role sid d
  | None => false
  end.

(** The administrative calls of a user, each with the permission it needs on a database. *)
Inductive admin_call (d : DB) : bool -> forall R : Type, M R -> Prop :=
| call_create_space req : admin_call d (isGlobalAdmin mc peer) _ (CreateSpaceForAPI mc ctx uid peer req)
| call_set_owner sid target : admin_call d (holds_role (fun r => r =@ RoleOwner) sid d) _
    (AdminSetSpaceMemberRoleForAPI ctx uid sid target MemberRole_OWNER)
| call_set_role sid target r : r <> MemberRole_OWNER -> admin_call d (holds_role is_admin_role sid d) _
    (AdminSetSpaceMemberRoleForAPI ctx uid sid target r)
| call_channel_creation sid b : admin_call d (holds_role is_admin_role sid d) _
    (AdminSetSpaceChannelCreationForAPI ctx uid sid b)
| call_auto_delete cid seconds : admin_call d
    (match channel_by_id cid d with Some c => holds_role is_admin_role (c_space_id c) d | None => false end) _
    (AdminSetGroupAutoDeleteForAPI ctx uid cid seconds)
| call_invite sid target : admin_call d (holds_role is_admin_role sid d) _
    (InviteSpaceMemberForAPI mc ctx uid peer sid target)
| call_kick sid target : admin_call d (holds_role is_admin_role sid d) _
    (KickSpaceMemberForAPI mc ctx uid peer sid target)
| call_ban sid target : admin_call d (holds_role is_admin_role sid d) _
    (BanSpaceMemberForAPI mc ctx uid peer sid target)
| call_unban sid target : admin_call d (holds_role is_admin_role sid d) _
    (UnbanSpaceMemberForAPI mc ctx uid peer sid target)
| call_create_group req : admin_call d (may_create_channel (CreateGroupReq_SpaceId req) d) _
    (CreateGroupForAPI mc ctx uid peer req)
| call_create_channel req : admin_call d (may_create_channel (CreateChannelReq_SpaceId req) d) _
    (CreateChannelForAPI mc ctx uid peer req).

(** The call fails and the database and the files are as before. *)
Definition refused {R} (w : World) (w' : World) (r : Err + R) : Prop :=
  (exists e, r = inl e) /\ w_db w' = w_db w /\ w_files w' = w_files w.

Lemma refused_fail {R} w w' e : w_db w' = w_db w -> w_files w' = w_files w -> @refused R w w' (inl e).
Proof. intros. by split; [eexists|]. Qed.

Lemma role_guard {R} ok sid bad err w w1 (k : Role -> M R) :
  holds_role ok sid (w_db w) = false -> (forall r, ok r = false -> bad r = true) ->
  w_db w1 = w_db w -> w_files w1 = w_files w ->
  wp (actorRole ← GetMemberRole sid uid; _ ← when (bad actorRole) err; k actorRole) w1 (refused w).
Proof.
  unfold holds_role. intros Hn Hbad Hd Hf. unfold GetMemberRole.
  apply wp_bind, wp_fetchOne; [by intros; apply refused_fail..|]. intros r _ Hr. rewrite Hd in Hr. rewrite Hr in Hn.
  apply wp_bind, wp_when; intros Hb; [by apply refused_fail|]. rewrite (Hbad _ Hn) in Hb. done.
Qed.
Lemma not_admin r : is_admin_role r = false -> negb (r =@ RoleOwner) && negb (r =@ RoleAdmin) = true.
Proof. by destruct r. Qed.

Lemma may_create_channel_intro sid d s m :
  server_by_id sid d = Some s -> negb (s_allow_channel_creation s) && negb (isGlobalAdmin mc peer) = false ->
  first_where (fun m => is_member (s_id s) uid m && negb (sm_is_banned m)) (rows (server_members d)) = Some m ->
  negb (sm_role m =@ RoleOwner) && negb (sm_role m =@ RoleAdmin) = false -> may_create_channel sid d = true.
Proof.
  intros Hs Ha Hm Hr. unfold may_create_channel, holds_role, role_of. rewrite Hs. simpl.
  destruct (server_by_id_Some _ _ _ Hs) as [<- _]. rewrite Hm. simpl.
  apply andb_true_intro. split; [by destruct (s_allow_channel_creation s), (isGlobalAdmin mc peer)|by destruct (sm_role m)].
Qed.
Lemma refused_tx {R} w t e : tx_done t = false -> w_db (tx_world t) = w_db w -> w_files (tx_world t) = w_files w ->
  @refused R w (finish ctx (tick w) t) (inl e).
Proof. intros Hd Hdb Hf. unfold finish. rewrite Hd. by destruct (tx_err t), ctx; apply refused_fail. Qed.

Lemma create_channel_guard i w :
  cci_CreatorUserID i = uid -> cci_Bypass i = isGlobalAdmin mc peer ->
  may_create_channel (cci_SpaceID i) (w_db w) = false -> wp (CreateChannel ctx i) w (refused w).
Proof.
  intros Hu Hb Hn. unfold CreateChannel. rewrite Hu, Hb.
  do 3 (apply wp_bind, wp_when; intros ?; [by apply refused_fail|]; cbv beta zeta).
  apply wp_run_tx; intros _; [by apply refused_fail|].
  apply wp_bind, wp_check_for_update, wp_fetch_for_update; [by intros; apply refused_tx..|]. intros s _ Hs _.
  destruct (negb _ && negb (isGlobalAdmin mc peer)) eqn:Ha; [by apply refused_tx|].
  apply wp_bind, wp_check_for_update, wp_fetch_for_update; [by intros; apply refused_tx..|]. intros m _ Hm _.
  destruct (negb _ && negb (sm_role m =@ RoleAdmin)) eqn:Hr; [by apply refused_tx|].
  exfalso. cbn [w_db tick tx_world] in Hs, Hm. by rewrite (may_create_channel_intro _ _ _ _ Hs Ha Hm Hr) in Hn.
Qed.

Lemma refused_first {A R} (m : M A) (k : A -> M R) w : wp m w (refused w) -> wp (m ≫= k) w (refused w).
Proof. intros Hm. apply wp_bind. eapply wp_mono; [exact Hm|]. intros w' [e|a] ([e' E]&Hd&Hf); [by apply refused_fail|done]. Qed.

Lemma admin_call_refused w b R call : admin_call (w_db w) b R call -> b = false -> wp call w (refused w).
Proof.
  intros Hc Hb. destruct Hc as [req|sid target|sid target r Hr|sid f|cid seconds| | | | |req|req].
  - unfold CreateSpaceForAPI. rewrite Hb. by apply refused_fail.
  - apply (role_guard (fun r => r =@ RoleOwner) sid (fun r => negb (r =@ RoleOwner))); [done| |done..]. by intros [].
  - unfold AdminSetSpaceMemberRoleForAPI. destruct (toDomainMemberRole r) as [e|role] eqn:E; [by apply refused_fail|].
    assert ((role =@ RoleOwner) = false) as Eo.
    { revert E. unfold toDomainMemberRole. repeat case_match; intros; simplify_eq; try done. lia. }
    apply wp_bind, wp_ret. rewrite Eo. by eapply role_guard; [exact Hb|apply not_admin|..].
  - by eapply role_guard; [exact Hb|apply not_admin|..].
  - apply wp_bind, wp_fetchOne; [by intros; apply refused_fail..|].
    intros ch _ (c&Hc&(s&_&Ech)%bind_Some)%bind_Some. rewrite Hc in Hb. simplify_eq.
    apply wp_bind, wp_when; intros _; [by apply refused_fail|]. by eapply role_guard; [exact Hb|apply not_admin|..].
  - by eapply role_guard; [exact Hb|apply not_admin|..].
  - by eapply role_guard; [exact Hb|apply not_admin|..].
  - by eapply role_guard; [exact Hb|apply not_admin|..].
  - by eapply role_guard; [exact Hb|apply not_admin|..].
  - by apply refused_first, create_channel_guard.
  - by apply refused_first, create_channel_guard.
Qed.

(** C8: administration needs permission.  Each of the ten administrative
    calls (create a space; make a member owner, or give another role; allow
    channel creation; set a group's auto-delete time; invite, kick, ban and
    unban a member; create a group or a channel), made by a user who lacks
    what it needs, fails and leaves the database and the stored files
    exactly as they were, whatever statements fail meanwhile.  Creating a
    space needs the global admin's peer id; making someone owner needs the
    owner role in that space; everything else needs the owner or admin role
    in the space concerned (a banned member has none), and creating a
    channel also that the space allows it or the caller is global admin. *)
Theorem admin_calls_guarded w R (call : M R) :
  admin_call (w_db w) false R call ->
  (exists e, (call w).2 = inl e) /\ w_db (call w).1 = w_db w /\ w_files (call w).1 = w_files w.
Proof. intros Hc. exact (admin_call_refused w false R call Hc eq_refl). Qed.
End administration.

(** ** Witnesses *)
Definition kick_env : Envelope := env_of MsgType_KICK_SPACE_MEMBER_REQ (body 1 bob_id).
Definition kick_user : User := Eval vm_compute in
  default (mkUser 0 "" "" None "" "" "" 0 0 0 0) (session_user 1 busy).
Definition kick_result : KickSpaceMemberResp := Eval vm_compute in
  match (KickSpaceMemberForAPI demo_mc RequestCtx 1 "alice" 1 bob_id (g_world busy)).2 with
  | inr r => r | inl _ => mkKickSpaceMemberResp false 0 "" None "" end.

Lemma admin_calls_guarded_witness :
  (exists e, (KickSpaceMemberForAPI demo_mc Background 2 "bob" 1 bob_id (g_world busy)).2 = inl e) /\
  w_db (KickSpaceMemberForAPI demo_mc Background 2 "bob" 1 bob_id (g_world busy)).1 = w_db (g_world busy).
Proof.
  assert (holds_role 2 is_admin_role 1 (w_db (g_world busy)) = false) as Hn by (vm_compute; reflexivity).
  pose proof (call_kick demo_mc Background 2 "bob" (w_db (g_world busy)) 1 bob_id) as Hc. rewrite Hn in Hc.
  destruct (admin_calls_guarded demo_mc Background 2 "bob" (g_world busy) _ _ Hc) as (He & Hd & _).
  exact (conj He Hd).
Defined.
