(* ===== verification/MediaThms.v ===== *)
(** * Media: what is uploaded is what is downloaded

    The round trip of an upload through the content-addressed store, the
    deduplication of equal contents, and what a write that was cut short
    leaves behind. *)
From S2P Require Import Prelude Go Encoding Schema Config Store SpaceRepo MessageRepo BlobRepo TableInv Media DbInv.
From S2P Require Import Session Manager Dispatch System Demo.

Section round_trip.
Context `{Env} `{MediaLib} (cfg : Config).

Definition sha_of (content : string) : string := hex_encode (Sha256.Sum256 content).
(** Where the content is, or will be, stored. *)
Definition stored_path (content : string) (d : DB) : string :=
  match blob_by_sha (sha_of content) d with Some b => b_storage_path b | None => blob_path (sha_of content) end.
(** What the file of the content holds once it is written: an existing file is left alone. *)
Definition kept (content : string) (w : World) : string :=
  default content (w_files w !! stored_path content (w_db w)).
(** The identifiers drawn by an upload. *)
Definition generated (prefix : string) (n : nat) : string := prefix +:+ "_" +:+ hex_encode (rand_read 10 n).

Lemma limit_read_all n s : strlen s <= n -> limit_read n s = s.
Proof. unfold strlen, zlen, limit_read. intros Hl. rewrite take_ge by lia. apply of_to_bytes. Qed.

Lemma write_calm path content w :
  w_faults w = [] ->
  Write path content w = (set_files (<[path := default content (w_files w !! path)]> (w_files w)) w, inr tt).
Proof.
  intros Hf. unfold Write, Exists, write_file, file_op, map_err, mbind, SE_bind.
  rewrite (fault_healthy w Hf), (tick_calm w Hf). cbv beta iota.
  destruct (w_files w !! path) as [c|] eqn:E.
  - rewrite bool_decide_true by eauto. simpl. rewrite insert_id by done. by destruct w.
  - rewrite bool_decide_false by (by intros []). by rewrite (fault_healthy w Hf), (tick_calm w Hf).
Qed.

Lemma insert_calm {A} f (u : DB -> option (DB * A)) w d a :
  w_faults w = [] -> u (w_db w) = Some (d, a) -> map_err f (exec u) w = (set_db d w, inr a).
Proof. intros Hf E. apply map_err_run. by rewrite exec_calm, E. Qed.

Definition new_blob (i : CreateBlobInput) (t id : Z) : BlobRow :=
  mkBlobRow id (cbi_BlobID i) (cbi_SHA256 i) (cbi_Size i) (nullableString (cbi_MIMEType i))
    (cbi_StoragePath i) (cbi_RefCount i) t.
Lemma create_blob_calm i w :
  w_faults w = [] -> blob_inv (w_db w) -> next_id (blobs (w_db w)) <= max_u64 ->
  (forall b, b ∈ rows (blobs (w_db w)) -> sql_eq (b_blob_id b) (cbi_BlobID i) = false) ->
  blob_by_sha (cbi_SHA256 i) (w_db w) = None ->
  exists d b, CreateBlob i w = (set_db d w, inr (to_blob b)) /\ blob_inv d /\ b ∈ rows (blobs d) /\
    b_storage_path b = cbi_StoragePath i /\ media_objects d = media_objects (w_db w).
Proof.
  intros Hf Hi Hn Hid Hsha. set (t := truncate_ms (w_clock w)).
  pose proof (proj1 (first_where_None _ _) Hsha) as Hno.
  assert (insert_blob i t (w_db w) = Some (set_blobs (fun _ => mkTable (rows (blobs (w_db w)) ++
    [new_blob i t (next_id (blobs (w_db w)))]) (next_id (blobs (w_db w)) + 1)) (w_db w), tt)) as Hins.
  { unfold insert_blob. rewrite insert_row_ok; [done|done|]. intros b Hb. by rewrite Hid, Hno. }
  do 2 eexists. split; [|split; [by eapply insert_blob_inv|]].
  - unfold CreateBlob. proceed (eq_refl : now w = (w, inr t)).
    proceed (insert_calm _ _ _ _ _ Hf Hins).
    unfold GetBySHA256. rewrite fetchOne_calm by done. unfold blob_by_sha. simpl.
    rewrite first_where_app. unfold blob_by_sha in Hsha. rewrite Hsha. simpl. rewrite sql_eq_refl. done.
  - simpl. split_and!; [set_solver|done|done].
Qed.

Definition new_media (i : CreateMediaInput) (t id : Z) : MediaRow :=
  mkMediaRow id (cme_MediaID i) (cme_BlobID i) (cme_Kind i) (nullableString (cme_OriginalName i))
    (nullableString (cme_MIMEType i)) (nullableString (cme_FileCID i)) (cme_Size i) (cme_Width i) (cme_Height i)
    (cme_CreatedBy i) t.
Lemma create_media_calm i w b :
  w_faults w = [] -> blob_inv (w_db w) -> next_id (media_objects (w_db w)) <= max_u64 ->
  (forall mo, mo ∈ rows (media_objects (w_db w)) -> sql_eq (mo_media_id mo) (cme_MediaID i) = false) ->
  b ∈ rows (blobs (w_db w)) -> b_id b = cme_BlobID i ->
  exists d id, let m := to_media b (new_media i (truncate_ms (w_clock w)) id) in
    CreateMedia i w = (set_db d w, inr m) /\ media_by_id (cme_MediaID i) d = Some m /\ blobs d = blobs (w_db w).
Proof.
  intros Hf Hi Hn Hid Hb Eb. set (t := truncate_ms (w_clock w)). set (id := next_id (media_objects (w_db w))).
  set (d := set_media_objects (fun tb => mkTable (rows tb ++ [new_media i t id]) (id + 1)) (w_db w)).
  assert (insert_media i t (w_db w) = Some (d, tt)) as Hins.
  { unfold insert_media. by rewrite insert_row_ok. }
  assert (media_by_id (cme_MediaID i) d = Some (to_media b (new_media i t id))) as Hfound.
  { unfold media_by_id. simpl. rewrite first_where_app.
    rewrite (proj2 (first_where_None _ _)) by (intros mo Hmo; by rewrite Hid). simpl.
    rewrite sql_eq_refl. simpl.
    rewrite (proj2 (existsb_exists _ _)) by (exists b; split; [by apply list_elem_of_In|simpl; lia]). simpl.
    rewrite (first_where_unique b_id _ _ b); [done|apply (wf_nodup _ _ (bi_blobs _ Hi))|done|simpl; lia|].
    simpl. intros b' _ E. lia. }
  exists d, id. simpl. split_and!; [|done|done].
  unfold CreateMedia. proceed (eq_refl : now w = (w, inr t)).
  proceed (insert_calm _ _ _ _ _ Hf Hins).
  unfold GetByMediaID. rewrite fetchOne_calm by done. simpl. by rewrite Hfound.
Qed.

(** Storing the content: the blob of the digest, created or reused. *)
Definition store_blob (mimeType payload : string) (found : Err + Blob) : M Blob :=
  match found with
  | inl _ =>
    let relativePath := blob_path (sha_of payload) in
    _ ← Write relativePath payload;
    blobID ← newBlobID;
    CreateBlob (mkCreateBlobInput blobID (sha_of payload) (strlen payload) mimeType relativePath 0)
  | inr blob =>
    present ← Exists (BlobStoragePath blob);
    _ ← (if negb present then Write (BlobStoragePath blob) payload else mret tt);
    mret blob
  end.
Definition looked_up (payload : string) (d : DB) : Err + Blob :=
  match to_blob <$> blob_by_sha (sha_of payload) d with Some b => inr b | None => inl ErrNotFound end.

Lemma store_blob_calm mimeType payload w :
  w_faults w = [] -> blob_inv (w_db w) -> next_id (blobs (w_db w)) <= max_u64 ->
  (forall b, b ∈ rows (blobs (w_db w)) -> sql_eq (b_blob_id b) (generated "blob" (w_draws w)) = false) ->
  exists w1 b, store_blob mimeType payload (looked_up payload (w_db w)) w = (w1, inr (to_blob b)) /\
    w_faults w1 = [] /\ blob_inv (w_db w1) /\ b ∈ rows (blobs (w_db w1)) /\
    b_storage_path b = stored_path payload (w_db w) /\ media_objects (w_db w1) = media_objects (w_db w) /\
    w_files w1 = <[stored_path payload (w_db w) := kept payload w]> (w_files w) /\
    (w_draws w1 = w_draws w \/ w_draws w1 = S (w_draws w)) /\
    (is_Some (blob_by_sha (sha_of payload) (w_db w)) -> w_db w1 = w_db w).
Proof.
  intros Hf Hi Hn Hid. unfold looked_up, kept, stored_path in *.
  destruct (blob_by_sha (sha_of payload) (w_db w)) as [b|] eqn:Eb; cbn [fmap option_fmap option_map store_blob].
  - exists (set_files (<[b_storage_path b := default payload (w_files w !! b_storage_path b)]> (w_files w)) w), b.
    apply first_where_Some in Eb as [_ Hb]. split; [|by split_and!; try done; left].
    unfold store_blob, Exists. cbn [BlobStoragePath to_blob].
    destruct (w_files w !! b_storage_path b) as [c|] eqn:E.
    + unfold mbind, SE_bind. rewrite bool_decide_true by eauto. simpl.
      rewrite insert_id by done. by destruct w.
    + unfold mbind at 1, SE_bind at 1. cbv beta iota. rewrite E, bool_decide_false by (by intros []). simpl negb. cbv iota.
      proceed (write_calm (b_storage_path b) payload w Hf). by rewrite E.
  - set (w0 := set_draws (S (w_draws w)) (set_files (<[blob_path (sha_of payload) :=
      default payload (w_files w !! blob_path (sha_of payload))]> (w_files w)) w)).
    destruct (create_blob_calm (mkCreateBlobInput (generated "blob" (w_draws w)) (sha_of payload) (strlen payload)
      mimeType (blob_path (sha_of payload)) 0) w0) as (d&b&E&Hi'&Hb&Hp&Hm); [done..|].
    exists (set_db d w0), b. split; [|split_and!; try done; by right].
    proceed (write_calm _ _ _ Hf). exact E.
Qed.

(** The premises of an upload of [content]: the database works, its sizes
    and counters are in range, the identifiers drawn are new, and the
    library computes the content id. *)
Record uploadable (kind : Kind) (content : string) (w : World) : Prop := {
  up_inv : db_inv (w_db w);
  up_calm : w_faults w = [];
  up_size : 0 < strlen content <= MaxUploadBytes cfg;
  up_limit : MaxUploadBytes cfg < max_i64;
  up_blob_ids : next_id (blobs (w_db w)) <= max_u64;
  up_media_ids : next_id (media_objects (w_db w)) <= max_u64;
  up_new_blob : forall b, b ∈ rows (blobs (w_db w)) -> sql_eq (b_blob_id b) (generated "blob" (w_draws w)) = false;
  up_new_media : forall mo n, mo ∈ rows (media_objects (w_db w)) -> n = w_draws w \/ n = S (w_draws w) ->
    sql_eq (mo_media_id mo) (generated "media" n) = false;
  up_cid : kind = KindFile -> exists cid, UnixFSFileCID (IPFS cfg) content = inr cid }.

Lemma lookup_calm content w : w_faults w = [] ->
  try (GetBySHA256 (sha_of content)) w = (w, inr (looked_up content (w_db w))).
Proof. intros Hf. unfold try, GetBySHA256. by rewrite fetchOne_calm. Qed.

Lemma put_calm meta content w :
  uploadable (pbi_Kind meta) content w ->
  exists w1 b mo hit, Put cfg content meta w = (w1, inr (mkPutBlobResult (to_blob b) (to_media b mo) hit)) /\
    w_faults w1 = [] /\ media_by_id (mo_media_id mo) (w_db w1) = Some (to_media b mo) /\
    mo_size mo = strlen content /\ mo_kind mo = pbi_Kind meta /\ mo_created_by mo = pbi_CreatedBy meta /\
    b_storage_path b = stored_path content (w_db w) /\
    w_files w1 = <[stored_path content (w_db w) := kept content w]> (w_files w) /\
    (is_Some (blob_by_sha (sha_of content) (w_db w)) -> blobs (w_db w1) = blobs (w_db w)).
Proof.
  intros [Hi Hf Hsize Hlim Hn1 Hn2 Hb1 Hm1 Hcid].
  set (mimeType := if TrimSpace (pbi_MIMEType meta) =@ ""%string then DetectContentType content else TrimSpace (pbi_MIMEType meta)).
  destruct (store_blob_calm mimeType content w Hf (inv_blobs _ Hi) Hn1 Hb1) as
    (w1&b&Hst&Hf1&Hi1&Hb&Hp&Hmo&Hfs&Hdr&Hsame).
  set (cid := if pbi_Kind meta =@ KindFile then match UnixFSFileCID (IPFS cfg) content with inr c => c | inl _ => "" end else ""%string).
  destruct (detectImageSize content (pbi_Kind meta)) as [width height] eqn:Es.
  set (w2 := set_draws (S (w_draws w1)) w1).
  set (ci := mkCreateMediaInput (generated "media" (w_draws w1)) (b_id b) (pbi_Kind meta)
    (pbi_OriginalName meta) mimeType (strlen content) width height (pbi_CreatedBy meta) cid).
  destruct (create_media_calm ci w2 b) as (d&id&E&Hget&Hbl); [done|done|simpl; congruence| |done|done|].
  { simpl. rewrite Hmo. intros mo Hin. by apply Hm1. }
  exists (set_db d w2), b, (new_media ci (truncate_ms (w_clock w2)) id).
  eexists. split; [|split_and!; [done..|exact Hp|exact Hfs|]].
  2: { intros Hs. simpl. rewrite Hbl. simpl. by rewrite (Hsame Hs). }
  unfold Put. rewrite i64_small, (limit_read_all (MaxUploadBytes cfg + 1) content) by lia.
  rewrite (proj2 (Z.eqb_neq _ _)) by lia. rewrite (proj2 (Z.ltb_ge _ _)) by lia. fold mimeType (sha_of content).
  do 2 proceed (eq_refl : when false _ w = (w, inr tt)). proceed (lookup_calm content w Hf).
  etrans; [eapply (bind_run _ _ w w tt); unfold looked_up; by destruct (blob_by_sha _ _)|]. cbv beta iota.
  proceed (Hst). rewrite Es. etrans; [eapply (bind_run _ _ w1 w1 cid)|].
  { unfold cid. case_bool_decide as Ek; [|done]. by destruct (Hcid Ek) as [c ->]. }
  cbv beta iota. proceed (eq_refl : newMediaID w1 = (w2, inr (generated "media" (w_draws w1)))).
  proceed (E). done.
Qed.

(** An upload followed by a download returns what the file held after the upload. *)
Lemma upload_download i w : uploadable (sub_Kind i) (sub_Content i) w ->
  let path := stored_path (sub_Content i) (w_db w) in
  exists w1 m, SaveUploadedBlob cfg i w = (w1, inr m) /\
    DownloadMediaByID (MediaID m) w1 = (w1, inr (m, kept (sub_Content i) w)) /\
    MediaSize m = strlen (sub_Content i) /\ MediaKind m = sub_Kind i /\ MediaCreatedBy m = sub_CreatedBy i /\
    MediaStoragePath m = path /\ w_files w1 = <[path := kept (sub_Content i) w]> (w_files w) /\
    (is_Some (blob_by_sha (sha_of (sub_Content i)) (w_db w)) -> blobs (w_db w1) = blobs (w_db w)).
Proof.
  intros Hup path. set (content := sub_Content i) in *.
  destruct (put_calm (mkPutBlobInput (sub_Kind i) (sub_OriginalName i) (sub_MIMEType i) (sub_CreatedBy i)) content w Hup)
    as (w1&b&mo&hit&E&Hf1&Hget&H1&H2&H3&Hp&Hfs&Hsame).
  exists w1, (to_media b mo). split; [|split_and!; try done].
  - unfold SaveUploadedBlob. proceed (E). done.
  - unfold DownloadMediaByID, GetByMediaID. change (MediaID (to_media b mo)) with (mo_media_id mo).
    assert (fetchOne (media_by_id (mo_media_id mo)) w1 = (w1, inr (to_media b mo))) as Hg by (by rewrite fetchOne_calm, Hget).
    proceed (Hg). assert (read_file (MediaStoragePath (to_media b mo)) w1 = (w1, inr (kept content w))) as Hr; [|by proceed (Hr)].
    unfold read_file, file_op. rewrite (fault_healthy w1 Hf1), (tick_calm w1 Hf1). simpl. rewrite Hp, Hfs.
    by rewrite lookup_insert_eq.
Qed.


(** With the largest limit the sum of the limit and one wraps around:
    nothing is read and every upload is refused as empty. *)
Theorem largest_limit_refuses content meta w : MaxUploadBytes cfg = max_i64 ->
  Put cfg content meta w = (w, inl (Errorf "empty blob payload")).
Proof. intros E. unfold Put. by rewrite E. Qed.

(** The part of the content on disk when writing it is cut short. *)
Definition cut_short (content : string) : string := limit_read (Z.of_nat (short_write content)) content.

Lemma write_cut_short path content w :
  w_faults w = [] -> w_files w !! path = None ->
  Write path content (set_faults [false; true] w) =
    (set_files (<[path := cut_short content]> (w_files w)) w, inl (wrap "write blob" ErrDriver)).
Proof.
  intros Hf Hnone. unfold Write, Exists, write_file, file_op, map_err, mbind, SE_bind. simpl.
  rewrite Hnone. simpl. destruct w. simpl in *. by rewrite Hf.
Qed.

(** The third operation of an upload, after the lookup of the digest and the
    creation of the directory, writes the file. *)
Lemma upload_cut_short i w :
  uploadable (sub_Kind i) (sub_Content i) w -> blob_by_sha (sha_of (sub_Content i)) (w_db w) = None ->
  w_files w !! blob_path (sha_of (sub_Content i)) = None ->
  SaveUploadedBlob cfg i (set_faults [false; false; true] w) =
    (set_files (<[blob_path (sha_of (sub_Content i)) := cut_short (sub_Content i)]> (w_files w)) w,
     inl (wrap "write blob" ErrDriver)).
Proof.
  intros [_ Hf Hsize Hlim _ _ _ _ _] Hb Hnone. set (content := sub_Content i) in *.
  unfold SaveUploadedBlob, Put. apply bind_fail. fold content.
  rewrite i64_small, (limit_read_all (MaxUploadBytes cfg + 1) content) by lia.
  rewrite (proj2 (Z.eqb_neq _ _)) by lia. rewrite (proj2 (Z.ltb_ge _ _)) by lia. fold (sha_of content).
  do 2 proceed (eq_refl : when false _ (set_faults [false; false; true] w) = (set_faults [false; false; true] w, inr tt)).
  assert (try (GetBySHA256 (sha_of content)) (set_faults [false; false; true] w) =
    (set_faults [false; true] w, inr (inl ErrNotFound))) as Hl.
  { unfold try, GetBySHA256, fetchOne, sql. simpl. by rewrite Hb. }
  proceed (Hl). proceed (eq_refl : when false ErrNotFound (set_faults [false; true] w) = (set_faults [false; true] w, inr tt)).
  apply bind_fail, bind_fail. by apply write_cut_short.
Qed.

(** A write that is cut short spoils the content for good.  When
    writing the file of a new content fails half-way, the upload reports the
    error, but the partial file stays; uploading the same content again then
    succeeds without writing, and from then on downloads of it return the
    partial content under the full size. *)
Theorem cut_short_upload_sticks i w :
  uploadable (sub_Kind i) (sub_Content i) w -> blob_by_sha (sha_of (sub_Content i)) (w_db w) = None ->
  w_files w !! blob_path (sha_of (sub_Content i)) = None ->
  exists w1 e w2 m, SaveUploadedBlob cfg i (set_faults [false; false; true] w) = (w1, inl e) /\
    SaveUploadedBlob cfg i w1 = (w2, inr m) /\ MediaSize m = strlen (sub_Content i) /\
    DownloadMediaByID (MediaID m) w2 = (w2, inr (m, cut_short (sub_Content i))).
Proof.
  intros Hup Hb Hnone. rewrite (upload_cut_short i w Hup Hb Hnone).
  set (w1 := set_files (<[_ := cut_short (sub_Content i)]> (w_files w)) w).
  assert (uploadable (sub_Kind i) (sub_Content i) w1) as Hup1 by (destruct Hup; by split).
  destruct (upload_download i w1 Hup1) as (w2&m&E&Hd&Hs&_). exists w1, (wrap "write blob" ErrDriver), w2, m.
  split_and!; [done|done|done|]. rewrite Hd. do 3 f_equal. unfold kept, stored_path. cbn [w1 w_db set_files w_files]. rewrite Hb.
  by rewrite lookup_insert_eq.
Qed.
End round_trip.

(** ** Concrete uploads *)
Definition photo : SaveUploadedBlobInput := mkSaveUploadedBlobInput KindImage "cat.png" "image/png" "four score and seven" 1.
Lemma photo_uploadable : uploadable defaults KindImage (sub_Content photo) (g_world busy).
Proof.
  split.
  - exact (proj1 (reachable_inv demo_mc busy busy_reachable)).
  - reflexivity.
  - vm_compute. split; [reflexivity|discriminate].
  - vm_compute. reflexivity.
  - vm_compute. discriminate.
  - vm_compute. discriminate.
  - change (rows (blobs (w_db (g_world busy)))) with (@nil BlobRow). intros b Hb. by apply elem_of_nil in Hb.
  - change (rows (media_objects (w_db (g_world busy)))) with (@nil MediaRow). intros b n Hb. by apply elem_of_nil in Hb.
  - discriminate.
Qed.


Lemma cut_short_upload_sticks_witness :
  exists w2 m, DownloadMediaByID (MediaID m) w2 = (w2, inr (m, "four score"%string)) /\ MediaSize m = 20.
Proof.
  destruct (cut_short_upload_sticks defaults photo (g_world busy) photo_uploadable) as (w1&e&w2&m&_&_&Hs&Ed).
  - vm_compute. reflexivity.
  - vm_compute. reflexivity.
  - exists w2, m. exact (conj Ed Hs).
Defined.
