(* ===== verification/DirectThms.v ===== *)
(** * Direct sessions

    The table of a user's direct sessions is filled by AUTH_PROVE and
    emptied when the stream closes; here is what happens between the two. *)
From S2P Require Import Prelude Go Encoding Schema Config Store SpaceRepo UserRepo ChannelRepo MessageRepo.
From S2P Require Import BlobRepo Proto Codec Auth Media Messaging DirectRepo DirectService DbInv Session.
From S2P Require Import SessionInv Manager Dispatch System Demo SessionThms.
Import sessionv1.

(** The session receives the direct messages of the user. *)
Definition registered (sid : Sid) (uid : Z) (g : Mgr) : Prop := sid ∈ members_of (g_direct g) uid.

Section registered.
Context `{Env} `{Libp2p} `{MediaLib} `{Protobuf} (mc : ManagerConf) (sid : Sid) (uid : Z).
Abbreviation keep := (gkeeps (registered sid uid)).

Lemma reg_lift {A} (m : M A) : keep (lift m).
Proof. intros g Hg. unfold wp, lift. by destruct (m (g_world g)). Qed.
Lemma reg_sent f : keep (modify (set_sent f)).
Proof. by apply gkeeps_modify. Qed.
Lemma reg_pushed f : keep (modify (set_pushed f)).
Proof. by apply gkeeps_modify. Qed.
Lemma reg_update s f : keep (modify (update_session s f)).
Proof. by apply gkeeps_modify. Qed.
Lemma reg_subscribe s cid : keep (modify (SubscribeChannel s cid)).
Proof. by apply gkeeps_modify. Qed.
Lemma reg_unsubscribe s cid : keep (modify (unsubscribe s cid)).
Proof. by apply gkeeps_modify. Qed.
Lemma reg_register s : keep (modify (registerDirectUserSession s)).
Proof.
  apply gkeeps_modify. intros g Hg. unfold registerDirectUserSession. case_match; [|done].
  unfold registered. simpl. apply members_of_add. by right.
Qed.
#[local] Hint Resolve reg_lift reg_sent reg_pushed reg_update reg_subscribe reg_unsubscribe reg_register : gkeeps.

Lemma reg_write s t r b : keep (write s t r b).
Proof. unfold write. solve_gkeeps. Qed.
#[local] Hint Resolve reg_write : gkeeps.
Lemma reg_write_each t b l : keep (write_each t b l).
Proof. induction l; simpl; solve_gkeeps; done. Qed.
#[local] Hint Resolve reg_write_each : gkeeps.
Lemma reg_DeliverMessage cid m : keep (DeliverMessage mc cid m).
Proof. unfold DeliverMessage. solve_gkeeps. Qed.
Lemma reg_deliver u t b : keep (deliver_to_user u t b).
Proof. unfold deliver_to_user. solve_gkeeps. Qed.
#[local] Hint Resolve reg_DeliverMessage reg_deliver : gkeeps.

Lemma reg_handler t h s env u : find_handler mc t = Some h -> keep (h s env u).
Proof.
  unfold find_handler. intros ([t' h']&E&->)%fmap_Some. apply find_some in E as [Hin _].
  unfold authed_handlers in Hin. simpl in Hin.
  repeat (destruct Hin as [Hin|Hin]; [injection Hin as <- <-|]); [..|done]; simpl.
  all: autounfold with handlers; solve_gkeeps.
Qed.
Lemma reg_dispatch s env : keep (dispatch mc s env).
Proof. unfold dispatch. autounfold with handlers. solve_gkeeps. by eapply reg_handler. Qed.

(** Closing a session takes it out of the direct sessions of the user it acts for, and of no other. *)
Lemma reg_unregister s u g :
  g_sessions g !! sid = Some s -> user_of s = Some u -> UserDBID u <> uid -> registered sid uid g ->
  registered sid uid (unregisterSession sid g).
Proof.
  intros Hs Hu Hne Hr. unfold unregisterSession. rewrite Hs, Hu. case_decide; [|done].
  unfold registered in *. simpl. apply members_of_del. naive_solver.
Qed.

(** A second authentication leaves the first registration behind.
    Once a session is registered for a user's direct messages, no envelope
    on any session takes it out, an accepted proof of another user on the
    same session included; and closing the session then removes it only
    from the direct sessions of the user it acts for last, so that it stays
    among those of the first user for good. *)
Theorem direct_registration_lingers s' env g :
  registered sid uid g ->
  let g1 := (dispatch mc s' env g).1 in
  registered sid uid g1 /\
  (forall u, session_user sid g1 = Some u -> UserDBID u <> uid ->
     registered sid uid (unregisterSession sid g1) /\ g_sessions (unregisterSession sid g1) !! sid = None).
Proof.
  intros Hr g1. pose proof (reg_dispatch s' env g Hr : registered sid uid g1) as Hr1. split; [done|].
  intros u (s&Hs&Hu)%bind_Some Hne. destruct (authenticated s); [|done].
  split; [by eapply reg_unregister|]. unfold unregisterSession. rewrite Hs. simpl. apply lookup_delete_eq.
Qed.
End registered.

(** Alice's session proves that it is Bob's too. *)
Definition switched_events : list Event := [
  EvEnvelope 1 (env_of MsgType_HELLO "bob")].
Definition rehello : Mgr := Eval vm_compute in default busy (run_events switched_events busy).
Definition bob_prove : Envelope := env_of MsgType_AUTH_PROVE (body (w_draws (g_world busy)) "bob").
Lemma direct_registration_lingers_witness :
  session_user 1 (dispatch demo_mc 1 bob_prove rehello).1 <> session_user 1 rehello /\
  (1%positive : Sid) ∈ members_of (g_direct (unregisterSession 1 (dispatch demo_mc 1 bob_prove rehello).1)) 1 /\
  g_sessions (unregisterSession 1 (dispatch demo_mc 1 bob_prove rehello).1) !! (1%positive : Sid) = None.
Proof.
  split; [vm_compute; discriminate|].
  assert (registered 1 1 rehello) as Hr by (vm_compute; reflexivity).
  refine (match session_user 1 (dispatch demo_mc 1 bob_prove rehello).1 as o
            return session_user 1 (dispatch demo_mc 1 bob_prove rehello).1 = o -> _ with
          | Some u => fun E => proj2 (direct_registration_lingers demo_mc 1 1 1 bob_prove rehello Hr) u E _
          | None => fun E => _ end eq_refl).
  - apply (f_equal (option_map UserDBID)) in E. revert E. vm_compute. intros E. injection E as <-. discriminate.
  - exfalso. revert E. vm_compute. discriminate.
Defined.
