(* ===== verification/Strconv.v ===== *)
(** * Numbers, booleans and durations in text

    [strconv.ParseUint], [ParseInt], [Atoi], [ParseBool] and
    [time.ParseDuration], as the standard library computes them: the value
    that comes with a range error is the largest one of the width, and
    fractions of a duration go through 64-bit floating point ([SpecFloat]). *)
From Stdlib Require Import SpecFloat.
From S2P Require Import Prelude Go Encoding.

Definition is_digit (a : ascii) : bool := in_range 48 57 a.
Definition digit_value (a : ascii) : Z := Z_of_byte a - 48.

(** The digits at the front, and what follows them. *)
Fixpoint span_digits (l : bytes) : bytes * bytes :=
  match l with
  | a :: l' => if is_digit a then let '(ds, r) := span_digits l' in (a :: ds, r) else ([], l)
  | [] => ([], [])
  end.
Definition digits_value (ds : bytes) : Z := fold_left (fun v a => v * 10 + digit_value a) ds 0.

(** ** [strconv] *)
Inductive NumError := ErrSyntax | ErrRange.
#[export] Instance NumError_eq_dec : EqDecision NumError.
Proof. solve_decision. Defined.

(** [strconv.ParseUint(s, 10, bits)] for the largest value [max] of the width *)
Definition parse_uint (max : Z) (l : bytes) : Z * option NumError :=
  match span_digits l with
  | ([], _) | (_, _ :: _) => (0, Some ErrSyntax)
  | (ds, []) => if max <? digits_value ds then (max, Some ErrRange) else (digits_value ds, None)
  end.
Definition ParseUint32 (s : string) : Z * option NumError := parse_uint max_u32 (to_bytes s).
Definition ParseUint64 (s : string) : Z * option NumError := parse_uint max_u64 (to_bytes s).

(** [strconv.ParseInt(s, 10, 64)] and [strconv.Atoi] *)
Definition ParseInt64 (s : string) : Z * option NumError :=
  let '(neg, l) := match to_bytes s with
                   | a :: l => if a =@ byte 43 then (false, l) else if a =@ byte 45 then (true, l) else (false, a :: l)
                   | [] => (false, [])
                   end in
  match parse_uint max_u64 l with
  | (_, Some ErrSyntax) => (0, Some ErrSyntax)
  | (v, _) => if neg then if max_i64 + 1 <? v then (- (max_i64 + 1), Some ErrRange) else (- v, None)
              else if max_i64 <? v then (max_i64, Some ErrRange) else (v, None)
  end.
Definition Atoi : string -> Z * option NumError := ParseInt64.

(** [strconv.ParseBool] *)
Definition ParseBool (s : string) : option bool :=
  if bool_decide (s ∈ ["1"; "t"; "T"; "TRUE"; "true"; "True"]%string) then Some true
  else if bool_decide (s ∈ ["0"; "f"; "F"; "FALSE"; "false"; "False"]%string) then Some false
  else None.

(** A result without an error. *)
Definition ok {A} (r : A * option NumError) : option A := match r with (v, None) => Some v | _ => None end.

(** ** [time.ParseDuration] *)
Definition float := spec_float.
Definition float_of_Z (z : Z) : float := binary_normalize 53 1024 z 0 false.
Definition float_mul : float -> float -> float := SFmul 53 1024.
Definition float_div : float -> float -> float := SFdiv 53 1024.
(** [uint64(x)] of a float that is not negative *)
Definition float_trunc (f : float) : Z :=
  match f with
  | S754_finite false m e => u64 (Z.shiftl (Zpos m) e)
  | _ => 0
  end.

Definition two63 : Z := 9223372036854775808.

(** [leadingInt] *)
Fixpoint leading_int (x : Z) (l : bytes) : option (Z * bytes) :=
  match l with
  | a :: l' => if is_digit a then
                 if two63 / 10 <? x then None
                 else let x' := x * 10 + digit_value a in if two63 <? x' then None else leading_int x' l'
               else Some (x, l)
  | [] => Some (x, [])
  end.
(** [leadingFraction]; digits that do not fit are skipped *)
Fixpoint leading_fraction (x : Z) (scale : float) (overflow : bool) (l : bytes) : Z * float * bytes :=
  match l with
  | a :: l' =>
    if is_digit a then
      if overflow || ((two63 - 1) / 10 <? x) then leading_fraction x scale true l'
      else let y := x * 10 + digit_value a in
           if two63 <? y then leading_fraction x scale true l'
           else leading_fraction y (float_mul scale (float_of_Z 10)) false l'
    else (x, scale, l)
  | [] => (x, scale, [])
  end.

Definition is_unit_char (a : ascii) : bool := negb (a =@ byte 46) && negb (is_digit a).
Fixpoint span_unit (l : bytes) : bytes * bytes :=
  match l with
  | a :: l' => if is_unit_char a then let '(u, r) := span_unit l' in (a :: u, r) else ([], l)
  | [] => ([], [])
  end.
(** [unitMap]; the micro sign and the Greek letter mu are two bytes each *)
Definition unit_map (u : bytes) : option Z :=
  if u =@ to_bytes "ns" then Some 1
  else if (u =@ to_bytes "us") || (u =@ [byte 194; byte 181; byte 115]) || (u =@ [byte 206; byte 188; byte 115]) then Some 1000
  else if u =@ to_bytes "ms" then Some 1000000
  else if u =@ to_bytes "s" then Some 1000000000
  else if u =@ to_bytes "m" then Some 60000000000
  else if u =@ to_bytes "h" then Some 3600000000000
  else None.

(** One number with its unit. *)
Definition duration_term (l : bytes) : option (Z * bytes) :=
  if negb (match l with a :: _ => (a =@ byte 46) || is_digit a | [] => false end) then None
  else
    '(v, l1) ← leading_int 0 l;
    let pre := negb (length l =? length l1)%nat in
    let '(f, scale, l2, post) :=
      match l1 with
      | a :: l1' => if a =@ byte 46
                    then let '(f, scale, l2) := leading_fraction 0 (float_of_Z 1) false l1' in
                         (f, scale, l2, negb (length l1' =? length l2)%nat)
                    else (0, float_of_Z 1, l1, false)
      | [] => (0, float_of_Z 1, l1, false)
      end in
    if negb pre && negb post then None
    else
      let '(u, l3) := span_unit l2 in
      unit ← unit_map u;
      if two63 / unit <? v then None
      else
        let v := v * unit in
        let v := if 0 <? f then u64 (v + float_trunc (float_mul (float_of_Z f) (float_div (float_of_Z unit) scale))) else v in
        if two63 <? v then None else Some (v, l3).

(** The loop; every term takes at least two bytes, so the length is enough fuel. *)
Fixpoint duration_loop (fuel : nat) (d : Z) (l : bytes) : option Z :=
  match l, fuel with
  | [], _ => Some d
  | _, O => None
  | _, S fuel => '(v, l') ← duration_term l; let d := u64 (d + v) in if two63 <? d then None else duration_loop fuel d l'
  end.

Definition ParseDuration (s : string) : option Z :=
  let '(neg, l) := match to_bytes s with
                   | a :: l => if (a =@ byte 45) || (a =@ byte 43) then (a =@ byte 45, l) else (false, a :: l)
                   | [] => (false, [])
                   end in
  if l =@ [byte 48] then Some 0
  else if l =@ [] then None
  else d ← duration_loop (length l) 0 l;
       if neg : bool then Some (- d) else if max_i64 <? d then None else Some d.

Example ParseDuration_ex1 : ParseDuration "1h15m30.918s" = Some 4530918000000.
Proof. vm_compute. reflexivity. Qed.
Example ParseDuration_ex2 : ParseDuration "-.5m" = Some (-30000000000).
Proof. vm_compute. reflexivity. Qed.
Example ParseDuration_ex3 : ParseDuration "3" = None.
Proof. vm_compute. reflexivity. Qed.
Example ParseDuration_ex4 : ParseDuration "0.3333333333333333333h" = Some 1200000000000.
Proof. vm_compute. reflexivity. Qed.
Example ParseInt_ex : ParseInt64 "-9223372036854775809" = (-9223372036854775808, Some ErrRange).
Proof. vm_compute. reflexivity. Qed.

(** ** Ranges *)
Lemma digits_value_nonneg ds : Forall (fun a => is_digit a = true) ds -> 0 <= digits_value ds.
Proof.
  intros Hd. unfold digits_value.
  assert (forall v, 0 <= v -> 0 <= fold_left (fun v a => v * 10 + digit_value a) ds v) as H; [|by apply H].
  induction Hd as [|a ds Ha Hd IH]; intros v Hv; simpl; [done|]. apply IH.
  assert (0 <= digit_value a); [|lia]. unfold is_digit, in_range in Ha. unfold digit_value, Z_of_byte.
  apply andb_prop in Ha as [Ha _]. apply Nat.leb_le in Ha. lia.
Qed.
Lemma span_digits_digits l ds r : span_digits l = (ds, r) -> Forall (fun a => is_digit a = true) ds.
Proof.
  revert ds r. induction l as [|a l IH]; simpl; intros ds r H; [by simplify_eq|].
  destruct (is_digit a) eqn:Ha; [|by simplify_eq/=]. destruct (span_digits l) as [ds' r'] eqn:E. simplify_eq/=. eauto.
Qed.

Lemma parse_uint_range max l v e : 0 <= max -> parse_uint max l = (v, e) -> 0 <= v <= max.
Proof.
  unfold parse_uint. intros Hm. destruct (span_digits l) as [[|a ds] [|b r]] eqn:E; intros H; simplify_eq; try lia.
  apply span_digits_digits, digits_value_nonneg in E. destruct (Z.ltb_spec max (digits_value (a :: ds))); simplify_eq; lia.
Qed.
Lemma ParseUint32_range s v e : ParseUint32 s = (v, e) -> 0 <= v <= max_u32.
Proof. by apply parse_uint_range. Qed.
Lemma ParseUint64_range s v e : ParseUint64 s = (v, e) -> 0 <= v <= max_u64.
Proof. by apply parse_uint_range. Qed.

Definition in_i64 (z : Z) : Prop := - max_i64 - 1 <= z <= max_i64.
Lemma ParseInt64_range s v e : ParseInt64 s = (v, e) -> in_i64 v.
Proof.
  unfold ParseInt64, in_i64. destruct (match to_bytes s with [] => _ | _ => _ end) as [neg l].
  destruct (parse_uint max_u64 l) as [u [[]|]] eqn:E; apply parse_uint_range in E; try done; intros H; simplify_eq;
    [unfold max_i64; lia|..]; unfold max_u64, max_i64 in *;
    destruct neg; repeat (match goal with H : context [Z.ltb ?x ?y] |- _ => destruct (Z.ltb_spec x y) end); simplify_eq; lia.
Qed.
Lemma ok_Some {A} (r : A * option NumError) v : ok r = Some v -> r = (v, None).
Proof. destruct r as [? []]; simpl; congruence. Qed.

Lemma duration_loop_range f d l v : 0 <= d <= two63 -> duration_loop f d l = Some v -> 0 <= v <= two63.
Proof.
  revert d l. induction f as [|f IH]; intros d [|a l] Hd H; simpl in H; simplify_eq; [done..|].
  apply bind_Some in H as ([x l']&_&H). cbn zeta in H.
  destruct (Z.ltb_spec two63 (u64 (d + x))); [done|]. apply IH in H; [done|].
  split; [apply Z.mod_pos_bound; done|lia].
Qed.
(** A parsed duration fits the [int64] that holds it. *)
Lemma ParseDuration_range s v : ParseDuration s = Some v -> in_i64 v.
Proof.
  unfold ParseDuration, in_i64. destruct (match to_bytes s with [] => _ | _ => _ end) as [neg l].
  destruct (l =@ [byte 48]); [intros; simplify_eq; unfold max_i64; lia|]. destruct (l =@ []); [done|].
  intros (d&Hd%duration_loop_range&H)%bind_Some; [|unfold two63; lia]. unfold two63, max_i64 in *. destruct neg; [simplify_eq; lia|].
  destruct (Z.ltb_spec 9223372036854775807 d); simplify_eq; lia.
Qed.

(** ** The loop of [ParseDuration] ends *)
Lemma leading_int_length x l v r : leading_int x l = Some (v, r) -> (length r <= length l)%nat.
Proof.
  revert x. induction l as [|a l IH]; intros x H; simpl in H; [by simplify_eq|].
  destruct (is_digit a); [|by simplify_eq]. repeat (case_match; try done). apply IH in H. simpl. lia.
Qed.
Lemma leading_fraction_length x sc o l v sc' r : leading_fraction x sc o l = (v, sc', r) -> (length r <= length l)%nat.
Proof.
  revert x sc o. induction l as [|a l IH]; intros x sc o H; simpl in H; [by simplify_eq|].
  destruct (is_digit a); [|by simplify_eq]. repeat (case_match; try done); apply IH in H; simpl; lia.
Qed.
Lemma span_unit_length l u r : span_unit l = (u, r) -> (length l = length u + length r)%nat.
Proof.
  revert u r. induction l as [|a l IH]; simpl; intros u r H; [by simplify_eq|].
  destruct (is_unit_char a); [|by simplify_eq/=]. destruct (span_unit l) as [u' r'] eqn:E. simplify_eq/=.
  by rewrite (IH _ _ eq_refl).
Qed.
Lemma duration_term_length l v r : duration_term l = Some (v, r) -> (length r < length l)%nat.
Proof.
  unfold duration_term. destruct (negb _); [done|]. intros ([x l1]&H1%leading_int_length&H)%bind_Some.
  assert (forall l2, (length l2 <= length l)%nat -> forall u l3, span_unit l2 = (u, l3) -> is_Some (unit_map u) -> (length l3 < length l)%nat) as Hu.
  { intros l2 H2 u l3 E%span_unit_length [? Hm]. destruct u; [done|]. simpl in E. lia. }
  destruct (match l1 with [] => _ | _ => _ end) as [[[f sc] l2] post] eqn:E.
  assert (length l2 <= length l)%nat as H2.
  { destruct l1 as [|a l1']; [by simplify_eq|]. destruct (a =@ byte 46); [|by simplify_eq].
    destruct (leading_fraction _ _ _ l1') as [[f' sc'] l2'] eqn:Ef. apply leading_fraction_length in Ef. simplify_eq/=. lia. }
  destruct (negb _ && negb _); [done|]. destruct (span_unit l2) as [u l3] eqn:Eu.
  apply bind_Some in H as (unit&Hm&H). specialize (Hu l2 H2 u l3 Eu ltac:(by rewrite Hm)).
  destruct (two63 / unit <? x); [done|]. destruct (two63 <? _); by simplify_eq.
Qed.
(** Fuel beyond the length of the text changes nothing. *)
Lemma duration_loop_fuel f f' d l : (length l <= f)%nat -> (f <= f')%nat -> duration_loop f' d l = duration_loop f d l.
Proof.
  revert f' d l. induction f as [|f IH]; intros [|f'] d [|a l] Hl Hf; simpl in Hl; try lia; [done..|].
  cbn [duration_loop]. destruct (duration_term (a :: l)) as [[v l']|] eqn:E; [|done]. apply duration_term_length in E.
  simpl in *. destruct (two63 <? _); [done|]. apply IH; lia.
Qed.
