(* ===== verification/Paths.v ===== *)
(** * Slash-separated paths: [path] and [path/filepath] on Unix

    [Clean], [Join], [Dir], [Base], [Abs] and [Rel], written on the list of
    the elements between slashes. *)
From S2P Require Import Prelude Go.

Definition seg := bytes.
Definition sep : ascii := byte 47.
Definition dot : seg := [byte 46].
Definition dotdot : seg := [byte 46; byte 46].

(** [strings.Split(s, "/")] *)
Fixpoint split_on (c : ascii) (l : bytes) : list bytes :=
  match l with
  | [] => [[]]
  | a :: l => if a =@ c then [] :: split_on c l
              else match split_on c l with
                   | s :: r => (a :: s) :: r
                   | [] => [[a]]
                   end
  end.
(** [strings.Join(segs, "/")] *)
Fixpoint join (segs : list seg) : bytes :=
  match segs with
  | [] => []
  | [s] => s
  | s :: segs => s ++ sep :: join segs
  end.

(** One element on the stack of the elements kept so far. *)
Definition clean_step (rooted : bool) (stack : list seg) (s : seg) : list seg :=
  if (s =@ []) || (s =@ dot) then stack
  else if s =@ dotdot then
    match stack with
    | t :: stack' => if t =@ dotdot then dotdot :: stack else stack'
    | [] => if rooted then [] else [dotdot]
    end
  else s :: stack.
Definition clean_segs (rooted : bool) (segs : list seg) : list seg :=
  reverse (fold_left (clean_step rooted) segs []).

Definition is_abs (l : bytes) : bool := match l with a :: _ => a =@ sep | [] => false end.
Definition clean_bytes (l : bytes) : bytes :=
  let out := join (clean_segs (is_abs l) (split_on sep l)) in
  if is_abs l then sep :: out else if out =@ [] then dot else out.

(** [path.Clean], [filepath.Clean] *)
Definition Clean (s : string) : string := of_bytes (clean_bytes (to_bytes s)).

(** [filepath.Join] *)
Fixpoint Join (elems : list string) : string :=
  match elems with
  | [] => ""
  | e :: rest => if e =@ ""%string then Join rest else of_bytes (clean_bytes (join (to_bytes <$> elems)))
  end.

(** The part of the path up to and including the last slash. *)
Definition upto_last_sep (l : bytes) : bytes :=
  match reverse (split_on sep l) with
  | _ :: (_ :: _) as r => join (reverse r) ++ [sep]
  | _ => []
  end.
Definition Dir (s : string) : string := of_bytes (clean_bytes (upto_last_sep (to_bytes s))).
(** [filepath.Base] *)
Definition Base (s : string) : string :=
  if s =@ ""%string then "."
  else let l := to_bytes (TrimRightSlash s) in
       match reverse (split_on sep l) with
       | [] => "/"
       | b :: _ => if b =@ [] then "/" else of_bytes b
       end.

(** [filepath.Abs]; [wd] is the working directory, if the system knows it *)
Definition Abs (wd : Err + string) (s : string) : Err + string :=
  if is_abs (to_bytes s) then inr (Clean s)
  else match wd with inl e => inl e | inr wd => inr (Join [wd; s]) end.

Fixpoint strip_common (bs ts : list seg) : list seg * list seg :=
  match bs, ts with
  | b :: bs', t :: ts' => if b =@ t then strip_common bs' ts' else (bs, ts)
  | _, _ => (bs, ts)
  end.
(** The elements of a cleaned path; none for the root and for ["."]. *)
Definition path_segs (l : bytes) : list seg := clean_segs (is_abs l) (split_on sep l).
(** [filepath.Rel] *)
Definition Rel (base targ : string) : Err + string :=
  let b := to_bytes base in let t := to_bytes targ in
  if clean_bytes b =@ clean_bytes t then inr "."%string
  else if negb (is_abs b =@ is_abs t) then inl (Errorf "Rel: can't make target relative to base")
  else let '(bs, ts) := strip_common (path_segs b) (path_segs t) in
       if match bs with s :: _ => s =@ dotdot | [] => false end
       then inl (Errorf "Rel: can't make target relative to base")
       else inr (of_bytes (join (repeat dotdot (length bs) ++ ts))).

Example Clean_ex : Clean "/a/./b//../c/" = "/a/c"%string /\ Clean "../x/.." = ".."%string /\ Clean "" = "."%string.
Proof. done. Qed.
Example Dir_ex : Dir "docker-compose/data/config/node.key" = "docker-compose/data/config"%string /\ Dir "x" = "."%string /\ Dir "/x" = "/"%string.
Proof. done. Qed.
Example Rel_ex : Rel "/a/b" "/a/c/d" = inr "../c/d"%string /\ Rel "/" "/a" = inr "a"%string.
Proof. done. Qed.

(** ** Normal elements *)
Definition plain (s : seg) : Prop := sep ∉ s.
Definition normal (s : seg) : Prop := plain s /\ s <> [] /\ s <> dot /\ s <> dotdot.

Lemma split_plain l : Forall plain (split_on sep l).
Proof.
  induction l as [|a l IH]; simpl; [repeat constructor; apply not_elem_of_nil|].
  case_bool_decide as Ha; [constructor; [apply not_elem_of_nil|done]|].
  destruct (split_on sep l) as [|s r].
  { constructor; [|constructor]. unfold plain. rewrite list_elem_of_singleton. congruence. }
  apply Forall_cons in IH as [Hs Hr]. constructor; [|done]. unfold plain in *. set_solver.
Qed.

Lemma split_nonempty c l : split_on c l <> [].
Proof. destruct l as [|a l]; simpl; [done|]. case_bool_decide; [done|]. by destruct (split_on c l). Qed.

Lemma split_app_sep s l : plain s -> split_on sep (s ++ sep :: l) = s :: split_on sep l.
Proof.
  induction s as [|a s IH]; simpl; intros Hs; [done|].
  unfold plain in Hs. rewrite not_elem_of_cons in Hs. destruct Hs as [Ha Hs].
  rewrite bool_decide_false by congruence. by rewrite IH.
Qed.
Lemma split_plain_id s : plain s -> split_on sep s = [s].
Proof.
  induction s as [|a s IH]; simpl; intros Hs; [done|].
  unfold plain in Hs. rewrite not_elem_of_cons in Hs. destruct Hs as [Ha Hs].
  rewrite bool_decide_false by congruence. by rewrite IH.
Qed.

Lemma split_join segs : segs <> [] -> Forall plain segs -> split_on sep (join segs) = segs.
Proof.
  intros Hne Hp. induction Hp as [|s segs Hs Hp IH]; [done|].
  destruct segs as [|s' segs]; [by apply split_plain_id|].
  change (join (s :: s' :: segs)) with (s ++ sep :: join (s' :: segs)). rewrite split_app_sep by done. by rewrite IH.
Qed.

Lemma fold_clean_normal rooted segs stack :
  Forall normal segs -> fold_left (clean_step rooted) segs stack = reverse segs ++ stack.
Proof.
  revert stack. induction segs as [|s segs IH]; intros stack Hn; simpl; [done|].
  apply Forall_cons in Hn as [(_&H1&H2&H3) Hn]. rewrite IH by done.
  unfold clean_step. rewrite !bool_decide_false by done. simpl. by rewrite reverse_cons, <- app_assoc.
Qed.
Lemma clean_segs_normal rooted segs : Forall normal segs -> clean_segs rooted segs = segs.
Proof. intros Hn. unfold clean_segs. rewrite fold_clean_normal by done. by rewrite app_nil_r, reverse_involutive. Qed.

(** Under the root every element that is kept is normal. *)
Lemma fold_clean_rooted segs stack :
  Forall plain segs -> Forall normal stack -> Forall normal (fold_left (clean_step true) segs stack).
Proof.
  revert stack. induction segs as [|s segs IH]; intros stack Hp Hs; simpl; [done|].
  apply Forall_cons in Hp as [Hp1 Hp]. apply IH; [done|]. unfold clean_step.
  destruct (bool_decide_reflect (s = [])), (bool_decide_reflect (s = dot)); simpl; try done.
  case_bool_decide as Hd; [|constructor; [split_and!; done|done]].
  destruct Hs as [|t stack [_ (_&_&Ht)] Hs]; [done|]. by rewrite bool_decide_false.
Qed.
Lemma clean_segs_rooted segs : Forall plain segs -> Forall normal (clean_segs true segs).
Proof. intros Hp. apply Forall_reverse. apply fold_clean_rooted; [done|constructor]. Qed.

(** ** Absolute paths *)
(** The bytes of the absolute path with the given elements. *)
Definition abs_path (segs : list seg) : bytes := sep :: join segs.

Lemma split_sep l : split_on sep (sep :: l) = [] :: split_on sep l.
Proof. done. Qed.
Lemma clean_segs_skip rooted segs : clean_segs rooted ([] :: segs) = clean_segs rooted segs.
Proof. done. Qed.
Lemma clean_bytes_abs l : is_abs l = true -> clean_bytes l = abs_path (path_segs l) /\ Forall normal (path_segs l).
Proof.
  intros Hl. unfold clean_bytes, path_segs. rewrite Hl. split; [done|]. apply clean_segs_rooted, split_plain.
Qed.
Lemma join_nil segs : Forall normal segs -> join segs = [] -> segs = [].
Proof.
  destruct segs as [|s [|s' segs]]; intros Hn; [done|..]; apply Forall_cons in Hn as [(_&Hs&_) _]; simpl; [done|].
  by destruct s.
Qed.
Lemma normal_plain segs : Forall normal segs -> Forall plain segs.
Proof. intros H. eapply Forall_impl; [done|]. by intros s [? _]. Qed.
Lemma join_inj segs segs' : Forall normal segs -> Forall normal segs' -> join segs = join segs' -> segs = segs'.
Proof.
  intros H1 H2 E. destruct segs as [|s segs]; [symmetry; by apply join_nil|].
  destruct segs' as [|s' segs']; [by apply join_nil|].
  rewrite <- (split_join (s :: segs)), <- (split_join (s' :: segs')) by (done || by apply normal_plain). by rewrite E.
Qed.
Lemma path_segs_abs segs : Forall normal segs -> path_segs (abs_path segs) = segs.
Proof.
  intros Hn. unfold path_segs, abs_path. cbn [is_abs]. rewrite bool_decide_true by done. rewrite split_sep, clean_segs_skip.
  destruct segs as [|s segs]; [done|]. rewrite split_join by (done || by apply normal_plain). by apply clean_segs_normal.
Qed.
Lemma split_join_sep r rs : Forall plain (r :: rs) -> split_on sep (join (r :: rs) ++ [sep]) = (r :: rs) ++ [[]].
Proof.
  revert r. induction rs as [|r' rs IH]; intros r Hp; apply Forall_cons in Hp as [Hr Hp]; [by rewrite split_app_sep|].
  change (join (r :: r' :: rs)) with (r ++ sep :: join (r' :: rs)). rewrite <- app_assoc. cbn [app].
  rewrite split_app_sep by done. by rewrite IH.
Qed.
Lemma join_app_sep r rs p ps : join (r :: rs) ++ sep :: join (p :: ps) = join ((r :: rs) ++ p :: ps).
Proof.
  revert r. induction rs as [|r' rs IH]; intros r; [done|].
  change (join (r :: r' :: rs)) with (r ++ sep :: join (r' :: rs)).
  change (join ((r :: r' :: rs) ++ p :: ps)) with (r ++ sep :: join ((r' :: rs) ++ p :: ps)).
  rewrite <- IH. by rewrite <- app_assoc.
Qed.
Lemma path_segs_app rs ps : Forall normal rs -> Forall normal ps -> path_segs (abs_path rs ++ sep :: join ps) = rs ++ ps.
Proof.
  intros Hr Hp. unfold path_segs, abs_path. cbn [is_abs app]. rewrite bool_decide_true by done. rewrite split_sep, clean_segs_skip.
  destruct rs as [|r rs].
  - cbn [join app]. rewrite split_sep, clean_segs_skip. destruct ps as [|p ps]; [done|].
    rewrite split_join by (done || by apply normal_plain). by apply clean_segs_normal.
  - destruct ps as [|p ps].
    + change (join []) with ([] : bytes). rewrite split_join_sep by (by apply normal_plain).
      unfold clean_segs. rewrite fold_left_app, app_nil_r. exact (clean_segs_normal true _ Hr).
    + rewrite join_app_sep.
      rewrite split_join by (done || by apply normal_plain, Forall_app). apply clean_segs_normal. by apply Forall_app.
Qed.
Lemma is_abs_path segs : is_abs (abs_path segs) = true.
Proof. done. Qed.
Lemma strip_common_prefix rs ps : strip_common rs (rs ++ ps) = ([], ps).
Proof. induction rs as [|r rs IH]; simpl; [by destruct ps|]. by rewrite bool_decide_true. Qed.

(** An absolute path from any name, given an absolute working directory. *)
Lemma Abs_normal w s : is_abs (to_bytes w) = true -> exists segs, Forall normal segs /\ Abs (inr w) s = inr (of_bytes (abs_path segs)).
Proof.
  intros Hw. unfold Abs. destruct (is_abs (to_bytes s)) eqn:Es.
  - destruct (clean_bytes_abs _ Es) as [E Hn]. exists (path_segs (to_bytes s)). split; [done|]. unfold Clean. by rewrite E.
  - cbn [Join]. rewrite bool_decide_false by (by intros ->). cbn [fmap list_fmap join].
    assert (is_abs (to_bytes w ++ sep :: to_bytes s) = true) as Ha by (by destruct (to_bytes w)).
    destruct (clean_bytes_abs _ Ha) as [E Hn]. eexists. split; [exact Hn|]. by rewrite E.
Qed.
Lemma Abs_self wd segs : Forall normal segs -> Abs wd (of_bytes (abs_path segs)) = inr (of_bytes (abs_path segs)).
Proof.
  intros Hn. unfold Abs. rewrite to_of_bytes, is_abs_path. unfold Clean. rewrite to_of_bytes.
  destruct (clean_bytes_abs (abs_path segs) eq_refl) as [-> _]. by rewrite path_segs_abs.
Qed.
Lemma Rel_below rs ps :
  Forall normal rs -> Forall normal ps -> ps <> [] ->
  Rel (of_bytes (abs_path rs)) (of_bytes (abs_path (rs ++ ps))) = inr (of_bytes (join ps)).
Proof.
  intros Hr Hp Hne. assert (Forall normal (rs ++ ps)) as Hrp by (by apply Forall_app). unfold Rel. rewrite !to_of_bytes.
  destruct (clean_bytes_abs (abs_path rs) eq_refl) as [-> _]. destruct (clean_bytes_abs (abs_path (rs ++ ps)) eq_refl) as [-> _].
  rewrite !path_segs_abs by done. rewrite bool_decide_false.
  2:{ intros [= E]. apply join_inj in E; [|done..]. apply (f_equal length) in E. rewrite length_app in E. destruct ps; simpl in E; [done|lia]. }
  rewrite !is_abs_path. simpl. by rewrite strip_common_prefix.
Qed.
