(* ===== verification/Json.v ===== *)
(** * JSON as [encoding/json] reads it

    The scanner and the decoder of the standard library, on bytes.  Values
    are decoded into an existing value of a Go type: [null] leaves strings,
    numbers, booleans and structs as they are and empties pointers and
    slices; a key selects the field of exactly that name, else the one
    equal up to case; a repeated key is decoded again on top. *)
From S2P Require Import Prelude Go Encoding Strconv.

Inductive Json :=
| JNull
| JBool (b : bool)
| JNumber (lit : string)
| JString (s : string)
| JArray (l : list Json)
| JObject (l : list (string * Json)).

(** ** Base64

    [base64.StdEncoding.DecodeString]: line breaks are skipped, the padding
    is required, the unused bits of the last digit are not looked at. *)
Definition base64_value (a : ascii) : option Z :=
  let n := Z_of_byte a in
  if (65 <=? n) && (n <=? 90) then Some (n - 65)
  else if (97 <=? n) && (n <=? 122) then Some (n - 71)
  else if (48 <=? n) && (n <=? 57) then Some (n + 4)
  else if n =? 43 then Some 62 else if n =? 47 then Some 63 else None.

Fixpoint base64_quanta (l : bytes) : option bytes :=
  match l with
  | [] => Some []
  | a :: b :: c :: d :: r =>
    x ← base64_value a; y ← base64_value b;
    if d =@ byte 61 then
      if negb (r =@ []) then None
      else if c =@ byte 61 then Some [byte_of_Z ((x * 64 + y) / 16)]
      else z ← base64_value c;
           let v := (x * 4096 + y * 64 + z) / 4 in Some [byte_of_Z (v / 256); byte_of_Z v]
    else z ← base64_value c; w ← base64_value d; rest ← base64_quanta r;
         let v := x * 262144 + y * 4096 + z * 64 + w in
         Some (byte_of_Z (v / 65536) :: byte_of_Z (v / 256) :: byte_of_Z v :: rest)
  | _ => None
  end.
Definition is_newline (a : ascii) : bool := (a =@ byte 10) || (a =@ byte 13).
Definition base64_decode (s : string) : option string :=
  of_bytes <$> base64_quanta (filter (fun a => negb (is_newline a)) (to_bytes s)).

(** ** The scanner *)
Definition is_ws (a : ascii) : bool := (a =@ byte 32) || (a =@ byte 9) || (a =@ byte 13) || (a =@ byte 10).
Fixpoint skip_ws (l : bytes) : bytes :=
  match l with a :: l' => if is_ws a then skip_ws l' else l | [] => [] end.

Definition hex_value (a : ascii) : option Z :=
  if in_range 48 57 a then Some (Z_of_byte a - 48)
  else if in_range 97 102 a then Some (Z_of_byte a - 87)
  else if in_range 65 70 a then Some (Z_of_byte a - 55)
  else None.
(** Four hexadecimal digits. *)
Definition hex4 (l : bytes) : option (Z * bytes) :=
  match l with
  | a :: b :: c :: d :: r =>
    x ← hex_value a; y ← hex_value b; z ← hex_value c; w ← hex_value d;
    Some (x * 4096 + y * 256 + z * 16 + w, r)
  | _ => None
  end.
Definition utf8_encode (r : Z) : bytes :=
  if r <? 128 then [byte_of_Z r]
  else if r <? 2048 then [byte_of_Z (192 + r / 64); byte_of_Z (128 + r mod 64)]
  else if r <? 65536 then [byte_of_Z (224 + r / 4096); byte_of_Z (128 + r / 64 mod 64); byte_of_Z (128 + r mod 64)]
  else [byte_of_Z (240 + r / 262144); byte_of_Z (128 + r / 4096 mod 64); byte_of_Z (128 + r / 64 mod 64); byte_of_Z (128 + r mod 64)].
Definition replacement : bytes := byte <$> [239; 191; 189]%nat.

(** The rune of a \u escape and what follows: a surrogate is a rune only
    with the escape of its other half behind it. *)
Definition unicode_escape (l : bytes) : option (bytes * bytes) :=
  '(r, l1) ← hex4 l;
  if (55296 <=? r) && (r <? 57344) then
    let low := match l1 with
               | a :: b :: l2 => if (a =@ byte 92) && (b =@ byte 117) then hex4 l2 else None
               | _ => None
               end in
    Some match low with
         | Some (r2, l3) => if (r <? 56320) && (56320 <=? r2) && (r2 <? 57344)
                            then (utf8_encode ((r - 55296) * 1024 + (r2 - 56320) + 65536), l3) else (replacement, l1)
         | None => (replacement, l1)
         end
  else Some (utf8_encode r, l1).

Definition simple_escape (a : ascii) : option ascii :=
  if (a =@ byte 34) || (a =@ byte 92) || (a =@ byte 47) then Some a
  else if a =@ byte 98 then Some (byte 8)
  else if a =@ byte 102 then Some (byte 12)
  else if a =@ byte 110 then Some (byte 10)
  else if a =@ byte 114 then Some (byte 13)
  else if a =@ byte 116 then Some (byte 9)
  else None.

(** The characters of a string up to its closing quote; each round takes at
    least one byte. *)
Fixpoint parse_chars (fuel : nat) (l : bytes) : option (bytes * bytes) :=
  match fuel, l with
  | S fuel, a :: l' =>
    if a =@ byte 34 then Some ([], l')
    else if a =@ byte 92 then
      match l' with
      | b :: l2 =>
        '(cs, l3) ← (if b =@ byte 117 then unicode_escape l2 else c ← simple_escape b; Some ([c], l2));
        '(s, r) ← parse_chars fuel l3; Some (cs ++ s, r)
      | [] => None
      end
    else if in_range 0 31 a then None
    else
      let w := rune_width l in
      let cs := if (w =? 1)%nat && in_range 128 255 a then replacement else take w l in
      '(s, r) ← parse_chars fuel (drop w l); Some (cs ++ s, r)
  | _, _ => None
  end.
Definition parse_string (l : bytes) : option (string * bytes) :=
  '(s, r) ← parse_chars (length l) l; Some (of_bytes s, r).

(** A number literal. *)
Definition digits1 (l : bytes) : option (bytes * bytes) :=
  match span_digits l with ([], _) => None | x => Some x end.
Definition opt_prefix (p : ascii -> bool) (l : bytes) : bytes * bytes :=
  match l with a :: l' => if p a then ([a], l') else ([], l) | [] => ([], []) end.
Definition parse_number (l : bytes) : option (string * bytes) :=
  let '(sg, l1) := opt_prefix (fun a => a =@ byte 45) l in
  '(int, l2) ← match l1 with a :: r => if a =@ byte 48 then Some ([a], r) else digits1 l1 | [] => None end;
  '(frac, l3) ← match opt_prefix (fun a => a =@ byte 46) l2 with
                | ([], _) => Some ([], l2)
                | (p, r) => '(ds, r') ← digits1 r; Some (p ++ ds, r')
                end;
  '(ex, l4) ← match opt_prefix (fun a => (a =@ byte 101) || (a =@ byte 69)) l3 with
              | ([], _) => Some ([], l3)
              | (p, r) => let '(s, r1) := opt_prefix (fun a => (a =@ byte 43) || (a =@ byte 45)) r in
                          '(ds, r') ← digits1 r1; Some (p ++ s ++ ds, r')
              end;
  Some (of_bytes (sg ++ int ++ frac ++ ex), l4).

Definition max_nesting : Z := 10000.

(** Values, the elements of an array and the members of an object; [depth]
    is the number of arrays and objects around. *)
Fixpoint parse_value (fuel : nat) (depth : Z) (l : bytes) : option (Json * bytes) :=
  match fuel with
  | O => None
  | S fuel =>
    match skip_ws l with
    | [] => None
    | a :: l' =>
      if a =@ byte 34 then '(s, r) ← parse_string l'; Some (JString s, r)
      else if a =@ byte 123 then
        if max_nesting <=? depth then None
        else match skip_ws l' with
             | b :: r => if b =@ byte 125 then Some (JObject [], r)
                         else '(kvs, r') ← parse_members fuel (depth + 1) l'; Some (JObject kvs, r')
             | [] => None
             end
      else if a =@ byte 91 then
        if max_nesting <=? depth then None
        else match skip_ws l' with
             | b :: r => if b =@ byte 93 then Some (JArray [], r)
                         else '(js, r') ← parse_elems fuel (depth + 1) l'; Some (JArray js, r')
             | [] => None
             end
      else match strip_prefix (to_bytes "null") (a :: l'), strip_prefix (to_bytes "true") (a :: l'),
                 strip_prefix (to_bytes "false") (a :: l') with
           | Some r, _, _ => Some (JNull, r)
           | _, Some r, _ => Some (JBool true, r)
           | _, _, Some r => Some (JBool false, r)
           | _, _, _ => '(lit, r) ← parse_number (a :: l'); Some (JNumber lit, r)
           end
    end
  end
with parse_elems (fuel : nat) (depth : Z) (l : bytes) : option (list Json * bytes) :=
  match fuel with
  | O => None
  | S fuel =>
    '(j, r) ← parse_value fuel depth l;
    match skip_ws r with
    | a :: r' => if a =@ byte 93 then Some ([j], r')
                 else if a =@ byte 44 then '(js, r2) ← parse_elems fuel depth r'; Some (j :: js, r2)
                 else None
    | [] => None
    end
  end
with parse_members (fuel : nat) (depth : Z) (l : bytes) : option (list (string * Json) * bytes) :=
  match fuel with
  | O => None
  | S fuel =>
    match skip_ws l with
    | q :: l1 =>
      if q =@ byte 34 then
        '(k, l2) ← parse_string l1;
        match skip_ws l2 with
        | c :: l3 =>
          if c =@ byte 58 then
            '(v, r) ← parse_value fuel depth l3;
            match skip_ws r with
            | a :: r' => if a =@ byte 125 then Some ([(k, v)], r')
                         else if a =@ byte 44 then '(kvs, r2) ← parse_members fuel depth r'; Some ((k, v) :: kvs, r2)
                         else None
            | [] => None
            end
          else None
        | [] => None
        end
      else None
    | [] => None
    end
  end.

(** Each call is made after at least one byte or follows a call that was. *)
Definition json_fuel (l : bytes) : nat := 2 * length l + 2.

(** [json.Unmarshal], its syntactic half: one value and white space. *)
Definition json_parse (s : string) : option Json :=
  let l := to_bytes s in
  '(j, r) ← parse_value (json_fuel l) 0 l;
  if skip_ws r =@ [] then Some j else None.

(** ** Decoding into Go values *)
Definition Dec (T : Type) := T -> Json -> option T.

Definition dec_string : Dec string := fun old j =>
  match j with JNull => Some old | JString s => Some s | _ => None end.
Definition dec_bool : Dec bool := fun old j =>
  match j with JNull => Some old | JBool b => Some b | _ => None end.
(** A number of a signed or an unsigned type with the bounds [lo], [hi]: an
    integer literal in range. *)
Definition dec_int (lo hi : Z) : Dec Z := fun old j =>
  match j with
  | JNull => Some old
  | JNumber lit => v ← ok (ParseInt64 lit); if (lo <=? v) && (v <=? hi) then Some v else None
  | _ => None
  end.
Definition dec_uint (hi : Z) : Dec Z := fun old j =>
  match j with
  | JNull => Some old
  | JNumber lit => v ← ok (ParseUint64 lit); if v <=? hi then Some v else None
  | _ => None
  end.
Definition dec_i32 : Dec Z := dec_int (-2147483648) 2147483647.
Definition dec_i64 : Dec Z := dec_int (- max_i64 - 1) max_i64.
Definition dec_u8 : Dec Z := dec_uint 255.
Definition dec_u32 : Dec Z := dec_uint max_u32.
Definition dec_u64 : Dec Z := dec_uint max_u64.

Definition dec_ptr {T} (zero : T) (d : Dec T) : Dec (option T) := fun old j =>
  match j with JNull => Some None | _ => Some <$> d (default zero old) j end.
Fixpoint dec_elems {T} (zero : T) (d : Dec T) (old : list T) (js : list Json) : option (list T) :=
  match js with
  | [] => Some []
  | j :: js => v ← d (default zero (head old)) j; vs ← dec_elems zero d (tail old) js; Some (v :: vs)
  end.
Definition dec_list {T} (zero : T) (d : Dec T) : Dec (list T) := fun old j =>
  match j with JNull => Some [] | JArray js => dec_elems zero d old js | _ => None end.
(** A byte slice: base64 in a string, or an array of numbers. *)
Definition dec_bytes : Dec string := fun old j =>
  match j with
  | JString s => base64_decode s
  | _ => (fun zs => of_bytes (byte_of_Z <$> zs)) <$> dec_list 0 dec_u8 (Z_of_byte <$> to_bytes old) j
  end.

(** Upper-case letters, and the two other runes that fold to ASCII letters. *)
Definition upper (a : ascii) : ascii := if in_range 97 122 a then byte_of_Z (Z_of_byte a - 32) else a.
Fixpoint fold_name (l : bytes) : bytes :=
  match l with
  | [] => []
  | a :: l1 =>
    match l1 with
    | [] => [upper a]
    | b :: l2 =>
      if (a =@ byte 197) && (b =@ byte 191) then byte 83 :: fold_name l2
      else match l2 with
           | c :: l3 => if (a =@ byte 226) && (b =@ byte 132) && (c =@ byte 170) then byte 75 :: fold_name l3
                        else upper a :: fold_name l1
           | [] => upper a :: fold_name l1
           end
    end
  end.
Definition fold_key (s : string) : bytes := fold_name (to_bytes s).

(** [strings.ToLower]: the letters, and the two other runes whose lower case is ASCII. *)
Definition lower (a : ascii) : ascii := if in_range 65 90 a then byte_of_Z (Z_of_byte a + 32) else a.
Fixpoint to_lower (l : bytes) : bytes :=
  match l with
  | [] => []
  | a :: l1 =>
    match l1 with
    | [] => [lower a]
    | b :: l2 =>
      if (a =@ byte 196) && (b =@ byte 176) then byte 105 :: to_lower l2
      else match l2 with
           | c :: l3 => if (a =@ byte 226) && (b =@ byte 132) && (c =@ byte 170) then byte 107 :: to_lower l3
                        else lower a :: to_lower l1
           | [] => lower a :: to_lower l1
           end
    end
  end.

(** The field that a key of the object selects. *)
Definition select_field (names : list string) (key : string) : option string :=
  match list_find (fun n => n = key) names with
  | Some (_, n) => Some n
  | None => snd <$> list_find (fun n => fold_key n = fold_key key) names
  end.
(** What the members of an object make of one field of a struct. *)
Definition dec_field {T} (names : list string) (name : string) (d : Dec T) (old : T) (kvs : list (string * Json)) : option T :=
  fold_left (fun acc kv => v ← acc; if select_field names kv.1 =@ Some name then d v kv.2 else Some v) kvs (Some old).
Definition dec_struct {T} (d : T -> list (string * Json) -> option T) : Dec T := fun old j =>
  match j with JNull => Some old | JObject kvs => d old kvs | _ => None end.

(** [json.Unmarshal] into the zero value *)
Definition unmarshal {T} (zero : T) (d : Dec T) (s : string) : option T := j ← json_parse s; d zero j.

(** Quotes of a text written as ['] below. *)
Definition quoted (s : string) : string :=
  of_bytes ((fun a => if a =@ byte 39 then byte 34 else a) <$> to_bytes s).

Example json_ex :
  json_parse (quoted " {'a' : [1, -2.5e3, 'x\u00e9\n\ud83d\ude00'], 'b':null} ") =
  Some (JObject [("a"%string, JArray [JNumber "1"; JNumber "-2.5e3";
                   JString (of_bytes (byte <$> [120; 195; 169; 10; 240; 159; 152; 128]%nat))]);
                 ("b"%string, JNull)]).
Proof. vm_compute. reflexivity. Qed.
Example json_bad : json_parse "[1,]" = None /\ json_parse "01" = None /\ json_parse "{}x" = None /\ json_parse "" = None.
Proof. vm_compute. done. Qed.
Example select_ex : select_field ["node_key_path"; "version"]%string "Node_Key_Path" = Some "node_key_path"%string.
Proof. vm_compute. reflexivity. Qed.

(** ** The parser consumes its input, and the fuel is enough *)
Lemma skip_ws_length l : (length (skip_ws l) <= length l)%nat.
Proof. induction l as [|a l IH]; simpl; [lia|]. destruct (is_ws a); simpl; lia. Qed.
Lemma span_digits_length l ds r : span_digits l = (ds, r) -> (length l = length ds + length r)%nat.
Proof.
  revert ds r. induction l as [|a l IH]; simpl; intros ds r H; [by simplify_eq|].
  destruct (is_digit a); [|by simplify_eq/=]. destruct (span_digits l) as [ds' r'] eqn:E. simplify_eq/=.
  by rewrite (IH _ _ eq_refl).
Qed.
Lemma digits1_length l ds r : digits1 l = Some (ds, r) -> (length r < length l)%nat.
Proof.
  unfold digits1. destruct (span_digits l) as [ds' r'] eqn:E. apply span_digits_length in E.
  destruct ds'; [done|]. intros; simplify_eq/=. lia.
Qed.
Lemma opt_prefix_length p l x r : opt_prefix p l = (x, r) -> (length l = length x + length r)%nat.
Proof. destruct l as [|a l]; simpl; [by intros; simplify_eq|]. destruct (p a); intros; by simplify_eq/=. Qed.
Lemma hex4_length l z r : hex4 l = Some (z, r) -> (length r < length l)%nat.
Proof. destruct l as [|a [|b [|c [|d l]]]]; simpl; try done. intros H. repeat (apply bind_Some in H as (?&_&H)). simplify_eq. lia. Qed.

Lemma unicode_escape_length l cs r : unicode_escape l = Some (cs, r) -> (length r < length l)%nat.
Proof.
  unfold unicode_escape. intros ([z l1]&H1%hex4_length&H)%bind_Some.
  destruct ((55296 <=? z) && (z <? 57344)); [|by simplify_eq].
  injection H as H. destruct l1 as [|a [|b l2]]; try (simplify_eq; done).
  destruct ((a =@ byte 92) && (b =@ byte 117)); [|by simplify_eq].
  destruct (hex4 l2) as [[z2 l3]|] eqn:E; [|by simplify_eq]. apply hex4_length in E. simpl in *.
  case_match; simplify_eq/=; lia.
Qed.
Lemma rune_width_pos a l : (1 <= rune_width (a :: l))%nat.
Proof. destruct l as [|b [|c [|d l]]]; simpl; repeat case_match; lia. Qed.
Lemma parse_chars_length f l s r : parse_chars f l = Some (s, r) -> (length r < length l)%nat.
Proof.
  revert l s r. induction f as [|f IH]; intros [|a l] s r H; try done. cbn [parse_chars] in H.
  destruct (a =@ byte 34); [simplify_eq/=; lia|]. destruct (a =@ byte 92).
  - destruct l as [|b l2]; [done|]. apply bind_Some in H as ([cs l3]&H1&H). apply bind_Some in H as ([s' r']&H2%IH&H).
    simplify_eq/=. destruct (b =@ byte 117); [apply unicode_escape_length in H1; lia|].
    apply bind_Some in H1 as (c&_&H1). simplify_eq. lia.
  - destruct (in_range 0 31 a); [done|]. apply bind_Some in H as ([s' r']&H2%IH&H). simplify_eq.
    rewrite length_drop in H2. pose proof (rune_width_pos a l). simpl in *. lia.
Qed.
Lemma parse_string_length l s r : parse_string l = Some (s, r) -> (length r < length l)%nat.
Proof. intros ([s' r']&H%parse_chars_length&?)%bind_Some. by simplify_eq. Qed.
Lemma strip_prefix_length p l r : strip_prefix p l = Some r -> (length l = length p + length r)%nat.
Proof. intros ->%strip_prefix_app. by rewrite length_app. Qed.
Lemma parse_number_length l lit r : parse_number l = Some (lit, r) -> (length r < length l)%nat.
Proof.
  unfold parse_number. destruct (opt_prefix _ l) as [sg l1] eqn:E1. apply opt_prefix_length in E1.
  intros ([int l2]&H2&H)%bind_Some. assert (length l2 < length l)%nat.
  { destruct l1 as [|a r1]; [done|]. destruct (a =@ byte 48); [simplify_eq/=; lia|]. apply digits1_length in H2. lia. }
  clear H2. apply bind_Some in H as ([frac l3]&H3&H). assert (length l3 <= length l2)%nat.
  { destruct (opt_prefix _ l2) as [[|? p] r3] eqn:E3; [by simplify_eq|]. apply opt_prefix_length in E3.
    apply bind_Some in H3 as ([ds r']&H3%digits1_length&?). simplify_eq/=. lia. }
  clear H3. apply bind_Some in H as ([ex l4]&H4&H). assert (length l4 <= length l3)%nat; [|simplify_eq; lia].
  destruct (opt_prefix _ l3) as [[|? p] r4] eqn:E4; [by simplify_eq|]. apply opt_prefix_length in E4.
  destruct (opt_prefix _ r4) as [sg' r5] eqn:E5. apply opt_prefix_length in E5.
  apply bind_Some in H4 as ([ds r']&H4%digits1_length&?). simplify_eq/=. lia.
Qed.

Definition consumes {A} (p : bytes -> option (A * bytes)) : Prop :=
  forall l x r, p l = Some (x, r) -> (length r < length l)%nat.

Section consumes_step.
Context (f : nat) (IHv : forall d, consumes (parse_value f d)) (IHe : forall d, consumes (parse_elems f d))
        (IHm : forall d, consumes (parse_members f d)).

Lemma parse_value_consumes d : consumes (parse_value (S f) d).
Proof.
  intros l x r H. cbn [parse_value] in H. pose proof (skip_ws_length l) as Hw.
  destruct (skip_ws l) as [|a l']; [done|]. cbn [length] in Hw.
  destruct (a =@ byte 34). { apply bind_Some in H as ([s r']&H%parse_string_length&?). simplify_eq. lia. }
  pose proof (skip_ws_length l') as Hw'. destruct (a =@ byte 123).
  { destruct (max_nesting <=? d); [done|]. destruct (skip_ws l') as [|b r']; [done|]. cbn [length] in Hw'.
    destruct (b =@ byte 125); [simplify_eq; lia|]. apply bind_Some in H as ([kvs r2]&H%IHm&?). simplify_eq. lia. }
  destruct (a =@ byte 91).
  { destruct (max_nesting <=? d); [done|]. destruct (skip_ws l') as [|b r']; [done|]. cbn [length] in Hw'.
    destruct (b =@ byte 93); [simplify_eq; lia|]. apply bind_Some in H as ([js r2]&H%IHe&?). simplify_eq. lia. }
  destruct (strip_prefix _ _) as [r1|] eqn:E1. { apply strip_prefix_length in E1. simplify_eq. cbn in E1. lia. }
  destruct (strip_prefix (to_bytes "true") _) as [r1|] eqn:E2. { apply strip_prefix_length in E2. simplify_eq. cbn in E2. lia. }
  destruct (strip_prefix (to_bytes "false") _) as [r1|] eqn:E3. { apply strip_prefix_length in E3. simplify_eq. cbn in E3. lia. }
  apply bind_Some in H as ([lit r1]&H%parse_number_length&?). simplify_eq. cbn in H. lia.
Qed.

Lemma parse_elems_consumes d : consumes (parse_elems (S f) d).
Proof.
  intros l x r ([j r1]&H1%IHv&H)%bind_Some. pose proof (skip_ws_length r1) as Hw.
  destruct (skip_ws r1) as [|a r2]; [done|]. cbn [length] in Hw. destruct (a =@ byte 93); [simplify_eq; lia|].
  destruct (a =@ byte 44); [|done]. apply bind_Some in H as ([js r3]&H%IHe&?). simplify_eq. lia.
Qed.

Lemma parse_members_consumes d : consumes (parse_members (S f) d).
Proof.
  intros l x r H. cbn [parse_members] in H. pose proof (skip_ws_length l) as Hw.
  destruct (skip_ws l) as [|q l1]; [done|]. cbn [length] in Hw. destruct (q =@ byte 34); [|done].
  apply bind_Some in H as ([k l2]&H1%parse_string_length&H). pose proof (skip_ws_length l2) as Hw2.
  destruct (skip_ws l2) as [|c l3]; [done|]. cbn [length] in Hw2. destruct (c =@ byte 58); [|done].
  apply bind_Some in H as ([v r1]&H2%IHv&H). pose proof (skip_ws_length r1) as Hw3.
  destruct (skip_ws r1) as [|a r2]; [done|]. cbn [length] in Hw3. destruct (a =@ byte 125); [simplify_eq; lia|].
  destruct (a =@ byte 44); [|done]. apply bind_Some in H as ([kvs r3]&H%IHm&?). simplify_eq. lia.
Qed.
End consumes_step.

Lemma parse_consumes f :
  (forall d, consumes (parse_value f d)) /\ (forall d, consumes (parse_elems f d)) /\ (forall d, consumes (parse_members f d)).
Proof.
  induction f as [|f (IHv&IHe&IHm)]; [done|].
  split_and!; intros d; [by apply parse_value_consumes|by apply parse_elems_consumes|by apply parse_members_consumes].
Qed.

(** More fuel than [json_fuel] changes nothing: the parser never stops for
    lack of it. *)
Lemma parse_fuel f :
  (forall f' d l, (2 * length l + 2 <= f)%nat -> (f <= f')%nat -> parse_value f' d l = parse_value f d l) /\
  (forall f' d l, (2 * length l + 3 <= f)%nat -> (f <= f')%nat -> parse_elems f' d l = parse_elems f d l) /\
  (forall f' d l, (2 * length l + 3 <= f)%nat -> (f <= f')%nat -> parse_members f' d l = parse_members f d l).
Proof.
  induction f as [|f (IHv&IHe&IHm)]; [split_and!; lia|].
  destruct (parse_consumes f) as (Cv&_).
  split_and!; intros [|f'] d l Hl Hf; try lia; cbn [parse_value parse_elems parse_members].
  - pose proof (skip_ws_length l). destruct (skip_ws l) as [|a l']; [done|]. simpl in *.
    rewrite (IHe f' (d + 1) l'), (IHm f' (d + 1) l') by lia. done.
  - rewrite (IHv f' d l) by lia. destruct (parse_value f d l) as [[j r]|] eqn:E; [|done]. apply Cv in E. simpl.
    pose proof (skip_ws_length r). destruct (skip_ws r) as [|a r']; [done|]. simpl in *. by rewrite (IHe f' d r') by lia.
  - pose proof (skip_ws_length l). destruct (skip_ws l) as [|q l1]; [done|]. simpl in *. destruct (q =@ byte 34); [|done].
    destruct (parse_string l1) as [[k l2]|] eqn:E1; [|done]. apply parse_string_length in E1. simpl.
    pose proof (skip_ws_length l2). destruct (skip_ws l2) as [|c l3]; [done|]. simpl in *. destruct (c =@ byte 58); [|done].
    rewrite (IHv f' d l3) by lia. destruct (parse_value f d l3) as [[v r]|] eqn:E; [|done]. apply Cv in E. simpl.
    pose proof (skip_ws_length r). destruct (skip_ws r) as [|a r']; [done|]. simpl in *. by rewrite (IHm f' d r') by lia.
Qed.

(** ** Base64 round trip *)
Lemma base64_value_char z : 0 <= z < 64 -> base64_value (base64_char z) = Some z.
Proof.
  intros Hz. assert (forallb (fun n => base64_value (base64_char (Z.of_nat n)) =@ Some (Z.of_nat n)) (seq 0 64) = true) as H by (vm_compute; done).
  rewrite <- (Z2Nat.id z) by lia. rewrite forallb_forall in H.
  specialize (H (Z.to_nat z) ltac:(apply in_seq; lia)). by apply bool_decide_eq_true in H.
Qed.
Lemma base64_char_plain z : 0 <= z < 64 -> base64_char z <> byte 61 /\ is_newline (base64_char z) = false.
Proof.
  intros Hz. assert (forallb (fun n => negb (base64_char (Z.of_nat n) =@ byte 61) && negb (is_newline (base64_char (Z.of_nat n)))) (seq 0 64) = true) as H by (vm_compute; done).
  rewrite <- (Z2Nat.id z) by lia. rewrite forallb_forall in H.
  specialize (H (Z.to_nat z) ltac:(apply in_seq; lia)). apply andb_prop in H as [H1 H2].
  apply negb_true_iff in H1, H2. split; [by apply bool_decide_eq_false in H1|done].
Qed.
Lemma Z_of_byte_range a : 0 <= Z_of_byte a < 256.
Proof. unfold Z_of_byte. pose proof (Ascii.nat_ascii_bounded a). lia. Qed.
Lemma byte_of_Z_of_byte a : byte_of_Z (Z_of_byte a) = a.
Proof.
  unfold byte_of_Z, byte. rewrite Z.mod_small by apply Z_of_byte_range. unfold Z_of_byte. rewrite Nat2Z.id.
  apply Ascii.ascii_nat_embedding.
Qed.
Lemma byte_of_Z_mod z a : z mod 256 = Z_of_byte a -> byte_of_Z z = a.
Proof. intros H. rewrite <- (byte_of_Z_of_byte a), <- H. unfold byte_of_Z. by rewrite Z.mod_mod by lia. Qed.

(** The digits of three bytes, and back. *)
Lemma sextets a b c : 0 <= a < 256 -> 0 <= b < 256 -> 0 <= c < 256 ->
  let v := a * 65536 + b * 256 + c in
  (0 <= v / 262144 < 64 /\ 0 <= v / 4096 mod 64 < 64 /\ 0 <= v / 64 mod 64 < 64 /\ 0 <= v mod 64 < 64) /\
  v / 262144 * 262144 + v / 4096 mod 64 * 4096 + v / 64 mod 64 * 64 + v mod 64 = v.
Proof. intros Ha Hb Hc v. split; [repeat split; try (apply Z.mod_pos_bound; lia); subst v; try (apply Z.div_pos; lia); apply Z.div_lt_upper_bound; lia|]. subst v. Z.to_euclidean_division_equations; lia. Qed.

Lemma bytes_ind3 (P : bytes -> Prop) :
  P [] -> (forall a, P [a]) -> (forall a b, P [a; b]) -> (forall a b c l, P l -> P (a :: b :: c :: l)) -> forall l, P l.
Proof.
  intros H0 H1 H2 H3 l. cut (P l /\ (forall a, P (a :: l)) /\ (forall a b, P (a :: b :: l))); [tauto|].
  induction l as [|c l (IH1&IH2&IH3)]; [auto|]. split_and!; auto.
Qed.

Lemma base64_quanta_bytes l : base64_quanta (base64_bytes l) = Some l.
Proof.
  induction l as [|a|a b|a b c l IH] using bytes_ind3; [done|..]; cbn [base64_bytes base64_quanta].
  - pose proof (Z_of_byte_range a). destruct (sextets (Z_of_byte a) 0 0) as [(H1&H2&_) Hv]; [lia..|].
    replace (Z_of_byte a * 65536 + 0 * 256 + 0) with (Z_of_byte a * 65536) in * by lia. cbn zeta in *.
    rewrite !base64_value_char by done. cbn -[Z.div Z.modulo Z.mul]. do 2 f_equal. apply byte_of_Z_mod.
    Z.to_euclidean_division_equations; lia.
  - pose proof (Z_of_byte_range a). pose proof (Z_of_byte_range b).
    destruct (sextets (Z_of_byte a) (Z_of_byte b) 0) as [(H1&H2&H3&_) Hv]; [lia..|].
    replace (Z_of_byte a * 65536 + Z_of_byte b * 256 + 0) with (Z_of_byte a * 65536 + Z_of_byte b * 256) in * by lia. cbn zeta in *.
    rewrite !base64_value_char by done. cbn -[Z.div Z.modulo Z.mul base64_char].
    rewrite (bool_decide_true (byte 61 = byte 61)) by done. cbn -[Z.div Z.modulo Z.mul base64_char].
    rewrite (bool_decide_false (_ = byte 61)) by (by apply base64_char_plain).
    cbn -[Z.div Z.modulo Z.mul base64_char].
    do 3 f_equal; [|f_equal]; apply byte_of_Z_mod; Z.to_euclidean_division_equations; lia.
  - pose proof (Z_of_byte_range a). pose proof (Z_of_byte_range b). pose proof (Z_of_byte_range c).
    destruct (sextets (Z_of_byte a) (Z_of_byte b) (Z_of_byte c)) as [(?&?&?&?) Hv]; [lia..|]. cbn zeta in *.
    rewrite !base64_value_char by done. cbn -[Z.div Z.modulo Z.mul base64_char].
    rewrite (bool_decide_false (_ = byte 61)) by (by apply base64_char_plain).
    cbn -[Z.div Z.modulo Z.mul base64_char]. rewrite IH. cbn -[Z.div Z.modulo Z.mul].
    rewrite Hv. do 2 f_equal; [|f_equal; [|f_equal]]; apply byte_of_Z_mod; Z.to_euclidean_division_equations; lia.
Qed.

Lemma base64_bytes_no_newline l : Forall (fun a => is_newline a = false) (base64_bytes l).
Proof.
  induction l as [|a|a b|a b c l IH] using bytes_ind3; cbn [base64_bytes]; [constructor|..].
  all: pose proof (Z_of_byte_range a); try pose proof (Z_of_byte_range b); try pose proof (Z_of_byte_range c).
  - destruct (sextets (Z_of_byte a) 0 0) as [(?&?&?&?) _]; [lia..|].
    replace (Z_of_byte a * 65536 + 0 * 256 + 0) with (Z_of_byte a * 65536) in * by lia.
    repeat constructor; try done; by apply base64_char_plain.
  - destruct (sextets (Z_of_byte a) (Z_of_byte b) 0) as [(?&?&?&?) _]; [lia..|].
    replace (Z_of_byte a * 65536 + Z_of_byte b * 256 + 0) with (Z_of_byte a * 65536 + Z_of_byte b * 256) in * by lia.
    repeat constructor; try done; by apply base64_char_plain.
  - destruct (sextets (Z_of_byte a) (Z_of_byte b) (Z_of_byte c)) as [(?&?&?&?) _]; [lia..|].
    repeat constructor; try (by apply base64_char_plain). done.
Qed.

Lemma no_newline_filter l : Forall (fun a => is_newline a = false) l -> filter (fun a => negb (is_newline a)) l = l.
Proof. induction 1 as [|a l Ha H IH]; [done|]. rewrite filter_cons, decide_True by (by rewrite Ha). by f_equal. Qed.

Lemma base64_round_trip s : base64_decode (base64_encode s) = Some s.
Proof.
  unfold base64_decode, base64_encode. rewrite to_of_bytes.
  rewrite no_newline_filter by apply base64_bytes_no_newline.
  rewrite base64_quanta_bytes. simpl. by rewrite of_to_bytes.
Qed.
