(* ===== verification/ConfigLoad.v ===== *)
(** * Loading the configuration: [internal/config/config.go]

    [Load] overlays the defaults with the JSON file and the file with the
    environment, fills the IPFS defaults and validates the result.  The
    environment is a function from names to values (empty when unset), the
    file system answers [os.Stat] and [os.ReadFile] of one path. *)
From S2P Require Import Prelude Go Encoding Strconv Paths Json Config.

(** ** The JSON file *)
Definition zero_ipfsFile : ipfsFileConfig :=
  mkIPFSFile None None None None None None None None None None None None None None None None None.
Definition ipfsFile_names : list string :=
  ["enabled"; "root"; "gateway_enabled"; "gateway_writable"; "api_enabled"; "datastore_type"; "blockstore_no_sync";
    "chunker"; "raw_leaves"; "cid_version"; "hash_function"; "auto_provide"; "reprovide_interval_seconds";
    "routing_mode"; "fetch_timeout_seconds"; "auto_pin_on_add"; "max_upload_bytes"]%string.
Definition dec_ipfsFile : Dec ipfsFileConfig := dec_struct (fun old kvs =>
  v0 ← dec_field ipfsFile_names "enabled" (dec_ptr false dec_bool) (f_Enabled old) kvs;
  v1 ← dec_field ipfsFile_names "root" (dec_ptr "" dec_string) (f_Root old) kvs;
  v2 ← dec_field ipfsFile_names "gateway_enabled" (dec_ptr false dec_bool) (f_GatewayEnabled old) kvs;
  v3 ← dec_field ipfsFile_names "gateway_writable" (dec_ptr false dec_bool) (f_GatewayWritable old) kvs;
  v4 ← dec_field ipfsFile_names "api_enabled" (dec_ptr false dec_bool) (f_APIEnabled old) kvs;
  v5 ← dec_field ipfsFile_names "datastore_type" (dec_ptr "" dec_string) (f_DatastoreType old) kvs;
  v6 ← dec_field ipfsFile_names "blockstore_no_sync" (dec_ptr false dec_bool) (f_BlockstoreNoSync old) kvs;
  v7 ← dec_field ipfsFile_names "chunker" (dec_ptr "" dec_string) (f_Chunker old) kvs;
  v8 ← dec_field ipfsFile_names "raw_leaves" (dec_ptr false dec_bool) (f_RawLeaves old) kvs;
  v9 ← dec_field ipfsFile_names "cid_version" (dec_ptr 0 dec_i64) (f_CIDVersion old) kvs;
  v10 ← dec_field ipfsFile_names "hash_function" (dec_ptr "" dec_string) (f_HashFunction old) kvs;
  v11 ← dec_field ipfsFile_names "auto_provide" (dec_ptr false dec_bool) (f_AutoProvide old) kvs;
  v12 ← dec_field ipfsFile_names "reprovide_interval_seconds" (dec_ptr 0 dec_i64) (f_ReprovideIntervalSeconds old) kvs;
  v13 ← dec_field ipfsFile_names "routing_mode" (dec_ptr "" dec_string) (f_RoutingMode old) kvs;
  v14 ← dec_field ipfsFile_names "fetch_timeout_seconds" (dec_ptr 0 dec_i64) (f_FetchTimeoutSeconds old) kvs;
  v15 ← dec_field ipfsFile_names "auto_pin_on_add" (dec_ptr false dec_bool) (f_AutoPinOnAdd old) kvs;
  v16 ← dec_field ipfsFile_names "max_upload_bytes" (dec_ptr 0 dec_i64) (f_IPFSMaxUploadBytes old) kvs;
  Some (mkIPFSFile v0 v1 v2 v3 v4 v5 v6 v7 v8 v9 v10 v11 v12 v13 v14 v15 v16)).

Definition fileConfig_names : list string :=
  ["version"; "node_name"; "mysql_dsn"; "mysql_admin_dsn"; "mysql_server_pub_key_path"; "mysql_conn_max_lifetime";
    "mysql_max_idle_conns"; "mysql_max_open_conns"; "mysql_connect_timeout"; "mysql_retry_interval";
    "mysql_max_retry_duration"; "libp2p_listen_addrs"; "libp2p_protocol_id"; "node_key_path"; "blob_root"; "log_dir";
    "migrations_dir"; "http_listen_addr"; "http_jwt_secret"; "http_access_token_ttl"; "read_timeout"; "write_timeout";
    "heartbeat_interval"; "challenge_ttl"; "max_text_len"; "max_images_per_message"; "max_files_per_message";
    "max_upload_bytes"; "default_sync_limit"; "max_sync_limit"; "enable_debug_config"; "serve_blobs_over_http";
    "blob_url_base"; "dht_discovery_namespace"; "dht_bootstrap_peers"; "default_admin_peer_id"; "default_space_id";
    "ipfs"]%string.
Definition dec_fileConfig : Dec fileConfig := dec_struct (fun old kvs =>
  v0 ← dec_field fileConfig_names "version" (dec_ptr "" dec_string) (f_Version old) kvs;
  v1 ← dec_field fileConfig_names "node_name" (dec_ptr "" dec_string) (f_NodeName old) kvs;
  v2 ← dec_field fileConfig_names "mysql_dsn" (dec_ptr "" dec_string) (f_MySQLDSN old) kvs;
  v3 ← dec_field fileConfig_names "mysql_admin_dsn" (dec_ptr "" dec_string) (f_MySQLAdminDSN old) kvs;
  v4 ← dec_field fileConfig_names "mysql_server_pub_key_path" (dec_ptr "" dec_string) (f_MySQLServerPubKeyPath old) kvs;
  v5 ← dec_field fileConfig_names "mysql_conn_max_lifetime" (dec_ptr "" dec_string) (f_MySQLConnMaxLifetime old) kvs;
  v6 ← dec_field fileConfig_names "mysql_max_idle_conns" (dec_ptr 0 dec_i64) (f_MySQLMaxIdleConns old) kvs;
  v7 ← dec_field fileConfig_names "mysql_max_open_conns" (dec_ptr 0 dec_i64) (f_MySQLMaxOpenConns old) kvs;
  v8 ← dec_field fileConfig_names "mysql_connect_timeout" (dec_ptr "" dec_string) (f_MySQLConnectTimeout old) kvs;
  v9 ← dec_field fileConfig_names "mysql_retry_interval" (dec_ptr "" dec_string) (f_MySQLRetryInterval old) kvs;
  v10 ← dec_field fileConfig_names "mysql_max_retry_duration" (dec_ptr "" dec_string) (f_MySQLMaxRetryDuration old) kvs;
  v11 ← dec_field fileConfig_names "libp2p_listen_addrs" (dec_list "" dec_string) (f_Libp2pListenAddrs old) kvs;
  v12 ← dec_field fileConfig_names "libp2p_protocol_id" (dec_ptr "" dec_string) (f_Libp2pProtocolID old) kvs;
  v13 ← dec_field fileConfig_names "node_key_path" (dec_ptr "" dec_string) (f_NodeKeyPath old) kvs;
  v14 ← dec_field fileConfig_names "blob_root" (dec_ptr "" dec_string) (f_BlobRoot old) kvs;
  v15 ← dec_field fileConfig_names "log_dir" (dec_ptr "" dec_string) (f_LogDir old) kvs;
  v16 ← dec_field fileConfig_names "migrations_dir" (dec_ptr "" dec_string) (f_MigrationsDir old) kvs;
  v17 ← dec_field fileConfig_names "http_listen_addr" (dec_ptr "" dec_string) (f_HTTPListenAddr old) kvs;
  v18 ← dec_field fileConfig_names "http_jwt_secret" (dec_ptr "" dec_string) (f_HTTPJWTSecret old) kvs;
  v19 ← dec_field fileConfig_names "http_access_token_ttl" (dec_ptr "" dec_string) (f_HTTPAccessTokenTTL old) kvs;
  v20 ← dec_field fileConfig_names "read_timeout" (dec_ptr "" dec_string) (f_ReadTimeout old) kvs;
  v21 ← dec_field fileConfig_names "write_timeout" (dec_ptr "" dec_string) (f_WriteTimeout old) kvs;
  v22 ← dec_field fileConfig_names "heartbeat_interval" (dec_ptr "" dec_string) (f_HeartbeatInterval old) kvs;
  v23 ← dec_field fileConfig_names "challenge_ttl" (dec_ptr "" dec_string) (f_ChallengeTTL old) kvs;
  v24 ← dec_field fileConfig_names "max_text_len" (dec_ptr 0 dec_i64) (f_MaxTextLen old) kvs;
  v25 ← dec_field fileConfig_names "max_images_per_message" (dec_ptr 0 dec_i64) (f_MaxImagesPerMessage old) kvs;
  v26 ← dec_field fileConfig_names "max_files_per_message" (dec_ptr 0 dec_i64) (f_MaxFilesPerMessage old) kvs;
  v27 ← dec_field fileConfig_names "max_upload_bytes" (dec_ptr 0 dec_i64) (f_MaxUploadBytes old) kvs;
  v28 ← dec_field fileConfig_names "default_sync_limit" (dec_ptr 0 dec_u32) (f_DefaultSyncLimit old) kvs;
  v29 ← dec_field fileConfig_names "max_sync_limit" (dec_ptr 0 dec_u32) (f_MaxSyncLimit old) kvs;
  v30 ← dec_field fileConfig_names "enable_debug_config" (dec_ptr false dec_bool) (f_EnableDebugConfig old) kvs;
  v31 ← dec_field fileConfig_names "serve_blobs_over_http" (dec_ptr false dec_bool) (f_ServeBlobsOverHTTP old) kvs;
  v32 ← dec_field fileConfig_names "blob_url_base" (dec_ptr "" dec_string) (f_BlobURLBase old) kvs;
  v33 ← dec_field fileConfig_names "dht_discovery_namespace" (dec_ptr "" dec_string) (f_DHTDiscoveryNamespace old) kvs;
  v34 ← dec_field fileConfig_names "dht_bootstrap_peers" (dec_list "" dec_string) (f_DHTBootstrapPeers old) kvs;
  v35 ← dec_field fileConfig_names "default_admin_peer_id" (dec_ptr "" dec_string) (f_DefaultAdminPeerID old) kvs;
  v36 ← dec_field fileConfig_names "default_space_id" (dec_ptr 0 dec_u32) (f_DefaultSpaceID old) kvs;
  v37 ← dec_field fileConfig_names "ipfs" (dec_ptr zero_ipfsFile dec_ipfsFile) (f_IPFS old) kvs;
  Some (mkFile v0 v1 v2 v3 v4 v5 v6 v7 v8 v9 v10 v11 v12 v13 v14 v15 v16 v17 v18 v19 v20 v21 v22 v23 v24 v25 v26 v27 v28 v29 v30 v31 v32 v33 v34 v35 v36 v37)).
Definition zero_fileConfig : fileConfig :=
  {| f_Version := None; f_NodeName := None; f_MySQLDSN := None; f_MySQLAdminDSN := None; f_MySQLServerPubKeyPath := None;
     f_MySQLConnMaxLifetime := None; f_MySQLMaxIdleConns := None; f_MySQLMaxOpenConns := None;
     f_MySQLConnectTimeout := None; f_MySQLRetryInterval := None; f_MySQLMaxRetryDuration := None;
     f_Libp2pListenAddrs := []; f_Libp2pProtocolID := None; f_NodeKeyPath := None; f_BlobRoot := None; f_LogDir := None;
     f_MigrationsDir := None; f_HTTPListenAddr := None; f_HTTPJWTSecret := None; f_HTTPAccessTokenTTL := None;
     f_ReadTimeout := None; f_WriteTimeout := None; f_HeartbeatInterval := None; f_ChallengeTTL := None;
     f_MaxTextLen := None; f_MaxImagesPerMessage := None; f_MaxFilesPerMessage := None; f_MaxUploadBytes := None;
     f_DefaultSyncLimit := None; f_MaxSyncLimit := None; f_EnableDebugConfig := None; f_ServeBlobsOverHTTP := None;
     f_BlobURLBase := None; f_DHTDiscoveryNamespace := None; f_DHTBootstrapPeers := []; f_DefaultAdminPeerID := None;
     f_DefaultSpaceID := None; f_IPFS := None |}.

(** ** Applying the values *)
Definition applyString (dst : string) (src : option string) : string :=
  match src with Some s => if s =@ ""%string then dst else s | None => dst end.
Definition applyDuration (dst : Z) (src : option string) : Z :=
  match src with Some s => if s =@ ""%string then dst else default dst (ParseDuration s) | None => dst end.
Definition applyInt (dst : Z) (src : option Z) : Z := default dst src.
Definition applyInt64 (dst : Z) (src : option Z) : Z := default dst src.
Definition applyUint32 (dst : Z) (src : option Z) : Z := default dst src.
Definition applyBool (dst : bool) (src : option bool) : bool := default dst src.
Definition applyList (dst src : list string) : list string := if 0 <? zlen src then src else dst.

(** A variable that is set to more than white space. *)
Definition env_value (env : string -> string) (key : string) : option string :=
  let v := TrimSpace (env key) in if v =@ ""%string then None else Some v.
Definition applyEnvString env key (dst : string) : string := default dst (env_value env key).
Definition applyEnvDuration env key (dst : Z) : Z := default dst (env_value env key ≫= ParseDuration).
Definition applyEnvInt env key (dst : Z) : Z := default dst (env_value env key ≫= fun v => ok (Atoi v)).
Definition applyEnvInt64 env key (dst : Z) : Z := default dst (env_value env key ≫= fun v => ok (ParseInt64 v)).
Definition applyEnvUint32 env key (dst : Z) : Z := default dst (env_value env key ≫= fun v => ok (ParseUint32 v)).
Definition applyEnvBool env key (dst : bool) : bool := default dst (env_value env key ≫= ParseBool).

Definition splitList (raw : string) : list string :=
  filter (fun p => p <> ""%string) ((fun l => TrimSpace (of_bytes l)) <$> split_on (byte 44) (to_bytes raw)).
Definition applyEnvList (env : string -> string) key (dst : list string) : list string :=
  if env key =@ ""%string then dst else splitList (env key).
Fixpoint firstNonEmpty (values : list string) : string :=
  match values with
  | [] => ""
  | v :: vs => if TrimSpace v =@ ""%string then firstNonEmpty vs else v
  end.

Definition mergeIPFS (i : IPFSConfig) (src : option ipfsFileConfig) : IPFSConfig :=
  match src with
  | None => i
  | Some s =>
    {| Enabled := default (Enabled i) (f_Enabled s);
       Root := default (Root i) (f_Root s);
       GatewayEnabled := default (GatewayEnabled i) (f_GatewayEnabled s);
       GatewayWritable := default (GatewayWritable i) (f_GatewayWritable s);
       APIEnabled := default (APIEnabled i) (f_APIEnabled s);
       DatastoreType := default (DatastoreType i) (f_DatastoreType s);
       BlockstoreNoSync := default (BlockstoreNoSync i) (f_BlockstoreNoSync s);
       Chunker := default (Chunker i) (f_Chunker s);
       RawLeaves := default (RawLeaves i) (f_RawLeaves s);
       CIDVersion := default (CIDVersion i) (f_CIDVersion s);
       HashFunction := default (HashFunction i) (f_HashFunction s);
       AutoProvide := default (AutoProvide i) (f_AutoProvide s);
       ReprovideIntervalSeconds := default (ReprovideIntervalSeconds i) (f_ReprovideIntervalSeconds s);
       RoutingMode := default (RoutingMode i) (f_RoutingMode s);
       FetchTimeoutSeconds := default (FetchTimeoutSeconds i) (f_FetchTimeoutSeconds s);
       AutoPinOnAdd := default (AutoPinOnAdd i) (f_AutoPinOnAdd s);
       IPFSMaxUploadBytes := default (IPFSMaxUploadBytes i) (f_IPFSMaxUploadBytes s) |}
  end.

Definition apply_fileConfig (c : Config) (fc : fileConfig) : Config :=
  {| ConfigFile := ConfigFile c;
     Version := applyString (Version c) (f_Version fc);
     NodeName := applyString (NodeName c) (f_NodeName fc);
     MySQLDSN := applyString (MySQLDSN c) (f_MySQLDSN fc);
     MySQLAdminDSN := applyString (MySQLAdminDSN c) (f_MySQLAdminDSN fc);
     MySQLServerPubKeyPath := applyString (MySQLServerPubKeyPath c) (f_MySQLServerPubKeyPath fc);
     MySQLConnMaxLifetime := applyDuration (MySQLConnMaxLifetime c) (f_MySQLConnMaxLifetime fc);
     MySQLMaxIdleConns := applyInt (MySQLMaxIdleConns c) (f_MySQLMaxIdleConns fc);
     MySQLMaxOpenConns := applyInt (MySQLMaxOpenConns c) (f_MySQLMaxOpenConns fc);
     MySQLConnectTimeout := applyDuration (MySQLConnectTimeout c) (f_MySQLConnectTimeout fc);
     MySQLRetryInterval := applyDuration (MySQLRetryInterval c) (f_MySQLRetryInterval fc);
     MySQLMaxRetryDuration := applyDuration (MySQLMaxRetryDuration c) (f_MySQLMaxRetryDuration fc);
     Libp2pListenAddrs := applyList (Libp2pListenAddrs c) (f_Libp2pListenAddrs fc);
     Libp2pProtocolID := applyString (Libp2pProtocolID c) (f_Libp2pProtocolID fc);
     NodeKeyPath := applyString (NodeKeyPath c) (f_NodeKeyPath fc);
     BlobRoot := applyString (BlobRoot c) (f_BlobRoot fc);
     LogDir := applyString (LogDir c) (f_LogDir fc);
     MigrationsDir := applyString (MigrationsDir c) (f_MigrationsDir fc);
     HTTPListenAddr := applyString (HTTPListenAddr c) (f_HTTPListenAddr fc);
     HTTPJWTSecret := applyString (HTTPJWTSecret c) (f_HTTPJWTSecret fc);
     HTTPAccessTokenTTL := applyDuration (HTTPAccessTokenTTL c) (f_HTTPAccessTokenTTL fc);
     ReadTimeout := applyDuration (ReadTimeout c) (f_ReadTimeout fc);
     WriteTimeout := applyDuration (WriteTimeout c) (f_WriteTimeout fc);
     HeartbeatInterval := applyDuration (HeartbeatInterval c) (f_HeartbeatInterval fc);
     ChallengeTTL := applyDuration (ChallengeTTL c) (f_ChallengeTTL fc);
     MaxTextLen := applyInt (MaxTextLen c) (f_MaxTextLen fc);
     MaxImagesPerMessage := applyInt (MaxImagesPerMessage c) (f_MaxImagesPerMessage fc);
     MaxFilesPerMessage := applyInt (MaxFilesPerMessage c) (f_MaxFilesPerMessage fc);
     MaxUploadBytes := applyInt64 (MaxUploadBytes c) (f_MaxUploadBytes fc);
     DefaultSyncLimit := applyUint32 (DefaultSyncLimit c) (f_DefaultSyncLimit fc);
     MaxSyncLimit := applyUint32 (MaxSyncLimit c) (f_MaxSyncLimit fc);
     EnableDebugConfig := applyBool (EnableDebugConfig c) (f_EnableDebugConfig fc);
     ServeBlobsOverHTTP := applyBool (ServeBlobsOverHTTP c) (f_ServeBlobsOverHTTP fc);
     BlobURLBase := applyString (BlobURLBase c) (f_BlobURLBase fc);
     DHTDiscoveryNamespace := applyString (DHTDiscoveryNamespace c) (f_DHTDiscoveryNamespace fc);
     DHTBootstrapPeers := applyList (DHTBootstrapPeers c) (f_DHTBootstrapPeers fc);
     DefaultAdminPeerID := applyString (DefaultAdminPeerID c) (f_DefaultAdminPeerID fc);
     DefaultSpaceID := applyUint32 (DefaultSpaceID c) (f_DefaultSpaceID fc);
     IPFS := mergeIPFS (IPFS c) (f_IPFS fc) |}.

Definition applyEnvIPFS (env : string -> string) (i : IPFSConfig) : IPFSConfig :=
  {| Enabled := applyEnvBool env "MESHSERVER_IPFS_ENABLED" (Enabled i);
     Root := applyEnvString env "MESHSERVER_IPFS_ROOT" (Root i);
     GatewayEnabled := applyEnvBool env "MESHSERVER_IPFS_GATEWAY_ENABLED" (GatewayEnabled i);
     GatewayWritable := applyEnvBool env "MESHSERVER_IPFS_GATEWAY_WRITABLE" (GatewayWritable i);
     APIEnabled := applyEnvBool env "MESHSERVER_IPFS_API_ENABLED" (APIEnabled i);
     DatastoreType := DatastoreType i;
     BlockstoreNoSync := BlockstoreNoSync i;
     Chunker := Chunker i;
     RawLeaves := RawLeaves i;
     CIDVersion := CIDVersion i;
     HashFunction := HashFunction i;
     AutoProvide := AutoProvide i;
     ReprovideIntervalSeconds := ReprovideIntervalSeconds i;
     RoutingMode := RoutingMode i;
     FetchTimeoutSeconds := applyEnvInt env "MESHSERVER_IPFS_FETCH_TIMEOUT_SECONDS" (FetchTimeoutSeconds i);
     AutoPinOnAdd := applyEnvBool env "MESHSERVER_IPFS_AUTO_PIN_ON_ADD" (AutoPinOnAdd i);
     IPFSMaxUploadBytes := applyEnvInt64 env "MESHSERVER_IPFS_MAX_UPLOAD_BYTES" (IPFSMaxUploadBytes i) |}.
Definition applyEnv (env : string -> string) (c : Config) : Config :=
  {| ConfigFile := ConfigFile c;
     Version := applyEnvString env "MESHSERVER_VERSION" (Version c);
     NodeName := applyEnvString env "MESHSERVER_NODE_NAME" (NodeName c);
     MySQLDSN := applyEnvString env "MESHSERVER_MYSQL_DSN" (MySQLDSN c);
     MySQLAdminDSN := applyEnvString env "MESHSERVER_MYSQL_ADMIN_DSN" (MySQLAdminDSN c);
     MySQLServerPubKeyPath := applyEnvString env "MESHSERVER_MYSQL_SERVER_PUB_KEY_PATH" (MySQLServerPubKeyPath c);
     MySQLConnMaxLifetime := applyEnvDuration env "MESHSERVER_MYSQL_CONN_MAX_LIFETIME" (MySQLConnMaxLifetime c);
     MySQLMaxIdleConns := applyEnvInt env "MESHSERVER_MYSQL_MAX_IDLE_CONNS" (MySQLMaxIdleConns c);
     MySQLMaxOpenConns := applyEnvInt env "MESHSERVER_MYSQL_MAX_OPEN_CONNS" (MySQLMaxOpenConns c);
     MySQLConnectTimeout := applyEnvDuration env "MESHSERVER_MYSQL_CONNECT_TIMEOUT" (MySQLConnectTimeout c);
     MySQLRetryInterval := applyEnvDuration env "MESHSERVER_MYSQL_RETRY_INTERVAL" (MySQLRetryInterval c);
     MySQLMaxRetryDuration := applyEnvDuration env "MESHSERVER_MYSQL_MAX_RETRY_DURATION" (MySQLMaxRetryDuration c);
     Libp2pListenAddrs := applyEnvList env "MESHSERVER_LIBP2P_LISTEN_ADDRS" (Libp2pListenAddrs c);
     Libp2pProtocolID := applyEnvString env "MESHSERVER_LIBP2P_PROTOCOL_ID" (Libp2pProtocolID c);
     NodeKeyPath := applyEnvString env "MESHSERVER_NODE_KEY_PATH" (NodeKeyPath c);
     BlobRoot := applyEnvString env "MESHSERVER_BLOB_ROOT" (BlobRoot c);
     LogDir := applyEnvString env "MESHSERVER_LOG_DIR" (LogDir c);
     MigrationsDir := applyEnvString env "MESHSERVER_MIGRATIONS_DIR" (MigrationsDir c);
     HTTPListenAddr := applyEnvString env "MESHSERVER_HTTP_LISTEN_ADDR" (HTTPListenAddr c);
     HTTPJWTSecret := applyEnvString env "MESHSERVER_HTTP_JWT_SECRET" (HTTPJWTSecret c);
     HTTPAccessTokenTTL := applyEnvDuration env "MESHSERVER_HTTP_ACCESS_TOKEN_TTL" (HTTPAccessTokenTTL c);
     ReadTimeout := applyEnvDuration env "MESHSERVER_READ_TIMEOUT" (ReadTimeout c);
     WriteTimeout := applyEnvDuration env "MESHSERVER_WRITE_TIMEOUT" (WriteTimeout c);
     HeartbeatInterval := applyEnvDuration env "MESHSERVER_HEARTBEAT_INTERVAL" (HeartbeatInterval c);
     ChallengeTTL := applyEnvDuration env "MESHSERVER_CHALLENGE_TTL" (ChallengeTTL c);
     MaxTextLen := applyEnvInt env "MESHSERVER_MAX_TEXT_LEN" (MaxTextLen c);
     MaxImagesPerMessage := applyEnvInt env "MESHSERVER_MAX_IMAGES_PER_MESSAGE" (MaxImagesPerMessage c);
     MaxFilesPerMessage := applyEnvInt env "MESHSERVER_MAX_FILES_PER_MESSAGE" (MaxFilesPerMessage c);
     MaxUploadBytes := applyEnvInt64 env "MESHSERVER_MAX_UPLOAD_BYTES" (MaxUploadBytes c);
     DefaultSyncLimit := applyEnvUint32 env "MESHSERVER_DEFAULT_SYNC_LIMIT" (DefaultSyncLimit c);
     MaxSyncLimit := applyEnvUint32 env "MESHSERVER_MAX_SYNC_LIMIT" (MaxSyncLimit c);
     EnableDebugConfig := applyEnvBool env "MESHSERVER_ENABLE_DEBUG_CONFIG" (EnableDebugConfig c);
     ServeBlobsOverHTTP := applyEnvBool env "MESHSERVER_SERVE_BLOBS_OVER_HTTP" (ServeBlobsOverHTTP c);
     BlobURLBase := applyEnvString env "MESHSERVER_BLOB_URL_BASE" (BlobURLBase c);
     DHTDiscoveryNamespace := applyEnvString env "MESHSERVER_DHT_DISCOVERY_NAMESPACE" (DHTDiscoveryNamespace c);
     DHTBootstrapPeers := applyEnvList env "MESHSERVER_DHT_BOOTSTRAP_PEERS" (DHTBootstrapPeers c);
     DefaultAdminPeerID := applyEnvString env "MESHSERVER_DEFAULT_ADMIN_PEER_ID" (DefaultAdminPeerID c);
     DefaultSpaceID := applyEnvUint32 env "MESHSERVER_DEFAULT_SPACE_ID" (DefaultSpaceID c);
     IPFS := applyEnvIPFS env (IPFS c) |}.

(** ** Normalising and validating *)
Definition Normalize (i : IPFSConfig) : IPFSConfig :=
  {| Enabled := Enabled i; Root := Root i; GatewayEnabled := GatewayEnabled i; GatewayWritable := GatewayWritable i;
     APIEnabled := APIEnabled i;
     DatastoreType := if DatastoreType i =@ ""%string then "leveldb" else DatastoreType i;
     BlockstoreNoSync := BlockstoreNoSync i;
     Chunker := if Chunker i =@ ""%string then "size-1048576" else Chunker i;
     RawLeaves := RawLeaves i;
     CIDVersion := if CIDVersion i =? 0 then 1 else CIDVersion i;
     HashFunction := if HashFunction i =@ ""%string then "sha2-256" else HashFunction i;
     AutoProvide := AutoProvide i; ReprovideIntervalSeconds := ReprovideIntervalSeconds i;
     RoutingMode := if RoutingMode i =@ ""%string then "dht-client" else RoutingMode i;
     FetchTimeoutSeconds := if FetchTimeoutSeconds i <=? 0 then 60 else FetchTimeoutSeconds i;
     AutoPinOnAdd := AutoPinOnAdd i;
     IPFSMaxUploadBytes := if IPFSMaxUploadBytes i <=? 0 then Z.shiftl 64 20 else IPFSMaxUploadBytes i |}.

Definition IPFSBaseDir (c : Config) : string :=
  if negb (Root (IPFS c) =@ ""%string) then Clean (Root (IPFS c)) else Join [Dir (BlobRoot c); "ipfs"]%string.

(** The text of the error, if any. *)
Definition Validate (c : Config) : option string :=
  if MySQLDSN c =@ ""%string then Some "mysql dsn is required"
  else if zlen (Libp2pListenAddrs c) =? 0 then Some "at least one libp2p listen addr is required"
  else if Libp2pProtocolID c =@ ""%string then Some "libp2p protocol id is required"
  else if NodeKeyPath c =@ ""%string then Some "node key path is required"
  else if BlobRoot c =@ ""%string then Some "blob root is required"
  else if LogDir c =@ ""%string then Some "log dir is required"
  else if MigrationsDir c =@ ""%string then Some "migrations dir is required"
  else if HTTPListenAddr c =@ ""%string then Some "http listen addr is required"
  else if (MaxTextLen c <=? 0) || (MaxImagesPerMessage c <=? 0) || (MaxFilesPerMessage c <=? 0) || (MaxUploadBytes c <=? 0)
       then Some "message and upload limits must be positive"
  else if (DefaultSyncLimit c =? 0) || (MaxSyncLimit c =? 0) || (MaxSyncLimit c <? DefaultSyncLimit c)
       then Some "sync limits are invalid"
  else if Enabled (IPFS c) && (Clean (IPFSBaseDir c) =@ ""%string) then Some "ipfs base dir is invalid"
  else None%string.

(** ** [Load] *)
(** What [os.Stat] and [os.ReadFile] find at a path. *)
Inductive FileState := NoFile | Unreadable | Contents (raw : string).
Inductive LoadError := ReadConfigFile (path : string) | ParseConfigFile (path : string) | InvalidConfig (msg : string).

Definition applyFile (c : Config) (path : string) (f : FileState) : LoadError + Config :=
  match f with
  | Contents raw => match unmarshal zero_fileConfig dec_fileConfig raw with
                    | Some fc => inr (apply_fileConfig c fc)
                    | None => inl (ParseConfigFile path)
                    end
  | _ => inl (ReadConfigFile path)
  end.

Definition default_config_file : string := Join ["docker-compose"; "data"; "config"; "meshserver.json"].
Definition config_path (env : string -> string) : string :=
  firstNonEmpty [env "MESHSERVER_CONFIG_FILE"%string; default_config_file].

Definition with_ConfigFile (path : string) (c : Config) : Config :=
  {| ConfigFile := path;
     Version := Version c;
     NodeName := NodeName c;
     MySQLDSN := MySQLDSN c;
     MySQLAdminDSN := MySQLAdminDSN c;
     MySQLServerPubKeyPath := MySQLServerPubKeyPath c;
     MySQLConnMaxLifetime := MySQLConnMaxLifetime c;
     MySQLMaxIdleConns := MySQLMaxIdleConns c;
     MySQLMaxOpenConns := MySQLMaxOpenConns c;
     MySQLConnectTimeout := MySQLConnectTimeout c;
     MySQLRetryInterval := MySQLRetryInterval c;
     MySQLMaxRetryDuration := MySQLMaxRetryDuration c;
     Libp2pListenAddrs := Libp2pListenAddrs c;
     Libp2pProtocolID := Libp2pProtocolID c;
     NodeKeyPath := NodeKeyPath c;
     BlobRoot := BlobRoot c;
     LogDir := LogDir c;
     MigrationsDir := MigrationsDir c;
     HTTPListenAddr := HTTPListenAddr c;
     HTTPJWTSecret := HTTPJWTSecret c;
     HTTPAccessTokenTTL := HTTPAccessTokenTTL c;
     ReadTimeout := ReadTimeout c;
     WriteTimeout := WriteTimeout c;
     HeartbeatInterval := HeartbeatInterval c;
     ChallengeTTL := ChallengeTTL c;
     MaxTextLen := MaxTextLen c;
     MaxImagesPerMessage := MaxImagesPerMessage c;
     MaxFilesPerMessage := MaxFilesPerMessage c;
     MaxUploadBytes := MaxUploadBytes c;
     DefaultSyncLimit := DefaultSyncLimit c;
     MaxSyncLimit := MaxSyncLimit c;
     EnableDebugConfig := EnableDebugConfig c;
     ServeBlobsOverHTTP := ServeBlobsOverHTTP c;
     BlobURLBase := BlobURLBase c;
     DHTDiscoveryNamespace := DHTDiscoveryNamespace c;
     DHTBootstrapPeers := DHTBootstrapPeers c;
     DefaultAdminPeerID := DefaultAdminPeerID c;
     DefaultSpaceID := DefaultSpaceID c;
     IPFS := IPFS c |}.
Definition with_IPFS (i : IPFSConfig) (c : Config) : Config :=
  {| ConfigFile := ConfigFile c;
     Version := Version c;
     NodeName := NodeName c;
     MySQLDSN := MySQLDSN c;
     MySQLAdminDSN := MySQLAdminDSN c;
     MySQLServerPubKeyPath := MySQLServerPubKeyPath c;
     MySQLConnMaxLifetime := MySQLConnMaxLifetime c;
     MySQLMaxIdleConns := MySQLMaxIdleConns c;
     MySQLMaxOpenConns := MySQLMaxOpenConns c;
     MySQLConnectTimeout := MySQLConnectTimeout c;
     MySQLRetryInterval := MySQLRetryInterval c;
     MySQLMaxRetryDuration := MySQLMaxRetryDuration c;
     Libp2pListenAddrs := Libp2pListenAddrs c;
     Libp2pProtocolID := Libp2pProtocolID c;
     NodeKeyPath := NodeKeyPath c;
     BlobRoot := BlobRoot c;
     LogDir := LogDir c;
     MigrationsDir := MigrationsDir c;
     HTTPListenAddr := HTTPListenAddr c;
     HTTPJWTSecret := HTTPJWTSecret c;
     HTTPAccessTokenTTL := HTTPAccessTokenTTL c;
     ReadTimeout := ReadTimeout c;
     WriteTimeout := WriteTimeout c;
     HeartbeatInterval := HeartbeatInterval c;
     ChallengeTTL := ChallengeTTL c;
     MaxTextLen := MaxTextLen c;
     MaxImagesPerMessage := MaxImagesPerMessage c;
     MaxFilesPerMessage := MaxFilesPerMessage c;
     MaxUploadBytes := MaxUploadBytes c;
     DefaultSyncLimit := DefaultSyncLimit c;
     MaxSyncLimit := MaxSyncLimit c;
     EnableDebugConfig := EnableDebugConfig c;
     ServeBlobsOverHTTP := ServeBlobsOverHTTP c;
     BlobURLBase := BlobURLBase c;
     DHTDiscoveryNamespace := DHTDiscoveryNamespace c;
     DHTBootstrapPeers := DHTBootstrapPeers c;
     DefaultAdminPeerID := DefaultAdminPeerID c;
     DefaultSpaceID := DefaultSpaceID c;
     IPFS := i |}.

Definition Load (env : string -> string) (fs : string -> FileState) : LoadError + Config :=
  let path := config_path env in
  let c := with_ConfigFile path defaults in
  let loaded := match fs path with NoFile => inr c | f => applyFile c path f end in
  match loaded with
  | inl e => inl e
  | inr c =>
    let c := applyEnv env c in
    let c := with_IPFS (Normalize (IPFS c)) c in
    match Validate c with Some msg => inl (InvalidConfig msg) | None => inr c end
  end.
