(* ===== verification/ConfigThms.v ===== *)
(** * Properties of the configuration loader

    Which source a setting comes from, that every loaded value fits its Go
    type, and that a loaded configuration satisfies what the other
    components rely on. *)
From S2P Require Import Prelude Go Encoding Strconv Paths Json Config ConfigLoad.

(** ** The sources of a setting

    A setting of type [A]: its variable, where it is in the configuration
    and where in the file, as a value of type [B]. *)
Record Setting (A B : Type) := mkSetting { s_env : string; s_get : Config -> A; s_file : fileConfig -> option B }.
Arguments mkSetting {A B}. Arguments s_env {A B}. Arguments s_get {A B}. Arguments s_file {A B}.

Definition string_settings : list (Setting string string) :=
  [ mkSetting "MESHSERVER_VERSION" Version f_Version;
    mkSetting "MESHSERVER_NODE_NAME" NodeName f_NodeName;
    mkSetting "MESHSERVER_MYSQL_DSN" MySQLDSN f_MySQLDSN;
    mkSetting "MESHSERVER_MYSQL_ADMIN_DSN" MySQLAdminDSN f_MySQLAdminDSN;
    mkSetting "MESHSERVER_MYSQL_SERVER_PUB_KEY_PATH" MySQLServerPubKeyPath f_MySQLServerPubKeyPath;
    mkSetting "MESHSERVER_LIBP2P_PROTOCOL_ID" Libp2pProtocolID f_Libp2pProtocolID;
    mkSetting "MESHSERVER_NODE_KEY_PATH" NodeKeyPath f_NodeKeyPath;
    mkSetting "MESHSERVER_BLOB_ROOT" BlobRoot f_BlobRoot;
    mkSetting "MESHSERVER_LOG_DIR" LogDir f_LogDir;
    mkSetting "MESHSERVER_MIGRATIONS_DIR" MigrationsDir f_MigrationsDir;
    mkSetting "MESHSERVER_HTTP_LISTEN_ADDR" HTTPListenAddr f_HTTPListenAddr;
    mkSetting "MESHSERVER_HTTP_JWT_SECRET" HTTPJWTSecret f_HTTPJWTSecret;
    mkSetting "MESHSERVER_BLOB_URL_BASE" BlobURLBase f_BlobURLBase;
    mkSetting "MESHSERVER_DHT_DISCOVERY_NAMESPACE" DHTDiscoveryNamespace f_DHTDiscoveryNamespace;
    mkSetting "MESHSERVER_DEFAULT_ADMIN_PEER_ID" DefaultAdminPeerID f_DefaultAdminPeerID;
    mkSetting "MESHSERVER_IPFS_ROOT" (fun c => Root (IPFS c)) (fun fc => f_IPFS fc ≫= f_Root) ].
Definition duration_settings : list (Setting Z string) :=
  [ mkSetting "MESHSERVER_MYSQL_CONN_MAX_LIFETIME" MySQLConnMaxLifetime f_MySQLConnMaxLifetime;
    mkSetting "MESHSERVER_MYSQL_CONNECT_TIMEOUT" MySQLConnectTimeout f_MySQLConnectTimeout;
    mkSetting "MESHSERVER_MYSQL_RETRY_INTERVAL" MySQLRetryInterval f_MySQLRetryInterval;
    mkSetting "MESHSERVER_MYSQL_MAX_RETRY_DURATION" MySQLMaxRetryDuration f_MySQLMaxRetryDuration;
    mkSetting "MESHSERVER_HTTP_ACCESS_TOKEN_TTL" HTTPAccessTokenTTL f_HTTPAccessTokenTTL;
    mkSetting "MESHSERVER_READ_TIMEOUT" ReadTimeout f_ReadTimeout;
    mkSetting "MESHSERVER_WRITE_TIMEOUT" WriteTimeout f_WriteTimeout;
    mkSetting "MESHSERVER_HEARTBEAT_INTERVAL" HeartbeatInterval f_HeartbeatInterval;
    mkSetting "MESHSERVER_CHALLENGE_TTL" ChallengeTTL f_ChallengeTTL ].
Definition int_settings : list (Setting Z Z) :=
  [ mkSetting "MESHSERVER_MYSQL_MAX_IDLE_CONNS" MySQLMaxIdleConns f_MySQLMaxIdleConns;
    mkSetting "MESHSERVER_MYSQL_MAX_OPEN_CONNS" MySQLMaxOpenConns f_MySQLMaxOpenConns;
    mkSetting "MESHSERVER_MAX_TEXT_LEN" MaxTextLen f_MaxTextLen;
    mkSetting "MESHSERVER_MAX_IMAGES_PER_MESSAGE" MaxImagesPerMessage f_MaxImagesPerMessage;
    mkSetting "MESHSERVER_MAX_FILES_PER_MESSAGE" MaxFilesPerMessage f_MaxFilesPerMessage;
    mkSetting "MESHSERVER_MAX_UPLOAD_BYTES" MaxUploadBytes f_MaxUploadBytes ].
Definition uint32_settings : list (Setting Z Z) :=
  [ mkSetting "MESHSERVER_DEFAULT_SYNC_LIMIT" DefaultSyncLimit f_DefaultSyncLimit;
    mkSetting "MESHSERVER_MAX_SYNC_LIMIT" MaxSyncLimit f_MaxSyncLimit;
    mkSetting "MESHSERVER_DEFAULT_SPACE_ID" DefaultSpaceID f_DefaultSpaceID ].
Definition bool_settings : list (Setting bool bool) :=
  [ mkSetting "MESHSERVER_ENABLE_DEBUG_CONFIG" EnableDebugConfig f_EnableDebugConfig;
    mkSetting "MESHSERVER_SERVE_BLOBS_OVER_HTTP" ServeBlobsOverHTTP f_ServeBlobsOverHTTP;
    mkSetting "MESHSERVER_IPFS_ENABLED" (fun c => Enabled (IPFS c)) (fun fc => f_IPFS fc ≫= f_Enabled);
    mkSetting "MESHSERVER_IPFS_GATEWAY_ENABLED" (fun c => GatewayEnabled (IPFS c)) (fun fc => f_IPFS fc ≫= f_GatewayEnabled);
    mkSetting "MESHSERVER_IPFS_GATEWAY_WRITABLE" (fun c => GatewayWritable (IPFS c)) (fun fc => f_IPFS fc ≫= f_GatewayWritable);
    mkSetting "MESHSERVER_IPFS_API_ENABLED" (fun c => APIEnabled (IPFS c)) (fun fc => f_IPFS fc ≫= f_APIEnabled);
    mkSetting "MESHSERVER_IPFS_AUTO_PIN_ON_ADD" (fun c => AutoPinOnAdd (IPFS c)) (fun fc => f_IPFS fc ≫= f_AutoPinOnAdd) ].

(** Limits of the IPFS node: [Normalize] replaces a value that is not positive by the number here. *)
Definition limit_settings : list (Setting Z Z * Z) :=
  [ (mkSetting "MESHSERVER_IPFS_FETCH_TIMEOUT_SECONDS" (fun c => FetchTimeoutSeconds (IPFS c)) (fun fc => f_IPFS fc ≫= f_FetchTimeoutSeconds), 60);
    (mkSetting "MESHSERVER_IPFS_MAX_UPLOAD_BYTES" (fun c => IPFSMaxUploadBytes (IPFS c)) (fun fc => f_IPFS fc ≫= f_IPFSMaxUploadBytes), Z.shiftl 64 20) ].
Definition positive_or (dflt v : Z) : Z := if v <=? 0 then dflt else v.
Definition list_settings : list (Setting (list string) (list string)) :=
  [ mkSetting "MESHSERVER_LIBP2P_LISTEN_ADDRS" Libp2pListenAddrs (fun fc => Some (f_Libp2pListenAddrs fc));
    mkSetting "MESHSERVER_DHT_BOOTSTRAP_PEERS" DHTBootstrapPeers (fun fc => Some (f_DHTBootstrapPeers fc)) ].

(** The value of the environment if it is usable, else the one of the file if
    it is, else the default. *)
Definition chosen {A B} (from_env : string -> option A) (from_file : B -> option A)
    (env : string -> string) (file : option fileConfig) (s : Setting A B) : A :=
  match env_value env (s_env s) ≫= from_env, (file ≫= s_file s) ≫= from_file with
  | Some v, _ => v
  | None, Some v => v
  | None, None => s_get s defaults
  end.
(** A list: the parts of the variable if it is not empty, else the list of the file if that has an entry, else the default. *)
Definition chosen_list (env : string -> string) (file : option fileConfig) (s : Setting (list string) (list string)) : list string :=
  if negb (env (s_env s) =@ ""%string) then splitList (env (s_env s))
  else match file ≫= s_file s with Some (x :: l) => x :: l | _ => s_get s defaults end.
Definition nonempty (s : string) : option string := if s =@ ""%string then None else Some s.

(** The decoded file, when there is one. *)
Definition config_file (env : string -> string) (fs : string -> FileState) : option fileConfig :=
  match fs (config_path env) with
  | Contents raw => unmarshal zero_fileConfig dec_fileConfig raw
  | _ => None
  end.

(** A configuration that was loaded is the composition of its sources. *)
Lemma Load_inv env fs c :
  Load env fs = inr c ->
  let base := with_ConfigFile (config_path env) defaults in
  let c1 := applyEnv env (match config_file env fs with Some fc => apply_fileConfig base fc | None => base end) in
  c = with_IPFS (Normalize (IPFS c1)) c1 /\ Validate c = None.
Proof.
  unfold Load, config_file. intros H. destruct (fs (config_path env)) as [| |raw]; [|done|].
  - cbn zeta in *. destruct (Validate _) eqn:E; [done|]. by injection H as <-.
  - cbn [applyFile] in H. destruct (unmarshal zero_fileConfig dec_fileConfig raw) as [fc|]; [|done]. cbn zeta in *.
    destruct (Validate _) eqn:E; [done|]. by injection H as <-.
Qed.

(** ** Precedence *)
Lemma applyString_default dst src : applyString dst src = default dst (src ≫= nonempty).
Proof. unfold applyString, nonempty. destruct src as [s|]; [|done]. simpl. by destruct (s =@ ""%string). Qed.
Lemma applyDuration_default dst src : applyDuration dst src = default dst (src ≫= ParseDuration).
Proof. unfold applyDuration. destruct src as [s|]; [|done]. simpl. by case_bool_decide; subst. Qed.
Lemma bind_Some_id {A} (o : option A) : o ≫= Some = o.
Proof. by destruct o. Qed.

(** Compares what the loader computes for each setting of a table with [chosen]. *)
Ltac by_sources :=
  repeat (apply Forall_cons; split); try (by apply Forall_nil);
  unfold chosen; match goal with file : option fileConfig |- _ => destruct file as [fc|] end;
  cbn -[env_value ParseDuration Atoi ParseInt64 ParseUint32 ParseBool];
  unfold applyEnvString, applyEnvDuration, applyEnvInt, applyEnvInt64, applyEnvUint32, applyEnvBool, applyInt, applyInt64, applyUint32, applyBool, Atoi;
  rewrite ?applyString_default, ?applyDuration_default, ?bind_Some_id;
  try match goal with |- context [f_IPFS ?f] => destruct (f_IPFS f); cbn -[env_value ParseBool] end;
  try match goal with |- context [f_Root ?i] => unfold nonempty; destruct (f_Root i) as [r|]; simpl; try (destruct (bool_decide_reflect (r = ""%string)); subst) end;
  repeat (match goal with
  | |- context [env_value ?e ?k ≫= ?f] => destruct (env_value e k ≫= f)
  | |- context [env_value ?e ?k] => destruct (env_value e k)
  | |- context [?o ≫= ?f] => destruct (o ≫= f)
  end; simpl; try done).

Section precedence.
Context (env : string -> string) (file : option fileConfig).
Let base := with_ConfigFile (config_path env) defaults.
Let c1 := applyEnv env (match file with Some fc => apply_fileConfig base fc | None => base end).
Let c := with_IPFS (Normalize (IPFS c1)) c1.

Lemma string_precedence : Forall (fun s => s_get s c = chosen Some nonempty env file s) string_settings.
Proof. unfold string_settings, c, c1, base. by_sources. Qed.
Lemma duration_precedence : Forall (fun s => s_get s c = chosen ParseDuration ParseDuration env file s) duration_settings.
Proof. unfold duration_settings, c, c1, base. by_sources. Qed.
Lemma int_precedence : Forall (fun s => s_get s c = chosen (fun v => ok (Atoi v)) Some env file s) int_settings.
Proof. unfold int_settings, c, c1, base. by_sources. Qed.
Lemma uint32_precedence : Forall (fun s => s_get s c = chosen (fun v => ok (ParseUint32 v)) Some env file s) uint32_settings.
Proof. unfold uint32_settings, c, c1, base. by_sources. Qed.
Lemma bool_precedence : Forall (fun s => s_get s c = chosen ParseBool Some env file s) bool_settings.
Proof. unfold bool_settings, c, c1, base. by_sources. Qed.
Lemma limit_precedence :
  Forall (fun '(s, dflt) => s_get s c = positive_or dflt (chosen (fun v => ok (Atoi v)) Some env file s)) limit_settings.
Proof.
  unfold limit_settings, c, c1, base, chosen, positive_or. repeat (apply Forall_cons; split); try (by apply Forall_nil);
    destruct file as [fc|]; cbn -[env_value ParseInt64 Z.leb];
    unfold applyEnvInt, applyEnvInt64, Atoi; destruct (env_value env _ ≫= _); try done;
    destruct (f_IPFS fc) as [i|]; try done; cbn -[Z.leb]; match goal with |- context [default _ ?o] => by destruct o end.
Qed.
Lemma list_precedence : Forall (fun s => s_get s c = chosen_list env file s) list_settings.
Proof.
  unfold list_settings, c, c1, base, chosen_list, applyEnvList, applyList.
  repeat (apply Forall_cons; split); try (by apply Forall_nil); destruct file as [fc|]; cbn -[splitList];
    unfold applyEnvList, applyList; case_bool_decide; try done; match goal with |- context [zlen ?l] => by destruct l end.
Qed.
End precedence.

(** C24: where the settings come from.  Each of the 45 settings that can be given in the environment comes
    from its variable if that holds a usable value, else from the configuration file if that does, else it
    is the default, and is exactly the value given there: strings must not be empty, durations, numbers and
    booleans must parse and fit their type, so that none is truncated; the variable of a list is split at
    its commas if it is not empty; two limits of the IPFS node that are not positive are replaced. *)
Theorem load_precedence env fs c :
  Load env fs = inr c ->
  let file := config_file env fs in
  Forall (fun s => s_get s c = chosen Some nonempty env file s) string_settings /\
  Forall (fun s => s_get s c = chosen ParseDuration ParseDuration env file s) duration_settings /\
  Forall (fun s => s_get s c = chosen (fun v => ok (Atoi v)) Some env file s) int_settings /\
  Forall (fun s => s_get s c = chosen (fun v => ok (ParseUint32 v)) Some env file s) uint32_settings /\
  Forall (fun s => s_get s c = chosen ParseBool Some env file s) bool_settings /\
  Forall (fun '(s, dflt) => s_get s c = positive_or dflt (chosen (fun v => ok (Atoi v)) Some env file s)) limit_settings /\
  Forall (fun s => s_get s c = chosen_list env file s) list_settings.
Proof.
  intros [Hc _]%Load_inv file. rewrite Hc. split_and!;
    [apply string_precedence|apply duration_precedence|apply int_precedence|apply uint32_precedence|apply bool_precedence|apply limit_precedence|apply list_precedence].
Qed.

(** ** Types: every number fits its Go type *)
Definition typed_opt (P : Z -> Prop) (o : option Z) : Prop := forall z, o = Some z -> P z.
Definition in_u32 (z : Z) : Prop := 0 <= z <= max_u32.

Record ipfs_typed (i : IPFSConfig) : Prop := {
  t_CIDVersion : in_i64 (CIDVersion i);
  t_ReprovideIntervalSeconds : in_i64 (ReprovideIntervalSeconds i);
  t_FetchTimeoutSeconds : in_i64 (FetchTimeoutSeconds i);
  t_IPFSMaxUploadBytes : in_i64 (IPFSMaxUploadBytes i) }.
Record config_typed (c : Config) : Prop := {
  t_MySQLConnMaxLifetime : in_i64 (MySQLConnMaxLifetime c);
  t_MySQLConnectTimeout : in_i64 (MySQLConnectTimeout c);
  t_MySQLRetryInterval : in_i64 (MySQLRetryInterval c);
  t_MySQLMaxRetryDuration : in_i64 (MySQLMaxRetryDuration c);
  t_HTTPAccessTokenTTL : in_i64 (HTTPAccessTokenTTL c);
  t_ReadTimeout : in_i64 (ReadTimeout c);
  t_WriteTimeout : in_i64 (WriteTimeout c);
  t_HeartbeatInterval : in_i64 (HeartbeatInterval c);
  t_ChallengeTTL : in_i64 (ChallengeTTL c);
  t_MySQLMaxIdleConns : in_i64 (MySQLMaxIdleConns c);
  t_MySQLMaxOpenConns : in_i64 (MySQLMaxOpenConns c);
  t_MaxTextLen : in_i64 (MaxTextLen c);
  t_MaxImagesPerMessage : in_i64 (MaxImagesPerMessage c);
  t_MaxFilesPerMessage : in_i64 (MaxFilesPerMessage c);
  t_MaxUploadBytes : in_i64 (MaxUploadBytes c);
  t_DefaultSyncLimit : in_u32 (DefaultSyncLimit c);
  t_MaxSyncLimit : in_u32 (MaxSyncLimit c);
  t_DefaultSpaceID : in_u32 (DefaultSpaceID c);
  t_IPFS : ipfs_typed (IPFS c) }.
Record file_typed (fc : fileConfig) : Prop := {
  ft_MySQLMaxIdleConns : typed_opt in_i64 (f_MySQLMaxIdleConns fc);
  ft_MySQLMaxOpenConns : typed_opt in_i64 (f_MySQLMaxOpenConns fc);
  ft_MaxTextLen : typed_opt in_i64 (f_MaxTextLen fc);
  ft_MaxImagesPerMessage : typed_opt in_i64 (f_MaxImagesPerMessage fc);
  ft_MaxFilesPerMessage : typed_opt in_i64 (f_MaxFilesPerMessage fc);
  ft_MaxUploadBytes : typed_opt in_i64 (f_MaxUploadBytes fc);
  ft_DefaultSyncLimit : typed_opt in_u32 (f_DefaultSyncLimit fc);
  ft_MaxSyncLimit : typed_opt in_u32 (f_MaxSyncLimit fc);
  ft_DefaultSpaceID : typed_opt in_u32 (f_DefaultSpaceID fc);
  ft_IPFS : forall i, f_IPFS fc = Some i ->
    typed_opt in_i64 (f_CIDVersion i) /\ typed_opt in_i64 (f_ReprovideIntervalSeconds i) /\
    typed_opt in_i64 (f_FetchTimeoutSeconds i) /\ typed_opt in_i64 (f_IPFSMaxUploadBytes i) }.

(** A decoder that keeps a property of the value it decodes into. *)
Definition keeps {T} (P : T -> Prop) (d : Dec T) : Prop := forall v j v', P v -> d v j = Some v' -> P v'.
Lemma dec_field_keeps {T} (P : T -> Prop) names name (d : Dec T) v kvs v' :
  keeps P d -> P v -> dec_field names name d v kvs = Some v' -> P v'.
Proof.
  intros Hd. unfold dec_field. revert v. induction kvs as [|kv kvs IH]; intros v Hv H; simpl in H; [by simplify_eq|].
  destruct (bool_decide _); [|eauto]. destruct (d v kv.2) as [w|] eqn:E; [eauto|].
  exfalso. clear -H. induction kvs; simpl in H; done.
Qed.
Lemma dec_i64_keeps : keeps in_i64 dec_i64.
Proof.
  intros v j v' Hv H. destruct j; simpl in H; try done; [by simplify_eq|].
  apply bind_Some in H as (z&_&H). unfold in_i64. destruct (Z.leb_spec (- max_i64 - 1) z), (Z.leb_spec z max_i64); simplify_eq/=; done.
Qed.
Lemma dec_u32_keeps : keeps in_u32 dec_u32.
Proof.
  intros v j v' Hv H. destruct j; simpl in H; try done; [by simplify_eq|].
  apply bind_Some in H as (z&Hz&H). unfold in_u32. destruct (ParseUint64 lit) as [u e] eqn:E.
  apply ok_Some in Hz. simplify_eq. apply ParseUint64_range in E. destruct (Z.leb_spec z max_u32); simplify_eq/=; lia.
Qed.
Lemma dec_ptr_keeps (P : Z -> Prop) zero (d : Dec Z) : P zero -> keeps P d -> keeps (typed_opt P) (dec_ptr zero d).
Proof.
  intros H0 Hd v j v' Hv H. assert (P (default zero v)) as Hp by (destruct v; [by apply Hv|done]).
  destruct j; simpl in H; try (apply fmap_Some in H as (w&Hw&->); intros z [= <-]; by eapply Hd); by simplify_eq.
Qed.
Lemma typed_None P : typed_opt P None.
Proof. done. Qed.
#[local] Hint Resolve typed_None : core.
Lemma field_i64 names name v kvs v' :
  typed_opt in_i64 v -> dec_field names name (dec_ptr 0 dec_i64) v kvs = Some v' -> typed_opt in_i64 v'.
Proof. apply dec_field_keeps, dec_ptr_keeps; [done|apply dec_i64_keeps]. Qed.
Lemma field_u32 names name v kvs v' :
  typed_opt in_u32 v -> dec_field names name (dec_ptr 0 dec_u32) v kvs = Some v' -> typed_opt in_u32 v'.
Proof. apply dec_field_keeps, dec_ptr_keeps; [done|apply dec_u32_keeps]. Qed.

Lemma dec_ipfsFile_keeps : keeps (fun i => typed_opt in_i64 (f_CIDVersion i) /\ typed_opt in_i64 (f_ReprovideIntervalSeconds i) /\
    typed_opt in_i64 (f_FetchTimeoutSeconds i) /\ typed_opt in_i64 (f_IPFSMaxUploadBytes i)) dec_ipfsFile.
Proof.
  intros v j v' (H1&H2&H3&H4) H. destruct j as [| | | | |kvs]; try done; [by injection H as <-|].
  unfold dec_ipfsFile, dec_struct in H. repeat (apply bind_Some in H as (?&?&H)). injection H as <-. cbn. split_and!; (eapply field_i64; [|eassumption]); done.
Qed.
Lemma field_ipfs v kvs v' :
  let P := fun o : option ipfsFileConfig => forall i, o = Some i -> typed_opt in_i64 (f_CIDVersion i) /\
    typed_opt in_i64 (f_ReprovideIntervalSeconds i) /\ typed_opt in_i64 (f_FetchTimeoutSeconds i) /\ typed_opt in_i64 (f_IPFSMaxUploadBytes i) in
  P v -> dec_field fileConfig_names "ipfs" (dec_ptr zero_ipfsFile dec_ipfsFile) v kvs = Some v' -> P v'.
Proof.
  intros P. apply dec_field_keeps. intros o j o' Ho H.
  assert (forall w, dec_ipfsFile (default zero_ipfsFile o) j = Some w -> P (Some w)) as Hd.
  { intros w Hw i [= <-]. eapply dec_ipfsFile_keeps; [|exact Hw]. destruct o; [by apply Ho|done]. }
  destruct j; [by injection H as <-|..]; apply fmap_Some in H as (w&Hw&->); by apply Hd.
Qed.

Lemma unmarshal_typed raw fc : unmarshal zero_fileConfig dec_fileConfig raw = Some fc -> file_typed fc.
Proof.
  intros (j&_&H)%bind_Some. destruct j as [| | | | |kvs]; try done; [injection H as <-; by constructor|].
  unfold dec_fileConfig, dec_struct in H. repeat (apply bind_Some in H as (?&?&H)). injection H as <-.
  constructor; cbn; first [eapply field_i64; [|eassumption]; done|eapply field_u32; [|eassumption]; done|idtac].
  eapply field_ipfs; [|eassumption]. done.
Qed.

Lemma default_typed (P : Z -> Prop) d o : P d -> typed_opt P o -> P (default d o).
Proof. destruct o; simpl; auto. Qed.
Lemma default_i64 d o : in_i64 d -> typed_opt in_i64 o -> in_i64 (default d o).
Proof. apply default_typed. Qed.
Lemma default_u32 d o : in_u32 d -> typed_opt in_u32 o -> in_u32 (default d o).
Proof. apply default_typed. Qed.
Lemma applyDuration_typed d o : in_i64 d -> in_i64 (applyDuration d o).
Proof.
  intros Hd. rewrite applyDuration_default. destruct (o ≫= ParseDuration) as [v|] eqn:E; [|done].
  apply bind_Some in E as (s&_&E). by apply ParseDuration_range in E.
Qed.
Lemma applyEnvDuration_typed env k d : in_i64 d -> in_i64 (applyEnvDuration env k d).
Proof.
  intros Hd. unfold applyEnvDuration. destruct (_ ≫= _) as [v|] eqn:E; [|done].
  apply bind_Some in E as (s&_&E). by apply ParseDuration_range in E.
Qed.
Lemma applyEnvInt64_typed env k d : in_i64 d -> in_i64 (applyEnvInt64 env k d).
Proof.
  intros Hd. unfold applyEnvInt64. destruct (_ ≫= _) as [v|] eqn:E; [|done].
  apply bind_Some in E as (s&_&E%ok_Some). by apply ParseInt64_range in E.
Qed.
Lemma applyEnvInt_typed env k d : in_i64 d -> in_i64 (applyEnvInt env k d).
Proof. apply applyEnvInt64_typed. Qed.
Lemma applyEnvUint32_typed env k d : in_u32 d -> in_u32 (applyEnvUint32 env k d).
Proof.
  intros Hd. unfold applyEnvUint32. destruct (_ ≫= _) as [v|] eqn:E; [|done].
  apply bind_Some in E as (s&_&E%ok_Some). by apply ParseUint32_range in E.
Qed.
Create HintDb typed discriminated.
#[local] Hint Resolve default_i64 default_u32 applyDuration_typed applyEnvDuration_typed applyEnvInt64_typed applyEnvInt_typed applyEnvUint32_typed : typed.

Lemma apply_fileConfig_typed c fc : config_typed c -> file_typed fc -> config_typed (apply_fileConfig c fc).
Proof.
  intros [] []. constructor; cbn; unfold applyInt, applyInt64, applyUint32; auto with typed.
  destruct (f_IPFS fc) as [i|]; [|done]. destruct (ft_IPFS0 i eq_refl) as (?&?&?&?). destruct t_IPFS0. constructor; cbn; unfold applyInt, applyInt64, applyUint32; auto with typed.
Qed.
Lemma applyEnv_typed env c : config_typed c -> config_typed (applyEnv env c).
Proof. intros []. constructor; cbn; unfold applyInt, applyInt64, applyUint32; auto with typed. destruct t_IPFS0. constructor; cbn; unfold applyInt, applyInt64, applyUint32; auto with typed. Qed.
Lemma Normalize_typed i : ipfs_typed i -> ipfs_typed (Normalize i).
Proof. intros []. constructor; cbn [CIDVersion ReprovideIntervalSeconds FetchTimeoutSeconds IPFSMaxUploadBytes Normalize]; try done; by case_match. Qed.
Lemma defaults_typed path : config_typed (with_ConfigFile path defaults).
Proof. by repeat constructor. Qed.

Lemma load_types env fs c : Load env fs = inr c -> config_typed c.
Proof.
  intros [-> _]%Load_inv. unfold config_file.
  set (c0 := match _ with Some fc => apply_fileConfig _ fc | None => _ end).
  assert (config_typed c0) as H0.
  { unfold c0. destruct (fs _); try apply defaults_typed. destruct (unmarshal _ _ _) as [fc|] eqn:E; [|apply defaults_typed].
    apply apply_fileConfig_typed; [apply defaults_typed|]. by eapply unmarshal_typed. }
  apply (applyEnv_typed env) in H0. destruct H0. constructor; try done. by apply Normalize_typed.
Qed.

(** Every number of a loaded configuration fits its Go type, whatever the file and the
    environment hold: a number or a duration that does not fit is refused or ignored, not truncated. *)
Theorem load_typed env fs c : Load env fs = inr c -> config_typed c.
Proof. apply load_types. Qed.

(** ** What the other components rely on *)
Lemma Normalize_idem i : Normalize (Normalize i) = Normalize i.
Proof.
  assert (forall s d : string, d <> ""%string -> (if (if s =@ ""%string then d else s) =@ ""%string then d else (if s =@ ""%string then d else s)) = if s =@ ""%string then d else s) as Hs.
  { intros s d Hd. destruct (bool_decide_reflect (s = ""%string)); [by rewrite bool_decide_false|by rewrite bool_decide_false]. }
  unfold Normalize. cbn [DatastoreType Chunker HashFunction RoutingMode Enabled Root GatewayEnabled GatewayWritable APIEnabled BlockstoreNoSync RawLeaves CIDVersion AutoProvide ReprovideIntervalSeconds FetchTimeoutSeconds AutoPinOnAdd IPFSMaxUploadBytes].
  rewrite !Hs by done. f_equal; match goal with |- context [?b] => idtac end.
  - destruct (CIDVersion i =? 0) eqn:E; [done|by rewrite E].
  - destruct (FetchTimeoutSeconds i <=? 0) eqn:E; [done|by rewrite E].
  - destruct (IPFSMaxUploadBytes i <=? 0) eqn:E; [done|by rewrite E].
Qed.

Lemma Validate_None c :
  Validate c = None ->
  MySQLDSN c <> ""%string /\ Libp2pListenAddrs c <> [] /\ Libp2pProtocolID c <> ""%string /\ NodeKeyPath c <> ""%string /\
  BlobRoot c <> ""%string /\ LogDir c <> ""%string /\ MigrationsDir c <> ""%string /\ HTTPListenAddr c <> ""%string /\
  0 < MaxTextLen c /\ 0 < MaxImagesPerMessage c /\ 0 < MaxFilesPerMessage c /\ 0 < MaxUploadBytes c /\
  DefaultSyncLimit c <> 0 /\ MaxSyncLimit c <> 0 /\ DefaultSyncLimit c <= MaxSyncLimit c.
Proof.
  unfold Validate. intros H.
  repeat match type of H with (if bool_decide ?P then _ else _) = _ => destruct (bool_decide_reflect P); [done|] | (if ?x =? 0 then _ else _) = _ => destruct (Z.eqb_spec x 0) as [|Hl]; [done|] end.
  destruct (Z.leb_spec (MaxTextLen c) 0), (Z.leb_spec (MaxImagesPerMessage c) 0), (Z.leb_spec (MaxFilesPerMessage c) 0), (Z.leb_spec (MaxUploadBytes c) 0); try done.
  destruct (Z.eqb_spec (DefaultSyncLimit c) 0), (Z.eqb_spec (MaxSyncLimit c) 0), (Z.ltb_spec (MaxSyncLimit c) (DefaultSyncLimit c)); try done.
  split_and!; try done. intros E. by rewrite E in Hl.
Qed.

(** A loaded configuration is complete and consistent: the paths, the address lists and the
    protocol id are set, the limits on messages and uploads are positive, 1 <= default sync limit <=
    maximal sync limit <= 2^32-1, and the IPFS section has its defaults (normalising it again changes
    nothing; its time-out and upload limit are positive). *)
Theorem load_valid env fs c :
  Load env fs = inr c ->
  (MySQLDSN c <> "" /\ Libp2pListenAddrs c <> [] /\ Libp2pProtocolID c <> "" /\ NodeKeyPath c <> "" /\
   BlobRoot c <> "" /\ LogDir c <> "" /\ MigrationsDir c <> "" /\ HTTPListenAddr c <> "")%string /\
  (0 < MaxTextLen c /\ 0 < MaxImagesPerMessage c /\ 0 < MaxFilesPerMessage c /\ 0 < MaxUploadBytes c) /\
  (1 <= DefaultSyncLimit c <= MaxSyncLimit c /\ MaxSyncLimit c <= max_u32) /\
  Normalize (IPFS c) = IPFS c /\ 0 < FetchTimeoutSeconds (IPFS c) /\ 0 < IPFSMaxUploadBytes (IPFS c).
Proof.
  intros H. pose proof (t_MaxSyncLimit c (load_types env fs c H)) as [_ Hm]. pose proof (t_DefaultSyncLimit c (load_types env fs c H)) as [Hd _].
  apply Load_inv in H as [Hc Hv]. apply Validate_None in Hv as (?&?&?&?&?&?&?&?&?&?&?&?&?&?&?).
  split_and!; try done; [lia..| | |]; rewrite Hc; cbn [IPFS with_IPFS]; [apply Normalize_idem|..]; cbn [FetchTimeoutSeconds IPFSMaxUploadBytes Normalize];
    match goal with |- context [?x <=? 0] => destruct (Z.leb_spec x 0); first [lia|done] end.
Qed.

(** A file that sets the upload limit and the name of the node, and a
    variable that overrides the name. *)
Definition sample_env (k : string) : string := if k =@ "MESHSERVER_NODE_NAME"%string then " alpha " else "".
Definition sample_fs (p : string) : FileState :=
  if p =@ "docker-compose/data/config/meshserver.json"%string
  then Contents (quoted "{'node_name':'beta', 'max_upload_bytes': 4096, 'read_timeout':'1m30s', 'ipfs':{'Enabled':true}}") else NoFile.
Definition sample_config : Config := Eval vm_compute in match Load sample_env sample_fs with inr c => c | inl _ => defaults end.
Example sample_loads :
  NodeName sample_config = "alpha"%string /\ MaxUploadBytes sample_config = 4096 /\ ReadTimeout sample_config = 90000000000 /\
  Enabled (IPFS sample_config) = true /\ IPFSBaseDir sample_config = "docker-compose/data/ipfs"%string.
Proof. done. Qed.
Lemma sample_load : Load sample_env sample_fs = inr sample_config.
Proof. vm_compute. reflexivity. Qed.

Lemma load_precedence_witness : Load sample_env sample_fs = inr sample_config /\
  Forall (fun s => s_get s sample_config = chosen Some nonempty sample_env (config_file sample_env sample_fs) s) string_settings.
Proof. split; [apply sample_load|]. apply (load_precedence sample_env sample_fs sample_config sample_load). Defined.
Lemma load_typed_witness : Load sample_env sample_fs = inr sample_config /\ config_typed sample_config.
Proof. split; [apply sample_load|]. apply (load_typed sample_env sample_fs sample_config sample_load). Defined.
Lemma load_valid_witness : Load sample_env sample_fs = inr sample_config /\ 0 < MaxTextLen sample_config.
Proof. split; [apply sample_load|]. apply (load_valid sample_env sample_fs sample_config sample_load). Defined.
