(* ===== verification/Jwt.v ===== *)
(** * Access tokens of the HTTP API: [internal/api/jwt.go]

    Signing and parsing belong to golang-jwt and are a parameter; the
    claims, their times, the key and the Authorization header are written
    out.  The dates of a token are whole seconds ([jwt.NewNumericDate]
    truncates). *)
From S2P Require Import Prelude Go Encoding Schema Config Paths Json ConfigLoad.

Record AccessTokenClaims := mkClaims {
  c_UserDBID : Z; c_UserExtID : string; c_PeerID : string;
  c_Subject : string; c_IssuedAt : Z; c_ExpiresAt : Z; c_NotBefore : Z }.

(** [github.com/golang-jwt/jwt/v5]: [NewWithClaims(...).SignedString(key)]
    with the algorithm of the given name, and [ParseWithClaims] with a
    function from the algorithm of the token to the key; its result is the
    claims and [token.Valid] at the time [now] (nanoseconds). *)
Class Jwt := {
  SignedString : string -> string -> AccessTokenClaims -> Err + string;
  ParseWithClaims : (string -> Err + string) -> Z -> string -> Err + AccessTokenClaims * bool }.

(** The characters of a compact token: base64url digits and dots. *)
Definition token_char (a : ascii) : bool :=
  in_range 48 57 a || in_range 65 90 a || in_range 97 122 a || (a =@ byte 45) || (a =@ byte 46) || (a =@ byte 95).

(** What its documentation says of a token signed with HS256 and parsed
    with the same key: between its dates it yields the claims, before and
    after it is refused; its text is a compact token. *)
Class JwtLaws `{Jwt} : Prop := {
  jwt_compact key c t :
    SignedString "HS256" key c = inr t -> t <> ""%string /\ Forall (fun a => token_char a = true) (to_bytes t);
  jwt_accepts key c t keyfunc now :
    SignedString "HS256" key c = inr t -> keyfunc "HS256"%string = inr key ->
    c_NotBefore c * ns_per_s <= now < c_ExpiresAt c * ns_per_s ->
    ParseWithClaims keyfunc now t = inr (c, true);
  jwt_refuses key c t keyfunc now :
    SignedString "HS256" key c = inr t -> keyfunc "HS256"%string = inr key ->
    now < c_NotBefore c * ns_per_s \/ c_ExpiresAt c * ns_per_s <= now ->
    exists e, ParseWithClaims keyfunc now t = inl e }.

(** [strings.SplitN(s, " ", 2)] *)
Fixpoint split_first_space (l : bytes) : list bytes :=
  match l with
  | [] => [[]]
  | a :: l' => if a =@ byte 32 then [[]; l']
               else match split_first_space l' with s :: r => (a :: s) :: r | [] => [[a]] end
  end.

(** The contents of the node key file, if it can be read. *)
Definition ResolveHTTPJWTSecret (cfg : Config) (node_key : Err + string) : Err + string :=
  let s := TrimSpace (HTTPJWTSecret cfg) in
  if negb (s =@ ""%string) then inr s
  else match node_key with
       | inl e => inl (wrap "http jwt secret: set MESHSERVER_HTTP_JWT_SECRET or readable MESHSERVER_NODE_KEY_PATH" e)
       | inr raw => inr (Sha256.Sum256 raw)
       end.

Section jwt.
Context `{Jwt}.

(** Returns the token and its expiry in nanoseconds. *)
Definition SignHTTPAccessToken (secret : string) (user : User) (ttl now : Z) : Err + string * Z :=
  let ttl := if ttl <=? 0 then 24 * 60 * minute else ttl in
  let expiresAt := now + ttl in
  let claims := {| c_UserDBID := UserDBID user; c_UserExtID := UserID user; c_PeerID := PeerID user;
                   c_Subject := UserID user; c_IssuedAt := now / ns_per_s; c_ExpiresAt := expiresAt / ns_per_s;
                   c_NotBefore := now / ns_per_s |} in
  match SignedString "HS256" secret claims with
  | inl e => inl e
  | inr token => inr (token, expiresAt)
  end.

Definition keyfunc (secret alg : string) : Err + string :=
  if negb (alg =@ "HS256"%string) then inl (Errorf ("unexpected signing method " +:+ alg)) else inr secret.

Definition ParseHTTPAccessToken (secret tokenString : string) (now : Z) : Err + AccessTokenClaims :=
  match ParseWithClaims (keyfunc secret) now tokenString with
  | inl e => inl e
  | inr (claims, valid) => if negb valid then inl (Errorf "invalid token") else inr claims
  end.

(** The value of the Authorization header. *)
Definition ParseBearerAuthorization (authorization : string) : Err + string :=
  let h := TrimSpace authorization in
  if h =@ ""%string then inl (Errorf "missing authorization header")
  else match split_first_space (to_bytes h) with
       | [scheme; rest] =>
         if negb (fold_name scheme =@ fold_key "Bearer") then inl (Errorf "expected Bearer token")
         else let tok := TrimSpace (of_bytes rest) in
              if tok =@ ""%string then inl (Errorf "empty bearer token") else inr tok
       | _ => inl (Errorf "expected Bearer token")
       end.

Definition ClaimsFromHTTPRequest (authorization secret : string) (now : Z) : Err + AccessTokenClaims :=
  match ParseBearerAuthorization authorization with
  | inl e => inl e
  | inr raw => ParseHTTPAccessToken secret raw now
  end.
End jwt.

(** ** The header of a token *)
Lemma no_space_head encs a l :
  Forall (fun e => match e with b :: _ => token_char b = false | [] => False end) encs ->
  token_char a = true -> strip_any encs (a :: l) = None.
Proof.
  intros He Ha. apply strip_any_None. intros e l' Hin. rewrite Forall_forall in He. specialize (He e Hin).
  destruct e as [|b e]; [done|]. intros [= -> _]. congruence.
Qed.
Lemma spaces_heads : Forall (fun e => match e with b :: _ => token_char b = false | [] => False end) spaces.
Proof. by repeat constructor. Qed.
Lemma spaces_tails : Forall (fun e => match e with b :: _ => token_char b = false | [] => False end) (reverse <$> spaces).
Proof. by repeat constructor. Qed.

(** Text that begins and ends with a character of a token has nothing to trim. *)
Lemma TrimSpace_token a l : token_char a = true -> (forall b, last (a :: l) = Some b -> token_char b = true) ->
  TrimSpace (of_bytes (a :: l)) = of_bytes (a :: l).
Proof.
  intros Ha Hl. unfold TrimSpace. rewrite to_of_bytes.
  rewrite (trim_bytes_id spaces) by (apply no_space_head; [apply spaces_heads|done]).
  unfold trim_right_bytes. destruct (reverse (a :: l)) as [|b l'] eqn:E.
  { apply (f_equal length) in E. rewrite length_reverse in E. done. }
  rewrite trim_bytes_id; [by rewrite <- E, reverse_involutive|].
  apply no_space_head; [apply spaces_tails|]. apply Hl.
  rewrite <- (reverse_involutive (a :: l)), E, reverse_cons, last_snoc. done.
Qed.
Lemma split_first_space_app s l : byte 32 ∉ s -> split_first_space (s ++ byte 32 :: l) = [s; l].
Proof.
  induction s as [|a s IH]; intros Hs; cbn [split_first_space app]; [done|].
  rewrite not_elem_of_cons in Hs. destruct Hs as [Ha Hs]. rewrite bool_decide_false by congruence. by rewrite IH.
Qed.

Definition bearer (token : string) : string := "Bearer " +:+ token.
Lemma to_bytes_app s t : to_bytes (s +:+ t) = to_bytes s ++ to_bytes t.
Proof. induction s as [|a s IH]; [done|]. simpl. by f_equal. Qed.

Lemma ParseBearer_token t :
  t <> ""%string -> Forall (fun a => token_char a = true) (to_bytes t) -> ParseBearerAuthorization (bearer t) = inr t.
Proof.
  intros Hne Ht. unfold ParseBearerAuthorization.
  assert (to_bytes (bearer t) = to_bytes "Bearer" ++ byte 32 :: to_bytes t) as E by (unfold bearer; by rewrite to_bytes_app).
  destruct (to_bytes t) as [|x l] eqn:Et. { destruct Hne. by rewrite <- (of_to_bytes t), Et. }
  assert (TrimSpace (bearer t) = bearer t) as ->.
  { rewrite <- (of_to_bytes (bearer t)), E. apply TrimSpace_token; [done|]. intros b Hb.
    rewrite Forall_forall in Ht. apply Ht. change (last (to_bytes "Bearer " ++ x :: l) = Some b) in Hb.
    rewrite last_app_cons in Hb. by apply last_Some_elem_of in Hb. }
  rewrite E, split_first_space_app by (by apply (bool_decide_unpack _)).
  rewrite bool_decide_false by done. cbn zeta. rewrite (bool_decide_true (fold_name _ = _)) by done. cbn [negb].
  assert (of_bytes (x :: l) = t) as Eo by (by rewrite <- Et, of_to_bytes).
  rewrite TrimSpace_token, Eo.
  - by rewrite bool_decide_false.
  - by apply Forall_cons in Ht as [? _].
  - intros b Hb. rewrite Forall_forall in Ht. apply Ht. by apply last_Some_elem_of in Hb.
Qed.

Example bearer_ex :
  ParseBearerAuthorization " bearer   abc " = inr "abc"%string /\
  ParseBearerAuthorization "Basic abc" = inl (Errorf "expected Bearer token") /\
  ParseBearerAuthorization "Bearer" = inl (Errorf "expected Bearer token").
Proof. vm_compute. done. Qed.
