(* ===== verification/HttpReq.v ===== *)
(** * Requests, responses and request bodies of the HTTP API

    What the handlers of [internal/api] read of a request and write to a
    response, the JSON bodies they decode, and the routing of [ServeMux].
    The payload of a response is the value given to [writeJSON]. *)
From S2P Require Import Prelude Go Encoding Schema Strconv Paths Json SpaceRepo UserRepo MessageRepo BlobRepo Auth Media Proto.
From S2P Require Import Codec Session Jwt.
Import sessionv1.

(** ** Requests *)
(** The uploaded file of a multipart form, with the result of reading it. *)
Record FilePart := mkFilePart { fp_Filename : string; fp_ContentType : string; fp_Content : Err + string }.
Record Multipart := mkMultipart { mp_File : option FilePart; mp_Values : list (string * string) }.

(** [r_Body] is the body, or the error of reading it; [r_Form] is the form,
    if [ParseMultipartForm] succeeds; [r_LimitedForm] is what it gives when the
    body is cut by [http.MaxBytesReader] at a limit. *)
Inductive FormError := FormTooLarge | FormInvalid.
Record Request := mkRequest {
  r_Method : string; r_EscapedPath : string; r_Query : list (string * string); r_Authorization : string;
  r_Body : Err + string; r_Form : option Multipart; r_LimitedForm : Z -> FormError + Multipart; r_ContentLength : Z }.

(** [url.Values.Get] *)
Definition get_first (key : string) (kvs : list (string * string)) : string :=
  match list_find (fun kv => kv.1 = key) kvs with Some (_, kv) => kv.2 | None => "" end.
Definition QueryGet (r : Request) (key : string) : string := get_first key (r_Query r).
(** [r.FormValue] after [ParseMultipartForm]: the query comes first. *)
Definition FormValue (r : Request) (form : Multipart) (key : string) : string :=
  get_first key (r_Query r ++ mp_Values form).

(** ** Responses *)
Inductive Payload :=
| PError (message : string)
| PChallenge (protocolID : string) (node nonce : string) (issued expires : Z)
| PToken (token : string) (expires_in expires_at : Z) (user : User)
| PUser (u : User)
| PSpaces (l : list SpaceSummary)
| PChannels (spaceID : Z) (l : list ChannelSummary)
| PJoined (spaceID : Z) (space : SpaceSummary)
| PMembers (r : ListSpaceMembersResp)
| PMedia (r : GetMediaResp)
| PUploaded (obj : MediaObject) (kind : Kind)
| PStored (m : Message) (server_time_ms : Z)
| PSynced (channelID : Z) (l : list MessageEvent) (next : Z) (more : bool)
| PCreateSpace (r : CreateSpaceResp)
| PCreateSpacePermissions (r : GetCreateSpacePermissionsResp)
| PCreateGroupPermissions (r : GetCreateGroupPermissionsResp)
| PSetRole (r : AdminSetSpaceMemberRoleResp)
| PSetChannelCreation (r : AdminSetSpaceChannelCreationResp)
| PSetAutoDelete (r : AdminSetGroupAutoDeleteResp)
| PInvite (r : InviteSpaceMemberResp)
| PKick (r : KickSpaceMemberResp)
| PBan (r : BanSpaceMemberResp)
| PUnban (r : UnbanSpaceMemberResp)
| PCreateGroup (r : CreateGroupResp)
| PCreateChannel (r : CreateChannelResp)
| POk
| PStatus (status : string)
| PVersion (version : string)
| PConfig
| PUpgrade (claims : AccessTokenClaims)   (** the connection becomes a WebSocket *)
| PFile (path : string)                   (** [http.ServeFile] of the path *)
| PText (text : string)                   (** [http.Error], [http.NotFound] *)
| PRedirect (path : string)               (** the redirect of [ServeMux] *)
| PPanic.                                 (** the handler panics and the connection is dropped *)
Record Response := mkResponse { status : Z; payload : Payload }.
Definition writeJSON (code : Z) (p : Payload) : Response := mkResponse code p.
Definition writeJSONError (code : Z) (message : string) : Response := writeJSON code (PError message).

(** ** Request bodies *)
Record authChallengeReq := mkAuthChallengeReq { acr_ClientPeerID : string }.
Record authVerifyReq := mkAuthVerifyReq {
  avr_ClientPeerID : string; avr_NodePeerID : string; avr_Nonce : string; avr_IssuedAtMs : Z; avr_ExpiresAtMs : Z;
  avr_Signature : string; avr_PublicKey : string }.
Definition dec_authChallengeReq : Dec authChallengeReq := dec_struct (fun old kvs =>
  v ← dec_field ["client_peer_id"%string] "client_peer_id" dec_string (acr_ClientPeerID old) kvs; Some (mkAuthChallengeReq v)).
Definition authVerify_names : list string :=
  ["client_peer_id"; "node_peer_id"; "nonce"; "issued_at_ms"; "expires_at_ms"; "signature"; "public_key"]%string.
Definition dec_authVerifyReq : Dec authVerifyReq := dec_struct (fun old kvs =>
  v0 ← dec_field authVerify_names "client_peer_id" dec_string (avr_ClientPeerID old) kvs;
  v1 ← dec_field authVerify_names "node_peer_id" dec_string (avr_NodePeerID old) kvs;
  v2 ← dec_field authVerify_names "nonce" dec_string (avr_Nonce old) kvs;
  v3 ← dec_field authVerify_names "issued_at_ms" dec_u64 (avr_IssuedAtMs old) kvs;
  v4 ← dec_field authVerify_names "expires_at_ms" dec_u64 (avr_ExpiresAtMs old) kvs;
  v5 ← dec_field authVerify_names "signature" dec_string (avr_Signature old) kvs;
  v6 ← dec_field authVerify_names "public_key" dec_string (avr_PublicKey old) kvs;
  Some (mkAuthVerifyReq v0 v1 v2 v3 v4 v5 v6)).

(** A body with one field. *)
Definition dec_single {T} (name : string) (d : Dec T) : Dec T := dec_struct (fun old kvs => dec_field [name] name d old kvs).
Definition targetUserIDBody : Dec string := dec_single "target_user_id" dec_string.
Definition allowChannelCreationBody : Dec bool := dec_single "allow_channel_creation" dec_bool.
Definition autoDeleteBody : Dec Z := dec_single "auto_delete_after_seconds" dec_u32.
Definition memberRoleBody : Dec Z := dec_single "role" dec_i32.
Definition deliverAckBody : Dec Z := dec_single "acked_seq" dec_u64.
Definition readUpdateBody : Dec Z := dec_single "last_read_seq" dec_u64.

Definition createSpace_names : list string := ["name"; "description"; "visibility"; "allow_channel_creation"]%string.
Definition dec_CreateSpaceReq : Dec CreateSpaceReq := dec_struct (fun old kvs =>
  v0 ← dec_field createSpace_names "name" dec_string (CreateSpaceReq_Name old) kvs;
  v1 ← dec_field createSpace_names "description" dec_string (CreateSpaceReq_Description old) kvs;
  v2 ← dec_field createSpace_names "visibility" dec_i32 (CreateSpaceReq_Visibility old) kvs;
  v3 ← dec_field createSpace_names "allow_channel_creation" dec_bool (CreateSpaceReq_AllowChannelCreation old) kvs;
  Some (mkCreateSpaceReq v0 v1 v2 v3)).
Definition createChannel_names : list string := ["space_id"; "name"; "description"; "visibility"; "slow_mode_seconds"]%string.
Definition dec_CreateGroupReq : Dec CreateGroupReq := dec_struct (fun old kvs =>
  v0 ← dec_field createChannel_names "space_id" dec_u32 (CreateGroupReq_SpaceId old) kvs;
  v1 ← dec_field createChannel_names "name" dec_string (CreateGroupReq_Name old) kvs;
  v2 ← dec_field createChannel_names "description" dec_string (CreateGroupReq_Description old) kvs;
  v3 ← dec_field createChannel_names "visibility" dec_i32 (CreateGroupReq_Visibility old) kvs;
  v4 ← dec_field createChannel_names "slow_mode_seconds" dec_u32 (CreateGroupReq_SlowModeSeconds old) kvs;
  Some (mkCreateGroupReq v0 v1 v2 v3 v4)).
Definition dec_CreateChannelReq : Dec CreateChannelReq := dec_struct (fun old kvs =>
  v0 ← dec_field createChannel_names "space_id" dec_u32 (CreateChannelReq_SpaceId old) kvs;
  v1 ← dec_field createChannel_names "name" dec_string (CreateChannelReq_Name old) kvs;
  v2 ← dec_field createChannel_names "description" dec_string (CreateChannelReq_Description old) kvs;
  v3 ← dec_field createChannel_names "visibility" dec_i32 (CreateChannelReq_Visibility old) kvs;
  v4 ← dec_field createChannel_names "slow_mode_seconds" dec_u32 (CreateChannelReq_SlowModeSeconds old) kvs;
  Some (mkCreateChannelReq v0 v1 v2 v3 v4)).

Definition zero_MediaImage : MediaImage := mkMediaImage "" "" "" "" 0 0 "" 0 "" "".
Definition zero_MediaFile : MediaFile := mkMediaFile "" "" "" "" "" "" 0 "" "".
Definition mediaImage_names : list string :=
  ["media_id"; "blob_id"; "sha256"; "url"; "width"; "height"; "mime_type"; "size"; "inline_data"; "original_name"]%string.
Definition dec_MediaImage : Dec MediaImage := dec_struct (fun old kvs =>
  v0 ← dec_field mediaImage_names "media_id" dec_string (MediaImage_MediaId old) kvs;
  v1 ← dec_field mediaImage_names "blob_id" dec_string (MediaImage_BlobId old) kvs;
  v2 ← dec_field mediaImage_names "sha256" dec_string (MediaImage_Sha256 old) kvs;
  v3 ← dec_field mediaImage_names "url" dec_string (MediaImage_Url old) kvs;
  v4 ← dec_field mediaImage_names "width" dec_u32 (MediaImage_Width old) kvs;
  v5 ← dec_field mediaImage_names "height" dec_u32 (MediaImage_Height old) kvs;
  v6 ← dec_field mediaImage_names "mime_type" dec_string (MediaImage_MimeType old) kvs;
  v7 ← dec_field mediaImage_names "size" dec_u64 (MediaImage_Size old) kvs;
  v8 ← dec_field mediaImage_names "inline_data" dec_bytes (MediaImage_InlineData old) kvs;
  v9 ← dec_field mediaImage_names "original_name" dec_string (MediaImage_OriginalName old) kvs;
  Some (mkMediaImage v0 v1 v2 v3 v4 v5 v6 v7 v8 v9)).
Definition mediaFile_names : list string :=
  ["media_id"; "blob_id"; "sha256"; "file_name"; "url"; "mime_type"; "size"; "inline_data"; "file_cid"]%string.
Definition dec_MediaFile : Dec MediaFile := dec_struct (fun old kvs =>
  v0 ← dec_field mediaFile_names "media_id" dec_string (MediaFile_MediaId old) kvs;
  v1 ← dec_field mediaFile_names "blob_id" dec_string (MediaFile_BlobId old) kvs;
  v2 ← dec_field mediaFile_names "sha256" dec_string (MediaFile_Sha256 old) kvs;
  v3 ← dec_field mediaFile_names "file_name" dec_string (MediaFile_FileName old) kvs;
  v4 ← dec_field mediaFile_names "url" dec_string (MediaFile_Url old) kvs;
  v5 ← dec_field mediaFile_names "mime_type" dec_string (MediaFile_MimeType old) kvs;
  v6 ← dec_field mediaFile_names "size" dec_u64 (MediaFile_Size old) kvs;
  v7 ← dec_field mediaFile_names "inline_data" dec_bytes (MediaFile_InlineData old) kvs;
  v8 ← dec_field mediaFile_names "file_cid" dec_string (MediaFile_FileCid old) kvs;
  Some (mkMediaFile v0 v1 v2 v3 v4 v5 v6 v7 v8)).

(** The content of a message with its pointers: an attachment may be [null]. *)
Record JsonContent := mkJsonContent { jc_Images : list (option MediaImage); jc_Files : list (option MediaFile); jc_Text : string }.
Definition zero_JsonContent : JsonContent := mkJsonContent [] [] "".
Definition content_names : list string := ["images"; "files"; "text"]%string.
Definition dec_MessageContent : Dec JsonContent := dec_struct (fun old kvs =>
  v0 ← dec_field content_names "images" (dec_list None (dec_ptr zero_MediaImage dec_MediaImage)) (jc_Images old) kvs;
  v1 ← dec_field content_names "files" (dec_list None (dec_ptr zero_MediaFile dec_MediaFile)) (jc_Files old) kvs;
  v2 ← dec_field content_names "text" dec_string (jc_Text old) kvs;
  Some (mkJsonContent v0 v1 v2)).
Record sendMessageHTTPBody := mkSendMessageHTTPBody {
  smb_ClientMsgID : string; smb_MessageType : Z; smb_Content : option JsonContent }.
Definition sendMessage_names : list string := ["client_msg_id"; "message_type"; "content"]%string.
Definition dec_sendMessageHTTPBody : Dec sendMessageHTTPBody := dec_struct (fun old kvs =>
  v0 ← dec_field sendMessage_names "client_msg_id" dec_string (smb_ClientMsgID old) kvs;
  v1 ← dec_field sendMessage_names "message_type" dec_i32 (smb_MessageType old) kvs;
  v2 ← dec_field sendMessage_names "content" (dec_ptr zero_JsonContent dec_MessageContent) (smb_Content old) kvs;
  Some (mkSendMessageHTTPBody v0 v1 v2)).

(** The content without pointers; [None] where the code would follow a nil one. *)
Definition deref_content (c : JsonContent) : option MessageContent :=
  images ← mapM id (jc_Images c); files ← mapM id (jc_Files c); Some (mkMessageContent images files (jc_Text c)).

(** ** [ServeMux] *)
Inductive PSeg := Lit (s : string) | Wild (name : string).
Fixpoint match_pattern (p : list PSeg) (segs : list string) : option (list (string * string)) :=
  match p, segs with
  | [], [] => Some []
  | Lit s :: p, x :: segs => if s =@ x then match_pattern p segs else None
  | Wild n :: p, x :: segs => if x =@ ""%string then None else m ← match_pattern p segs; Some ((n, x) :: m)
  | _, _ => None
  end.

(** [url.PathUnescape] of a valid escaped path *)
Fixpoint unescape (l : bytes) : bytes :=
  match l with
  | [] => []
  | a :: l1 =>
    match l1 with
    | b :: c :: l3 => if a =@ byte 37 then
                        match hex_value b, hex_value c with
                        | Some x, Some y => byte_of_Z (x * 16 + y) :: unescape l3
                        | _, _ => a :: unescape l1
                        end
                      else a :: unescape l1
    | _ => a :: unescape l1
    end
  end.
(** [r.URL.Path] *)
Definition URLPath (r : Request) : string := of_bytes (unescape (to_bytes (r_EscapedPath r))).

(** [net/http.cleanPath] *)
Definition cleanPath (l : bytes) : bytes :=
  if l =@ [] then [sep]
  else let l := if is_abs l then l else sep :: l in
       let np := clean_bytes l in
       if (last l =@ Some sep) && negb (np =@ [sep]) then np ++ [sep] else np.

(** The segments of a path after its first slash, each unescaped. *)
Definition elems (path : bytes) : list string := (fun s => of_bytes (unescape s)) <$> split_on sep (drop 1 path).
Definition path_elems (r : Request) : list string := elems (to_bytes (r_EscapedPath r)).

(** A pattern without a method serves every method, GET serves HEAD too. *)
Definition method_matches (pattern : option string) (m : string) : bool :=
  match pattern with
  | None => true
  | Some p => (p =@ m) || ((p =@ "GET"%string) && (m =@ "HEAD"%string))
  end.

Example match_ex :
  match_pattern [Lit "v1"; Lit "spaces"; Wild "space_id"; Lit "join"] ["v1"; "spaces"; "7"; "join"]%string = Some [("space_id", "7")]%string.
Proof. done. Qed.
