(* ===== verification/Pins.v ===== *)
(** * The pin file: [internal/ipfspin/pin.go]

    The pinned CIDs (given by their [String()]) are kept in memory and written
    to pins.json: to a temporary file that is then renamed.  Both steps may
    fail; a failing write leaves a part of the text in the temporary file. *)
From S2P Require Import Prelude Go Encoding Strconv Paths Json Store.

(** A Go slice of strings: [None] is nil. *)
Abbreviation slice := (option (list string)).
Record pinFile := mkPinFile { pf_Recursive : slice; pf_Direct : slice }.
Definition empty_pins : pinFile := mkPinFile (Some []) (Some []).

(** ** [encoding/json] *)
Definition dec_slice : Dec slice := fun old j =>
  match j with
  | JNull => Some None
  | _ => Some <$> dec_list "" dec_string (default [] old) j
  end.
Definition pin_names : list string := ["recursive"; "direct"]%string.
Definition dec_pinFile : Dec pinFile := dec_struct (fun old kvs =>
  v0 ← dec_field pin_names "recursive" dec_slice (pf_Recursive old) kvs;
  v1 ← dec_field pin_names "direct" dec_slice (pf_Direct old) kvs;
  Some (mkPinFile v0 v1)).

Definition dquote : ascii := byte 34.
Definition hex2 (n : nat) : bytes := [hex_digit (n / 16); hex_digit (n mod 16)].
(** One ASCII character in a string, with the HTML escapes. *)
Definition escape_ascii (a : ascii) : bytes :=
  if (a =@ dquote) || (a =@ byte 92) then [byte 92; a]
  else if a =@ byte 8 then to_bytes "\b"
  else if a =@ byte 12 then to_bytes "\f"
  else if a =@ byte 10 then to_bytes "\n"
  else if a =@ byte 13 then to_bytes "\r"
  else if a =@ byte 9 then to_bytes "\t"
  else if in_range 0 31 a || (a =@ byte 60) || (a =@ byte 62) || (a =@ byte 38)
       then to_bytes "\u00" ++ hex2 (Ascii.nat_of_ascii a)
  else [a].
Fixpoint escape (fuel : nat) (l : bytes) : bytes :=
  match fuel, l with
  | S fuel, a :: l' =>
    if in_range 0 127 a then escape_ascii a ++ escape fuel l'
    else let w := rune_width l in
         (if (w =? 1)%nat then to_bytes "\ufffd"
          else if take w l =@ (byte <$> [226; 128; 168]%nat) then to_bytes "\u2028"
          else if take w l =@ (byte <$> [226; 128; 169]%nat) then to_bytes "\u2029"
          else take w l) ++ escape fuel (drop w l)
  | _, _ => []
  end.
Definition enc_string (s : string) : bytes := dquote :: escape (length (to_bytes s)) (to_bytes s) ++ [dquote].

Definition newline (indent : nat) : bytes := byte 10 :: repeat (byte 32) indent.
(** The elements of a non-empty array at the given indentation, and its end. *)
Fixpoint enc_elems (indent : nat) (l : list string) : bytes :=
  match l with
  | [] => []
  | [s] => newline (indent + 2) ++ enc_string s ++ newline indent ++ [byte 93]
  | s :: l => newline (indent + 2) ++ enc_string s ++ byte 44 :: enc_elems indent l
  end.
Definition enc_slice (indent : nat) (s : slice) : bytes :=
  match s with
  | None => to_bytes "null"
  | Some [] => to_bytes "[]"
  | Some l => byte 91 :: enc_elems indent l
  end.
(** [json.MarshalIndent(&data, "", "  ")] *)
Definition MarshalIndent (d : pinFile) : string :=
  of_bytes (byte 123 :: newline 2 ++ enc_string "recursive" ++ to_bytes ": " ++ enc_slice 2 (pf_Recursive d) ++
            byte 44 :: newline 2 ++ enc_string "direct" ++ to_bytes ": " ++ enc_slice 2 (pf_Direct d) ++ newline 0 ++ [byte 125]).

(** ** The store *)
(** The store, the files by path, and the outcomes of the next file operations
    (true: it fails) with how much a failing write leaves. *)
Record FileStore := mkFileStore {
  p_path : string; p_data : pinFile; p_files : gmap string string; p_faults : list bool; p_short : nat }.
Definition set_data d s := mkFileStore (p_path s) d (p_files s) (p_faults s) (p_short s).
Definition next_fault s : bool := default false (head (p_faults s)).
Definition after_op files s := mkFileStore (p_path s) (p_data s) files (tail (p_faults s)) (p_short s).

Definition WriteFile (path content : string) : SE FileStore unit := fun s =>
  if next_fault s then (after_op (<[path := of_bytes (take (p_short s) (to_bytes content))]> (p_files s)) s, inl ErrDriver)
  else (after_op (<[path := content]> (p_files s)) s, inr tt).
Definition Rename (from to : string) : SE FileStore unit := fun s =>
  match next_fault s, p_files s !! from with
  | false, Some c => (after_op (<[to := c]> (delete from (p_files s))) s, inr tt)
  | _, _ => (after_op (p_files s) s, inl ErrDriver)
  end.

(** What [os.ReadFile] finds; [Unreadable] is an error other than that the file is not there. *)
Inductive ReadResult := NotExist | Unreadable (e : Err) | Content (s : string).
Definition NewFileStore (mkdir : Err + unit) (f : ReadResult) : Err + pinFile :=
  match mkdir, f with
  | inl e, _ => inl e
  | _, NotExist => inr empty_pins
  | _, Unreadable e => inl e
  | _, Content s => if strlen s =? 0 then inr empty_pins
                    else match unmarshal empty_pins dec_pinFile s with
                         | Some d => inr d
                         | None => inl (Errorf "parse pins file")
                         end
  end.

Definition persistLocked : SE FileStore unit := fun s =>
  let tmp := p_path s +:+ ".tmp" in
  (_ ← WriteFile tmp (MarshalIndent (p_data s)); Rename tmp (p_path s)) s.

Definition recursive (s : FileStore) : list string := default [] (pf_Recursive (p_data s)).
Definition set_recursive (l : slice) (s : FileStore) : FileStore := set_data (mkPinFile l (pf_Direct (p_data s))) s.

Definition PinRecursive (c : string) : SE FileStore unit := fun s =>
  if decide (c ∈ recursive s) then persistLocked s
  else persistLocked (set_recursive (Some (recursive s ++ [c])) s).
Definition UnpinRecursive (c : string) : SE FileStore unit := fun s =>
  persistLocked (set_recursive (filter (fun x => x <> c) <$> pf_Recursive (p_data s)) s).
Definition IsPinnedRecursive (c : string) (s : FileStore) : bool := bool_decide (c ∈ recursive s).

Example MarshalIndent_ex :
  unmarshal empty_pins dec_pinFile (MarshalIndent (mkPinFile (Some ["bafy"; "Qm<"]%string) None)) = Some (mkPinFile (Some ["bafy"; "Qm<"]%string) None).
Proof. vm_compute. reflexivity. Qed.
