(* ===== verification/PinThms.v ===== *)
(** * Properties of the pin file

    What is written is read back; a failing write or rename leaves the last
    pins that were written. *)
From S2P Require Import Prelude Go Encoding Strconv Paths Json Store Jwt Pins.

(** ** Texts without escapes *)
Definition plain_char (a : ascii) : bool :=
  in_range 32 126 a && negb (bool_decide (a ∈ (byte <$> [34; 92; 60; 62; 38]%nat))).
Definition plain_text (s : string) : Prop := Forall (fun a => plain_char a = true) (to_bytes s).

Lemma plain_char_facts a : plain_char a = true ->
  escape_ascii a = [a] /\ in_range 0 127 a = true /\ in_range 0 31 a = false /\ a <> dquote /\ a <> byte 92 /\
  (forall l, rune_width (a :: l) = 1%nat) /\ in_range 128 255 a = false.
Proof. destruct a as [[] [] [] [] [] [] [] []]; intros H; try done; (split_and!; try done; by intros [|? [|? [|? ?]]]). Qed.

Lemma escape_plain l : Forall (fun a => plain_char a = true) l -> escape (length l) l = l.
Proof.
  induction 1 as [|a l Ha Hl IH]; [done|]. destruct (plain_char_facts a Ha) as (E&H1&_). cbn [escape length]. by rewrite H1, E, IH.
Qed.
Lemma parse_chars_plain f l r :
  Forall (fun a => plain_char a = true) l -> (length l < f)%nat -> parse_chars f (l ++ dquote :: r) = Some (l, r).
Proof.
  intros Hl. revert f. induction Hl as [|a l Ha Hl IH]; intros [|f] Hf; try (simpl in Hf; lia); [done|].
  destruct (plain_char_facts a Ha) as (_&_&H0&Hq&Hb&Hw&Hx). cbn [parse_chars app].
  rewrite (bool_decide_false (a = byte 34)), (bool_decide_false (a = byte 92)), H0 by done. cbv zeta. rewrite Hw, Hx. cbn [andb Nat.eqb drop take].
  rewrite IH by (simpl in Hf; lia). done.
Qed.
Lemma parse_string_plain s r : plain_text s -> parse_string (to_bytes s ++ dquote :: r) = Some (s, r).
Proof.
  intros Hs. unfold parse_string. rewrite parse_chars_plain; [|done|rewrite length_app; simpl; lia]. cbn. by rewrite of_to_bytes.
Qed.
Lemma enc_string_plain s : plain_text s -> enc_string s = dquote :: to_bytes s ++ [dquote].
Proof. intros Hs. unfold enc_string. by rewrite escape_plain. Qed.
Lemma skip_newline n l : skip_ws (newline n ++ l) = skip_ws l.
Proof. unfold newline. cbn. induction n as [|n IH]; [done|]. done. Qed.

Lemma parse_value_string f d n s r : plain_text s -> parse_value (S f) d (newline n ++ enc_string s ++ r) = Some (JString s, r).
Proof.
  intros Hs. cbn [parse_value]. rewrite skip_newline, enc_string_plain by done. cbn [app skip_ws].
  change (is_ws dquote) with false. cbv iota. rewrite (bool_decide_true (dquote = byte 34)) by done.
  rewrite <- app_assoc. cbn [app]. by rewrite parse_string_plain.
Qed.

Lemma parse_elems_enc n d l r f :
  l <> [] -> Forall plain_text l -> (length l < f)%nat -> parse_elems f d (enc_elems n l ++ r) = Some (JString <$> l, r).
Proof.
  intros Hne Hl. revert f. induction Hl as [|s l Hs Hl IH]; [done|]. intros [|[|f]] Hf; try (simpl in Hf; lia).
  destruct l as [|s' l].
  - cbn [enc_elems]. rewrite <- !app_assoc. cbn [parse_elems]. rewrite parse_value_string by done. cbn [mbind option_bind].
    rewrite skip_newline. done.
  - change (enc_elems n (s :: s' :: l)) with (newline (n + 2) ++ enc_string s ++ byte 44 :: enc_elems n (s' :: l)).
    rewrite <- !app_assoc. remember (S f) as f1. cbn [parse_elems]. rewrite Heqf1 at 1. rewrite parse_value_string by done. cbn [mbind option_bind app skip_ws].
    change (is_ws (byte 44)) with false. cbv iota. rewrite (bool_decide_false (byte 44 = byte 93)), (bool_decide_true (byte 44 = byte 44)) by done.
    rewrite IH by (done || simpl in *; lia). done.
Qed.

Definition json_of (s : slice) : Json := match s with None => JNull | Some l => JArray (JString <$> l) end.
Definition plain_slice (s : slice) : Prop := Forall plain_text (default [] s).
Definition slice_size (s : slice) : nat := length (default [] s).

Lemma parse_value_slice n d s r f :
  plain_slice s -> (slice_size s + 2 < f)%nat -> d < max_nesting ->
  parse_value f d (byte 32 :: enc_slice n s ++ r) = Some (json_of s, r).
Proof.
  intros Hs Hf Hd. destruct f as [|f]; [lia|]. assert (max_nesting <=? d = false) as Hn by (apply Z.leb_gt; lia).
  destruct s as [[|x l]|]; [cbn; by rewrite Hn| |done]. unfold plain_slice, slice_size in *. simpl in Hs, Hf.
  cbn [parse_value enc_slice skip_ws app]. change (is_ws (byte 32)) with true. change (is_ws (byte 91)) with false. cbv iota.
  rewrite (bool_decide_false (byte 91 = byte 34)), (bool_decide_false (byte 91 = byte 123)), (bool_decide_true (byte 91 = byte 91)), Hn by done.
  assert (exists y, skip_ws (enc_elems n (x :: l) ++ r) = dquote :: y) as [y ->].
  { destruct l; cbn [enc_elems]; rewrite <- !app_assoc, skip_newline; unfold enc_string; cbn; eauto. }
  rewrite (bool_decide_false (dquote = byte 93)) by done. rewrite parse_elems_enc by (done || simpl; lia). done.
Qed.

Lemma enc_elems_length n l : (length l <= length (enc_elems n l))%nat.
Proof.
  induction l as [|s [|s' l] IH]; [done|..]; [simpl; rewrite length_app; simpl; lia|].
  change (enc_elems n (s :: s' :: l)) with (newline (n + 2) ++ enc_string s ++ byte 44 :: enc_elems n (s' :: l)).
  rewrite !length_app. cbn [length] in *. lia.
Qed.
Lemma enc_slice_length n s : (slice_size s <= length (enc_slice n s))%nat.
Proof. destruct s as [[|x l]|]; [apply Nat.le_0_l| |apply Nat.le_0_l]. unfold slice_size. cbn [enc_slice default length]. pose proof (enc_elems_length n (x :: l)). simpl in *. lia. Qed.

Lemma parse_pins d : plain_slice (pf_Recursive d) -> plain_slice (pf_Direct d) ->
  json_parse (MarshalIndent d) = Some (JObject [("recursive"%string, json_of (pf_Recursive d)); ("direct"%string, json_of (pf_Direct d))]).
Proof.
  intros Hr Hd. unfold json_parse, MarshalIndent. rewrite to_of_bytes. cbv zeta.
  set (text := byte 123 :: _). assert (slice_size (pf_Recursive d) + slice_size (pf_Direct d) + 7 < json_fuel text)%nat as Hf.
  { unfold json_fuel, text. do 8 (rewrite ?length_cons, ?length_app).
    pose proof (enc_slice_length 2 (pf_Recursive d)). pose proof (enc_slice_length 2 (pf_Direct d)). lia. }
  destruct (json_fuel text) as [|[|[|f]]]; [lia..|]. unfold text.
  assert (plain_text "recursive" /\ plain_text "direct") as [P1 P2] by (by repeat constructor).
  cbn [parse_value skip_ws]. change (is_ws (byte 123)) with false. cbv iota.
  rewrite (bool_decide_false (byte 123 = byte 34)), (bool_decide_true (byte 123 = byte 123)) by done. change (max_nesting <=? 0) with false. cbv iota.
  rewrite skip_newline, (enc_string_plain "recursive") by done. cbn [app skip_ws]. change (is_ws dquote) with false. cbv iota.
  rewrite (bool_decide_false (dquote = byte 125)) by done.
  remember (S f) as f1. cbn [parse_members]. rewrite skip_newline. cbn [app skip_ws]. change (is_ws dquote) with false. cbv iota.
  rewrite (bool_decide_true (dquote = byte 34)) by done. rewrite <- (app_assoc (to_bytes "recursive")). cbn [app]. rewrite parse_string_plain by done. cbn [mbind option_bind].
  change (to_bytes ": ") with [byte 58; byte 32]. cbn [app skip_ws]. change (is_ws (byte 58)) with false. cbv iota.
  rewrite (bool_decide_true (byte 58 = byte 58)) by done. rewrite parse_value_slice by (done || lia). cbn [mbind option_bind skip_ws].
  change (is_ws (byte 44)) with false. cbv iota. rewrite (bool_decide_false (byte 44 = byte 125)), (bool_decide_true (byte 44 = byte 44)) by done.
  subst f1. cbn [parse_members]. rewrite skip_newline, (enc_string_plain "direct") by done. cbn [app skip_ws]. change (is_ws dquote) with false. cbv iota.
  rewrite (bool_decide_true (dquote = byte 34)) by done. rewrite <- (app_assoc (to_bytes "direct")). cbn [app]. rewrite parse_string_plain by done. cbn [mbind option_bind app skip_ws].
  change (is_ws (byte 58)) with false. cbv iota. rewrite (bool_decide_true (byte 58 = byte 58)) by done. rewrite parse_value_slice by (done || lia).
  cbn [mbind option_bind]. rewrite skip_newline. done.
Qed.

Lemma dec_elems_strings old l : dec_elems "" dec_string old (JString <$> l) = Some l.
Proof. revert old. induction l as [|s l IH]; intros old; [done|]. cbn. by rewrite IH. Qed.
Lemma dec_slice_of old s : dec_slice old (json_of s) = Some s.
Proof. destruct s as [l|]; [|done]. cbn [dec_slice json_of dec_list]. by rewrite dec_elems_strings. Qed.

(** The text of the pins is read back as the pins. *)
Lemma pins_round_trip d : plain_slice (pf_Recursive d) -> plain_slice (pf_Direct d) ->
  unmarshal empty_pins dec_pinFile (MarshalIndent d) = Some d.
Proof.
  intros Hr Hd. unfold unmarshal. rewrite parse_pins by done. cbn [mbind option_bind dec_pinFile dec_struct].
  unfold dec_field. cbn [fold_left fst snd].
  rewrite (bool_decide_true (select_field pin_names "recursive" = Some "recursive"%string)) by done.
  rewrite (bool_decide_false (select_field pin_names "direct" = Some "recursive"%string)) by done.
  rewrite (bool_decide_false (select_field pin_names "recursive" = Some "direct"%string)) by done.
  rewrite (bool_decide_true (select_field pin_names "direct" = Some "direct"%string)) by done.
  cbn [mbind option_bind]. rewrite !dec_slice_of. cbn. by destruct d.
Qed.

(** ** The file through operations and failures *)
Inductive PinOp := OpPin (c : string) | OpUnpin (c : string).
Definition op_cid (op : PinOp) : string := match op with OpPin c | OpUnpin c => c end.
Definition run_op (op : PinOp) : SE FileStore unit :=
  match op with OpPin c => PinRecursive c | OpUnpin c => UnpinRecursive c end.
(** The pins an operation makes of the pins before it. *)
Definition op_data (op : PinOp) (s : FileStore) : pinFile :=
  match op with
  | OpPin c => if decide (c ∈ recursive s) then p_data s else mkPinFile (Some (recursive s ++ [c])) (pf_Direct (p_data s))
  | OpUnpin c => mkPinFile (filter (fun x => x <> c) <$> pf_Recursive (p_data s)) (pf_Direct (p_data s))
  end.
(** Runs operations and keeps the pins of the last one that succeeded. *)
Fixpoint run_ops (ops : list PinOp) (s : FileStore) (saved : pinFile) : FileStore * pinFile :=
  match ops with
  | [] => (s, saved)
  | op :: ops => let '(s', r) := run_op op s in run_ops ops s' (match r with inr _ => p_data s' | inl _ => saved end)
  end.
(** What a restart finds. *)
Definition read_back (s : FileStore) : Err + pinFile :=
  NewFileStore (inr tt) (match p_files s !! p_path s with Some c => Content c | None => NotExist end).

Record pin_ok (s : FileStore) (saved : pinFile) : Prop := {
  po_data : plain_slice (pf_Recursive (p_data s)) /\ plain_slice (pf_Direct (p_data s));
  po_saved : plain_slice (pf_Recursive saved) /\ plain_slice (pf_Direct saved);
  po_file : p_files s !! p_path s = Some (MarshalIndent saved) \/ p_files s !! p_path s = None /\ saved = empty_pins }.

Lemma tmp_differs (p : string) : p +:+ ".tmp" <> p.
Proof. intros E. apply (f_equal (fun s => length (to_bytes s))) in E. rewrite to_bytes_app, length_app in E. simpl in E. lia. Qed.

Lemma persist_spec s : let '(s', r) := persistLocked s in
  p_path s' = p_path s /\ p_data s' = p_data s /\
  p_files s' !! p_path s = match r with inr _ => Some (MarshalIndent (p_data s)) | inl _ => p_files s !! p_path s end.
Proof.
  pose proof (tmp_differs (p_path s)) as Ht. unfold persistLocked. cbv [mbind SE_bind]. unfold WriteFile.
  destruct (next_fault s); cbn [p_path p_data p_files after_op]; [by rewrite lookup_insert_ne|].
  unfold Rename. cbn [p_files after_op]. rewrite lookup_insert_eq.
  destruct (next_fault _); cbn [p_path p_data p_files after_op]; [by rewrite lookup_insert_ne|by rewrite lookup_insert_eq].
Qed.
Lemma run_op_spec op s : let '(s', r) := run_op op s in
  p_path s' = p_path s /\ p_data s' = op_data op s /\
  p_files s' !! p_path s = match r with inr _ => Some (MarshalIndent (op_data op s)) | inl _ => p_files s !! p_path s end.
Proof.
  destruct op as [c|c]; cbn [run_op op_data]; unfold PinRecursive, UnpinRecursive.
  - case_decide; [apply persist_spec|]. exact (persist_spec (set_recursive (Some (recursive s ++ [c])) s)).
  - exact (persist_spec (set_recursive (filter (fun x => x <> c) <$> pf_Recursive (p_data s)) s)).
Qed.
Lemma op_data_plain op s : plain_text (op_cid op) -> plain_slice (pf_Recursive (p_data s)) -> plain_slice (pf_Direct (p_data s)) ->
  plain_slice (pf_Recursive (op_data op s)) /\ plain_slice (pf_Direct (op_data op s)).
Proof.
  intros Hc Hr Hd. destruct op as [c|c]; cbn [op_data op_cid] in *; [case_decide; [done|]|]; (split; [|done]).
  - unfold plain_slice, recursive in *. cbn [pf_Recursive default]. apply Forall_app. split; [done|by constructor].
  - unfold plain_slice in *. cbn [pf_Recursive]. destruct (pf_Recursive (p_data s)) as [l|]; [|done]. cbn in *. rewrite Forall_forall in *. intros x [_ Hx]%list_elem_of_filter. auto.
Qed.

Lemma run_op_ok op s saved : plain_text (op_cid op) -> pin_ok s saved ->
  let '(s', r) := run_op op s in pin_ok s' (match r with inr _ => p_data s' | inl _ => saved end).
Proof.
  intros Hc [[Hr Hd] Hs Hf]. pose proof (run_op_spec op s) as Hspec. destruct (run_op op s) as [s' r].
  destruct Hspec as (Ep&Ed&Ef). pose proof (op_data_plain op s Hc Hr Hd) as Hp. split.
  - by rewrite Ed.
  - destruct r; [done|by rewrite Ed].
  - rewrite Ep, Ef. destruct r; [done|]. left. by rewrite Ed.
Qed.

Lemma run_ops_ok ops s saved : Forall (fun op => plain_text (op_cid op)) ops -> pin_ok s saved ->
  let '(s', saved') := run_ops ops s saved in pin_ok s' saved'.
Proof.
  intros Hops. revert s saved. induction Hops as [|op ops Hop Hops IH]; intros s saved Hok; [done|]. cbn [run_ops].
  pose proof (run_op_ok op s saved Hop Hok) as H1. destruct (run_op op s) as [s' r]. by apply IH.
Qed.

Lemma read_back_ok s saved : pin_ok s saved -> read_back s = inr saved.
Proof.
  intros [_ [Hr Hd] [E|[E ->]]]; unfold read_back; rewrite E; cbn [NewFileStore]; [|done].
  destruct (_ =? 0) eqn:El.
  - exfalso. apply Z.eqb_eq in El. unfold strlen, zlen, MarshalIndent in El. rewrite to_of_bytes in El. simpl in El. lia.
  - by rewrite pins_round_trip.
Qed.

(** A store that begins with no file. *)
Definition fresh_store (path : string) (faults : list bool) (short : nat) : FileStore :=
  mkFileStore path empty_pins ∅ faults short.

(** C27: the pin file is durable: after any operations with any failures of writing and renaming, a
    restart loads exactly the pins of the last operation that reported success (none before the first), never
    a partial or unreadable file. *)
Theorem pins_durable path faults short ops :
  Forall (fun op => plain_text (op_cid op)) ops ->
  let '(s, saved) := run_ops ops (fresh_store path faults short) empty_pins in read_back s = inr saved.
Proof.
  intros Hops. pose proof (run_ops_ok ops (fresh_store path faults short) empty_pins Hops) as H.
  destruct (run_ops ops _ _) as [s saved]. apply read_back_ok, H. split; [by repeat constructor..|]. by right.
Qed.

Definition pin_ops : list PinOp := [OpPin "bafyA"; OpPin "bafyB"; OpUnpin "bafyA"; OpPin "bafyC"].
Lemma pins_durable_witness :
  Forall (fun op => plain_text (op_cid op)) pin_ops /\
  read_back (run_ops pin_ops (fresh_store "/srv/pins.json" [false; false; false; true; false; false; true] 5) empty_pins).1
  = inr (mkPinFile (Some ["bafyB"%string]) (Some [])).
Proof.
  assert (Forall (fun op => plain_text (op_cid op)) pin_ops) as H by (by repeat constructor). split; [exact H|].
  pose proof (pins_durable "/srv/pins.json" [false; false; false; true; false; false; true] 5 pin_ops H) as Hd.
  destruct (run_ops pin_ops _ _) as [s saved] eqn:E. vm_compute in E. injection E as <- <-. exact Hd.
Defined.
