(* ===== verification/Ipfs.v ===== *)
(** * The embedded IPFS node: [internal/ipfsunixfs], [internal/ipfsnode],
    [internal/api/ipfs_http.go] and [internal/media/file_cid.go]

    The block store, the DAG importer and the gateway belong to boxo and are
    a parameter; CIDs are given by their [String()]. *)
From S2P Require Import Prelude Go Encoding Strconv Paths Json Config ConfigLoad Store SpaceRepo Media Jwt HttpReq Pins.

(** ** boxo and go-cid *)
Inductive FSType := TFile | TRaw | TOther.
(** A node of the DAG with its number of links; a protobuf node carries the
    result of [unixfs.FSNodeFromBytes]: its type and its file size. *)
Inductive Node :=
| RawNode (data : string) (links : nat)
| ProtoNode (fsNode : Err + FSType * Z) (links : nat)
| OtherNode (links : nat).
Definition Links (n : Node) : nat := match n with RawNode _ k | ProtoNode _ k | OtherNode k => k end.

(** [Dag] is a block store with its DAG service; [Layout] imports a file with a
    chunk size, raw leaves or not and a hash function, and returns the root. *)
Class Boxo := {
  Dag : Type;
  empty_dag : Dag;
  Layout : Dag -> Z -> bool -> Z -> string -> Dag * (Err + string);
  dag_get : Dag -> string -> Err + Node;
  dag_read : Dag -> Node -> Err + string * option Err;  (** [uio.NewDagReader]; what it reads, and how that ends early *)
  bs_has : Dag -> string -> Err + bool;
  cid_Decode : string -> Err + string }.

(** The root of a file depends on its content and the parameters only. *)
Class BoxoLaws `{Boxo} : Prop := {
  layout_root d d' size raw mh content c c' :
    (Layout d size raw mh content).2 = inr c -> (Layout d' size raw mh content).2 = inr c' -> c = c' }.

(** ** [internal/ipfsunixfs] *)
Definition ChunkSizeFromSpec (spec : string) : Z :=
  let def := 1048576 in
  if spec =@ ""%string then def
  else match strip_prefix (to_bytes "size-") (to_bytes spec) with
       | Some rest => match Atoi (of_bytes rest) with (n, None) => if 0 <? n then n else def | _ => def end
       | None => def
       end.
Definition SHA2_256 : Z := 18.
Definition SHA2_512 : Z := 19.
Definition normalizeHashFunction (value : string) : string := of_bytes (to_lower (to_bytes (TrimSpace value))).
(** The hash code of the CID builder. *)
Definition CidBuilderV1UnixFS (hashFunction : string) : Err + Z :=
  let f := normalizeHashFunction hashFunction in
  if (f =@ ""%string) || (f =@ "sha2-256"%string) then inr SHA2_256
  else if f =@ "sha2-512"%string then inr SHA2_512
  else inl (Errorf ("unsupported ipfs hash function: " +:+ hashFunction)).

Definition UnixFSFileSize (n : Node) : Err + Z :=
  match n with
  | RawNode data _ => inr (strlen data)
  | ProtoNode (inl e) _ => inl e
  | ProtoNode (inr (TFile, size)) _ | ProtoNode (inr (TRaw, size)) _ => inr (i64 size)
  | ProtoNode (inr (TOther, _)) _ => inl (Errorf "not a unixfs file node")
  | OtherNode _ => inl (Errorf "unsupported node type for file size")
  end.

Section unixfs.
Context `{Boxo}.

(** The content of the reader, or the error of reading it. *)
Definition AddFileFromReader (d : Dag) (r : Err + string) (chunkSize : Z) (rawLeaves : bool) (cidVersion : Z) (hashFunction : string)
  : Dag * (Err + string) :=
  if negb (cidVersion =? 1) then (d, inl (Errorf "only cidVersion=1 supported"))
  else match CidBuilderV1UnixFS hashFunction, r with
       | inl e, _ => (d, inl e)
       | _, inl e => (d, inl e)
       | inr mh, inr content => Layout d chunkSize rawLeaves mh content
       end.

(** [Stat]: size and number of links of a root. *)
Definition Stat (d : Dag) (c : string) : Err + Z * nat :=
  match dag_get d c with
  | inl e => inl e
  | inr n => inr (match UnixFSFileSize n with inr sz => sz | inl _ => 0 end, Links n)
  end.

(** [Cat]: the reader is given by what it delivers. *)
Definition Cat (d : Dag) (c : string) : Err + string * option Err :=
  match dag_get d c with inl e => inl e | inr n => dag_read d n end.
(** [Get]: what reaches the writer, which takes a part of what it is given,
    and the error of [io.Copy]. *)
Definition Get (d : Dag) (c : string) (w : string -> string * option Err) : string * option Err :=
  match Cat d c with
  | inl e => (""%string, Some e)
  | inr (content, readErr) =>
    let '(written, writeErr) := w content in
    (written, match writeErr with Some e => Some e | None => readErr end)
  end.

(** ** [ComputeUnixFSFileCID] *)
Definition ComputeUnixFSFileCIDFromReader (cfg : IPFSConfig) (r : Err + string) : Err + string :=
  let c := Normalize cfg in
  let chunkSize := ChunkSizeFromSpec (Chunker c) in
  let chunkSize := if chunkSize <=? 0 then 1048576 else chunkSize in
  (AddFileFromReader empty_dag r chunkSize (RawLeaves c) (CIDVersion c) (HashFunction c)).2.
Definition ComputeUnixFSFileCID (cfg : IPFSConfig) (payload : string) : Err + string :=
  if strlen payload =? 0 then inl (Errorf "file is empty") else ComputeUnixFSFileCIDFromReader cfg (inr payload).
End unixfs.

(** ** [EmbeddedIPFS] *)
Record EmbeddedIPFS := mkEmbedded {
  e_cfg : IPFSConfig; e_maxUploadBytes : Z; e_gatewayEnabled : bool; e_gatewayWritable : bool; e_apiEnabled : bool;
  e_autoPinOnAdd : bool; e_cidVersion : Z; e_hashFunction : string; e_chunker : string; e_rawLeaves : bool }.
(** The fields that the configuration sets *)
Definition embedded_of (cfg : IPFSConfig) : EmbeddedIPFS :=
  {| e_cfg := cfg; e_maxUploadBytes := IPFSMaxUploadBytes cfg; e_gatewayEnabled := GatewayEnabled cfg;
     e_gatewayWritable := GatewayWritable cfg; e_apiEnabled := APIEnabled cfg; e_autoPinOnAdd := AutoPinOnAdd cfg;
     e_cidVersion := CIDVersion cfg; e_hashFunction := HashFunction cfg; e_chunker := Chunker cfg; e_rawLeaves := RawLeaves cfg |}.
Definition emb_MaxUploadBytes (e : EmbeddedIPFS) : Z := if e_maxUploadBytes e <=? 0 then Z.shiftl 64 20 else e_maxUploadBytes e.
Definition emb_CIDVersion (e : EmbeddedIPFS) : Z := if e_cidVersion e <=? 0 then 1 else e_cidVersion e.
Definition emb_HashFunction (e : EmbeddedIPFS) : string := if e_hashFunction e =@ ""%string then "sha2-256" else e_hashFunction e.
Definition emb_Chunker (e : EmbeddedIPFS) : string := if e_chunker e =@ ""%string then "size-1048576" else e_chunker e.

(** Opening: [NewEmbeddedIPFS] returns the parts that it closed again, and the
    node with its pins or the error; [openDS], [pins] and [backend] are the
    outcomes of the data store, the pin file and the gateway of boxo. *)
Definition OpenLevelDB (mkdir open : string -> option Err) (rootDataDir : string) : option Err :=
  match mkdir rootDataDir with
  | Some e => Some (wrap "create datastore dir" e)
  | None => wrap "open leveldb datastore" <$> open rootDataDir
  end.
(** [ipfsgateway.NewHandler]: the retrieval timeout of the gateway *)
Definition gateway_handler (backend : option Err) (defaultTimeout fetchTimeout : Z) : Err + Z :=
  match backend with
  | Some e => inl e
  | None => inr (if fetchTimeout <=? 0 then defaultTimeout else fetchTimeout)
  end.
Inductive IpfsPart := PBitswap | PDatastore.
Definition NewEmbeddedIPFS (routing : bool) (mkdir open : string -> option Err) (pins : string -> (Err + unit) * ReadResult)
  (backend : option Err) (defaultTimeout : Z) (baseIPFSDir : string) (cfg : IPFSConfig) : list IpfsPart * (Err + EmbeddedIPFS * pinFile) :=
  if negb routing then ([], inl (Errorf "ipfs: routing is required (DHT / ContentDiscovery)"))
  else match OpenLevelDB mkdir open (Join [baseIPFSDir; "datastore"%string]) with
       | Some e => ([], inl e)
       | None =>
         let pinsPath := Join [baseIPFSDir; "pins.json"%string] in
         match NewFileStore (pins pinsPath).1 (pins pinsPath).2 with
         | inl e => ([PBitswap; PDatastore], inl e)
         | inr data =>
           match gateway_handler backend defaultTimeout (i64 (FetchTimeoutSeconds cfg * ns_per_s)) with
           | inl e => ([PBitswap; PDatastore], inl e)
           | inr _ => ([], inr (embedded_of cfg, data))
           end
         end
       end.
(** [Close]: the errors that are joined *)
Definition EmbeddedClose (exch ds : option Err) : list Err := omap id [exch; ds].

Record AddFileOptions := mkAddFileOptions {
  o_Filename : string; o_RawLeaves : bool; o_CIDVersion : Z; o_HashFunction : string; o_Chunker : string; o_Pin : bool }.
Record ObjectStat := mkObjectStat { st_CID : string; st_Size : Z; st_NumLinks : nat; st_Local : bool; st_Pinned : bool }.

(** ** Responses of the handlers *)
Inductive IpfsResponse :=
| IError (code msg : string) (status : Z)
| IAdded (cid : string) (size : Z) (pinned : bool)
| IStat (st : ObjectStat)
| IOk (cid : string)
| INotFound
| INotImplemented
| IGateway.      (** answered by the gateway of boxo *)

Section node.
Context `{Boxo}.

(** The blocks, the pins and the CIDs announced to the routing. *)
Record NodeState := mkNodeState { n_dag : Dag; n_pins : FileStore; n_provided : list string }.
Definition with_pins (m : SE FileStore unit) : SE NodeState unit := fun s =>
  let '(p, r) := m (n_pins s) in (mkNodeState (n_dag s) p (n_provided s), r).

(** The second half of [AddFile]. *)
Definition pin_and_provide (cfg : IPFSConfig) (opt : AddFileOptions) (c : string) : SE NodeState string :=
  _ ← (if o_Pin opt then with_pins (PinRecursive c) else mret tt);
  (fun s => (if AutoProvide cfg then mkNodeState (n_dag s) (n_pins s) (n_provided s ++ [c]) else s, inr c)) : SE NodeState string.

Definition AddFile (cfg : IPFSConfig) (r : Err + string) (opt : AddFileOptions) : SE NodeState string := fun s =>
  let chunkSize := ChunkSizeFromSpec (o_Chunker opt) in
  let chunkSize := if chunkSize <=? 0 then 1048576 else chunkSize in
  let '(d, root) := AddFileFromReader (n_dag s) r chunkSize (o_RawLeaves opt) (o_CIDVersion opt) (o_HashFunction opt) in
  let s := mkNodeState d (n_pins s) (n_provided s) in
  match root with
  | inl e => (s, inl e)
  | inr c => pin_and_provide cfg opt c s
  end.

Definition StatObject (c : string) (s : NodeState) : Err + ObjectStat :=
  match bs_has (n_dag s) c with
  | inl e => inl e
  | inr local => match Stat (n_dag s) c with
                 | inl e => inl e
                 | inr (size, links) => inr (mkObjectStat c size links local (IsPinnedRecursive c (n_pins s)))
                 end
  end.
Definition Pin (c : string) (recursive : bool) : SE NodeState unit :=
  if negb recursive then throw ErrNotImplemented else with_pins (PinRecursive c).
Definition Unpin (c : string) (recursive : bool) : SE NodeState unit :=
  if negb recursive then throw ErrNotImplemented else with_pins (UnpinRecursive c).

Definition CatObject (c : string) (s : NodeState) : Err + string * option Err := Cat (n_dag s) c.
Definition GetObject (c : string) (w : string -> string * option Err) (s : NodeState) : string * option Err :=
  Get (n_dag s) c w.
Definition AddDir : SE NodeState string := throw ErrNotImplemented.
Definition IsPinned (c : string) (s : NodeState) : bool := IsPinnedRecursive c (n_pins s).
Definition HasLocal (c : string) (s : NodeState) : Err + bool := bs_has (n_dag s) c.
(** The announcement succeeds or fails as the routing does. *)
Definition Provide (routing : bool) (outcome : option Err) (c : string) : SE NodeState unit := fun s =>
  if negb routing then (s, inl (Errorf "routing not available"))
  else (mkNodeState (n_dag s) (n_pins s) (n_provided s ++ [c]), match outcome with Some e => inl e | None => inr tt end).

(** ** Handlers *)
Section http.
Context (e : EmbeddedIPFS) (q : Request).
Let method := r_Method q.

(** [strconv.ParseBool] with its error dropped *)
Definition parse_bool_or_false (v : string) : bool := default false (ParseBool v).
Definition form_bool (form : Multipart) (key : string) (dflt : bool) : bool :=
  let v := FormValue q form key in if v =@ ""%string then dflt else parse_bool_or_false v.
Definition form_string (form : Multipart) (key dflt : string) : string :=
  let v := FormValue q form key in if v =@ ""%string then dflt else v.
Definition form_int (form : Multipart) (key : string) (dflt : Z) : Z :=
  let v := FormValue q form key in if v =@ ""%string then dflt else default dflt (ok (Atoi v)).

Definition execIPFSAdd : SE NodeState IpfsResponse :=
  match r_LimitedForm q (i64 (emb_MaxUploadBytes e + 1)) with
  | inl FormTooLarge => mret (IError "PAYLOAD_TOO_LARGE" "upload exceeds limit" 413)
  | inl FormInvalid => mret (IError "BAD_REQUEST" "invalid multipart form" 400)
  | inr form =>
    match mp_File form with
    | None => mret (IError "BAD_REQUEST" "missing file field" 400)
    | Some file =>
      let pin := form_bool form "pin" (e_autoPinOnAdd e) in
      let rawLeaves := form_bool form "rawLeaves" (e_rawLeaves e) in
      let hashFunction := form_string form "hashFunction" (emb_HashFunction e) in
      let chunker := form_string form "chunker" (emb_Chunker e) in
      let cidVer := form_int form "cidVersion" (emb_CIDVersion e) in
      if negb (cidVer =? 1) then mret (IError "BAD_REQUEST" "only cidVersion=1 supported" 400)
      else
        let opt := mkAddFileOptions (FormValue q form "filename") rawLeaves cidVer hashFunction chunker pin in
        added ← try (AddFile (e_cfg e) (fp_Content file) opt);
        match added with
        | inl _ => mret (IError "INTERNAL_ERROR" "add failed" 500)
        | inr c => fun s => (s, inr match StatObject c s with
                                    | inr st => IAdded c (st_Size st) (st_Pinned st)
                                    | inl _ => IAdded c 0 pin
                                    end)
        end
    end
  end.

Definition handleIPFSAdd : SE NodeState IpfsResponse :=
  if negb (method =@ "POST"%string) then mret (IError "BAD_REQUEST" "method not allowed" 405)
  else if negb (e_apiEnabled e) then mret INotFound
  else execIPFSAdd.
Definition handleIPFSGatewayUpload : SE NodeState IpfsResponse :=
  if negb (method =@ "POST"%string) && negb (method =@ "PUT"%string) then mret (IError "BAD_REQUEST" "method not allowed" 405)
  else if negb (e_gatewayWritable e) then mret INotFound
  else execIPFSAdd.
Definition has_prefix (p s : string) : bool := bool_decide (is_Some (strip_prefix (to_bytes p) (to_bytes s))).
Definition serveIPFSGateway : SE NodeState IpfsResponse :=
  let p := URLPath q in
  if e_gatewayWritable e && ((p =@ "/ipfs"%string) || (p =@ "/ipfs/"%string))
     && ((method =@ "POST"%string) || (method =@ "PUT"%string))
  then handleIPFSGatewayUpload
  else if has_prefix "/ipfs/" p && negb (p =@ "/ipfs/"%string) && negb (method =@ "GET"%string) && negb (method =@ "HEAD"%string)
  then mret (IError "BAD_REQUEST" "method not allowed" 405)
  else mret IGateway.
Definition handleIPFSAddDir : SE NodeState IpfsResponse :=
  if negb (e_apiEnabled e) then mret INotFound
  else if negb (method =@ "POST"%string) then mret (IError "BAD_REQUEST" "method not allowed" 405)
  else mret INotImplemented.

(** The CID behind the prefix of the path. *)
Definition path_suffix (prefix : string) : string :=
  let l := to_bytes (URLPath q) in
  TrimRightSlash (TrimLeftSlash (of_bytes (default l (strip_prefix (to_bytes prefix) l)))).
Definition with_cid (prefix : string) (k : string -> SE NodeState IpfsResponse) : SE NodeState IpfsResponse :=
  let suffix := path_suffix prefix in
  if suffix =@ ""%string then mret (IError "BAD_REQUEST" "missing cid" 400)
  else match cid_Decode suffix with inl _ => mret (IError "INVALID_CID" "invalid cid" 400) | inr c => k c end.

Definition handleIPFSStat : SE NodeState IpfsResponse :=
  if negb (method =@ "GET"%string) then mret (IError "BAD_REQUEST" "method not allowed" 405)
  else if negb (e_apiEnabled e) then mret INotFound
  else with_cid "/api/ipfs/stat/" $ fun c => fun s =>
    (s, inr match StatObject c s with inr st => IStat st | inl _ => IError "CID_NOT_FOUND" "content not found" 404 end).

(** [json.NewDecoder(...).Decode]: the first value of the body *)
Definition decode_first {T} (zero : T) (d : Dec T) (s : string) : option T :=
  let l := to_bytes s in '(j, _) ← parse_value (json_fuel l) 0 l; d zero j.
Definition pinBody : Dec bool := dec_single "recursive" dec_bool.

Definition pin_recursive : bool :=
  if 0 <? r_ContentLength q
  then match r_Body q with
       | inr body => default true (decode_first false pinBody (limit_read (Z.shiftl 1 20) body))
       | inl _ => true
       end
  else true.
Definition pin_failed (code : string) (err : Err) : IpfsResponse :=
  if errors_is err ErrNotImplemented then IError "NOT_IMPLEMENTED" (error_text err) 501 else IError code (error_text err) 500.
Definition handleIPFSPin : SE NodeState IpfsResponse :=
  if negb (e_apiEnabled e) then mret INotFound
  else with_cid "/api/ipfs/pin/" $ fun c =>
    if method =@ "POST"%string then
      r ← try (Pin c pin_recursive); mret (match r with inl err => pin_failed "PIN_FAILED" err | inr _ => IOk c end)
    else if method =@ "DELETE"%string then
      r ← try (Unpin c true); mret (match r with inl err => pin_failed "UNPIN_FAILED" err | inr _ => IOk c end)
    else mret (IError "BAD_REQUEST" "method not allowed" 405).

(** [registerIPFSRoutes]: the handler of the elements of a path, if it is
    one of the node's.  None of the patterns names a method.  A pattern that
    ends in a slash is for the paths below it. *)
Definition below (p segs : list string) : bool := (take (length p) segs =@ p) && (length p <? length segs)%nat.
Definition registerIPFSRoutes (segs : list string) : option (SE NodeState IpfsResponse) :=
  if e_gatewayEnabled e && ((segs =@ ["ipfs"%string]) || below ["ipfs"%string] segs) then Some serveIPFSGateway
  else if negb (e_apiEnabled e) then None
  else if segs =@ ["api"; "ipfs"; "add"]%string then Some handleIPFSAdd
  else if segs =@ ["api"; "ipfs"; "add-dir"]%string then Some handleIPFSAddDir
  else if below ["api"; "ipfs"; "stat"]%string segs then Some handleIPFSStat
  else if below ["api"; "ipfs"; "pin"]%string segs then Some handleIPFSPin
  else None.
End http.
End node.

(** ** [serveLocalExchange]: the exchange of the block service

    The two exchanges of boxo it is made of, each with its state. *)
Class Exchanges := {
  Block : Type;
  Offline : Type;
  Bitswap : Type;
  offline_GetBlock : string -> SE Offline Block;
  offline_GetBlocks : list string -> SE Offline (list Block);
  bswap_GetBlock : string -> SE Bitswap Block;
  bswap_NotifyNewBlocks : list Block -> SE Bitswap unit;
  bswap_Close : SE Bitswap unit }.

Module serveLocal.
Section exchange.
Context `{Exchanges}.
Record serveLocalExchange := mkServeLocal { offline : Offline; bswap : Bitswap }.
Definition on_offline {A} (m : SE Offline A) : SE serveLocalExchange A := fun e =>
  let '(o, r) := m (offline e) in (mkServeLocal o (bswap e), r).
Definition on_bswap {A} (m : SE Bitswap A) : SE serveLocalExchange A := fun e =>
  let '(b, r) := m (bswap e) in (mkServeLocal (offline e) b, r).

Definition newServeLocalExchange (Exchange : Offline) (b : Bitswap) : serveLocalExchange := mkServeLocal Exchange b.
Definition GetBlock (k : string) : SE serveLocalExchange Block := on_offline (offline_GetBlock k).
Definition GetBlocks (ks : list string) : SE serveLocalExchange (list Block) := on_offline (offline_GetBlocks ks).
Definition NotifyNewBlocks (blks : list Block) : SE serveLocalExchange unit := on_bswap (bswap_NotifyNewBlocks blks).
Definition Close : SE serveLocalExchange unit := on_bswap bswap_Close.

(** [exchange.Fetcher] of a session: the two reads. *)
Record Fetcher := mkFetcher {
  f_GetBlock : string -> SE serveLocalExchange Block;
  f_GetBlocks : list string -> SE serveLocalExchange (list Block) }.
Definition NewSession : Fetcher :=
  mkFetcher (fun k => on_offline (offline_GetBlock k)) (fun ks => on_offline (offline_GetBlocks ks)).
End exchange.
End serveLocal.
