(* ===== verification/IpfsThms.v ===== *)
(** * Properties of the embedded IPFS node

    The CID that the media service records for an uploaded file is the one
    the node gives it; requests change the pins only by the operations of the
    pin store. *)
From S2P Require Import Prelude Go Encoding Strconv Paths Json Config ConfigLoad Store SpaceRepo Media Jwt HttpReq.
From S2P Require Import Pins PinThms Ipfs.

(** The configuration that reaches the node has its defaults. *)
Lemma Normalize_settings cfg :
  emb_HashFunction (embedded_of (Normalize cfg)) = HashFunction (Normalize cfg) /\
  emb_Chunker (embedded_of (Normalize cfg)) = Chunker (Normalize cfg) /\
  (CIDVersion (Normalize cfg) = 1 -> emb_CIDVersion (embedded_of (Normalize cfg)) = 1).
Proof.
  unfold emb_HashFunction, emb_Chunker, emb_CIDVersion. cbn [embedded_of e_hashFunction e_chunker e_cidVersion]. split_and!.
  - cbn [HashFunction Normalize]. destruct (bool_decide_reflect (HashFunction cfg = ""%string)); by rewrite bool_decide_false.
  - cbn [Chunker Normalize]. destruct (bool_decide_reflect (Chunker cfg = ""%string)); by rewrite bool_decide_false.
  - by intros ->.
Qed.

(** CIDs are printed in base 32 or base 58. *)
Class CidLaws `{Boxo} : Prop := {
  decoded_plain t c : cid_Decode t = inr c -> plain_text c;
  root_plain d size raw mh content c : (Layout d size raw mh content).2 = inr c -> plain_text c }.

Section ipfs.
Context `{Boxo}.
Implicit Types (s : NodeState) (e : EmbeddedIPFS) (q : Request).

(** ** Roots *)
(** The root that an upload gets, when it gets one. *)
Lemma AddFile_root cfg r opt s s' c : AddFile cfg r opt s = (s', inr c) ->
  (AddFileFromReader (n_dag s) r (if ChunkSizeFromSpec (o_Chunker opt) <=? 0 then 1048576 else ChunkSizeFromSpec (o_Chunker opt))
     (o_RawLeaves opt) (o_CIDVersion opt) (o_HashFunction opt)).2 = inr c.
Proof.
  unfold AddFile. cbv zeta. destruct (AddFileFromReader _ _ _ _ _ _) as [d [err|root]]; [done|]. unfold pin_and_provide.
  cbv [mbind SE_bind]. destruct (o_Pin opt); [|by intros [= _ <-]].
  destruct (with_pins _ _) as [s1 [err|[]]]; [done|]. by intros [= _ <-].
Qed.

(** C26: the CID that the media service computes for an uploaded file (to be stored and sent in
    messages) is the CID that the IPFS API reports when the same bytes are added with the node's settings. *)
Theorem media_cid_matches_ipfs_add `{!BoxoLaws} cfg payload q form file s s' c c' size pinned :
  let e := embedded_of (Normalize cfg) in
  r_LimitedForm q (i64 (emb_MaxUploadBytes e + 1)) = inr form -> mp_File form = Some file -> fp_Content file = inr payload ->
  Forall (fun k => FormValue q form k = ""%string) ["rawLeaves"; "hashFunction"; "chunker"; "cidVersion"]%string ->
  ComputeUnixFSFileCID cfg payload = inr c ->
  execIPFSAdd e q s = (s', inr (IAdded c' size pinned)) ->
  c' = c.
Proof.
  intros e Hform Hfile Hcontent Hdef Hc Hadd. unfold execIPFSAdd in Hadd. rewrite Hform, Hfile in Hadd. cbv zeta in Hadd.
  repeat (apply Forall_cons in Hdef as [? Hdef]). unfold form_bool, form_string, form_int in Hadd.
  repeat match goal with E : FormValue _ _ _ = ""%string |- _ => rewrite E in Hadd; clear E end.
  rewrite !(bool_decide_true (""%string = ""%string)) in Hadd by done.
  destruct (Normalize_settings cfg) as (Hh&Hk&Hv). unfold e in Hadd. rewrite Hh, Hk in Hadd.
  destruct (negb (emb_CIDVersion _ =? 1)) eqn:Ev; [done|]. cbv [mbind SE_bind try] in Hadd.
  destruct (AddFile _ _ _ s) as [s1 [err|root]] eqn:Ea; [done|]. apply AddFile_root in Ea.
  assert (c' = root) as ->. { cbv iota in Hadd. destruct (StatObject root s1); by injection Hadd. }
  cbn [o_Chunker o_RawLeaves o_CIDVersion o_HashFunction] in Ea. cbn [e_rawLeaves embedded_of] in Ea. rewrite Hcontent in Ea.
  unfold ComputeUnixFSFileCID, ComputeUnixFSFileCIDFromReader in Hc. destruct (strlen payload =? 0); [done|]. cbv zeta in Hc.
  unfold AddFileFromReader in Hc, Ea. destruct (negb (CIDVersion (Normalize cfg) =? 1)) eqn:Ev'; [done|]. rewrite Ev in Ea.
  destruct (CidBuilderV1UnixFS _) as [|mh]; [done|]. by eapply layout_root.
Qed.

(** ** Pins *)
(** A request leaves the pins alone or is one operation of the pin store. *)
Definition pins_by_op (m : SE NodeState IpfsResponse) : Prop := forall s,
  n_pins (m s).1 = n_pins s \/ exists op, plain_text (op_cid op) /\ n_pins (m s).1 = (run_op op (n_pins s)).1.

Lemma pins_ret x : pins_by_op (mret x).
Proof. by left. Qed.
Lemma pins_if (b : bool) m1 m2 : pins_by_op m1 -> pins_by_op m2 -> pins_by_op (if b then m1 else m2).
Proof. by destruct b. Qed.
Lemma pins_call (m : SE NodeState unit) (k : Err + unit -> IpfsResponse) :
  (forall s, n_pins (m s).1 = n_pins s \/ exists op, plain_text (op_cid op) /\ n_pins (m s).1 = (run_op op (n_pins s)).1) ->
  pins_by_op (r ← try m; mret (k r)).
Proof. intros Hm s. specialize (Hm s). cbv [mbind SE_bind try mret SE_ret]. by destruct (m s). Qed.

Context `{!CidLaws}.

Lemma pins_with_pins op s : n_pins (with_pins (run_op op) s).1 = (run_op op (n_pins s)).1.
Proof. unfold with_pins. by destruct (run_op op (n_pins s)). Qed.

Lemma AddFile_pins cfg r opt s :
  n_pins (AddFile cfg r opt s).1 = n_pins s \/ exists op, plain_text (op_cid op) /\ n_pins (AddFile cfg r opt s).1 = (run_op op (n_pins s)).1.
Proof.
  unfold AddFile. cbv zeta. destruct (AddFileFromReader _ _ _ _ _ _) as [d [err|c]] eqn:E; [by left|].
  assert (plain_text c) as Hc.
  { unfold AddFileFromReader in E. destruct (negb _); [done|]. destruct (CidBuilderV1UnixFS _); [done|]. destruct r; [done|].
    eapply root_plain. by rewrite E. }
  unfold pin_and_provide. cbv [mbind SE_bind]. destruct (o_Pin opt).
  - right. exists (OpPin c). split; [done|]. cbn [run_op]. unfold with_pins. cbn [n_pins n_dag n_provided].
    destruct (PinRecursive c (n_pins s)) as [p [err|[]]]; [done|]. by destruct (AutoProvide cfg).
  - left. cbv [mret SE_ret]. by destruct (AutoProvide cfg).
Qed.
Lemma exec_add_pins e q : pins_by_op (execIPFSAdd e q).
Proof.
  unfold execIPFSAdd. destruct (r_LimitedForm _ _) as [[]|form]; try apply pins_ret. destruct (mp_File form) as [file|]; [|apply pins_ret].
  cbv zeta. destruct (negb _); [apply pins_ret|]. intros s. cbv [mbind SE_bind try].
  set (opt := mkAddFileOptions _ _ _ _ _ _). pose proof (AddFile_pins (e_cfg e) (fp_Content file) opt s) as Hp.
  destruct (AddFile _ _ _ s) as [s1 [err|c]]; exact Hp.
Qed.
Lemma with_cid_pins q prefix k : (forall c, plain_text c -> pins_by_op (k c)) -> pins_by_op (with_cid q prefix k).
Proof.
  intros Hk. unfold with_cid. cbv zeta. destruct (bool_decide _); [apply pins_ret|].
  destruct (cid_Decode _) as [|c] eqn:E; [apply pins_ret|]. by eapply Hk, decoded_plain.
Qed.
Ltac pins_branches := repeat lazymatch goal with
  | |- pins_by_op (if _ then _ else _) => apply pins_if
  | |- pins_by_op (mret _) => apply pins_ret
  | |- pins_by_op (execIPFSAdd _ _) => apply exec_add_pins
  | |- pins_by_op (with_cid _ _ _) => apply with_cid_pins; intros c Hc
  end.
(** The handler of a request. *)
Definition ServeIPFS e q : option (SE NodeState IpfsResponse) := registerIPFSRoutes e q (path_elems q).
Lemma serve_ipfs_pins e q m : ServeIPFS e q = Some m -> pins_by_op m.
Proof.
  unfold ServeIPFS, registerIPFSRoutes. intros E.
  assert (pins_by_op (serveIPFSGateway e q) /\ pins_by_op (handleIPFSAdd e q) /\ pins_by_op (handleIPFSAddDir e q) /\
          pins_by_op (handleIPFSStat e q) /\ pins_by_op (handleIPFSPin e q)) as (?&?&?&?&?);
    [|repeat (case_match; simplify_eq; try done)].
  split_and!; unfold serveIPFSGateway, handleIPFSGatewayUpload, handleIPFSAdd, handleIPFSAddDir, handleIPFSStat, handleIPFSPin; cbv zeta;
    pins_branches.
  - intros s. by left.
  - apply pins_call; intros s.
    unfold Pin. destruct (pin_recursive q); cbn [negb]; [right|by left]. exists (OpPin c). split; [done|]. apply (pins_with_pins (OpPin c)).
  - apply pins_call; intros s. right. exists (OpUnpin c). split; [done|]. apply (pins_with_pins (OpUnpin c)).
Qed.

(** Requests one after another; a path that is not the node's changes nothing. *)
Fixpoint serve_ipfs_all e (qs : list Request) s : NodeState :=
  match qs with
  | [] => s
  | q :: qs => serve_ipfs_all e qs (match ServeIPFS e q with Some m => (m s).1 | None => s end)
  end.

Lemma serve_pin_ok e q s saved : pin_ok (n_pins s) saved ->
  exists saved', pin_ok (n_pins (match ServeIPFS e q with Some m => (m s).1 | None => s end)) saved'.
Proof.
  intros Hok. destruct (ServeIPFS e q) as [m|] eqn:E; [|eauto]. destruct (serve_ipfs_pins e q m E s) as [->|(op&Hp&->)]; [eauto|].
  pose proof (run_op_ok op (n_pins s) saved Hp Hok) as H1. destruct (run_op op (n_pins s)) as [p r]. eauto.
Qed.
Lemma serve_all_pin_ok e qs s saved : pin_ok (n_pins s) saved -> exists saved', pin_ok (n_pins (serve_ipfs_all e qs s)) saved'.
Proof.
  revert s saved. induction qs as [|q qs IH]; intros s saved Hok; [eauto|]. destruct (serve_pin_ok e q s saved Hok) as [saved' H1].
  cbn [serve_ipfs_all]. by eapply IH.
Qed.

(** A request to pin that reports success has written the pins, the new one among them. *)
Lemma pin_request_saves e q s s' c saved : pin_ok (n_pins s) saved -> r_Method q = "POST"%string ->
  handleIPFSPin e q s = (s', inr (IOk c)) -> exists l d, read_back (n_pins s') = inr (mkPinFile (Some l) d) /\ c ∈ l.
Proof.
  intros Hok Hm. unfold handleIPFSPin, with_cid. cbv zeta. rewrite Hm. destruct (negb _); [done|]. destruct (bool_decide _); [done|].
  destruct (cid_Decode _) as [|c0] eqn:Ec; [done|]. rewrite (bool_decide_true ("POST"%string = "POST"%string)) by done.
  cbv [mbind SE_bind try mret SE_ret]. unfold Pin. destruct (negb _); [done|]. unfold with_pins.
  pose proof (run_op_ok (OpPin c0) (n_pins s) saved (decoded_plain _ _ Ec) Hok) as H1.
  pose proof (run_op_spec (OpPin c0) (n_pins s)) as H2. cbn [run_op op_data] in H1, H2.
  destruct (PinRecursive c0 (n_pins s)) as [p [err|[]]]; [unfold pin_failed; by destruct (errors_is _ _)|].
  intros [= <- <-]. cbn [n_pins]. apply read_back_ok in H1. rewrite H1. destruct H2 as (_&->&_). case_decide as Hin.
  - unfold recursive in *. destruct (p_data (n_pins s)) as [[l|] d]; cbn in Hin; [eauto|by apply elem_of_nil in Hin].
  - eexists _, _. split; [done|]. apply elem_of_app. right. by left.
Qed.
End ipfs.

(** ** Blocks *)
(** A file that was imported can be read, and an import leaves what can be read readable. *)
Class BlockLaws `{Boxo} : Prop := {
  layout_reads d size raw mh content d' c : Layout d size raw mh content = (d', inr c) ->
    exists n, dag_get d' c = inr n /\ dag_read d' n = inr (content, None);
  layout_keeps d size raw mh content c n x : dag_get d c = inr n -> dag_read d n = inr (x, None) ->
    let d' := (Layout d size raw mh content).1 in dag_get d' c = inr n /\ dag_read d' n = inr (x, None) }.

Section blocks.
Context `{BlockLaws}.
Implicit Types (s : NodeState) (e : EmbeddedIPFS) (q : Request).

Definition keeps_blocks {A} (m : SE NodeState A) : Prop := forall s c x,
  CatObject c s = inr (x, None) -> CatObject c (m s).1 = inr (x, None).
Lemma keeps_same {A} (m : SE NodeState A) : (forall s, n_dag (m s).1 = n_dag s) -> keeps_blocks m.
Proof. intros Hm s c x. unfold CatObject. by rewrite Hm. Qed.
Lemma keeps_if {A} (b : bool) (m1 m2 : SE NodeState A) : keeps_blocks m1 -> keeps_blocks m2 -> keeps_blocks (if b then m1 else m2).
Proof. by destruct b. Qed.
Lemma keeps_call {A} (m : SE NodeState A) (k : Err + A -> IpfsResponse) :
  keeps_blocks m -> keeps_blocks (r ← try m; mret (k r)).
Proof. intros Hm s c x Hc. cbv [mbind SE_bind try]. specialize (Hm s c x Hc). by destruct (m s). Qed.

Lemma with_pins_dag m s : n_dag (with_pins m s).1 = n_dag s.
Proof. unfold with_pins. by destruct (m (n_pins s)). Qed.
Lemma pin_and_provide_dag cfg opt c s : n_dag (pin_and_provide cfg opt c s).1 = n_dag s.
Proof.
  unfold pin_and_provide. cbv [mbind SE_bind]. destruct (o_Pin opt); [|by cbn; destruct (AutoProvide cfg)].
  pose proof (with_pins_dag (PinRecursive c) s) as Hd. destruct (with_pins _ s) as [s1 [err|[]]]; [done|]. by destruct (AutoProvide cfg).
Qed.
Definition is_inl {A B} (x : A + B) : Prop := match x with inl _ => True | inr _ => False end.
Lemma AddFile_dag cfg r opt s :
  (n_dag (AddFile cfg r opt s).1 = n_dag s /\ is_inl (AddFile cfg r opt s).2) \/
  exists size mh content, r = inr content /\ n_dag (AddFile cfg r opt s).1 = (Layout (n_dag s) size (o_RawLeaves opt) mh content).1 /\
    forall s' c, AddFile cfg r opt s = (s', inr c) -> (Layout (n_dag s) size (o_RawLeaves opt) mh content).2 = inr c.
Proof.
  pose proof (AddFile_root cfg r opt s) as Hr. unfold AddFile in *. cbv zeta in *. set (k := if _ <=? 0 then _ else _) in *. unfold AddFileFromReader in *.
  destruct (negb _); [by left|]. destruct (CidBuilderV1UnixFS _) as [|mh]; [by left|]. destruct r as [|content]; [by left|].
  right. exists k, mh, content. destruct (Layout _ _ _ _ _) as [d [err|c]]; [done|]. split_and!; [done| |exact Hr].
  by rewrite pin_and_provide_dag.
Qed.
Lemma keeps_AddFile cfg r opt : keeps_blocks (AddFile cfg r opt).
Proof.
  intros s c x. unfold CatObject, Cat. destruct (AddFile_dag cfg r opt s) as [[-> _]|(k&mh&content&_&->&_)]; [done|].
  destruct (dag_get (n_dag s) c) as [|n] eqn:Eg; [done|]. intros Er.
  by destruct (layout_keeps _ k (o_RawLeaves opt) mh content _ _ _ Eg Er) as [-> ->].
Qed.
Lemma keeps_exec_add e q : keeps_blocks (execIPFSAdd e q).
Proof.
  unfold execIPFSAdd. destruct (r_LimitedForm _ _) as [[]|form]; try by apply keeps_same. destruct (mp_File form) as [file|]; [|by apply keeps_same].
  cbv zeta. destruct (negb _); [by apply keeps_same|]. intros s c x Hc. cbv [mbind SE_bind try].
  set (opt := mkAddFileOptions _ _ _ _ _ _). pose proof (keeps_AddFile (e_cfg e) (fp_Content file) opt s c x Hc) as Hp.
  by destruct (AddFile _ _ _ s) as [s1 [err|c']].
Qed.
Lemma keeps_Pin c b : keeps_blocks (Pin c b).
Proof. apply keeps_same. intros s. unfold Pin. destruct (negb b); [done|apply with_pins_dag]. Qed.
Lemma keeps_Unpin c b : keeps_blocks (Unpin c b).
Proof. apply keeps_same. intros s. unfold Unpin. destruct (negb b); [done|apply with_pins_dag]. Qed.
Lemma keeps_with_cid q prefix k : (forall c, keeps_blocks (k c)) -> keeps_blocks (with_cid q prefix k).
Proof.
  intros Hk. unfold with_cid. cbv zeta. destruct (bool_decide _); [by apply keeps_same|].
  destruct (cid_Decode _) as [|c]; [by apply keeps_same|apply Hk].
Qed.
Lemma keeps_ServeIPFS e q m : ServeIPFS e q = Some m -> keeps_blocks m.
Proof.
  unfold ServeIPFS, registerIPFSRoutes. intros E.
  assert (keeps_blocks (serveIPFSGateway e q) /\ keeps_blocks (handleIPFSAdd e q) /\ keeps_blocks (handleIPFSAddDir e q) /\
          keeps_blocks (handleIPFSStat e q) /\ keeps_blocks (handleIPFSPin e q)) as (?&?&?&?&?);
    [|repeat (case_match; simplify_eq; try done)].
  split_and!; unfold serveIPFSGateway, handleIPFSGatewayUpload, handleIPFSAdd, handleIPFSAddDir, handleIPFSStat, handleIPFSPin; cbv zeta;
    repeat first [apply keeps_exec_add | apply keeps_with_cid; intros c | apply keeps_if | by apply keeps_same].
  - apply (keeps_call _ _), keeps_Pin.
  - apply (keeps_call _ _), keeps_Unpin.
Qed.

(** A file that was added stays readable: whatever requests the node serves
    afterwards (further uploads, pins and unpins among them), [Cat] delivers
    exactly the bytes that were added, and [Get] writes them as far as the
    writer takes them. *)
Theorem added_file_stays_readable cfg content opt s s' c e qs w :
  AddFile cfg (inr content) opt s = (s', inr c) ->
  CatObject c (serve_ipfs_all e qs s') = inr (content, None) /\ GetObject c w (serve_ipfs_all e qs s') = w content.
Proof.
  intros Ha. assert (CatObject c s' = inr (content, None)) as Hc.
  { destruct (AddFile_dag cfg (inr content) opt s) as [[_ Hl]|(k&mh&content'&[= <-]&Hd&Hr)].
    - by rewrite Ha in Hl.
    - specialize (Hr _ _ Ha). rewrite Ha in Hd. cbn in Hd. destruct (Layout _ _ _ _ _) as [d r] eqn:El. cbn in *. subst.
      destruct (layout_reads _ _ _ _ _ _ _ El) as (n&Hg&Hx). unfold CatObject, Cat. by rewrite Hg. }
  clear Ha. revert s' Hc. induction qs as [|q qs IH]; intros s' Hc.
  - cbn [serve_ipfs_all]. split; [done|]. unfold GetObject, Get. unfold CatObject in Hc. rewrite Hc. by destruct (w content) as [? []].
  - cbn [serve_ipfs_all]. apply IH. destruct (ServeIPFS e q) as [m|] eqn:E; [|done]. by apply (keeps_ServeIPFS e q m E).
Qed.
End blocks.

(** ** The exchange *)
Section exchange.
Context `{Exchanges}.
Inductive ExchangeOp := XGetBlock (k : string) | XGetBlocks (ks : list string) | XSessionGetBlock (k : string) | XSessionGetBlocks (ks : list string).
Definition run_read (op : ExchangeOp) (e : serveLocal.serveLocalExchange) : serveLocal.serveLocalExchange :=
  match op with
  | XGetBlock k => (serveLocal.GetBlock k e).1
  | XGetBlocks ks => (serveLocal.GetBlocks ks e).1
  | XSessionGetBlock k => (serveLocal.f_GetBlock serveLocal.NewSession k e).1
  | XSessionGetBlocks ks => (serveLocal.f_GetBlocks serveLocal.NewSession ks e).1
  end.
(** Reads, through the exchange or through a session of it, never reach
    bitswap, so they ask no other peer. *)
Lemma reads_stay_local ops e : serveLocal.bswap (fold_left (fun e op => run_read op e) ops e) = serveLocal.bswap e.
Proof.
  assert (forall A (m : SE Offline A) e, serveLocal.bswap (serveLocal.on_offline m e).1 = serveLocal.bswap e) as Hm.
  { intros A m e'. unfold serveLocal.on_offline. by destruct (m (serveLocal.offline e')). }
  revert e. induction ops as [|op ops IH]; intros e; [done|]. cbn [fold_left]. rewrite IH. destruct op; apply Hm.
Qed.
End exchange.

(** A node without blocks, pins or announcements. *)
Definition fresh_node `{Boxo} (path : string) (faults : list bool) (short : nat) : NodeState :=
  mkNodeState empty_dag (fresh_store path faults short) [].

(** Whatever requests a node has served, with any failures of its pin file, a restart finds a readable pin
    file; and a pin that was acknowledged by the last request is in it. *)
Theorem acknowledged_pins_survive_restart `{CidLaws} e qs q path faults short s' c :
  r_Method q = "POST"%string ->
  handleIPFSPin e q (serve_ipfs_all e qs (fresh_node path faults short)) = (s', inr (IOk c)) ->
  (exists d, read_back (n_pins (serve_ipfs_all e qs (fresh_node path faults short))) = inr d) /\
  exists l d, read_back (n_pins s') = inr (mkPinFile (Some l) d) /\ c ∈ l.
Proof.
  intros Hm Hp. destruct (serve_all_pin_ok e qs (fresh_node path faults short) empty_pins) as [saved Hok].
  { split; [by repeat constructor..|]. by right. }
  split; [eauto using read_back_ok|by eapply pin_request_saves].
Qed.

(** ** A block store *)
Definition demo_root (size : Z) (raw : bool) (mh : Z) (content : string) : string :=
  (if raw then "bafkrei"%string else "bafybei"%string) +:+ of_bytes (concat ((fun a => hex2 (nat_of_ascii a)) <$> to_bytes content)).
Definition demo_find (c : string) (d : list (bool * string)) : option (bool * string) :=
  first_where (fun f => demo_root 0 f.1 0 f.2 =@ c) d.
#[export] Instance demo_boxo : Boxo := {
  Dag := list (bool * string);
  empty_dag := [];
  Layout d size raw mh content := (d ++ [(raw, content)], inr (demo_root size raw mh content));
  dag_get d c := match demo_find c d with Some (_, data) => inr (RawNode data 0) | None => inl (Errorf "ipld: could not find node") end;
  dag_read d n := match n with RawNode data _ => inr (data, None) | _ => inl (Errorf "not a file") end;
  bs_has d c := inr (bool_decide (is_Some (demo_find c d)));
  cid_Decode t := if decide (plain_text t) then inr t else inl (Errorf "invalid cid") }.
#[export] Instance demo_boxo_laws : BoxoLaws.
Proof. split. intros d d' size raw mh content c c'. cbn. congruence. Qed.
Lemma hex2_inj : Inj (=) (=) (fun a => hex2 (nat_of_ascii a)).
Proof.
  set (v x := let n := nat_of_ascii x in (if (n <? 58)%nat then n - 48 else n - 87)%nat).
  set (unhex (l : bytes) := match l with [x; y] => ascii_of_nat (16 * v x + v y) | _ => Ascii.zero end).
  assert (forall a, unhex (hex2 (nat_of_ascii a)) = a) as Hu by (intros [[] [] [] [] [] [] [] []]; reflexivity).
  intros a b E. by rewrite <- (Hu a), <- (Hu b), E.
Qed.
Lemma hex_text_inj (l l' : bytes) :
  concat ((fun a => hex2 (nat_of_ascii a)) <$> l) = concat ((fun a => hex2 (nat_of_ascii a)) <$> l') -> l = l'.
Proof.
  revert l'. induction l as [|a l IH]; intros [|b l']; [done..|]. cbn -[hex2]. intros E.
  apply app_inj_1 in E as [Ea E]; [|done]. f_equal; [by apply hex2_inj|by apply IH].
Qed.
Lemma demo_root_inj size mh size' mh' raw raw' x y : demo_root size raw mh x = demo_root size' raw' mh' y -> x = y.
Proof.
  intros E%(f_equal (fun t => drop 7 (to_bytes t))). unfold demo_root in E. rewrite !to_bytes_app, !to_of_bytes in E.
  assert (forall (r : bool) l, drop 7 (to_bytes (if r then "bafkrei" else "bafybei") ++ l) = l) as Hd by (by intros []).
  rewrite !Hd in E. apply hex_text_inj in E. by rewrite <- (of_to_bytes x), E, of_to_bytes.
Qed.
#[export] Instance demo_block_laws : BlockLaws.
Proof.
  split.
  - intros d size raw mh content d' c [= <- <-]. cbn. unfold demo_find. rewrite first_where_app.
    destruct (first_where _ d) as [[raw' x]|] eqn:E.
    + apply first_where_Some in E as [E%bool_decide_eq_true_1 _]. apply demo_root_inj in E as <-. by eexists.
    + cbn. rewrite bool_decide_true by done. by eexists.
  - intros d size raw mh content c n x. cbn. unfold demo_find. rewrite first_where_app.
    by destruct (first_where _ d) as [[raw' y]|].
Qed.
#[export] Instance demo_cid_laws : CidLaws.
Proof.
  split.
  - intros t c. cbn. destruct (decide _); congruence.
  - intros d size raw mh content c [= <-]. unfold plain_text, demo_root. rewrite to_bytes_app, to_of_bytes. apply Forall_app. split.
    + by destruct raw; repeat constructor.
    + induction (to_bytes content) as [|a l IH]; [constructor|]. cbn. destruct a as [[] [] [] [] [] [] [] []]; by repeat constructor.
Qed.

Definition demo_ipfs_config : IPFSConfig :=
  mkIPFS true "ipfs" true false true "" false "" false 0 "" true 0 "" 0 false 0.
Definition demo_ipfs : EmbeddedIPFS := embedded_of (Normalize demo_ipfs_config).
Definition demo_file : FilePart := mkFilePart "note.txt" "text/plain" (inr "hello"%string).
Definition demo_form : Multipart := mkMultipart (Some demo_file) [("pin", "true")]%string.
Definition ipfs_request (method path : string) : Request :=
  mkRequest method path [] "" (inr ""%string) None (fun _ => inr demo_form) 0.
Definition demo_node : NodeState := fresh_node "/srv/pins.json" [false; false; false; false; true] 3.
Definition demo_cid : string := "bafybei68656c6c6f".

Lemma pair_snd {A B} (p : A * B) b : p.2 = b -> p = (p.1, b).
Proof. by destruct p as [a b']; intros <-. Qed.
Definition add_request : Request := ipfs_request "POST" "/api/ipfs/add".
Definition pin_request : Request := ipfs_request "POST" ("/api/ipfs/pin/" +:+ demo_cid).

Lemma media_cid_matches_ipfs_add_witness :
  ComputeUnixFSFileCID demo_ipfs_config "hello" = inr demo_cid /\
  exists c', execIPFSAdd demo_ipfs add_request demo_node = ((execIPFSAdd demo_ipfs add_request demo_node).1, inr (IAdded c' 5 true)) /\ c' = demo_cid.
Proof.
  split; [vm_compute; reflexivity|]. exists demo_cid. split; [apply pair_snd; vm_compute; reflexivity|].
  apply (media_cid_matches_ipfs_add demo_ipfs_config "hello" add_request demo_form demo_file demo_node
    (execIPFSAdd demo_ipfs add_request demo_node).1 demo_cid demo_cid 5 true);
    [reflexivity|reflexivity|reflexivity|repeat constructor|vm_compute; reflexivity|apply pair_snd; vm_compute; reflexivity].
Defined.

Lemma acknowledged_pins_survive_restart_witness :
  exists l d, read_back (n_pins (handleIPFSPin demo_ipfs pin_request (serve_ipfs_all demo_ipfs [add_request] demo_node)).1)
    = inr (mkPinFile (Some l) d) /\ demo_cid ∈ l.
Proof.
  apply (acknowledged_pins_survive_restart demo_ipfs [add_request] pin_request "/srv/pins.json" [false; false; false; false; true] 3
    (handleIPFSPin demo_ipfs pin_request (serve_ipfs_all demo_ipfs [add_request] demo_node)).1 demo_cid); [reflexivity|].
  apply pair_snd. vm_compute. reflexivity.
Defined.

Definition added : NodeState * (Err + string) :=
  AddFile (e_cfg demo_ipfs) (inr "hello"%string) (mkAddFileOptions "" false 1 "sha2-256" "size-1048576" true) demo_node.
Lemma added_file_stays_readable_witness :
  CatObject demo_cid (serve_ipfs_all demo_ipfs [pin_request; add_request] added.1) = inr ("hello"%string, None).
Proof.
  apply (added_file_stays_readable (e_cfg demo_ipfs) "hello" (mkAddFileOptions "" false 1 "sha2-256" "size-1048576" true) demo_node
    added.1 demo_cid demo_ipfs [pin_request; add_request] (fun t => (t, None))).
  apply (pair_snd added). vm_compute. reflexivity.
Defined.
