(* ===== verification/Http.v ===== *)
(** * The HTTP server: [internal/api/auth_http.go], [v1_http.go],
    [v1_http_rest.go] and [http.go]

    One definition per handler, a computation of the session manager that
    returns the response; [ServeHTTP] is the handler of [NewHTTPServer], over
    the manager and the IPFS node, whose handlers are in [Ipfs].  The
    handlers share their first steps (method, token, ids of the path, body):
    each is a step that answers the request or goes on. *)
From S2P Require Import Prelude Go Encoding Strconv Paths Json Schema Config ConfigLoad Store SpaceRepo UserRepo MessageRepo.
From S2P Require Import BlobRepo Auth Proto Codec Media Messaging Session Manager Jwt HttpReq Pins Ipfs.
Import sessionv1.

(** What [NewHTTPServer] is given ([StatusHooks], [AuthHTTPDeps],
    [V1HTTPDeps]); [h_Media] says whether there is a media service,
    [h_EmbeddedIPFS] is the node whose routes are registered too, [h_wd] is the
    working directory of the process. *)
Record HttpConf := mkHttpConf {
  h_mc : ManagerConf; h_JWTSecret : string; h_AccessTTL : Z; h_Media : bool; h_MaxUploadBytes : Z;
  h_IsReady : option bool; h_Version : option string; h_ConfigSnapshot : bool; h_BlobRoot : string;
  h_ServeBlobRoutes : bool; h_EmbeddedIPFS : option EmbeddedIPFS; h_wd : Err + string }.

Definition maxAuthJSONBody : Z := Z.shiftl 1 20.
Definition maxV1JSONBody : Z := Z.shiftl 8 20.

(** ** Blob paths *)
Inductive BlobPathError := errBlobPathEmpty | errBlobOutsideRoot | BlobPathErr (e : Err).

(** [strings.TrimPrefix(s, "/")] *)
Definition trim_one_slash (s : string) : string :=
  of_bytes (match to_bytes s with a :: l => if a =@ sep then l else a :: l | [] => [] end).

Definition resolveBlobFilePath (wd : Err + string) (blobRoot urlPath : string) : BlobPathError + string :=
  match Abs wd (Clean blobRoot) with
  | inl e => inl (BlobPathErr (wrap "blob root" e))
  | inr rootAbs =>
    let p := Clean ("/" +:+ trim_one_slash urlPath) in
    let rel := trim_one_slash p in
    if (rel =@ ""%string) || (rel =@ "."%string) then inl errBlobPathEmpty
    else match Abs wd (Join [rootAbs; rel]) with
         | inl e => inl (BlobPathErr e)
         | inr targetAbs =>
           match Rel rootAbs targetAbs with
           | inl _ => inl errBlobOutsideRoot
           | inr relFromRoot =>
             if (relFromRoot =@ ".."%string) || bool_decide (is_Some (strip_prefix (to_bytes "../") (to_bytes relFromRoot)))
             then inl errBlobOutsideRoot else inr targetAbs
           end
         end
  end.

(** [parseUint32Path] *)
Definition parseUint32Path (s : string) : NumError + Z :=
  if TrimSpace s =@ ""%string then inl ErrSyntax
  else match ParseUint32 s with (_, Some e) => inl e | (v, None) => inr (u32 v) end.

Definition writeServiceErr (e : Err) : Response :=
  if errors_is e ErrForbidden then writeJSONError 403 (error_text e)
  else if errors_is e ErrAdminRoleRequired then writeJSONError 403 (error_text e)
  else if errors_is e ErrOwnerRoleRequired then writeJSONError 403 (error_text e)
  else if errors_is e ErrCreateSpacePermission then writeJSONError 403 (error_text e)
  else if errors_is e ErrAutoDeleteGroupOnly then writeJSONError 400 (error_text e)
  else if errors_is e ErrInvalidMessage then writeJSONError 400 (error_text e)
  else if errors_is e ErrNotFound then writeJSONError 404 (error_text e)
  else writeJSONError 400 (error_text e).

(** ** Steps of a handler *)
Section steps.
Context `{Jwt} (h : HttpConf) (r : Request).

Definition allow_method (m : string) (k : G Response) : G Response :=
  if negb (r_Method r =@ m) then mret (writeJSONError 405 "method not allowed") else k.

Definition requireBearerJWT (k : AccessTokenClaims -> G Response) : G Response :=
  now ← lift time_now;
  match ClaimsFromHTTPRequest (r_Authorization r) (h_JWTSecret h) now with
  | inl _ => mret (writeJSONError 401 "authentication required")
  | inr claims => k claims
  end.

Definition path_id (value msg : string) (k : Z -> G Response) : G Response :=
  match parseUint32Path value with
  | inl _ => mret (writeJSONError 400 msg)
  | inr id => k id
  end.

(** [io.ReadAll(io.LimitReader(r.Body, limit))] and [json.Unmarshal] *)
Definition json_body {T} (limit : Z) (zero : T) (d : Dec T) (k : T -> G Response) : G Response :=
  match r_Body r with
  | inl _ => mret (writeJSONError 400 "read body failed")
  | inr body => match unmarshal zero d (limit_read limit body) with
                | None => mret (writeJSONError 400 "invalid json")
                | Some req => k req
                end
  end.

(** A call whose error is answered by [fail]. *)
Definition answer {A} (m : G A) (fail : Err -> Response) (success : A -> G Response) : G Response :=
  result ← try m;
  match result with inl e => mret (fail e) | inr a => success a end.
Definition respond (p : Payload) : G Response := mret (writeJSON 200 p).
End steps.

(** ** Handlers *)
Section handlers.
Context `{Env} `{Libp2p} `{MediaLib} `{Protobuf} `{Jwt} `{Boxo} (h : HttpConf).
Let mc := h_mc h.
Let ctx := RequestCtx.
Implicit Types (r : Request) (PathValue : string -> string).

Definition handleAuthChallenge r : G Response :=
  allow_method r "POST" $
  json_body r maxAuthJSONBody (mkAuthChallengeReq "") dec_authChallengeReq $ fun req =>
  let clientPeerID := TrimSpace (acr_ClientPeerID req) in
  if clientPeerID =@ ""%string then mret (writeJSONError 400 "client_peer_id is required")
  else
    answer (lift (IssueChallenge (mc_cfg mc) clientPeerID (nodePeerID mc)))
      (fun _ => writeJSONError 500 "issue challenge failed") $ fun ch =>
    respond (PChallenge (Libp2pProtocolID (mc_cfg mc)) (ch_NodePeerID ch) (base64_encode (ch_Nonce ch))
               (u64 (ch_IssuedAt ch / ns_per_ms)) (u64 (ch_ExpiresAt ch / ns_per_ms))).

Definition handleAuthVerify r : G Response :=
  allow_method r "POST" $
  json_body r maxAuthJSONBody (mkAuthVerifyReq "" "" "" 0 0 "" "") dec_authVerifyReq $ fun req =>
  match base64_decode (avr_Nonce req), base64_decode (avr_Signature req), base64_decode (avr_PublicKey req) with
  | None, _, _ => mret (writeJSONError 400 "nonce must be standard base64")
  | _, None, _ => mret (writeJSONError 400 "signature must be standard base64")
  | _, _, None => mret (writeJSONError 400 "public_key must be standard base64")
  | Some nonce, Some sig, Some pub =>
    let i := {| vi_ClientPeerID := TrimSpace (avr_ClientPeerID req); vi_NodePeerID := TrimSpace (avr_NodePeerID req);
                vi_Nonce := nonce; vi_IssuedAt := i64 (avr_IssuedAtMs req) * ns_per_ms;
                vi_ExpiresAt := i64 (avr_ExpiresAtMs req) * ns_per_ms; vi_Signature := sig; vi_PublicKey := pub |} in
    if (vi_ClientPeerID i =@ ""%string) || (vi_NodePeerID i =@ ""%string)
    then mret (writeJSONError 400 "client_peer_id and node_peer_id are required")
    else if negb (vi_NodePeerID i =@ nodePeerID mc) then mret (writeJSONError 400 "node_peer_id does not match this server")
    else
      answer (lift (VerifyChallenge (mc_cfg mc) i)) (fun e => writeJSONError 401 (error_text e)) $ fun result =>
      let ttl := if h_AccessTTL h <=? 0 then 24 * 60 * minute else h_AccessTTL h in
      now ← lift time_now;
      match SignHTTPAccessToken (h_JWTSecret h) (res_User result) ttl now with
      | inl _ => mret (writeJSONError 500 "token issue failed")
      | inr (token, exp) => respond (PToken token ((exp - now) / ns_per_s) exp (res_User result))
      end
  end.

Definition handleV1Me r : G Response :=
  allow_method r "GET" $ requireBearerJWT h r $ fun claims =>
  answer (lift (GetByID (c_UserDBID claims)))
    (fun e => if errors_is e ErrNotFound then writeJSONError 404 "user not found" else writeJSONError 500 "load user failed") $ fun u =>
  respond (PUser u).

Definition handleV1ListSpaces r : G Response :=
  allow_method r "GET" $ requireBearerJWT h r $ fun claims =>
  answer (lift (ListSpacesForAPI mc (c_UserDBID claims) (c_PeerID claims))) (fun _ => writeJSONError 500 "list spaces failed") $ fun spaces =>
  respond (PSpaces spaces).

Definition handleV1ListChannels PathValue r : G Response :=
  allow_method r "GET" $ requireBearerJWT h r $ fun claims =>
  path_id (PathValue "space_id"%string) "invalid space_id" $ fun spaceID =>
  answer (lift (ListChannelsForAPI (c_UserDBID claims) spaceID)) (fun _ => writeJSONError 500 "list channels failed") $ fun channels =>
  respond (PChannels spaceID channels).

Definition handleV1JoinSpace PathValue r : G Response :=
  allow_method r "POST" $ requireBearerJWT h r $ fun claims =>
  path_id (PathValue "space_id"%string) "invalid space_id" $ fun spaceID =>
  answer (lift (JoinSpaceForAPI mc ctx (c_UserDBID claims) (c_PeerID claims) spaceID)) writeServiceErr $ fun sum =>
  respond (PJoined spaceID sum).

Definition handleV1ListSpaceMembers PathValue r : G Response :=
  allow_method r "GET" $ requireBearerJWT h r $ fun claims =>
  path_id (PathValue "space_id"%string) "invalid space_id" $ fun spaceID =>
  let afterID := (ParseUint64 (QueryGet r "after_member_id")).1 in
  let limit := u32 (match ParseUint32 (QueryGet r "limit") with (v, None) => v | (_, Some _) => 0 end) in
  answer (lift (ListSpaceMembersForAPI (c_UserDBID claims) spaceID afterID limit)) writeServiceErr $ fun resp =>
  respond (PMembers resp).

Definition handleV1GetMedia PathValue r : G Response :=
  allow_method r "GET" $ requireBearerJWT h r $ fun claims =>
  let mediaID := TrimSpace (PathValue "media_id"%string) in
  if mediaID =@ ""%string then mret (writeJSONError 400 "invalid media_id")
  else answer (lift (GetMediaForAPI (c_UserDBID claims) mediaID)) writeServiceErr $ fun resp => respond (PMedia resp).

(** The kind of an upload, from the form. *)
Definition upload_kind (v : string) : option Kind :=
  let v := TrimSpace v in
  if v =@ "image"%string then Some KindImage
  else if (v =@ "file"%string) || (v =@ ""%string) then Some KindFile
  else None.

Definition handleV1UploadMedia r : G Response :=
  allow_method r "POST" $ requireBearerJWT h r $ fun claims =>
  if negb (h_Media h) then mret (writeJSONError 501 "media upload not configured")
  else
    let max := if h_MaxUploadBytes h <=? 0 then Z.shiftl 10 20 else h_MaxUploadBytes h in
    match r_Form r with
    | None => mret (writeJSONError 400 "invalid multipart form")
    | Some form =>
      match mp_File form with
      | None => mret (writeJSONError 400 "file field required")
      | Some file =>
        match fp_Content file with
        | inl _ => mret (writeJSONError 400 "read file failed")
        | inr data =>
          let content := limit_read (i64 (max + 1)) data in
          if max <? strlen content then mret (writeJSONError 413 "file exceeds max upload size")
          else match upload_kind (FormValue r form "kind") with
               | None => mret (writeJSONError 400 "kind must be image or file")
               | Some kind =>
                 let orig := TrimSpace (FormValue r form "original_name") in
                 let orig := if orig =@ ""%string then Base (fp_Filename file) else orig in
                 let mimeType := TrimSpace (FormValue r form "mime_type") in
                 let mimeType := if mimeType =@ ""%string then fp_ContentType file else mimeType in
                 answer (lift (SaveUploadedBlob (mc_cfg mc) (mkSaveUploadedBlobInput kind orig mimeType content (c_UserDBID claims))))
                   (fun e => writeJSONError 400 (error_text e)) $ fun obj =>
                 respond (PUploaded obj kind)
               end
        end
      end
    end.

Definition handleV1SendMessage PathValue r : G Response :=
  allow_method r "POST" $ requireBearerJWT h r $ fun claims =>
  path_id (PathValue "channel_id"%string) "invalid channel_id" $ fun channelID =>
  json_body r maxV1JSONBody (mkSendMessageHTTPBody "" 0 None) dec_sendMessageHTTPBody $ fun parsed =>
  match mapM deref_content (option_list (smb_Content parsed)) with
  | None => mret (mkResponse 0 PPanic)   (** [toSendMessageInput] follows the nil pointer *)
  | Some contents =>
    let req := mkSendMessageReq channelID (smb_ClientMsgID parsed) (smb_MessageType parsed) (head contents) in
    answer (SendMessageForAPI mc ctx (c_UserDBID claims) req) writeServiceErr $ fun msg =>
    now ← lift time_now;
    respond (PStored msg (u64 (now / ns_per_ms)))
  end.

Definition handleV1SyncChannel PathValue r : G Response :=
  allow_method r "GET" $ requireBearerJWT h r $ fun claims =>
  path_id (PathValue "channel_id"%string) "invalid channel_id" $ fun channelID =>
  let afterSeq := (ParseUint64 (QueryGet r "after_seq")).1 in
  let limit := u32 (match ParseUint32 (QueryGet r "limit") with (v, None) => v | (_, Some _) => 0 end) in
  answer (lift (SyncChannelForAPI mc (c_UserDBID claims) channelID afterSeq limit)) writeServiceErr $ fun '(msgs, next, more) =>
  respond (PSynced channelID msgs next more).

Definition handleV1CreateSpace r : G Response :=
  allow_method r "POST" $ requireBearerJWT h r $ fun claims =>
  json_body r maxV1JSONBody (mkCreateSpaceReq "" "" 0 false) dec_CreateSpaceReq $ fun req =>
  answer (lift (CreateSpaceForAPI mc ctx (c_UserDBID claims) (c_PeerID claims) req)) writeServiceErr $ fun resp =>
  respond (PCreateSpace resp).

Definition handleV1GetCreateSpacePermissions r : G Response :=
  allow_method r "GET" $ requireBearerJWT h r $ fun claims =>
  answer (lift (GetCreateSpacePermissionsForAPI mc (c_PeerID claims))) (fun _ => writeJSONError 500 "failed") $ fun resp =>
  respond (PCreateSpacePermissions resp).

Definition handleV1GetCreateGroupPermissions PathValue r : G Response :=
  allow_method r "GET" $ requireBearerJWT h r $ fun claims =>
  path_id (PathValue "space_id"%string) "invalid space_id" $ fun spaceID =>
  answer (lift (GetCreateGroupPermissionsForAPI mc (c_UserDBID claims) (c_PeerID claims) spaceID)) writeServiceErr $ fun resp =>
  respond (PCreateGroupPermissions resp).

Definition handleV1AdminSetMemberRole PathValue r : G Response :=
  allow_method r "PATCH" $ requireBearerJWT h r $ fun claims =>
  path_id (PathValue "space_id"%string) "invalid space_id" $ fun spaceID =>
  let targetUID := TrimSpace (PathValue "target_user_id"%string) in
  if targetUID =@ ""%string then mret (writeJSONError 400 "invalid target_user_id")
  else json_body r maxV1JSONBody 0 memberRoleBody $ fun role =>
       answer (lift (AdminSetSpaceMemberRoleForAPI ctx (c_UserDBID claims) spaceID targetUID role)) writeServiceErr $ fun resp =>
       respond (PSetRole resp).

Definition handleV1AdminSetChannelCreation PathValue r : G Response :=
  allow_method r "PUT" $ requireBearerJWT h r $ fun claims =>
  path_id (PathValue "space_id"%string) "invalid space_id" $ fun spaceID =>
  json_body r maxV1JSONBody false allowChannelCreationBody $ fun allow =>
  answer (lift (AdminSetSpaceChannelCreationForAPI ctx (c_UserDBID claims) spaceID allow)) writeServiceErr $ fun resp =>
  respond (PSetChannelCreation resp).

Definition handleV1AdminSetGroupAutoDelete PathValue r : G Response :=
  allow_method r "PUT" $ requireBearerJWT h r $ fun claims =>
  path_id (PathValue "channel_id"%string) "invalid channel_id" $ fun channelID =>
  json_body r maxV1JSONBody 0 autoDeleteBody $ fun seconds =>
  answer (lift (AdminSetGroupAutoDeleteForAPI ctx (c_UserDBID claims) channelID seconds)) writeServiceErr $ fun resp =>
  respond (PSetAutoDelete resp).

(** The body of the four membership commands. *)
Definition with_target r (k : string -> G Response) : G Response :=
  json_body r maxV1JSONBody "" targetUserIDBody $ fun target =>
  if TrimSpace target =@ ""%string then mret (writeJSONError 400 "target_user_id is required") else k target.

Definition handleV1InviteMember PathValue r : G Response :=
  allow_method r "POST" $ requireBearerJWT h r $ fun claims =>
  path_id (PathValue "space_id"%string) "invalid space_id" $ fun spaceID => with_target r $ fun target =>
  answer (lift (InviteSpaceMemberForAPI mc ctx (c_UserDBID claims) (c_PeerID claims) spaceID target)) writeServiceErr $ fun resp =>
  respond (PInvite resp).
Definition handleV1KickMember PathValue r : G Response :=
  allow_method r "POST" $ requireBearerJWT h r $ fun claims =>
  path_id (PathValue "space_id"%string) "invalid space_id" $ fun spaceID => with_target r $ fun target =>
  answer (lift (KickSpaceMemberForAPI mc ctx (c_UserDBID claims) (c_PeerID claims) spaceID target)) writeServiceErr $ fun resp =>
  respond (PKick resp).
Definition handleV1BanMember PathValue r : G Response :=
  allow_method r "POST" $ requireBearerJWT h r $ fun claims =>
  path_id (PathValue "space_id"%string) "invalid space_id" $ fun spaceID => with_target r $ fun target =>
  answer (lift (BanSpaceMemberForAPI mc ctx (c_UserDBID claims) (c_PeerID claims) spaceID target)) writeServiceErr $ fun resp =>
  respond (PBan resp).
Definition handleV1UnbanMember PathValue r : G Response :=
  allow_method r "POST" $ requireBearerJWT h r $ fun claims =>
  path_id (PathValue "space_id"%string) "invalid space_id" $ fun spaceID => with_target r $ fun target =>
  answer (lift (UnbanSpaceMemberForAPI mc ctx (c_UserDBID claims) (c_PeerID claims) spaceID target)) writeServiceErr $ fun resp =>
  respond (PUnban resp).

(** The space of the path replaces the one of the body. *)
Definition handleV1CreateGroup PathValue r : G Response :=
  allow_method r "POST" $ requireBearerJWT h r $ fun claims =>
  path_id (PathValue "space_id"%string) "invalid space_id" $ fun spaceID =>
  json_body r maxV1JSONBody (mkCreateGroupReq 0 "" "" 0 0) dec_CreateGroupReq $ fun b =>
  let req := mkCreateGroupReq spaceID (CreateGroupReq_Name b) (CreateGroupReq_Description b) (CreateGroupReq_Visibility b)
               (CreateGroupReq_SlowModeSeconds b) in
  answer (lift (CreateGroupForAPI mc ctx (c_UserDBID claims) (c_PeerID claims) req)) writeServiceErr $ fun resp =>
  respond (PCreateGroup resp).
Definition handleV1CreateChannel PathValue r : G Response :=
  allow_method r "POST" $ requireBearerJWT h r $ fun claims =>
  path_id (PathValue "space_id"%string) "invalid space_id" $ fun spaceID =>
  json_body r maxV1JSONBody (mkCreateChannelReq 0 "" "" 0 0) dec_CreateChannelReq $ fun b =>
  let req := mkCreateChannelReq spaceID (CreateChannelReq_Name b) (CreateChannelReq_Description b) (CreateChannelReq_Visibility b)
               (CreateChannelReq_SlowModeSeconds b) in
  answer (lift (CreateChannelForAPI mc ctx (c_UserDBID claims) (c_PeerID claims) req)) writeServiceErr $ fun resp =>
  respond (PCreateChannel resp).

Definition handleV1DeliveredAck PathValue r : G Response :=
  allow_method r "POST" $ requireBearerJWT h r $ fun claims =>
  path_id (PathValue "channel_id"%string) "invalid channel_id" $ fun channelID =>
  json_body r maxV1JSONBody 0 deliverAckBody $ fun ackedSeq =>
  answer (lift (AckDeliveredForAPI (c_UserDBID claims) channelID ackedSeq)) writeServiceErr $ fun _ => respond POk.
Definition handleV1ReadUpdate PathValue r : G Response :=
  allow_method r "POST" $ requireBearerJWT h r $ fun claims =>
  path_id (PathValue "channel_id"%string) "invalid channel_id" $ fun channelID =>
  json_body r maxV1JSONBody 0 readUpdateBody $ fun lastReadSeq =>
  answer (lift (UpdateReadForAPI (c_UserDBID claims) channelID lastReadSeq)) writeServiceErr $ fun _ => respond POk.

(** [claimsForWebSocket]: the header first, then the [access_token] of the query. *)
Definition claimsForWebSocket r (now : Z) : Err + AccessTokenClaims :=
  match ClaimsFromHTTPRequest (r_Authorization r) (h_JWTSecret h) now with
  | inr claims => inr claims
  | inl _ => let q := TrimSpace (QueryGet r "access_token") in
             if q =@ ""%string then inl (Errorf "missing token") else ParseHTTPAccessToken (h_JWTSecret h) q now
  end.
Definition handleV1WebSocket r : G Response :=
  allow_method r "GET" $
  now ← lift time_now;
  match claimsForWebSocket r now with
  | inl _ => mret (writeJSONError 401 "authentication required")
  | inr claims => mret (mkResponse 101 (PUpgrade claims))
  end.

(** ** Routes *)
Record Route := mkRoute { rt_Method : option string; rt_Pattern : list PSeg; rt_Handler : (string -> string) -> Request -> G Response }.

Definition registerV1AuthRoutes : list Route :=
  if strlen (h_JWTSecret h) =? 0 then []
  else [ mkRoute None [Lit "v1"; Lit "auth"; Lit "challenge"] (fun _ => handleAuthChallenge);
         mkRoute None [Lit "v1"; Lit "auth"; Lit "verify"] (fun _ => handleAuthVerify) ].

Definition registerV1RESTRoutes : list Route :=
  let spaces rest := Lit "v1" :: Lit "spaces" :: Wild "space_id" :: rest in
  let channels rest := Lit "v1" :: Lit "channels" :: Wild "channel_id" :: rest in
  [ mkRoute (Some "POST"%string) [Lit "v1"; Lit "spaces"] (fun _ => handleV1CreateSpace);
    mkRoute (Some "GET"%string) [Lit "v1"; Lit "permissions"; Lit "create-space"] (fun _ => handleV1GetCreateSpacePermissions);
    mkRoute (Some "GET"%string) (spaces [Lit "permissions"; Lit "create-group"]) handleV1GetCreateGroupPermissions;
    mkRoute (Some "PATCH"%string) (spaces [Lit "members"; Wild "target_user_id"; Lit "role"]) handleV1AdminSetMemberRole;
    mkRoute (Some "PUT"%string) (spaces [Lit "settings"; Lit "channel_creation"]) handleV1AdminSetChannelCreation;
    mkRoute (Some "PUT"%string) (channels [Lit "settings"; Lit "auto_delete"]) handleV1AdminSetGroupAutoDelete;
    mkRoute (Some "POST"%string) (spaces [Lit "invitations"]) handleV1InviteMember;
    mkRoute (Some "POST"%string) (spaces [Lit "kick"]) handleV1KickMember;
    mkRoute (Some "POST"%string) (spaces [Lit "ban"]) handleV1BanMember;
    mkRoute (Some "POST"%string) (spaces [Lit "unban"]) handleV1UnbanMember;
    mkRoute (Some "POST"%string) (spaces [Lit "groups"]) handleV1CreateGroup;
    mkRoute (Some "POST"%string) (spaces [Lit "channels"]) handleV1CreateChannel;
    mkRoute (Some "POST"%string) (channels [Lit "delivered_ack"]) handleV1DeliveredAck;
    mkRoute (Some "POST"%string) (channels [Lit "read"]) handleV1ReadUpdate ].

Definition registerV1APIRoutes : list Route :=
  if strlen (h_JWTSecret h) =? 0 then []
  else
    [ mkRoute (Some "GET"%string) [Lit "v1"; Lit "me"] (fun _ => handleV1Me);
      mkRoute (Some "GET"%string) [Lit "v1"; Lit "spaces"] (fun _ => handleV1ListSpaces);
      mkRoute (Some "POST"%string) [Lit "v1"; Lit "spaces"; Wild "space_id"; Lit "join"] handleV1JoinSpace;
      mkRoute (Some "GET"%string) [Lit "v1"; Lit "spaces"; Wild "space_id"; Lit "members"] handleV1ListSpaceMembers;
      mkRoute (Some "GET"%string) [Lit "v1"; Lit "spaces"; Wild "space_id"; Lit "channels"] handleV1ListChannels;
      mkRoute (Some "POST"%string) [Lit "v1"; Lit "channels"; Wild "channel_id"; Lit "messages"] handleV1SendMessage;
      mkRoute (Some "GET"%string) [Lit "v1"; Lit "channels"; Wild "channel_id"; Lit "sync"] handleV1SyncChannel;
      mkRoute (Some "GET"%string) [Lit "v1"; Lit "media"; Wild "media_id"] handleV1GetMedia ]
    ++ (if h_Media h && (0 <? h_MaxUploadBytes h)
        then [mkRoute (Some "POST"%string) [Lit "v1"; Lit "media"] (fun _ => handleV1UploadMedia)] else [])
    ++ registerV1RESTRoutes
    ++ [mkRoute (Some "GET"%string) [Lit "v1"; Lit "ws"] (fun _ => handleV1WebSocket)].

(** The management routes of [NewHTTPServer]. *)
Definition management_routes : list Route :=
  [ mkRoute None [Lit "healthz"] (fun _ _ => respond (PStatus "ok"));
    mkRoute None [Lit "readyz"] (fun _ _ =>
      if negb (default false (h_IsReady h)) then mret (writeJSON 503 (PStatus "not_ready")) else respond (PStatus "ready"));
    mkRoute None [Lit "version"] (fun _ _ => respond (PVersion (default "unknown"%string (h_Version h)))) ]
  ++ (if EnableDebugConfig (mc_cfg mc) && h_ConfigSnapshot h then [mkRoute None [Lit "debug"; Lit "config"] (fun _ _ => respond PConfig)] else []).

(** The routes on the session manager; those of the node are [registerIPFSRoutes]. *)
Definition routes : list Route := registerV1AuthRoutes ++ registerV1APIRoutes ++ management_routes.

(** The handler of /blobs/, for the path behind that prefix. *)
Definition handle_blob (urlPath : string) : G Response :=
  mret (match resolveBlobFilePath (h_wd h) (h_BlobRoot h) urlPath with
        | inl errBlobPathEmpty => mkResponse 404 (PText "404 page not found")
        | inl errBlobOutsideRoot => mkResponse 403 (PText "forbidden")
        | inl (BlobPathErr _) => mkResponse 500 (PText "internal server error")
        | inr target => mkResponse 200 (PFile target)
        end).
Definition serve_blobs : bool := h_ServeBlobRoutes h && negb (h_BlobRoot h =@ ""%string).

(** The routes whose pattern fits the path, with the values of the wildcards. *)
Definition candidates (segs : list string) : list (Route * list (string * string)) :=
  omap (fun rt => m ← match_pattern (rt_Pattern rt) segs; Some (rt, m)) routes.

(** A path on the manager's routes: the handler of the first pattern that
    fits and serves the method, /blobs/, or none. *)
Definition serve_routes r : G Response :=
  let segs := path_elems r in
  match list_find (fun c => method_matches (rt_Method c.1) (r_Method r) = true) (candidates segs), candidates segs with
  | Some (_, (rt, m)), _ => rt_Handler rt (fun n => get_first n m) r
  | None, _ :: _ => mret (mkResponse 405 (PText "Method Not Allowed"))
  | None, [] =>
    if serve_blobs && below ["blobs"%string] segs
    then (* [http.StripPrefix] wants the prefix in the escaped path too *)
         match strip_prefix (to_bytes "/blobs/") (to_bytes (r_EscapedPath r)) with
         | Some _ => handle_blob (of_bytes (drop 7 (to_bytes (URLPath r))))
         | None => mret (mkResponse 404 (PText "404 page not found"))
         end
    else mret (mkResponse 404 (PText "404 page not found"))
  end.

(** The patterns that end in a slash: their path without it is redirected to it. *)
Definition subtrees : list (list string) :=
  (if serve_blobs then [["blobs"%string]] else []) ++
  match h_EmbeddedIPFS h with
  | Some e => if e_apiEnabled e then [["api"; "ipfs"; "stat"]; ["api"; "ipfs"; "pin"]]%string else []
  | None => []
  end.

(** The server's state: the session manager with the store, and the IPFS
    node; a request is answered from the one or the other. *)
Record HttpState := mkHttpState { s_mgr : Mgr; s_node : NodeState }.
Inductive Answer := FromManager (r : Response) | FromNode (r : IpfsResponse).
Definition on_mgr (m : G Response) : SE HttpState Answer := fun s =>
  let '(g, x) := m (s_mgr s) in (mkHttpState g (s_node s), match x with inl e => inl e | inr a => inr (FromManager a) end).
Definition on_node (m : SE NodeState IpfsResponse) : SE HttpState Answer := fun s =>
  let '(n, x) := m (s_node s) in (mkHttpState (s_mgr s) n, match x with inl e => inl e | inr a => inr (FromNode a) end).

Definition redirect (path : string) : SE HttpState Answer := mret (FromManager (mkResponse 301 (PRedirect path))).
Definition ServeHTTP r : SE HttpState Answer :=
  let raw := to_bytes (r_EscapedPath r) in
  let path := if r_Method r =@ "CONNECT"%string then raw else cleanPath raw in
  if bool_decide (elems path ∈ subtrees) then redirect (String.concat "/" ([""%string] ++ elems path ++ [""%string]))
  else if negb (path =@ raw) then redirect (of_bytes path)
  else match h_EmbeddedIPFS h ≫= fun e => registerIPFSRoutes e r (path_elems r) with
       | Some m => on_node m
       | None => on_mgr (serve_routes r)
       end.
End handlers.
