(* ===== verification/HttpThms.v ===== *)
(** * Properties of the HTTP server

    Every request is answered and is at most one command of the API, made
    in the name of the user of its token; tokens authenticate their user
    until they expire; blob requests stay under the blob root. *)
From S2P Require Import Prelude Go Encoding Strconv Paths Json Schema Config ConfigLoad Store SpaceRepo UserRepo MessageRepo.
From S2P Require Import BlobRepo Auth Proto Codec Media Messaging Session Manager Dispatch System Demo MediaThms.
From S2P Require Import Jwt HttpReq Pins Ipfs IpfsThms Http.
Import sessionv1.

(** ** Commands and their users *)
(** The user in whose name a command runs, and the peer id it is given. *)
Definition api_uid (c : ApiCall) : option Z :=
  match c with
  | ApiIssueChallenge _ | ApiVerifyChallenge _ => None
  | ApiUploadMedia i => Some (sub_CreatedBy i)
  | ApiListSpaces uid _ | ApiListChannels uid _ | ApiSendMessage uid _ | ApiSyncChannel uid _ _ _ | ApiJoinSpace uid _ _
  | ApiListSpaceMembers uid _ _ _ | ApiGetMedia uid _ | ApiCreateSpace uid _ _ | ApiCreateGroupPermissions uid _ _
  | ApiSetMemberRole uid _ _ _ | ApiSetChannelCreation uid _ _ | ApiSetAutoDelete uid _ _ | ApiInvite uid _ _ _
  | ApiKick uid _ _ _ | ApiBan uid _ _ _ | ApiUnban uid _ _ _ | ApiCreateGroup uid _ _ | ApiCreateChannel uid _ _
  | ApiAckDelivered uid _ _ | ApiUpdateRead uid _ _ | ApiGetUser uid | ApiIsChannelMember uid _ => Some uid
  end.
Definition api_peer (c : ApiCall) : option string :=
  match c with
  | ApiListSpaces _ p | ApiJoinSpace _ p _ | ApiCreateSpace _ p _ | ApiCreateGroupPermissions _ p _ | ApiInvite _ p _ _
  | ApiKick _ p _ _ | ApiBan _ p _ _ | ApiUnban _ p _ _ | ApiCreateGroup _ p _ | ApiCreateChannel _ p _ => Some p
  | _ => None
  end.

Section served.
Context `{Env} `{Libp2p} `{MediaLib} `{Protobuf} `{Jwt} (h : HttpConf).
Implicit Types (r : Request) (g : Mgr) (m : G Response).

(** The claims of the request's token at the time of the state. *)
Definition token_claims r g : Err + AccessTokenClaims :=
  ClaimsFromHTTPRequest (r_Authorization r) (h_JWTSecret h) (w_clock (g_world g)).

(** A command that a request may make: the two steps of the login are open
    to everyone, the others run for the user of a valid token. *)
Definition may_make r g (c : ApiCall) : Prop :=
  api_uid c = None \/
  exists claims, token_claims r g = inr claims /\ api_uid c = Some (c_UserDBID claims) /\
    forall p, api_peer c = Some p -> p = c_PeerID claims.

(** The request is answered, and the state is that of one such command or unchanged. *)
Definition served r g m : Prop :=
  exists resp, (m g).2 = inr resp /\
    ((m g).1 = g \/ exists c, may_make r g c /\ (m g).1 = run_event (h_mc h) (EvApi c) g).

(** A computation that only reads. *)
Definition pure_response m : Prop := forall g, exists resp, m g = (g, inr resp).

Lemma pure_ret x : pure_response (mret x).
Proof. intros g. by exists x. Qed.
Lemma pure_clock (k : Z -> G Response) : (forall t, pure_response (k t)) -> pure_response (t ← lift time_now; k t).
Proof.
  intros Hk g. destruct (Hk (w_clock (g_world g)) g) as [x Hx]. exists x. cbv [mbind SE_bind lift time_now].
  replace (set_world (g_world g) g) with g by (by destruct g). done.
Qed.
Lemma served_pure r g m : pure_response m -> served r g m.
Proof. intros Hm. destruct (Hm g) as [x Hx]. exists x. rewrite Hx. auto. Qed.
Lemma served_ret r g x : served r g (mret x).
Proof. apply served_pure, pure_ret. Qed.

Lemma served_method r g method m : served r g m -> served r g (allow_method r method m).
Proof. intros Hm. unfold allow_method. case_match; [apply served_ret|done]. Qed.
Lemma served_path r g v msg k : (forall id, served r g (k id)) -> served r g (path_id v msg k).
Proof. intros Hk. unfold path_id. case_match; [apply served_ret|done]. Qed.
Lemma served_body {T} r g limit (zero : T) d k : (forall x, served r g (k x)) -> served r g (json_body r limit zero d k).
Proof. intros Hk. unfold json_body. repeat case_match; try apply served_ret. done. Qed.
Lemma served_clock r g (k : Z -> G Response) : served r g (k (w_clock (g_world g))) -> served r g (t ← lift time_now; k t).
Proof.
  intros Hk. unfold served in *. cbv [mbind SE_bind lift time_now].
  by replace (set_world (g_world g) g) with g by (by destruct g).
Qed.
Lemma served_jwt r g k :
  (forall claims, token_claims r g = inr claims -> served r g (k claims)) -> served r g (requireBearerJWT h r k).
Proof.
  intros Hk. unfold requireBearerJWT. apply served_clock. unfold token_claims in Hk.
  destruct (ClaimsFromHTTPRequest _ _ _) as [e|claims]; [apply served_ret|by apply Hk].
Qed.

(** A call is the command that runs it. *)
Lemma served_answer {A} r g (m : G A) fail k c :
  (forall g, (run_api (h_mc h) c g).1 = (m g).1) -> may_make r g c -> (forall a, pure_response (k a)) ->
  served r g (answer m fail k).
Proof.
  intros Hm Hc Hk. unfold served, answer. cbv [mbind SE_bind try].
  specialize (Hm g). destruct (m g) as [g' [e|a]] eqn:E; simpl in *.
  - exists (fail e). split; [done|]. right. exists c. done.
  - destruct (Hk a g') as [x Hx]. exists x. rewrite Hx. split; [done|]. right. exists c. done.
Qed.
Lemma run_ignore {A} (m : G A) g : (ignore m g).1 = (m g).1.
Proof. unfold ignore. cbv [mbind SE_bind]. by destruct (m g) as [g' []]. Qed.

Lemma may_public r g c : api_uid c = None -> may_make r g c.
Proof. by left. Qed.
Lemma may_own r g c claims :
  token_claims r g = inr claims -> api_uid c = Some (c_UserDBID claims) ->
  (forall p, api_peer c = Some p -> p = c_PeerID claims) -> may_make r g c.
Proof. right. eauto. Qed.
End served.

(** One handler: its steps, and then the call [c]. *)
Ltac serve_steps :=
  repeat (first
  [ apply served_method
  | apply served_jwt; intros ? ?
  | apply served_path; intros ?
  | apply served_body; intros ?
  | apply served_ret
  | match goal with
    | |- served _ _ _ (match ?x with _ => _ end) => destruct x eqn:?
    end ]; cbv beta zeta).
Ltac serve_call c :=
  apply (served_answer _ _ _ _ _ _ c);
  [ intros ?; apply run_ignore
  | first [by apply may_public | eapply may_own; [eassumption|done|by intros ? [= <-]]]
  | intros ?; try match goal with x : (_ * _)%type |- _ => destruct x as [[] ?] end;
    repeat first [apply pure_ret|apply pure_clock; intros ?|case_match] ].
(** The command that a call of a handler is. *)
Ltac serve_api :=
  lazymatch goal with
  | |- served _ _ _ (answer ?m _ _) =>
    lazymatch m with
    | lift (IssueChallenge _ ?c _) => serve_call (ApiIssueChallenge c)
    | lift (VerifyChallenge _ ?i) => serve_call (ApiVerifyChallenge i)
    | lift (GetByID ?u) => serve_call (ApiGetUser u)
    | lift (ListSpacesForAPI _ ?u ?p) => serve_call (ApiListSpaces u p)
    | lift (ListChannelsForAPI ?u ?s) => serve_call (ApiListChannels u s)
    | lift (JoinSpaceForAPI _ _ ?u ?p ?s) => serve_call (ApiJoinSpace u p s)
    | lift (ListSpaceMembersForAPI ?u ?s ?a ?l) => serve_call (ApiListSpaceMembers u s a l)
    | lift (GetMediaForAPI ?u ?i) => serve_call (ApiGetMedia u i)
    | lift (SaveUploadedBlob _ ?i) => serve_call (ApiUploadMedia i)
    | SendMessageForAPI _ _ ?u ?q => serve_call (ApiSendMessage u q)
    | lift (SyncChannelForAPI _ ?u ?c ?a ?l) => serve_call (ApiSyncChannel u c a l)
    | lift (CreateSpaceForAPI _ _ ?u ?p ?q) => serve_call (ApiCreateSpace u p q)
    | lift (GetCreateGroupPermissionsForAPI _ ?u ?p ?s) => serve_call (ApiCreateGroupPermissions u p s)
    | lift (AdminSetSpaceMemberRoleForAPI _ ?u ?s ?t ?x) => serve_call (ApiSetMemberRole u s t x)
    | lift (AdminSetSpaceChannelCreationForAPI _ ?u ?s ?b) => serve_call (ApiSetChannelCreation u s b)
    | lift (AdminSetGroupAutoDeleteForAPI _ ?u ?c ?n) => serve_call (ApiSetAutoDelete u c n)
    | lift (InviteSpaceMemberForAPI _ _ ?u ?p ?s ?t) => serve_call (ApiInvite u p s t)
    | lift (KickSpaceMemberForAPI _ _ ?u ?p ?s ?t) => serve_call (ApiKick u p s t)
    | lift (BanSpaceMemberForAPI _ _ ?u ?p ?s ?t) => serve_call (ApiBan u p s t)
    | lift (UnbanSpaceMemberForAPI _ _ ?u ?p ?s ?t) => serve_call (ApiUnban u p s t)
    | lift (CreateGroupForAPI _ _ ?u ?p ?q) => serve_call (ApiCreateGroup u p q)
    | lift (CreateChannelForAPI _ _ ?u ?p ?q) => serve_call (ApiCreateChannel u p q)
    | lift (AckDeliveredForAPI ?u ?c ?n) => serve_call (ApiAckDelivered u c n)
    | lift (UpdateReadForAPI ?u ?c ?n) => serve_call (ApiUpdateRead u c n)
    end
  end.

Create HintDb http.
#[export] Hint Unfold handleAuthChallenge handleAuthVerify handleV1Me handleV1ListSpaces handleV1ListChannels
  handleV1JoinSpace handleV1ListSpaceMembers handleV1GetMedia handleV1UploadMedia handleV1SendMessage
  handleV1SyncChannel handleV1CreateSpace handleV1GetCreateSpacePermissions handleV1GetCreateGroupPermissions handleV1AdminSetMemberRole
  handleV1AdminSetChannelCreation handleV1AdminSetGroupAutoDelete handleV1InviteMember handleV1KickMember handleV1BanMember
  handleV1UnbanMember handleV1CreateGroup handleV1CreateChannel handleV1DeliveredAck handleV1ReadUpdate
  handleV1WebSocket with_target : http.

Section server.
Context `{Env} `{Libp2p} `{MediaLib} `{Protobuf} `{Jwt} (h : HttpConf).

Lemma pure_permissions claims : pure_response (answer (lift (GetCreateSpacePermissionsForAPI (h_mc h) (c_PeerID claims)))
  (fun _ => writeJSONError 500 "failed") (fun resp => respond (PCreateSpacePermissions resp))).
Proof. intros g. eexists. cbv [answer mbind SE_bind try lift GetCreateSpacePermissionsForAPI mret SE_ret respond]. by destruct g. Qed.

Lemma routes_served r g : Forall (fun rt => forall pv, served h r g (rt_Handler rt pv r)) (routes h).
Proof.
  unfold routes, registerV1AuthRoutes, registerV1APIRoutes, management_routes. rewrite !Forall_app. split_and!.
  - destruct (_ =? 0); repeat constructor; intros pv; cbn [rt_Handler]; autounfold with http; serve_steps; serve_api.
  - destruct (_ =? 0); [constructor|]. unfold registerV1RESTRoutes. rewrite !Forall_app. split_and!; [|case_match|..].
    all: repeat (constructor; [intros pv; cbn [rt_Handler]; autounfold with http; serve_steps; try serve_api|]); try (by constructor).
    + apply served_pure, pure_permissions.
    + apply served_clock. serve_steps.
  - repeat (constructor; [intros pv; cbn [rt_Handler]; unfold respond; serve_steps|]). constructor.
  - case_match; repeat constructor. intros pv. apply served_ret.
Qed.

(** The routes on the manager answer every request, and change the state at most as one command that it may make. *)
Lemma serve_command r g : served h r g (serve_routes h r).
Proof.
  unfold serve_routes, handle_blob. cbv zeta.
  destruct (list_find _ _) as [[i [rt m]]|] eqn:E.
  - apply list_find_Some in E as (E&_&_). apply list_elem_of_lookup_2 in E. unfold candidates in E.
    apply list_elem_of_omap in E as (rt'&Hin&E). apply bind_Some in E as (m'&_&E). simplify_eq/=.
    pose proof (routes_served r g) as Hr. rewrite Forall_forall in Hr. by apply Hr.
  - repeat case_match; apply served_ret.
Qed.
End server.

(** ** The commands of the IPFS node *)
Inductive NodeCommand :=
| NodeAdd (content : Err + string) (opt : AddFileOptions)
| NodePin (c : string) (recursive : bool)
| NodeUnpin (c : string).
Section node_served.
Context `{Boxo} (e : EmbeddedIPFS).
Implicit Types (s : NodeState) (m : SE NodeState IpfsResponse).

Definition run_node (op : NodeCommand) s : NodeState :=
  match op with
  | NodeAdd content opt => (AddFile (e_cfg e) content opt s).1
  | NodePin c recursive => (Pin c recursive s).1
  | NodeUnpin c => (Unpin c true s).1
  end.
(** What the configuration of the node must allow for a command. *)
Definition node_open (op : NodeCommand) : bool :=
  match op with
  | NodeAdd _ _ => e_apiEnabled e || (e_gatewayEnabled e && e_gatewayWritable e)
  | NodePin _ _ | NodeUnpin _ => e_apiEnabled e
  end.
Definition node_served (ok : NodeCommand -> Prop) m : Prop := forall s,
  exists resp, (m s).2 = inr resp /\ ((m s).1 = s \/ exists op, ok op /\ (m s).1 = run_node op s).

Lemma node_ret ok x : node_served ok (mret x).
Proof. intros s. exists x. auto. Qed.
Lemma node_read ok (f : NodeState -> IpfsResponse) : node_served ok (fun s => (s, inr (f s))).
Proof. intros s. exists (f s). auto. Qed.
(** A command and the answer computed from its result. *)
Lemma node_try {A} ok op (m : SE NodeState A) (k : Err + A -> SE NodeState IpfsResponse) :
  ok op -> (forall s, (m s).1 = run_node op s) -> (forall x s, exists resp, k x s = (s, inr resp)) ->
  node_served ok (x ← try m; k x).
Proof.
  intros Hop Hm Hk s. specialize (Hm s). cbv [mbind SE_bind try]. destruct (m s) as [s1 x]. simpl in Hm.
  destruct (Hk x s1) as [resp E]. exists resp. rewrite E. split; [done|]. right. exists op. by subst.
Qed.
Lemma node_add ok q : (forall content opt, ok (NodeAdd content opt)) -> node_served ok (execIPFSAdd e q).
Proof.
  intros Hok. unfold execIPFSAdd. destruct (r_LimitedForm q _) as [[]|form]; try apply node_ret.
  destruct (mp_File form) as [file|]; [|apply node_ret]. cbv zeta. case_match; [apply node_ret|].
  eapply (node_try _ (NodeAdd _ _)); [apply Hok|done|]. intros [err|c] s1; eexists; done.
Qed.
Lemma node_cid ok q prefix k : (forall c, node_served ok (k c)) -> node_served ok (with_cid q prefix k).
Proof. intros Hk. unfold with_cid. repeat case_match; try apply node_ret. apply Hk. Qed.

(** A handler answers and makes at most one command that is open. *)
Lemma ipfs_route_served q segs m : registerIPFSRoutes e q segs = Some m -> node_served (fun op => node_open op = true) m.
Proof.
  unfold registerIPFSRoutes. destruct (e_gatewayEnabled e && _) eqn:Eg; [|destruct (e_apiEnabled e) eqn:Ea; [|done]].
  - intros [= <-]. unfold serveIPFSGateway. cbv zeta. destruct (e_gatewayWritable e && _ && _) eqn:Ew; [|case_match; apply node_ret].
    unfold handleIPFSGatewayUpload. repeat (case_match; [apply node_ret|]). apply node_add. intros ? ?. simpl.
    apply andb_true_iff in Eg as [-> _]. bools. destruct (e_gatewayWritable e); [|done]. by rewrite orb_true_r.
  - cbn [negb]. assert (forall content opt, node_open (NodeAdd content opt) = true) as Hadd by (intros; simpl; by rewrite Ea).
    repeat (case_match; [intros [= <-]|]); [..|done].
    + unfold handleIPFSAdd. repeat (case_match; [apply node_ret|]). by apply node_add.
    + unfold handleIPFSAddDir. repeat (case_match; [apply node_ret|]). apply node_ret.
    + unfold handleIPFSStat. repeat (case_match; [apply node_ret|]). apply node_cid. intros c. apply node_read.
    + unfold handleIPFSPin. case_match; [apply node_ret|]. apply node_cid. intros c.
      destruct (r_Method q =@ "POST"%string); [|destruct (r_Method q =@ "DELETE"%string); [|apply node_ret]].
      * eapply (node_try _ (NodePin c (pin_recursive q))); [done|done|]. intros x s1. by eexists.
      * eapply (node_try _ (NodeUnpin c)); [done|done|]. intros x s1. by eexists.
Qed.
End node_served.


(** The requests that are the manager's. *)
Lemma serve_on_routes `{Env} `{Libp2p} `{MediaLib} `{Protobuf} `{Jwt} `{Boxo} (h : HttpConf) r x rest :
  cleanPath (to_bytes (r_EscapedPath r)) = to_bytes (r_EscapedPath r) -> path_elems r = x :: rest ->
  x <> "ipfs"%string -> x <> "api"%string -> (x = "blobs"%string -> rest <> []) ->
  ServeHTTP h r = on_mgr (serve_routes h r).
Proof.
  intros Hclean Er Hi Ha Hb. unfold ServeHTTP. cbv zeta. rewrite Hclean.
  replace (if _ =@ _ then _ else _) with (to_bytes (r_EscapedPath r)) by (by case_match).
  change (elems (to_bytes (r_EscapedPath r))) with (path_elems r). rewrite bool_decide_false.
  2: { rewrite Er. unfold subtrees. rewrite elem_of_app. intros [E|E]; [destruct (serve_blobs h); set_solver|].
       destruct (h_EmbeddedIPFS h) as [emb|]; [|set_solver]. destruct (e_apiEnabled emb); set_solver. }
  rewrite bool_decide_true by done. cbn [negb].
  replace (h_EmbeddedIPFS h ≫= _) with (None : option (SE NodeState IpfsResponse)); [done|].
  destruct (h_EmbeddedIPFS h) as [emb|]; [|done]. simpl. unfold registerIPFSRoutes. rewrite Er. unfold below. simpl.
  rewrite !bool_decide_false by congruence. by destruct (e_gatewayEnabled emb), (e_apiEnabled emb).
Qed.

(** ** Requests without a valid token *)
Section no_token.
Context `{Env} `{Libp2p} `{MediaLib} `{Protobuf} `{Jwt} `{Boxo} (h : HttpConf).

Lemma jwt_refused r g k e : token_claims h r g = inl e -> requireBearerJWT h r k g = (g, inr (writeJSONError 401 "authentication required")).
Proof.
  intros E. unfold requireBearerJWT. cbv [mbind SE_bind lift time_now]. unfold token_claims in E. rewrite E. by destruct g.
Qed.

(** The request has no valid token, and if it opens a WebSocket, none in the query either. *)
Definition no_token r g : Prop :=
  (exists e, token_claims h r g = inl e) /\
  (path_elems r = ["v1"; "ws"]%string -> exists e, claimsForWebSocket h r (w_clock (g_world g)) = inl e).

(** What the handlers do then, and facts on the patterns of the API. *)
Record refuses r g (rt : Route) : Prop := {
  rf_method : exists method, rt_Method rt = Some method /\ method <> "HEAD"%string;
  rf_handler : forall pv, rt_Method rt = Some (r_Method r) -> rt_Handler rt pv r g = (g, inr (writeJSONError 401 "authentication required"));
  rf_v1 : exists p, rt_Pattern rt = Lit "v1" :: p;
  rf_challenge : match_pattern (rt_Pattern rt) ["v1"; "auth"; "challenge"]%string = None;
  rf_verify : match_pattern (rt_Pattern rt) ["v1"; "auth"; "verify"]%string = None }.

Lemma match_ws segs m : match_pattern [Lit "v1"; Lit "ws"] segs = Some m -> segs = ["v1"; "ws"]%string.
Proof. destruct segs as [|a [|b [|]]]; simpl; repeat case_bool_decide; intros; simplify_eq/=; done. Qed.

Lemma api_route_refuses r g rt :
  no_token r g -> rt ∈ registerV1APIRoutes h -> is_Some (match_pattern (rt_Pattern rt) (path_elems r)) -> refuses r g rt.
Proof.
  intros [[e He] Hws] Hin [vars Hmatch]. unfold registerV1APIRoutes, registerV1RESTRoutes in Hin. destruct (_ =? 0); [set_solver|].
  rewrite !elem_of_app in Hin. repeat (rewrite elem_of_cons in Hin).
  destruct (h_Media h && _); rewrite ?elem_of_cons, ?elem_of_nil in Hin.
  all: repeat match type of Hin with _ \/ _ => destruct Hin as [Hin|Hin] end; try done; subst rt;
    (split; [by eexists| |by eexists|reflexivity|reflexivity]); intros pv [= Em];
    cbn [rt_Handler]; autounfold with http; unfold allow_method; rewrite <- Em, bool_decide_true by done; cbn [negb]; try by eapply jwt_refused.
  all: apply match_ws in Hmatch; destruct (Hws Hmatch) as [e' He']; cbv [mbind SE_bind lift time_now]; rewrite He'; by destruct g.
Qed.

(** The other routes have other paths. *)
Lemma match_lits l segs m : match_pattern (Lit <$> l) segs = Some m -> segs = l.
Proof.
  revert segs m. induction l as [|x l IH]; intros [|y segs] m; simpl; try done. case_bool_decide; [|done]. subst. intros E. f_equal. by eapply IH.
Qed.
Lemma only_api_matches r rt rt' m :
  (exists g, refuses r g rt) -> is_Some (match_pattern (rt_Pattern rt) (path_elems r)) ->
  rt' ∈ routes h -> match_pattern (rt_Pattern rt') (path_elems r) = Some m -> rt' ∈ registerV1APIRoutes h.
Proof.
  intros [g [_ _ [p Hp] Hch Hve]] [vars Hm] Hin Hm'. unfold routes in Hin. rewrite !elem_of_app in Hin.
  destruct Hin as [Hin|[Hin|Hin]]; [exfalso| done |exfalso].
  - unfold registerV1AuthRoutes in Hin. destruct (_ =? 0); [set_solver|]. rewrite !elem_of_cons, elem_of_nil in Hin.
    destruct Hin as [->|[->|[]]]; cbn [rt_Pattern] in Hm'.
    + apply (match_lits ["v1"; "auth"; "challenge"]%string) in Hm'. rewrite Hm', Hch in Hm. done.
    + apply (match_lits ["v1"; "auth"; "verify"]%string) in Hm'. rewrite Hm', Hve in Hm. done.
  - assert (exists rest, path_elems r = "v1"%string :: rest) as [rest Er].
    { rewrite Hp in Hm. destruct (path_elems r) as [|x rest]; [done|]. simpl in Hm. case_bool_decide; [|done]. subst. eauto. }
    rewrite Er in Hm'. unfold management_routes in Hin. rewrite elem_of_app, !elem_of_cons, elem_of_nil in Hin.
    destruct Hin as [[->|[->|[->|[]]]]|Hin]; [done..|]. case_match; [|set_solver]. apply list_elem_of_singleton in Hin as ->. done.
Qed.

(** C17: the API refuses requests without a valid token.  A request whose path and method are those of
    a route of the API (every route but the two of the login, the management routes, blobs and IPFS), and
    which carries no valid token in its Authorization header, is answered 401 by the server and changes
    nothing, neither the manager, the store nor the IPFS node, whatever its path values, its query and its
    body are.  Only for the WebSocket route a valid token may come in the query instead: there the request is
    refused when that one is invalid too.  (The path is in its clean form; others are redirected.) *)
Theorem unauthenticated_refused rt r s :
  rt ∈ registerV1APIRoutes h -> is_Some (match_pattern (rt_Pattern rt) (path_elems r)) -> rt_Method rt = Some (r_Method r) ->
  cleanPath (to_bytes (r_EscapedPath r)) = to_bytes (r_EscapedPath r) -> no_token r (s_mgr s) ->
  ServeHTTP h r s = (s, inr (FromManager (writeJSONError 401 "authentication required"))).
Proof.
  intros Hin Hmatch Hmeth Hclean Hno. pose proof (api_route_refuses r (s_mgr s) rt Hno Hin Hmatch) as Hrf.
  assert (exists rest, path_elems r = "v1"%string :: rest) as [rest Er].
  { destruct (rf_v1 _ _ _ Hrf) as [p Hp]. rewrite Hp in Hmatch. destruct (path_elems r) as [|x rest]; [by destruct Hmatch|].
    simpl in Hmatch. case_bool_decide; [|by destruct Hmatch]. subst. eauto. }
  assert (exists i rt' m, list_find (fun c => method_matches (rt_Method c.1) (r_Method r) = true) (candidates h (path_elems r)) = Some (i, (rt', m)))
    as (i&rt'&m&Ef).
  { destruct Hmatch as [vars Hv].
    assert ((rt, vars) ∈ candidates h (path_elems r)) as Hc.
    { apply list_elem_of_omap. exists rt. split; [unfold routes; rewrite !elem_of_app; auto|]. by rewrite Hv. }
    destruct (list_find_elem_of (fun c => method_matches (rt_Method c.1) (r_Method r) = true) _ _ Hc) as [[i [rt' m]] E];
      [simpl; rewrite Hmeth; simpl; by rewrite bool_decide_true|]. by exists i, rt', m. }
  assert (rt' ∈ registerV1APIRoutes h /\ is_Some (match_pattern (rt_Pattern rt') (path_elems r)) /\ method_matches (rt_Method rt') (r_Method r) = true)
    as (Hin'&Hm'&Hmm).
  { apply list_find_Some in Ef as (El&Hmm&_). apply list_elem_of_lookup_2, list_elem_of_omap in El as (x&Hx&Ex).
    apply bind_Some in Ex as (m'&Em'&Ex). simplify_eq/=. split_and!; [by eapply only_api_matches; eauto|by eexists|done]. }
  pose proof (api_route_refuses r (s_mgr s) rt' Hno Hin' Hm') as Hrf'.
  assert (rt_Method rt' = Some (r_Method r)) as Hmeth'.
  { destruct (rf_method _ _ _ Hrf) as (me&E1&Hh), (rf_method _ _ _ Hrf') as (me'&E2&_). rewrite E2 in *. rewrite Hmeth in E1. simplify_eq.
    simpl in Hmm. apply orb_true_iff in Hmm as [->%bool_decide_eq_true|[_ Hmm%bool_decide_eq_true]%andb_true_iff]; done. }
  rewrite (serve_on_routes h r "v1" rest) by done.
  unfold on_mgr, serve_routes. cbv zeta. rewrite Ef. by rewrite (rf_handler _ _ _ Hrf' _ Hmeth'); destruct s.
Qed.
End no_token.

(** ** Tokens *)
Section tokens.
Context `{Jwt} `{!JwtLaws}.

Lemma keyfunc_HS256 secret : keyfunc secret "HS256" = inr secret.
Proof. done. Qed.

(** A token issued by the server authenticates its user from the moment it is issued until the
    last whole second before its expiry, in the Authorization header of any request, and is refused from
    the expiry on. *)
Theorem access_token_lifetime secret user ttl now token exp :
  SignHTTPAccessToken secret user ttl now = inr (token, exp) ->
  (forall t, now <= t < exp / ns_per_s * ns_per_s -> exists claims,
     ClaimsFromHTTPRequest (bearer token) secret t = inr claims /\
     c_UserDBID claims = UserDBID user /\ c_UserExtID claims = UserID user /\ c_PeerID claims = PeerID user) /\
  (forall t, exp <= t -> exists e, ClaimsFromHTTPRequest (bearer token) secret t = inl e).
Proof.
  unfold SignHTTPAccessToken. cbv zeta. set (ttl' := if ttl <=? 0 then _ else ttl).
  destruct (SignedString _ _ _) as [e|tok] eqn:E; [done|]. intros [= -> <-].
  destruct (jwt_compact _ _ _ E) as [Hne Hc].
  assert (now / ns_per_s * ns_per_s <= now) as Hnow by (rewrite Z.mul_comm; apply Z.mul_div_le; done).
  split; intros t Ht; unfold ClaimsFromHTTPRequest; rewrite (ParseBearer_token _ Hne Hc); unfold ParseHTTPAccessToken.
  - rewrite (jwt_accepts _ _ _ (keyfunc secret) t E (keyfunc_HS256 secret)) by (simpl; lia). simpl. eauto.
  - assert ((now + ttl') / ns_per_s * ns_per_s <= now + ttl') by (rewrite Z.mul_comm; apply Z.mul_div_le; done).
    destruct (jwt_refuses _ _ _ (keyfunc secret) t E (keyfunc_HS256 secret)) as [e He]; [simpl; lia|]. rewrite He. eauto.
Qed.
End tokens.

(** ** A concrete token library: the bits of a number that stands for the key and the claims *)
Definition claims_number (alg key : string) (c : AccessTokenClaims) : positive :=
  encode [encode alg; encode key; encode (c_UserDBID c); encode (c_UserExtID c); encode (c_PeerID c); encode (c_Subject c);
          encode (c_IssuedAt c); encode (c_ExpiresAt c); encode (c_NotBefore c)].
Definition claims_of_number (p : positive) : option (string * string * AccessTokenClaims) :=
  l ← decode p;
  match l with
  | [a; k; u; e; p; s; i; x; n] =>
    alg ← decode a; key ← decode k; uid ← decode u; ext ← decode e; peer ← decode p; sub ← decode s;
    iat ← decode i; exp ← decode x; nbf ← decode n; Some (alg, key, mkClaims uid ext peer sub iat exp nbf)
  | _ => None
  end.
Lemma claims_of_claims_number alg key c : claims_of_number (claims_number alg key c) = Some (alg, key, c).
Proof. unfold claims_of_number, claims_number. rewrite decode_encode. cbn [mbind option_bind]. rewrite !decode_encode. by destruct c. Qed.
Fixpoint bits_of (p : positive) : bytes :=
  match p with xH => [byte 50] | xO p => byte 48 :: bits_of p | xI p => byte 49 :: bits_of p end.
Fixpoint of_bits (l : bytes) : positive :=
  match l with a :: l => if a =@ byte 48 then xO (of_bits l) else if a =@ byte 49 then xI (of_bits l) else xH | [] => xH end.
#[export] Instance demo_jwt : Jwt := {
  SignedString := fun alg key c => inr (of_bytes (bits_of (claims_number alg key c)));
  ParseWithClaims := fun keyfunc now t =>
    match claims_of_number (of_bits (to_bytes t)) with
    | Some (alg, key, c) =>
      match keyfunc alg with
      | inl e => inl e
      | inr k => if negb (k =@ key) then inl (Errorf "token signature is invalid")
                 else if (c_NotBefore c * ns_per_s <=? now) && (now <? c_ExpiresAt c * ns_per_s) then inr (c, true)
                 else inl (Errorf "token is expired")
      end
    | None => inl (Errorf "token is malformed")
    end }.
Lemma of_bits_of p : of_bits (bits_of p) = p.
Proof. induction p; cbn; by rewrite ?IHp. Qed.
#[export] Instance demo_jwt_laws : JwtLaws.
Proof.
  split; simpl.
  - intros key c t [= <-]. rewrite to_of_bytes. generalize (claims_number "HS256" key c). intros p.
    split; [by destruct p|]. induction p; simpl; repeat constructor; done.
  - intros key c t kf now [= <-] Hk [H1 H2]. rewrite to_of_bytes, of_bits_of, claims_of_claims_number, Hk, bool_decide_true by done.
    apply Z.leb_le in H1. apply Z.ltb_lt in H2. by rewrite H1, H2.
  - intros key c t kf now [= <-] Hk Ht. rewrite to_of_bytes, of_bits_of, claims_of_claims_number, Hk, bool_decide_true by done. simpl.
    destruct (Z.leb_spec (c_NotBefore c * ns_per_s) now), (Z.ltb_spec now (c_ExpiresAt c * ns_per_s)); simpl; eauto. lia.
Qed.

(** ** Concrete requests *)
Definition demo_http : HttpConf :=
  mkHttpConf demo_mc "secret" 0 true 10485760 (Some true) (Some "dev"%string) true "/srv/blobs" true (Some demo_ipfs) (inr "/"%string).
Definition demo_state : HttpState := mkHttpState demo demo_node.
Definition no_user : User := mkUser 0 "" "" None "" "" "" 0 0 0 0.
Definition carol : User := Eval vm_compute in match (GetByID 3 (g_world demo)).2 with inr u => u | inl _ => no_user end.
Definition carol_login : string * Z := Eval vm_compute in
  match SignHTTPAccessToken "secret" carol 0 demo_clock with inr x => x | inl _ => (""%string, 0) end.
Definition request (method path auth body : string) : Request := mkRequest method path [] auth (inr body) None (fun _ => inl FormInvalid) 0.
Definition carol_asks (method path body : string) : Request := request method path (bearer carol_login.1) (quoted body).
Definition answered (m : SE HttpState Answer) (s : HttpState) : option Response :=
  match (m s).2 with inr (FromManager x) => Some x | _ => None end.

Example carol_me : answered (ServeHTTP demo_http (carol_asks "GET" "/v1/me" "")) demo_state = Some (mkResponse 200 (PUser carol)).
Proof. vm_compute. reflexivity. Qed.
Example carol_joins : status <$> answered (ServeHTTP demo_http (carol_asks "POST" "/v1/spaces/1/join" "")) demo_state = Some 200.
Proof. vm_compute. reflexivity. Qed.
Example carol_head : status <$> answered (ServeHTTP demo_http (carol_asks "HEAD" "/v1/me" "")) demo_state = Some 405.
Proof. vm_compute. reflexivity. Qed.
Example carol_elsewhere : status <$> answered (ServeHTTP demo_http (carol_asks "GET" "/v2/me" "")) demo_state = Some 404.
Proof. vm_compute. reflexivity. Qed.

(** The IPFS routes: a file is added without a token, and a path without its last slash is redirected. *)
Example anyone_adds : (ServeHTTP demo_http add_request demo_state).2 = inr (FromNode (IAdded demo_cid 5 true)).
Proof. vm_compute. reflexivity. Qed.
Example pin_redirected : answered (ServeHTTP demo_http (request "GET" "/api//ipfs/pin" "" "")) demo_state = Some (mkResponse 301 (PRedirect "/api/ipfs/pin/")).
Proof. vm_compute. reflexivity. Qed.
Example gateway_reads : (ServeHTTP demo_http (request "GET" ("/ipfs/" +:+ demo_cid) "" "") demo_state).2 = inr (FromNode IGateway).
Proof. vm_compute. reflexivity. Qed.

(** A [null] attachment crashes the request: the handler follows the nil pointer. *)
Example null_attachment_panics :
  answered (ServeHTTP demo_http (carol_asks "POST" "/v1/channels/1/messages" "{'client_msg_id':'m1','content':{'images':[null]}}")) demo_state
  = Some (mkResponse 0 PPanic).
Proof. vm_compute. reflexivity. Qed.

Definition me_route : Route := mkRoute (Some "GET"%string) [Lit "v1"; Lit "me"] (fun _ => handleV1Me demo_http).
(** A token in the query does not help. *)
Definition token_in_query : Request :=
  mkRequest "GET" "/v1/me" [("access_token", carol_login.1)]%string "" (inr ""%string) None (fun _ => inl FormInvalid) 0.
Lemma unauthenticated_refused_witness :
  ServeHTTP demo_http token_in_query demo_state = (demo_state, inr (FromManager (writeJSONError 401 "authentication required"))).
Proof.
  apply (unauthenticated_refused demo_http me_route); [|by eexists|reflexivity|vm_compute; reflexivity|].
  - unfold registerV1APIRoutes. apply elem_of_app. left. apply list_elem_of_here.
  - split; [eexists; vm_compute; reflexivity|]. intros E. apply (f_equal (fun l => l !! 1%nat)) in E. vm_compute in E. discriminate.
Defined.

Lemma access_token_lifetime_witness :
  SignHTTPAccessToken "secret" carol 0 demo_clock = inr carol_login /\
  exists claims, ClaimsFromHTTPRequest (bearer carol_login.1) "secret" (demo_clock + minute) = inr claims /\
    c_UserDBID claims = 3 /\ c_PeerID claims = "carol"%string.
Proof.
  assert (SignHTTPAccessToken "secret" carol 0 demo_clock = inr (carol_login.1, carol_login.2)) as E by (vm_compute; reflexivity).
  split; [exact E|].
  destruct (proj1 (access_token_lifetime "secret" carol 0 demo_clock carol_login.1 carol_login.2 E)
    (demo_clock + minute)) as (claims&H&Hu&_&Hp); [vm_compute; split; [discriminate|reflexivity]|].
  exists claims. split; [exact H|]. split; [exact Hu|exact Hp].
Defined.
