(* ===== verification/BlobHttp.v ===== *)
(** * Blob files over HTTP

    The paths that [resolveBlobFilePath] accepts, and the way from the URL in
    a message event to the file on disk. *)
From S2P Require Import Prelude Go Encoding Strconv Paths Json Schema Config ConfigLoad Store SpaceRepo UserRepo MessageRepo.
From S2P Require Import BlobRepo Auth Proto Codec Media Messaging Session Manager Dispatch System Demo MediaThms.
From S2P Require Import Jwt HttpReq Ipfs IpfsThms Http HttpThms.

(** ** Blob paths *)
(** What the path of a request means: its elements with [.] and [..] resolved below the root. *)
Definition request_segs (urlPath : string) : list seg := clean_segs true (split_on sep (to_bytes (trim_one_slash urlPath))).

Lemma trim_one_slash_abs segs : trim_one_slash (of_bytes (abs_path segs)) = of_bytes (join segs).
Proof. unfold trim_one_slash, abs_path. rewrite to_of_bytes. by rewrite bool_decide_true. Qed.

Lemma below_not_up ps : Forall normal ps -> ps <> [] ->
  join ps <> dotdot /\ join ps <> dot /\ join ps <> [] /\ strip_prefix (to_bytes "../") (join ps) = None.
Proof.
  intros Hp Hne. assert (forall s, normal s -> join ps = join [s] -> ps = [s]) as Hj.
  { intros s Hs E. apply join_inj in E; [done..|by constructor]. }
  pose proof (split_join ps Hne (normal_plain _ Hp)) as Hs. destruct ps as [|p ps]; [done|].
  apply Forall_cons in Hp as [(Hpp&H1&H2&H3) Hp]. split_and!.
  - intros E. rewrite E in Hs. change (split_on sep dotdot) with [dotdot] in Hs. congruence.
  - intros E. rewrite E in Hs. change (split_on sep dot) with [dot] in Hs. congruence.
  - intros E. rewrite E in Hs. change (split_on sep []) with [[] : seg] in Hs. congruence.
  - destruct (strip_prefix _ _) as [l|] eqn:E; [|done]. apply strip_prefix_app in E. rewrite E in Hs.
    change (to_bytes "../" ++ l) with (dotdot ++ sep :: l) in Hs. rewrite split_app_sep in Hs; [congruence|].
    by apply (bool_decide_unpack _).
Qed.

Lemma resolve_spec w root urlPath : is_abs (to_bytes w) = true ->
  exists rs, Forall normal rs /\ Abs (inr w) (Clean root) = inr (of_bytes (abs_path rs)) /\
    resolveBlobFilePath (inr w) root urlPath =
    (if request_segs urlPath =@ [] then inl errBlobPathEmpty else inr (of_bytes (abs_path (rs ++ request_segs urlPath)))).
Proof.
  intros Hw. destruct (Abs_normal w (Clean root) Hw) as (rs&Hr&HR). exists rs. split_and!; [done..|].
  assert (Forall normal (request_segs urlPath)) as Hn by apply clean_segs_rooted, split_plain.
  unfold resolveBlobFilePath. rewrite HR. cbv zeta.
  assert (Clean ("/" +:+ trim_one_slash urlPath) = of_bytes (abs_path (request_segs urlPath))) as ->.
  { unfold Clean. rewrite to_bytes_app. by destruct (clean_bytes_abs (to_bytes "/" ++ to_bytes (trim_one_slash urlPath)) eq_refl) as [-> _]. }
  rewrite trim_one_slash_abs. set (ps := request_segs urlPath) in *. destruct (bool_decide_reflect (ps = [])) as [->|Hne].
  { by rewrite bool_decide_true. }
  destruct (below_not_up ps Hn Hne) as (Hu&Hd&He&Hx).
  assert (forall s, join ps <> to_bytes s -> (of_bytes (join ps) =@ s) = false) as Hb.
  { intros s Hs. apply bool_decide_eq_false. intros E. apply Hs. by rewrite <- E, to_of_bytes. }
  rewrite !Hb by done. cbn [orb].
  assert (Join [of_bytes (abs_path rs); of_bytes (join ps)] = of_bytes (abs_path (rs ++ ps))) as ->.
  { cbn [Join]. rewrite bool_decide_false by done. cbn [fmap list_fmap]. rewrite !to_of_bytes. cbn [join].
    destruct (clean_bytes_abs (abs_path rs ++ sep :: join ps) eq_refl) as [-> _]. by rewrite path_segs_app. }
  rewrite Abs_self by (by apply Forall_app). rewrite Rel_below by done.
  rewrite Hb by done. rewrite to_of_bytes, Hx. by rewrite bool_decide_false.
Qed.

(** C29: a blob request never leaves the blob root, whatever its path is (the check of the code for
    paths outside never fires): the empty path is refused, every other one names the file reached from the
    root by the elements of the path, without [.], [..] or empty ones. *)
Theorem blob_requests_confined w root urlPath : is_abs (to_bytes w) = true ->
  exists rs, Abs (inr w) (Clean root) = inr (of_bytes (abs_path rs)) /\
    match resolveBlobFilePath (inr w) root urlPath with
    | inl e => e = errBlobPathEmpty /\ request_segs urlPath = []
    | inr target => exists ps, ps <> [] /\ Forall normal ps /\ ps = request_segs urlPath /\ target = of_bytes (abs_path (rs ++ ps))
    end.
Proof.
  intros Hw. destruct (resolve_spec w root urlPath Hw) as (rs&Hr&HR&E). exists rs. split; [done|]. rewrite E.
  destruct (bool_decide_reflect (request_segs urlPath = [])) as [|Hne]; [done|].
  exists (request_segs urlPath). split_and!; try done. apply clean_segs_rooted, split_plain.
Qed.

(** ** The URL of a stored blob *)
Definition hex_char (a : ascii) : bool := in_range 48 57 a || in_range 97 102 a.
Lemma hex_encode_chars s : Forall (fun a => hex_char a = true) (to_bytes (hex_encode s)).
Proof.
  unfold hex_encode. rewrite to_of_bytes.
  assert (forall n, (n < 16)%nat -> hex_char (hex_digit n) = true) as Hd.
  { intros n Hn. do 16 (destruct n as [|n]; [done|]). lia. }
  induction (to_bytes s) as [|a l IH]; cbn -[Nat.div Nat.modulo hex_char hex_digit]; [constructor|]. pose proof (Ascii.nat_ascii_bounded a).
  repeat constructor; [apply Hd..|done]; [apply Nat.Div0.div_lt_upper_bound; lia|apply Nat.mod_upper_bound; lia].
Qed.
Lemma hex_encode_length s : length (to_bytes (hex_encode s)) = (2 * length (to_bytes s))%nat.
Proof. unfold hex_encode. rewrite to_of_bytes. induction (to_bytes s) as [|a l IH]; cbn -[Nat.div Nat.modulo Nat.mul]; [done|]. rewrite IH. lia. Qed.
Lemma Sum256_length s : length (to_bytes (Sha256.Sum256 s)) = 32%nat.
Proof.
  unfold Sha256.Sum256. rewrite to_of_bytes. cbv zeta. set (m := Sha256.pad _).
  assert (forall h kw, length h = 8%nat -> length (Sha256.round h kw) = 8%nat) as Hr.
  { intros h kw Hh. do 8 (destruct h as [|? h]; [done|]). by destruct h. }
  assert (forall kws h, length h = 8%nat -> length (fold_left Sha256.round kws h) = 8%nat) as Hf.
  { induction kws as [|kw kws IH]; intros h Hh; simpl; auto. }
  assert (forall n h l, length h = 8%nat -> length (Sha256.blocks n h l) = 8%nat) as Hb.
  { induction n as [|n IH]; intros h l Hh; simpl; [done|]. apply IH. unfold Sha256.compress. by rewrite length_zip_with, Hf, Hh. }
  specialize (Hb (length m / 64)%nat Sha256.H0 m eq_refl). revert Hb. generalize (Sha256.blocks (length m / 64) Sha256.H0 m).
  intros l Hl. do 8 (destruct l as [|? l]; [done|]). by destruct l.
Qed.

Lemma hex_not_special a : hex_char a = true -> a <> sep /\ a <> byte 46 /\ a <> byte 37.
Proof. intros Ha. split_and!; intros ->; done. Qed.
Lemma hex_normal s : s <> [] -> Forall (fun a => hex_char a = true) s -> normal s.
Proof.
  intros Hne Hs. rewrite Forall_forall in Hs. split_and!; [|done|..].
  - intros Hin. by destruct (hex_not_special _ (Hs _ Hin)).
  - intros ->. by destruct (hex_not_special (byte 46) (Hs _ (list_elem_of_here _ _))) as (_&?&_).
  - intros ->. by destruct (hex_not_special (byte 46) (Hs _ (list_elem_of_here _ _))) as (_&?&_).
Qed.
Lemma unescape_plain l : byte 37 ∉ l -> unescape l = l.
Proof.
  intros Hl. cut (forall n l, (length l <= n)%nat -> byte 37 ∉ l -> unescape l = l); [intros H; by eapply H|]. clear.
  induction n as [|n IH]; intros [|a l] Hn Hl; try done; simpl in Hn; [lia|].
  rewrite not_elem_of_cons in Hl. destruct Hl as [Ha Hl].
  cbn [unescape]. destruct l as [|b [|c l]]; rewrite ?(bool_decide_false (a = byte 37)) by congruence; by rewrite IH by (done || simpl in *; lia).
Qed.

(** The elements of the storage path of a blob. *)
Definition blob_segs (sha : string) : list seg :=
  [take 2 (to_bytes sha); take 2 (drop 2 (to_bytes sha)); to_bytes sha].
Lemma blob_path_segs sha : to_bytes (blob_path sha) = join (blob_segs sha).
Proof. unfold blob_path, substr. rewrite !to_bytes_app, !to_of_bytes. done. Qed.
Lemma blob_segs_hex content : Forall (fun s => s <> [] /\ Forall (fun a => hex_char a = true) s) (blob_segs (sha_of content)).
Proof.
  pose proof (hex_encode_chars (Sha256.Sum256 content)) as Hc. pose proof (hex_encode_length (Sha256.Sum256 content)) as Hl.
  rewrite Sum256_length in Hl. fold (sha_of content) in Hc, Hl. unfold blob_segs.
  assert (forall l : bytes, (0 < length l)%nat -> l <> []) as Hne by (intros []; simpl; [lia|done]).
  repeat constructor; try (apply Hne; rewrite ?length_take, ?length_drop; lia); [by apply Forall_take|by apply Forall_take, Forall_drop|done].
Qed.

Section blob_url.
Context `{Env} `{Libp2p} `{MediaLib} `{Protobuf} `{Jwt} `{Boxo} (h : HttpConf).
Let blobs : seg := to_bytes "blobs".

Lemma trim_one_slash_id l : head l <> Some sep -> trim_one_slash (of_bytes l) = of_bytes l.
Proof. intros Hl. unfold trim_one_slash. rewrite to_of_bytes. destruct l as [|a l]; [done|]. rewrite bool_decide_false; [done|]. by intros ->. Qed.
Lemma blob_segs_head content : head (join (blob_segs (sha_of content))) <> Some sep.
Proof.
  pose proof (blob_segs_hex content) as Hs. apply Forall_cons in Hs as [[Hne Hc] _]. unfold blob_segs.
  change (join (?a :: ?b :: ?c)) with (a ++ sep :: join (b :: c)). destruct (take 2 _) as [|x s]; [done|].
  apply Forall_cons in Hc as [Hx _]. apply hex_not_special in Hx as [Hx _]. cbn. congruence.
Qed.
Lemma blobURL_segs content :
  to_bytes (blobURL "/blobs/" (blob_path (sha_of content))) = abs_path (blobs :: blob_segs (sha_of content)).
Proof.
  unfold blobURL. rewrite !to_bytes_app. unfold TrimLeftSlash. rewrite to_of_bytes, blob_path_segs.
  rewrite trim_bytes_id; [done|]. pose proof (blob_segs_head content) as Hh.
  destruct (join _) as [|x l]; [done|]. cbn in *. rewrite decide_False; [done|]. by intros <-.
Qed.
Lemma no_route_blobs segs : candidates h ("blobs"%string :: segs) = [].
Proof.
  unfold candidates. assert (Forall (fun rt => match_pattern (rt_Pattern rt) ("blobs"%string :: segs) = None) (routes h)) as Hr.
  { unfold routes, registerV1AuthRoutes, registerV1APIRoutes, registerV1RESTRoutes, management_routes. rewrite !Forall_app.
    split_and!; repeat case_match; rewrite ?Forall_app; repeat split; repeat (constructor; [reflexivity|]); constructor. }
  induction Hr as [|rt rts Hrt Hr IH]; [done|]. cbn [omap list_omap]. by rewrite Hrt.
Qed.
Lemma last_abs_path segs : Forall normal segs -> segs <> [] -> last (abs_path segs) <> Some sep.
Proof.
  intros Hn Hne. unfold abs_path. assert (last (join segs) <> Some sep /\ join segs <> []) as [Hl Hj].
  { induction Hn as [|s segs [Hp [Hs _]] Hn IH]; [done|]. destruct segs as [|s' segs].
    - simpl. split; [|done]. intros Hl%last_Some_elem_of. by apply Hp.
    - destruct (IH ltac:(done)) as [Hl Hj]. change (join (s :: s' :: segs)) with (s ++ sep :: join (s' :: segs)).
      split; [|by destruct s]. rewrite last_app_cons. by destruct (join (s' :: segs)). }
  by destruct (join segs).
Qed.

(** The requests for the URL of a blob: its elements are read back. *)
Lemma blob_request_segs r content : r_EscapedPath r = blobURL "/blobs/" (blob_path (sha_of content)) ->
  let raw := to_bytes (r_EscapedPath r) in
  cleanPath raw = raw /\ path_elems r = "blobs"%string :: (of_bytes <$> blob_segs (sha_of content)) /\
  request_segs (of_bytes (drop 7 (to_bytes (URLPath r)))) = blob_segs (sha_of content) /\
  is_Some (strip_prefix (to_bytes "/blobs/") raw).
Proof.
  intros Er raw. unfold raw, path_elems, elems, URLPath. rewrite Er, blobURL_segs. pose proof (blob_segs_hex content) as Hs.
  set (ss := blob_segs (sha_of content)) in *.
  assert (Forall normal ss) as Hn by (eapply Forall_impl; [exact Hs|]; intros s [? ?]; by apply hex_normal).
  assert (Forall normal (blobs :: ss)) as Hbn.
  { constructor; [|done]. split_and!; [by apply (bool_decide_unpack _)|done..]. }
  assert (forall s, s ∈ blobs :: ss -> byte 37 ∉ s) as Hp.
  { intros s [->|Hin]%elem_of_cons; [by apply (bool_decide_unpack _)|]. rewrite Forall_forall in Hs.
    destruct (Hs s Hin) as [_ Hc]. rewrite Forall_forall in Hc. intros Hx%Hc. by apply hex_not_special in Hx as (_&_&?). }
  assert (byte 37 ∉ abs_path (blobs :: ss)) as Hpa.
  { unfold abs_path. clear -Hp. rewrite not_elem_of_cons. split; [done|]. induction (blobs :: ss) as [|s l IH]; [apply not_elem_of_nil|].
    destruct l as [|s' l]; [apply Hp; set_solver|]. change (join (s :: s' :: l)) with (s ++ sep :: join (s' :: l)).
    rewrite not_elem_of_app, not_elem_of_cons. split_and!; [apply Hp; set_solver|done|apply IH; set_solver]. }
  split_and!.
  - unfold cleanPath. rewrite bool_decide_false by done. cbv zeta. rewrite is_abs_path.
    destruct (clean_bytes_abs (abs_path (blobs :: ss)) eq_refl) as [-> _]. rewrite path_segs_abs by done.
    rewrite (bool_decide_false (last _ = _)); [done|]. by apply last_abs_path.
  - change (drop 1 (abs_path (blobs :: ss))) with (join (blobs :: ss)). rewrite split_join by (done || by apply normal_plain).
    cbn [fmap list_fmap]. rewrite unescape_plain by (by apply (bool_decide_unpack _)). f_equal.
    apply list_fmap_ext. intros i s Hi. f_equal. apply unescape_plain, Hp. apply list_elem_of_lookup_2 in Hi. by apply list_elem_of_further.
  - rewrite unescape_plain by done. rewrite to_of_bytes. change (drop 7 (abs_path (blobs :: ss))) with (join ss).
    unfold request_segs. rewrite trim_one_slash_id, to_of_bytes.
    + rewrite split_join by (done || by apply normal_plain). by apply clean_segs_normal.
    + by apply blob_segs_head.
  - by exists (join ss).
Qed.

(** The URL that message events give for a stored blob leads back to the blob: the server answers it
    with the file at the storage path of the content under the blob root. *)
Theorem blob_url_served w content r s :
  h_wd h = inr w -> is_abs (to_bytes w) = true -> serve_blobs h = true ->
  r_EscapedPath r = blobURL "/blobs/" (blob_path (sha_of content)) ->
  exists rs, Abs (inr w) (Clean (h_BlobRoot h)) = inr (of_bytes (abs_path rs)) /\
    ServeHTTP h r s = (s, inr (FromManager (mkResponse 200 (PFile (of_bytes (abs_path rs ++ (if rs =@ [] then [] else [sep]) ++ to_bytes (blob_path (sha_of content)))))))).
Proof.
  intros Hw Ha Hs Er. destruct (blob_request_segs r content Er) as (Hc&Hp&Hq&[x Hx]).
  destruct (resolve_spec w (h_BlobRoot h) (of_bytes (drop 7 (to_bytes (URLPath r)))) Ha) as (rs&Hr&HR&E).
  exists rs. split; [done|]. rewrite (serve_on_routes h r "blobs" _ Hc Hp) by done.
  unfold on_mgr, serve_routes. cbv zeta. rewrite Hp, no_route_blobs. cbn [list_find]. rewrite Hs, Hx.
  replace (below _ _) with true by done. cbn [andb].
  unfold handle_blob, blob_segs. rewrite Hw, E, Hq. rewrite bool_decide_false by done.
  replace (abs_path rs ++ _ ++ _) with (abs_path (rs ++ blob_segs (sha_of content))); [by destruct s|].
  rewrite blob_path_segs. destruct rs as [|x0 rs]; [done|]. unfold abs_path, blob_segs. rewrite <- join_app_sep.
  rewrite bool_decide_false by done. done.
Qed.
End blob_url.

(** ** Witnesses *)
Lemma blob_requests_confined_witness : is_abs (to_bytes "/srv") = true /\
  resolveBlobFilePath (inr "/srv"%string) "data/blobs" "/../ab/./../../etc/passwd" = inr "/srv/data/blobs/etc/passwd"%string /\
  exists rs, Abs (inr "/srv"%string) (Clean "data/blobs") = inr (of_bytes (abs_path rs)).
Proof.
  split; [done|]. split; [vm_compute; reflexivity|].
  destruct (blob_requests_confined "/srv" "data/blobs" "/../ab/./../../etc/passwd" eq_refl) as (rs&H&_). exists rs. exact H.
Defined.

Definition blob_request : Request := request "GET" (blobURL "/blobs/" (blob_path (sha_of "hello"))) "" "".
Lemma blob_url_served_witness : exists rs,
  Abs (inr "/"%string) (Clean "/srv/blobs") = inr (of_bytes (abs_path rs)) /\
  ServeHTTP demo_http blob_request demo_state = (demo_state, inr (FromManager (mkResponse 200 (PFile (of_bytes (abs_path rs ++ (if rs =@ [] then [] else [sep]) ++ to_bytes (blob_path (sha_of "hello")))))))).
Proof. exact (blob_url_served demo_http "/" "hello" blob_request demo_state eq_refl eq_refl eq_refl eq_refl). Defined.
