(* ===== verification/WebSocket.v ===== *)
(** * WebSocket clients: [internal/api/ws.go]

    A connection is served by two goroutines (readPump and writePump) and is
    called by those that publish a message (RealtimeDeliver).  [Hub] is the
    session manager together with the clients and the deliveries on their
    way; one step is what one goroutine does between two points where
    another one can run. *)
From S2P Require Import Prelude Go Encoding Strconv Paths Json Schema Config Store SpaceRepo UserRepo ChannelRepo MessageRepo.
From S2P Require Import BlobRepo Auth Proto Codec Media Messaging Session SessionInv Manager Dispatch System.
Import sessionv1.

Definition wsSendBuffer : nat := 128.
Definition wsMaxMsgSize : Z := Z.shiftl 1 16.

Abbreviation wsDelivery := (Z * MessageEvent)%type.

Record wsClientAction := mkAction { Action : string; ActionChannelID : Z }.
Definition action_names : list string := ["action"; "channel_id"]%string.
Definition dec_wsClientAction : Dec wsClientAction := dec_struct (fun old kvs =>
  v0 ← dec_field action_names "action" dec_string (Action old) kvs;
  v1 ← dec_field action_names "channel_id" dec_u32 (ActionChannelID old) kvs;
  Some (mkAction v0 v1)).

Inductive wsServerMsg :=
| WsPong | WsSubscribed (channelID : Z) | WsUnsubscribed (channelID : Z) | WsError (message : string)
| WsMessageEvent (d : wsDelivery).

(** Where readPump is: reading; between the two halves of an unsubscription;
    returning, after it left the manager's table; returned, with the send
    channel closed. *)
Inductive Phase := Reading | Unsubscribing (channelID : Z) | Unregistered | Closed.
#[export] Instance Phase_eq_dec : EqDecision Phase.
Proof. solve_decision. Defined.

(** [ws_buf] is the content of the channel [send]; [ws_writing] says whether
    writePump runs; [ws_out] is what was given to the connection, a last
    write that fails included (writePump has taken the event from the
    channel and does not put it back); the last field is a ghost: the deliveries accepted so far. *)
Record wsClient := mkClient {
  ws_user : Z; ws_subs : gset Z; ws_buf : list wsDelivery; ws_phase : Phase; ws_writing : bool;
  ws_out : list wsServerMsg; ws_accepted : list wsDelivery }.
Definition new_client (user : Z) : wsClient := mkClient user ∅ [] Reading true [] [].

Definition set_subs f c := mkClient (ws_user c) (f (ws_subs c)) (ws_buf c) (ws_phase c) (ws_writing c) (ws_out c) (ws_accepted c).
Definition set_phase p c := mkClient (ws_user c) (ws_subs c) (ws_buf c) p (ws_writing c) (ws_out c) (ws_accepted c).
Definition stop_writing c := mkClient (ws_user c) (ws_subs c) (ws_buf c) (ws_phase c) false (ws_out c) (ws_accepted c).
Definition say m c := mkClient (ws_user c) (ws_subs c) (ws_buf c) (ws_phase c) (ws_writing c) (ws_out c ++ [m]) (ws_accepted c).
Definition enqueue d c := mkClient (ws_user c) (ws_subs c) (ws_buf c ++ [d]) (ws_phase c) (ws_writing c) (ws_out c) (ws_accepted c ++ [d]).
Definition dequeue c := mkClient (ws_user c) (ws_subs c) (tail (ws_buf c)) (ws_phase c) (ws_writing c)
  (ws_out c ++ (WsMessageEvent <$> option_list (head (ws_buf c)))) (ws_accepted c).

(** A call of [RealtimeDeliver]: not started, or past its look at the subscriptions. *)
Record Delivery := mkDelivery { d_to : Rid; d_what : wsDelivery; d_checked : bool }.

Record Hub := mkHub { hb_mgr : Mgr; hb_clients : gmap Rid wsClient; hb_pending : list Delivery; hb_panic : bool }.
Definition set_mgr f b := mkHub (f (hb_mgr b)) (hb_clients b) (hb_pending b) (hb_panic b).
Definition set_client rid f b := mkHub (hb_mgr b) (alter f rid (hb_clients b)) (hb_pending b) (hb_panic b).
Definition set_pending l b := mkHub (hb_mgr b) (hb_clients b) l (hb_panic b).
Definition panic b := mkHub (hb_mgr b) (hb_clients b) (hb_pending b) true.

Section ws.
Context `{Env} `{Libp2p} `{MediaLib} `{Protobuf} (mc : ManagerConf).

(** One message read by readPump. *)
Definition handle_message (rid : Rid) (c : wsClient) (data : string) (b : Hub) : Hub :=
  match Json.unmarshal (mkAction "" 0) dec_wsClientAction data with
  | None => set_client rid (say (WsError "invalid json")) b
  | Some msg =>
    let action := to_lower (to_bytes (TrimSpace (Action msg))) in
    let cid := ActionChannelID msg in
    if action =@ to_bytes "ping" then set_client rid (say WsPong) b
    else if action =@ to_bytes "subscribe" then
      if cid =? 0 then set_client rid (say (WsError "channel_id required")) b
      else match lift (IsChannelMemberForWS (ws_user c) cid) (hb_mgr b) with
           | (g, inr true) =>
             let b := set_mgr (fun _ => g) b in
             let b := if decide (cid ∈ ws_subs c) then b
                      else set_mgr (RegisterRealtimeSubscriber cid rid) (set_client rid (set_subs (union {[cid]})) b) in
             set_client rid (say (WsSubscribed cid)) b
           | (g, _) => set_client rid (say (WsError "not a channel member")) (set_mgr (fun _ => g) b)
           end
    else if action =@ to_bytes "unsubscribe" then
      if cid =? 0 then set_client rid (say (WsError "channel_id required")) b
      else set_client rid (fun c => set_phase (Unsubscribing cid) (set_subs (fun s => s ∖ {[cid]}) c)) b
    else set_client rid (say (WsError "unknown action")) b
  end.

(** [RealtimeDeliver] after its look at the subscriptions: the send, which
    drops the event when the buffer is full and panics on a closed channel. *)
Definition send (d : Delivery) (b : Hub) : Hub :=
  match hb_clients b !! d_to d with
  | None => b
  | Some c => if ws_phase c =@ Closed then panic b
              else if (length (ws_buf c) <? wsSendBuffer)%nat then set_client (d_to d) (enqueue (d_what d)) b
              else b
  end.

(** The look at the subscriptions. *)
Definition wants (b : Hub) (d : Delivery) : bool :=
  match hb_clients b !! d_to d with Some c => bool_decide ((d_what d).1 ∈ ws_subs c) | None => false end.

(** The entries that an event of the server added to the deliveries. *)
Definition new_pushes (g g' : Mgr) : list Delivery :=
  (fun p => mkDelivery p.1 p.2 false) <$> drop (length (g_pushed g)) (g_pushed g').
Definition not_realtime (e : Event) : Prop :=
  match e with EvRealtime _ _ _ | EvRealtimeClosed _ => False | _ => True end.

Inductive hub_step (b : Hub) : Hub -> Prop :=
| hub_event e :                              (* the rest of the server runs *)
    enabled e (hb_mgr b) -> not_realtime e ->
    hub_step b (set_pending (hb_pending b ++ new_pushes (hb_mgr b) (run_event mc e (hb_mgr b))) (set_mgr (run_event mc e) b))
| hub_open rid user :                        (* handleV1WebSocket *)
    hb_clients b !! rid = None ->
    hub_step b (mkHub (hb_mgr b) (<[rid := new_client user]> (hb_clients b)) (hb_pending b) (hb_panic b))
| hub_message rid c data :                   (* readPump: one message *)
    hb_clients b !! rid = Some c -> ws_phase c = Reading -> strlen data <= wsMaxMsgSize ->
    hub_step b (handle_message rid c data b)
| hub_unsubscribed rid c cid :               (* the second half of an unsubscription *)
    hb_clients b !! rid = Some c -> ws_phase c = Unsubscribing cid ->
    hub_step b (set_client rid (fun c => say (WsUnsubscribed cid) (set_phase Reading c)) (set_mgr (UnregisterRealtimeSubscriber cid rid) b))
| hub_unregister rid c :                     (* reading failed: the deferred calls *)
    hb_clients b !! rid = Some c -> ws_phase c = Reading ->
    hub_step b (set_client rid (set_phase Unregistered) (set_mgr (UnregisterRealtimeSubscriberAll rid) b))
| hub_close rid c :
    hb_clients b !! rid = Some c -> ws_phase c = Unregistered ->
    hub_step b (set_client rid (set_phase Closed) b)
| hub_check l1 d l2 :                        (* RealtimeDeliver looks at c.subs *)
    hb_pending b = l1 ++ d :: l2 -> d_checked d = false ->
    hub_step b (if wants b d
                then set_pending (l1 ++ mkDelivery (d_to d) (d_what d) true :: l2) b else set_pending (l1 ++ l2) b)
| hub_send l1 d l2 :                         (* and sends *)
    hb_pending b = l1 ++ d :: l2 -> d_checked d = true ->
    hub_step b (send d (set_pending (l1 ++ l2) b))
| hub_write rid c d buf (ok : bool) :        (* writePump takes an event; a failing write ends it *)
    hb_clients b !! rid = Some c -> ws_writing c = true -> ws_buf c = d :: buf ->
    hub_step b (set_client rid (fun c => if ok then dequeue c else stop_writing (dequeue c)) b)
| hub_writer_ends rid c :                    (* the channel is closed and empty, or a ping fails *)
    hb_clients b !! rid = Some c -> ws_writing c = true -> hub_step b (set_client rid stop_writing b).

(** The server starts with no realtime subscriber. *)
Definition hub_reachable (b : Hub) : Prop :=
  exists g, reachable mc g /\ g_realtime g = ∅ /\ rtc hub_step (mkHub g ∅ [] false) b.
End ws.
