(* ===== verification/WebSocketThms.v ===== *)
(** * Properties of the WebSocket clients

    The clients' subscriptions agree with the table of the session manager,
    the send buffer is bounded and in order; what a client gets are stored
    messages of channels of which its user is a member; and the send of a delivery that
    was on its way when its client left panics. *)
From S2P Require Import Prelude Go Encoding Strconv Paths Json Schema Config Store SpaceRepo UserRepo ChannelRepo MessageRepo.
From S2P Require Import BlobRepo Auth Proto Codec Media Messaging DbInv Session SessionInv Manager Dispatch System Demo History.
From S2P Require Import MessageThms WebSocket.
Import sessionv1.

(** ** The server leaves the table of realtime subscribers to the clients *)
Section realtime.
Context `{Env} `{Libp2p} `{MediaLib} `{Protobuf} (mc : ManagerConf) (R : gmap Z (gset Rid)).
Abbreviation keepsR := (gkeeps (fun g => g_realtime g = R)).

Lemma keepsR_lift {A} (m : M A) : keepsR (lift m).
Proof. intros g Hg. unfold wp, lift. by destruct (m (g_world g)). Qed.
Lemma keepsR_modify f : (forall g, g_realtime (f g) = g_realtime g) -> keepsR (modify f).
Proof. intros Hf. apply gkeeps_modify. intros g Hg. by rewrite Hf. Qed.
Lemma realtime_register sid g : g_realtime (registerDirectUserSession sid g) = g_realtime g.
Proof. unfold registerDirectUserSession. by case_match. Qed.
Lemma realtime_unregister sid g : g_realtime (unregisterSession sid g) = g_realtime g.
Proof. unfold unregisterSession. repeat case_match; done. Qed.
#[local] Hint Resolve keepsR_lift : gkeeps.
#[local] Hint Extern 1 (gkeeps _ (modify _)) => apply keepsR_modify; intros; first [done|apply realtime_register] : gkeeps.

Lemma keepsR_write sid t r b : keepsR (write sid t r b).
Proof. unfold write. solve_gkeeps. Qed.
#[local] Hint Resolve keepsR_write : gkeeps.
Lemma keepsR_write_each t b l : keepsR (write_each t b l).
Proof. induction l; simpl; solve_gkeeps; done. Qed.
#[local] Hint Resolve keepsR_write_each : gkeeps.
Lemma keepsR_DeliverMessage cid m : keepsR (DeliverMessage mc cid m).
Proof. unfold DeliverMessage. solve_gkeeps. Qed.
Lemma keepsR_deliver_to_user u t b : keepsR (deliver_to_user u t b).
Proof. unfold deliver_to_user. solve_gkeeps. Qed.
#[local] Hint Resolve keepsR_DeliverMessage keepsR_deliver_to_user : gkeeps.
Lemma keepsR_handler t h sid env u : find_handler mc t = Some h -> keepsR (h sid env u).
Proof.
  unfold find_handler. intros ([t' h']&E&->)%fmap_Some. apply find_some in E as [Hin _].
  unfold authed_handlers in Hin. simpl in Hin.
  repeat (destruct Hin as [Hin|Hin]; [injection Hin as <- <-|]); [..|done]; simpl.
  all: autounfold with handlers; solve_gkeeps.
Qed.
Lemma keepsR_dispatch sid env : keepsR (dispatch mc sid env).
Proof. unfold dispatch. autounfold with handlers. solve_gkeeps. by eapply keepsR_handler. Qed.
#[local] Hint Resolve keepsR_dispatch : gkeeps.
Lemma keepsR_handle_envelope sid env : keepsR (handle_envelope mc sid env).
Proof. unfold handle_envelope. autounfold with handlers. solve_gkeeps. Qed.
Lemma keepsR_run_api c : keepsR (run_api mc c).
Proof. destruct c; unfold run_api, ignore; autounfold with api; solve_gkeeps. Qed.
End realtime.

Lemma run_event_realtime `{Env} `{Libp2p} `{MediaLib} `{Protobuf} mc e g :
  not_realtime e -> g_realtime (run_event mc e g) = g_realtime g.
Proof.
  intros He. destruct e; simpl; try done; try (by destruct add).
  - by apply (keepsR_handle_envelope mc _ sid env g).
  - apply realtime_unregister.
  - by apply (keepsR_run_api mc _ c g).
  - by apply (keepsR_lift _ _ g).
  - by apply (keepsR_lift _ _ g).
Qed.

(** ** What the server pushes are stored messages *)
(** The event says what the row says, and is pushed for the row's channel. *)
Record event_of_row (cid : Z) (ev : MessageEvent) (m : MessageRow) : Prop := {
  er_pushed : m_channel_id m = cid; er_channel : MessageEvent_ChannelId ev = cid;
  er_id : MessageEvent_MessageId ev = m_message_id m; er_seq : MessageEvent_Seq ev = m_seq m;
  er_type : MessageEvent_MessageType ev = toProtoMessageType (m_message_type m);
  er_text : MessageContent_Text <$> MessageEvent_Content ev = Some (coalesce (m_text_content m));
  er_time : MessageEvent_CreatedAtMs ev = u64 (m_created_at m) }.
Definition genuine (d : DB) (p : wsDelivery) : Prop := exists m, m ∈ rows (messages d) /\ event_of_row p.1 p.2 m.

Section genuine.
Context `{Env} `{Libp2p} `{MediaLib} `{Protobuf} (mc : ManagerConf).

Lemma genuine_grows d d' p : grows d d' -> genuine d p -> genuine d' p.
Proof.
  intros Hg (m&Hm&[]). destruct (extends_elem _ _ _ m (gr_messages _ _ Hg) Hm) as (m'&Hm'&[->|[_ [t ->]]]);
    eexists; (split; [exact Hm'|by split]).
Qed.
Lemma stored_genuine d m msg base :
  m ∈ rows (messages d) -> shown_as m msg -> ContentText (MsgContent msg) = TextContent msg ->
  genuine d (ChannelDBID msg, toMessageEvent msg base).
Proof. intros Hm [] Et. exists m. split; [done|]. split; simpl; congruence. Qed.

Definition pushes_ok (g : Mgr) : Prop :=
  db_inv (w_db (g_world g)) /\ Forall (fun p => genuine (w_db (g_world g)) p.2) (g_pushed g).
Abbreviation keepsP := (gkeeps pushes_ok).

Lemma keepsP_modify f : (forall g, g_world (f g) = g_world g /\ g_pushed (f g) = g_pushed g) -> keepsP (modify f).
Proof. intros Hf. apply gkeeps_modify. intros g. unfold pushes_ok. by destruct (Hf g) as [-> ->]. Qed.
Lemma keepsP_lift {A} (m : M A) : keeps evolves m -> keepsP (lift m).
Proof.
  intros Hm g [Hi Hp]. specialize (Hm (g_world g)). unfold wp, lift in *. destruct (m (g_world g)) as [w r]. simpl in *.
  split; simpl; [by eapply evolves_inv|]. eapply Forall_impl; [exact Hp|]. intros p. by apply genuine_grows, evolves_grows.
Qed.
Lemma pushed_register sid g : g_world (registerDirectUserSession sid g) = g_world g /\ g_pushed (registerDirectUserSession sid g) = g_pushed g.
Proof. unfold registerDirectUserSession. by case_match. Qed.
Lemma pushed_unregister sid g : g_world (unregisterSession sid g) = g_world g /\ g_pushed (unregisterSession sid g) = g_pushed g.
Proof. unfold unregisterSession. repeat case_match; done. Qed.
#[local] Hint Extern 1 (gkeeps pushes_ok (lift _)) => apply keepsP_lift; solve [walk] : gkeeps.
#[local] Hint Extern 1 (gkeeps _ (modify _)) => apply keepsP_modify; intros; first [done|apply pushed_register] : gkeeps.

Lemma keepsP_write sid t r b : keepsP (write sid t r b).
Proof. unfold write. solve_gkeeps. Qed.
#[local] Hint Resolve keepsP_write : gkeeps.
Lemma keepsP_write_each t b l : keepsP (write_each t b l).
Proof. induction l; simpl; solve_gkeeps; done. Qed.
#[local] Hint Resolve keepsP_write_each : gkeeps.
Lemma keepsP_deliver_to_user u t b : keepsP (deliver_to_user u t b).
Proof. unfold deliver_to_user. solve_gkeeps. Qed.
#[local] Hint Resolve keepsP_deliver_to_user : gkeeps.

(** A message that is in the database stays there while other things are written. *)
Definition pushes_and (p : wsDelivery) (g : Mgr) : Prop := pushes_ok g /\ genuine (w_db (g_world g)) p.
Lemma keepsPA_modify p f : (forall g, g_world (f g) = g_world g /\ g_pushed (f g) = g_pushed g) -> gkeeps (pushes_and p) (modify f).
Proof. intros Hf. apply gkeeps_modify. intros g. unfold pushes_and, pushes_ok. by destruct (Hf g) as [-> ->]. Qed.
Lemma keepsPA_lift {A} p (m : M A) : keeps evolves m -> gkeeps (pushes_and p) (lift m).
Proof.
  intros Hm g [[Hi Hp] Hg]. split; [by apply keepsP_lift|]. specialize (Hm (g_world g)). unfold wp, lift in *.
  destruct (m (g_world g)). simpl in *. by eapply genuine_grows; [by apply evolves_grows|].
Qed.
#[local] Hint Extern 1 (gkeeps (pushes_and _) (lift _)) => apply keepsPA_lift; solve [walk] : gkeeps.
#[local] Hint Extern 1 (gkeeps (pushes_and _) (modify _)) => apply keepsPA_modify; done : gkeeps.
Lemma keepsPA_write p sid t r b : gkeeps (pushes_and p) (write sid t r b).
Proof. unfold write. solve_gkeeps. Qed.
#[local] Hint Resolve keepsPA_write : gkeeps.
Lemma keepsPA_write_each p t b l : gkeeps (pushes_and p) (write_each t b l).
Proof. induction l; simpl; solve_gkeeps; done. Qed.

Lemma DeliverMessage_genuine cid msg g :
  pushes_and (cid, toMessageEvent msg (blobURLBase mc)) g -> wp (DeliverMessage mc cid msg) g (fun g' _ => pushes_ok g').
Proof.
  intros Hg. unfold DeliverMessage. do 2 (apply wp_bind; unfold gets, wp at 1; cbv beta iota).
  apply wp_bind. eapply wp_mono; [by apply keepsPA_write_each|]. intros g' [e|[]] [[Hi Hp] Hgen]; [by split|].
  split; [done|]. simpl. apply Forall_app. split; [done|]. apply Forall_fmap, Forall_forall. by intros rid _.
Qed.
Lemma sent_then {A} ctx uid i (k : Message -> G A) :
  (forall msg g, pushes_and (ChannelDBID msg, toMessageEvent msg (blobURLBase mc)) g -> wp (k msg) g (fun g' _ => pushes_ok g')) ->
  keepsP (msg ← lift (SendMessage (mc_cfg mc) ctx uid i); k msg).
Proof.
  intros Hk g [Hi Hp]. apply wp_bind.
  assert (keeps evolves (SendMessage (mc_cfg mc) ctx uid i)) as Hev by walk.
  pose proof (keepsP_lift _ Hev g (conj Hi Hp)) as Hl.
  pose proof (wp_SendMessage_returns (mc_cfg mc) ctx uid i (g_world g) Hi) as Hr. unfold wp in *. unfold lift in *.
  destruct (SendMessage _ _ _ _ (g_world g)) as [w [e|msg]]; simpl in *; [done|].
  destruct (Hr msg eq_refl) as (m&Hm&Hs&Et). apply Hk. split; [done|]. by eapply stored_genuine.
Qed.
Lemma keepsP_send_req sid env u : keepsP (on_SEND_MESSAGE_REQ mc sid env u).
Proof.
  unfold on_SEND_MESSAGE_REQ. apply gkeeps_bind; [solve_gkeeps|]. intros req. apply sent_then. intros msg g Hg.
  set (p := (_, _)) in Hg. apply wp_bind. eapply wp_mono; [by apply (keepsPA_lift p); [walk|]|].
  intros g1 [e|ms] Hg1; [apply Hg1|]. apply wp_bind. eapply wp_mono; [by apply (keepsPA_write p)|].
  intros g2 [e|?] Hg2; [apply Hg2|]. by apply DeliverMessage_genuine.
Qed.
Lemma keepsP_SendMessageForAPI ctx uid req : keepsP (SendMessageForAPI mc ctx uid req).
Proof.
  unfold SendMessageForAPI. apply sent_then. intros msg g Hg. apply wp_bind.
  eapply wp_mono; [by apply DeliverMessage_genuine|]. by intros g' [e|[]].
Qed.

Lemma keepsP_handler t h sid env u : find_handler mc t = Some h -> keepsP (h sid env u).
Proof.
  unfold find_handler. intros ([t' h']&E&->)%fmap_Some. apply find_some in E as [Hin _].
  unfold authed_handlers in Hin. simpl in Hin.
  repeat (destruct Hin as [Hin|Hin]; [injection Hin as <- <-|]); [..|done]; simpl.
  all: first [apply keepsP_send_req | autounfold with handlers; solve_gkeeps].
Qed.
Lemma keepsP_dispatch sid env : keepsP (dispatch mc sid env).
Proof. unfold dispatch. autounfold with handlers. solve_gkeeps. by eapply keepsP_handler. Qed.
#[local] Hint Resolve keepsP_dispatch : gkeeps.
Lemma keepsP_handle_envelope sid env : keepsP (handle_envelope mc sid env).
Proof. unfold handle_envelope. autounfold with handlers. solve_gkeeps. Qed.
Lemma keepsP_run_api c : keepsP (run_api mc c).
Proof.
  destruct c; unfold run_api, ignore;
    first [apply gkeeps_bind; [apply keepsP_SendMessageForAPI|intros ?; solve_gkeeps] | autounfold with api; solve_gkeeps].
Qed.

Lemma run_event_pushes e g : pushes_ok g -> pushes_ok (run_event mc e g).
Proof.
  intros Hg. destruct e as [sid|sid env|sid|c|[] cid sub|sub| |peer s|ns|l|sid]; simpl; try done.
  - by apply (keepsP_handle_envelope sid env g).
  - unfold pushes_ok. by destruct (pushed_unregister sid g) as [-> ->].
  - by apply (keepsP_run_api c g).
  - apply (keepsP_lift (CleanupExpired Background)); [walk|done].
  - apply (keepsP_lift (Bootstrap.BootstrapDefaultAdmin Background peer s)); [walk|done].
Qed.
Lemma reachable_pushes g : reachable mc g -> pushes_ok g.
Proof.
  intros [clock Hr]. assert (pushes_ok (initial clock)) as Hi by (split; [apply db_inv_empty|constructor]).
  revert Hi. induction Hr as [|g1 g2 g3 [e _] _ IH]; [done|]. intros Hi. by apply IH, run_event_pushes.
Qed.
End genuine.

(** ** The invariant of a client *)
Definition events_of (out : list wsServerMsg) : list wsDelivery :=
  omap (fun m => match m with WsMessageEvent d => Some d | _ => None end) out.

(** What the table holds of a client, by where its readPump is. *)
Definition table_agrees (in_table : Z -> Prop) (c : wsClient) : Prop :=
  match ws_phase c with
  | Reading => forall cid, in_table cid <-> cid ∈ ws_subs c
  | Unsubscribing k => k ∉ ws_subs c /\ forall cid, cid <> k -> (in_table cid <-> cid ∈ ws_subs c)
  | Unregistered | Closed => forall cid, ~ in_table cid
  end.
Record client_inv (in_table : Z -> Prop) (c : wsClient) : Prop := {
  ci_bound : (length (ws_buf c) <= wsSendBuffer)%nat;
  ci_order : ws_accepted c = events_of (ws_out c) ++ ws_buf c;
  ci_table : table_agrees in_table c }.
Definition in_table (b : Hub) (rid : Rid) (cid : Z) : Prop := rid ∈ members_of (g_realtime (hb_mgr b)) cid.
Record hub_inv (b : Hub) : Prop := {
  hi_client : forall rid c, hb_clients b !! rid = Some c -> client_inv (in_table b rid) c;
  hi_known : forall rid cid, in_table b rid cid -> is_Some (hb_clients b !! rid) }.

Lemma events_of_app l1 l2 : events_of (l1 ++ l2) = events_of l1 ++ events_of l2.
Proof. apply omap_app. Qed.

Lemma client_inv_table P Q c : (forall cid, P cid <-> Q cid) -> client_inv P c -> client_inv Q c.
Proof.
  intros E [Hb Ho Ht]. split; [done..|]. unfold table_agrees in *.
  destruct (ws_phase c); [|destruct Ht as [? Ht]; split; [done|]|..]; intros cid; rewrite <- E; auto.
Qed.
Lemma client_inv_say P m c : (forall d, m <> WsMessageEvent d) -> client_inv P c -> client_inv P (say m c).
Proof.
  intros Hm [Hb Ho Ht]. split; [done| |done]. simpl. rewrite events_of_app. destruct m; simpl; rewrite ?app_nil_r; try done.
  by destruct (Hm d).
Qed.
Lemma client_inv_stop P c : client_inv P c -> client_inv P (stop_writing c).
Proof. intros []. by split. Qed.
Lemma client_inv_dequeue P c d buf : ws_buf c = d :: buf -> client_inv P c -> client_inv P (dequeue c).
Proof.
  intros E [Hb Ho Ht]. split; [|simpl|done]; simpl; rewrite ?E in *; simpl in *; [lia|].
  rewrite events_of_app. simpl. by rewrite <- app_assoc.
Qed.
Lemma client_inv_enqueue P c d : (length (ws_buf c) < wsSendBuffer)%nat -> client_inv P c -> client_inv P (enqueue d c).
Proof.
  intros Hl [Hb Ho Ht]. split; simpl; [|by rewrite Ho, <- app_assoc|done]. rewrite length_app. simpl. lia.
Qed.

(** A step that changes one client and the table entries of that client only. *)
Lemma hub_inv_update b b' rid f :
  hub_inv b ->
  hb_clients b' = alter f rid (hb_clients b) ->
  (forall rid' cid, rid' <> rid -> in_table b' rid' cid <-> in_table b rid' cid) ->
  (forall cid, in_table b' rid cid -> is_Some (hb_clients b !! rid)) ->
  (forall c, hb_clients b !! rid = Some c -> client_inv (in_table b rid) c -> client_inv (in_table b' rid) (f c)) ->
  hub_inv b'.
Proof.
  intros [Hc Hk] Ecl Ht Hr Hf. split.
  - intros rid' c'. rewrite Ecl. destruct (decide (rid' = rid)) as [->|Hn].
    + rewrite lookup_alter_eq. intros (c&E&->)%fmap_Some. by apply Hf, Hc.
    + rewrite lookup_alter_ne by done. intros E. eapply client_inv_table; [|by apply Hc]. intros cid. by rewrite Ht.
  - intros rid' cid. rewrite Ecl. destruct (decide (rid' = rid)) as [->|Hn].
    + intros Hin%Hr. rewrite lookup_alter_eq. by apply fmap_is_Some.
    + rewrite lookup_alter_ne, Ht by done. apply Hk.
Qed.
(** A step that changes one client and no table. *)
Lemma hub_inv_client b rid f :
  hub_inv b -> (forall c, hb_clients b !! rid = Some c -> client_inv (in_table b rid) c -> client_inv (in_table b rid) (f c)) ->
  hub_inv (set_client rid f b).
Proof.
  intros Hi Hf. eapply (hub_inv_update b _ rid f); try done.
  intros cid Hin. by apply (hi_known b Hi rid cid).
Qed.
Lemma hub_inv_same b b' :
  hub_inv b -> hb_clients b' = hb_clients b -> g_realtime (hb_mgr b') = g_realtime (hb_mgr b) -> hub_inv b'.
Proof.
  intros [Hc Hk] E1 E2. unfold in_table in *. split; unfold in_table; rewrite E1, E2; auto.
Qed.
Lemma hub_inv_say b rid m : (forall d, m <> WsMessageEvent d) -> hub_inv b -> hub_inv (set_client rid (say m) b).
Proof. intros Hm Hi. apply hub_inv_client; [done|]. intros. by apply client_inv_say. Qed.

Section hub_inv.
Context `{Env} `{Libp2p} `{MediaLib} `{Protobuf} (mc : ManagerConf).

Lemma lift_realtime {A} (m : M A) g : g_realtime (lift m g).1 = g_realtime g.
Proof. by apply (keepsR_lift (g_realtime g) m g). Qed.

(** The whole of a subscription that succeeds. *)
Lemma hub_inv_subscribe b rid c cid :
  hub_inv b -> hb_clients b !! rid = Some c -> ws_phase c = Reading ->
  hub_inv (if decide (cid ∈ ws_subs c) then b
           else set_mgr (RegisterRealtimeSubscriber cid rid) (set_client rid (set_subs (union {[cid]})) b)).
Proof.
  intros Hi Hc Hp. case_decide as Hin; [done|].
  assert (forall rid' cid', in_table (set_mgr (RegisterRealtimeSubscriber cid rid) (set_client rid (set_subs (union {[cid]})) b)) rid' cid'
            <-> (cid' = cid /\ rid' = rid) \/ in_table b rid' cid') as Ht.
  { intros. apply members_of_add. }
  eapply (hub_inv_update b _ rid (set_subs (union {[cid]}))); [done|done|intros; rewrite Ht; naive_solver|by rewrite Hc|].
  intros c' E [Hb Ho Ha]. simplify_eq. split; [done..|]. unfold table_agrees in *. simpl. rewrite Hp in *.
  intros cid'. rewrite Ht, Ha. set_solver.
Qed.

Lemma handle_message_inv b rid c data :
  hub_inv b -> hb_clients b !! rid = Some c -> ws_phase c = Reading -> hub_inv (handle_message rid c data b).
Proof.
  intros Hi Hc Hp. unfold handle_message. destruct (Json.unmarshal _ _ _) as [msg|]; [|by apply hub_inv_say].
  cbv zeta. destruct (_ =@ to_bytes "ping"); [by apply hub_inv_say|]. destruct (_ =@ to_bytes "subscribe").
  - destruct (_ =? 0); [by apply hub_inv_say|].
    pose proof (lift_realtime (IsChannelMemberForWS (ws_user c) (ActionChannelID msg)) (hb_mgr b)) as Hg.
    destruct (lift _ (hb_mgr b)) as [g res]. simpl in Hg.
    assert (hub_inv (set_mgr (fun _ => g) b)) as Hi' by (by eapply hub_inv_same).
    destruct res as [e|[]]; try by apply hub_inv_say. apply hub_inv_say; [done|]. by apply hub_inv_subscribe.
  - destruct (_ =@ to_bytes "unsubscribe"); [|by apply hub_inv_say]. destruct (_ =? 0); [by apply hub_inv_say|].
    apply hub_inv_client; [done|]. intros c' E [Hb Ho Ha]. simplify_eq. split; [done..|]. unfold table_agrees in *. simpl. rewrite Hp in Ha.
    split; [set_solver|]. intros cid Hn. rewrite Ha. set_solver.
Qed.

Lemma hub_step_inv b b' : hub_step mc b b' -> hub_inv b -> hub_inv b'.
Proof.
  intros [e He Hr|rid user Hn|rid c data Hc Hp _|rid c cid Hc Hp|rid c Hc Hp|rid c Hc Hp|l1 d l2 E Hd|l1 d l2 E Hd|rid c d buf ok Hc Hw E|rid c Hc Hw] Hi.
  - eapply (hub_inv_same b); [done|done|]. by apply run_event_realtime.
  - assert (forall cid, ~ in_table b rid cid) as Hno by (intros cid Hin; destruct (hi_known b Hi rid cid Hin); congruence).
    split; simpl.
    + intros rid' c. rewrite lookup_insert_Some. intros [[<- <-]|[? E]]; [|by apply (hi_client b Hi)].
      split; [simpl; lia|done|]. intros cid. split; [by intros ?%Hno|set_solver].
    + intros rid' cid Hin. destruct (hi_known b Hi rid' cid Hin) as [c E]. destruct (decide (rid = rid')) as [->|]; [by rewrite lookup_insert_eq|].
      by rewrite lookup_insert_ne, E.
  - by apply handle_message_inv.
  - assert (forall rid' cid', in_table (set_mgr (UnregisterRealtimeSubscriber cid rid) b) rid' cid' <-> in_table b rid' cid' /\ ~ (cid' = cid /\ rid' = rid)) as Ht.
    { intros. apply members_of_del. }
    eapply (hub_inv_update b _ rid); [done|reflexivity|intros ? ? ?; change (in_table (set_client _ _ ?x)) with (in_table x); rewrite Ht; naive_solver|by rewrite Hc|].
    intros c' E Hci. simplify_eq. change (in_table (set_client _ _ ?x)) with (in_table x). apply client_inv_say; [done|]. destruct Hci as [Hb Ho Ha].
    split; [done..|]. unfold table_agrees in *. simpl. rewrite Hp in Ha. destruct Ha as [Hk Ha]. intros cid'. rewrite Ht.
    destruct (decide (cid' = cid)) as [->|]; [naive_solver|]. rewrite Ha by done. naive_solver.
  - assert (forall rid' cid', in_table (set_mgr (UnregisterRealtimeSubscriberAll rid) b) rid' cid' <-> in_table b rid' cid' /\ rid' <> rid) as Ht.
    { intros rid' cid'. unfold in_table. simpl. rewrite members_of_del_list. split; [|naive_solver].
      intros [Hin Hno]. split; [done|]. intros ->. apply Hno. split; [|done]. unfold members_of in Hin.
      destruct (g_realtime (hb_mgr b) !! cid') as [s|] eqn:Es; [|set_solver]. apply list_elem_of_fmap. exists (cid', s).
      split; [done|]. by apply elem_of_map_to_list. }
    eapply (hub_inv_update b _ rid); [done|reflexivity|intros ? ? ?; change (in_table (set_client _ _ ?x)) with (in_table x); rewrite Ht; naive_solver|by rewrite Hc|].
    intros c' E [Hb Ho Ha]. simplify_eq. split; [done..|]. intros cid. change (in_table (set_client _ _ ?x)) with (in_table x). rewrite Ht. naive_solver.
  - apply hub_inv_client; [done|]. intros c' E [Hb Ho Ha]. simplify_eq. split; [done..|]. unfold table_agrees in *. simpl. by rewrite Hp in Ha.
  - case_match; by eapply (hub_inv_same b).
  - assert (hub_inv (set_pending (l1 ++ l2) b)) as Hi' by (by eapply (hub_inv_same b)). unfold send.
    destruct (hb_clients (set_pending (l1 ++ l2) b) !! d_to d) as [c|] eqn:Ec; [|done]. case_bool_decide; [by eapply (hub_inv_same b)|].
    case_match eqn:Hl; [|done]. apply Nat.ltb_lt in Hl. apply hub_inv_client; [done|]. intros c' E' Hc'. simplify_eq. by apply client_inv_enqueue.
  - apply hub_inv_client; [done|]. intros c' E' Hc'. simplify_eq. destruct ok; [|apply client_inv_stop]; by eapply client_inv_dequeue.
  - apply hub_inv_client; [done|]. intros c' E' Hc'. by apply client_inv_stop.
Qed.

Lemma hub_reachable_inv b : hub_reachable mc b -> hub_inv b.
Proof.
  intros (g&_&HR&Hr). assert (hub_inv (mkHub g ∅ [] false)) as Hi0.
  { split; simpl; [done|]. intros rid cid. unfold in_table. simpl. rewrite HR. unfold members_of. rewrite lookup_empty. set_solver. }
  revert Hi0. induction Hr as [|b1 b2 b3 Hs _ IH]; [done|]. intros Hi. apply IH. by eapply hub_step_inv.
Qed.
End hub_inv.

Section claims.
Context `{Env} `{Libp2p} `{MediaLib} `{Protobuf} (mc : ManagerConf).

(** C21: in every reachable state, each WebSocket client has at most 128 events waiting, the events
    given to its connection followed by the waiting ones are exactly the accepted deliveries in their order,
    a client that is reading is in the manager's table for precisely the channels it subscribed to, and
    a client that has left is in no table. *)
Theorem ws_clients_consistent b rid c :
  hub_reachable mc b -> hb_clients b !! rid = Some c ->
  (length (ws_buf c) <= 128)%nat /\
  ws_accepted c = events_of (ws_out c) ++ ws_buf c /\
  (ws_phase c = Reading -> forall cid, rid ∈ members_of (g_realtime (hb_mgr b)) cid <-> cid ∈ ws_subs c) /\
  (ws_phase c = Unregistered \/ ws_phase c = Closed -> forall cid, rid ∉ members_of (g_realtime (hb_mgr b)) cid).
Proof.
  intros Hb Hc. destruct (hi_client b (hub_reachable_inv mc b Hb) rid c Hc) as [Hbuf Hord Htab]. unfold table_agrees in Htab.
  split_and!; [done|done|intros E; by rewrite E in Htab|intros [E|E]; by rewrite E in Htab].
Qed.

Lemma lift_member_step u cid g : (lift (IsChannelMemberForWS u cid) g).1 = run_event mc (EvApi (ApiIsChannelMember u cid)) g.
Proof. simpl. unfold ignore. cbv [mbind SE_bind]. by destruct (lift _ g) as [? []]. Qed.
Lemma sys_run e g : enabled e g -> rtc (sys_step mc) g (run_event mc e g).
Proof. intros. by apply rtc_once, sys_event. Qed.

Lemma handle_message_system rid c data b : rtc (sys_step mc) (hb_mgr b) (hb_mgr (handle_message rid c data b)).
Proof.
  unfold handle_message. destruct (Json.unmarshal _ _ _) as [msg|]; [|done]. cbv zeta.
  destruct (_ =@ to_bytes "ping"); [done|]. destruct (_ =@ to_bytes "subscribe").
  - destruct (_ =? 0); [done|]. pose proof (lift_member_step (ws_user c) (ActionChannelID msg) (hb_mgr b)) as Hg.
    destruct (lift _ (hb_mgr b)) as [g res]. simpl in Hg.
    assert (rtc (sys_step mc) (hb_mgr b) g) as Hr 
      by (rewrite Hg; exact (sys_run (EvApi (ApiIsChannelMember (ws_user c) (ActionChannelID msg))) (hb_mgr b) I)).
    destruct res as [e|[]]; try exact Hr. case_decide; [exact Hr|]. etrans; [exact Hr|]. simpl.
    by apply (sys_run (EvRealtime true (ActionChannelID msg) rid)).
  - destruct (_ =@ to_bytes "unsubscribe"); [|done]. by destruct (_ =? 0).
Qed.
Lemma hub_step_system b b' : hub_step mc b b' -> rtc (sys_step mc) (hb_mgr b) (hb_mgr b').
Proof.
  intros [e He Hr|rid user Hn|rid c data Hc Hp _|rid c cid Hc Hp|rid c Hc Hp|rid c Hc Hp|l1 d l2 E Hd|l1 d l2 E Hd|rid c d buf ok Hc Hw E|rid c Hc Hw]; simpl; try done.
  - by apply sys_run.
  - apply handle_message_system.
  - by apply (sys_run (EvRealtime false cid rid)).
  - by apply (sys_run (EvRealtimeClosed rid)).
  - by case_match.
  - unfold send. repeat case_match; done.
Qed.

(** The server with its WebSocket clients refines the system: whatever the clients do and however
    their goroutines interleave with the rest, the session manager and the database go through states of the
    system, so that all invariants of reachable states hold. *)
Theorem ws_refines_system b : hub_reachable mc b -> reachable mc (hb_mgr b).
Proof.
  intros (g&[clock Hg]&_&Hr). exists clock. etrans; [exact Hg|]. clear -Hr.
  assert (g = hb_mgr (mkHub g ∅ [] false)) as -> by done. induction Hr as [|b1 b2 b3 Hs _ IH]; [done|].
  etrans; [by apply hub_step_system|done].
Qed.

(** ** Who gets which events *)
Definition member_of (d : DB) (uid cid : Z) : Prop :=
  exists cm, cm ∈ rows (channel_members d) /\ cm_channel_id cm = cid /\ cm_user_id cm = uid.
Record good_client (d : DB) (c : wsClient) : Prop := {
  gc_subs : forall cid, cid ∈ ws_subs c -> member_of d (ws_user c) cid;
  gc_accepted : forall p, p ∈ ws_accepted c -> genuine d p /\ member_of d (ws_user c) p.1 }.
(** A delivery that passed the look at the subscriptions has its client, whose user is a member. *)
Definition good_delivery (d : DB) (b : Hub) (p : Delivery) : Prop :=
  genuine d (d_what p) /\
  (d_checked p = true -> exists c, hb_clients b !! d_to p = Some c /\ member_of d (ws_user c) (d_what p).1).
Record allowed (d : DB) (b : Hub) : Prop := {
  al_clients : map_Forall (fun _ => good_client d) (hb_clients b);
  al_pending : Forall (good_delivery d b) (hb_pending b) }.

Lemma member_of_grows d d' uid cid : grows d d' -> member_of d uid cid -> member_of d' uid cid.
Proof.
  intros Hg (cm&Hcm&E1&E2). destruct (extends_elem _ _ _ cm (gr_members _ _ Hg) Hcm) as (cm'&Hcm'&_&E3&E4).
  exists cm'. split; [done|]. split; congruence.
Qed.
Lemma allowed_grows d d' b : grows d d' -> allowed d b -> allowed d' b.
Proof.
  intros Hg [Hc Hp]. split.
  - intros rid c E. destruct (Hc rid c E) as [Hs Ha]. split; [eauto using member_of_grows|]. intros p Hpin.
    destruct (Ha p Hpin). eauto using genuine_grows, member_of_grows.
  - eapply Forall_impl; [exact Hp|]. intros p [Hgen Hck]. split; [by eapply genuine_grows|]. intros E.
    destruct (Hck E) as (c&?&?). eauto using member_of_grows.
Qed.
(** A step that changes one client. *)
Lemma allowed_client d rid f b b' :
  hb_clients b' = alter f rid (hb_clients b) -> hb_pending b' = hb_pending b ->
  (forall c, ws_user (f c) = ws_user c) ->
  (forall c, hb_clients b !! rid = Some c -> good_client d c -> good_client d (f c)) -> allowed d b -> allowed d b'.
Proof.
  intros Ec Ep Hu Hf [Hc Hp]. split.
  - intros rid' c'. rewrite Ec. destruct (decide (rid' = rid)) as [->|Hn]; [|rewrite lookup_alter_ne by done; apply Hc].
    rewrite lookup_alter_eq. intros (c&E&->)%fmap_Some. apply Hf; [done|exact (Hc rid c E)].
  - rewrite Ep. eapply Forall_impl; [exact Hp|]. intros p [Hg Hck]. split; [done|]. intros E. destruct (Hck E) as (c&Eto&Hm). rewrite Ec.
    destruct (decide (d_to p = rid)) as [<-|Hn]; [|rewrite lookup_alter_ne by done; eauto].
    rewrite lookup_alter_eq, Eto. exists (f c). by rewrite Hu.
Qed.
Lemma allowed_same d b b' : hb_clients b' = hb_clients b -> Forall (good_delivery d b) (hb_pending b') -> allowed d b -> allowed d b'.
Proof. intros Ec Hp [Hc _]. split; [by rewrite Ec|]. eapply Forall_impl; [exact Hp|]. intros p. unfold good_delivery. by rewrite Ec. Qed.
(** The bookkeeping that touches neither subscriptions nor accepted deliveries. *)
Lemma allowed_quiet d rid f b b' :
  hb_clients b' = alter f rid (hb_clients b) -> hb_pending b' = hb_pending b ->
  (forall c, ws_user (f c) = ws_user c /\ ws_subs (f c) ⊆ ws_subs c /\ ws_accepted (f c) = ws_accepted c) -> allowed d b -> allowed d b'.
Proof.
  intros Ec Ep Hf. apply (allowed_client d rid f); [done..|by apply Hf|]. intros c _ [Hs Ha]. destruct (Hf c) as (Eu&Es&Ea).
  split; rewrite Eu, ?Ea; [intros cid Hin; by apply Hs, Es|done].
Qed.

Lemma member_confirmed uid cid g g' :
  lift (IsChannelMemberForWS uid cid) g = (g', inr true) -> member_of (w_db (g_world g')) uid cid.
Proof.
  unfold lift. assert (wp (IsChannelMemberForWS uid cid) (g_world g) (fun w' r => r = inr true -> member_of (w_db w') uid cid)) as Hw.
  { unfold IsChannelMemberForWS, IsUserMember. repeat wp_step; intros E; simplify_eq; cbn [w_db tick].
    destruct (channel_by_id cid _); [|done].
    destruct (where_ (is_channel_member cid uid) (rows (channel_members (w_db (g_world g))))) as [|cm l] eqn:El.
    { unfold count_where, zlen in E. rewrite El in E. done. }
    assert (cm ∈ where_ (is_channel_member cid uid) (rows (channel_members (w_db (g_world g))))) as Hcm by (rewrite El; set_solver).
    apply elem_of_where in Hcm as [Hk Hin]. exists cm. unfold is_channel_member in Hk. split; [done|]. lia. }
  unfold wp in Hw. destruct (IsChannelMemberForWS uid cid (g_world g)) as [w x]. intros E. simplify_eq. simpl. by apply Hw.
Qed.

Lemma handle_message_allowed d rid c data b :
  hb_clients b !! rid = Some c -> d = w_db (g_world (hb_mgr (handle_message rid c data b))) -> allowed d b ->
  allowed d (handle_message rid c data b).
Proof.
  intros Hc Hd Ha. assert (forall m b', hb_clients b' = hb_clients b -> hb_pending b' = hb_pending b -> allowed d (set_client rid (say m) b')) as Hsay.
  { intros m b' E1 E2. eapply (allowed_quiet d rid (say m) b); [simpl; by rewrite E1|done|done|done]. }
  revert Hd. unfold handle_message. destruct (Json.unmarshal _ _ _) as [msg|]; [|by intros; apply Hsay]. cbv zeta.
  destruct (_ =@ to_bytes "ping"); [by intros; apply Hsay|]. destruct (_ =@ to_bytes "subscribe").
  - destruct (_ =? 0); [by intros; apply Hsay|].
    pose proof (member_confirmed (ws_user c) (ActionChannelID msg) (hb_mgr b)) as Hm.
    destruct (lift _ (hb_mgr b)) as [g [e|[]]]; try by intros; apply Hsay. specialize (Hm g eq_refl).
    case_decide; [by intros; apply Hsay|]. simpl. intros Hd.
    eapply (allowed_client d rid (fun c => say (WsSubscribed (ActionChannelID msg)) (set_subs (union {[ActionChannelID msg]}) c)) b); [|done|done| |done].
    + simpl. apply map_eq. intros i. destruct (decide (i = rid)) as [->|].
      * by rewrite !lookup_alter_eq, Hc.
      * by rewrite !lookup_alter_ne.
    + intros c' E [Hs Hacc]. simplify_eq. split; [|done]. simpl. intros cid. rewrite elem_of_union, elem_of_singleton. intros [->|Hin]; auto.
  - destruct (_ =@ to_bytes "unsubscribe"); [|by intros; apply Hsay]. destruct (_ =? 0); [by intros; apply Hsay|].
    intros _. eapply (allowed_quiet d rid); [reflexivity|done| |done]. intros c0. simpl. split_and!; [done|set_solver|done].
Qed.

Lemma new_pushes_good g g' b :
  reachable mc g' -> Forall (good_delivery (w_db (g_world g')) b) (new_pushes g g').
Proof.
  intros Hr. apply Forall_fmap, Forall_drop. destruct (reachable_pushes mc g' Hr) as [_ Hp].
  eapply Forall_impl; [exact Hp|]. intros p Hg. by split.
Qed.

Lemma hub_step_allowed b b' :
  hub_step mc b b' -> reachable mc (hb_mgr b) -> allowed (w_db (g_world (hb_mgr b))) b -> allowed (w_db (g_world (hb_mgr b'))) b'.
Proof.
  intros Hs Hr Ha. pose proof (hub_step_system b b' Hs) as Hsys. assert (reachable mc (hb_mgr b')) as Hr'.
  { destruct Hr as [k Hr]. exists k. by etrans. }
  pose proof (allowed_grows _ _ b (run_grows mc _ _ Hr Hsys) Ha) as Ha'. revert Ha' Hr'. clear Ha Hsys Hr.
  destruct Hs as [e He Hr|rid user Hn|rid c data Hc Hp _|rid c cid Hc Hp|rid c Hc Hp|rid c Hc Hp|l1 d l2 E Hd|l1 d l2 E Hd|rid c d buf ok Hc Hw E|rid c Hc Hw];
    intros Ha Hr'.
  - simpl in *. eapply (allowed_same _ b); [done| |done]. simpl. apply Forall_app. split; [apply Ha|by apply new_pushes_good].
  - simpl in *. destruct Ha as [Hc Hp]. split; simpl.
    + apply map_Forall_insert_2; [|done]. split; simpl; [intros cid; set_solver|]. intros p. set_solver.
    + eapply Forall_impl; [exact Hp|]. intros p [Hg Hck]. split; [done|]. intros E. destruct (Hck E) as (c&Eto&Hm). simpl.
      exists c. split; [|done]. rewrite lookup_insert_ne; [done|]. intros ->. congruence.
  - by apply handle_message_allowed.
  - by eapply (allowed_quiet _ rid _ b).
  - by eapply (allowed_quiet _ rid _ b).
  - by eapply (allowed_quiet _ rid _ b).
  - pose proof (al_pending _ _ Ha) as Hp. rewrite E in Hp. apply Forall_app in Hp as [H1' [[Hg _] H2']%Forall_cons].
    unfold wants in *. destruct (hb_clients b !! d_to d) as [c|] eqn:Ec; [case_bool_decide as Hin|]; simpl in *;
      (eapply (allowed_same _ b); [done| |done]); simpl; apply Forall_app; (split; [done|]); try done.
    apply Forall_cons. split; [|done]. split; [done|]. intros _. exists c. split; [done|].
    exact (gc_subs _ _ (al_clients _ _ Ha _ c Ec) _ Hin).
  - pose proof (al_pending _ _ Ha) as Hp. rewrite E in Hp. apply Forall_app in Hp as [H1' [[Hg Hck] H2']%Forall_cons].
    destruct (Hck Hd) as (c&Ec&Hm).
    assert (forall d', d' = w_db (g_world (hb_mgr (send d (set_pending (l1 ++ l2) b)))) ->
      allowed d' (set_pending (l1 ++ l2) b)) as Hrest.
    { intros d' ->. eapply (allowed_same _ b); [done| |done]. simpl. by apply Forall_app. }
    unfold send in *. simpl in *. rewrite Ec in *. case_bool_decide; [destruct (Hrest _ eq_refl); by split|]. case_match; [|by apply Hrest].
    eapply (allowed_client _ (d_to d)); [reflexivity|done|done| |by apply Hrest]. intros c' E' [Hs Hacc]. simpl in E'. simplify_eq.
    split; simpl; [done|]. intros p [Hin| ->%list_elem_of_singleton]%elem_of_app; [by apply Hacc|done].
  - eapply (allowed_quiet _ rid); [reflexivity|done| |done]. intros c0. by destruct ok.
  - by eapply (allowed_quiet _ rid _ b).
Qed.

(** C20: WebSocket clients only get what their users may see.  In every
    reachable state, however the goroutines interleave and whatever fails,
    a client's subscriptions are channels of which its user is a member,
    and every event that was given to its connection or waits in its
    buffer is of such a channel and is a stored message of that channel:
    it names the channel, and its id, sequence number, type, text and time
    are those of the row. *)
Theorem ws_events_authorised b rid c :
  hub_reachable mc b -> hb_clients b !! rid = Some c ->
  let d := w_db (g_world (hb_mgr b)) in
  (forall cid, cid ∈ ws_subs c -> member_of d (ws_user c) cid) /\
  (forall cid ev, (cid, ev) ∈ events_of (ws_out c) ++ ws_buf c ->
     member_of d (ws_user c) cid /\ exists m, m ∈ rows (messages d) /\ event_of_row cid ev m).
Proof.
  intros Hb Hc d. assert (allowed d b) as Ha.
  { subst d. destruct Hb as (g&Hg&_&Hr). clear Hc. assert (allowed (w_db (g_world g)) (mkHub g ∅ [] false)) as H0' by (split; [apply map_Forall_empty|constructor]).
    remember (mkHub g ∅ [] false) as b0 eqn:Eb. assert (reachable mc (hb_mgr b0)) as Hg0 by (by rewrite Eb).
    replace g with (hb_mgr b0) in H0' by (by rewrite Eb). clear Eb Hg. induction Hr as [|b1 b2 b3 Hs _ IH]; [done|].
    apply IH; [by eapply hub_step_allowed|]. destruct Hg0 as [k Hk]. exists k. etrans; [exact Hk|by apply hub_step_system]. }
  destruct (al_clients _ _ Ha rid c Hc) as [Hs Hacc]. split; [done|]. intros cid ev Hin.
  rewrite <- (ci_order _ _ (hi_client b (hub_reachable_inv mc b Hb) rid c Hc)) in Hin. destruct (Hacc _ Hin). done.
Qed.

(** A client keeps the channels it had, unless it joins one that it is a member of. *)
Definition subs_from (b b' : Hub) : Prop := forall rid c' cid,
  hb_clients b' !! rid = Some c' -> cid ∈ ws_subs c' ->
  (exists c, hb_clients b !! rid = Some c /\ ws_user c' = ws_user c /\
     (cid ∈ ws_subs c \/ (IsChannelMemberForWS (ws_user c) cid (g_world (hb_mgr b))).2 = inr true)).
Lemma subs_from_alter rid f b b' :
  hb_clients b' = alter f rid (hb_clients b) -> (forall c, ws_user (f c) = ws_user c /\ ws_subs (f c) ⊆ ws_subs c) -> subs_from b b'.
Proof.
  intros E Hf rid' c' cid. rewrite E. destruct (decide (rid' = rid)) as [->|]; [rewrite lookup_alter_eq|rewrite lookup_alter_ne by done; eauto].
  intros (c&Ec&->)%fmap_Some Hin. destruct (Hf c) as [Hu Hs]. exists c. split_and!; [done..|]. left. by apply Hs.
Qed.
Lemma subs_from_same b b' : hb_clients b' = hb_clients b -> subs_from b b'.
Proof. intros E rid c' cid. rewrite E. eauto. Qed.

Lemma handle_message_subs rid c data b : hb_clients b !! rid = Some c -> subs_from b (handle_message rid c data b).
Proof.
  intros Hc. assert (forall m b', hb_clients b' = hb_clients b -> subs_from b (set_client rid (say m) b')) as Hsay.
  { intros m b' E. eapply (subs_from_alter rid (say m)); [simpl; by rewrite E|done]. }
  unfold handle_message. destruct (Json.unmarshal _ _ _) as [msg|]; [|by apply Hsay]. cbv zeta.
  destruct (_ =@ to_bytes "ping"); [by apply Hsay|]. destruct (_ =@ to_bytes "subscribe").
  - destruct (_ =? 0); [by apply Hsay|].
    assert ((lift (IsChannelMemberForWS (ws_user c) (ActionChannelID msg)) (hb_mgr b)).2 = (IsChannelMemberForWS (ws_user c) (ActionChannelID msg) (g_world (hb_mgr b))).2) as Hm.
    { unfold lift. by destruct (IsChannelMemberForWS _ _ _). }
    destruct (lift _ (hb_mgr b)) as [g [e|[]]]; try by apply Hsay. simpl in Hm. case_decide; [by apply Hsay|].
    intros rid' c' cid. simpl. destruct (decide (rid' = rid)) as [->|].
    + rewrite !lookup_alter_eq, Hc. intros [= <-]. simpl. intros Hin. exists c. split_and!; [done..|].
      apply elem_of_union in Hin as [->%elem_of_singleton|Hin]; auto.
    + rewrite !lookup_alter_ne by done. eauto.
  - destruct (_ =@ to_bytes "unsubscribe"); [|by apply Hsay]. destruct (_ =? 0); [by apply Hsay|].
    eapply (subs_from_alter rid); [reflexivity|]. intros c0. simpl. split; [done|set_solver].
Qed.

Lemma hub_step_subs b b' : hub_step mc b b' -> subs_from b b'.
Proof.
  intros [e He Hr|rid user Hn|rid c data Hc Hp _|rid c cid Hc Hp|rid c Hc Hp|rid c Hc Hp|l1 d l2 E Hd|l1 d l2 E Hd|rid c d buf ok Hc Hw E|rid c Hc Hw].
  - by apply subs_from_same.
  - intros rid' c' cid. simpl. rewrite lookup_insert_Some. intros [[<- <-]|[? E]]; [set_solver|eauto].
  - by apply handle_message_subs.
  - by eapply (subs_from_alter rid).
  - by eapply (subs_from_alter rid).
  - by eapply (subs_from_alter rid).
  - case_match; by apply subs_from_same.
  - unfold send. repeat case_match; try (by apply subs_from_same). by eapply (subs_from_alter (d_to d)).
  - eapply (subs_from_alter rid); [reflexivity|]. intros c0. by destruct ok.
  - by eapply (subs_from_alter rid).
Qed.

(** A WebSocket client is subscribed to a channel only if it was before or the store has just
    confirmed that its user is a member of the channel: no step of the server adds another subscription. *)
Theorem ws_subscription_requires_membership b b' rid c' cid :
  hub_step mc b b' -> hb_clients b' !! rid = Some c' -> cid ∈ ws_subs c' ->
  exists c, hb_clients b !! rid = Some c /\ ws_user c' = ws_user c /\
    (cid ∈ ws_subs c \/ (IsChannelMemberForWS (ws_user c) cid (g_world (hb_mgr b))).2 = inr true).
Proof. intros Hs. by apply (hub_step_subs b b' Hs). Qed.
End claims.

(** ** A run that panics

    A client subscribes, a message is published, the client leaves before its
    delivery is made: [RealtimeDeliver] still finds the channel among the
    subscriptions, which are never cleared, and sends on the closed channel. *)
Definition sub_msg : string := quoted "{'action':'Subscribe','channel_id':1}".
Definition b0 : Hub := mkHub demo ∅ [] false.
Definition b1 : Hub := Eval vm_compute in mkHub demo (<[1%positive := new_client 1]> ∅) [] false.
Definition b2 : Hub := Eval vm_compute in handle_message 1 (new_client 1) sub_msg b1.
Definition post : Event := EvApi (ApiSendMessage 1 (demo_text 1 "client-0001" "hello")).
Definition b3 : Hub := Eval vm_compute in
  set_pending (hb_pending b2 ++ new_pushes (hb_mgr b2) (run_event demo_mc post (hb_mgr b2))) (set_mgr (run_event demo_mc post) b2).
Definition b4 : Hub := Eval vm_compute in set_client 1 (set_phase Unregistered) (set_mgr (UnregisterRealtimeSubscriberAll 1) b3).
Definition b5 : Hub := Eval vm_compute in set_client 1 (set_phase Closed) b4.
Definition the_delivery : Delivery := Eval vm_compute in hd (mkDelivery 1 (0, mkMessageEvent 0 "" 0 "" 0 None 0) false) (hb_pending b5).
Definition checked : Delivery := mkDelivery (d_to the_delivery) (d_what the_delivery) true.
Definition b6 : Hub := set_pending [checked] b5.
Definition client_at (b : Hub) : wsClient := default (new_client 0) (hb_clients b !! 1%positive).

Lemma b6_reachable : hub_reachable demo_mc b6.
Proof.
  exists demo. split; [apply demo_reachable|]. split; [vm_compute; reflexivity|].
  eapply (rtc_l _ b0 b1). { exact (hub_open demo_mc b0 1 1 eq_refl). }
  eapply (rtc_l _ b1 b2). { exact (hub_message demo_mc b1 1 (new_client 1) sub_msg eq_refl eq_refl ltac:(vm_compute; discriminate)). }
  eapply (rtc_l _ b2 b3). { exact (hub_event demo_mc b2 post I I). }
  eapply (rtc_l _ b3 b4). { exact (hub_unregister demo_mc b3 1 (client_at b3) eq_refl eq_refl). }
  eapply (rtc_l _ b4 b5). { exact (hub_close demo_mc b4 1 (client_at b4) eq_refl eq_refl). }
  apply rtc_once. exact (hub_check demo_mc b5 [] the_delivery [] eq_refl eq_refl).
Qed.

(** Publishing a message can panic with a send on a closed channel: there is a reachable state in
    which a delivery to a client that has gone is about to be sent, and sending it panics. *)
Theorem ws_delivery_can_panic : exists b b', hub_reachable demo_mc b /\ hub_step demo_mc b b' /\ hb_panic b = false /\ hb_panic b' = true.
Proof.
  exists b6, (send checked (set_pending [] b6)). split; [apply b6_reachable|]. split; [|vm_compute; done].
  exact (hub_send demo_mc b6 [] checked [] eq_refl eq_refl).
Qed.

Lemma ws_clients_consistent_witness :
  hb_clients b6 !! 1%positive = Some (client_at b6) /\ (length (ws_buf (client_at b6)) <= 128)%nat.
Proof. split; [reflexivity|]. exact (proj1 (ws_clients_consistent demo_mc b6 1 (client_at b6) b6_reachable eq_refl)). Defined.
(** The delivery made before the client leaves. *)
Definition checked3 : Hub := set_pending [checked] b3.
Definition b7 : Hub := Eval vm_compute in send checked (set_pending [] checked3).
Lemma b7_reachable : hub_reachable demo_mc b7.
Proof.
  exists demo. split; [apply demo_reachable|]. split; [vm_compute; reflexivity|].
  eapply (rtc_l _ b0 b1). { exact (hub_open demo_mc b0 1 1 eq_refl). }
  eapply (rtc_l _ b1 b2). { exact (hub_message demo_mc b1 1 (new_client 1) sub_msg eq_refl eq_refl ltac:(vm_compute; discriminate)). }
  eapply (rtc_l _ b2 b3). { exact (hub_event demo_mc b2 post I I). }
  eapply (rtc_l _ b3 checked3). { exact (hub_check demo_mc b3 [] the_delivery [] eq_refl eq_refl). }
  apply rtc_once. exact (hub_send demo_mc checked3 [] checked [] eq_refl eq_refl).
Qed.
Lemma ws_events_authorised_witness :
  ws_buf (client_at b7) = [d_what checked] /\ member_of (w_db (g_world (hb_mgr b7))) 1 1 /\
  exists m, m ∈ rows (messages (w_db (g_world (hb_mgr b7)))) /\ event_of_row 1 (d_what checked).2 m.
Proof.
  split; [reflexivity|].
  destruct (ws_events_authorised demo_mc b7 1 (client_at b7) b7_reachable eq_refl) as [_ He].
  exact (He 1 (d_what checked).2 (list_elem_of_here _ _)).
Defined.
Lemma ws_refines_system_witness : hub_reachable demo_mc b6 /\ reachable demo_mc (hb_mgr b6).
Proof. split; [apply b6_reachable|]. exact (ws_refines_system demo_mc b6 b6_reachable). Defined.
Lemma ws_subscription_requires_membership_witness :
  1 ∈ ws_subs (client_at b2) /\ exists c, hb_clients b1 !! 1%positive = Some c /\ ws_user (client_at b2) = ws_user c /\
    (1 ∈ ws_subs c \/ (IsChannelMemberForWS (ws_user c) 1 (g_world (hb_mgr b1))).2 = inr true).
Proof.
  assert (1 ∈ ws_subs (client_at b2)) as Hin by (by apply (bool_decide_unpack _)). split; [exact Hin|].
  exact (ws_subscription_requires_membership demo_mc b1 b2 1 (client_at b2) 1
    (hub_message demo_mc b1 1 (new_client 1) sub_msg eq_refl eq_refl ltac:(vm_compute; discriminate)) eq_refl Hin).
Defined.
