(* ===== verification/DbOpen.v ===== *)
(** * Opening the database: [internal/db/db.go]

    The MySQL driver and the parsers of PEM and X.509 are parameters, and so
    is the formatting of [%q] in error messages.  The server is seen through
    the outcomes of the pings and, over the administrator connection, through
    the accounts it lists and the statements it is sent. *)
From S2P Require Import Prelude Go Encoding Paths Config Store.

(** ** [net/url] *)
Definition upper_hex (n : nat) : ascii := byte (if (n <? 10)%nat then 48 + n else 55 + n)%nat.
Definition unreserved (a : ascii) : bool :=
  in_range 97 122 a || in_range 65 90 a || in_range 48 57 a || bool_decide (a ∈ (byte <$> [45; 95; 46; 126]%nat)).
Definition query_escape_char (a : ascii) : bytes :=
  if unreserved a then [a]
  else if a =@ byte 32 then [byte 43]
  else [byte 37; upper_hex (Ascii.nat_of_ascii a / 16); upper_hex (Ascii.nat_of_ascii a mod 16)].
Definition QueryEscape (s : string) : string := of_bytes (concat (query_escape_char <$> to_bytes s)).

Definition hex_value (a : ascii) : option nat :=
  let n := Ascii.nat_of_ascii a in
  if in_range 48 57 a then Some (n - 48)%nat
  else if in_range 97 102 a then Some (n - 87)%nat
  else if in_range 65 70 a then Some (n - 55)%nat
  else None.
Fixpoint query_unescape (l : bytes) : option bytes :=
  match l with
  | [] => Some []
  | a :: l' =>
    if a =@ byte 37 then
      match l' with
      | h :: k :: rest => h ← hex_value h; k ← hex_value k; rest ← query_unescape rest; Some (byte (16 * h + k) :: rest)
      | _ => None
      end
    else rest ← query_unescape l'; Some ((if a =@ byte 43 then byte 32 else a) :: rest)
  end.
Definition QueryUnescape (s : string) : option string := of_bytes <$> query_unescape (to_bytes s).

(** ** Texts *)
Definition addDSNParam (dsn key value : string) : string :=
  let sep := if decide (byte 63 ∈ to_bytes dsn) then "&"%string else "?"%string in
  dsn +:+ sep +:+ key +:+ "=" +:+ QueryEscape value.
Definition double_quotes (l : bytes) : bytes := concat ((fun a => if a =@ byte 39 then [a; a] else [a]) <$> l).
Definition sqlStringLiteral (value : string) : string := of_bytes (byte 39 :: double_quotes (to_bytes value) ++ [byte 39]).
Definition alter_stmt (user host password : string) : string :=
  "ALTER USER " +:+ sqlStringLiteral user +:+ "@" +:+ sqlStringLiteral host +:+
  " IDENTIFIED WITH caching_sha2_password BY " +:+ sqlStringLiteral password.

(** ** Driver *)
Class Driver := {
  PublicKey : Type;
  sql_Open : string -> option Err;
  ParseDSN : string -> Err + string * string;     (** user and password *)
  pem_Decode : string -> option (string * string); (** type and bytes of the block *)
  ParsePKIXPublicKey : string -> Err + option PublicKey; (** [None]: not an RSA key *)
  ParsePKCS1PublicKey : string -> Err + PublicKey;
  quote : string -> string }.

(** A server: the answer to a ping, the hosts of each user, the outcomes of
    the next statements and the statements that it has received. *)
Record AdminServer := mkAdminServer {
  as_ping : option Err; as_hosts : string -> Err + list string; as_faults : list (option Err); as_stmts : list string }.
(** The n-th attempt to connect: the result of the ping and how long it took;
    whether the context was cancelled during the wait, and how long that was. *)
Record Attempt := mkAttempt { at_ping : option Err; at_took : Z; at_cancelled : option Err; at_waited : Z }.
Inductive PingResult := Connected (n : nat) (now : Z) | GaveUp (n : nat) (e : Err) | Cancelled (n : nat) (e : Err).

Section open.
Context `{Driver}.

Definition alter_ExecContext (stmt : string) : SE AdminServer unit := fun s =>
  (mkAdminServer (as_ping s) (as_hosts s) (tail (as_faults s)) (as_stmts s ++ [stmt]),
   match head (as_faults s) with Some (Some e) => inl e | _ => inr tt end).
Fixpoint alter_hosts (user password : string) (hosts : list string) : SE AdminServer unit :=
  match hosts with
  | [] => mret tt
  | h :: hosts =>
    _ ← map_err (wrap ("alter mysql user " +:+ quote user +:+ "@" +:+ quote h)) (alter_ExecContext (alter_stmt user h password));
    alter_hosts user password hosts
  end.
Definition alterMySQLUserAuth (user password : string) : SE AdminServer unit :=
  if user =@ ""%string then mret tt
  else fun s =>
    match as_hosts s user with
    | inl e => (s, inl (wrap ("list mysql accounts for user " +:+ quote user) e))
    | inr hosts => alter_hosts user password hosts s
    end.

Definition ensureCachingSha2Auth (cfg : Config) : SE AdminServer unit := fun s =>
  let adminDSN := if MySQLServerPubKeyPath cfg =@ ""%string then MySQLAdminDSN cfg
                  else addDSNParam (MySQLAdminDSN cfg) "serverPubKey" (MySQLServerPubKeyPath cfg) in
  match sql_Open adminDSN, as_ping s, ParseDSN adminDSN, ParseDSN (MySQLDSN cfg) with
  | Some e, _, _, _ => (s, inl (wrap "open mysql admin connection" e))
  | None, Some e, _, _ => (s, inl (wrap "ping mysql admin connection" e))
  | None, None, inl e, _ => (s, inl (wrap "parse mysql admin dsn" e))
  | None, None, inr _, inl e => (s, inl (wrap "parse mysql dsn" e))
  | None, None, inr (aUser, aPasswd), inr (user, passwd) =>
    (_ ← alterMySQLUserAuth user passwd; alterMySQLUserAuth aUser aPasswd) s
  end.

(** The key that [RegisterServerPubKey] is given for the path. *)
Definition registerServerPubKey (ReadFile : string -> Err + string) (path : string) : Err + PublicKey :=
  let parse_err e := inl (wrap ("parse mysql server public key " +:+ quote path) e) in
  match ReadFile path with
  | inl e => inl (wrap ("read mysql server public key " +:+ quote path) e)
  | inr raw =>
    match pem_Decode raw with
    | None => inl (Errorf ("decode mysql server public key " +:+ quote path +:+ ": no PEM block found"))
    | Some (type, data) =>
      if type =@ "PUBLIC KEY"%string then
        match ParsePKIXPublicKey data with
        | inl e => parse_err e
        | inr None => inl (Errorf ("parse mysql server public key " +:+ quote path +:+ ": not an RSA public key"))
        | inr (Some k) => inr k
        end
      else if type =@ "RSA PUBLIC KEY"%string then
        match ParsePKCS1PublicKey data with inl e => parse_err e | inr k => inr k end
      else inl (Errorf ("parse mysql server public key " +:+ quote path +:+ ": unsupported PEM block type " +:+ quote type))
    end
  end.

Section loop.
Context (attempts : nat -> Attempt) (deadline : Z).
Fixpoint ping_loop (fuel n : nat) (now : Z) : option PingResult :=
  match fuel with
  | O => None
  | S fuel =>
    let a := attempts n in
    let now := now + at_took a in
    match at_ping a with
    | None => Some (Connected n now)
    | Some e =>
      if deadline <? now then Some (GaveUp n (wrap "ping mysql" e))
      else match at_cancelled a with
           | Some e => Some (Cancelled n e)
           | None => ping_loop fuel (S n) (now + at_waited a)
           end
    end
  end.
End loop.

(** Registered keys and the server. *)
Record DbWorld := mkDbWorld { dw_keys : gmap string PublicKey; dw_admin : AdminServer }.

(** The part of [Open] after the key is registered: the DSN of the pool that
    is returned; [None] when the fuel runs out. *)
Definition open_pool (cfg : Config) (attempts : nat -> Attempt) (now : Z) (fuel : nat) (dsn : string) (w : DbWorld)
  : option (DbWorld * (Err + string)) :=
  match sql_Open dsn with
  | Some e => Some (w, inl (wrap "open mysql" e))
  | None =>
    match ping_loop attempts (now + MySQLMaxRetryDuration cfg) fuel 0 now with
    | None => None
    | Some (GaveUp _ e) | Some (Cancelled _ e) => Some (w, inl e)
    | Some (Connected _ _) =>
      if MySQLAdminDSN cfg =@ ""%string then Some (w, inr dsn)
      else let '(admin, r) := ensureCachingSha2Auth cfg (dw_admin w) in
           Some (mkDbWorld (dw_keys w) admin, match r with inl e => inl e | inr _ => inr dsn end)
    end
  end.
Definition Open (cfg : Config) (ReadFile : string -> Err + string) (attempts : nat -> Attempt) (now : Z) (fuel : nat) (w : DbWorld)
  : option (DbWorld * (Err + string)) :=
  let path := MySQLServerPubKeyPath cfg in
  if path =@ ""%string then open_pool cfg attempts now fuel (MySQLDSN cfg) w
  else match registerServerPubKey ReadFile path with
       | inl e => Some (w, inl e)
       | inr key => open_pool cfg attempts now fuel (addDSNParam (MySQLDSN cfg) "serverPubKey" path)
                      (mkDbWorld (<[path := key]> (dw_keys w)) (dw_admin w))
       end.
End open.
