(* ===== verification/DbThms.v ===== *)
(** * Properties of opening the database

    Texts handed to the driver and to the server are read back as they were
    meant, and the loop that waits for the server ends. *)
From S2P Require Import Prelude Go Encoding Paths Config ConfigLoad Store Jwt DbOpen.

(** ** Escaping of parameters *)
Lemma hex_digits n : (n < 16)%nat -> hex_value (upper_hex n) = Some n /\ upper_hex n <> byte 37.
Proof. intros Hn. do 16 (destruct n as [|n]; [by vm_compute|]). lia. Qed.
Lemma query_escape_facts a :
  (forall l, query_unescape (query_escape_char a ++ l) = (cons a) <$> query_unescape l) /\
  Forall (fun b => b <> byte 38 /\ b <> byte 61 /\ b <> byte 63 /\ b <> byte 47) (query_escape_char a).
Proof.
  unfold query_escape_char. destruct (unreserved a) eqn:Hu; [|destruct (bool_decide_reflect (a = byte 32)) as [->|]].
  - split; [|constructor; [split_and!; by intros ->|constructor]]. intros l. cbn [app query_unescape].
    rewrite (bool_decide_false (a = byte 37)), (bool_decide_false (a = byte 43)) by (by intros ->).
    by destruct (query_unescape l).
  - split; [|by repeat constructor]. intros l. cbn. by destruct (query_unescape l).
  - clear Hu. pose proof (Ascii.nat_ascii_bounded a) as Hb. split.
    + intros l. cbn [app query_unescape]. rewrite (bool_decide_true (byte 37 = byte 37)) by done.
      destruct (hex_digits (Ascii.nat_of_ascii a / 16)) as [-> _]; [apply Nat.Div0.div_lt_upper_bound; lia|].
      destruct (hex_digits (Ascii.nat_of_ascii a mod 16)) as [-> _]; [apply Nat.mod_upper_bound; lia|].
      cbn [mbind option_bind]. rewrite <- Nat.div_mod_eq. unfold byte. rewrite Ascii.ascii_nat_embedding. by destruct (query_unescape l).
    + assert (forall n, (n < 16)%nat -> let b := upper_hex n in b <> byte 38 /\ b <> byte 61 /\ b <> byte 63 /\ b <> byte 47) as Hh.
      { intros m Hm. do 16 (destruct m as [|m]; [by vm_compute|]). lia. }
      constructor; [done|]. constructor; [apply Hh, Nat.Div0.div_lt_upper_bound; lia|].
      constructor; [apply Hh, Nat.mod_upper_bound; lia|constructor].
Qed.
Lemma escape_bytes_unescape l : query_unescape (concat (query_escape_char <$> l)) = Some l.
Proof. induction l as [|a l IH]; [done|]. cbn [fmap list_fmap concat]. by rewrite (proj1 (query_escape_facts a)), IH. Qed.
Lemma escape_bytes_plain l :
  Forall (fun b => b <> byte 38 /\ b <> byte 61 /\ b <> byte 63 /\ b <> byte 47) (concat (query_escape_char <$> l)).
Proof. induction l as [|a l IH]; [done|]. cbn [fmap list_fmap concat]. apply Forall_app. split; [apply query_escape_facts|done]. Qed.

(** ** Reading a DSN

    The documented format is [user:password@protocol(address)/dbname?param1=value1&...]:
    the parameters follow the first question mark after the last slash. *)
Fixpoint cut_at (c : ascii) (l : bytes) : option (bytes * bytes) :=
  match l with
  | [] => None
  | a :: l => if a =@ c then Some ([], l) else '(x, y) ← cut_at c l; Some (a :: x, y)
  end.
Definition after_last_slash (l : bytes) : bytes := default [] (last (split_on sep l)).
Definition read_param (l : bytes) : option (bytes * bytes) := '(k, v) ← cut_at (byte 61) l; v ← query_unescape v; Some (k, v).
Definition dsn_params (dsn : string) : list (option (bytes * bytes)) :=
  match cut_at (byte 63) (after_last_slash (to_bytes dsn)) with
  | None => []
  | Some (_, params) => read_param <$> split_on (byte 38) params
  end.

Lemma cut_at_app c l r : c ∉ l -> cut_at c (l ++ c :: r) = Some (l, r).
Proof.
  induction l as [|a l IH]; intros Hc; cbn [app cut_at]; [by rewrite bool_decide_true|].
  apply not_elem_of_cons in Hc as [Hne Hc]. rewrite bool_decide_false by done. by rewrite IH.
Qed.
Lemma cut_at_none c l : c ∉ l -> cut_at c l = None.
Proof.
  induction l as [|a l IH]; intros Hc; [done|]. apply not_elem_of_cons in Hc as [Hne Hc]. cbn [cut_at]. rewrite bool_decide_false by done.
  by rewrite IH.
Qed.
Lemma split_on_app c l r : split_on c (l ++ c :: r) = split_on c l ++ split_on c r.
Proof.
  induction l as [|a l IH]; cbn [app split_on]; [by rewrite bool_decide_true|]. destruct (bool_decide (a = c)); [by rewrite IH|].
  rewrite IH. pose proof (split_nonempty c l). by destruct (split_on c l).
Qed.
Lemma split_on_plain c l : c ∉ l -> split_on c l = [l].
Proof.
  induction l as [|a l IH]; intros Hc; [done|]. apply not_elem_of_cons in Hc as [Hne Hc]. cbn [split_on].
  rewrite bool_decide_false by done. by rewrite IH.
Qed.
Lemma after_last_slash_app l r : sep ∉ r -> after_last_slash (l ++ sep :: r) = r.
Proof. intros Hr. unfold after_last_slash. by rewrite split_on_app, (split_on_plain sep r), last_snoc. Qed.

Definition plain_param (l : bytes) : Prop := Forall (fun b => b <> byte 38 /\ b <> byte 61 /\ b <> byte 63 /\ b <> byte 47) l.
Lemma plain_param_not l : plain_param l -> (byte 38 ∉ l) /\ (byte 61 ∉ l) /\ (byte 63 ∉ l) /\ (byte 47 ∉ l).
Proof. intros Hl. unfold plain_param in Hl. rewrite Forall_forall in Hl. split_and!; intros Hin; destruct (Hl _ Hin) as (?&?&?&?); done. Qed.

Lemma read_added_param key value : plain_param (to_bytes key) ->
  let kv := to_bytes key ++ byte 61 :: to_bytes (QueryEscape value) in
  read_param kv = Some (to_bytes key, to_bytes value) /\ (byte 38 ∉ kv) /\ (sep ∉ kv).
Proof.
  intros Hk kv. unfold kv, QueryEscape. rewrite to_of_bytes. pose proof (escape_bytes_plain (to_bytes value)) as Hv.
  apply plain_param_not in Hk as (?&?&?&?). destruct (plain_param_not _ Hv) as (?&?&?&?). split_and!.
  - unfold read_param. rewrite cut_at_app by done. cbn [mbind option_bind]. by rewrite escape_bytes_unescape.
  - intros [Hin|[Heq|Hin]%elem_of_cons]%elem_of_app; done.
  - intros [Hin|[Heq|Hin]%elem_of_cons]%elem_of_app; done.
Qed.

(** A parameter that is added to a DSN is read back by the driver with its exact value, whatever
    characters the value has, after the parameters that were there (user, password and address must not
    contain a question mark, see [password_with_question_mark]). *)
Theorem dsn_param_round_trip dsn base rest key value :
  to_bytes dsn = base ++ sep :: rest -> byte 63 ∉ base -> sep ∉ rest -> plain_param (to_bytes key) ->
  dsn_params (addDSNParam dsn key value) = dsn_params dsn ++ [Some (to_bytes key, to_bytes value)].
Proof.
  intros E Hb Hr Hk. destruct (read_added_param key value Hk) as (Hp&Ha&Hs). unfold dsn_params, addDSNParam. cbv zeta.
  rewrite !to_bytes_app, E, after_last_slash_app by done. change (to_bytes "=") with [byte 61].
  rewrite <- !app_assoc. cbn [app]. set (kv := to_bytes key ++ _) in *.
  case_decide as Hin.
  - apply elem_of_app in Hin as [Hin|[Heq|Hin]%elem_of_cons]; [done|done|].
    assert (exists db ps, rest = db ++ byte 63 :: ps /\ byte 63 ∉ db) as (db&ps&->&Hdb).
    { apply list_elem_of_split_l in Hin as (db&ps&->&Hdb). eauto. }
    change (to_bytes "&") with [byte 38]. cbn [app]. rewrite after_last_slash_app.
    + rewrite <- app_assoc. cbn [app]. rewrite !cut_at_app by done. by rewrite split_on_app, fmap_app, (split_on_plain (byte 38) kv), <- Hp.
    + intros [Hx|[Heq|Hx]%elem_of_cons]%elem_of_app; done.
  - rename Hin into Hn. change (to_bytes "?") with [byte 63]. cbn [app]. assert (byte 63 ∉ rest) as Hn' by (intros Hx; apply Hn, elem_of_app; right; by right).
    rewrite after_last_slash_app by (intros [Hx|[Heq|Hx]%elem_of_cons]%elem_of_app; done).
    rewrite cut_at_app, cut_at_none by done. by rewrite (split_on_plain (byte 38) kv), <- Hp.
Qed.
Lemma dsn_param_round_trip_witness :
  dsn_params (addDSNParam "mesh:mesh@tcp(mysql:3306)/meshserver?parseTime=true" "serverPubKey" "/app/data/my key&1.pem")
  = [Some (to_bytes "parseTime", to_bytes "true"); Some (to_bytes "serverPubKey", to_bytes "/app/data/my key&1.pem")].
Proof.
  apply (dsn_param_round_trip "mesh:mesh@tcp(mysql:3306)/meshserver?parseTime=true" (to_bytes "mesh:mesh@tcp(mysql:3306)")
    (to_bytes "meshserver?parseTime=true") "serverPubKey" "/app/data/my key&1.pem"); [reflexivity|..]; try (apply (bool_decide_unpack _); by vm_compute).
Defined.

(** A question mark in the password is taken for the one before the parameters. *)
Example password_with_question_mark :
  addDSNParam "mesh:why?@tcp(mysql:3306)/meshserver" "serverPubKey" "k" = "mesh:why?@tcp(mysql:3306)/meshserver&serverPubKey=k"%string /\
  dsn_params (addDSNParam "mesh:why?@tcp(mysql:3306)/meshserver" "serverPubKey" "k") = [].
Proof. done. Qed.

(** ** Reading a statement

    The documented syntax of a string literal of MySQL in its default mode: a
    quote inside is doubled, and a backslash escapes the next character. *)
Definition escaped (a : ascii) : bytes :=
  if a =@ byte 48 then [byte 0] else if a =@ byte 98 then [byte 8] else if a =@ byte 110 then [byte 10]
  else if a =@ byte 114 then [byte 13] else if a =@ byte 116 then [byte 9] else if a =@ byte 90 then [byte 26]
  else if (a =@ byte 37) || (a =@ byte 95) then [byte 92; a] else [a].
Fixpoint read_chars (l : bytes) : option (bytes * bytes) :=
  match l with
  | [] => None
  | a :: l' =>
    if a =@ byte 39 then
      match l' with
      | b :: rest => if b =@ byte 39 then '(v, r) ← read_chars rest; Some (byte 39 :: v, r) else Some ([], l')
      | [] => Some ([], [])
      end
    else if a =@ byte 92 then
      match l' with [] => None | b :: rest => '(v, r) ← read_chars rest; Some (escaped b ++ v, r) end
    else '(v, r) ← read_chars l'; Some (a :: v, r)
  end.
Definition read_literal (l : bytes) : option (bytes * bytes) :=
  match l with a :: l => if a =@ byte 39 then read_chars l else None | [] => None end.
(** Account and password of an [ALTER USER] statement. *)
Definition read_alter (stmt : string) : option (string * string * string) :=
  l ← strip_prefix (to_bytes "ALTER USER ") (to_bytes stmt); '(u, l) ← read_literal l;
  l ← strip_prefix (to_bytes "@") l; '(h, l) ← read_literal l;
  l ← strip_prefix (to_bytes " IDENTIFIED WITH caching_sha2_password BY ") l; '(p, l) ← read_literal l;
  match l with [] => Some (of_bytes u, of_bytes h, of_bytes p) | _ => None end.

Definition no_backslash (s : string) : Prop := byte 92 ∉ to_bytes s.
Definition not_quote (l : bytes) : Prop := head l <> Some (byte 39).

Lemma read_chars_doubled v r : byte 92 ∉ v -> not_quote r -> read_chars (double_quotes v ++ byte 39 :: r) = Some (v, r).
Proof.
  unfold double_quotes. intros Hv Hr. induction v as [|a v IH]; cbn [fmap list_fmap concat app].
  - cbn [read_chars]. rewrite bool_decide_true by done. destruct r as [|b r]; [done|]. rewrite bool_decide_false; [done|]. by intros ->.
  - apply not_elem_of_cons in Hv as [Hne Hv]. specialize (IH Hv). destruct (bool_decide_reflect (a = byte 39)) as [->|Hq].
    + cbn [app read_chars]. rewrite !(bool_decide_true (byte 39 = byte 39)) by done. by rewrite IH.
    + cbn [app read_chars]. rewrite (bool_decide_false (a = byte 39)), (bool_decide_false (a = byte 92)) by done. by rewrite IH.
Qed.
Lemma read_sqlStringLiteral v r : no_backslash v -> not_quote r ->
  read_literal (to_bytes (sqlStringLiteral v) ++ r) = Some (to_bytes v, r).
Proof.
  intros Hv Hr. unfold sqlStringLiteral. rewrite to_of_bytes. cbn [app read_literal]. rewrite bool_decide_true by done.
  rewrite <- app_assoc. cbn [app]. by apply read_chars_doubled.
Qed.
Lemma strip_prefix_self p l : strip_prefix p (p ++ l) = Some l.
Proof. by apply strip_prefix_app. Qed.

Lemma read_alter_stmt user host password : no_backslash user -> no_backslash host -> no_backslash password ->
  read_alter (alter_stmt user host password) = Some (user, host, password).
Proof.
  intros Hu Hh Hp. unfold read_alter, alter_stmt. rewrite !to_bytes_app, <- ?app_assoc, strip_prefix_self. cbn [mbind option_bind].
  rewrite read_sqlStringLiteral by done. cbn [mbind option_bind]. rewrite strip_prefix_self. cbn [mbind option_bind].
  rewrite read_sqlStringLiteral by done. cbn [mbind option_bind]. rewrite strip_prefix_self. cbn [mbind option_bind].
  rewrite <- (app_nil_r (to_bytes (sqlStringLiteral password))), read_sqlStringLiteral by done. cbn [mbind option_bind].
  by rewrite !of_to_bytes.
Qed.

Section driver.
Context `{Driver}.

Lemma alter_hosts_stmts user password hosts s s' : alter_hosts user password hosts s = (s', inr tt) ->
  as_stmts s' = as_stmts s ++ ((fun h => alter_stmt user h password) <$> hosts) /\ as_hosts s' = as_hosts s.
Proof.
  revert s. induction hosts as [|h hosts IH]; intros s; cbn [alter_hosts].
  - intros [= <-]. by rewrite app_nil_r.
  - cbv [mbind SE_bind map_err alter_ExecContext]. destruct (head (as_faults s)) as [[e|]|]; [done|..]; intros [-> ->]%IH; cbn [as_stmts as_hosts];
      by rewrite <- app_assoc.
Qed.

(** A successful normalisation of an account sends one statement per host that the server lists, in its order, and
    the server reads each as that account with that password, if none of the texts has a backslash. *)
Theorem alter_user_exact user password hosts s s' :
  user <> ""%string -> no_backslash user -> no_backslash password -> Forall no_backslash hosts ->
  as_hosts s user = inr hosts -> alterMySQLUserAuth user password s = (s', inr tt) ->
  exists stmts, as_stmts s' = as_stmts s ++ stmts /\ (read_alter <$> stmts) = ((fun h => Some (user, h, password)) <$> hosts).
Proof.
  intros Hne Hu Hp Hh E. unfold alterMySQLUserAuth. rewrite bool_decide_false by done. rewrite E.
  intros [-> _]%alter_hosts_stmts. eexists. split; [done|]. rewrite <- list_fmap_compose. apply list_fmap_ext.
  intros i h Hi%list_elem_of_lookup_2. rewrite Forall_forall in Hh. apply read_alter_stmt; auto.
Qed.
End driver.

(** A backslash in the password is an escape to the server: the account gets
    another password, or the statement does not end where it should. *)
Example backslash_changes_password :
  read_alter (alter_stmt "mesh" "%" "a\tb") = Some ("mesh", "%", of_bytes [byte 97; byte 9; byte 98])%string /\
  read_alter (alter_stmt "mesh" "%" "secret\") = None.
Proof. done. Qed.

(** ** The loop of pings *)
Section loop.
Context (attempts : nat -> Attempt) (interval deadline : Z).

(** What the result says of the attempts: all but a last successful one have failed. *)
Definition last_attempt (r : PingResult) : nat := match r with Connected k _ | GaveUp k _ | Cancelled k _ => k end.
Definition failed (j : nat) : Prop := is_Some (at_ping (attempts j)).
Definition ping_outcome (from : nat) (r : PingResult) : Prop :=
  (forall j, (from <= j < last_attempt r)%nat -> failed j /\ at_cancelled (attempts j) = None) /\
  match r with
  | Connected k _ => at_ping (attempts k) = None
  | GaveUp k e => exists e', at_ping (attempts k) = Some e' /\ e = wrap "ping mysql" e'
  | Cancelled k e => failed k /\ at_cancelled (attempts k) = Some e
  end.

Lemma ping_loop_ends fuel n now :
  (forall n, 0 <= at_took (attempts n)) -> (forall n, interval <= at_waited (attempts n)) ->
  deadline < now + Z.of_nat fuel * interval ->
  exists r, ping_loop attempts deadline (S fuel) n now = Some r /\ ping_outcome n r /\ (n <= last_attempt r <= n + fuel)%nat.
Proof.
  intros Htook Hwait. revert n now. induction fuel as [|fuel IH]; intros n now Hd; cbn [ping_loop];
    specialize (Htook n) as Ht; specialize (Hwait n) as Hw;
    (destruct (at_ping (attempts n)) as [e|] eqn:Ep;
      [|exists (Connected n (now + at_took (attempts n))); split; [done|]; split; [split; [simpl; lia|done]|simpl; lia]]);
    (destruct (deadline <? _) eqn:El;
      [eexists; split; [done|]; split; [split; [simpl; lia|by exists e]|simpl; lia]|apply Z.ltb_ge in El]); [lia|].
  destruct (at_cancelled (attempts n)) as [e'|] eqn:Ec.
  { eexists. split; [done|]. split; [split; [simpl; lia|by split; [exists e|]]|simpl; lia]. }
  destruct (IH (S n) (now + at_took (attempts n) + at_waited (attempts n))) as (r&E&[Hb Hr]&Hl); [lia|].
  exists r. split; [exact E|]. split; [split; [|exact Hr]|lia].
  intros j Hj. destruct (decide (j = n)) as [->|]; [split; [by exists e|done]|]. apply Hb. lia.
Qed.
Lemma ping_loop_more fuel fuel' n now r : (fuel <= fuel')%nat ->
  ping_loop attempts deadline fuel n now = Some r -> ping_loop attempts deadline fuel' n now = Some r.
Proof.
  revert fuel' n now. induction fuel as [|fuel IH]; intros [|fuel'] n now Hle; try done; [lia|]. cbn [ping_loop]. cbv zeta.
  destruct (at_ping _); [|done]. destruct (_ <? _); [done|]. destruct (at_cancelled _); [done|]. apply IH. lia.
Qed.
End loop.

(** The number of attempts that the configuration allows. *)
Definition max_attempts (cfg : Config) : nat := (Z.to_nat (MySQLMaxRetryDuration cfg / MySQLRetryInterval cfg) + 2)%nat.

Lemma ping_bound cfg now : 0 < MySQLRetryInterval cfg ->
  now + MySQLMaxRetryDuration cfg < now + Z.of_nat (max_attempts cfg - 1) * MySQLRetryInterval cfg.
Proof.
  intros Hp. unfold max_attempts. pose proof (Z.mul_succ_div_gt (MySQLMaxRetryDuration cfg) _ Hp) as Hd.
  replace (Z.of_nat (_ + 2 - 1)) with (Z.of_nat (Z.to_nat (MySQLMaxRetryDuration cfg / MySQLRetryInterval cfg)) + 1) by lia. nia.
Qed.
Lemma open_pool_some `{Driver} cfg attempts now fuel dsn w r :
  ping_loop attempts (now + MySQLMaxRetryDuration cfg) fuel 0 now = Some r ->
  exists w' res, open_pool cfg attempts now fuel dsn w = Some (w', res) /\ (forall dsn, res = inr dsn -> exists n t, r = Connected n t).
Proof.
  intros E. unfold open_pool. rewrite E. destruct (sql_Open dsn); [by eexists _, _|]. destruct r; [|by eexists _, _..].
  destruct (bool_decide _); [eexists _, _; split; [done|]; eauto|].
  destruct (ensureCachingSha2Auth _ _) as [? []]; eexists _, _; (split; [done|]; eauto).
Qed.
Lemma open_some `{Driver} cfg rd attempts now fuel w r :
  ping_loop attempts (now + MySQLMaxRetryDuration cfg) fuel 0 now = Some r ->
  exists w' res, Open cfg rd attempts now fuel w = Some (w', res) /\ (forall dsn, res = inr dsn -> exists n t, r = Connected n t).
Proof.
  intros E. unfold Open. cbv zeta. destruct (bool_decide _); [by apply open_pool_some|].
  destruct (registerServerPubKey _ _); [by eexists _, _|by apply open_pool_some].
Qed.

(** C18: [Open] always returns: with a positive retry interval it makes at most
    [MySQLMaxRetryDuration / MySQLRetryInterval + 2] attempts, however the pings and waits turn out, and it returns a
    pool only after a ping that succeeded when all before it had failed. *)
Theorem open_terminates `{Driver} cfg rd attempts now fuel w :
  0 < MySQLRetryInterval cfg ->
  (forall n, 0 <= at_took (attempts n)) -> (forall n, MySQLRetryInterval cfg <= at_waited (attempts n)) ->
  (max_attempts cfg <= fuel)%nat ->
  exists w' res, Open cfg rd attempts now fuel w = Some (w', res) /\
    (forall dsn, res = inr dsn -> exists k, (k < max_attempts cfg)%nat /\ at_ping (attempts k) = None /\
      forall j, (j < k)%nat -> is_Some (at_ping (attempts j))).
Proof.
  intros Hp Ht Hw Hf. destruct (ping_loop_ends attempts _ _ (max_attempts cfg - 1) 0 now Ht Hw (ping_bound cfg now Hp)) as (r&E&[Hb Hr]&Hl).
  assert (S (max_attempts cfg - 1) <= fuel)%nat as Hf' by (unfold max_attempts in *; lia).
  destruct (open_some cfg rd attempts now fuel w r (ping_loop_more _ _ _ _ _ _ _ Hf' E)) as (w'&res&Eo&Hc).
  exists w', res. split; [done|]. intros dsn (n&t&->)%Hc. exists n. simpl in *. split; [unfold max_attempts in *; lia|]. split; [done|].
  intros j Hj. apply Hb. lia.
Qed.

(** ** A server that comes up late *)
#[export] Instance demo_driver : Driver := {
  PublicKey := string;
  sql_Open dsn := if decide (byte 47 ∈ to_bytes dsn) then None else Some (Errorf "invalid DSN: missing the slash separating the database name");
  ParseDSN dsn := match split_on (byte 58) (to_bytes dsn) with
                  | user :: rest :: _ => inr (of_bytes user, of_bytes (default [] (head (split_on (byte 64) rest))))
                  | _ => inl (Errorf "invalid DSN")
                  end;
  pem_Decode raw := Some ("PUBLIC KEY", raw)%string;
  ParsePKIXPublicKey data := inr (Some data);
  ParsePKCS1PublicKey data := inr data;
  quote s := s }.
(** Every ping takes a second; the fourth one succeeds. *)
Definition late_server (n : nat) : Attempt := mkAttempt (if (n <? 3)%nat then Some ErrDriver else None) 1000000000 None 3000000000.
Definition idle_admin : AdminServer := mkAdminServer None (fun _ => inr ["%"; "localhost"]%string) [] [].

Lemma open_terminates_witness :
  exists w' res, Open defaults (fun _ => inl ErrDriver) late_server 0 (max_attempts defaults) (mkDbWorld ∅ idle_admin) = Some (w', res) /\
    (forall dsn, res = inr dsn -> exists k, (k < max_attempts defaults)%nat /\ at_ping (late_server k) = None /\
      forall j, (j < k)%nat -> is_Some (at_ping (late_server j))).
Proof.
  apply (open_terminates defaults (fun _ => inl ErrDriver) late_server 0 (max_attempts defaults) (mkDbWorld ∅ idle_admin)).
  - reflexivity.
  - intros n. cbv. discriminate.
  - intros n. cbv. discriminate.
  - apply Nat.le_refl.
Defined.
Example late_server_connects :
  exists w', Open defaults (fun _ => inl ErrDriver) late_server 0 (max_attempts defaults) (mkDbWorld ∅ idle_admin) = Some (w', inr (MySQLDSN defaults)).
Proof. eexists. by vm_compute. Qed.

Lemma alter_user_exact_witness :
  exists stmts, as_stmts (alterMySQLUserAuth "mesh" "it's" idle_admin).1 = [] ++ stmts /\
    (read_alter <$> stmts) = [Some ("mesh", "%", "it's"); Some ("mesh", "localhost", "it's")]%string.
Proof.
  apply (alter_user_exact "mesh" "it's" ["%"; "localhost"]%string idle_admin (alterMySQLUserAuth "mesh" "it's" idle_admin).1).
  - discriminate.
  - by apply (bool_decide_unpack _).
  - by apply (bool_decide_unpack _).
  - repeat constructor; by apply (bool_decide_unpack _).
  - reflexivity.
  - reflexivity.
Defined.
