(* ===== verification/Migrate.v ===== *)
(** * Migrations: [internal/db/migrate.go]

    The scripts are executed by MySQL, which is a parameter: [Script] says
    what a script makes of a schema.  DDL statements commit by themselves, so
    a script that fails or is rolled back may leave part of its effect. *)
From S2P Require Import Prelude Go Encoding Paths Store.

(** ** MySQL and the directory *)
Record ScriptResult (Sch : Type) := mkScriptResult {
  sc_after : Sch;      (** the schema after the script *)
  sc_kept : Sch;       (** what survives a rollback *)
  sc_lost : Sch;       (** what has been done when the connection breaks *)
  sc_ended : bool;     (** the script has ended the transaction by an implicit commit *)
  sc_err : option Err }.
Arguments sc_after {_}. Arguments sc_kept {_}. Arguments sc_lost {_}. Arguments sc_ended {_}. Arguments sc_err {_}.
Class Script := { Sch : Type; exec_script : string -> Sch -> ScriptResult Sch; quoted_name : string -> string }.

Record DirEntry := mkDirEntry { d_Name : string; d_IsDir : bool }.
Record MigrationFS := mkMigrationFS { ReadDir : string -> Err + list DirEntry; ReadFile : string -> Err + string }.

Definition str_le (a b : string) : Prop := String.leb a b = true.
#[export] Instance str_le_dec a b : Decision (str_le a b).
Proof. unfold str_le. apply _. Defined.
#[export] Instance str_le_total : Total str_le.
Proof. intros a b. unfold str_le. destruct (String.leb_total a b); auto. Qed.

Section migrate.
Context `{Env, Script}.

(** The schema, the names in [schema_migrations] and which of the next statements fail. *)
Record MigState := mkMigState { m_schema : Sch; m_table : bool; m_applied : list string; m_faults : list bool }.
Definition m_fault (s : MigState) : bool := default false (head (m_faults s)).
Definition m_tick (s : MigState) : MigState := mkMigState (m_schema s) (m_table s) (m_applied s) (tail (m_faults s)).
Definition set_schema d (s : MigState) : MigState := mkMigState d (m_table s) (m_applied s) (m_faults s).
Definition statement : SE MigState unit := fun s => (m_tick s, if m_fault s then inl ErrDriver else inr tt).

Definition ensureMigrationTable : SE MigState unit := fun s =>
  match statement s with
  | (s, inl e) => (s, inl (wrap "ensure schema_migrations" e))
  | (s, inr _) => (mkMigState (m_schema s) true (m_applied s) (m_faults s), inr tt)
  end.
Definition isMigrationApplied (name : string) : SE MigState bool := fun s =>
  match statement s with
  | (s, inl e) => (s, inl (wrap ("check migration " +:+ quoted_name name) e))
  | (s, inr _) => (s, inr (existsb (sql_eq name) (m_applied s)))
  end.

(** The transaction of one script. *)
Definition apply_migration (name raw : string) : SE MigState unit := fun s =>
  match statement s with
  | (s, inl e) => (s, inl (wrap ("begin migration " +:+ quoted_name name) e))
  | (s, inr _) =>
    let res := exec_script raw (m_schema s) in
    let apply_failed := wrap ("apply migration " +:+ quoted_name name) in
    match statement s with
    | (s, inl e) => (set_schema (sc_lost res) s, inl (apply_failed e))
    | (s, inr _) =>
      match sc_err res with
      | Some e => (set_schema (sc_kept res) s, inl (apply_failed e))
      | None =>
        match statement s with
        | (s, inl e) => (set_schema (sc_kept res) s, inl (wrap ("record migration " +:+ quoted_name name) e))
        | (s, inr _) =>
          let recorded s := mkMigState (sc_after res) (m_table s) (m_applied s ++ [name]) (m_faults s) in
          match statement s with
          | (s, inl e) => (if sc_ended res then recorded s else set_schema (sc_kept res) s,
                           inl (wrap ("commit migration " +:+ quoted_name name) e))
          | (s, inr _) => (recorded s, inr tt)
          end
        end
      end
    end
  end.

Definition has_suffix (suffix s : bytes) : bool :=
  bool_decide (length suffix <= length s)%nat && (drop (length s - length suffix) s =@ suffix).
Definition migration_names (entries : list DirEntry) : list string :=
  merge_sort str_le (d_Name <$> List.filter (fun e => negb (d_IsDir e) && has_suffix (to_bytes ".up.sql") (to_bytes (d_Name e))) entries).

Section run.
Context (fs : MigrationFS) (migrationsDir : string).
Fixpoint run_files (files : list string) : SE MigState unit :=
  match files with
  | [] => mret tt
  | name :: files =>
    applied ← isMigrationApplied name;
    if applied : bool then run_files files
    else
      let fullPath := Join [migrationsDir; name] in
      match ReadFile fs fullPath with
      | inl e => throw (wrap ("read migration " +:+ quoted_name fullPath) e)
      | inr raw => _ ← apply_migration name raw; run_files files
      end
  end.
Definition RunMigrations : SE MigState unit :=
  _ ← ensureMigrationTable;
  match ReadDir fs migrationsDir with
  | inl e => throw (wrap "read migrations dir" e)
  | inr entries => run_files (migration_names entries)
  end.
End run.
End migrate.
