(* ===== verification/MigrateThms.v ===== *)
(** * Properties of the migrations

    Scripts run in the order of their names, each at most once, and none runs
    after one that failed. *)
From S2P Require Import Prelude Go Encoding Paths Store Demo Migrate.

Section migrations.
Context `{Env, Script}.
Implicit Types (s : MigState) (fs : MigrationFS).

(** The scripts that a table does not name. *)
Fixpoint pending (applied files : list string) : list string :=
  match files with
  | [] => []
  | n :: files => if existsb (sql_eq n) applied then pending applied files else n :: pending (applied ++ [n]) files
  end.
(** The schema that a list of scripts makes. *)
Definition script_of fs dir (n : string) : string := match ReadFile fs (Join [dir; n]) with inr raw => raw | inl _ => "" end.
Definition run_scripts fs dir (names : list string) (d : Sch) : Sch :=
  fold_left (fun d n => sc_after (exec_script (script_of fs dir n) d)) names d.
Definition files_of fs dir : list string := match ReadDir fs dir with inr entries => migration_names entries | inl _ => [] end.

(** The scripts [did] of the pending ones have run and are in the table; on
    an error the schema may have part of the effect of the next one. *)
Definition partial_effect fs dir (rest : list string) (d d' : Sch) : Prop :=
  d' = d \/ exists n rest', rest = n :: rest' /\ let res := exec_script (script_of fs dir n) d in d' = sc_kept res \/ d' = sc_lost res.
Definition progress fs dir files s s' (r : Err + unit) : Prop := exists did rest,
  pending (m_applied s) files = did ++ rest /\ m_applied s' = m_applied s ++ did /\
  match r with
  | inr _ => rest = [] /\ m_schema s' = run_scripts fs dir did (m_schema s)
  | inl _ => partial_effect fs dir rest (run_scripts fs dir did (m_schema s)) (m_schema s')
  end.

Lemma apply_spec name raw s s' r : apply_migration name raw s = (s', r) ->
  let res := exec_script raw (m_schema s) in
  match r with
  | inr _ => m_applied s' = m_applied s ++ [name] /\ m_schema s' = sc_after res
  | inl _ => m_applied s' = m_applied s /\ (m_schema s' = m_schema s \/ m_schema s' = sc_kept res \/ m_schema s' = sc_lost res) \/
             m_applied s' = m_applied s ++ [name] /\ m_schema s' = sc_after res
  end.
Proof.
  unfold apply_migration, statement. cbv zeta. cbn [m_schema m_tick].
  destruct (m_fault s); [intros [= <- <-]; left; by split; [|left]|].
  destruct (m_fault (m_tick s)); [intros [= <- <-]; left; cbn; tauto|].
  destruct (sc_err _); [intros [= <- <-]; left; cbn; tauto|].
  destruct (m_fault (m_tick (m_tick s))); [intros [= <- <-]; left; cbn; tauto|].
  destruct (m_fault _); [|by intros [= <- <-]]. destruct (sc_ended _); intros [= <- <-]; cbn; tauto.
Qed.

Lemma run_files_progress fs dir files s s' r : run_files fs dir files s = (s', r) -> progress fs dir files s s' r.
Proof.
  revert s. induction files as [|name files IH]; intros s; cbn [run_files].
  { intros [= <- <-]. exists [], []. rewrite ?app_nil_r. by split_and!. }
  cbv [mbind SE_bind]. unfold isMigrationApplied, statement.
  destruct (m_fault s).
  { intros [= <- <-]. exists [], (pending (m_applied s) (name :: files)). rewrite ?app_nil_r. by split_and!; [..|left]. }
  cbv iota beta zeta. cbn [m_tick m_applied pending]. unfold progress. cbn [pending]. destruct (existsb _ _) eqn:Ea; [apply IH|].
  destruct (ReadFile fs _) as [e|raw] eqn:Er.
  { intros [= <- <-]. exists [], (name :: pending (m_applied s ++ [name]) files). rewrite ?app_nil_r. by split_and!; [..|left]. }
  destruct (apply_migration name raw (m_tick s)) as [s1 [e|[]]] eqn:Ex; apply apply_spec in Ex;
    assert (script_of fs dir name = raw) as Hraw by (unfold script_of; by rewrite Er).
  - intros [= <- <-]. cbn [m_tick m_applied m_schema] in Ex. destruct Ex as [[Et Es]|[Et Es]].
    + exists [], (name :: pending (m_applied s ++ [name]) files). rewrite ?app_nil_r. split_and!; [done..|].
      destruct Es as [Es|Es]; [by left|]. right. eexists _, _. split; [done|]. by rewrite Hraw.
    + exists [name], (pending (m_applied s ++ [name]) files). split_and!; [done..|]. left. unfold run_scripts. cbn [fold_left]. by rewrite Hraw.
  - destruct Ex as [Et Es]. cbn [m_tick m_applied m_schema] in Et, Es. intros (did&rest&Ep&Ead&Hr)%IH.
    rewrite Et in Ep, Ead. rewrite Es in Hr. exists (name :: did), rest. rewrite Ep. split_and!; [done|by rewrite Ead, <- app_assoc|].
    unfold run_scripts in *. cbn [fold_left]. by rewrite Hraw.
Qed.

(** ** Order *)
Lemma str_le_trans a b c : str_le a b -> str_le b c -> str_le a c.
Proof.
  unfold str_le, String.leb. revert b c. induction a as [|x a IH]; intros [|y b] [|z c]; try done. cbn [String.compare].
  unfold Ascii.compare. specialize (IH b c).
  destruct (N.compare_spec (Ascii.N_of_ascii x) (Ascii.N_of_ascii y)), (N.compare_spec (Ascii.N_of_ascii y) (Ascii.N_of_ascii z)),
    (N.compare_spec (Ascii.N_of_ascii x) (Ascii.N_of_ascii z)); try done; try lia.
Qed.
Lemma files_sorted fs dir : StronglySorted str_le (files_of fs dir).
Proof.
  unfold files_of. destruct (ReadDir fs dir) as [|entries]; [constructor|].
  apply StronglySorted_merge_sort; [intros a b c; apply str_le_trans|apply _].
Qed.
Lemma pending_sorted applied files : StronglySorted str_le files -> StronglySorted str_le (pending applied files).
Proof.
  assert (forall P applied files, Forall P files -> Forall P (pending applied files)) as Hsub.
  { intros P applied' files' Hall. revert applied'. induction Hall as [|n l Hn _ IH]; intros applied'; cbn [pending]; [constructor|].
    destruct (existsb _ _); [apply IH|by constructor]. }
  intros Hs. revert applied. induction Hs as [|n files Hs IH Hn]; intros applied; cbn [pending]; [constructor|].
  destruct (existsb _ _); [apply IH|]. constructor; [apply IH|by apply Hsub].
Qed.

(** C19: the migrations run strictly in sequence: whatever fails, the scripts recorded by a run are a prefix of the pending
    ones in the order of their names; a run that reports success has executed exactly the pending ones, once each, and
    one that reports an error has executed nothing after the script that failed. *)
Theorem migrations_sequential fs dir s s' r :
  RunMigrations fs dir s = (s', r) ->
  progress fs dir (files_of fs dir) s s' r /\ StronglySorted str_le (pending (m_applied s) (files_of fs dir)).
Proof.
  intros Hrun. split; [|apply pending_sorted, files_sorted].
  revert Hrun. unfold RunMigrations, ensureMigrationTable, statement, files_of. cbv [mbind SE_bind].
  assert (forall s0 e, m_applied s0 = m_applied s -> m_schema s0 = m_schema s -> forall files, progress fs dir files s s0 (inl e)) as Hno.
  { intros s0 e Et Es files. exists [], (pending (m_applied s) files). rewrite ?app_nil_r. by split_and!; [..|left]. }
  destruct (m_fault s); [intros [= <- <-]; by apply Hno|]. destruct (ReadDir fs dir) as [e|entries]; [intros [= <- <-]; by apply Hno|].
  intros Hrun%run_files_progress. exact Hrun.
Qed.

(** ** Running again *)
Lemma pending_applied files applied : Forall (fun n => existsb (sql_eq n) applied = true) files -> pending applied files = [].
Proof. induction 1 as [|n files Hn _ IH]; [done|]. cbn [pending]. by rewrite Hn. Qed.
Lemma existsb_app_l n l k : existsb (sql_eq n) l = true -> existsb (sql_eq n) (l ++ k) = true.
Proof. rewrite existsb_app. by intros ->. Qed.
Lemma all_applied files applied : Forall (fun n => existsb (sql_eq n) (applied ++ pending applied files) = true) files.
Proof.
  assert (forall files applied n, existsb (sql_eq n) applied = true \/ n ∈ files -> existsb (sql_eq n) (applied ++ pending applied files) = true) as Hg.
  { clear. induction files as [|m files IH]; intros applied n Hn; cbn [pending].
    - destruct Hn as [Hn|Hn%elem_of_nil]; [by apply existsb_app_l|done].
    - destruct (existsb (sql_eq m) applied) eqn:Em.
      + apply IH. destruct Hn as [Hn|[->|Hn]%elem_of_cons]; auto.
      + rewrite (cons_middle m applied). rewrite app_assoc. apply IH. destruct Hn as [Hn|[->|Hn]%elem_of_cons].
        * left. by apply existsb_app_l.
        * left. rewrite existsb_app. cbn. rewrite sql_eq_refl. by destruct (existsb _ _).
        * by right. }
  apply Forall_forall. intros n Hn. apply Hg. by right.
Qed.

Lemma run_files_noop fs dir files s :
  Forall (fun n => existsb (sql_eq n) (m_applied s) = true) files -> m_faults s = [] -> run_files fs dir files s = (s, inr tt).
Proof.
  intros Hf E. induction Hf as [|n files Hn _ IH]; [done|]. cbn [run_files]. cbv [mbind SE_bind]. unfold isMigrationApplied, statement, m_fault, m_tick.
  rewrite E. cbn [head tail default m_applied]. destruct s as [d t a f]. cbn in *. subst f. rewrite Hn. exact IH.
Qed.

Lemma run_files_table fs dir files s s' : run_files fs dir files s = (s', inr tt) -> m_table s' = m_table s.
Proof.
  revert s. induction files as [|n files IH]; intros s; cbn [run_files]; [by intros [= <-]|].
  cbv [mbind SE_bind]. unfold isMigrationApplied, statement. destruct (m_fault s); [done|]. cbv iota beta. destruct (existsb _ _); [by intros ->%IH|].
  destruct (ReadFile fs _) as [|raw]; [done|]. unfold apply_migration, statement. cbv zeta.
  do 2 (destruct (m_fault _); [done|]). destruct (sc_err _); [done|]. do 2 (destruct (m_fault _); [done|]). by intros ->%IH.
Qed.

(** No script is left after a successful run. *)
Lemma migrations_complete fs dir s s' :
  RunMigrations fs dir s = (s', inr tt) -> pending (m_applied s') (files_of fs dir) = [].
Proof.
  unfold RunMigrations, ensureMigrationTable, statement, files_of. cbv [mbind SE_bind]. destruct (m_fault s); [done|].
  destruct (ReadDir fs dir) as [|entries]; [done|]. intros (did&rest&Ep&Ea&->&_)%run_files_progress. rewrite app_nil_r in Ep. subst did.
  rewrite Ea. apply pending_applied, all_applied.
Qed.

(** Running the migrations again after a successful run executes no script and changes nothing. *)
Theorem migrations_idempotent fs dir s s' :
  RunMigrations fs dir s = (s', inr tt) -> m_faults s' = [] -> RunMigrations fs dir s' = (s', inr tt).
Proof.
  unfold RunMigrations, ensureMigrationTable, statement. cbv [mbind SE_bind]. destruct (m_fault s); [done|].
  destruct (ReadDir fs dir) as [|entries]; [done|]. intros Hrun E. pose proof (run_files_table _ _ _ _ _ Hrun) as Ht.
  apply run_files_progress in Hrun as (did&rest&Ep&Ea&->&_). rewrite app_nil_r in Ep. subst did.
  unfold m_fault, m_tick. rewrite E. cbn [head default tail m_schema m_applied m_faults].
  replace (mkMigState (m_schema s') true (m_applied s') []) with s' by (destruct s'; cbn in *; by subst).
  apply run_files_noop; [|done]. rewrite Ea. apply all_applied.
Qed.
End migrations.

(** ** Three scripts, the second of which stops half way the first time *)
#[export] Instance demo_script : Script := {
  Sch := list string;
  exec_script raw d := mkScriptResult _ (d ++ [raw]) (d ++ [raw]) (d ++ [raw +:+ " (part)"]) true None;
  quoted_name n := n }.
Definition demo_dir : MigrationFS := mkMigrationFS
  (fun _ => inr [mkDirEntry "0002_b.up.sql" false; mkDirEntry "0001_a.down.sql" false; mkDirEntry "0001_a.up.sql" false;
                 mkDirEntry "old.up.sql" true; mkDirEntry "0003_c.up.sql" false])
  (fun p => inr ("-- " +:+ p)).
Definition empty_database : MigState := mkMigState [] false [] [].
(** The connection breaks during the second script. *)
Definition broken_database : MigState := mkMigState [] false [] (repeat false 8 ++ [true]).

Lemma migrations_sequential_witness :
  let s' := (RunMigrations demo_dir "migrations" broken_database).1 in
  m_applied s' = ["0001_a.up.sql"]%string /\
  exists e, progress demo_dir "migrations" (files_of demo_dir "migrations") broken_database s' (inl e) /\
    StronglySorted str_le (pending [] (files_of demo_dir "migrations")).
Proof.
  split; [by vm_compute|]. eexists.
  apply (migrations_sequential demo_dir "migrations" broken_database (RunMigrations demo_dir "migrations" broken_database).1).
  vm_compute. reflexivity.
Defined.
Lemma migrations_idempotent_witness :
  let s' := (RunMigrations demo_dir "migrations" empty_database).1 in
  m_applied s' = ["0001_a.up.sql"; "0002_b.up.sql"; "0003_c.up.sql"]%string /\ RunMigrations demo_dir "migrations" s' = (s', inr tt).
Proof.
  split; [by vm_compute|].
  apply (migrations_idempotent demo_dir "migrations" empty_database (RunMigrations demo_dir "migrations" empty_database).1);
    vm_compute; reflexivity.
Defined.
