(* ===== verification/Node.v ===== *)
(** * The libp2p node: [internal/libp2p/node.go]

    Keys, multiaddresses, the host and the routing belong to libp2p and are
    parameters.  The key file is part of the state, with the failures of
    reading and writing it. *)
From S2P Require Import Prelude Go Encoding Paths Config Store.

(** ** libp2p *)
Class Keys := {
  PrivKey : Type;
  UnmarshalPrivateKey : string -> Err + PrivKey;
  GenerateEd25519Key : nat -> Err + PrivKey;    (** the n-th key drawn *)
  MarshalPrivateKey : PrivKey -> Err + string }.
Class KeysLaws `{Keys} : Prop := {
  unmarshal_marshal k raw : MarshalPrivateKey k = inr raw -> UnmarshalPrivateKey raw = inr k }.

(** ** The key file *)
(** What the next calls of the file system do. *)
Record FsFaults := mkFsFaults { ff_mkdir : option Err; ff_read : option Err; ff_write : option (Err * nat) }.
Definition no_fs_faults : FsFaults := mkFsFaults None None None.
Record KeyStore := mkKeyStore { ks_files : gmap string string; ks_draws : nat }.

Definition read_key (f : FsFaults) (path : string) (s : KeyStore) : Err + string :=
  match ff_read f, ks_files s !! path with
  | Some e, _ => inl e
  | None, None => inl (Errorf ("open " +:+ path +:+ ": no such file or directory"))
  | None, Some raw => inr raw
  end.
(** A write that fails has truncated the file and written a part. *)
Definition write_key (f : FsFaults) (path raw : string) : SE KeyStore unit := fun s =>
  match ff_write f with
  | Some (e, n) => (mkKeyStore (<[path := of_bytes (take n (to_bytes raw))]> (ks_files s)) (ks_draws s), inl e)
  | None => (mkKeyStore (<[path := raw]> (ks_files s)) (ks_draws s), inr tt)
  end.

Section identity.
Context `{Keys}.
Definition LoadOrCreateIdentity (f : FsFaults) (path : string) : SE KeyStore PrivKey := fun s =>
  match ff_mkdir f with
  | Some e => (s, inl (wrap "create node key dir" e))
  | None =>
    match read_key f path s with
    | inr raw => (s, match UnmarshalPrivateKey raw with inl e => inl (wrap "unmarshal node key" e) | inr k => inr k end)
    | inl _ =>
      let s := mkKeyStore (ks_files s) (S (ks_draws s)) in
      match GenerateEd25519Key (Nat.pred (ks_draws s)) with
      | inl e => (s, inl (wrap "generate node key" e))
      | inr privKey =>
        match MarshalPrivateKey privKey with
        | inl e => (s, inl (wrap "marshal node key" e))
        | inr raw => (_ ← map_err (wrap "persist node key") (write_key f path raw); mret privKey) s
        end
      end
    end
  end.
End identity.

(** ** Bootstrap peers *)
Class Multiaddrs := {
  AddrInfo : Type;
  PeerKey : AddrInfo -> string;                       (** [info.ID] *)
  GetDefaultBootstrapPeerAddrInfos : list AddrInfo;
  NewMultiaddr : string -> Err + string;
  AddrInfoFromP2pAddr : string -> Err + AddrInfo;
  quoted_addr : string -> string }.

Section peers.
Context `{Multiaddrs}.
Fixpoint collect_extra (peers : list AddrInfo) (extra : list string) : Err + list AddrInfo :=
  match extra with
  | [] => inr peers
  | addrStr :: extra =>
    let addrStr := TrimSpace addrStr in
    if addrStr =@ ""%string then collect_extra peers extra
    else match NewMultiaddr addrStr with
         | inl e => inl (wrap ("invalid dht bootstrap multiaddr " +:+ quoted_addr addrStr) e)
         | inr addr =>
           match AddrInfoFromP2pAddr addr with
           | inl e => inl (wrap ("parse dht bootstrap peer " +:+ quoted_addr addrStr) e)
           | inr info => collect_extra (peers ++ [info]) extra
           end
         end
  end.
Definition collectDHTBootstrapPeers (extra : list string) : Err + list AddrInfo :=
  collect_extra GetDefaultBootstrapPeerAddrInfos extra.

(** The peers the host is connected to; [connects] tells which attempts succeed. *)
Definition connect_step (connects : AddrInfo -> bool) (acc : bool * gset string) (info : AddrInfo) : bool * gset string :=
  let '(connected, peers) := acc in
  if bool_decide (PeerKey info ∈ peers) then (true, peers)
  else if connects info then (true, {[PeerKey info]} ∪ peers)
  else (connected, peers).
Definition connectBootstrapPeers (connects : AddrInfo -> bool) (bootstrapPeers : list AddrInfo) (peers : gset string) : bool * gset string :=
  fold_left (connect_step connects) bootstrapPeers (false, peers).
(** Rounds until one reports a connection or the context ends ([None]: the
    fuel ran out); [rounds n] is the network of the n-th round. *)
Fixpoint connectBootstrapPeersLoop (rounds : nat -> AddrInfo -> bool) (cancelled : nat -> bool) (bootstrapPeers : list AddrInfo)
  (fuel n : nat) (peers : gset string) : option (nat * gset string) :=
  match fuel with
  | O => None
  | S fuel =>
    let '(connected, peers) := connectBootstrapPeers (rounds n) bootstrapPeers peers in
    if connected || cancelled n then Some (n, peers)
    else connectBootstrapPeersLoop rounds cancelled bootstrapPeers fuel (S n) peers
  end.

(** [Start]: the peers after it and the loops it leaves running; [dht] is the
    routing with the result of its bootstrap, if there is one. *)
Inductive NodeLoop := BootstrapLoop | AdvertiseLoop.
Definition NodeStart (connects : AddrInfo -> bool) (bootstrapPeers : list AddrInfo) (dht : option (option Err)) (discoveryNS : string)
  (peers : gset string) : gset string * (Err + list NodeLoop) :=
  let '(peers, loops) := match bootstrapPeers with
                         | [] => (peers, [])
                         | _ :: _ => ((connectBootstrapPeers connects bootstrapPeers peers).2, [BootstrapLoop])
                         end in
  match dht with
  | Some (Some e) => (peers, inl (wrap "bootstrap dht" e))
  | Some None => (peers, inr (loops ++ if TrimSpace discoveryNS =@ ""%string then [] else [AdvertiseLoop]))
  | None => (peers, inr loops)
  end.
End peers.

(** ** Discovery *)
Definition refreshEvery : Z := 30 * minute.
(** How long to wait after an advertisement, or after its failure. *)
Definition advertise_wait (r : Err + Z) : Z :=
  match r with
  | inl _ => 30 * ns_per_s
  | inr ttl =>
    let wait := Z.quot ttl 2 in
    let wait := if wait <=? 0 then refreshEvery else wait in
    if refreshEvery <? wait then refreshEvery else wait
  end.

(** The times of the advertisements until the context ends at [ends] ([None]:
    the fuel ran out); the n-th one takes [took n] and has the result
    [answers n].  A context that ends during a wait ends the loop. *)
Fixpoint advertiseDiscoveryLoop (answers : nat -> Err + Z) (took : nat -> Z) (ends : Z) (fuel n : nat) (now : Z) : option (list Z) :=
  match fuel with
  | O => None
  | S fuel =>
    let next := now + took n + advertise_wait (answers n) in
    if ends <=? next then Some [now]
    else times ← advertiseDiscoveryLoop answers took ends fuel (S n) next; Some (now :: times)
  end.

(** ** The handler of the session protocol *)
(** The handler the node remembers and those registered at the host, by protocol. *)
Record Handlers (H : Type) := mkHandlers { sessionHandler : option H; registered : gmap string H }.
Arguments mkHandlers {H} _ _.
Arguments sessionHandler {H} _.
Arguments registered {H} _.
Definition SetSessionHandler {H} (protocolID : string) (handler : H) (hs : Handlers H) : Handlers H :=
  mkHandlers (Some handler) (<[protocolID := handler]> (registered hs)).
(** The first statement of [Start] *)
Definition register_handler {H} (protocolID : string) (hs : Handlers H) : Handlers H :=
  match sessionHandler hs with
  | Some handler => mkHandlers (sessionHandler hs) (<[protocolID := handler]> (registered hs))
  | None => hs
  end.

(** ** Addresses *)
Definition p2p_addr (id addr : string) : string := addr +:+ "/p2p/" +:+ id.
Definition PublicAddrsOf (id : string) (addrs : list string) : list string := p2p_addr id <$> addrs.

(** ** [Close]: both parts are closed, the errors are joined *)
Definition close_errors (closers : list (string * option Err)) : list Err :=
  omap (fun '(what, r) => wrap what <$> r) closers.
Definition NodeClose (dht : option (option Err)) (host : option Err) : list Err :=
  close_errors ((match dht with Some r => [("close dht"%string, r)] | None => [] end) ++ [("close host"%string, host)]).
