(* ===== verification/NodeThms.v ===== *)
(** * Properties of the libp2p node

    The identity of a node survives restarts, the bootstrap peers are the
    configured ones and the loops of the node wait between their rounds. *)
From S2P Require Import Prelude Go Encoding Paths Config Store Node.

(** ** Identity *)
Section identity.
Context `{Keys}.
Implicit Types (s : KeyStore) (k : PrivKey).

(** The file holds the key. *)
Definition persisted (path : string) k s : Prop := exists raw, ks_files s !! path = Some raw /\ UnmarshalPrivateKey raw = inr k.

Lemma identity_persisted `{!KeysLaws} f path s s' k : LoadOrCreateIdentity f path s = (s', inr k) -> persisted path k s'.
Proof.
  unfold LoadOrCreateIdentity, read_key. destruct (ff_mkdir f); [done|].
  destruct (ff_read f) as [e|]; [|destruct (ks_files s !! path) as [raw|] eqn:Er]; cbv zeta; cbn [ks_draws Nat.pred].
  2: { destruct (UnmarshalPrivateKey raw) eqn:Eu; [done|]. intros [= <- <-]. by exists raw. }
  all: destruct (GenerateEd25519Key _) as [|k0]; [done|]; destruct (MarshalPrivateKey k0) as [|raw] eqn:Em; [done|];
    cbv [mbind SE_bind map_err write_key]; destruct (ff_write f) as [[? ?]|]; [done|]; intros [= <- <-];
    exists raw; split; [apply lookup_insert_eq|by apply unmarshal_marshal].
Qed.
Lemma identity_loaded f path s k : persisted path k s -> ff_read f = None ->
  LoadOrCreateIdentity f path s = (s, match ff_mkdir f with Some e => inl (wrap "create node key dir" e) | None => inr k end).
Proof.
  intros (raw&E&Eu) Ef. unfold LoadOrCreateIdentity, read_key. rewrite Ef, E. destruct (ff_mkdir f); [done|]. by rewrite Eu.
Qed.

(** Starts of the node one after another. *)
Fixpoint starts (path : string) (fs : list FsFaults) s : KeyStore * list (Err + PrivKey) :=
  match fs with
  | [] => (s, [])
  | f :: fs => let '(s, r) := LoadOrCreateIdentity f path s in let '(s, rs) := starts path fs s in (s, r :: rs)
  end.

(** C28: a node keeps its identity: once it has obtained a key, every later start that can read the key file obtains
    the same key or fails, and the file stays as it is. *)
Theorem identity_stable `{!KeysLaws} f path s s' k fs :
  LoadOrCreateIdentity f path s = (s', inr k) -> Forall (fun f => ff_read f = None) fs ->
  (starts path fs s').1 = s' /\ Forall (fun r => r = inr k \/ exists e, r = inl e) (starts path fs s').2.
Proof.
  intros Hp%identity_persisted Hfs. induction Hfs as [|f' fs Hf Hfs IH]; [done|]. cbn [starts]. rewrite (identity_loaded f' path s' k) by done.
  destruct (starts path fs s') as [s1 rs]. cbn [fst snd] in *. destruct IH as [-> IH]. split; [done|]. constructor; [|done].
  destruct (ff_mkdir f'); [right; eauto|by left].
Qed.
End identity.

(** Keys that are texts. *)
#[export] Instance demo_keys : Keys := {
  PrivKey := nat;
  UnmarshalPrivateKey raw := match to_bytes raw with [] => inl (Errorf "unexpected EOF") | l => inr (Nat.pred (length l)) end;
  GenerateEd25519Key n := inr n;
  MarshalPrivateKey k := inr (of_bytes (repeat (byte 120) (S k))) }.
#[export] Instance demo_keys_laws : KeysLaws.
Proof.
  split. intros k raw Hm. assert (raw = of_bytes (repeat (byte 120) (S k))) as -> by (cbn [MarshalPrivateKey demo_keys] in Hm; congruence).
  cbn [UnmarshalPrivateKey demo_keys]. rewrite to_of_bytes. cbn [repeat]. f_equal. simpl. apply repeat_length.
Qed.
Definition no_key : KeyStore := mkKeyStore ∅ 7.
Lemma identity_stable_witness :
  (starts "node.key" [no_fs_faults; no_fs_faults] (LoadOrCreateIdentity no_fs_faults "node.key" no_key).1).1
    = (LoadOrCreateIdentity no_fs_faults "node.key" no_key).1 /\
  Forall (fun r => r = inr 7%nat \/ exists e, r = inl e)
    (starts "node.key" [no_fs_faults; no_fs_faults] (LoadOrCreateIdentity no_fs_faults "node.key" no_key).1).2.
Proof.
  apply (@identity_stable demo_keys demo_keys_laws no_fs_faults "node.key" no_key (LoadOrCreateIdentity no_fs_faults "node.key" no_key).1 7%nat
    [no_fs_faults; no_fs_faults]); [reflexivity|]. repeat constructor.
Defined.

(** Any failure to read the file, not only its absence, makes the node draw
    a new key and write it over the old one. *)
Example unreadable_key_replaced :
  let s := mkKeyStore {["node.key" := "xxx"%string]} 7 in
  let '(s', r) := LoadOrCreateIdentity (mkFsFaults None (Some ErrDriver) None) "node.key" s in
  (LoadOrCreateIdentity no_fs_faults "node.key" s).2 = inr 2%nat /\ r = inr 7%nat /\
  (LoadOrCreateIdentity no_fs_faults "node.key" s').2 = inr 7%nat.
Proof. by vm_compute. Qed.

(** ** Bootstrap peers *)
Section peers.
Context `{Multiaddrs}.

Definition parse_peer (addrStr : string) : option AddrInfo :=
  match NewMultiaddr addrStr with inr addr => match AddrInfoFromP2pAddr addr with inr info => Some info | inl _ => None end | inl _ => None end.
Definition configured (extra : list string) : list string := filter (fun a => a <> ""%string) (TrimSpace <$> extra).

Lemma collect_extra_spec peers extra :
  match collect_extra peers extra with
  | inr l => exists infos, l = peers ++ infos /\ Forall2 (fun a i => parse_peer a = Some i) (configured extra) infos
  | inl _ => Exists (fun a => parse_peer a = None) (configured extra)
  end.
Proof.
  revert peers. induction extra as [|a extra IH]; intros peers; cbn [collect_extra]; [exists []; by rewrite app_nil_r|].
  unfold configured. rewrite fmap_cons, filter_cons. cbv zeta. destruct (bool_decide_reflect (TrimSpace a = ""%string)) as [E|E].
  { rewrite decide_False by (intros Hn; apply Hn, E). apply IH. }
  rewrite decide_True by done. unfold parse_peer at 2. destruct (NewMultiaddr (TrimSpace a)) as [e|addr] eqn:Ea.
  { constructor. unfold parse_peer. by rewrite Ea. }
  destruct (AddrInfoFromP2pAddr addr) as [e|info] eqn:Ei; [constructor; unfold parse_peer; by rewrite Ea, Ei|].
  specialize (IH (peers ++ [info])). destruct (collect_extra _ extra) as [e|l]; [by apply Exists_cons_tl|].
  destruct IH as (infos&->&Hall). exists (info :: infos). split; [by rewrite <- app_assoc|]. constructor; [|done]. unfold parse_peer. by rewrite Ea, Ei.
Qed.

Definition linked (bootstrapPeers : list AddrInfo) (peers : gset string) : Prop := exists info, info ∈ bootstrapPeers /\ PeerKey info ∈ peers.

Lemma connect_step_mono connects acc info : acc.2 ⊆ (connect_step connects acc info).2.
Proof. destruct acc as [b peers]. cbn [connect_step snd]. destruct (bool_decide _); [done|]. destruct (connects info); set_solver. Qed.
Lemma connect_fold_mono connects l acc : acc.2 ⊆ (fold_left (connect_step connects) l acc).2.
Proof. revert acc. induction l as [|i l IH]; intros acc; [done|]. cbn [fold_left]. etrans; [apply connect_step_mono|apply IH]. Qed.

Lemma connect_fold_new connects l acc x :
  x ∈ (fold_left (connect_step connects) l acc).2 -> x ∈ acc.2 \/ exists info, info ∈ l /\ PeerKey info = x.
Proof.
  revert acc. induction l as [|i l IH]; intros [b peers]; [by left|]. cbn [fold_left connect_step].
  destruct (bool_decide _); [|destruct (connects i)]; intros [Hx|(info&Hin&E)]%IH; cbn [snd] in *;
    try (by left); try (right; exists info; split; [by right|done]).
  apply elem_of_union in Hx as [->%elem_of_singleton|Hx]; [right; exists i; split; [by left|done]|by left].
Qed.

(** A round reports a connection exactly when it ends with one. *)
Lemma connect_reports connects l b peers :
  let r := fold_left (connect_step connects) l (b, peers) in r.1 = true <-> b = true \/ linked l r.2.
Proof.
  revert b peers. induction l as [|i l IH]; intros b peers; cbn [fold_left]; cbv zeta.
  { cbn [fst snd]. split; [by left|]. intros [|(info&Hin&_)]; [done|]. by apply elem_of_nil in Hin. }
  cbn [connect_step]. assert (forall q, PeerKey i ∈ (fold_left (connect_step connects) l (true, q)).2 ->
    linked (i :: l) (fold_left (connect_step connects) l (true, q)).2) as Hhd by (intros q Hq; exists i; split; [by left|done]).
  pose proof (connect_fold_mono connects l) as Hmono.
  destruct (bool_decide_reflect (PeerKey i ∈ peers)) as [Hi|Hi]; [|destruct (connects i)].
  - rewrite IH. split; [|by left]. intros _. right. apply Hhd. by apply (Hmono (true, peers)).
  - rewrite IH. split; [|by left]. intros _. right. apply Hhd. apply (Hmono (true, {[PeerKey i]} ∪ peers)). cbn. set_solver.
  - rewrite IH. split; (intros [|(info&Hin&Hk)]; [by left|]; right).
    + exists info. split; [by right|done].
    + apply elem_of_cons in Hin as [->|Hin]; [|by exists info].
      destruct (connect_fold_new _ _ _ _ Hk) as [Hx|(info&Hin&E)]; [done|]. exists info. split; [done|]. by rewrite E.
Qed.

(** The loop that connects to the bootstrap peers ends with the first round that leaves the node connected to one of
    them (or when the context ends), and not before; a connection is never given up. *)
Theorem bootstrap_loop_stops rounds cancelled l fuel n peers m peers' :
  connectBootstrapPeersLoop rounds cancelled l fuel n peers = Some (m, peers') ->
  peers ⊆ peers' /\ (linked l peers' \/ cancelled m = true) /\
  (forall j, (n <= j < m)%nat -> cancelled j = false) /\
  (linked l peers -> m = n).
Proof.
  revert n peers. induction fuel as [|fuel IH]; intros n peers; cbn [connectBootstrapPeersLoop]; [done|].
  pose proof (connect_reports (rounds n) l false peers) as Hr. pose proof (connect_fold_mono (rounds n) l (false, peers)) as Hm.
  fold (connectBootstrapPeers (rounds n) l peers) in Hr, Hm. cbv zeta in Hr. destruct (connectBootstrapPeers (rounds n) l peers) as [c p] eqn:Ec.
  cbn [fst snd] in *. destruct (c || cancelled n) eqn:E.
  - intros [= <- <-]. split; [done|]. split; [|split; [lia|done]]. apply orb_true_iff in E as [E|E]; [left|by right].
    apply Hr in E as [|]; done.
  - apply orb_false_iff in E as [-> En]. intros (Hs&Hl&Hc&Hn)%IH. split; [set_solver|]. split; [done|]. split.
    + intros j Hj. destruct (decide (j = n)) as [->|]; [done|]. apply Hc. lia.
    + intros (info&Hin&Hk). exfalso. assert (false = true) as Hf; [|done]. apply Hr. right. exists info. split; [done|]. by apply Hm.
Qed.
End peers.

(** ** Discovery *)
(** After an advertisement, or a failed one, the node waits a positive time of at most half an hour. *)
Theorem advertise_wait_bounds r : 0 < advertise_wait r <= refreshEvery.
Proof.
  destruct r as [e|ttl]; cbn [advertise_wait]; [done|]. cbv zeta. destruct (_ <=? 0) eqn:E1; [done|].
  apply Z.leb_gt in E1. destruct (_ <? _) eqn:E2; [done|]. apply Z.ltb_ge in E2. lia.
Qed.

(** The loop ends with its context, and until then the namespace is
    advertised again and again: two advertisements are never further apart
    than half an hour and the time a call takes, nor is the last one from the end. *)
Theorem advertising_goes_on answers took T ends fuel n now :
  (forall k, 0 <= took k <= T) -> (Z.to_nat (ends - now) < fuel)%nat ->
  exists times final, advertiseDiscoveryLoop answers took ends fuel n now = Some times /\ head times = Some now /\
    Sorted (fun a b => a < b <= a + T + refreshEvery) times /\
    last times = Some final /\ ends <= final + T + refreshEvery.
Proof.
  intros Ht. revert n now. induction fuel as [|fuel IH]; intros n now Hf; [lia|]. cbn [advertiseDiscoveryLoop]. cbv zeta.
  pose proof (advertise_wait_bounds (answers n)) as Hw. specialize (Ht n) as Htn.
  destruct (ends <=? _) eqn:E; [apply Z.leb_le in E|apply Z.leb_gt in E].
  - exists [now], now. split_and!; [done..|repeat constructor|done|lia].
  - destruct (IH (S n) (now + took n + advertise_wait (answers n))) as (times&final&->&Hh&Hs&Hl&He); [lia|].
    exists (now :: times), final. destruct times as [|t times]; [done|]. injection Hh as ->.
    split_and!; [done..| |done|done]. constructor; [done|]. constructor. lia.
Qed.

(** ** The session handler *)
(** The handler that was set last serves the session protocol, before and after [Start]. *)
Lemma set_handler_serves {H} protocolID (h : H) hs :
  let hs' := SetSessionHandler protocolID h hs in
  registered hs' !! protocolID = Some h /\ registered (register_handler protocolID hs') !! protocolID = Some h /\
  forall p, p <> protocolID -> registered (register_handler protocolID hs') !! p = registered hs !! p.
Proof. cbn. rewrite insert_insert_eq. split_and!; [by rewrite lookup_insert_eq..|]. intros p Hp. by rewrite lookup_insert_ne. Qed.
