(* ===== verification/App.v ===== *)
(** * Process assembly: [internal/app/app.go]

    [Start] composes the parts that the other files model; what it is told by
    the operating system, libp2p and the HTTP listener is in [StartEnv].  The
    periodic clean-up and [Shutdown] are the other operations of the process. *)
From S2P Require Import Prelude Go Encoding Paths Schema Config ConfigLoad Store SpaceRepo Auth Bootstrap Messaging Jwt.
From S2P Require Import DbOpen Migrate Node.

(** ** State *)
Inductive Component := CHttp | CIpfs | CNode | CDb | CLog.
#[export] Instance Component_eq_dec : EqDecision Component.
Proof. solve_decision. Defined.

Section app.
Context `{Env, Libp2p, Driver, Script, Keys, Multiaddrs}.

(** [a_live] are the fields of [App] that are set. *)
Record App := mkApp {
  a_ready : bool; a_live : list Component; a_dirs : list string; a_db : DbWorld; a_mig : MigState; a_keys : KeyStore; a_world : World }.
Definition set_ready r a := mkApp r (a_live a) (a_dirs a) (a_db a) (a_mig a) (a_keys a) (a_world a).
Definition add_live c a := mkApp (a_ready a) (a_live a ++ [c]) (a_dirs a) (a_db a) (a_mig a) (a_keys a) (a_world a).
Definition set_dirs l a := mkApp (a_ready a) (a_live a) l (a_db a) (a_mig a) (a_keys a) (a_world a).
Definition set_dbworld d a := mkApp (a_ready a) (a_live a) (a_dirs a) d (a_mig a) (a_keys a) (a_world a).
Definition set_mig m a := mkApp (a_ready a) (a_live a) (a_dirs a) (a_db a) m (a_keys a) (a_world a).
Definition set_keys k a := mkApp (a_ready a) (a_live a) (a_dirs a) (a_db a) (a_mig a) k (a_world a).
Definition set_world w a := mkApp (a_ready a) (a_live a) (a_dirs a) (a_db a) (a_mig a) (a_keys a) w.

Definition IsReady (a : App) : bool := a_ready a.
Definition setReady (ready : bool) (a : App) : App := set_ready ready a.

(** [logx.New]: the path of the log file. *)
Definition NewLogger (mkdir openFile : string -> option Err) (cfg : Config) : Err + string :=
  match mkdir (LogDir cfg) with
  | Some e => inl (wrap "create log dir" e)
  | None => let path := Join [LogDir cfg; "meshserver.log"%string] in
            match openFile path with Some e => inl (wrap "open log file" e) | None => inr path end
  end.
(** [New] on a machine with the given servers and files. *)
Definition New (mkdir openFile : string -> option Err) (d : DbWorld) (m : MigState) (k : KeyStore) (w : World) (cfg : Config) : Err + App :=
  match NewLogger mkdir openFile cfg with
  | inl e => inl e
  | inr _ => inr (mkApp false [CLog] [] d m k w)
  end.

(** ** The operating system, libp2p and the listener *)
Inductive HttpOutcome := Serving | ServeFailed (e : Err) | Interrupted (e : Err).
Record StartEnv := mkStartEnv {
  se_mkdir : string -> option Err;
  se_read : string -> Err + string;              (** [os.ReadFile] of the public key of the database server *)
  se_attempts : nat -> Attempt;
  se_migrations : MigrationFS;
  se_keyfile : FsFaults;
  se_keyfile_again : FsFaults;                   (** for the second read of the node key *)
  se_host : PrivKey -> Err + string * list string; (** peer id and addresses of the new host *)
  se_ipfs : option Err;
  se_node_start : option Err;
  se_http : HttpOutcome;
  se_quote : string -> string }.

Section start.
Context (cfg : Config) (env : StartEnv).

Fixpoint mkdir_all (dirs : list string) (a : App) : App * (Err + unit) :=
  match dirs with
  | [] => (a, inr tt)
  | dir :: dirs =>
    match se_mkdir env dir with
    | Some e => (a, inl (wrap ("create dir " +:+ se_quote env dir) e))
    | None => mkdir_all dirs (set_dirs (a_dirs a ++ [dir]) a)
    end
  end.
Definition ensureDirs : SE App unit :=
  mkdir_all ([BlobRoot cfg; LogDir cfg; Dir (NodeKeyPath cfg)] ++ (if Enabled (IPFS cfg) then [IPFSBaseDir cfg] else [])).

(** [SE] on parts of the state *)
Definition on_mig {A} (m : SE MigState A) : SE App A := fun a => let '(s, r) := m (a_mig a) in (set_mig s a, r).
Definition on_keys {A} (m : SE KeyStore A) : SE App A := fun a => let '(s, r) := m (a_keys a) in (set_keys s a, r).
Definition on_world {A} (m : M A) : SE App A := fun a => let '(w, r) := m (a_world a) in (set_world w a, r).
Definition started (c : Component) : SE App unit := fun a => (add_live c a, inr tt).
Definition lift_err {A} (r : Err + A) : SE App A := fun a => (a, r).
Definition lift_opt (f : Err -> Err) (r : option Err) : SE App unit := fun a => (a, match r with Some e => inl (f e) | None => inr tt end).

Definition NewNode : SE App (string * list string) :=
  privKey ← on_keys (LoadOrCreateIdentity (se_keyfile env) (NodeKeyPath cfg));
  _ ← lift_err (collectDHTBootstrapPeers (DHTBootstrapPeers cfg));
  match se_host env privKey with
  | inl e => throw (wrap "create libp2p host" e)
  | inr host => mret host
  end.

(** The secret of the tokens, from the configuration or from the node key as it is on disk by then. *)
Definition jwt_secret : SE App string := fun a =>
  (a, ResolveHTTPJWTSecret cfg (read_key (se_keyfile_again env) (NodeKeyPath cfg) (a_keys a))).

(** [Start] from the opened database to the registration of the handlers *)
Definition start_parts : SE App unit :=
  _ ← started CDb;
  _ ← on_mig (RunMigrations (se_migrations env) (MigrationsDir cfg));
  '(peerID, addrs) ← NewNode;
  _ ← started CNode;
  _ ← (if Enabled (IPFS cfg)
       then _ ← lift_opt (wrap "init embedded ipfs") (se_ipfs env); started CIpfs
       else mret tt);
  _ ← on_world (Upsert (mkNodeRecord 0 "" peerID (NodeName cfg) (PublicAddrsOf peerID addrs) 1 0 0));
  _ ← on_world (BootstrapDefaultAdmin Background (DefaultAdminPeerID cfg) (DefaultSpaceID cfg));
  _ ← jwt_secret;
  _ ← started CHttp;
  lift_opt (wrap "bootstrap dht") (se_node_start env).
(** [Start] from the goroutine of the listener on *)
Definition now_ready : SE App unit := fun a => (setReady true a, inr tt).
Definition listen : SE App unit :=
  match se_http env with
  | Serving => now_ready
  | ServeFailed e => throw (wrap "start http server" e)
  | Interrupted e => throw e
  end.

(** [None]: the fuel of [Open] ran out. *)
Definition Start (now : Z) (fuel : nat) (a : App) : option (App * (Err + unit)) :=
  match ensureDirs a with
  | (a, inl e) => Some (a, inl e)
  | (a, inr _) =>
    match Open cfg (se_read env) (se_attempts env) now fuel (a_db a) with
    | None => None
    | Some (d, inl e) => Some (set_dbworld d a, inl e)
    | Some (d, inr _) => Some ((_ ← start_parts; listen) (set_dbworld d a))
    end
  end.
End start.

(** ** [Shutdown]: what is closed, in order, and the errors *)
Definition shutdown_order : list (Component * string) :=
  [(CHttp, "shutdown http server"); (CIpfs, "close embedded ipfs"); (CNode, "close libp2p node"); (CDb, "close database"); (CLog, "close logger")]%string.
Definition ErrConnDone : Err := Errorf "sql: connection is already closed".
Fixpoint shutdown_all (close : Component -> option Err) (todo : list (Component * string)) (a : App) : list Component * list Err :=
  match todo with
  | [] => ([], [])
  | (c, what) :: todo =>
    let '(closed, errs) := shutdown_all close todo a in
    if bool_decide (c ∈ a_live a)
    then (c :: closed, match close c with
                       | Some e => if (c =@ CDb) && errors_is e ErrConnDone then errs else wrap what e :: errs
                       | None => errs
                       end)
    else (closed, errs)
  end.
Definition Shutdown (close : Component -> option Err) (a : App) : App * (list Component * list Err) :=
  let a := setReady false a in (a, shutdown_all close shutdown_order a).

(** ** [main]: how the process ends; [None] when the fuel of [Open] ran out *)
Inductive Exit := Fatal (what : string) (errs : list Err) | Exited (closed : list Component).
Definition main (app : Err + App) (cfg : Config) (env : StartEnv) (now : Z) (fuel : nat) (close : Component -> option Err) : option Exit :=
  match app with
  | inl e => Some (Fatal "create app" [e])
  | inr a =>
    match Start cfg env now fuel a with
    | None => None
    | Some (_, inl e) => Some (Fatal "start app" [e])
    | Some (a, inr _) =>
      let '(_, (closed, errs)) := Shutdown close a in
      Some (match errs with [] => Exited closed | _ => Fatal "shutdown app" errs end)
    end
  end.

(** ** The periodic clean-up *)
Definition set_clock (t : Z) (w : World) : World := mkWorld (w_db w) t (w_draws w) (w_files w) (w_faults w) (w_leaked w).
(** The calls of one tick of the timer: [clock n] is the time of the n-th. *)
Fixpoint cleanup_tick (clock : nat -> Z) (fuel n : nat) (w : World) : option (nat * World) :=
  match fuel with
  | O => None
  | S fuel =>
    match CleanupExpired Background (set_clock (clock n) w) with
    | (w, inl _) => Some (n, w)
    | (w, inr deleted) => if deleted =? 0 then Some (n, w) else cleanup_tick clock fuel (S n) w
    end
  end.
End app.
