(* ===== verification/AppThms.v ===== *)
(** * Properties of the process

    A process reports itself ready exactly when it has started completely;
    [Shutdown] closes all that was opened; the periodic clean-up ends. *)
From S2P Require Import Prelude Go Encoding Paths Schema Config ConfigLoad Store SpaceRepo Auth Bootstrap Messaging Jwt.
From S2P Require Import MessageRepo MessageInv DbInv Session Manager System Demo MessageThms DbOpen DbThms Migrate MigrateThms Node NodeThms App.

(** ** Start *)
Section start.
Context `{Env, Libp2p, Driver, Script, Keys, Multiaddrs, !KeysLaws}.

(** What a process that has started has. *)
Record fully_started (cfg : Config) (env : StartEnv) (a : App) : Prop := {
  fs_migrated : pending (m_applied (a_mig a)) (files_of (se_migrations env) (MigrationsDir cfg)) = [];
  fs_identity : exists k host, persisted (NodeKeyPath cfg) k (a_keys a) /\ se_host env k = inr host;
  fs_secret : exists secret, ResolveHTTPJWTSecret cfg (read_key (se_keyfile_again env) (NodeKeyPath cfg) (a_keys a)) = inr secret;
  fs_dirs : Forall (fun d => d ∈ a_dirs a) [BlobRoot cfg; LogDir cfg; Dir (NodeKeyPath cfg)];
  fs_live : Forall (fun c => c ∈ a_live a) ([CDb; CNode; CHttp] ++ if Enabled (IPFS cfg) then [CIpfs] else []) }.

Lemma mkdir_all_spec env dirs a : let '(a', r) := mkdir_all env dirs a in
  a_ready a' = a_ready a /\ a_live a' = a_live a /\ a_world a' = a_world a /\ a_dirs a ⊆ a_dirs a' /\ (r = inr tt -> dirs ⊆ a_dirs a').
Proof.
  revert a. induction dirs as [|d dirs IH]; intros a; cbn [mkdir_all]; [split_and!; try done; set_solver|].
  destruct (se_mkdir env d) as [e|]; [split_and!; done|]. specialize (IH (set_dirs (a_dirs a ++ [d]) a)).
  destruct (mkdir_all env dirs _) as [a' r]. cbn [set_dirs a_ready a_live a_world a_dirs] in IH. destruct IH as (?&?&?&Hs&Hr).
  split_and!; [done..|set_solver|]. intros E. specialize (Hr E). set_solver.
Qed.

(** The invariant of the database and the state "not ready" through a step. *)
Definition calm {A} (m : SE App A) : Prop := forall a, a_ready a = false -> db_inv (w_db (a_world a)) ->
  a_ready (m a).1 = false /\ db_inv (w_db (a_world (m a).1)).
Lemma calm_bind {A B} (m : SE App A) (k : A -> SE App B) : calm m -> (forall x, calm (k x)) -> calm (m ≫= k).
Proof.
  intros Hm Hk a Hr Hi. specialize (Hm a Hr Hi). cbv [mbind SE_bind]. destruct (m a) as [a' [e|x]]; [done|]. apply Hk; apply Hm.
Qed.
Lemma calm_world {A} (m : M A) : keeps evolves m -> calm (on_world m).
Proof.
  intros Hm a Hr Hi. specialize (Hm (a_world a)). unfold wp in Hm. unfold on_world. destruct (m (a_world a)) as [w r]. split; [done|].
  by eapply evolves_inv.
Qed.
Lemma calm_steps : (forall A (m : SE MigState A), calm (on_mig m)) /\ (forall A (m : SE KeyStore A), calm (on_keys m)) /\
  (forall c, calm (started c)) /\ (forall A (r : Err + A), calm (lift_err r)) /\ (forall f r, calm (lift_opt f r)) /\
  (forall A (x : A), calm (mret x)) /\ (forall A e, calm (throw e : SE App A)) /\ (forall cfg env, calm (jwt_secret cfg env)).
Proof.
  split_and!; intros; intros a Hr Hi; try done; unfold on_mig, on_keys; by destruct (m _).
Qed.
Lemma calm_start_parts cfg env : calm (start_parts cfg env).
Proof.
  destruct calm_steps as (?&?&?&?&?&?&?&?). unfold start_parts, NewNode.
  repeat first [apply calm_bind; [|intros]|progress auto|apply calm_world; auto using safe_Upsert, safe_Bootstrap
               |match goal with |- calm (match ?x with _ => _ end) => destruct x end].
Qed.

(** What each part leaves behind; later ones do not undo it. *)
Lemma started_parts cfg env a a' : start_parts cfg env a = (a', inr tt) ->
  pending (m_applied (a_mig a')) (files_of (se_migrations env) (MigrationsDir cfg)) = [] /\
  (exists k host, persisted (NodeKeyPath cfg) k (a_keys a') /\ se_host env k = inr host) /\
  (exists secret, ResolveHTTPJWTSecret cfg (read_key (se_keyfile_again env) (NodeKeyPath cfg) (a_keys a')) = inr secret) /\
  a_dirs a' = a_dirs a /\
  Forall (fun c => c ∈ a_live a') ([CDb; CNode; CHttp] ++ if Enabled (IPFS cfg) then [CIpfs] else []).
Proof.
  unfold start_parts, NewNode. cbv [mbind SE_bind started on_mig on_keys on_world lift_err lift_opt jwt_secret mret SE_ret throw].
  destruct (RunMigrations _ _ _) as [m [e|[]]] eqn:Em; [done|]. apply migrations_complete in Em.
  destruct (LoadOrCreateIdentity _ _ _) as [ks [e|k]] eqn:Ek; [done|]. apply identity_persisted in Ek.
  destruct (collectDHTBootstrapPeers _); [done|]. destruct (se_host env k) as [e|[peerID addrs]] eqn:Eh; [done|].
  destruct (Enabled (IPFS cfg)); [destruct (se_ipfs env); [done|]|];
    (destruct (Upsert _ _) as [w1 [e|n]]; [done|]; destruct (BootstrapDefaultAdmin _ _ _ _) as [w2 [e|[]]]; [done|];
     destruct (ResolveHTTPJWTSecret _ _) as [e|secret] eqn:Es; [done|]; destruct (se_node_start env); [done|]; intros [= <-];
     cbn [a_mig a_keys a_dirs a_live set_world set_keys set_mig add_live]; split_and!; [exact Em|by eexists _, _|exists secret; exact Es|done|]).
  all: cbn [app]; repeat constructor; set_solver.
Qed.

(** C22: a process reports ready exactly when [Start] has succeeded; then every migration has been applied, the node runs
    under the identity in its key file, tokens have a secret (configured, or made from that key file), the directories exist and all parts are set; and a failed
    or successful start keeps the invariants of the database. *)
Theorem start_ready cfg env now fuel a a' r :
  a_ready a = false -> db_inv (w_db (a_world a)) -> Start cfg env now fuel a = Some (a', r) ->
  (IsReady a' = true <-> r = inr tt) /\ (r = inr tt -> fully_started cfg env a') /\ db_inv (w_db (a_world a')).
Proof.
  intros Hr Hi. unfold Start, ensureDirs. set (dirs := _ ++ _). pose proof (mkdir_all_spec env dirs a) as Hd.
  destruct (mkdir_all env dirs a) as [a1 [e|[]]]; destruct Hd as (Er&El&Ew&_&Hdirs); unfold IsReady.
  { intros [= <- <-]. rewrite Er, Hr, Ew. done. }
  destruct (Open _ _ _ _ _ _) as [[d [e|dsn]]|]; [intros [= <- <-]; cbn; rewrite Er, Hr, Ew; done| |done].
  cbv [mbind SE_bind]. set (a2 := set_dbworld d a1).
  assert (a_ready a2 = false /\ db_inv (w_db (a_world a2))) as [Hr2 Hi2] by (cbn; by rewrite Er, Ew).
  destruct (calm_start_parts cfg env a2 Hr2 Hi2) as [Hr3 Hi3]. destruct (start_parts cfg env a2) as [a3 [e|[]]] eqn:Es.
  { intros [= <- <-]. cbn [fst] in *. rewrite Hr3. done. }
  cbn [fst] in *. apply started_parts in Es as (Hm&Hk&Hs&Ed&Hl). unfold listen. destruct (se_http env).
  - intros [= <- <-]. split; [done|]. split; [|done]. intros _. split; [done..| |done].
    cbn [setReady set_ready a_dirs]. rewrite Ed. cbn. apply Forall_forall. intros x Hx. apply Hdirs; [done|]. unfold dirs. set_solver.
  - intros [= <- <-]. rewrite Hr3. done.
  - intros [= <- <-]. rewrite Hr3. done.
Qed.
End start.

(** ** Shutdown *)
Section shutdown.
Context `{Env, Libp2p, Driver, Script, Keys, Multiaddrs}.

(** [Shutdown] makes the process not ready and closes every part that is open, once and in the fixed order, whether
    or not closing another one fails; every failure is reported, but for a database connection that is already closed. *)
Theorem shutdown_complete close a :
  let '(a', (closed, errs)) := Shutdown close a in
  IsReady a' = false /\ closed = filter (fun c => c ∈ a_live a) [CHttp; CIpfs; CNode; CDb; CLog] /\
  forall c e, c ∈ a_live a -> close c = Some e -> errors_is e ErrConnDone = false -> exists what, wrap what e ∈ errs.
Proof.
  unfold Shutdown. assert (forall todo, let r := shutdown_all close todo a in r.1 = filter (fun c => c ∈ a_live a) todo.*1 /\
    forall c e, c ∈ todo.*1 -> c ∈ a_live a -> close c = Some e -> errors_is e ErrConnDone = false -> exists what, wrap what e ∈ r.2) as Hg.
  { induction todo as [|[c what] todo [IHc IHe]]; [split; [done|]; intros c e Hc; by apply elem_of_nil in Hc|]. cbn [shutdown_all].
    destruct (shutdown_all close todo a) as [closed errs]. cbv zeta in *. cbn [fst snd] in *. rewrite fmap_cons, filter_cons. cbn [fst].
    case_bool_decide as Hc; [rewrite decide_True by done|rewrite decide_False by done].
    - split; [cbn [fst]; by rewrite IHc|]. cbn [snd]. intros c' e [->|Hin]%elem_of_cons Hl Ecl Er.
      + rewrite Ecl, Er, andb_false_r. exists what. by left.
      + destruct (IHe c' e Hin Hl Ecl Er) as [what' Hw]. exists what'. destruct (close c) as [e'|]; [|done]. destruct (_ && _); [done|by right].
    - split; [done|]. intros c' e [->|Hin]%elem_of_cons; [done|]. by apply IHe. }
  specialize (Hg shutdown_order). change (shutdown_all close shutdown_order (setReady false a)) with (shutdown_all close shutdown_order a).
  destruct (shutdown_all close shutdown_order a) as [closed errs]. destruct Hg as [Hc He]. split_and!; [done|done|].
  intros c e. apply He. destruct c; apply (bool_decide_unpack _); done.
Qed.
End shutdown.

(** ** The clean-up *)
Section cleanup.
Context `{Env}.

Lemma count_map_lt {A} (p : A -> bool) (f : A -> A) l m :
  (forall x, p (f x) = true -> p x = true) -> m ∈ l -> p m = true -> p (f m) = false ->
  count_where p (map f l) < count_where p l.
Proof.
  intros Hf. assert (forall l, count_where p (map f l) <= count_where p l) as Hle.
  { induction l0 as [|x l0 IH]; [done|]. cbn [map]. rewrite !count_where_cons. specialize (Hf x).
    destruct (p (f x)), (p x); try lia; by specialize (Hf eq_refl). }
  induction l as [|x l IH]; intros Hm Hp Hn; [by apply elem_of_nil in Hm|]. cbn [map]. rewrite !count_where_cons.
  apply elem_of_cons in Hm as [->|Hm].
  - rewrite Hp, Hn. specialize (Hle l). lia.
  - specialize (IH Hm Hp Hn). specialize (Hf x). destruct (p (f x)), (p x); try lia; by specialize (Hf eq_refl).
Qed.

(** One call on a database that works: it deletes messages or there are none to delete. *)
Lemma cleanup_call w : db_inv (w_db w) -> healthy w ->
  exists w' n, CleanupExpired Background w = (w', inr n) /\ db_inv (w_db w') /\ healthy w' /\
    (n = 0 -> w' = w /\ count_where (expired (truncate_ms (w_clock w)) (w_db w)) (rows (messages (w_db w))) = 0) /\
    (n <> 0 -> count_where is_normal (rows (messages (w_db w'))) < count_where is_normal (rows (messages (w_db w)))).
Proof.
  intros Hi Hh. unfold CleanupExpired. cbv [mbind SE_bind now]. set (t := truncate_ms (w_clock w)).
  pose proof (cleanup_spec Background t 200 w Hi Hh ltac:(by vm_compute)) as Hc. pose proof (safe_Cleanup Background t 200 w) as Hs.
  unfold wp in Hs. cbv zeta in Hc. change (if 200 =? 0 then 100 else 200) with 200 in Hc. set (victims := load_expired t 200 (w_db w)) in *.
  destruct (CleanupExpiredMessages Background t 200 w) as [w' r]. destruct Hc as (->&Hcount&_&Hrows&[d' Hd]&Hsame).
  exists w', (zlen victims). split; [done|]. split; [by eapply evolves_inv|]. split; [by rewrite Hd|]. split.
  - intros E. assert (victims = []) as Hnil by (unfold zlen in E; destruct victims; [done|simpl in E; lia]). split; [by apply Hsame|].
    pose proof (count_where_nonneg (expired t (w_db w)) (rows (messages (w_db w)))). lia.
  - intros E. destruct victims as [|v vs] eqn:Ev; [done|]. assert (v ∈ load_expired t 200 (w_db w)) as Hv by (unfold victims in Ev; rewrite Ev; by left).
    apply elem_of_load_expired in Hv as [Hv He]. unfold expired in He. apply andb_prop in He as [Hn _].
    rewrite Hrows. apply (count_map_lt _ _ _ v); [|done|done|].
    + intros x. destruct (existsb _ _); [done|done].
    + cbn [existsb]. by rewrite Z.eqb_refl.
Qed.

(** C23: on a database that works, the calls that a tick of the clean-up timer makes come to an end, after at most as many calls as there are
    undeleted messages and one more, however the clock advances meanwhile; and then no message is past its deletion time. *)
Theorem cleanup_terminates clock fuel n w :
  db_inv (w_db w) -> healthy w ->
  (Z.to_nat (count_where is_normal (rows (messages (w_db w)))) < fuel)%nat ->
  exists m w', cleanup_tick clock fuel n w = Some (m, w') /\ (n <= m < n + fuel)%nat /\ db_inv (w_db w') /\ w_clock w' = clock m /\
    count_where (expired (truncate_ms (clock m)) (w_db w')) (rows (messages (w_db w'))) = 0.
Proof.
  revert n w. induction fuel as [|fuel IH]; intros n w Hi Hh Hf; [lia|]. cbn [cleanup_tick].
  destruct (cleanup_call (set_clock (clock n) w) Hi Hh) as (w'&k&->&Hi'&Hh'&H0&H1). destruct (k =? 0) eqn:Ek.
  - apply Z.eqb_eq in Ek. destruct (H0 Ek) as [-> Hz]. eexists _, _. split; [done|]. split; [lia|]. done.
  - apply Z.eqb_neq in Ek. specialize (H1 Ek). cbn [set_clock w_db] in H1. destruct (IH (S n) w' Hi' Hh') as (m&w2&E&Hm&Hrest).
    { pose proof (count_where_nonneg is_normal (rows (messages (w_db w')))). lia. }
    exists m, w2. split; [done|]. split; [lia|done].
Qed.
End cleanup.

(** ** A start on an empty database and a clean-up *)
#[export] Instance demo_addrs : Multiaddrs := {
  AddrInfo := string;
  PeerKey a := a;
  GetDefaultBootstrapPeerAddrInfos := ["bootstrap-1"]%string;
  NewMultiaddr a := inr a;
  AddrInfoFromP2pAddr a := inr a;
  quoted_addr a := a }.
Definition demo_start_env : StartEnv := mkStartEnv (fun _ => None) (fun _ => inr "node key bytes"%string) late_server demo_dir no_fs_faults no_fs_faults
  (fun _ => inr ("12D3KooWnode"%string, ["/ip4/10.0.0.1/tcp/4001"%string])) None None Serving (fun s => s).
Definition fresh_app : App :=
  mkApp false [CLog] [] (mkDbWorld ∅ idle_admin) empty_database no_key (mkWorld empty_db demo_clock 0 ∅ [] []).
Definition demo_started : option (App * (Err + unit)) := Start defaults demo_start_env demo_clock (max_attempts defaults) fresh_app.

Lemma start_ready_witness : exists a', demo_started = Some (a', inr tt) /\ IsReady a' = true /\ fully_started defaults demo_start_env a'.
Proof.
  assert (snd <$> demo_started = Some (inr tt)) as E by (vm_compute; reflexivity).
  destruct demo_started as [[a' r]|] eqn:Es; [|discriminate E]. injection E as Er. cbn [snd] in Er. subst r. exists a'.
  destruct (start_ready defaults demo_start_env demo_clock (max_attempts defaults) fresh_app a' (inr tt) eq_refl db_inv_empty Es) as (Hr&Hf&_).
  split; [reflexivity|]. split; [by apply Hr|by apply Hf].
Defined.

(** The second call finds nothing more to delete. *)
Lemma cleanup_terminates_witness :
  exists m w', cleanup_tick (fun n => demo_clock + 2 * minute + Z.of_nat n) 3 0 (g_world stale) = Some (m, w') /\ (0 <= m < 0 + 3)%nat /\
    db_inv (w_db w') /\ w_clock w' = demo_clock + 2 * minute + Z.of_nat m /\
    count_where (expired (truncate_ms (demo_clock + 2 * minute + Z.of_nat m)) (w_db w')) (rows (messages (w_db w'))) = 0.
Proof.
  apply (cleanup_terminates (fun n => demo_clock + 2 * minute + Z.of_nat n) 3 0 (g_world stale) stale_inv).
  - split; reflexivity.
  - vm_compute. repeat constructor.
Defined.
