(* ===== verification/Client.v ===== *)
(** * The connecting client: [examples/connect-client/main.go]

    A client is a program over a network it sees through two interfaces:
    the stream to the server ([Stream]) and the libp2p host with its
    routing ([Network]).  Its calls fail, panic or wait; standard output is
    a list of lines, and log output is left out.  [-timeout] bounds the
    context of the calls of [Network]; reads of the stream have no limit,
    so a read for which nothing arrives is [Waiting].  The functions both
    example programs contain are here. *)
From S2P Require Import Prelude Go Encoding Config Store Proto Codec Auth Session Dispatch Node.
Import sessionv1.

(** ** Programs *)
Inductive Outcome (A : Type) :=
| Done (a : A)      (** the call returned *)
| Fail (e : Err)    (** the call returned an error; in [main], [log.Fatal] *)
| Panic (e : Err)
| Waiting.          (** a read for which nothing arrives *)
Arguments Done {A} a.
Arguments Fail {A} e.
Arguments Panic {A} e.
Arguments Waiting {A}.

(** The network, the bytes received and not read, how often the clock was read, the lines printed. *)
Record Client (P : Type) := mkClient { cl_net : P; cl_in : bytes; cl_clock : nat; cl_out : list string }.
Arguments mkClient {P} _ _ _ _.
Arguments cl_net {P} _.
Arguments cl_in {P} _.
Arguments cl_clock {P} _.
Arguments cl_out {P} _.

Definition CM (P A : Type) : Type := Client P -> Client P * Outcome A.
#[export] Instance CM_ret {P} : MRet (CM P) := fun A a c => (c, Done a).
#[export] Instance CM_bind {P} : MBind (CM P) := fun A B k m c =>
  let '(c', r) := m c in
  match r with Done a => k a c' | Fail e => (c', Fail e) | Panic e => (c', Panic e) | Waiting => (c', Waiting) end.
Definition fail {P A} (e : Err) : CM P A := fun c => (c, Fail e).
Definition panic {P A} (e : Err) : CM P A := fun c => (c, Panic e).
(** [x, err := m; if err != nil { return f(err) }], also [log.Fatalf] *)
Definition on_err {P A} (f : Err -> Err) (m : CM P A) : CM P A := fun c =>
  let '(c', r) := m c in (c', match r with Fail e => Fail (f e) | r => r end).
Definition pure {P A} (x : Err + A) : CM P A := match x with inl e => fail e | inr a => mret a end.
(** An operation of the network. *)
Definition net {P A} (m : SE P A) : CM P A := fun c =>
  let '(p, r) := m (cl_net c) in
  (mkClient p (cl_in c) (cl_clock c) (cl_out c), match r with inl e => Fail e | inr a => Done a end).
Definition println {P} (s : string) : CM P unit := fun c =>
  (mkClient (cl_net c) (cl_in c) (cl_clock c) (cl_out c ++ [s]), Done tt).

(** ** What the programs use of libp2p *)
(** The stream: the bytes of a write are handed over, and a read returns
    with all that arrives until then and whether the other side has closed. *)
Class Stream (P : Type) := {
  StreamWrite : bytes -> SE P unit;
  StreamRead : P -> P * (bytes * bool) }.
(** The readings of [time.Now()], in nanoseconds. *)
Class Clock := clock_reading : nat -> Z.
(** [core/crypto] for the holder of a key; the public key in its encoded form. *)
Class Signer `{Keys} := {
  Sign : PrivKey -> string -> Err + string;
  MarshalPublicKey : PrivKey -> Err + string }.
(** The host, its routing and the streams it opens; peers are named by [ID.String()]. *)
Class Network (P : Type) `{Keys} `{Multiaddrs} := {
  NewHost : PrivKey -> SE P string;
  Connect : AddrInfo -> SE P unit;
  NewDHT : list AddrInfo -> SE P unit;
  BootstrapDHT : SE P unit;
  FindPeers : string -> SE P (list AddrInfo);
  FindPeer : string -> SE P AddrInfo;
  with_peer_id : string -> AddrInfo -> AddrInfo;
  addrs_text : AddrInfo -> string;
  NewStream : string -> string -> SE P unit }.

(** [%v] of a [bool] *)
Definition bool_text (b : bool) : string := if b then "true" else "false".

Section stream.
Context {P : Type} `{Stream P} `{Clock} `{Protobuf} `{ClientProtobuf}.

Definition time_Now : CM P Z := fun c =>
  (mkClient (cl_net c) (cl_in c) (S (cl_clock c)) (cl_out c), Done (clock_reading (cl_clock c))).

Definition requestID (prefix : string) : CM P string :=
  ns ← time_Now; mret (prefix +:+ "_" +:+ decimal ns).

Definition mustEnvelope (msgType : Z) (requestID : string) (body : Body) : CM P Envelope :=
  ns ← time_Now;
  match NewEnvelope ns msgType requestID body with
  | inl e => panic e
  | inr env => mret env
  end.

Definition writeEnvelope (msgType : Z) (requestID : string) (body : Body) : CM P unit :=
  env ← mustEnvelope msgType requestID body;
  bs ← pure (WriteEnvelope env);
  net (StreamWrite bs).

(** [protocol.ReadEnvelope] on the stream: it waits while the frame is
    incomplete and the other side has not closed. *)
Definition receive : CM P Envelope := fun c =>
  let '(p, (arrived, closed)) := StreamRead (cl_net c) in
  let buf := cl_in c ++ arrived in
  match ReadEnvelope buf with
  | (rest, inr env) => (mkClient p rest (cl_clock c) (cl_out c), Done env)
  | (rest, inl e) =>
    if ((e =@ EOF) || (e =@ ErrUnexpectedEOF)) && negb closed
    then (mkClient p buf (cl_clock c) (cl_out c), Waiting)
    else (mkClient p rest (cl_clock c) (cl_out c), Fail e)
  end.

Definition unexpected (got want : Z) : Err :=
  Errorf ("unexpected msg type " +:+ MsgType_String got +:+ ", want " +:+ MsgType_String want).
Definition readEnvelopeExpect (want : Z) : CM P Envelope :=
  env ← receive;
  if negb (Envelope_MsgType env =? want) then fail (unexpected (Envelope_MsgType env) want) else mret env.

(** The steps every request function takes: write the request, read the
    reply of the expected type, decode it. *)
Definition request {A} (msgType : Z) (prefix : string) (body : Body) (want : Z) (what : string)
  (unmarshal : string -> Err + A) : CM P A :=
  reqID ← requestID prefix;
  _ ← writeEnvelope msgType reqID body;
  env ← readEnvelopeExpect want;
  on_err (wrap ("unmarshal " +:+ what)) (pure (unmarshal (Envelope_Body env))).

(** [if !resp.Ok { return nil, fmt.Errorf("... rejected") }] *)
Definition accepted {A} (ok : A -> bool) (what : string) (m : CM P A) : CM P A :=
  resp ← m;
  if negb (ok resp) then fail (Errorf (what +:+ " rejected")) else mret resp.

Section authenticate.
Context `{Signer}.
Definition authenticate (privKey : PrivKey) (clientPeerID clientAgent protocolID : string) : CM P AuthResult :=
  reqID ← requestID "hello";
  _ ← writeEnvelope MsgType_HELLO reqID (BHello (mkHello clientPeerID clientAgent "1.0.0"));
  env ← readEnvelopeExpect MsgType_AUTH_CHALLENGE;
  challengeMsg ← on_err (wrap "unmarshal auth challenge") (pure (UnmarshalAuthChallenge (Envelope_Body env)));
  let payload := BuildChallengePayload protocolID clientPeerID (AuthChallenge_NodePeerId challengeMsg)
                   (AuthChallenge_Nonce challengeMsg) (i64 (AuthChallenge_IssuedAtMs challengeMsg) * ns_per_ms)
                   (i64 (AuthChallenge_ExpiresAtMs challengeMsg) * ns_per_ms) in
  signature ← on_err (wrap "sign challenge") (pure (Sign privKey payload));
  publicKey ← on_err (wrap "marshal public key") (pure (MarshalPublicKey privKey));
  reqID ← requestID "prove";
  _ ← writeEnvelope MsgType_AUTH_PROVE reqID (BAuthProve (mkAuthProve clientPeerID (AuthChallenge_Nonce challengeMsg)
        (AuthChallenge_IssuedAtMs challengeMsg) (AuthChallenge_ExpiresAtMs challengeMsg) signature publicKey));
  authEnv ← readEnvelopeExpect MsgType_AUTH_RESULT;
  result ← on_err (wrap "unmarshal auth result") (pure (UnmarshalAuthResult (Envelope_Body authEnv)));
  if negb (AuthResult_Ok result) then fail (Errorf "authentication rejected") else mret result.
End authenticate.

Definition space_line (srv : SpaceSummary) : string :=
  "  - " +:+ decimal (SpaceSummary_SpaceId srv) +:+ " (" +:+ SpaceSummary_Name srv +:+ ") allow_channel_creation="
  +:+ bool_text (SpaceSummary_AllowChannelCreation srv) +:+ " members=" +:+ decimal (SpaceSummary_MemberCount srv).
Fixpoint print_lines {A} (line : A -> string) (l : list A) : CM P unit :=
  match l with
  | [] => mret tt
  | a :: l => _ ← println (line a); print_lines line l
  end.
Definition printSpaces (spaces : list SpaceSummary) : CM P unit := _ ← println "spaces:"; print_lines space_line spaces.

Definition getCreateSpacePermissions : CM P GetCreateSpacePermissionsResp :=
  accepted GetCreateSpacePermissionsResp_Ok "get create-space permissions"
    (request MsgType_GET_CREATE_SPACE_PERMISSIONS_REQ "server-perms"
       (BGetCreateSpacePermissionsReq mkGetCreateSpacePermissionsReq) MsgType_GET_CREATE_SPACE_PERMISSIONS_RESP
       "get create-space permissions resp" UnmarshalGetCreateSpacePermissionsResp).

Definition getSpacePermissions (spaceID : Z) : CM P GetCreateGroupPermissionsResp :=
  accepted GetCreateGroupPermissionsResp_Ok "get space permissions"
    (request MsgType_GET_CREATE_GROUP_PERMISSIONS_REQ "space-perms"
       (BGetCreateGroupPermissionsReq (mkGetCreateGroupPermissionsReq spaceID))
       MsgType_GET_CREATE_GROUP_PERMISSIONS_RESP "get space permissions resp" UnmarshalGetCreateGroupPermissionsResp).
End stream.

(** ** Finding the server *)
Section network.
Context {P : Type} `{Network P}.

Definition addrInfo (raw : string) : Err + AddrInfo :=
  match NewMultiaddr raw with inl e => inl e | inr maddr => AddrInfoFromP2pAddr maddr end.

Fixpoint parse_peers (peers : list AddrInfo) (values : list string) : Err + list AddrInfo :=
  match values with
  | [] => inr peers
  | raw :: values =>
    let raw := TrimSpace raw in
    if raw =@ ""%string then parse_peers peers values
    else match addrInfo raw with
         | inl e => inl (wrap ("parse bootstrap peer " +:+ quoted_addr raw) e)
         | inr info => parse_peers (peers ++ [info]) values
         end
  end.
Definition parseBootstrapPeers (values : list string) : Err + list AddrInfo :=
  parse_peers GetDefaultBootstrapPeerAddrInfos values.

(** The ten seconds of the attempt belong to the network. *)
Definition connectPeer (info : AddrInfo) : CM P unit := net (Connect info).
(** Attempts whose failure is only logged. *)
Definition attempt (info : AddrInfo) : CM P bool := fun c =>
  let '(c', r) := connectPeer info c in (c', Done (match r with Done _ => true | _ => false end)).
Fixpoint connect_all (peers : list AddrInfo) : CM P unit :=
  match peers with
  | [] => mret tt
  | p :: peers => _ ← attempt p; connect_all peers
  end.

Fixpoint first_reachable (self namespace : string) (found : list AddrInfo) : CM P AddrInfo :=
  match found with
  | [] => fail (Errorf ("no meshserver peer discovered in namespace " +:+ quoted_addr namespace))
  | info :: found =>
    if (PeerKey info =@ ""%string) || (PeerKey info =@ self) then first_reachable self namespace found
    else ok ← attempt info;
         if (ok : bool) then mret info else first_reachable self namespace found
  end.
Definition discoverMeshserverPeer (self namespace : string) : CM P AddrInfo :=
  found ← on_err (wrap "start discovery") (net (FindPeers namespace));
  first_reachable self namespace found.

Definition resolveMeshserverPeerByID `{Libp2p} (nodePeerID : string) : CM P AddrInfo :=
  id ← on_err (wrap ("decode peer id " +:+ quoted_addr nodePeerID)) (pure (Decode (TrimSpace nodePeerID)));
  info ← on_err (fun e => Errorw ("find peer " +:+ id +:+ " in dht: ") e "") (net (FindPeer id));
  let info := if PeerKey info =@ ""%string then with_peer_id id info else info in
  _ ← on_err (wrap ("connect resolved peer " +:+ id)) (connectPeer info);
  mret info.

(** The routing both programs set up before they look for the server. *)
Definition start_routing (bootstrap : list string) : CM P unit :=
  bootstrapPeers ← on_err (wrap "parse dht bootstrap peers") (pure (parseBootstrapPeers bootstrap));
  _ ← connect_all bootstrapPeers;
  _ ← on_err (wrap "create dht") (net (NewDHT bootstrapPeers));
  on_err (wrap "bootstrap dht") (net BootstrapDHT).
End network.

(** ** The program *)
(** [bootstrapPeerFlags]: [Set] and [String] *)
Definition bootstrap_Set (f : list string) (value : string) : list string := f ++ [value].
Fixpoint bootstrap_String (f : list string) : string :=
  match f with [] => "" | [v] => v | v :: f => v +:+ "," +:+ bootstrap_String f end.

Module connect_client.
Record Flags := mkFlags {
  serverAddr : string; flagNodePeerID : string; discover : bool; discoverNamespace : string; keyPath : string;
  clientAgent : string; protocolID : string; showCreateSpacePermissions : bool; permissionsSpaceID : Z;
  dhtBootstrapPeers : list string }.

(** enum [MemberRole]: the declared name, or the number. *)
Definition MemberRole_String (r : Z) : string :=
  if r =? MemberRole_MEMBER_ROLE_UNSPECIFIED then "MEMBER_ROLE_UNSPECIFIED"
  else if r =? MemberRole_OWNER then "OWNER" else if r =? MemberRole_ADMIN then "ADMIN"
  else if r =? MemberRole_MEMBER then "MEMBER" else if r =? MemberRole_SUBSCRIBER then "SUBSCRIBER" else decimal r.

Section main.
Context {P : Type} `{Network P} `{!Stream P} `{Clock} `{Protobuf} `{ClientProtobuf} `{Libp2p} `{!Signer}.

Definition locate (fl : Flags) (self : string) : CM P AddrInfo :=
  if discover fl || negb (TrimSpace (flagNodePeerID fl) =@ ""%string) then
    _ ← start_routing (dhtBootstrapPeers fl);
    if discover fl then
      info ← on_err (wrap "discover meshserver peer") (discoverMeshserverPeer self (discoverNamespace fl));
      _ ← println ("discovered meshserver peer: peer_id=" +:+ PeerKey info +:+ " addrs=" +:+ addrs_text info
                   +:+ " namespace=" +:+ discoverNamespace fl);
      mret info
    else
      info ← on_err (wrap "resolve meshserver peer by id") (resolveMeshserverPeerByID (flagNodePeerID fl));
      _ ← println ("resolved meshserver peer by id: peer_id=" +:+ PeerKey info +:+ " addrs=" +:+ addrs_text info);
      mret info
  else on_err (wrap "parse server addr") (pure (addrInfo (serverAddr fl))).

Definition show_permissions (fl : Flags) : CM P unit :=
  _ ← (if showCreateSpacePermissions fl then
         resp ← on_err (wrap "get create-space permissions") getCreateSpacePermissions;
         println ("create-space permissions: can_create_space="
                  +:+ bool_text (GetCreateSpacePermissionsResp_CanCreateSpace resp))
       else mret tt);
  if negb (permissionsSpaceID fl =? 0) then
    resp ← on_err (wrap "get space permissions") (getSpacePermissions (u32 (permissionsSpaceID fl)));
    println ("space permissions: space_id=" +:+ decimal (GetCreateGroupPermissionsResp_SpaceId resp) +:+ " role="
             +:+ MemberRole_String (GetCreateGroupPermissionsResp_Role resp) +:+ " can_create_group="
             +:+ bool_text (GetCreateGroupPermissionsResp_CanCreateGroup resp))
  else mret tt.

(** From the key on. *)
Definition session (fl : Flags) (privKey : PrivKey) : CM P unit :=
  self ← on_err (wrap "create libp2p host") (net (NewHost privKey));
  info ← locate fl self;
  _ ← on_err (wrap "connect server") (connectPeer info);
  _ ← println ("connected server peer: peer_id=" +:+ PeerKey info +:+ " addrs=" +:+ addrs_text info);
  _ ← on_err (wrap "open stream") (net (NewStream (PeerKey info) (protocolID fl)));
  authResult ← on_err (wrap "authenticate") (authenticate privKey self (clientAgent fl) (protocolID fl));
  _ ← println ("authenticated: user_id=" +:+ AuthResult_UserId authResult +:+ " display_name="
               +:+ AuthResult_DisplayName authResult +:+ " session_id=" +:+ AuthResult_SessionId authResult);
  _ ← printSpaces (AuthResult_Spaces authResult);
  show_permissions fl.

(** The key file is written before anything else happens. *)
Definition main (fl : Flags) (f : FsFaults) (ks : KeyStore) (c : Client P) : KeyStore * (Client P * Outcome unit) :=
  if negb (discover fl) && (TrimSpace (serverAddr fl) =@ ""%string) && (TrimSpace (flagNodePeerID fl) =@ ""%string)
  then (ks, fail (Errorf "missing -server-addr, -node-peer-id, or enable -discover") c)
  else match LoadOrCreateIdentity f (keyPath fl) ks with
       | (ks, inl e) => (ks, fail (wrap "load client key" e) c)
       | (ks, inr privKey) => (ks, session fl privKey c)
       end.
End main.
End connect_client.

(** ** [cmd/peerid]: the peer id of the key in a file, which is created when it is missing *)
Module peerid.
Definition peerid_main `{Keys} (IDFromPrivateKey : PrivKey -> Err + string) (keyPath : string) (f : FsFaults) (ks : KeyStore)
  : KeyStore * (Err + string) :=
  match LoadOrCreateIdentity f keyPath ks with
  | (ks, inl e) => (ks, inl (wrap "load key" e))
  | (ks, inr privKey) => (ks, match IDFromPrivateKey privKey with inl e => inl (wrap "derive peer id" e) | inr id => inr id end)
  end.
End peerid.
