(* ===== verification/AdminClient.v ===== *)
(** * The administration client: [examples/admin-client/main.go]

    One definition per request function and per part of [main].  The
    functions it shares with the connecting client are those of [Client]. *)
From S2P Require Import Prelude Go Encoding Strconv Json Config Store Proto Codec Auth Session Dispatch Node Client.
Import sessionv1.

Module admin_client.

(** ** [fmt.Sscan] of a [uint64] *)
Definition underscore : ascii := byte 95.
Definition letter_value (a : ascii) : option Z :=
  if in_range 48 57 a then Some (Z_of_byte a - 48)
  else if in_range 97 122 (lower a) then Some (Z_of_byte (lower a) - 87) else None.
(** A digit of the base, or an underscore. *)
Definition base_digit (base : Z) (a : ascii) : bool :=
  (a =@ underscore) || match letter_value a with Some d => d <? base | None => false end.
Fixpoint span (p : ascii -> bool) (l : bytes) : bytes :=
  match l with a :: l => if p a then a :: span p l else [] | [] => [] end.
Definition prefix_base (a : ascii) : option Z :=
  if lower a =@ byte 98 then Some 2 else if lower a =@ byte 111 then Some 8 else if lower a =@ byte 120 then Some 16 else None.

(** [scanBasePrefix] and [scanNumber]: the characters taken from the input. *)
Definition scan_number (l : bytes) : Err + bytes :=
  match l with
  | [] => inl ErrUnexpectedEOF
  | a :: l =>
    if a =@ byte 48 then
      match l with
      | b :: l' => match prefix_base b with
                   | Some base => inr (a :: b :: span (base_digit base) l')
                   | None => inr (a :: span (base_digit 8) l)
                   end
      | [] => inr [a]
      end
    else if base_digit 10 a then inr (a :: span (base_digit 10) l)
    else inl (Errorf "expected integer")
  end.

(** [underscoreOK]: an underscore stands between digits, a base prefix counts as one. *)
Fixpoint underscores_between (after_digit : bool) (l : bytes) : bool :=
  match l with
  | [] => true
  | a :: l =>
    if a =@ underscore then after_digit && negb (bool_decide (l = [])) && underscores_between false l
    else underscores_between true l
  end.

(** [strconv.ParseUint(tok, 0, 64)]: the base and the digits of the token, its value. *)
Definition base_of (tok : bytes) : Z * bytes :=
  match tok with
  | a :: l =>
    if a =@ byte 48 then
      match l with
      | b :: (_ :: _) as l' => match prefix_base b with Some base => (base, drop 1 l) | None => (8, l) end
      | _ => (8, l)
      end
    else (10, tok)
  | [] => (10, [])
  end.
Fixpoint value_in (base n : Z) (l : bytes) : NumError + Z :=
  match l with
  | [] => inr n
  | a :: l =>
    if a =@ underscore then value_in base n l
    else match letter_value a with
         | None => inl ErrSyntax
         | Some d => if base <=? d then inl ErrSyntax
                     else if max_u64 <? n * base + d then inl ErrRange
                     else value_in base (n * base + d) l
         end
  end.
Definition ParseUint0 (tok : bytes) : NumError + Z :=
  match tok with
  | [] => inl ErrSyntax
  | _ :: _ =>
    let '(base, ds) := base_of tok in
    match value_in base 0 ds with
    | inl e => inl e
    | inr n => if bool_decide (underscore ∈ tok) && negb (underscores_between (negb (base =? 10)) ds)
               then inl ErrSyntax else inr n
    end
  end.
Definition num_error_text (tok : bytes) (e : NumError) : string :=
  "strconv.ParseUint: parsing " +:+ of_bytes ([byte 34] ++ tok ++ [byte 34]) +:+ ": "
  +:+ match e with ErrSyntax => "invalid syntax" | ErrRange => "value out of range" end.
Definition Sscan_uint64 (value : string) : Err + Z :=
  match scan_number (to_bytes value) with
  | inl e => inl e
  | inr tok => match ParseUint0 tok with inl e => inl (Errorf (num_error_text tok e)) | inr n => inr n end
  end.

(** ** Flags *)
Definition joinSpaceFlags_Set `{Multiaddrs} (f : list Z) (value : string) : Err + list Z :=
  let value := TrimSpace value in
  if value =@ ""%string then inr f
  else match Sscan_uint64 value with
       | inl e => inl (wrap ("parse space id " +:+ quoted_addr value) e)
       | inr parsed => inr (f ++ [parsed])
       end.

(** [joinSpaceFlags.String] *)
Fixpoint joinSpaceFlags_String (f : list Z) : string :=
  match f with
  | [] => ""
  | [item] => decimal item
  | item :: f => decimal item +:+ "," +:+ joinSpaceFlags_String f
  end.

Definition ToLower (s : string) : string := of_bytes (to_lower (to_bytes s)).
Definition parseMemberRole `{Multiaddrs} (value : string) : Err + Z :=
  let v := ToLower (TrimSpace value) in
  if v =@ "owner"%string then inr MemberRole_OWNER
  else if v =@ "admin"%string then inr MemberRole_ADMIN
  else if v =@ "member"%string then inr MemberRole_MEMBER
  else if v =@ "subscriber"%string then inr MemberRole_SUBSCRIBER
  else inl (Errorf ("unsupported role " +:+ quoted_addr value)).
Definition parseVisibility `{Multiaddrs} (value : string) : Err + Z :=
  let v := ToLower (TrimSpace value) in
  if v =@ "public"%string then inr Visibility_PUBLIC
  else if v =@ "private"%string then inr Visibility_PRIVATE
  else inl (Errorf ("unsupported visibility " +:+ quoted_addr value)).

(** ** Requests *)
Section requests.
Context {P : Type} `{Stream P} `{Clock} `{Protobuf} `{ClientProtobuf}.

(** These two are word for word those of the connecting client. *)
Definition authenticate `{Signer} (privKey : PrivKey) (clientPeerID clientAgent protocolID : string) : CM P AuthResult :=
  Client.authenticate privKey clientPeerID clientAgent protocolID.
Definition getCreateSpacePermissions : CM P GetCreateSpacePermissionsResp := Client.getCreateSpacePermissions.

Definition setMemberRole (spaceID : Z) (targetUserID : string) (role : Z) : CM P unit :=
  _ ← accepted AdminSetSpaceMemberRoleResp_Ok "set member role"
        (request MsgType_ADMIN_SET_SPACE_MEMBER_ROLE_REQ "set-role"
           (BAdminSetSpaceMemberRoleReq (mkAdminSetSpaceMemberRoleReq spaceID targetUserID role))
           MsgType_ADMIN_SET_SPACE_MEMBER_ROLE_RESP "set member role resp" UnmarshalAdminSetSpaceMemberRoleResp);
  mret tt.

Definition setSpaceAllowChannelCreation (spaceID : Z) (enabled : bool) : CM P unit :=
  _ ← accepted AdminSetSpaceChannelCreationResp_Ok "set channel creation"
        (request MsgType_ADMIN_SET_SPACE_CHANNEL_CREATION_REQ "set-create"
           (BAdminSetSpaceChannelCreationReq (mkAdminSetSpaceChannelCreationReq spaceID enabled))
           MsgType_ADMIN_SET_SPACE_CHANNEL_CREATION_RESP "set channel creation resp"
           UnmarshalAdminSetSpaceChannelCreationResp);
  mret tt.

Definition createGroupChannel (spaceID : Z) (name description : string) : CM P CreateGroupResp :=
  accepted CreateGroupResp_Ok "create group"
    (request MsgType_CREATE_GROUP_REQ "create-group"
       (BCreateGroupReq (mkCreateGroupReq spaceID name description Visibility_PUBLIC 0))
       MsgType_CREATE_GROUP_RESP "create group resp" UnmarshalCreateGroupResp).

Definition setGroupAutoDelete (channelID seconds : Z) : CM P AdminSetGroupAutoDeleteResp :=
  accepted AdminSetGroupAutoDeleteResp_Ok "set group auto delete"
    (request MsgType_ADMIN_SET_GROUP_AUTO_DELETE_REQ "group-auto-delete"
       (BAdminSetGroupAutoDeleteReq (mkAdminSetGroupAutoDeleteReq channelID seconds))
       MsgType_ADMIN_SET_GROUP_AUTO_DELETE_RESP "group auto delete resp" UnmarshalAdminSetGroupAutoDeleteResp).

Definition joinSpace (spaceID : Z) : CM P JoinSpaceResp :=
  accepted JoinSpaceResp_Ok "join space"
    (request MsgType_JOIN_SPACE_REQ "join" (BJoinSpaceReq (mkJoinSpaceReq spaceID))
       MsgType_JOIN_SPACE_RESP "join space resp" UnmarshalJoinSpaceResp).

Definition inviteSpaceMember (spaceID : Z) (targetUserID : string) : CM P InviteSpaceMemberResp :=
  accepted InviteSpaceMemberResp_Ok "invite space member"
    (request MsgType_INVITE_SPACE_MEMBER_REQ "invite" (BInviteSpaceMemberReq (mkInviteSpaceMemberReq spaceID targetUserID))
       MsgType_INVITE_SPACE_MEMBER_RESP "invite space member resp" UnmarshalInviteSpaceMemberResp).

Definition kickSpaceMember (spaceID : Z) (targetUserID : string) : CM P KickSpaceMemberResp :=
  accepted KickSpaceMemberResp_Ok "kick space member"
    (request MsgType_KICK_SPACE_MEMBER_REQ "kick" (BKickSpaceMemberReq (mkKickSpaceMemberReq spaceID targetUserID))
       MsgType_KICK_SPACE_MEMBER_RESP "kick space member resp" UnmarshalKickSpaceMemberResp).

Definition banSpaceMember (spaceID : Z) (targetUserID : string) : CM P BanSpaceMemberResp :=
  accepted BanSpaceMemberResp_Ok "ban space member"
    (request MsgType_BAN_SPACE_MEMBER_REQ "ban" (BBanSpaceMemberReq (mkBanSpaceMemberReq spaceID targetUserID))
       MsgType_BAN_SPACE_MEMBER_RESP "ban space member resp" UnmarshalBanSpaceMemberResp).

Definition unbanSpaceMember (spaceID : Z) (targetUserID : string) : CM P UnbanSpaceMemberResp :=
  accepted UnbanSpaceMemberResp_Ok "unban space member"
    (request MsgType_UNBAN_SPACE_MEMBER_REQ "unban" (BUnbanSpaceMemberReq (mkUnbanSpaceMemberReq spaceID targetUserID))
       MsgType_UNBAN_SPACE_MEMBER_RESP "unban space member resp" UnmarshalUnbanSpaceMemberResp).

Definition listSpaces : CM P (list SpaceSummary) :=
  resp ← request MsgType_LIST_SPACES_REQ "list-spaces" (BListSpacesReq mkListSpacesReq)
           MsgType_LIST_SPACES_RESP "list spaces resp" UnmarshalListSpacesResp;
  mret (ListSpacesResp_Spaces resp).

Definition listChannels (spaceID : Z) : CM P (list ChannelSummary) :=
  resp ← request MsgType_LIST_CHANNELS_REQ "list-channels" (BListChannelsReq (mkListChannelsReq spaceID))
           MsgType_LIST_CHANNELS_RESP "list channels resp" UnmarshalListChannelsResp;
  mret (ListChannelsResp_Channels resp).

Definition listSpaceMembers (spaceID afterMemberID limit : Z) : CM P ListSpaceMembersResp :=
  request MsgType_LIST_SPACE_MEMBERS_REQ "list-members"
    (BListSpaceMembersReq (mkListSpaceMembersReq spaceID afterMemberID limit))
    MsgType_LIST_SPACE_MEMBERS_RESP "list space members resp" UnmarshalListSpaceMembersResp.

Definition getSpacePermissions (spaceID : Z) : CM P GetCreateGroupPermissionsResp :=
  accepted GetCreateGroupPermissionsResp_Ok "get create-group permissions"
    (request MsgType_GET_CREATE_GROUP_PERMISSIONS_REQ "space-perms"
       (BGetCreateGroupPermissionsReq (mkGetCreateGroupPermissionsReq spaceID))
       MsgType_GET_CREATE_GROUP_PERMISSIONS_RESP "get create-group permissions resp" UnmarshalGetCreateGroupPermissionsResp).

Definition createSpaceRPC (name description : string) (visibility : Z) (allowChannelCreation : bool) : CM P CreateSpaceResp :=
  accepted CreateSpaceResp_Ok "create space"
    (request MsgType_CREATE_SPACE_REQ "create-space"
       (BCreateSpaceReq (mkCreateSpaceReq name description visibility allowChannelCreation))
       MsgType_CREATE_SPACE_RESP "create space resp" UnmarshalCreateSpaceResp).

Definition subscribeChannel (channelID lastSeenSeq : Z) : CM P unit :=
  _ ← accepted SubscribeChannelResp_Ok "subscribe"
        (request MsgType_SUBSCRIBE_CHANNEL_REQ "subscribe" (BSubscribeChannelReq (mkSubscribeChannelReq channelID lastSeenSeq))
           MsgType_SUBSCRIBE_CHANNEL_RESP "subscribe resp" UnmarshalSubscribeChannelResp);
  mret tt.

Definition syncChannel (channelID afterSeq limit : Z) : CM P (list MessageEvent * Z * bool) :=
  resp ← request MsgType_SYNC_CHANNEL_REQ "sync" (BSyncChannelReq (mkSyncChannelReq channelID afterSeq limit))
           MsgType_SYNC_CHANNEL_RESP "sync resp" UnmarshalSyncChannelResp;
  mret (SyncChannelResp_Messages resp, SyncChannelResp_NextAfterSeq resp, SyncChannelResp_HasMore resp).

(** The request id is drawn before the client message id. *)
Definition sendTextMessage (channelID : Z) (text : string) : CM P SendMessageAck :=
  reqID ← requestID "send";
  clientMsgID ← requestID "client";
  _ ← writeEnvelope MsgType_SEND_MESSAGE_REQ reqID (BSendMessageReq (mkSendMessageReq channelID clientMsgID
        MessageType_TEXT (Some (mkMessageContent [] [] text))));
  env ← readEnvelopeExpect MsgType_SEND_MESSAGE_ACK;
  resp ← on_err (wrap "unmarshal send ack") (pure (UnmarshalSendMessageAck (Envelope_Body env)));
  if negb (SendMessageAck_Ok resp) then fail (Errorf "message rejected") else mret resp.
End requests.

(** ** Printing *)
Definition ChannelType_String (t : Z) : string :=
  if t =? ChannelType_CHANNEL_TYPE_UNSPECIFIED then "CHANNEL_TYPE_UNSPECIFIED"
  else if t =? ChannelType_GROUP then "GROUP" else if t =? ChannelType_BROADCAST then "BROADCAST" else decimal t.
Definition MemberRole_String : Z -> string := connect_client.MemberRole_String.

Section printing.
Context {P : Type}.
Definition channel_line (ch : ChannelSummary) : string :=
  "  - " +:+ decimal (ChannelSummary_ChannelId ch) +:+ " (" +:+ ChannelSummary_Name ch +:+ ") type="
  +:+ ChannelType_String (ChannelSummary_Type ch) +:+ " auto_delete_after_seconds="
  +:+ decimal (ChannelSummary_AutoDeleteAfterSeconds ch) +:+ " can_view=" +:+ bool_text (ChannelSummary_CanView ch)
  +:+ " can_send_message=" +:+ bool_text (ChannelSummary_CanSendMessage ch).
Definition printChannels (channels : list ChannelSummary) : CM P unit :=
  _ ← println "channels:"; print_lines channel_line channels.
Definition member_line (m : SpaceMemberSummary) : string :=
  "  - member_id=" +:+ decimal (SpaceMemberSummary_MemberId m) +:+ " user_id=" +:+ SpaceMemberSummary_UserId m
  +:+ " display_name=" +:+ SpaceMemberSummary_DisplayName m +:+ " role=" +:+ MemberRole_String (SpaceMemberSummary_Role m)
  +:+ " banned=" +:+ bool_text (SpaceMemberSummary_IsBanned m).
Definition printMembers (members : list SpaceMemberSummary) : CM P unit :=
  _ ← println "members:"; print_lines member_line members.

(** A field of a message pointer; a nil pointer panics. *)
Definition deref {A} (o : option A) : CM P A :=
  match o with
  | Some a => mret a
  | None => panic (Errorf "runtime error: invalid memory address or nil pointer dereference")
  end.
End printing.

(** ** The program *)
Record Flags := mkFlags {
  serverAddr : string; discover : bool; discoverNamespace : string; protocolID : string; keyPath : string;
  clientAgent : string; spaceID : Z; showCreateSpacePermissions : bool; permissionsSpaceID : Z;
  createSpace : bool; newSpaceName : string; newSpaceDescription : string; newSpaceVisibility : string;
  newSpaceAllowCreate : bool; joinSpaces : list Z; targetUserID : string; inviteUserID : string;
  kickUserID : string; banUserID : string; unbanUserID : string; listMembers : bool; listMembersAll : bool;
  memberAfterID : Z; memberLimit : Z; targetRole : string; allowChannelCreation : bool; createGroup : bool;
  groupName : string; groupDescription : string; groupAutoDeleteChannelID : Z; groupAutoDeleteAfterSeconds : Z;
  channelID : Z; messageText : string; syncAfterSeq : Z; dhtBootstrapPeers : list string }.

Section main.
Context {P : Type} `{Network P} `{!Stream P} `{Clock} `{Protobuf} `{ClientProtobuf} `{!Signer}.

Definition locate (fl : Flags) (self : string) : CM P AddrInfo :=
  if discover fl then
    _ ← (if TrimSpace (discoverNamespace fl) =@ ""%string then fail (Errorf "missing -discover-namespace") else mret tt);
    _ ← start_routing (dhtBootstrapPeers fl);
    info ← on_err (wrap "discover meshserver peer") (discoverMeshserverPeer self (discoverNamespace fl));
    _ ← println ("discovered meshserver peer: peer_id=" +:+ PeerKey info +:+ " addrs=" +:+ addrs_text info
                 +:+ " namespace=" +:+ discoverNamespace fl);
    mret info
  else on_err (wrap "parse server addr") (pure (addrInfo (serverAddr fl))).

(** The space the rest works on. *)
Definition create_space (fl : Flags) : CM P Z :=
  if createSpace fl then
    vis ← on_err (wrap "parse new space visibility") (pure (parseVisibility (newSpaceVisibility fl)));
    resp ← on_err (wrap "create space")
             (createSpaceRPC (newSpaceName fl) (newSpaceDescription fl) vis (newSpaceAllowCreate fl));
    space ← deref (CreateSpaceResp_Space resp);
    _ ← println ("created space: space_id=" +:+ decimal (CreateSpaceResp_SpaceId resp) +:+ " name="
                 +:+ SpaceSummary_Name space +:+ " allow_channel_creation="
                 +:+ bool_text (SpaceSummary_AllowChannelCreation space));
    mret (CreateSpaceResp_SpaceId resp)
  else mret (spaceID fl).

Definition show_permissions (fl : Flags) : CM P unit :=
  _ ← (if showCreateSpacePermissions fl then
         resp ← on_err (wrap "get create-space permissions") getCreateSpacePermissions;
         println ("create-space permissions: can_create_space="
                  +:+ bool_text (GetCreateSpacePermissionsResp_CanCreateSpace resp))
       else mret tt);
  if negb (permissionsSpaceID fl =? 0) then
    resp ← on_err (wrap "get space permissions") (getSpacePermissions (u32 (permissionsSpaceID fl)));
    println ("create-group permissions: space_id=" +:+ decimal (GetCreateGroupPermissionsResp_SpaceId resp) +:+ " role="
             +:+ MemberRole_String (GetCreateGroupPermissionsResp_Role resp) +:+ " can_create_group="
             +:+ bool_text (GetCreateGroupPermissionsResp_CanCreateGroup resp))
  else mret tt.

Fixpoint join_each (ids : list Z) : CM P unit :=
  match ids with
  | [] => mret tt
  | joinSpaceID :: ids =>
    if joinSpaceID =? 0 then join_each ids
    else
      resp ← on_err (wrap ("join space " +:+ decimal joinSpaceID)) (joinSpace (u32 joinSpaceID));
      space ← deref (JoinSpaceResp_Space resp);
      _ ← println ("joined space: space_id=" +:+ decimal (JoinSpaceResp_SpaceId resp) +:+ " name=" +:+ SpaceSummary_Name space);
      join_each ids
  end.
Definition join_spaces (fl : Flags) : CM P unit :=
  _ ← join_each (joinSpaces fl);
  if bool_decide (joinSpaces fl = []) then mret tt
  else
    spaces ← on_err (wrap "list spaces after join") listSpaces;
    _ ← println "spaces after join:";
    printSpaces spaces.

(** An action on a user that is taken when its flag is given. *)
Definition on_user {R} (user what done : string) (call : string -> CM P R) (space : R -> option SpaceSummary)
  (id : R -> Z) (target : R -> string) : CM P unit :=
  if TrimSpace user =@ ""%string then mret tt
  else
    resp ← on_err (wrap what) (call user);
    s ← deref (space resp);
    println (done +:+ ": space_id=" +:+ decimal (id resp) +:+ " target_user_id=" +:+ target resp +:+ " name="
             +:+ SpaceSummary_Name s).

Definition member_actions (fl : Flags) (spaceID : Z) : CM P unit :=
  _ ← (if TrimSpace (targetUserID fl) =@ ""%string then mret tt
       else
         role ← on_err (wrap "parse target role") (pure (parseMemberRole (targetRole fl)));
         _ ← on_err (wrap "set member role") (setMemberRole (u32 spaceID) (targetUserID fl) role);
         println ("updated member role: space_id=" +:+ decimal spaceID +:+ " target_user_id=" +:+ targetUserID fl
                  +:+ " role=" +:+ ToLower (MemberRole_String role)));
  _ ← on_user (inviteUserID fl) "invite space member" "invited space member" (inviteSpaceMember (u32 spaceID))
        InviteSpaceMemberResp_Space InviteSpaceMemberResp_SpaceId InviteSpaceMemberResp_TargetUserId;
  _ ← on_user (kickUserID fl) "kick space member" "kicked space member" (kickSpaceMember (u32 spaceID))
        KickSpaceMemberResp_Space KickSpaceMemberResp_SpaceId KickSpaceMemberResp_TargetUserId;
  _ ← on_user (banUserID fl) "ban space member" "banned space member" (banSpaceMember (u32 spaceID))
        BanSpaceMemberResp_Space BanSpaceMemberResp_SpaceId BanSpaceMemberResp_TargetUserId;
  on_user (unbanUserID fl) "unban space member" "unbanned space member" (unbanSpaceMember (u32 spaceID))
    UnbanSpaceMemberResp_Space UnbanSpaceMemberResp_SpaceId UnbanSpaceMemberResp_TargetUserId.

(** The loop of [-list-members-all]; when the fuel ends it is still going on. *)
Fixpoint list_all_members (fuel : nat) (spaceID limit afterID : Z) : CM P unit :=
  match fuel with
  | O => fun c => (c, Waiting)
  | S fuel =>
    resp ← on_err (wrap "list space members") (listSpaceMembers spaceID afterID limit);
    _ ← printMembers (ListSpaceMembersResp_Members resp);
    if negb (ListSpaceMembersResp_HasMore resp) then mret tt
    else if ListSpaceMembersResp_NextAfterMemberId resp =? 0 then mret tt
    else
      _ ← println ("next page cursor: after_member_id=" +:+ decimal (ListSpaceMembersResp_NextAfterMemberId resp));
      list_all_members fuel spaceID limit (ListSpaceMembersResp_NextAfterMemberId resp)
  end.
Definition list_members (fuel : nat) (fl : Flags) (spaceID : Z) : CM P unit :=
  if listMembersAll fl then list_all_members fuel (u32 spaceID) (u32 (memberLimit fl)) (memberAfterID fl)
  else if listMembers fl then
    resp ← on_err (wrap "list space members") (listSpaceMembers (u32 spaceID) (memberAfterID fl) (u32 (memberLimit fl)));
    _ ← printMembers (ListSpaceMembersResp_Members resp);
    println ("member page: space_id=" +:+ decimal (ListSpaceMembersResp_SpaceId resp) +:+ " after_member_id="
             +:+ decimal (memberAfterID fl) +:+ " next_after_member_id="
             +:+ decimal (ListSpaceMembersResp_NextAfterMemberId resp) +:+ " has_more="
             +:+ bool_text (ListSpaceMembersResp_HasMore resp))
  else mret tt.

(** The channel that is created, or the one given. *)
Definition create_group (fl : Flags) (spaceID : Z) : CM P Z :=
  active ← (if createGroup fl then
              resp ← on_err (wrap "create group") (createGroupChannel (u32 spaceID) (groupName fl) (groupDescription fl));
              channel ← deref (CreateGroupResp_Channel resp);
              _ ← println ("created group: space_id=" +:+ decimal (CreateGroupResp_SpaceId resp) +:+ " channel_id="
                           +:+ decimal (CreateGroupResp_ChannelId resp) +:+ " name=" +:+ ChannelSummary_Name channel);
              mret (CreateGroupResp_ChannelId resp)
            else mret 0);
  mret (if active =? 0 then u32 (channelID fl) else active).

Definition auto_delete (fl : Flags) (activeChannelID : Z) : CM P Z :=
  let target := u32 (groupAutoDeleteChannelID fl) in
  let target := if target =? 0 then activeChannelID else target in
  let target := if target =? 0 then u32 (channelID fl) else target in
  if negb (target =? 0) && (0 <? groupAutoDeleteAfterSeconds fl) then
    resp ← on_err (wrap "set group auto delete") (setGroupAutoDelete target (u32 (groupAutoDeleteAfterSeconds fl)));
    channel ← deref (AdminSetGroupAutoDeleteResp_Channel resp);
    _ ← println ("updated group auto delete: channel_id=" +:+ decimal (AdminSetGroupAutoDeleteResp_ChannelId resp)
                 +:+ " auto_delete_after_seconds=" +:+ decimal (AdminSetGroupAutoDeleteResp_AutoDeleteAfterSeconds resp)
                 +:+ " name=" +:+ ChannelSummary_Name channel);
    mret (if activeChannelID =? 0 then target else activeChannelID)
  else mret activeChannelID.

Definition use_channel (fl : Flags) (spaceID activeChannelID : Z) : CM P unit :=
  channels ← on_err (wrap "list channels") (listChannels (u32 spaceID));
  _ ← printChannels channels;
  _ ← on_err (wrap "subscribe channel") (subscribeChannel activeChannelID (syncAfterSeq fl));
  _ ← println ("subscribed: channel_id=" +:+ decimal activeChannelID);
  _ ← on_err (wrap "sync channel") (syncChannel activeChannelID (syncAfterSeq fl) 50);
  _ ← println ("synced channel: channel_id=" +:+ decimal activeChannelID +:+ " from_seq=" +:+ decimal (syncAfterSeq fl));
  if TrimSpace (messageText fl) =@ ""%string then mret tt
  else
    ack ← on_err (wrap "send message") (sendTextMessage activeChannelID (messageText fl));
    println ("message ack: message_id=" +:+ SendMessageAck_MessageId ack +:+ " seq=" +:+ decimal (SendMessageAck_Seq ack)
             +:+ " client_msg_id=" +:+ SendMessageAck_ClientMsgId ack).

(** Everything after the authentication. *)
Definition actions (fuel : nat) (fl : Flags) : CM P unit :=
  spaceID ← create_space fl;
  _ ← show_permissions fl;
  _ ← join_spaces fl;
  _ ← member_actions fl spaceID;
  _ ← list_members fuel fl spaceID;
  _ ← on_err (wrap "set channel creation") (setSpaceAllowChannelCreation (u32 spaceID) (allowChannelCreation fl));
  _ ← println ("updated channel creation flag: space_id=" +:+ decimal spaceID +:+ " allow_channel_creation="
               +:+ bool_text (allowChannelCreation fl));
  activeChannelID ← create_group fl spaceID;
  activeChannelID ← auto_delete fl activeChannelID;
  if activeChannelID =? 0 then mret tt else use_channel fl spaceID activeChannelID.

Definition session (fuel : nat) (fl : Flags) (privKey : PrivKey) : CM P unit :=
  self ← on_err (wrap "create libp2p host") (net (NewHost privKey));
  info ← locate fl self;
  _ ← on_err (wrap "connect server") (connectPeer info);
  _ ← println ("connected server peer: peer_id=" +:+ PeerKey info +:+ " addrs=" +:+ addrs_text info);
  _ ← on_err (wrap "open stream") (net (NewStream (PeerKey info) (protocolID fl)));
  authResult ← on_err (wrap "authenticate") (authenticate privKey self (clientAgent fl) (protocolID fl));
  _ ← println ("authenticated: user_id=" +:+ AuthResult_UserId authResult +:+ " display_name="
               +:+ AuthResult_DisplayName authResult +:+ " session_id=" +:+ AuthResult_SessionId authResult);
  _ ← printSpaces (AuthResult_Spaces authResult);
  actions fuel fl.

Definition main (fuel : nat) (fl : Flags) (f : FsFaults) (ks : KeyStore) (c : Client P) : KeyStore * (Client P * Outcome unit) :=
  if negb (discover fl) && (TrimSpace (serverAddr fl) =@ ""%string)
  then (ks, fail (Errorf "missing -server-addr or enable -discover") c)
  else match LoadOrCreateIdentity f (keyPath fl) ks with
       | (ks, inl e) => (ks, fail (wrap "load client key" e) c)
       | (ks, inr privKey) => (ks, session fuel fl privKey c)
       end.
End main.
End admin_client.
