(* ===== verification/Link.v ===== *)
(** * A client connected to the server

    The two ends of a stream together: what a client writes is read and
    handled by the session manager, and what the manager writes to that
    session arrives at the client, in order.  Between two operations of the
    client other events of the running system may happen, as a schedule
    says.  The round-trip laws of the protobuf runtime connect the encoder
    of one end with the decoder of the other.  The instances at the end join
    them with the encoding that the field tags give. *)
From S2P Require Import Prelude Go Encoding Schema Config Store SpaceRepo UserRepo Proto Codec CodecThms Auth Media Session Manager.
From S2P Require Import Dispatch System Demo Node Client Wire ProtoWire.
Import sessionv1.

(** ** Laws of the protobuf runtime: what one end encodes the other decodes *)
Definition decodes `{Protobuf} {A} (body : A -> Body) (unm : string -> Err + A) : Prop :=
  forall m s, Marshal (body m) = inr s -> unm s = inr m.
Class WireLaws `{Protobuf} `{ClientProtobuf} : Prop := {
  wire_Envelope env s : MarshalEnvelope env = inr s -> UnmarshalEnvelope s = inr env;
  wire_Hello : decodes BHello UnmarshalHello;
  wire_AuthProve : decodes BAuthProve UnmarshalAuthProve;
  wire_ListChannelsReq : decodes BListChannelsReq UnmarshalListChannelsReq;
  wire_ListSpaceMembersReq : decodes BListSpaceMembersReq UnmarshalListSpaceMembersReq;
  wire_CreateSpaceReq : decodes BCreateSpaceReq UnmarshalCreateSpaceReq;
  wire_GetCreateSpacePermissionsReq : decodes BGetCreateSpacePermissionsReq UnmarshalGetCreateSpacePermissionsReq;
  wire_GetCreateGroupPermissionsReq : decodes BGetCreateGroupPermissionsReq UnmarshalGetCreateGroupPermissionsReq;
  wire_SubscribeChannelReq : decodes BSubscribeChannelReq UnmarshalSubscribeChannelReq;
  wire_AdminSetSpaceMemberRoleReq : decodes BAdminSetSpaceMemberRoleReq UnmarshalAdminSetSpaceMemberRoleReq;
  wire_AdminSetSpaceChannelCreationReq : decodes BAdminSetSpaceChannelCreationReq UnmarshalAdminSetSpaceChannelCreationReq;
  wire_AdminSetGroupAutoDeleteReq : decodes BAdminSetGroupAutoDeleteReq UnmarshalAdminSetGroupAutoDeleteReq;
  wire_JoinSpaceReq : decodes BJoinSpaceReq UnmarshalJoinSpaceReq;
  wire_InviteSpaceMemberReq : decodes BInviteSpaceMemberReq UnmarshalInviteSpaceMemberReq;
  wire_KickSpaceMemberReq : decodes BKickSpaceMemberReq UnmarshalKickSpaceMemberReq;
  wire_BanSpaceMemberReq : decodes BBanSpaceMemberReq UnmarshalBanSpaceMemberReq;
  wire_UnbanSpaceMemberReq : decodes BUnbanSpaceMemberReq UnmarshalUnbanSpaceMemberReq;
  wire_CreateGroupReq : decodes BCreateGroupReq UnmarshalCreateGroupReq;
  wire_SendMessageReq : decodes BSendMessageReq UnmarshalSendMessageReq;
  wire_SyncChannelReq : decodes BSyncChannelReq UnmarshalSyncChannelReq;
  wire_AuthChallenge : decodes BAuthChallenge UnmarshalAuthChallenge;
  wire_AuthResult : decodes BAuthResult UnmarshalAuthResult;
  wire_ListSpacesResp : decodes BListSpacesResp UnmarshalListSpacesResp;
  wire_ListChannelsResp : decodes BListChannelsResp UnmarshalListChannelsResp;
  wire_ListSpaceMembersResp : decodes BListSpaceMembersResp UnmarshalListSpaceMembersResp;
  wire_CreateSpaceResp : decodes BCreateSpaceResp UnmarshalCreateSpaceResp;
  wire_GetCreateSpacePermissionsResp : decodes BGetCreateSpacePermissionsResp UnmarshalGetCreateSpacePermissionsResp;
  wire_GetCreateGroupPermissionsResp : decodes BGetCreateGroupPermissionsResp UnmarshalGetCreateGroupPermissionsResp;
  wire_SubscribeChannelResp : decodes BSubscribeChannelResp UnmarshalSubscribeChannelResp;
  wire_AdminSetSpaceMemberRoleResp : decodes BAdminSetSpaceMemberRoleResp UnmarshalAdminSetSpaceMemberRoleResp;
  wire_AdminSetSpaceChannelCreationResp : decodes BAdminSetSpaceChannelCreationResp UnmarshalAdminSetSpaceChannelCreationResp;
  wire_AdminSetGroupAutoDeleteResp : decodes BAdminSetGroupAutoDeleteResp UnmarshalAdminSetGroupAutoDeleteResp;
  wire_JoinSpaceResp : decodes BJoinSpaceResp UnmarshalJoinSpaceResp;
  wire_InviteSpaceMemberResp : decodes BInviteSpaceMemberResp UnmarshalInviteSpaceMemberResp;
  wire_KickSpaceMemberResp : decodes BKickSpaceMemberResp UnmarshalKickSpaceMemberResp;
  wire_BanSpaceMemberResp : decodes BBanSpaceMemberResp UnmarshalBanSpaceMemberResp;
  wire_UnbanSpaceMemberResp : decodes BUnbanSpaceMemberResp UnmarshalUnbanSpaceMemberResp;
  wire_CreateGroupResp : decodes BCreateGroupResp UnmarshalCreateGroupResp;
  wire_SendMessageAck : decodes BSendMessageAck UnmarshalSendMessageAck;
  wire_SyncChannelResp : decodes BSyncChannelResp UnmarshalSyncChannelResp }.

(** ** The link *)
(** The manager, the session of the client, the bytes on their way to the
    client, and what else happens, one list of events per operation. *)
Record Link := mkLink { lk_mgr : Mgr; lk_sid : Sid; lk_down : bytes; lk_sched : list (list Event) }.

(** Events of the system that are not on this session. *)
Definition foreign (sid : Sid) (e : Event) : Prop :=
  match e with
  | EvConnect s | EvEnvelope s _ | EvDisconnect s | EvBroken s => s <> sid
  | _ => True
  end.

Section link.
Context `{Env} `{Libp2p} `{MediaLib} `{Protobuf} (mc : ManagerConf).

(** The bytes of an envelope written at a time; [write] records only what it could write. *)
Definition frame (ns : Z) (s : Sent) : bytes :=
  match NewEnvelope ns (sent_type s) (sent_request s) (sent_body s) with
  | inr env => match WriteEnvelope env with inr bs => bs | inl _ => [] end
  | inl _ => []
  end.
(** What a step of the manager wrote to a session. *)
Definition written_to (sid : Sid) (g g' : Mgr) : list Sent :=
  filter (fun s => sent_to s = sid) (drop (length (g_sent g)) (g_sent g')).
Definition frames (ns : Z) (l : list Sent) : bytes := concat (frame ns <$> l).
(** The manager takes a step; the clock stands still while envelopes are written. *)
Definition advance (f : Mgr -> Mgr) (l : Link) : Link :=
  let g := f (lk_mgr l) in
  mkLink g (lk_sid l) (lk_down l ++ frames (w_clock (g_world g)) (written_to (lk_sid l) (lk_mgr l) g)) (lk_sched l).
(** An event that cannot happen is skipped. *)
Definition other_event (l : Link) (e : Event) : Link :=
  if decide (enabled e (lk_mgr l)) then advance (run_event mc e) l else l.
Definition others (l : Link) : Link :=
  fold_left other_event (default [] (head (lk_sched l))) (mkLink (lk_mgr l) (lk_sid l) (lk_down l) (tail (lk_sched l))).
Definition is_open (l : Link) : bool := bool_decide (is_Some (g_sessions (lk_mgr l) !! lk_sid l)).

(** One pass of the loop of [HandleStream]: read an envelope and handle it, or end the session. *)
Definition serve (bs : bytes) (l : Link) : Link :=
  match (ReadEnvelope bs).2 with
  | inr env => advance (fun g => (handle_envelope mc (lk_sid l) env g).1) l
  | inl _ => advance (unregisterSession (lk_sid l)) l
  end.
Definition link_write (bs : bytes) : SE Link unit := fun l =>
  let l := others l in
  if is_open l then (serve bs l, inr tt) else (l, inl (Errorf "stream reset")).
Definition link_read (l : Link) : Link * (bytes * bool) :=
  let l := others l in
  (mkLink (lk_mgr l) (lk_sid l) [] (lk_sched l), (lk_down l, negb (is_open l))).
#[export] Instance link_stream : Stream Link := { StreamWrite := link_write; StreamRead := link_read }.
End link.

(** ** Clients and server on the wire format

    The protobuf runtime of [ProtoWire] satisfies the laws, so the clients
    can be run against the server with the real encoding. *)
#[export] Instance wire_protobuf : Protobuf := tagged_protobuf.
#[export] Instance wire_client : ClientProtobuf := tagged_client.
#[export] Instance wire_laws : @WireLaws wire_protobuf wire_client.
Proof. split; [intros env s|..]; try (intros m s); apply proto_roundtrip. Qed.

(** *** A client on a machine whose clock stands still *)
#[export] Instance still_clock : Clock := fun _ => demo_clock.
(** A key is its own public key and peer id. *)
#[export] Instance plain_keys : Keys := {
  PrivKey := string; UnmarshalPrivateKey := inr; GenerateEd25519Key := fun n => inr (decimal (Z.of_nat n));
  MarshalPrivateKey := inr }.
#[export] Instance plain_signer : Signer := {
  Sign := fun k payload => inr (demo_sign k payload); MarshalPublicKey := inr }.
#[export] Instance demo_server : Stream Link := link_stream demo_mc.
Definition client_of (g : Mgr) (sid : Sid) (sched : list (list Event)) : Client Link := mkClient (mkLink g sid [] sched) [] 0 [].
