(* ===== verification/ClientThms.v ===== *)
(** * The clients against the server

    A request function of a client, run over the link against the session
    manager, is the call of the HTTP API for the same user; the handshake
    succeeds for the holder of the key, and where it succeeds both ends
    agree on who the session acts for. *)
From S2P Require Import Prelude Go Encoding Schema Config Store SpaceRepo UserRepo ChannelRepo MessageRepo BlobRepo Proto.
From S2P Require Import SpaceInv Codec CodecThms CursorNonceRepo Auth Media Messaging DirectRepo DirectService DbInv Session.
From S2P Require Import SessionInv Manager Dispatch System Demo AuthThms SessionThms Paging Api Node Client AdminClient Link.
Import sessionv1.

(** ** Steps of a client *)
Section steps.
Context {P : Type}.
Lemma bind_done {A B} (m : CM P A) (k : A -> CM P B) c c' a : m c = (c', Done a) -> (m ≫= k) c = k a c'.
Proof. intros E. unfold mbind, CM_bind. by rewrite E. Qed.
Lemma bind_failed {A B} (m : CM P A) (k : A -> CM P B) c c' e : m c = (c', Fail e) -> (m ≫= k) c = (c', Fail e).
Proof. intros E. unfold mbind, CM_bind. by rewrite E. Qed.
Lemma accepted_done {A} ok what (m : CM P A) c c' a :
  m c = (c', Done a) -> ok a = true -> accepted ok what m c = (c', Done a).
Proof. intros E Hok. unfold accepted. rewrite (bind_done _ _ _ _ _ E), Hok. done. Qed.
Lemma accepted_fail {A} ok what (m : CM P A) c c' e : m c = (c', Fail e) -> accepted ok what m c = (c', Fail e).
Proof. intros E. unfold accepted. by rewrite (bind_failed _ _ _ _ _ E). Qed.
Lemma net_done {A} f (m : SE P A) c p a : m (cl_net c) = (p, inr a) ->
  on_err f (net m) c = (mkClient p (cl_in c) (cl_clock c) (cl_out c), Done a).
Proof. intros E. unfold on_err, net. by rewrite E. Qed.
Lemma on_err_done {A} f (m : CM P A) c c' a : m c = (c', Done a) -> on_err f m c = (c', Done a).
Proof. intros E. unfold on_err. by rewrite E. Qed.
End steps.

(** The client after it has printed some lines. *)
Definition printed {P} (lines : list string) (c : Client P) : Client P :=
  mkClient (cl_net c) (cl_in c) (cl_clock c) (cl_out c ++ lines).
Lemma print_lines_eq {P A} (line : A -> string) l (c : Client P) : print_lines line l c = (printed (line <$> l) c, Done tt).
Proof.
  revert c. induction l as [|a l IH]; intros c; simpl; [destruct c; unfold printed; simpl; by rewrite app_nil_r|].
  rewrite (bind_done _ _ _ (printed [line a] c) tt) by done. rewrite IH. unfold printed. simpl. by rewrite <- app_assoc.
Qed.

(** The message can be encoded at that time and fits into an envelope. *)
Definition sends `{Protobuf} (ns t : Z) (rid : string) (b : Body) (env : Envelope) (bs : bytes) : Prop :=
  NewEnvelope ns t rid b = inr env /\ WriteEnvelope env = inr bs.
Definition sendable `{Protobuf} (ns t : Z) (rid : string) (b : Body) : Prop := exists env bs, sends ns t rid b env bs.

(** To show that a concrete message fits, it is encoded. *)
Definition fits_in_envelope `{Protobuf} (ns t : Z) (rid : string) (b : Body) : bool :=
  match NewEnvelope ns t rid b with
  | inr env => match WriteEnvelope env with inr _ => true | inl _ => false end
  | inl _ => false
  end.
Lemma sendable_encoded `{Protobuf} ns t rid b : fits_in_envelope ns t rid b = true -> sendable ns t rid b.
Proof.
  unfold fits_in_envelope. destruct (NewEnvelope ns t rid b) as [|env] eqn:E1; [done|].
  destruct (WriteEnvelope env) as [|bs] eqn:E2; [done|]. by exists env, bs.
Qed.
Ltac encoded := apply sendable_encoded; vm_compute; reflexivity.

Lemma sends_fields `{Protobuf} ns t rid b env bs : sends ns t rid b env bs ->
  Marshal b = inr (Envelope_Body env) /\ Envelope_MsgType env = t /\ Envelope_RequestId env = rid.
Proof. intros [E _]. unfold NewEnvelope in E. by destruct (Marshal b); simplify_eq. Qed.

Section link_thms.
Context `{Env} `{Libp2p} `{MediaLib} `{Protobuf} `{ClientProtobuf} `{!WireLaws} `{Clock} (mc : ManagerConf).
Let server : Stream Link := link_stream mc.
#[local] Existing Instance server.

(** Nothing is on its way to the client, and nothing else happens. *)
Definition idle (g : Mgr) (sid : Sid) (c : Client Link) : Prop := cl_net c = mkLink g sid [] [] /\ cl_in c = [].
(** The client after it has read the clock [n] times and the manager has moved on. *)
Definition after_call (n : nat) (g : Mgr) (c : Client Link) : Client Link :=
  mkClient (mkLink g (lk_sid (cl_net c)) [] []) [] (n + cl_clock c) (cl_out c).
Definition request_name (prefix : string) (c : Client Link) : string := prefix +:+ "_" +:+ decimal (clock_reading (cl_clock c)).

Lemma idle_after n g g' sid c : idle g sid c -> idle g' sid (after_call n g' c).
Proof. intros [Hn _]. unfold after_call. by rewrite Hn. Qed.

Lemma decodable_all env : decodable env.
Proof. intros s Hs. by apply wire_Envelope. Qed.

(** The manager handles the envelope that is written; its replies are appended to what is on its way. *)
Lemma write_link_after g sid down c t rid b env bs g' :
  cl_net c = mkLink g sid down [] -> is_Some (g_sessions g !! sid) -> sends (clock_reading (cl_clock c)) t rid b env bs ->
  (handle_envelope mc sid env g).1 = g' ->
  writeEnvelope t rid b c =
  (mkClient (mkLink g' sid (down ++ frames (w_clock (g_world g')) (written_to sid g g')) []) (cl_in c) (S (cl_clock c)) (cl_out c), Done tt).
Proof.
  intros Hn Ho [E1 E2] Hg. unfold writeEnvelope, mustEnvelope.
  unfold mbind at 1, CM_bind at 1. unfold mbind at 1, CM_bind at 1. unfold time_Now. rewrite E1. cbn [mret CM_ret].
  rewrite E2. unfold mbind, CM_bind, pure, mret, CM_ret, net. cbn [cl_net cl_in cl_clock cl_out]. rewrite Hn.
  cbn. unfold link_write, others. cbn [lk_sched head default tail fold_left lk_mgr lk_sid lk_down].
  unfold is_open. cbn [lk_mgr lk_sid]. rewrite bool_decide_true by done. unfold serve.
  pose proof (ReadEnvelope_written env bs [] (decodable_all env) E2) as Er. rewrite app_nil_r in Er. rewrite Er.
  cbn [snd lk_sid]. unfold advance. cbn [lk_mgr lk_sid lk_down lk_sched]. by rewrite Hg.
Qed.
Lemma write_link g sid c t rid b env bs g' :
  idle g sid c -> is_Some (g_sessions g !! sid) -> sends (clock_reading (cl_clock c)) t rid b env bs ->
  (handle_envelope mc sid env g).1 = g' ->
  writeEnvelope t rid b c =
  (mkClient (mkLink g' sid (frames (w_clock (g_world g')) (written_to sid g g')) []) [] (S (cl_clock c)) (cl_out c), Done tt).
Proof. intros [Hn Hi] Ho Hs Hg. rewrite (write_link_after g sid [] c _ _ _ _ _ g' Hn Ho Hs Hg). by rewrite Hi. Qed.

(** The first of the envelopes received is read, the others stay. *)
Lemma read_link_first g sid inb down k out ns t rid b rest env bs want :
  sends ns t rid b env bs -> inb ++ down = frame ns (mkSent sid t rid b) ++ rest ->
  readEnvelopeExpect want (mkClient (mkLink g sid down []) inb k out) =
  (mkClient (mkLink g sid [] []) rest k out, if t =? want then Done env else Fail (unexpected t want)).
Proof.
  intros Hs Hbuf. pose proof (sends_fields _ _ _ _ _ _ Hs) as (_&Ht&_). destruct Hs as [E1 E2].
  unfold readEnvelopeExpect, receive. unfold mbind, CM_bind. cbn [cl_net StreamRead link_stream server].
  unfold link_read, others. cbn [lk_sched head default tail fold_left lk_mgr lk_sid lk_down cl_in]. rewrite Hbuf.
  unfold frame at 1. cbn [sent_type sent_request sent_body]. rewrite E1, E2.
  rewrite (ReadEnvelope_written env bs _ (decodable_all env) E2). rewrite Ht.
  by destruct (t =? want).
Qed.
Lemma read_link g sid k out ns t rid b env bs want :
  sends ns t rid b env bs ->
  readEnvelopeExpect want (mkClient (mkLink g sid (frames ns [mkSent sid t rid b]) []) [] k out) =
  (mkClient (mkLink g sid [] []) [] k out,
   if t =? want then Done env else Fail (unexpected t want)).
Proof. intros Hs. by apply (read_link_first g sid [] _ k out ns t rid b [] env bs want). Qed.

(** A request and its reply: one reply of the session manager is what the call returns. *)
Lemma request_link {A} g sid c t prefix b want what (unm : string -> Err + A) env bs g' rt rid rb renv rbs :
  idle g sid c -> is_Some (g_sessions g !! sid) ->
  sends (clock_reading (S (cl_clock c))) t (request_name prefix c) b env bs ->
  (handle_envelope mc sid env g).1 = g' -> written_to sid g g' = [mkSent sid rt rid rb] ->
  sends (w_clock (g_world g')) rt rid rb renv rbs ->
  request t prefix b want what unm c =
  (after_call 2 g' c,
   if rt =? want then match unm (Envelope_Body renv) with
                      | inr a => Done a | inl e => Fail (wrap ("unmarshal " +:+ what) e) end
   else Fail (unexpected rt want)).
Proof.
  intros Hid Ho Hs Hg Hw Hr. unfold request.
  set (c1 := mkClient (cl_net c) (cl_in c) (S (cl_clock c)) (cl_out c)).
  rewrite (bind_done _ _ c c1 (request_name prefix c)) by done.
  rewrite (bind_done _ _ c1 _ tt (write_link g sid c1 _ _ _ _ _ g' Hid Ho Hs Hg)).
  rewrite Hw. unfold mbind, CM_bind. rewrite (read_link g' sid _ _ _ _ _ _ _ _ want Hr).
  destruct Hid as [Hn _]. unfold after_call. rewrite Hn. cbn [lk_sid cl_clock cl_out c1].
  destruct (rt =? want); [|done]. unfold on_err, pure, fail, mret, CM_ret. by destruct (unm _).
Qed.

(** ** The replies of the manager *)
Definition append_sent (s : Sent) (g : Mgr) : Mgr := set_sent (fun l => l ++ [s]) g.

Lemma write_eq sid t rid b g : sendable (w_clock (g_world g)) t rid b -> sid ∉ g_broken g ->
  write sid t rid b g = (append_sent (mkSent sid t rid b) g, inr tt).
Proof.
  intros (env&bs&E1&E2) Hb. unfold write, lift, time_now, pure_check, gets, mbind, SE_bind. simpl.
  assert (set_world (g_world g) g = g) as -> by (by destruct g). rewrite E1. simpl. rewrite E2. simpl.
  by rewrite bool_decide_false.
Qed.
Lemma handle_reply sid env g t b w :
  dispatch mc sid env g = reply sid env t b (set_world w g) -> sid ∉ g_broken g ->
  sendable (w_clock w) t (Envelope_RequestId env) b ->
  (handle_envelope mc sid env g).1 = append_sent (mkSent sid t (Envelope_RequestId env) b) (set_world w g).
Proof.
  intros E Hb Hs. unfold handle_envelope, try, mbind, SE_bind. rewrite E. unfold reply. by rewrite write_eq.
Qed.
Definition error_body (text : string) : Body := BErrorMsg (mkErrorMsg 400 text).
Lemma handle_error sid env g e w :
  dispatch mc sid env g = (set_world w g, inl e) -> sid ∉ g_broken g ->
  sendable (w_clock w) MsgType_ERROR (Envelope_RequestId env) (error_body (error_text e)) ->
  (handle_envelope mc sid env g).1 =
  append_sent (mkSent sid MsgType_ERROR (Envelope_RequestId env) (error_body (error_text e))) (set_world w g).
Proof.
  intros E Hb Hs. unfold handle_envelope, try, mbind, SE_bind. rewrite E. unfold writeError. by rewrite write_eq.
Qed.
Lemma written_append sid t rid b g w :
  written_to sid g (append_sent (mkSent sid t rid b) (set_world w g)) = [mkSent sid t rid b].
Proof. unfold written_to. cbn. rewrite drop_app_length. cbn. by rewrite decide_True. Qed.

(** ** Requests with a counterpart in the HTTP API *)
Section calls.
Context (g : Mgr) (sid : Sid) (user : User) (c : Client Link).
Context (Hidle : idle g sid c) (Huser : session_user sid g = Some user) (Hopen : sid ∉ g_broken g).

Lemma session_present : is_Some (g_sessions g !! sid).
Proof. unfold session_user in Huser. destruct (g_sessions g !! sid); [by eexists|done]. Qed.

(** The outcome of a request function for the outcome of the API call: the
    manager has done what the call does and has written one reply. *)
Definition as_call {R A} (n : nat) (rid : string) (want : Z) (rbody : R -> Body) (call : M R) (resp : R -> A)
  (f : CM Link A) : Prop :=
  match call (g_world g) with
  | (w, inr r) => sendable (w_clock w) want rid (rbody r) ->
      f c = (after_call n (append_sent (mkSent sid want rid (rbody r)) (set_world w g)) c, Done (resp r))
  | (w, inl e) => sendable (w_clock w) MsgType_ERROR rid (error_body (error_text e)) ->
      f c = (after_call n (append_sent (mkSent sid MsgType_ERROR rid (error_body (error_text e))) (set_world w g)) c,
             Fail (unexpected MsgType_ERROR want))
  end.

Lemma request_as_call {R A} t prefix b want what (unm : string -> Err + A) (bodyA : A -> Body) (rbody : R -> Body) call resp :
  sendable (clock_reading (S (cl_clock c))) t (request_name prefix c) b ->
  (forall env, Marshal b = inr (Envelope_Body env) -> api_twin mc env user Background t R want rbody call) ->
  decodes bodyA unm -> (forall r, rbody r = bodyA (resp r)) -> want <> MsgType_ERROR ->
  as_call 2 (request_name prefix c) want rbody call resp (request t prefix b want what unm).
Proof.
  intros (env&bs&Hs) Htwin Hdec Hresp Hne. pose proof (sends_fields _ _ _ _ _ _ Hs) as (Hm&Ht&Hrid).
  destruct (twin_answers _ sid _ _ _ _ _ _ _ (Htwin env Hm)) as (h & Hh & N1 & N2 & N3 & Ha).
  pose proof (dispatch_handler mc sid env user g t h Huser Ht Hh N1 N2 N3) as Ed.
  specialize (Ha g). unfold as_call. destruct (call (g_world g)) as [w [e|r]].
  - destruct Ha as (e'&Ha&He). intros (renv&rbs&Hr). rewrite Ha in Ed. rewrite <- He in *.
    pose proof (handle_error _ _ _ _ _ Ed Hopen) as Hg. rewrite Hrid in Hg. specialize (Hg (ex_intro _ _ (ex_intro _ _ Hr))).
    rewrite (request_link g sid c _ _ _ want _ _ _ _ _ _ _ _ _ _ Hidle session_present Hs Hg (written_append _ _ _ _ _ _) Hr).
    replace (MsgType_ERROR =? want) with false by lia. done.
  - intros (renv&rbs&Hr). rewrite Ha in Ed.
    pose proof (handle_reply _ _ _ _ _ _ Ed Hopen) as Hg. rewrite Hrid in Hg. specialize (Hg (ex_intro _ _ (ex_intro _ _ Hr))).
    rewrite (request_link g sid c _ _ _ want _ _ _ _ _ _ _ _ _ _ Hidle session_present Hs Hg (written_append _ _ _ _ _ _) Hr).
    rewrite Z.eqb_refl. pose proof (sends_fields _ _ _ _ _ _ Hr) as (Hrm&_). rewrite Hresp in Hrm.
    by rewrite (Hdec _ _ Hrm).
Qed.
(** What a computation returns when it returns. *)
Definition returns {R} (Q : R -> Prop) (call : M R) : Prop := forall w w' r, call w = (w', inr r) -> Q r.
Lemma returns_bind {A R} (Q : R -> Prop) (m : M A) (k : A -> M R) : (forall a, returns Q (k a)) -> returns Q (m ≫= k).
Proof. intros Hk w w' r E. unfold mbind, SE_bind in E. destruct (m w) as [w1 [e|a]]; [done|]. by eapply Hk. Qed.
Lemma returns_ret {R} (Q : R -> Prop) r : Q r -> returns Q (mret r).
Proof. intros Hr w w' r' E. by injection E as _ <-. Qed.

Lemma as_call_accepted {R A} n rid want rbody (call : M R) (resp : R -> A) f ok what :
  returns (fun r => ok (resp r) = true) call -> as_call n rid want rbody call resp f ->
  as_call n rid want rbody call resp (accepted ok what f).
Proof.
  intros Hok. unfold as_call. destruct (call (g_world g)) as [w [e|r]] eqn:E; intros Hf Hs; specialize (Hf Hs).
  - by apply accepted_fail.
  - apply accepted_done; [done|]. by eapply Hok.
Qed.
Lemma as_call_map {R A B} n rid want rbody (call : M R) (resp : R -> A) f (h : A -> B) :
  as_call n rid want rbody call resp f -> as_call n rid want rbody call (fun r => h (resp r)) (x ← f; mret (h x)).
Proof.
  unfold as_call. destruct (call (g_world g)) as [w [e|r]]; intros Hf Hs; specialize (Hf Hs).
  - by apply bind_failed.
  - by rewrite (bind_done _ _ _ _ _ Hf).
Qed.
Lemma as_call_ext {R A} n rid want rbody (call : M R) (resp resp' : R -> A) f :
  (forall r, resp r = resp' r) -> as_call n rid want rbody call resp f -> as_call n rid want rbody call resp' f.
Proof. intros E. unfold as_call. destruct (call (g_world g)) as [w [e|r]]; [done|]. by rewrite E. Qed.
End calls.

(** The request functions of the clients: the request each writes, the type
    of the reply it wants, and the API call for the same user with what the
    function makes of its result. *)
Section rpc.
Context (user : User).
Let uid := UserDBID user.
Let peer := PeerID user.
Import admin_client.
Inductive rpc : Z -> string -> Body -> Z -> forall R A : Type, (R -> Body) -> M R -> (R -> A) -> CM Link A -> Prop :=
| rpc_listSpaces : rpc MsgType_LIST_SPACES_REQ "list-spaces" (BListSpacesReq mkListSpacesReq) MsgType_LIST_SPACES_RESP
    _ _ (fun l => BListSpacesResp (mkListSpacesResp l)) (ListSpacesForAPI mc uid peer) (fun l => l) listSpaces
| rpc_listChannels s : rpc MsgType_LIST_CHANNELS_REQ "list-channels" (BListChannelsReq (mkListChannelsReq s))
    MsgType_LIST_CHANNELS_RESP _ _ (fun l => BListChannelsResp (mkListChannelsResp s l)) (ListChannelsForAPI uid s)
    (fun l => l) (listChannels s)
| rpc_listSpaceMembers s a l : rpc MsgType_LIST_SPACE_MEMBERS_REQ "list-members"
    (BListSpaceMembersReq (mkListSpaceMembersReq s a l)) MsgType_LIST_SPACE_MEMBERS_RESP _ _ BListSpaceMembersResp
    (ListSpaceMembersForAPI uid s a l) id (listSpaceMembers s a l)
| rpc_createSpaceRPC n d v b : rpc MsgType_CREATE_SPACE_REQ "create-space" (BCreateSpaceReq (mkCreateSpaceReq n d v b))
    MsgType_CREATE_SPACE_RESP _ _ BCreateSpaceResp
    (CreateSpaceForAPI mc Background uid peer (mkCreateSpaceReq n d v b)) id (createSpaceRPC n d v b)
| rpc_getSpacePermissions s : rpc MsgType_GET_CREATE_GROUP_PERMISSIONS_REQ "space-perms"
    (BGetCreateGroupPermissionsReq (mkGetCreateGroupPermissionsReq s)) MsgType_GET_CREATE_GROUP_PERMISSIONS_RESP
    _ _ BGetCreateGroupPermissionsResp (GetCreateGroupPermissionsForAPI mc uid peer s) id (Client.getSpacePermissions s)
| rpc_admin_getSpacePermissions s : rpc MsgType_GET_CREATE_GROUP_PERMISSIONS_REQ "space-perms"
    (BGetCreateGroupPermissionsReq (mkGetCreateGroupPermissionsReq s)) MsgType_GET_CREATE_GROUP_PERMISSIONS_RESP
    _ _ BGetCreateGroupPermissionsResp (GetCreateGroupPermissionsForAPI mc uid peer s) id (getSpacePermissions s)
| rpc_joinSpace s : rpc MsgType_JOIN_SPACE_REQ "join" (BJoinSpaceReq (mkJoinSpaceReq s)) MsgType_JOIN_SPACE_RESP
    _ _ (fun x => BJoinSpaceResp (mkJoinSpaceResp true s (Some x) "joined")) (JoinSpaceForAPI mc Background uid peer s)
    (fun x => mkJoinSpaceResp true s (Some x) "joined") (joinSpace s)
| rpc_setMemberRole s t r : rpc MsgType_ADMIN_SET_SPACE_MEMBER_ROLE_REQ "set-role"
    (BAdminSetSpaceMemberRoleReq (mkAdminSetSpaceMemberRoleReq s t r)) MsgType_ADMIN_SET_SPACE_MEMBER_ROLE_RESP
    _ _ BAdminSetSpaceMemberRoleResp (AdminSetSpaceMemberRoleForAPI Background uid s t r) (fun _ => tt) (setMemberRole s t r)
| rpc_setSpaceAllowChannelCreation s b : rpc MsgType_ADMIN_SET_SPACE_CHANNEL_CREATION_REQ "set-create"
    (BAdminSetSpaceChannelCreationReq (mkAdminSetSpaceChannelCreationReq s b)) MsgType_ADMIN_SET_SPACE_CHANNEL_CREATION_RESP
    _ _ BAdminSetSpaceChannelCreationResp (AdminSetSpaceChannelCreationForAPI Background uid s b) (fun _ => tt)
    (setSpaceAllowChannelCreation s b)
| rpc_setGroupAutoDelete ch n : rpc MsgType_ADMIN_SET_GROUP_AUTO_DELETE_REQ "group-auto-delete"
    (BAdminSetGroupAutoDeleteReq (mkAdminSetGroupAutoDeleteReq ch n)) MsgType_ADMIN_SET_GROUP_AUTO_DELETE_RESP
    _ _ BAdminSetGroupAutoDeleteResp (AdminSetGroupAutoDeleteForAPI Background uid ch n) id (setGroupAutoDelete ch n)
| rpc_inviteSpaceMember s t : rpc MsgType_INVITE_SPACE_MEMBER_REQ "invite"
    (BInviteSpaceMemberReq (mkInviteSpaceMemberReq s t)) MsgType_INVITE_SPACE_MEMBER_RESP _ _ BInviteSpaceMemberResp
    (InviteSpaceMemberForAPI mc Background uid peer s t) id (inviteSpaceMember s t)
| rpc_kickSpaceMember s t : rpc MsgType_KICK_SPACE_MEMBER_REQ "kick"
    (BKickSpaceMemberReq (mkKickSpaceMemberReq s t)) MsgType_KICK_SPACE_MEMBER_RESP _ _ BKickSpaceMemberResp
    (KickSpaceMemberForAPI mc Background uid peer s t) id (kickSpaceMember s t)
| rpc_banSpaceMember s t : rpc MsgType_BAN_SPACE_MEMBER_REQ "ban"
    (BBanSpaceMemberReq (mkBanSpaceMemberReq s t)) MsgType_BAN_SPACE_MEMBER_RESP _ _ BBanSpaceMemberResp
    (BanSpaceMemberForAPI mc Background uid peer s t) id (banSpaceMember s t)
| rpc_unbanSpaceMember s t : rpc MsgType_UNBAN_SPACE_MEMBER_REQ "unban"
    (BUnbanSpaceMemberReq (mkUnbanSpaceMemberReq s t)) MsgType_UNBAN_SPACE_MEMBER_RESP _ _ BUnbanSpaceMemberResp
    (UnbanSpaceMemberForAPI mc Background uid peer s t) id (unbanSpaceMember s t)
| rpc_createGroupChannel s n d : rpc MsgType_CREATE_GROUP_REQ "create-group"
    (BCreateGroupReq (mkCreateGroupReq s n d Visibility_PUBLIC 0)) MsgType_CREATE_GROUP_RESP _ _ BCreateGroupResp
    (CreateGroupForAPI mc Background uid peer (mkCreateGroupReq s n d Visibility_PUBLIC 0)) id (createGroupChannel s n d)
| rpc_syncChannel ch a l : rpc MsgType_SYNC_CHANNEL_REQ "sync" (BSyncChannelReq (mkSyncChannelReq ch a l))
    MsgType_SYNC_CHANNEL_RESP _ _ (fun '(m, next, more) => BSyncChannelResp (mkSyncChannelResp ch m next more))
    (SyncChannelForAPI mc uid ch a l) (fun x => x) (syncChannel ch a l).
End rpc.

(** The reply of a synchronisation and what the function makes of it. *)
Definition sync_resp (ch : Z) (r : list MessageEvent * Z * bool) : SyncChannelResp :=
  let '(m, next, more) := r in mkSyncChannelResp ch m next more.
Definition sync_result (r : SyncChannelResp) : list MessageEvent * Z * bool :=
  (SyncChannelResp_Messages r, SyncChannelResp_NextAfterSeq r, SyncChannelResp_HasMore r).
Ltac returns_ok := repeat (apply returns_bind; intros ?; cbv beta zeta); apply returns_ret; reflexivity.

Tactic Notation "the_request" uconstr(law) uconstr(twin) :=
  eapply request_as_call; [eassumption|eassumption|eassumption|eassumption|refine twin|refine law|first [by intros ?|by intros [[]]]|discriminate].

Lemma rpc_as_call g sid user c t prefix b want R A (rbody : R -> Body) call (resp : R -> A) f :
  rpc user t prefix b want R A rbody call resp f ->
  idle g sid c -> session_user sid g = Some user -> sid ∉ g_broken g ->
  sendable (clock_reading (S (cl_clock c))) t (request_name prefix c) b ->
  as_call g sid c 2 (request_name prefix c) want rbody call resp f.
Proof.
  intros Hrpc Hid Hu Hb Hs.
  destruct Hrpc.
  - apply (as_call_map g sid c 2 _ _ _ _ mkListSpacesResp _ ListSpacesResp_Spaces).
    the_request wire_ListSpacesResp (fun env _ => twin_LIST_SPACES mc env user Background).
  - apply (as_call_map g sid c 2 _ _ _ _ (mkListChannelsResp s) _ ListChannelsResp_Channels).
    the_request wire_ListChannelsResp (fun env Hm => twin_LIST_CHANNELS mc env user Background _ (wire_ListChannelsReq _ _ Hm)).
  - the_request wire_ListSpaceMembersResp (fun env Hm => twin_LIST_SPACE_MEMBERS mc env user Background _ (wire_ListSpaceMembersReq _ _ Hm)).
  - apply as_call_accepted; [returns_ok|]. the_request wire_CreateSpaceResp (fun env Hm => twin_CREATE_SPACE mc env user Background _ (wire_CreateSpaceReq _ _ Hm)).
  - apply as_call_accepted; [returns_ok|]. the_request wire_GetCreateGroupPermissionsResp (fun env Hm => twin_GET_CREATE_GROUP_PERMISSIONS mc env user Background _ (wire_GetCreateGroupPermissionsReq _ _ Hm)).
  - apply as_call_accepted; [returns_ok|]. the_request wire_GetCreateGroupPermissionsResp (fun env Hm => twin_GET_CREATE_GROUP_PERMISSIONS mc env user Background _ (wire_GetCreateGroupPermissionsReq _ _ Hm)).
  - apply as_call_accepted; [by intros ?|]. the_request wire_JoinSpaceResp (fun env Hm => twin_JOIN_SPACE mc env user Background _ (wire_JoinSpaceReq _ _ Hm)).
  - apply (as_call_map g sid c 2 _ _ _ _ id _ (fun _ => tt)). apply as_call_accepted; [returns_ok|].
    the_request wire_AdminSetSpaceMemberRoleResp (fun env Hm => twin_ADMIN_SET_SPACE_MEMBER_ROLE mc env user Background _ (wire_AdminSetSpaceMemberRoleReq _ _ Hm)).
  - apply (as_call_map g sid c 2 _ _ _ _ id _ (fun _ => tt)). apply as_call_accepted; [returns_ok|].
    the_request wire_AdminSetSpaceChannelCreationResp (fun env Hm => twin_ADMIN_SET_SPACE_CHANNEL_CREATION mc env user Background _ (wire_AdminSetSpaceChannelCreationReq _ _ Hm)).
  - apply as_call_accepted; [returns_ok|]. the_request wire_AdminSetGroupAutoDeleteResp (fun env Hm => twin_ADMIN_SET_GROUP_AUTO_DELETE mc env user Background _ (wire_AdminSetGroupAutoDeleteReq _ _ Hm)).
  - apply as_call_accepted; [returns_ok|]. the_request wire_InviteSpaceMemberResp (fun env Hm => twin_INVITE_SPACE_MEMBER mc env user Background _ (wire_InviteSpaceMemberReq _ _ Hm)).
  - apply as_call_accepted; [returns_ok|]. the_request wire_KickSpaceMemberResp (fun env Hm => twin_KICK_SPACE_MEMBER mc env user Background _ (wire_KickSpaceMemberReq _ _ Hm)).
  - apply as_call_accepted; [returns_ok|]. the_request wire_BanSpaceMemberResp (fun env Hm => twin_BAN_SPACE_MEMBER mc env user Background _ (wire_BanSpaceMemberReq _ _ Hm)).
  - apply as_call_accepted; [returns_ok|]. the_request wire_UnbanSpaceMemberResp (fun env Hm => twin_UNBAN_SPACE_MEMBER mc env user Background _ (wire_UnbanSpaceMemberReq _ _ Hm)).
  - apply as_call_accepted; [returns_ok|]. the_request wire_CreateGroupResp (fun env Hm => twin_CREATE_GROUP mc env user Background _ (wire_CreateGroupReq _ _ Hm)).
  - apply (as_call_ext g sid c 2 _ _ _ _ (fun r => sync_result (sync_resp ch r))); [by intros [[]]|].
    apply (as_call_map g sid c 2 _ _ _ _ (sync_resp ch) _ sync_result).
    the_request wire_SyncChannelResp (fun env Hm => twin_SYNC_CHANNEL mc env user Background _ (wire_SyncChannelReq _ _ Hm)).
Qed.

(** C9: A client's call is the API's call.  For each of the sixteen request
    functions of the two clients that the HTTP API serves too: over a
    session that acts for a user, with nothing else going on, the function
    returns exactly what the API call for that user returns, and leaves the
    database and the files as that call leaves them; when the call fails,
    the function reports an unexpected ERROR envelope.  Whatever the
    function returns, one request was written and one reply was read, so
    the next call starts from an empty stream again. *)
Theorem client_calls_are_api_calls g sid user c t prefix b want R A (rbody : R -> Body) call (resp : R -> A) f :
  rpc user t prefix b want R A rbody call resp f ->
  idle g sid c -> session_user sid g = Some user -> sid ∉ g_broken g ->
  sendable (clock_reading (S (cl_clock c))) t (request_name prefix c) b ->
  match call (g_world g) with
  | (w, inr r) => sendable (w_clock w) want (request_name prefix c) (rbody r) ->
      f c = (after_call 2 (append_sent (mkSent sid want (request_name prefix c) (rbody r)) (set_world w g)) c, Done (resp r))
  | (w, inl e) => sendable (w_clock w) MsgType_ERROR (request_name prefix c) (error_body (error_text e)) ->
      f c = (after_call 2 (append_sent (mkSent sid MsgType_ERROR (request_name prefix c) (error_body (error_text e))) (set_world w g)) c,
             Fail (unexpected MsgType_ERROR want))
  end.
Proof. apply rpc_as_call. Qed.
End link_thms.

(** ** Witness: the admin of a space kicks a member *)
Definition kicking : Client Link := client_of busy 1 [].
Lemma client_calls_are_api_calls_witness : exists c', admin_client.kickSpaceMember 1 bob_id kicking = (c', Done kick_result).
Proof.
  assert (session_user 1 busy = Some kick_user) as Hu by (vm_compute; reflexivity).
  assert (1%positive ∉ g_broken busy) as Hb by (apply (bool_decide_unpack _); vm_compute; exact I).
  assert (sendable (clock_reading 1) MsgType_KICK_SPACE_MEMBER_REQ (request_name "kick" kicking)
    (BKickSpaceMemberReq (mkKickSpaceMemberReq 1 bob_id))) as Hs by encoded.
  assert (idle busy 1 kicking) as Hid by (split; reflexivity).
  pose proof (client_calls_are_api_calls demo_mc busy 1 kick_user kicking _ _ _ _ _ _ _ _ _ _
    (rpc_kickSpaceMember demo_mc kick_user 1 bob_id)) as Hc0.
  pose proof (Hc0 Hid) as Hc1. pose proof (Hc1 Hu Hb) as Hc2. pose proof (Hc2 Hs) as Hc.
  change (UserDBID kick_user) with 1 in Hc. change (PeerID kick_user) with "alice"%string in Hc.
  assert ((KickSpaceMemberForAPI demo_mc Background 1 "alice" 1 bob_id (g_world busy)).2 = inr kick_result /\
    w_clock (KickSpaceMemberForAPI demo_mc Background 1 "alice" 1 bob_id (g_world busy)).1 = demo_clock) as [Er Ew]
    by (vm_compute; split; reflexivity).
  destruct (KickSpaceMemberForAPI demo_mc Background 1 "alice" 1 bob_id (g_world busy)) as [w r].
  cbn [fst snd] in *. subst r. rewrite Ew in Hc. eexists. apply Hc. encoded.
Defined.
