(* ===== verification/Handshake.v ===== *)
(** * The handshake of a client with the server

    [authenticate] of the clients run over the link against HELLO and
    AUTH_PROVE of the session manager: the holder of the key gets in. *)
From S2P Require Import Prelude Go Encoding Schema Config Store SpaceRepo UserRepo Proto Codec CodecThms CursorNonceRepo Auth Media.
From S2P Require Import Messaging DbInv Session Manager Dispatch System Demo AuthThms SessionThms Node Client Link ClientThms.
Import sessionv1.

Section handshake.
Context `{Env} `{Libp2p} `{MediaLib} `{Protobuf} `{ClientProtobuf} `{!WireLaws} `{Clock} `{Keys} `{!Signer} (mc : ManagerConf).
Let server : Stream Link := link_stream mc.
#[local] Existing Instance server.
Let cfg := mc_cfg mc.

Lemma written_last sid s g g' : sent_to s = sid -> g_sent g' = g_sent g -> written_to sid g (append_sent s g') = [s].
Proof. intros Hs E. unfold written_to. cbn. rewrite E, drop_app_length. cbn. by rewrite decide_True. Qed.

(** ** HELLO *)
(** The challenge in the world of the node, and the message that carries it. *)
Definition challenge_of (client : string) (w : World) : Challenge := issued cfg client (nodePeerID mc) w.
Definition challenge_msg (ch : Challenge) : AuthChallenge :=
  mkAuthChallenge (ch_NodePeerID ch) (ch_Nonce ch) (u64 (ch_IssuedAt ch / ns_per_ms)) (u64 (ch_ExpiresAt ch / ns_per_ms))
    "meshserver-session".

(** The nonce of the challenge is stored and unused. *)
Definition stored_nonce (client : string) (w w1 : World) : Prop :=
  exists n, n ∈ rows (nonces (w_db w1)) /\ n_nonce_hash n = nonceHash (rand_read 32 (w_draws w)) /\
    n_client_peer_id n = client /\ n_node_peer_id n = nodePeerID mc /\ n_used_at n = None /\
    n_expires_at n = datetime3 (ch_ExpiresAt (challenge_of client w)).

Lemma hello_handled g sid env h :
  Envelope_MsgType env = MsgType_HELLO -> UnmarshalHello (Envelope_Body env) = inr h -> sid ∉ g_broken g ->
  let client := Hello_ClientPeerId h in let w := g_world g in let ch := challenge_of client w in
  w_faults w = [] -> next_id (nonces (w_db w)) <= max_u64 ->
  (forall n, n ∈ rows (nonces (w_db w)) -> sort_key (n_nonce_hash n) <> sort_key (nonceHash (rand_read 32 (w_draws w)))) ->
  sendable (w_clock w) MsgType_AUTH_CHALLENGE (Envelope_RequestId env) (BAuthChallenge (challenge_msg ch)) ->
  exists w1, (IssueChallenge cfg client (nodePeerID mc) w).1 = w1 /\ w_faults w1 = [] /\ w_clock w1 = w_clock w /\ w_draws w1 = S (w_draws w) /\
    users (w_db w1) = users (w_db w) /\ stored_nonce client w w1 /\
    (handle_envelope mc sid env g).1 =
    append_sent (mkSent sid MsgType_AUTH_CHALLENGE (Envelope_RequestId env) (BAuthChallenge (challenge_msg ch)))
      (update_session sid (with_challenge ch) (set_world w1 (update_session sid (with_hello h) g))).
Proof.
  intros Ht Hh Hb client w ch Hf Hn Hfresh Hs.
  pose proof (IssueChallenge_ok cfg client (nodePeerID mc) w Hf Hn Hfresh) as Hi. unfold wp in Hi.
  destruct (IssueChallenge cfg client (nodePeerID mc) w) as [w1 r] eqn:Ei. cbn [fst snd] in Hi.
  destruct Hi as (->&Hf1&Hc1&Hd1&Hu1&Hnonce). exists w1. split_and!; [done..|].
  set (g1 := update_session sid (with_challenge ch) (set_world w1 (update_session sid (with_hello h) g))).
  unfold handle_envelope, try, dispatch. rewrite Ht. unfold mbind at 1, SE_bind at 1. cbn [Z.eqb Pos.eqb MsgType_HELLO].
  unfold on_HELLO, unmarshal. rewrite Hh. unfold mbind, SE_bind, pure_check, mret, SE_ret, modify, lift. cbn [g_world].
  change (g_world (update_session sid (with_hello h) g)) with w. fold client cfg. rewrite Ei.
  fold (challenge_of client w). fold ch. fold g1. unfold reply.
  change (mkAuthChallenge _ _ _ _ _) with (challenge_msg ch). rewrite (write_eq sid _ _ _ g1); [done| |done].
  cbn. rewrite Hc1. exact Hs.
Qed.

(** ** AUTH_PROVE *)
(** Without faults the directory of a user can be read. *)
Definition fine {A} (m : M A) : Prop := forall w, w_faults w = [] -> wp m w (fun w' r => w_faults w' = [] /\ exists a, r = inr a).
Lemma fine_query {A} (q : DB -> A) : fine (query q).
Proof. intros w Hf. unfold wp, query, sql, fault. rewrite Hf. simpl. rewrite Hf. eauto. Qed.
Lemma fine_map_err {A} f (m : M A) : fine m -> fine (map_err f m).
Proof. intros Hm w Hf. apply wp_map_err. eapply wp_mono; [by apply Hm|]. intros w' r [? [a ->]]. eauto. Qed.
Lemma fine_bind {A B} (m : M A) (k : A -> M B) : fine m -> (forall a, fine (k a)) -> fine (m ≫= k).
Proof. intros Hm Hk w Hf. apply wp_bind. eapply wp_mono; [by apply Hm|]. intros w' r [Hf' [a ->]]. by apply Hk. Qed.
Lemma fine_ret {A} (a : A) : fine (mret a).
Proof. intros w Hf. apply wp_ret. eauto. Qed.
Lemma fine_summary item uid peer : fine (spaceSummaryForViewer mc item uid peer).
Proof.
  apply fine_bind; [|intros; apply fine_ret]. unfold effectiveAllowChannelCreation.
  destruct (AllowChannelCreation item); [apply fine_ret|]. destruct (negb _); [apply fine_ret|].
  intros w Hf. apply wp_bind, wp_try. unfold GetMemberRole, wp, fetchOne, sql, fault. rewrite Hf. simpl.
  destruct (role_of _ _ _); simpl; rewrite Hf; eauto.
Qed.
Lemma fine_summaries items uid peer : fine (spaceSummariesForViewer mc items uid peer).
Proof.
  induction items as [|item items IH]; simpl; [apply fine_ret|].
  apply fine_bind; [apply fine_summary|]. intros. apply fine_bind; [apply IH|]. intros. apply fine_ret.
Qed.
Lemma fine_run {A} (m : M A) w : fine m -> w_faults w = [] -> exists w' a, m w = (w', inr a) /\ w_faults w' = [].
Proof. intros Hm Hf. pose proof (Hm w Hf) as Hw. unfold wp in Hw. destruct (m w) as [w' r]. simpl in Hw. destruct Hw as [? [a ->]]. eauto. Qed.

Lemma session_user_authed sid g s res w : g_sessions g !! sid = Some s ->
  session_user sid (update_session sid (with_auth res) (set_world w g)) = Some (res_User res).
Proof. intros Hs. unfold session_user, update_session. simpl. rewrite lookup_alter_eq, Hs. done. Qed.

(** The reply to a proof that is accepted, and the world it leaves. *)
Definition auth_reply (prove : AuthProve) (w : World) : option (AuthResult * World) :=
  match VerifyChallenge cfg (proof_of mc prove) w with
  | (w, inr res) =>
    let user := res_User res in
    match (servers ← ListSpaces (UserDBID user); spaceSummariesForViewer mc servers (UserDBID user) (PeerID user)) w with
    | (w, inr spaces) => Some (mkAuthResult true (res_SessionID res) (UserID user) (DisplayName user) (res_Message res) spaces, w)
    | _ => None
    end
  | _ => None
  end.

Lemma prove_handled g sid env prove s ch :
  Envelope_MsgType env = MsgType_AUTH_PROVE -> UnmarshalAuthProve (Envelope_Body env) = inr prove -> sid ∉ g_broken g ->
  g_sessions g !! sid = Some s -> issuedChallenge s = Some ch ->
  wp (VerifyChallenge cfg (proof_of mc prove)) (g_world g) (fun w' r => w_faults w' = [] /\ exists res, r = inr res) ->
  exists w1 res m g2, VerifyChallenge cfg (proof_of mc prove) (g_world g) = (w1, inr res) /\
    auth_reply prove (g_world g) = Some (m, g_world g2) /\
    AuthResult_Ok m = true /\ AuthResult_UserId m = UserID (res_User res) /\
    session_user sid g2 = Some (res_User res) /\ g_sent g2 = g_sent g /\
    (sendable (w_clock (g_world g2)) MsgType_AUTH_RESULT (Envelope_RequestId env) (BAuthResult m) ->
     (handle_envelope mc sid env g).1 = append_sent (mkSent sid MsgType_AUTH_RESULT (Envelope_RequestId env) (BAuthResult m)) g2).
Proof.
  intros Ht Hp Hb Hs Hch Hv. unfold wp in Hv.
  destruct (VerifyChallenge cfg (proof_of mc prove) (g_world g)) as [w1 r] eqn:Ev. simpl in Hv. destruct Hv as [Hf1 [res ->]].
  set (u := res_User res).
  destruct (fine_run (ListSpaces (UserDBID u)) w1 (fine_map_err _ _ (fine_query _)) Hf1) as (w2&servers&El&Hf2).
  destruct (fine_run _ w2 (fine_summaries servers (UserDBID u) (PeerID u)) Hf2) as (w3&spaces&Es&_).
  set (m := mkAuthResult true (res_SessionID res) (UserID u) (DisplayName u) (res_Message res) spaces).
  set (g2 := registerDirectUserSession sid (set_world w3 (set_world w2 (update_session sid (with_auth res) (set_world w1 g))))).
  assert (auth_view g2 = auth_view (update_session sid (with_auth res) (set_world w1 g))) as Hview.
  { unfold g2, registerDirectUserSession. by case_match. }
  assert (g_world g2 = w3) as Hw2 by (unfold g2, registerDirectUserSession; by case_match).
  exists w1, res, m, g2. split_and!; [done| |done|done| | |].
  - unfold auth_reply. rewrite Ev. cbv zeta. fold u. unfold mbind, SE_bind. by rewrite El, Es, Hw2.
  - rewrite <- (session_user_authed sid g s res w1 Hs). apply session_user_view. by rewrite Hview.
  - unfold g2, registerDirectUserSession. by case_match.
  - intros Hsend. unfold handle_envelope, try, dispatch. rewrite Ht. unfold mbind at 1, SE_bind at 1.
    cbn [Z.eqb Pos.eqb MsgType_HELLO MsgType_AUTH_PROVE]. unfold on_AUTH_PROVE, Authenticate, unmarshal. rewrite Hp.
    unfold mbind, SE_bind, pure_check, mret, SE_ret, modify, lift, gets, option_bind. rewrite Hs, Hch.
    fold (proof_of mc prove). fold cfg. rewrite Ev. cbn [res_User g_world set_world]. fold u.
    change (g_world (update_session sid (with_auth res) (set_world w1 g))) with w1. rewrite El. cbn [g_world set_world].
    rewrite Es. fold g2. unfold reply. fold m. rewrite (write_eq sid _ _ _ g2); [done|exact Hsend|].
    unfold g2, registerDirectUserSession. by case_match.
Qed.

(** ** The client's side *)
(** What the node needs to be able to issue a challenge and to create an
    account: no failing statements, room for rows, random values that are new. *)
Record ready (w : World) : Prop := {
  rd_faults : w_faults w = [];
  rd_clock : 0 <= w_clock w;
  rd_range : (w_clock w + ChallengeTTL cfg) / ns_per_ms <= 9223372036854775807;
  rd_ttl : 0 <= ChallengeTTL cfg;
  rd_nonces : next_id (nonces (w_db w)) <= max_u64;
  rd_users : next_id (users (w_db w)) <= max_u64;
  rd_nonce : forall n, n ∈ rows (nonces (w_db w)) ->
    sort_key (n_nonce_hash n) <> sort_key (nonceHash (rand_read 32 (w_draws w)));
  rd_user : forall u, u ∈ rows (users (w_db w)) ->
    sort_key (u_user_id u) <> sort_key ("u_" +:+ hex_encode (rand_read 10 (S (w_draws w)))) }.

(** The answer to a challenge message, and the text that is signed. *)
Definition signed_text (client : string) (m : AuthChallenge) : string :=
  BuildChallengePayload (Libp2pProtocolID cfg) client (AuthChallenge_NodePeerId m) (AuthChallenge_Nonce m)
    (i64 (AuthChallenge_IssuedAtMs m) * ns_per_ms) (i64 (AuthChallenge_ExpiresAtMs m) * ns_per_ms).
Definition answer_msg (client : string) (m : AuthChallenge) (sig pk : string) : AuthProve :=
  mkAuthProve client (AuthChallenge_Nonce m) (AuthChallenge_IssuedAtMs m) (AuthChallenge_ExpiresAtMs m) sig pk.

Lemma i64_u64 z : 0 <= z <= 9223372036854775807 -> i64 (u64 z) = z.
Proof. intros Hz. unfold i64. rewrite (u64_small z), u64_small; unfold max_u64; lia. Qed.

Lemma answer_verified client w w1 sig pk pub :
  ready w -> w_faults w1 = [] -> w_clock w1 = w_clock w -> w_draws w1 = S (w_draws w) ->
  users (w_db w1) = users (w_db w) -> stored_nonce client w w1 ->
  let m := challenge_msg (challenge_of client w) in
  UnmarshalPublicKey pk = inr pub -> IDFromPublicKey pub = inr client -> Verify pub (signed_text client m) sig = inr true ->
  wp (VerifyChallenge cfg (proof_of mc (answer_msg client m sig pk))) w1 (fun w' r => w_faults w' = [] /\ exists res, r = inr res).
Proof.
  intros [Hf Hc Hr Httl _ Hu _ Hfu] Hf1 Hc1 Hd1 Hu1 (n&Hn&En1&En2&En3&En4&En5) m Hk Hid Hsig.
  set (t := truncate_ms (w_clock w) * ns_per_ms).
  assert (0 <= truncate_ms (w_clock w)) as Ht0 by (apply Z.div_pos; [done|reflexivity]).
  assert (t <= w_clock w) as Ht1 by (unfold t, truncate_ms, ns_per_ms; Z.to_euclidean_division_equations; lia).
  assert ((t + ChallengeTTL cfg) / ns_per_ms <= 9223372036854775807) as Hr'.
  { etrans; [|exact Hr]. apply Z.div_le_mono; [reflexivity|lia]. }
  assert (truncate_ms (w_clock w) <= (t + ChallengeTTL cfg) / ns_per_ms) as Hle.
  { unfold t, ns_per_ms. rewrite Z.add_comm, Z.div_add by lia. pose proof (Z.div_pos (ChallengeTTL cfg) 1000000 Httl). lia. }
  eapply (VerifyChallenge_ok cfg _ w1 pub n); try done; cbn.
  - rewrite Hc1. fold t. replace (t / ns_per_ms) with (truncate_ms (w_clock w)) by (unfold t, ns_per_ms; by rewrite Z.div_mul).
    rewrite !i64_u64 by lia. fold t. split; [unfold minute, ns_per_s; lia|].
    unfold t at 1. apply Z.mul_le_mono_nonneg_r; [by unfold ns_per_ms|done].
  - unfold spendable. cbn. rewrite En1, En2, En3, En4, En5, Hc1. split_and!; try done. apply datetime3_le. cbn. fold t. lia.
  - by rewrite Hu1.
  - by rewrite Hu1, Hd1.
Qed.

(** A request and the reading of its one reply, as the handshake does them twice. *)
Lemma exchange {B} g sid c t rid b want env bs g' rid' rb renv rbs (k : Envelope -> CM Link B) :
  idle g sid c -> is_Some (g_sessions g !! sid) -> sends (clock_reading (cl_clock c)) t rid b env bs ->
  (handle_envelope mc sid env g).1 = g' -> written_to sid g g' = [mkSent sid want rid' rb] ->
  sends (w_clock (g_world g')) want rid' rb renv rbs ->
  (_ ← writeEnvelope t rid b; env ← readEnvelopeExpect want; k env) c = k renv (after_call 1 g' c).
Proof.
  intros Hid Ho Hs Hg Hw Hr. rewrite (bind_done _ _ c _ tt (write_link mc g sid c _ _ _ _ _ g' Hid Ho Hs Hg)).
  rewrite Hw. pose proof (read_link mc g' sid (S (cl_clock c)) (cl_out c) _ _ _ _ _ _ want Hr) as E.
  rewrite Z.eqb_refl in E. rewrite (bind_done _ _ _ _ _ E). destruct Hid as [Hn _]. unfold after_call. by rewrite Hn.
Qed.

(** The key [k] has the peer id [client] and signs the answer to the challenge. *)
Record key_of (k : PrivKey) (client : string) (chal : AuthChallenge) (pk : string) (pub : PubKey_t) (sig : string) : Prop := {
  ko_encoded : MarshalPublicKey k = inr pk;
  ko_decoded : UnmarshalPublicKey pk = inr pub;
  ko_id : IDFromPublicKey pub = inr client;
  ko_signed : Sign k (signed_text client chal) = inr sig;
  ko_verified : Verify pub (signed_text client chal) sig = inr true }.

(** The four messages fit into envelopes; [n] readings of the clock came before. *)
Definition reading (n : nat) (prefix : string) (i : nat) : string := (prefix +:+ "_" +:+ decimal (clock_reading (i + n)))%string.
Record messages_fit (g : Mgr) (n : nat) (client agent : string) (sig pk : string) : Prop := {
  mf_hello : sendable (clock_reading (1 + n)) MsgType_HELLO (reading n "hello" 0) (BHello (mkHello client agent "1.0.0"));
  mf_challenge : sendable (w_clock (g_world g)) MsgType_AUTH_CHALLENGE (reading n "hello" 0)
    (BAuthChallenge (challenge_msg (challenge_of client (g_world g))));
  mf_prove : sendable (clock_reading (3 + n)) MsgType_AUTH_PROVE (reading n "prove" 2)
    (BAuthProve (answer_msg client (challenge_msg (challenge_of client (g_world g))) sig pk));
  mf_result m w :
    auth_reply (answer_msg client (challenge_msg (challenge_of client (g_world g))) sig pk)
      (IssueChallenge cfg client (nodePeerID mc) (g_world g)).1 = Some (m, w) ->
    sendable (w_clock w) MsgType_AUTH_RESULT (reading n "prove" 2) (BAuthResult m) }.

(** The holder of the key gets in: a client that runs [authenticate] over a
    fresh stream, with the protocol id of the server and a key whose peer
    id it claims, against a server that can issue a challenge, gets an
    accepted result, the session then acts for the account of that peer
    id, and the result names that account. *)
Lemma authenticates g sid c s k client agent pk pub sig :
  idle g sid c -> g_sessions g !! sid = Some s -> sid ∉ g_broken g -> ready (g_world g) ->
  key_of k client (challenge_msg (challenge_of client (g_world g))) pk pub sig ->
  messages_fit g (cl_clock c) client agent sig pk ->
  exists res m g2, authenticate k client agent (Libp2pProtocolID cfg) c = (after_call 4 g2 c, Done m) /\
    session_user sid g2 = Some (res_User res) /\ sort_key (PeerID (res_User res)) = sort_key client /\
    AuthResult_Ok m = true /\ AuthResult_UserId m = UserID (res_User res).
Proof.
  intros Hid Hs Hb Hrd [Hpk Hpub Hpeer Hsign Hver] [(env1&bs1&S1) S2 (env3&bs3&S3) Hfit].
  set (named := reading (cl_clock c)) in *. set (chal := challenge_msg (challenge_of client (g_world g))) in *.
  pose proof (sends_fields _ _ _ _ _ _ S1) as (M1&T1&R1). pose proof (sends_fields _ _ _ _ _ _ S3) as (M3&T3&R3).
  rewrite <- R1 in S2.
  destruct (hello_handled g sid env1 _ T1 (wire_Hello _ _ M1) Hb (rd_faults _ Hrd) (rd_nonces _ Hrd) (rd_nonce _ Hrd) S2)
    as (w1&Hw1&Hf1&Hc1&Hd1&Hu1&Hn1&Hg1). cbn [Hello_ClientPeerId] in *. fold chal in Hg1. rewrite R1 in Hg1. set (g1 := append_sent _ _) in Hg1.
  destruct S2 as (env2&bs2&S2). rewrite R1, <- Hc1 in S2. pose proof (sends_fields _ _ _ _ _ _ S2) as (M2&_).
  pose proof (prove_handled g1 sid env3 _ (with_challenge (challenge_of client (g_world g)) (with_hello (mkHello client agent "1.0.0") s))
    (challenge_of client (g_world g)) T3 (wire_AuthProve _ _ M3)) as Hp.
  destruct Hp as (w2&res&m&g2&Hv&Hreply&Hok&Huid&Huser&Hsent&Hg2); [done| |done| |].
  { unfold g1. cbn. by rewrite !lookup_alter_eq, Hs. }
  { exact (answer_verified client (g_world g) w1 sig pk pub Hrd Hf1 Hc1 Hd1 Hu1 Hn1 Hpub Hpeer Hver). }
  destruct (VerifyChallenge_proved cfg (proof_of mc (answer_msg client chal sig pk)) (g_world g1) res) as [_ _ _ Hsk _]; [by rewrite Hv|]. cbn in Hsk.
  exists res, m, (append_sent (mkSent sid MsgType_AUTH_RESULT (named "prove"%string 2%nat) (BAuthResult m)) g2).
  split_and!; [|done..]. rewrite R3 in Hg2. cbn [Hello_ClientPeerId] in Hw1. rewrite Hw1 in Hfit.
  specialize (Hfit _ _ Hreply) as Hsend. specialize (Hg2 Hsend). destruct Hsend as (env4&bs4&S4). pose proof (sends_fields _ _ _ _ _ _ S4) as (M4&_).
  unfold authenticate. set (c0 := mkClient (cl_net c) (cl_in c) (S (cl_clock c)) (cl_out c)).
  rewrite (bind_done _ _ c c0 (named "hello"%string 0%nat)) by done.
  rewrite (exchange g sid c0 _ _ _ _ _ _ g1 _ _ _ _ _ Hid (ex_intro _ s Hs) S1 Hg1 (written_last _ _ _ _ eq_refl eq_refl) S2).
  rewrite (wire_AuthChallenge _ _ M2). set (c1 := after_call 1 g1 c0).
  change (on_err _ (pure (inr chal)) ≫= ?k) with (k chal). cbv beta zeta. fold cfg. fold (signed_text client chal). rewrite Hsign.
  change (on_err _ (pure (inr sig)) ≫= ?k) with (k sig). cbv beta. rewrite Hpk.
  change (on_err _ (pure (inr pk)) ≫= ?k) with (k pk). cbv beta. fold (answer_msg client chal sig pk).
  set (c2 := mkClient (cl_net c1) (cl_in c1) (S (cl_clock c1)) (cl_out c1)).
  rewrite (bind_done _ _ c1 c2 (named "prove"%string 2%nat)) by done.
  assert (idle g1 sid c2) as Hid2 by (destruct Hid as [E1 E2]; split; [cbn; by rewrite E1|done]).
  assert (is_Some (g_sessions g1 !! sid)) as Ho1 by (unfold g1; cbn; rewrite !lookup_alter_eq, Hs; by eexists).
  rewrite (exchange g1 sid c2 _ _ _ _ _ _ _ _ _ _ _ _ Hid2 Ho1 S3 Hg2 (written_last _ _ _ _ eq_refl Hsent) S4).
  rewrite (wire_AuthResult _ _ M4). change (on_err _ (pure (inr m)) ≫= ?k) with (k m). cbv beta. rewrite Hok.
  done.
Qed.
End handshake.
