(* ===== verification/ConnectThms.v ===== *)
(** * The clients from their start on

    [main] of the two programs under [examples/] run over a network that leads to the
    server: the key file, the host, the stream, the handshake and what is
    printed. *)
From S2P Require Import Prelude Go Encoding Schema Config Store SpaceRepo UserRepo Proto Codec CodecThms CursorNonceRepo Auth Media.
From S2P Require Import Messaging DbInv Session Manager Dispatch System Demo AuthThms SessionThms Node AppThms Client AdminClient Link.
From S2P Require Import ClientThms Handshake.
Import sessionv1.

Section connect.
Context `{Env} `{Libp2p} `{MediaLib} `{Protobuf} `{ClientProtobuf} `{!WireLaws} `{Clock} `{Network Link} `{!Signer} (mc : ManagerConf).
Let server : Stream Link := link_stream mc.
#[local] Existing Instance server.

(** The network leads to the server: with this key the host has the peer id
    [client], the peer [info] can be reached, and a stream of the protocol is
    a fresh session [sid] of the manager [g]. *)
Record leads_to (l : Link) (k : PrivKey) (client : string) (info : AddrInfo) (protocol : string) (g : Mgr) (sid : Sid) : Prop := {
  lt_route : exists l1 l2, NewHost k l = (l1, inr client) /\ Connect info l1 = (l2, inr tt) /\
    NewStream (PeerKey info) protocol l2 = (mkLink g sid [] [], inr tt);
  lt_session : g_sessions g !! sid = Some new_session;
  lt_open : sid ∉ g_broken g }.

Definition connected_line (info : AddrInfo) : string :=
  "connected server peer: peer_id=" +:+ PeerKey info +:+ " addrs=" +:+ addrs_text info.
Definition authenticated_line (m : AuthResult) : string :=
  "authenticated: user_id=" +:+ AuthResult_UserId m +:+ " display_name=" +:+ AuthResult_DisplayName m +:+ " session_id="
  +:+ AuthResult_SessionId m.
Definition welcome (info : AddrInfo) (m : AuthResult) : list string :=
  [connected_line info; authenticated_line m; "spaces:"%string] ++ (space_line <$> AuthResult_Spaces m).

Lemma printSpaces_eq {P} spaces (c : Client P) : printSpaces spaces c = (printed ("spaces:"%string :: (space_line <$> spaces)) c, Done tt).
Proof.
  unfold printSpaces. rewrite (bind_done _ _ _ (printed ["spaces:"%string] c) tt) by done. rewrite print_lines_eq.
  unfold printed. simpl. by rewrite <- app_assoc.
Qed.

(** What both programs do from the key to the spaces; [loc] finds the server. *)
Definition opening (loc : string -> CM Link AddrInfo) (agent protocol : string) (rest : CM Link unit) (k : PrivKey) : CM Link unit :=
  self ← on_err (wrap "create libp2p host") (net (NewHost k));
  info ← loc self;
  _ ← on_err (wrap "connect server") (net (Connect info));
  _ ← println (connected_line info);
  _ ← on_err (wrap "open stream") (net (NewStream (PeerKey info) protocol));
  authResult ← on_err (wrap "authenticate") (authenticate k self agent protocol);
  _ ← println (authenticated_line authResult);
  _ ← printSpaces (AuthResult_Spaces authResult);
  rest.
Lemma connect_session_opening fl k : connect_client.session fl k = opening (connect_client.locate fl) (connect_client.clientAgent fl)
  (connect_client.protocolID fl) (connect_client.show_permissions fl) k.
Proof. done. Qed.
Lemma admin_session_opening fuel fl k : admin_client.session fuel fl k = opening (admin_client.locate fl) (admin_client.clientAgent fl)
  (admin_client.protocolID fl) (admin_client.actions fuel fl) k.
Proof. done. Qed.

Lemma opening_gets_in loc agent protocol rest k c info client g sid pk pub sig :
  loc client = (mret info : CM Link _) -> cl_in c = [] -> leads_to (cl_net c) k client info protocol g sid ->
  protocol = Libp2pProtocolID (mc_cfg mc) -> ready mc (g_world g) ->
  key_of mc k client (challenge_msg (challenge_of mc client (g_world g))) pk pub sig ->
  messages_fit mc g (cl_clock c) client agent sig pk ->
  exists res m g2, opening loc agent protocol rest k c =
      rest (printed (welcome info m) (mkClient (mkLink g2 sid [] []) [] (4 + cl_clock c) (cl_out c))) /\
    session_user sid g2 = Some (res_User res) /\ sort_key (PeerID (res_User res)) = sort_key client /\
    AuthResult_UserId m = UserID (res_User res).
Proof.
  intros Hloc Hin [(l1&l2&Hh&Hc&Hn) Hs Ho] Hp Hrd Hk Hfit.
  set (c3 := mkClient (mkLink g sid [] []) [] (cl_clock c) (cl_out c ++ [connected_line info])).
  destruct (authenticates mc g sid c3 new_session k client agent pk pub sig) as (res&m&g2&E&Hu&Hsk&_&Hid);
    [done..|]. exists res, m, g2. split_and!; [|done..].
  unfold opening. rewrite (bind_done _ _ c _ _ (net_done _ _ c l1 client Hh)), Hloc.
  rewrite (bind_done (mret info) _ _ _ info eq_refl).
  rewrite (bind_done _ _ _ _ tt (net_done _ _ (mkClient l1 (cl_in c) (cl_clock c) (cl_out c)) l2 tt Hc)).
  cbn [cl_net cl_in cl_clock cl_out]. rewrite (bind_done _ _ _ _ tt eq_refl). cbn [cl_net cl_in cl_clock cl_out].
  rewrite (bind_done _ _ _ c3 tt). 2: { rewrite (net_done _ _ (mkClient l2 _ _ _) _ tt Hn). cbn. by rewrite Hin. }
  rewrite Hp, (bind_done _ _ _ _ m (on_err_done _ _ _ _ _ E)). rewrite (bind_done _ _ _ _ tt eq_refl).
  rewrite (bind_done _ _ _ _ tt (printSpaces_eq _ _)). f_equal. unfold printed, welcome. cbn. by rewrite <- !app_assoc.
Qed.

(** The administration client gets in the same way and then takes its actions. *)
Lemma administration_client_gets_in fuel fl f ks ks' k c info client g sid pk pub sig :
  admin_client.discover fl = false -> TrimSpace (admin_client.serverAddr fl) <> ""%string ->
  LoadOrCreateIdentity f (admin_client.keyPath fl) ks = (ks', inr k) -> addrInfo (admin_client.serverAddr fl) = inr info ->
  cl_in c = [] -> leads_to (cl_net c) k client info (admin_client.protocolID fl) g sid ->
  admin_client.protocolID fl = Libp2pProtocolID (mc_cfg mc) -> ready mc (g_world g) ->
  key_of mc k client (challenge_msg (challenge_of mc client (g_world g))) pk pub sig ->
  messages_fit mc g (cl_clock c) client (admin_client.clientAgent fl) sig pk ->
  exists res m g2, admin_client.main fuel fl f ks c =
      (ks', admin_client.actions fuel fl (printed (welcome info m) (mkClient (mkLink g2 sid [] []) [] (4 + cl_clock c) (cl_out c)))) /\
    session_user sid g2 = Some (res_User res) /\ sort_key (PeerID (res_User res)) = sort_key client /\
    AuthResult_UserId m = UserID (res_User res).
Proof.
  intros Hd Haddr Hkey Hinfo Hin Hl Hp Hrd Hk Hfit.
  assert (admin_client.locate fl client = (mret info : CM Link _)) as Hloc by (unfold admin_client.locate; by rewrite Hd, Hinfo).
  destruct (opening_gets_in _ _ _ (admin_client.actions fuel fl) k c info client g sid pk pub sig Hloc Hin Hl Hp Hrd Hk Hfit) as (res&m&g2&E&Hu&Hs&Hid).
  exists res, m, g2. split_and!; [|done..]. unfold admin_client.main. rewrite Hd, bool_decide_false by done. cbn [negb andb].
  by rewrite Hkey, admin_session_opening, E.
Qed.

(** C14: The connecting client gets in.  Started with the address of a
    server, the protocol id of that server and a key file that holds or gets
    a key, over a network that leads to a server that can issue a
    challenge, [main] connects, authenticates as the peer of that key and
    prints the account and its spaces; the session at the server then acts
    for the account that was printed, which is that peer's, and [main] goes
    on with the permissions it was asked for.  (The four messages of the
    handshake are assumed to fit into envelopes.) *)
Theorem connecting_client_gets_in (fl : connect_client.Flags) f ks ks' k c info client g sid pk pub sig :
  connect_client.discover fl = false -> TrimSpace (connect_client.flagNodePeerID fl) = ""%string ->
  TrimSpace (connect_client.serverAddr fl) <> ""%string ->
  LoadOrCreateIdentity f (connect_client.keyPath fl) ks = (ks', inr k) -> addrInfo (connect_client.serverAddr fl) = inr info ->
  cl_in c = [] -> leads_to (cl_net c) k client info (connect_client.protocolID fl) g sid ->
  connect_client.protocolID fl = Libp2pProtocolID (mc_cfg mc) -> ready mc (g_world g) ->
  key_of mc k client (challenge_msg (challenge_of mc client (g_world g))) pk pub sig ->
  messages_fit mc g (cl_clock c) client (connect_client.clientAgent fl) sig pk ->
  exists res m g2, connect_client.main fl f ks c =
      (ks', connect_client.show_permissions fl (printed (welcome info m) (mkClient (mkLink g2 sid [] []) [] (4 + cl_clock c) (cl_out c)))) /\
    session_user sid g2 = Some (res_User res) /\ sort_key (PeerID (res_User res)) = sort_key client /\
    AuthResult_UserId m = UserID (res_User res).
Proof.
  intros Hd Hnode Haddr Hkey Hinfo Hin Hl Hp Hrd Hk Hfit.
  assert (connect_client.locate fl client = (mret info : CM Link _)) as Hloc.
  { unfold connect_client.locate. rewrite Hd, Hnode, bool_decide_true by done. cbn [negb orb]. by rewrite Hinfo. }
  destruct (opening_gets_in _ _ _ (connect_client.show_permissions fl) k c info client g sid pk pub sig Hloc Hin Hl Hp Hrd Hk Hfit) as (res&m&g2&E&Hu&Hs&Hid).
  exists res, m, g2. split_and!; [|done..]. unfold connect_client.main. rewrite Hd, Hnode.
  rewrite (bool_decide_false (TrimSpace (connect_client.serverAddr fl) = _)) by done. cbn [negb andb]. by rewrite Hkey, connect_session_opening, E.
Qed.
End connect.

(** ** Witness: a new peer connects *)
Definition connected : Mgr := set_sessions <[1%positive := new_session]> demo.
(** Every peer is reached, and a stream of the right protocol is a new session. *)
#[export] Instance demo_network : Network Link := {
  NewHost k l := (l, inr k);
  Connect _ l := (l, inr tt);
  NewDHT _ l := (l, inr tt);
  BootstrapDHT l := (l, inr tt);
  FindPeers _ l := (l, inr []);
  FindPeer _ l := (l, inl (Errorf "routing: not found"));
  with_peer_id id _ := id;
  addrs_text a := a;
  NewStream _ protocol l :=
    if protocol =@ Libp2pProtocolID defaults
    then (mkLink (set_sessions <[1%positive := new_session]> (lk_mgr l)) 1 [] [], inr tt)
    else (l, inl (Errorf "protocols not supported")) }.
Definition dave_flags : connect_client.Flags :=
  connect_client.mkFlags "server" "" false "meshserver" "dave.key" "agent" (Libp2pProtocolID defaults) false 0 [].
Definition dave_keys : KeyStore := mkKeyStore {[ "dave.key"%string := "dave"%string ]} 0.
Definition dave : Client Link := client_of demo 1 [].
Definition dave_challenge : AuthChallenge := Eval vm_compute in challenge_msg (challenge_of demo_mc "dave" (g_world demo)).
Definition dave_signature : string := demo_sign "dave" (signed_text demo_mc "dave" dave_challenge).
Lemma connected_ready : ready demo_mc (g_world connected).
Proof.
  split; try (vm_compute; reflexivity); try (vm_compute; discriminate).
  - apply Forall_forall. repeat constructor; vm_compute; discriminate.
  - apply Forall_forall. repeat constructor; vm_compute; discriminate.
Qed.

Lemma connecting_client_gets_in_witness : exists res m c',
  connect_client.main dave_flags no_fs_faults dave_keys dave = (dave_keys, (c', Done tt)) /\
  cl_out c' = welcome ("server"%string : @AddrInfo demo_addrs) m /\
  session_user 1 (lk_mgr (cl_net c')) = Some (res_User res) /\ PeerID (res_User res) = "dave"%string /\
  AuthResult_UserId m = UserID (res_User res).
Proof.
  assert (challenge_msg (challenge_of demo_mc "dave" (g_world connected)) = dave_challenge) as Ec by (vm_compute; reflexivity).
  pose proof (connecting_client_gets_in demo_mc dave_flags no_fs_faults dave_keys dave_keys "dave"%string dave
    ("server"%string : @AddrInfo demo_addrs) "dave" connected 1 "dave" ("dave"%string : @PubKey_t demo_libp2p) dave_signature) as Ha.
  rewrite Ec in Ha. destruct Ha as (res&m&g2&E&Hu&Hs&Hid).
  - reflexivity.
  - reflexivity.
  - discriminate.
  - reflexivity.
  - reflexivity.
  - reflexivity.
  - split; [|reflexivity|apply (bool_decide_unpack _); vm_compute; exact I].
    exists (cl_net dave), (cl_net dave). split; [reflexivity|]. split; [reflexivity|]. reflexivity.
  - reflexivity.
  - apply connected_ready.
  - split; [reflexivity..|]. vm_compute. reflexivity.
  - split; rewrite ?Ec; [encoded..|]. intros m w Hm. vm_compute in Hm. injection Hm as <- <-. encoded.
  - eexists res, m, _. split; [exact E|]. split; [reflexivity|]. split; [exact Hu|]. split; [exact Hs|exact Hid].
Defined.

(** ** A run of the administration client

    The owner of a space lists its members, creates a group in it whose
    messages expire, subscribes to it and posts; a stranger is stopped at
    the first question about the space. *)
Definition admin_flags : admin_client.Flags :=
  admin_client.mkFlags "server" false "meshserver" (Libp2pProtocolID defaults) "key" "agent" 1 true 1 false "" "" "public" true
    [] "" "" "" "" "" true false 0 20 "admin" true true "orchard" "" 0 60 0 "hello" 0 [].
Definition admin_run (name : string) : list string * Outcome unit :=
  let '(_, (c, r)) := admin_client.main 5 admin_flags no_fs_faults (mkKeyStore {[ "key"%string := name ]} 0) (client_of demo 1 []) in
  (cl_out c, r).
Example owner_runs_admin_client : admin_run "alice" =
  (["connected server peer: peer_id=server addrs=server";
    "authenticated: user_id=u_00000000070707070707 display_name=Peer alice session_id=sess_000000050707070707070707";
    "spaces:";
    "  - 1 (garden) allow_channel_creation=true members=2";
    "create-space permissions: can_create_space=true";
    "create-group permissions: space_id=1 role=OWNER can_create_group=true";
    "members:";
    "  - member_id=1 user_id=u_00000000070707070707 display_name=Peer alice role=OWNER banned=false";
    "  - member_id=2 user_id=u_00000001070707070707 display_name=Peer bob role=MEMBER banned=false";
    "member page: space_id=1 after_member_id=0 next_after_member_id=2 has_more=false";
    "updated channel creation flag: space_id=1 allow_channel_creation=true";
    "created group: space_id=1 channel_id=2 name=orchard";
    "updated group auto delete: channel_id=2 auto_delete_after_seconds=60 name=orchard";
    "channels:";
    "  - 1 (general) type=GROUP auto_delete_after_seconds=0 can_view=true can_send_message=true";
    "  - 2 (orchard) type=GROUP auto_delete_after_seconds=60 can_view=true can_send_message=true";
    "subscribed: channel_id=2";
    "synced channel: channel_id=2 from_seq=0";
    "message ack: message_id=msg_00000006070707070707 seq=1 client_msg_id=client_1700000000000000000"]%string, Done tt).
Proof. vm_compute. reflexivity. Qed.
Example stranger_runs_admin_client : (admin_run "dave").2 =
  Fail (wrap "get space permissions" (unexpected MsgType_ERROR MsgType_GET_CREATE_GROUP_PERMISSIONS_RESP)).
Proof. vm_compute. reflexivity. Qed.
