(* ===== verification/Agreement.v ===== *)
(** * Agreement of the two ends

    While a client authenticates, anything else may happen in the system:
    other sessions, API calls, faults, the clock.  None of it can make the
    client believe in a session that the server does not have. *)
From S2P Require Import Prelude Go Encoding Schema Config Store SpaceRepo UserRepo ChannelRepo MessageRepo BlobRepo Proto.
From S2P Require Import SpaceInv Codec CodecThms Auth Media Messaging DirectRepo DirectService DbInv Session SessionInv Manager.
From S2P Require Import Dispatch System Demo AuthThms SessionThms Node Client Link ClientThms.
Import sessionv1.

(** ** What others write to a session *)
(** An envelope that is not an authentication result for the session. *)
Definition no_result (sid : Sid) (s : Sent) : Prop := sent_to s = sid -> sent_type s <> MsgType_AUTH_RESULT.
(** Only such envelopes were written since [base]. *)
Definition no_results (sid : Sid) (base : list Sent) (g : Mgr) : Prop :=
  exists l, g_sent g = base ++ l /\ Forall (no_result sid) l.

Section others.
Context `{Env} `{Libp2p} `{MediaLib} `{Protobuf} (mc : ManagerConf) (sid : Sid) (base : list Sent).
Abbreviation keep := (gkeeps (no_results sid base)).

Lemma nr_lift {A} (m : M A) : keep (lift m).
Proof. intros g Hg. unfold wp, lift. by destruct (m (g_world g)). Qed.
Lemma nr_pushed f : keep (modify (set_pushed f)).
Proof. by apply gkeeps_modify. Qed.
Lemma nr_update s f : keep (modify (update_session s f)).
Proof. by apply gkeeps_modify. Qed.
Lemma nr_subscribe s cid : keep (modify (SubscribeChannel s cid)).
Proof. by apply gkeeps_modify. Qed.
Lemma nr_unsubscribe s cid : keep (modify (unsubscribe s cid)).
Proof. by apply gkeeps_modify. Qed.
Lemma nr_register s : keep (modify (registerDirectUserSession s)).
Proof. apply gkeeps_modify. intros g Hg. unfold registerDirectUserSession. by case_match. Qed.
#[local] Hint Resolve nr_lift nr_pushed nr_update nr_subscribe nr_unsubscribe nr_register : gkeeps.
Lemma nr_append s : no_result sid s -> keep (modify (set_sent (fun l => l ++ [s]))).
Proof.
  intros Hs. apply gkeeps_modify. intros g (l&E&Hl). exists (l ++ [s]). simpl. rewrite E, app_assoc.
  split; [done|]. apply Forall_app. by split; [|apply Forall_singleton].
Qed.
Lemma nr_write s t r b : (s = sid -> t <> MsgType_AUTH_RESULT) -> keep (write s t r b).
Proof. intros Hs. unfold write. solve_gkeeps. by apply nr_append. Qed.
#[local] Hint Extern 1 (gkeeps (no_results _ _) (write _ _ _ _)) =>
  apply nr_write; intros ?; first [discriminate|congruence] : gkeeps.
Lemma nr_write_each t b l : t <> MsgType_AUTH_RESULT -> keep (write_each t b l).
Proof. intros Ht. induction l; simpl; solve_gkeeps; done. Qed.
#[local] Hint Extern 1 (gkeeps (no_results _ _) (write_each _ _ _)) => apply nr_write_each; discriminate : gkeeps.
Lemma nr_DeliverMessage cid m : keep (DeliverMessage mc cid m).
Proof. unfold DeliverMessage. solve_gkeeps. Qed.
Lemma nr_deliver u t b : t <> MsgType_AUTH_RESULT -> keep (deliver_to_user u t b).
Proof. intros Ht. unfold deliver_to_user. solve_gkeeps. by apply nr_write_each. Qed.
#[local] Hint Resolve nr_DeliverMessage : gkeeps.
#[local] Hint Extern 1 (gkeeps (no_results _ _) (deliver_to_user _ _ _)) => apply nr_deliver; discriminate : gkeeps.

Lemma nr_handler t h s env u : find_handler mc t = Some h -> keep (h s env u).
Proof.
  unfold find_handler. intros ([t' h']&E&->)%fmap_Some. apply find_some in E as [Hin _].
  unfold authed_handlers in Hin. simpl in Hin.
  repeat (destruct Hin as [Hin|Hin]; [injection Hin as <- <-|]); [..|done]; simpl.
  all: autounfold with handlers; solve_gkeeps.
Qed.
(** Another session, or anything but AUTH_PROVE. *)
Lemma nr_handle s env : s <> sid \/ Envelope_MsgType env <> MsgType_AUTH_PROVE -> keep (handle_envelope mc s env).
Proof.
  intros Hs. unfold handle_envelope, dispatch. destruct (Envelope_MsgType env =? MsgType_AUTH_PROVE) eqn:Et.
  - destruct Hs as [Hs|Hs]; [|lia]. autounfold with handlers. solve_gkeeps.
  - autounfold with handlers. solve_gkeeps. by eapply nr_handler.
Qed.
Lemma nr_api c : keep (run_api mc c).
Proof. unfold run_api, ignore, SendMessageForAPI. destruct c; solve_gkeeps. Qed.

Lemma nr_run {A} (m : G A) g : keep m -> no_results sid base g -> no_results sid base (m g).1.
Proof. intros Hm Hg. exact (Hm g Hg). Qed.
Lemma nr_event e g : foreign sid e -> no_results sid base g -> no_results sid base (run_event mc e g).
Proof.
  intros Hf Hg. destruct e as [s|s env|s|c|[] cid r|r| |p s|ns|l|s]; simpl in *; try done.
  - apply nr_run; [|done]. by apply nr_handle; left.
  - unfold unregisterSession. repeat case_match; done.
  - by apply nr_run; [apply nr_api|].
  - by apply nr_run; [apply nr_lift|].
  - by apply nr_run; [apply nr_lift|].
Qed.
End others.

(** ** Who the session acts for *)
Section view.
Context `{Env} `{Libp2p} `{MediaLib} `{Protobuf} (mc : ManagerConf) (sid : Sid).

Lemma view_api c v : gkeeps (same_auth v) (run_api mc c).
Proof. unfold run_api, ignore, SendMessageForAPI. destruct c; solve_gkeeps. Qed.

Lemma view_handle s env g : s <> sid -> auth_view (handle_envelope mc s env g).1 !! sid = auth_view g !! sid.
Proof.
  intros Hs. assert (auth_view (dispatch mc s env g).1 !! sid = auth_view g !! sid) as Hd.
  { destruct (decide (Envelope_MsgType env = MsgType_AUTH_PROVE)) as [Et|Et].
    - assert (dispatch mc s env g = on_AUTH_PROVE mc s env g) as -> by (unfold dispatch; by rewrite Et).
      destruct (auth_prove_view mc s env g) as [->|(?&?&?&_&_&_&->)]; [done|]. by rewrite lookup_insert_ne.
    - by rewrite (auth_other mc (auth_view g) s env Et g eq_refl). }
  rewrite <- Hd. unfold handle_envelope, try, mbind, SE_bind. destruct (dispatch mc s env g) as [g1 [e|x]]; simpl; [|done].
  pose proof (auth_write (auth_view g1) s MsgType_ERROR (Envelope_RequestId env) (BErrorMsg (mkErrorMsg 400 (error_text e))) g1 eq_refl) as Hw.
  unfold wp, writeError in *. destruct (write _ _ _ _ g1) as [g2 r]. simpl in *. by rewrite Hw.
Qed.

Lemma view_event e g : foreign sid e -> auth_view (run_event mc e g) !! sid = auth_view g !! sid.
Proof.
  intros Hf. destruct e as [s|s env|s|c|[] cid r|r| |p s|ns|l|s]; simpl in *; try done.
  - unfold auth_view. simpl. by rewrite !lookup_fmap, lookup_insert_ne.
  - by apply view_handle.
  - unfold unregisterSession, auth_view. repeat case_match; simpl; rewrite ?lookup_fmap, ?lookup_delete_ne; done.
  - by rewrite (view_api c (auth_view g) g eq_refl).
  - by rewrite (auth_lift (auth_view g) _ g eq_refl).
  - by rewrite (auth_lift (auth_view g) _ g eq_refl).
Qed.
End view.

(** ** The bytes on their way to the client *)
Section bytes.
Context `{Protobuf} `{ClientProtobuf} `{!WireLaws}.

(** The buffer holds envelopes of the manager, each with the property. *)
Definition carries (Q : Sent -> Prop) (buf : bytes) : Prop :=
  exists l : list (Z * Sent), buf = concat ((fun x => frame x.1 x.2) <$> l) /\ Forall (fun x => Q x.2) l.

Lemma carries_nil Q : carries Q [].
Proof. by exists []. Qed.
Lemma carries_app Q a b : carries Q a -> carries Q b -> carries Q (a ++ b).
Proof. intros (l&->&Hl) (m&->&Hm). exists (l ++ m). rewrite fmap_app, concat_app. split; [done|]. by apply Forall_app. Qed.
Lemma carries_frames Q ns l : Forall Q l -> carries Q (frames ns l).
Proof.
  intros Hl. exists (pair ns <$> l). unfold frames. rewrite <- list_fmap_compose. split; [done|]. by apply Forall_fmap.
Qed.
Lemma carries_mono (Q Q' : Sent -> Prop) buf : (forall s, Q s -> Q' s) -> carries Q buf -> carries Q' buf.
Proof. intros HQ (l&->&Hl). exists l. split; [done|]. eapply Forall_impl; [exact Hl|]. intros x. apply HQ. Qed.

(** What is read is the first of the envelopes. *)
Lemma carries_read Q buf rest env : carries Q buf -> ReadEnvelope buf = (rest, inr env) ->
  carries Q rest /\ exists s, Q s /\ sent_type s = Envelope_MsgType env /\ Marshal (sent_body s) = inr (Envelope_Body env).
Proof.
  intros (l&->&Hl) Hr. induction Hl as [|[ns s] l Hs Hl IH]; [done|]. simpl in Hr, Hs.
  unfold frame in Hr at 1. destruct (NewEnvelope ns _ _ _) as [e|env'] eqn:En; [by apply IH|].
  destruct (WriteEnvelope env') as [e|bs] eqn:Ew; [by apply IH|].
  rewrite (ReadEnvelope_written env' bs _ (decodable_all env') Ew) in Hr. injection Hr as <- <-.
  destruct (sends_fields _ _ _ _ _ _ (conj En Ew)) as (Hm&Ht&_). split; [by exists l|]. by exists s.
Qed.
End bytes.

(** ** The link while the client works *)
Section link_inv.
Context `{Env} `{Libp2p} `{MediaLib} `{Protobuf} `{ClientProtobuf} `{!WireLaws} `{Clock} (mc : ManagerConf) (sid : Sid).
Let server : Stream Link := link_stream mc.
#[local] Existing Instance server.

(** An authentication result for the session is only what [X] says. *)
Definition only_results (X : Sent -> Prop) (s : Sent) : Prop := sent_type s = MsgType_AUTH_RESULT -> X s.
Record linked (X : Sent -> Prop) (c : Client Link) : Prop := {
  ln_sid : lk_sid (cl_net c) = sid;
  ln_sched : Forall (Forall (foreign sid)) (lk_sched (cl_net c));
  ln_carries : carries (only_results X) (cl_in c ++ lk_down (cl_net c)) }.
(** The manager's view of the session. *)
Definition view_of (l : Link) : option (bool * option Result) := auth_view (lk_mgr l) !! sid.

Lemma written_results X g g' : no_results sid (g_sent g) g' -> Forall (only_results X) (written_to sid g g').
Proof.
  intros (l&E&Hl). unfold written_to. rewrite E, drop_app_length. apply Forall_forall. intros s [Hs Hin]%list_elem_of_filter.
  rewrite Forall_forall in Hl. intros Ht. by destruct (Hl s Hin Hs).
Qed.

Lemma other_event_ok X buf l e : lk_sid l = sid -> foreign sid e -> carries (only_results X) (buf ++ lk_down l) ->
  let l' := other_event mc l e in
  lk_sid l' = sid /\ lk_sched l' = lk_sched l /\ view_of l' = view_of l /\ carries (only_results X) (buf ++ lk_down l').
Proof.
  intros Hs Hf Hc. unfold other_event. case_decide; [|done]. unfold advance, view_of. simpl. split_and!; [done..| |].
  - by apply view_event.
  - rewrite app_assoc. apply carries_app; [done|]. apply carries_frames. rewrite Hs. apply written_results, nr_event; [done|].
    exists []. by rewrite app_nil_r.
Qed.

Lemma others_ok X buf l : lk_sid l = sid -> Forall (Forall (foreign sid)) (lk_sched l) -> carries (only_results X) (buf ++ lk_down l) ->
  let l' := others mc l in
  lk_sid l' = sid /\ Forall (Forall (foreign sid)) (lk_sched l') /\ view_of l' = view_of l /\ carries (only_results X) (buf ++ lk_down l').
Proof.
  intros Hs Hf Hc. unfold others.
  assert (Forall (foreign sid) (default [] (head (lk_sched l)))) as Hes by (destruct Hf; [apply Forall_nil_2|done]).
  assert (Forall (Forall (foreign sid)) (tail (lk_sched l))) as Ht by (by destruct Hf).
  set (l0 := mkLink (lk_mgr l) (lk_sid l) (lk_down l) (tail (lk_sched l))).
  assert (lk_sid l0 = sid /\ Forall (Forall (foreign sid)) (lk_sched l0) /\ view_of l0 = view_of l /\
    carries (only_results X) (buf ++ lk_down l0)) as Hl0 by done.
  clearbody l0. revert l0 Hl0. generalize dependent (default [] (head (lk_sched l))).
  intros es Hes. induction Hes as [|e es He _ IH]; intros l0 (L1&L2&L3&L4); [done|]. simpl. apply IH.
  destruct (other_event_ok X buf l0 e L1 He L4) as (E1&E2&E3&E4). rewrite E2, E3. done.
Qed.

(** Reading: the envelope is one of those carried. *)
Lemma read_linked X c want env c' : linked X c -> readEnvelopeExpect want c = (c', Done env) ->
  linked X c' /\ view_of (cl_net c') = view_of (cl_net c) /\
  exists s, only_results X s /\ sent_type s = want /\ Marshal (sent_body s) = inr (Envelope_Body env).
Proof.
  intros [Hsid Hsch Hcar] E. destruct (others_ok X (cl_in c) (cl_net c) Hsid Hsch Hcar) as (E1&E2&E3&E4).
  unfold readEnvelopeExpect, receive, mbind, CM_bind in E. cbn [StreamRead server link_stream] in E. unfold link_read in E.
  destruct (ReadEnvelope (cl_in c ++ lk_down (others mc (cl_net c)))) as [rest [e|env0]] eqn:Er.
  { destruct (_ && _) in E; done. }
  destruct (carries_read _ _ _ _ E4 Er) as (Hrest&s&Hs&Ht&Hm). destruct (Envelope_MsgType env0 =? want) eqn:Ew; [|done].
  unfold mret, CM_ret in E. simplify_eq/=. split; [split; [done..|by rewrite app_nil_r]|]. split; [done|]. exists s. split_and!; [done|lia|done].
Qed.

(** Writing: the manager handles exactly the envelope that was written. *)
Lemma write_linked X c t rid b c' : linked X c -> writeEnvelope t rid b c = (c', Done tt) ->
  exists env l, Envelope_MsgType env = t /\ Marshal b = inr (Envelope_Body env) /\ lk_sid l = sid /\
    Forall (Forall (foreign sid)) (lk_sched l) /\ carries (only_results X) (cl_in c ++ lk_down l) /\
    cl_in c' = cl_in c /\ cl_net c' = advance (fun g => (handle_envelope mc sid env g).1) l.
Proof.
  intros [Hsid Hsch Hcar] E. destruct (others_ok X (cl_in c) (cl_net c) Hsid Hsch Hcar) as (E1&E2&E3&E4).
  unfold writeEnvelope, mustEnvelope, time_Now, mbind, CM_bind in E.
  destruct (NewEnvelope _ t rid b) as [e|env] eqn:En; [done|]. simpl in E.
  destruct (WriteEnvelope env) as [e|bs] eqn:Ew; [done|]. unfold pure, mret, CM_ret, net in E. cbn in E.
  unfold link_write in E. destruct (is_open (others mc (cl_net c))); [|done]. simplify_eq/=.
  destruct (sends_fields _ _ _ _ _ _ (conj En Ew)) as (Hm&Ht&_).
  exists env, (others mc (cl_net c)). split_and!; try done. unfold serve.
  pose proof (ReadEnvelope_written env bs [] (decodable_all env) Ew) as Er. rewrite app_nil_r in Er. by rewrite Er, E1.
Qed.

(** ** The answer to AUTH_PROVE *)
(** The result names the account the session acts for, of the peer that proved itself. *)
Definition true_result (client : string) (v : option (bool * option Result)) (s : Sent) : Prop :=
  exists m res, sent_body s = BAuthResult m /\ v = Some (true, Some res) /\ AuthResult_UserId m = UserID (res_User res) /\
    sort_key (PeerID (res_User res)) = sort_key client.
(** Since [base], every authentication result for the session is true. *)
Definition true_results (client : string) (base : list Sent) (g : Mgr) : Prop :=
  exists l, g_sent g = base ++ l /\
    Forall (fun s => sent_to s = sid -> only_results (true_result client (auth_view g !! sid)) s) l.

Lemma true_results_keep {A} client base v (m : G A) g : auth_view g = v -> gkeeps (same_auth v) m ->
  gkeeps (no_results sid (g_sent g)) m -> true_results client base g -> wp m g (fun g' _ => true_results client base g' /\ auth_view g' = v).
Proof.
  intros Hv Ha Hn (l&El&Hl). assert (no_results sid (g_sent g) g) as H0' by (exists []; by rewrite app_nil_r).
  specialize (Ha g Hv). specialize (Hn g H0'). unfold wp in *. destruct Hn as (l'&El'&Hl'). split; [|done].
  exists (l ++ l'). rewrite El', El, app_assoc. split; [done|]. rewrite Ha, <- Hv. apply Forall_app. split; [done|].
  eapply Forall_impl; [exact Hl'|]. intros s Hs Hto Ht. by destruct (Hs Hto).
Qed.

Lemma true_results_same client g g' : g_sent g' = g_sent g -> true_results client (g_sent g) g'.
Proof. intros E. exists []. rewrite app_nil_r. split; [done|]. apply Forall_nil_2. Qed.

(** The second half of AUTH_PROVE, for a session that acts for the account. *)
Lemma result_true client env base res g : auth_view g !! sid = Some (true, Some res) -> g_sent g = g_sent base ->
  sort_key (PeerID (res_User res)) = sort_key client ->
  wp (servers ← lift (ListSpaces (UserDBID (res_User res)));
      spaces ← lift (spaceSummariesForViewer mc servers (UserDBID (res_User res)) (PeerID (res_User res)));
      _ ← modify (registerDirectUserSession sid);
      reply sid env MsgType_AUTH_RESULT (BAuthResult (mkAuthResult true (res_SessionID res) (UserID (res_User res))
        (DisplayName (res_User res)) (res_Message res) spaces))) g (fun g' _ => true_results client (g_sent base) g').
Proof.
  intros Hview Hsent Hsk.
  apply wp_bind, wp_lift. destruct (ListSpaces _ _) as [w1 [e|servers]]; simpl; [by apply true_results_same|].
  apply wp_bind, wp_lift. destruct (spaceSummariesForViewer _ _ _ _ _) as [w2 [e|spaces]]; simpl; [by apply true_results_same|].
  apply wp_bind, wp_modify. match goal with |- wp _ ?x _ => set (g2 := x) end.
  assert (auth_view g2 !! sid = Some (true, Some res) /\ g_sent g2 = g_sent base) as [Hv2 Hs2].
  { unfold g2, registerDirectUserSession. by case_match. }
  unfold reply, write. apply wp_bind, wp_lift. simpl. repeat (apply wp_bind, wp_pure_check; intros; [by apply true_results_same|]).
  apply wp_bind, wp_gets. destruct (bool_decide _); [by apply true_results_same|]. apply wp_modify.
  eexists [_]. cbn [g_sent set_sent set_world]. rewrite Hs2. split; [done|]. apply Forall_singleton. intros _ _.
  eexists _, res. split_and!; [reflexivity|exact Hv2|done|exact Hsk].
Qed.

Lemma prove_true env g prove : UnmarshalAuthProve (Envelope_Body env) = inr prove ->
  wp (on_AUTH_PROVE mc sid env) g (fun g' _ => true_results (AuthProve_ClientPeerId prove) (g_sent g) g').
Proof.
  intros Hp. unfold on_AUTH_PROVE, unmarshal. rewrite Hp. apply wp_bind, wp_ret, wp_bind. unfold Authenticate.
  apply wp_bind, wp_gets. destruct (g_sessions g !! sid) as [s|] eqn:Hs; [|apply wp_throw; by apply true_results_same].
  simpl. destruct (issuedChallenge s); [|apply wp_throw; by apply true_results_same].
  apply wp_bind, wp_lift. fold (proof_of mc prove).
  pose proof (VerifyChallenge_proved (mc_cfg mc) (proof_of mc prove) (g_world g)) as Hv. unfold wp in Hv.
  destruct (VerifyChallenge _ _ (g_world g)) as [w [e|res]]; simpl in Hv |- *; [by apply true_results_same|].
  destruct (Hv res eq_refl) as [_ _ _ Hsk _]. apply wp_bind, wp_modify, wp_ret. apply result_true; [|done..].
  unfold auth_view, update_session. simpl. by rewrite lookup_fmap, lookup_alter_eq, Hs.
Qed.

Lemma handle_true env g prove : Envelope_MsgType env = MsgType_AUTH_PROVE -> UnmarshalAuthProve (Envelope_Body env) = inr prove ->
  true_results (AuthProve_ClientPeerId prove) (g_sent g) (handle_envelope mc sid env g).1.
Proof.
  intros Ht Hp. pose proof (prove_true env g prove Hp) as Hw. unfold wp in Hw.
  unfold handle_envelope, try, mbind, SE_bind.
  assert (dispatch mc sid env g = on_AUTH_PROVE mc sid env g) as -> by (unfold dispatch; by rewrite Ht).
  destruct (on_AUTH_PROVE mc sid env g) as [g1 [e|x]]; simpl in *; [|done].
  pose proof (true_results_keep (AuthProve_ClientPeerId prove) (g_sent g) _ (writeError sid (Envelope_RequestId env) 400 (error_text e)) g1 eq_refl) as Hk.
  destruct Hk as [Hk _]; [apply auth_write|by apply nr_write|exact Hw|].
  by destruct (writeError _ _ _ _ g1).
Qed.

(** ** The theorem *)
Lemma bind_inv {P A B} (m : CM P A) (k : A -> CM P B) c c' b : (m ≫= k) c = (c', Done b) ->
  exists c1 a, m c = (c1, Done a) /\ k a c1 = (c', Done b).
Proof. unfold mbind, CM_bind. destruct (m c) as [c1 []]; [eauto|done..]. Qed.
Lemma checked_inv {P A} f (x : Err + A) (c c' : Client P) a : on_err f (pure x) c = (c', Done a) -> c' = c /\ x = inr a.
Proof. unfold on_err, pure. destruct x; simpl; intros; by simplify_eq. Qed.
Lemma requestID_linked X prefix c c' rid : linked X c -> requestID prefix c = (c', Done rid) -> linked X c'.
Proof. intros [H1' H2' H3'] E. unfold requestID, time_Now, mbind, CM_bind in E. simpl in E. unfold mret, CM_ret in E. by simplify_eq/=. Qed.

(** The manager handles an envelope of the client: what was written is known. *)
Lemma advance_linked X X' c l env : lk_sid l = sid -> Forall (Forall (foreign sid)) (lk_sched l) ->
  carries (only_results X) (cl_in c ++ lk_down l) -> cl_net c = advance (fun g => (handle_envelope mc sid env g).1) l ->
  (forall s, X s -> X' s) ->
  Forall (only_results X') (written_to sid (lk_mgr l) (handle_envelope mc sid env (lk_mgr l)).1) -> linked X' c.
Proof.
  intros Hs Hf Hc En HX Hw. split; rewrite En; unfold advance; simpl; [done..|].
  rewrite app_assoc. apply carries_app; [|rewrite Hs; by apply carries_frames].
  eapply carries_mono; [|exact Hc]. intros s Hx Ht. by apply HX, Hx.
Qed.

Section authenticate.
Context `{Keys} `{!Signer}.

(** C5: Both ends agree.  Whatever else happens while a client runs
    [authenticate] on a fresh stream (requests of other sessions and of the
    HTTP API, sessions coming and going, failing statements, the clock),
    when it returns a result then the session at the server acts for an
    account, that account is the one of the client's own peer id, and the
    user id in the result is that account's. *)
Theorem client_and_server_agree k client agent protocolID c c' m :
  lk_sid (cl_net c) = sid -> Forall (Forall (foreign sid)) (lk_sched (cl_net c)) -> cl_in c = [] -> lk_down (cl_net c) = [] ->
  authenticate k client agent protocolID c = (c', Done m) ->
  exists u, session_user sid (lk_mgr (cl_net c')) = Some u /\ sort_key (PeerID u) = sort_key client /\
    AuthResult_UserId m = UserID u.
Proof.
  intros Hs Hf Hin Hdown E. assert (linked (fun _ => False) c) as L0.
  { split; [done..|]. rewrite Hin, Hdown. apply carries_nil. }
  unfold authenticate in E. apply bind_inv in E as (c1&rid1&E1&E). pose proof (requestID_linked _ _ _ _ _ L0 E1) as L1.
  apply bind_inv in E as (c2&[]&E2&E). destruct (write_linked _ _ _ _ _ _ L1 E2) as (env1&l1&T1&M1&A1&A2&A3&A4&A5).
  assert (linked (fun _ => False) c2) as L2.
  { eapply (advance_linked _ _ _ l1 env1); [done..|by rewrite A4|done|done|]. apply written_results.
    apply nr_run; [apply nr_handle; right; by rewrite T1|]. exists []. by rewrite app_nil_r. }
  apply bind_inv in E as (c3&env2&E3&E). destruct (read_linked _ _ _ _ _ L2 E3) as (L3&_&_).
  apply bind_inv in E as (c4&chal&E4&E). apply checked_inv in E4 as [-> _]. cbv zeta in E.
  apply bind_inv in E as (c5&sig&E5&E). apply checked_inv in E5 as [-> _].
  apply bind_inv in E as (c6&pk&E6&E). apply checked_inv in E6 as [-> _].
  apply bind_inv in E as (c7&rid2&E7&E). pose proof (requestID_linked _ _ _ _ _ L3 E7) as L7.
  apply bind_inv in E as (c8&[]&E8&E). destruct (write_linked _ _ _ _ _ _ L7 E8) as (env3&l3&T3&M3&B1&B2&B3&B4&B5).
  destruct (handle_true env3 (lk_mgr l3) _ T3 (wire_AuthProve _ _ M3)) as (sent&Esent&Hsent). cbn [AuthProve_ClientPeerId] in Hsent.
  assert (linked (true_result client (view_of (cl_net c8))) c8) as L8.
  { eapply (advance_linked (fun _ => False) _ _ l3 env3); [done..|by rewrite B4|done|done|].
    unfold written_to. rewrite Esent, drop_app_length. apply Forall_forall. intros s [Hto Hin']%list_elem_of_filter.
    rewrite Forall_forall in Hsent. rewrite B5. exact (Hsent s Hin' Hto). }
  apply bind_inv in E as (c9&env4&E9&E). destruct (read_linked _ _ _ _ _ L8 E9) as (_&Hview&s&Hs4&Ht4&M4).
  destruct (Hs4 Ht4) as (m'&res&Eb&Ev&Eu&Ek). rewrite Eb in M4.
  apply bind_inv in E as (c10&m''&E10&E). apply checked_inv in E10 as [-> E10]. rewrite (wire_AuthResult _ _ M4) in E10.
  destruct (negb (AuthResult_Ok m'')) in E; [done|]. unfold mret, CM_ret in E. simplify_eq. exists (res_User res).
  split_and!; [|done..]. rewrite <- Hview in Ev. unfold view_of, auth_view in Ev. rewrite lookup_fmap in Ev.
  apply fmap_Some in Ev as (ss&Ess&Ev). unfold session_user, user_of. rewrite Ess. simpl. injection Ev as <- <-. done.
Qed.
End authenticate.
End link_inv.

(** ** Witness: a new peer connects while another user posts and time passes *)
Definition meanwhile : list (list Event) := [
  [EvApi (ApiSendMessage 1 (demo_text 1 "client-0001" "first")); EvConnect 2];
  [EvEnvelope 2 (env_of MsgType_PING "p"); EvTime (demo_clock + minute)]; [EvDisconnect 2]].
Definition eve : Client Link := client_of (set_sessions <[1%positive := new_session]> demo) 1 meanwhile.
Definition eve_run : Client Link * Outcome AuthResult := authenticate "eve"%string "eve" "agent" (Libp2pProtocolID defaults) eve.
Definition eve_result : AuthResult :=
  Eval vm_compute in match eve_run.2 with Done m => m | _ => mkAuthResult false "" "" "" "" [] end.

Lemma client_and_server_agree_witness : exists u, session_user 1 (lk_mgr (cl_net eve_run.1)) = Some u /\ PeerID u = "eve"%string /\
  AuthResult_UserId eve_result = UserID u.
Proof.
  refine (client_and_server_agree demo_mc 1 "eve"%string "eve" "agent" (Libp2pProtocolID defaults) eve eve_run.1 eve_result
    eq_refl _ eq_refl eq_refl _).
  - repeat constructor; discriminate.
  - assert (eve_run.2 = Done eve_result) as E by (vm_compute; reflexivity). rewrite <- E.
    change (eve_run = (eve_run.1, eve_run.2)). by destruct eve_run.
Defined.
