(* ===== verification/AdminThms.v ===== *)
(** * The administration client: listing all members, sending a message

    The loop of [-list-members-all] against the server prints every member
    of the space once and in order, and ends. *)
From S2P Require Import Prelude Go Encoding Schema Config Store SpaceRepo UserRepo ChannelRepo MessageRepo BlobRepo Proto.
From S2P Require Import SpaceInv Codec CodecThms Auth Media Messaging DirectRepo DirectService DbInv Session SessionInv Manager.
From S2P Require Import Dispatch System Demo AuthThms SessionThms Paging Api Node Client AdminClient Link ClientThms.
Import sessionv1 admin_client.

(** ** Members in the order of their ids *)
Lemma ascending_unique {A} (key : A -> Z) l1 l2 : ascending key l1 -> ascending key l2 -> l1 ≡ₚ l2 -> l1 = l2.
Proof.
  revert l2. induction l1 as [|x l1 IH]; intros l2 H1 H2 Hp; [by apply Permutation_nil in Hp|].
  destruct l2 as [|y l2]; [by apply Permutation_sym, Permutation_nil in Hp|].
  apply ascending_cons in H1 as [H1 L1]. apply ascending_cons in H2 as [H2 L2].
  assert (x = y) as ->.
  { assert (x ∈ y :: l2) as [->|Hx]%elem_of_cons by (rewrite <- Hp; by left); [done|].
    assert (y ∈ x :: l1) as [->|Hy]%elem_of_cons by (rewrite Hp; by left); [done|].
    specialize (L1 y Hy). specialize (L2 x Hx). lia. }
  f_equal. apply IH; [done..|]. by apply Permutation_cons_inv in Hp.
Qed.
Lemma ascending_sorted {A} (key : A -> Z) (R : A -> A -> Prop) `{!RelDecision R} l :
  (forall x y, R x y <-> key x <= key y) -> NoDup (map key l) -> ascending key (merge_sort R l).
Proof.
  intros HR Hnd. assert (Transitive R) by (intros x y z; rewrite !HR; lia). assert (Total R) by (intros x y; rewrite !HR; lia).
  assert (NoDup (map key (merge_sort R l))) as Hn.
  { eapply NoDup_Permutation_proper; [|exact Hnd]. apply Permutation_map, merge_sort_Permutation. }
  assert (StronglySorted R (merge_sort R l)) as Hs by (apply StronglySorted_merge_sort; apply _).
  induction Hs as [|x l' Hs IH Hall]; [constructor|]. simpl in Hn. apply NoDup_cons in Hn as [Hx Hn].
  apply ascending_cons. split; [by apply IH|]. intros y Hy. pose proof (proj1 (Forall_forall _ _) Hall y Hy) as Hxy.
  apply HR in Hxy. assert (key x <> key y); [|lia]. intros E. apply Hx. rewrite E. apply elem_of_map. eauto.
Qed.

Section members.
Context `{Env} (s : Z) (d : DB) (Hwf : table_wf sm_id (server_members d)).

Lemma members_ascending k : ascending sm_id (members_after s k d).
Proof.
  unfold members_after. destruct (server_by_id s d); [|constructor].
  apply ascending_sorted; [done|]. apply NoDup_map_where, (wf_nodup _ _ Hwf).
Qed.
Lemma members_after_beyond k : 0 <= k -> members_after s k d = beyond sm_id k (members_after s 0 d).
Proof.
  intros Hk. apply (ascending_unique sm_id); [apply members_ascending|apply ascending_where, members_ascending|].
  unfold members_after. destruct (server_by_id s d) as [sr|]; [|done]. unfold beyond.
  rewrite merge_sort_Permutation. etrans; [|apply where_perm; symmetry; apply merge_sort_Permutation].
  rewrite where_where. match goal with |- ?a ≡ₚ ?b => assert (a = b) as ->; [|done] end. apply where_ext. intros m Hm.
  pose proof (wf_bound _ _ Hwf m Hm) as Hb. replace (0 <? sm_id m) with true by lia.
  by destruct (sm_space_id m =? s), (s_status sr =? 1), (sm_is_banned m), (k <? sm_id m), (bool_decide _).
Qed.

(** What the server shows of the members after an id. *)
Definition shown (k : Z) : list SpaceMember := omap (to_space_member d) (members_after s k d).

Lemma omap_total {A B} (f : A -> option B) l n : Forall (fun x => is_Some (f x)) l ->
  omap f (take n l) = take n (omap f l) /\ omap f (drop n l) = drop n (omap f l).
Proof.
  intros Hf. revert n. induction Hf as [|x l [y Hy] _ IH]; intros [|n]; [done..|].
  simpl. rewrite Hy. simpl. destruct (IH n) as [I1 I2]. unfold omap in *. by rewrite I1, I2.
Qed.
Lemma members_have_users k : Forall (fun m => is_Some (to_space_member d m)) (members_after s k d).
Proof.
  unfold members_after. destruct (server_by_id s d) as [sr|]; [|constructor]. apply Forall_forall. intros m Hm.
  rewrite merge_sort_Permutation in Hm. apply elem_of_where in Hm as [Hm _]. rewrite !andb_true_iff in Hm.
  destruct Hm as [_ [u Hu]%bool_decide_eq_true]. unfold to_space_member. rewrite Hu. by eexists.
Qed.
Lemma to_space_member_id m x : to_space_member d m = Some x -> MemberID x = sm_id m.
Proof. intros (u&_&E)%bind_Some. by simplify_eq. Qed.

Lemma beyond_omap k l : where_ (fun x => k <? MemberID x) (omap (to_space_member d) l) = omap (to_space_member d) (beyond sm_id k l).
Proof. symmetry. apply omap_where. intros m x Hx. by rewrite (to_space_member_id _ _ Hx). Qed.
Lemma shown_ascending k : ascending MemberID (shown k).
Proof. apply (ascending_omap _ sm_id); [apply to_space_member_id|apply members_ascending]. Qed.
Lemma shown_beyond k : 0 <= k -> shown k = beyond MemberID k (shown 0).
Proof. intros Hk. unfold shown, beyond. by rewrite beyond_omap, <- members_after_beyond. Qed.
Lemma shown_pos k x : x ∈ shown k -> 0 < MemberID x.
Proof.
  intros (m&Hm&Hx)%list_elem_of_omap. rewrite (to_space_member_id _ _ Hx).
  unfold members_after in Hm. destruct (server_by_id s d); [|set_solver].
  rewrite merge_sort_Permutation in Hm. apply elem_of_where in Hm as [_ Hm]. by apply (wf_bound _ _ Hwf).
Qed.
(** The members after the last one of a page are the rest. *)
Lemma shown_next k n x : 0 <= k -> last (take n (shown k)) = Some x -> shown (MemberID x) = drop n (shown k).
Proof.
  intros Hk [l1 Hl]%last_Some.
  assert (shown k = l1 ++ x :: drop n (shown k)) as Hsplit.
  { rewrite <- (take_drop n (shown k)) at 1. by rewrite Hl, <- app_assoc. }
  assert (x ∈ shown k) as Hx by (rewrite Hsplit; set_solver).
  rewrite shown_beyond by (pose proof (shown_pos k x Hx); lia).
  rewrite shown_beyond in Hsplit at 1 by done.
  apply (beyond_split MemberID k (shown 0) l1 x); [apply shown_ascending|done].
Qed.

(** ** A page of the API *)
Definition members_limit (limit : Z) : Z :=
  let limit := if limit =? 0 then 20 else limit in if 100 <? limit then 100 else limit.
Definition member_page (n : nat) (all : list SpaceMember) : ListSpaceMembersResp :=
  mkListSpaceMembersResp s (toSpaceMemberSummaries (take n all))
    (match last (take n all) with Some m => MemberID m | None => 0 end) (bool_decide (n < length all)%nat).

Lemma members_call uid k limit role w : w_faults w = [] -> w_db w = d -> role_of s uid d = Some role ->
  is_admin_role role = true -> 0 <= limit ->
  ListSpaceMembersForAPI uid s k limit w = (w, inr (member_page (Z.to_nat (members_limit limit)) (shown k))).
Proof.
  intros Hf Hd Hr Ha Hl. unfold ListSpaceMembersForAPI, GetMemberRole.
  assert (fetchOne (role_of s uid) w = (w, inr role)) as Er by (by rewrite fetchOne_calm, Hd, Hr).
  rewrite (bind_run _ _ _ _ _ Er).
  assert (negb (role =@ RoleOwner) && negb (role =@ RoleAdmin) = false) as -> by (by destruct role).
  rewrite (bind_run _ _ w w tt) by done. fold (members_limit limit). set (n := members_limit limit).
  assert (0 < n <= 100) as Hn by (unfold n, members_limit; repeat case_match; lia).
  rewrite u32_small by (unfold max_u32; lia). unfold ListSpaceMembers. replace (n + 1 =? 0) with false by lia.
  rewrite (bind_run _ _ _ _ _ (map_err_run _ _ _ _ _ (query_calm w Hf _))). rewrite Hd.
  destruct (omap_total (to_space_member d) _ (Z.to_nat (n + 1)) (members_have_users k)) as [-> _]. fold (shown k).
  set (all := shown k). assert (zlen (take (Z.to_nat (n + 1)) all) = Z.min (n + 1) (zlen all)) as Hlen.
  { unfold zlen. rewrite length_take. lia. }
  assert (u32 (zlen (take (Z.to_nat (n + 1)) all)) = zlen (take (Z.to_nat (n + 1)) all)) as ->.
  { apply u32_small. unfold max_u32, zlen in *. lia. }
  assert ((n <? zlen (take (Z.to_nat (n + 1)) all)) = bool_decide (Z.to_nat n < length all)%nat) as ->.
  { rewrite Hlen. unfold zlen. case_bool_decide; lia. }
  assert ((if bool_decide (Z.to_nat n < length all)%nat then take (Z.to_nat n) (take (Z.to_nat (n + 1)) all)
           else take (Z.to_nat (n + 1)) all) = take (Z.to_nat n) all) as ->; [|done].
  case_bool_decide; [rewrite take_take; f_equal; lia|]. rewrite !take_ge by lia. done.
Qed.
End members.

(** ** What the listing prints *)
Definition page_lines (p : list SpaceMember) : list string := "members:"%string :: (member_line <$> toSpaceMemberSummaries p).
Definition cursor_line (p : list SpaceMember) : string :=
  "next page cursor: after_member_id=" +:+ decimal (match last p with Some m => MemberID m | None => 0 end).
(** Pages, with the position between two of them. *)
Fixpoint listing (pages : list (list SpaceMember)) : list string :=
  match pages with
  | [] => []
  | [p] => page_lines p
  | p :: pages => page_lines p ++ cursor_line p :: listing pages
  end.

Lemma printMembers_eq {P} p (c : Client P) : printMembers (toSpaceMemberSummaries p) c = (printed (page_lines p) c, Done tt).
Proof.
  unfold printMembers. rewrite (bind_done _ _ _ (printed ["members:"%string] c) tt) by done. rewrite print_lines_eq.
  unfold printed, page_lines. simpl. by rewrite <- app_assoc.
Qed.

Section listing.
Context `{Env} `{Libp2p} `{MediaLib} `{Protobuf} `{ClientProtobuf} `{!WireLaws} `{Clock} (mc : ManagerConf).
Let server : Stream Link := link_stream mc.
#[local] Existing Instance server.
Context (sid : Sid) (user : User) (w : World) (s limit : Z) (role : Role).
Context (Hwf : table_wf sm_id (server_members (w_db w))) (Hf : w_faults w = []).
Context (Hrole : role_of s (UserDBID user) (w_db w) = Some role) (Hadmin : is_admin_role role = true) (Hl : 0 <= limit).
Let n := Z.to_nat (members_limit limit).

(** A manager that serves the session, in that world. *)
Definition serves (g : Mgr) : Prop := g_world g = w /\ session_user sid g = Some user /\ sid ∉ g_broken g.
(** The request for the page after an id and its reply fit into envelopes. *)
Definition page_fits (k : Z) : Prop := forall i : nat,
  let rid := ("list-members_" +:+ decimal (clock_reading i))%string in
  sendable (clock_reading (S i)) MsgType_LIST_SPACE_MEMBERS_REQ rid (BListSpaceMembersReq (mkListSpaceMembersReq s k limit)) /\
  sendable (w_clock w) MsgType_LIST_SPACE_MEMBERS_RESP rid (BListSpaceMembersResp (member_page s n (shown s (w_db w) k))).

Lemma one_page g c k : serves g -> idle g sid c -> page_fits k -> exists g' c', serves g' /\ idle g' sid c' /\ cl_out c' = cl_out c /\
  listSpaceMembers s k limit c = (c', Done (member_page s n (shown s (w_db w) k))).
Proof.
  intros (Hw&Hu&Hb) Hid Hfit. destruct (Hfit (cl_clock c)) as [Hreq Hresp].
  pose proof (rpc_as_call mc g sid user c _ _ _ _ _ _ _ _ _ _ (rpc_listSpaceMembers mc user s k limit) Hid Hu Hb Hreq) as Hc.
  unfold as_call in Hc. rewrite Hw, (members_call s (w_db w) _ _ _ role) in Hc by done.
  eexists _, _. split; [|split; [by eapply idle_after|split; [|exact (Hc Hresp)]]]; done.
Qed.

Lemma list_all fuel k g c : 0 <= k -> serves g -> idle g sid c ->
  (forall k', k' ∈ k :: (MemberID <$> shown s (w_db w) k) -> page_fits k') -> (length (shown s (w_db w) k) < fuel)%nat ->
  exists g' c' pages, list_all_members fuel s limit k c = (c', Done tt) /\ serves g' /\ idle g' sid c' /\
    cl_out c' = cl_out c ++ listing pages /\ concat pages = shown s (w_db w) k /\
    Forall (fun p => (length p <= n)%nat) pages /\ pages <> [].
Proof.
  revert k g c. induction fuel as [|fuel IH]; intros k g c Hk Hg Hid Hfit Hfuel; [lia|].
  set (all := shown s (w_db w) k) in *. destruct (one_page g c k Hg Hid (Hfit k ltac:(by left))) as (g1&c1&Hg1&Hid1&Ho1&Ep).
  fold all in Ep. cbn [list_all_members].
  assert (on_err (wrap "list space members") (listSpaceMembers s k limit) c = (c1, Done (member_page s n all))) as Ep'
    by (unfold on_err; by rewrite Ep).
  rewrite (bind_done _ _ _ _ _ Ep'). cbn [member_page ListSpaceMembersResp_Members ListSpaceMembersResp_HasMore
    ListSpaceMembersResp_NextAfterMemberId]. rewrite (bind_done _ _ _ _ _ (printMembers_eq (take n all) c1)).
  assert (0 < n)%nat as Hn by (unfold n, members_limit; repeat case_match; lia).
  case_bool_decide as Hmore; cbn [negb].
  2: { exists g1, (printed (page_lines (take n all)) c1), [take n all]. rewrite take_ge by lia. simpl. rewrite app_nil_r.
    split_and!; [done..|by rewrite Ho1|done|apply Forall_singleton; lia|done]. }
  destruct (last (take n all)) as [x|] eqn:Hx.
  2: { apply last_None in Hx. apply (f_equal length) in Hx. rewrite length_take in Hx. simpl in Hx. lia. }
  assert (x ∈ all) as Hin by (apply last_Some in Hx as [l1 Hl1]; apply (subseteq_take n all); rewrite Hl1; set_solver).
  pose proof (shown_pos s (w_db w) Hwf k x Hin) as Hpos. replace (MemberID x =? 0) with false by lia.
  pose proof (shown_next s (w_db w) Hwf k n x Hk Hx) as Hnext. fold all in Hnext.
  set (c2 := printed [cursor_line (take n all)] (printed (page_lines (take n all)) c1)).
  rewrite (bind_done _ _ _ c2 tt) by (unfold println, c2, printed, cursor_line; by rewrite Hx).
  destruct (IH (MemberID x) g1 c2) as (g'&c'&pages&E&Hg'&Hid'&Ho'&Hc'&Hlen&Hne); [lia|done|done|..].
  { intros k' [->|Hk']%elem_of_cons; apply Hfit; right; apply list_elem_of_fmap; [by exists x|].
    apply list_elem_of_fmap in Hk' as (y&->&Hy). exists y. split; [done|]. rewrite Hnext in Hy. by apply (subseteq_drop n all). }
  { rewrite Hnext, length_drop. lia. }
  exists g', c', (take n all :: pages). split_and!; [done..| | |apply Forall_cons; split; [rewrite length_take; lia|done]|done].
  - rewrite Ho'. unfold c2, printed. simpl. rewrite Ho1. destruct pages as [|p pages]; [done|]. by rewrite <- !app_assoc.
  - simpl. rewrite Hc', Hnext. apply take_drop.
Qed.
End listing.

Section all_members.
Context `{Env} `{Libp2p} `{MediaLib} `{Protobuf} `{ClientProtobuf} `{!WireLaws} `{Clock} (mc : ManagerConf).
Let server : Stream Link := link_stream mc.
#[local] Existing Instance server.

(** C16: Listing all members is complete.  On a database that works and
    while the pages fit into an envelope, for an owner or admin of the space the loop of [-list-members-all], from any position and with any
    limit, ends after at most one request more than there are members; it
    has then printed, page after page, every member beyond the position
    that the server shows, each once and in the order of the ids, and has
    changed nothing in the database. *)
Theorem all_members_listed sid user g s limit role k fuel c :
  let w := g_world g in let members := shown s (w_db w) k in
  db_inv (w_db w) -> w_faults w = [] -> session_user sid g = Some user -> sid ∉ g_broken g ->
  role_of s (UserDBID user) (w_db w) = Some role -> is_admin_role role = true -> 0 <= limit -> 0 <= k -> idle g sid c ->
  (forall k', k' ∈ k :: (MemberID <$> members) -> page_fits w s limit k') -> (length members < fuel)%nat ->
  exists g' c' pages, list_all_members fuel s limit k c = (c', Done tt) /\
    cl_out c' = cl_out c ++ listing pages /\ concat pages = members /\
    Forall (fun p => zlen p <= members_limit limit) pages /\ lk_mgr (cl_net c') = g' /\ g_world g' = w.
Proof.
  intros w members Hi Hf Hu Hb Hr Ha Hl Hk Hid Hfit Hfuel.
  destruct (list_all mc sid user w s limit role (mi_members _ (si_members _ (inv_spaces _ Hi))) Hf Hr Ha Hl fuel k g c Hk)
    as (g'&c'&pages&E&(Hw'&_)&[Hn' _]&Ho&Hc&Hlen&_); [done..|].
  exists g', c', pages. split_and!; [done..| |by rewrite Hn'|done]. eapply Forall_impl; [exact Hlen|].
  intros p Hp. unfold zlen. simpl in Hp. unfold members_limit in *. repeat case_match; lia.
Qed.
End all_members.

(** ** Posting *)
Section posting.
Context `{Env} `{Libp2p} `{MediaLib} `{Protobuf} `{ClientProtobuf} `{!WireLaws} `{Clock} (mc : ManagerConf).
Let server : Stream Link := link_stream mc.
#[local] Existing Instance server.

Definition ack_of (msg : Message) (w : World) : SendMessageAck :=
  mkSendMessageAck true (ChannelDBID msg) (ClientMsgID msg) (MessageID msg) (Seq msg) (u64 (truncate_ms (w_clock w))) "stored".
Definition event_of (msg : Message) : Body := BMessageEvent (toMessageEvent msg (blobURLBase mc)).
(** The event of the message, for the session that posted it. *)
Definition own_event (sid : Sid) (msg : Message) (g : Mgr) : list Sent :=
  if decide (sid ∈ default ∅ (g_subscriptions g !! ChannelDBID msg))
  then [mkSent sid MsgType_MESSAGE_EVENT "" (event_of msg)] else [].

Lemma filter_targets (sid : Sid) t b (l : list Sid) : NoDup l ->
  filter (fun s => sent_to s = sid) ((fun x => mkSent x t "" b) <$> l) = if decide (sid ∈ l) then [mkSent sid t "" b] else [].
Proof.
  induction 1 as [|x l Hx _ IH]; [done|]. rewrite fmap_cons, filter_cons, IH. cbn [sent_to].
  destruct (decide (x = sid)) as [->|Hne]; [rewrite decide_False, decide_True by set_solver; done|].
  destruct (decide (sid ∈ l)); [rewrite decide_True by set_solver|rewrite decide_False by set_solver]; done.
Qed.

(** The manager answers a post with the acknowledgement first, then delivers it. *)
Lemma post_handled g sid user env req w msg :
  session_user sid g = Some user -> sid ∉ g_broken g -> Envelope_MsgType env = MsgType_SEND_MESSAGE_REQ ->
  UnmarshalSendMessageReq (Envelope_Body env) = inr req ->
  SendMessage (mc_cfg mc) Background (UserDBID user) (toSendMessageInput req) (g_world g) = (w, inr msg) ->
  sendable (w_clock w) MsgType_SEND_MESSAGE_ACK (Envelope_RequestId env) (BSendMessageAck (ack_of msg w)) ->
  fits (w_clock w) MsgType_MESSAGE_EVENT (event_of msg) ->
  exists g', (handle_envelope mc sid env g).1 = g' /\ g_world g' = w /\
    written_to sid g g' =
    mkSent sid MsgType_SEND_MESSAGE_ACK (Envelope_RequestId env) (BSendMessageAck (ack_of msg w)) :: own_event sid msg g.
Proof.
  intros Hu Hb Ht Hreq Hsend Hack Hfit. eexists. split; [reflexivity|].
  unfold handle_envelope, try. unfold mbind at 1 3, SE_bind at 1 3.
  rewrite (dispatch_handler mc sid env user g _ (on_SEND_MESSAGE_REQ mc) Hu Ht) by (done || discriminate).
  unfold on_SEND_MESSAGE_REQ, unmarshal. rewrite Hreq. unfold mbind, SE_bind, pure_check, mret, SE_ret, lift. rewrite Hsend.
  cbn [g_world set_world]. unfold now_ms, time_now, mbind, SE_bind, mret, SE_ret. unfold reply. fold (ack_of msg w).
  set (g1 := set_world w (set_world w g)). rewrite (write_eq sid _ _ _ g1) by done.
  set (ack := mkSent sid _ _ _). unfold DeliverMessage, gets, mbind, SE_bind. fold (event_of msg).
  rewrite write_each_eq by exact Hfit. cbn. split; [done|]. unfold written_to. cbn. rewrite <- app_assoc, drop_app_length.
  rewrite filter_app, filter_targets by (apply NoDup_filter, NoDup_elements). rewrite filter_cons_True by done. cbn. f_equal.
  unfold own_event, open_targets. cbn.
  destruct (decide (sid ∈ default ∅ (g_subscriptions g !! ChannelDBID msg))) as [Hin|Hout].
  - rewrite decide_True; [done|]. apply list_elem_of_filter. split; [done|by apply elem_of_elements].
  - rewrite decide_False; [done|]. by intros [_ Hx%elem_of_elements]%list_elem_of_filter.
Qed.

(** C31: A post is acknowledged before it is delivered.  When the server
    stores the text a client sends, [sendTextMessage] returns the
    acknowledgement with the identifier and the sequence number of the
    stored message, also when the session is subscribed to the channel;
    the event of its own message then stays unread on the stream, and it
    is the only thing that does. *)
Theorem post_acknowledged_first g sid user c ch text w msg :
  idle g sid c -> session_user sid g = Some user -> sid ∉ g_broken g ->
  let rid := request_name "send" c in
  let req := mkSendMessageReq ch ("client_" +:+ decimal (clock_reading (S (cl_clock c)))) MessageType_TEXT
               (Some (mkMessageContent [] [] text)) in
  SendMessage (mc_cfg mc) Background (UserDBID user) (toSendMessageInput req) (g_world g) = (w, inr msg) ->
  sendable (clock_reading (2 + cl_clock c)) MsgType_SEND_MESSAGE_REQ rid (BSendMessageReq req) ->
  sendable (w_clock w) MsgType_SEND_MESSAGE_ACK rid (BSendMessageAck (ack_of msg w)) ->
  fits (w_clock w) MsgType_MESSAGE_EVENT (event_of msg) ->
  exists c', sendTextMessage ch text c = (c', Done (ack_of msg w)) /\ g_world (lk_mgr (cl_net c')) = w /\
    cl_in c' = frames (w_clock w) (own_event sid msg g) /\ lk_down (cl_net c') = [].
Proof.
  intros Hid Hu Hb rid req Hsend (env&bs&Hs) Hack Hfit. pose proof (sends_fields _ _ _ _ _ _ Hs) as (Hm&Ht&Hr).
  rewrite <- Hr in Hack. destruct (post_handled g sid user env req w msg Hu Hb Ht (wire_SendMessageReq _ _ Hm) Hsend Hack Hfit)
    as (g'&Hg&Hw&Hwr).
  set (c2 := mkClient (cl_net c) (cl_in c) (2 + cl_clock c) (cl_out c)).
  assert (is_Some (g_sessions g !! sid)) as Ho by (eapply session_present; exact Hu).
  destruct Hack as (renv&rbs&Hack). pose proof (sends_fields _ _ _ _ _ _ Hack) as (Hrm&_).
  replace (w_clock w) with (w_clock (g_world g')) in Hack at 1 by (by rewrite Hw).
  unfold sendTextMessage. rewrite (bind_done _ _ c (mkClient (cl_net c) (cl_in c) (S (cl_clock c)) (cl_out c)) rid) by done.
  rewrite (bind_done _ _ _ c2 (SendMessageReq_ClientMsgId req)) by done. fold req.
  rewrite (bind_done _ _ c2 _ tt (write_link mc g sid c2 _ _ _ _ _ g' Hid Ho Hs Hg)). rewrite Hwr.
  change (frames ?ns (?x :: ?l)) with (frame ns x ++ frames ns l).
  pose proof (read_link_first mc g' sid [] _ (S (cl_clock c2)) (cl_out c2) _ _ _ _ (frames (w_clock (g_world g')) (own_event sid msg g)) _ _
    MsgType_SEND_MESSAGE_ACK Hack eq_refl) as Er. rewrite Z.eqb_refl in Er. rewrite (bind_done _ _ _ _ _ Er).
  rewrite (wire_SendMessageAck _ _ Hrm). eexists. split; [reflexivity|]. cbn. by rewrite Hw.
Qed.

(** C32: An event on the stream makes the next call fail.  When an event of
    a channel has reached the client before it makes a request (it does
    not read between requests), the request function reports an unexpected
    MESSAGE_EVENT, although the server has handled the request and its
    reply waits behind the event. *)
Theorem event_fails_next_call {A} g sid c down ns ev evenv evbs t prefix b want what (unm : string -> Err + A) env bs :
  cl_net c = mkLink g sid down [] -> is_Some (g_sessions g !! sid) ->
  cl_in c ++ down = frame ns (mkSent sid MsgType_MESSAGE_EVENT "" (BMessageEvent ev)) ->
  sends ns MsgType_MESSAGE_EVENT "" (BMessageEvent ev) evenv evbs -> want <> MsgType_MESSAGE_EVENT ->
  sends (clock_reading (S (cl_clock c))) t (request_name prefix c) b env bs ->
  let g' := (handle_envelope mc sid env g).1 in
  exists c', request t prefix b want what unm c = (c', Fail (unexpected MsgType_MESSAGE_EVENT want)) /\
    lk_mgr (cl_net c') = g' /\ cl_in c' = frames (w_clock (g_world g')) (written_to sid g g').
Proof.
  intros Hn Ho Hbuf Hev Hw Hs g'. unfold request.
  set (c1 := mkClient (cl_net c) (cl_in c) (S (cl_clock c)) (cl_out c)).
  rewrite (bind_done _ _ c c1 (request_name prefix c)) by done.
  rewrite (bind_done _ _ c1 _ tt (write_link_after mc g sid down c1 _ _ _ _ _ g' Hn Ho Hs eq_refl)).
  cbn [cl_in cl_clock cl_out c1].
  pose proof (read_link_first mc g' sid (cl_in c) (down ++ frames (w_clock (g_world g')) (written_to sid g g')) (S (S (cl_clock c)))
    (cl_out c) _ _ _ _ (frames (w_clock (g_world g')) (written_to sid g g')) _ _ want Hev) as Er.
  rewrite app_assoc, Hbuf in Er. specialize (Er eq_refl). replace (MsgType_MESSAGE_EVENT =? want) with false in Er by lia.
  rewrite (bind_failed _ _ _ _ _ Er). by eexists.
Qed.
End posting.

(** ** Witnesses: the owner of a space, subscribed to its channel *)
Definition admin : Client Link := client_of busy 1 [].
Definition admin_user : User := Eval vm_compute in default (mkUser 0 "" "" None "" "" "" 0 0 0 0) (session_user 1 busy).
Lemma admin_session : session_user 1 busy = Some admin_user.
Proof. vm_compute. reflexivity. Qed.
Lemma admin_open : 1%positive ∉ g_broken busy.
Proof. apply (bool_decide_unpack _). vm_compute. exact I. Qed.

Lemma all_members_listed_witness : exists g' c' pages, list_all_members 3 1 1 0 admin = (c', Done tt) /\
  cl_out c' = listing pages /\ concat pages = shown 1 (w_db (g_world busy)) 0 /\ Forall (fun p => zlen p <= 1) pages /\
  lk_mgr (cl_net c') = g' /\ g_world g' = g_world busy.
Proof.
  assert (MemberID <$> shown 1 (w_db (g_world busy)) 0 = [1; 2]) as Em by (vm_compute; reflexivity).
  apply (all_members_listed demo_mc 1 admin_user busy 1 1 RoleOwner 0 3 admin).
  - exact (proj1 (reachable_inv demo_mc busy busy_reachable)).
  - reflexivity.
  - exact admin_session.
  - exact admin_open.
  - vm_compute. reflexivity.
  - reflexivity.
  - discriminate.
  - discriminate.
  - split; reflexivity.
  - rewrite Em. intros k Hk i. rewrite !elem_of_cons in Hk.
    destruct Hk as [->|[->|[->|[]%not_elem_of_nil]]]; split; encoded.
  - rewrite <- (length_fmap MemberID), Em. simpl. lia.
Defined.

Definition posted : World * (Err + Message) := SendMessage defaults Background 1 (toSendMessageInput
  (demo_text 1 ("client_" +:+ decimal demo_clock) "hello")) (g_world busy).
Definition posted_message : Message := Eval vm_compute in match posted.2 with
  | inr m => m
  | inl _ => mkMessage 0 "" 0 0 0 "" "" TypeText "" StatusNormal 0 0 None (mkContent "" [] [])
  end.
Lemma post_acknowledged_first_witness : exists c', sendTextMessage 1 "hello" admin = (c', Done (ack_of posted_message posted.1)) /\
  g_world (lk_mgr (cl_net c')) = posted.1 /\
  cl_in c' = frames (w_clock posted.1) [mkSent 1 MsgType_MESSAGE_EVENT "" (event_of demo_mc posted_message)].
Proof.
  assert (posted = (posted.1, inr posted_message)) as Ep.
  { assert (posted.2 = inr posted_message) as E by (vm_compute; reflexivity). rewrite <- E. by destruct posted. }
  destruct (post_acknowledged_first demo_mc busy 1 admin_user admin 1 "hello" posted.1 posted_message) as (c'&E1&E2&E3&_).
  - split; reflexivity.
  - exact admin_session.
  - exact admin_open.
  - exact Ep.
  - encoded.
  - encoded.
  - apply (sendable_encoded _ _ ""). vm_compute. reflexivity.
  - exists c'. split; [exact E1|]. split; [exact E2|]. rewrite E3. f_equal; vm_compute; reflexivity.
Defined.

Definition some_event : MessageEvent := mkMessageEvent 1 "m" 1 "u" MessageType_TEXT None 0.
Definition interrupted : Client Link :=
  mkClient (mkLink busy 1 (frame demo_clock (mkSent 1 MsgType_MESSAGE_EVENT "" (BMessageEvent some_event))) []) [] 0 [].
Lemma event_fails_next_call_witness : exists c', listSpaceMembers 1 0 20 interrupted =
  (c', Fail (unexpected MsgType_MESSAGE_EVENT MsgType_LIST_SPACE_MEMBERS_RESP)).
Proof.
  assert (sendable demo_clock MsgType_MESSAGE_EVENT "" (BMessageEvent some_event)) as (evenv&evbs&Hev) by encoded.
  assert (sendable demo_clock MsgType_LIST_SPACE_MEMBERS_REQ (request_name "list-members" interrupted)
    (BListSpaceMembersReq (mkListSpaceMembersReq 1 0 20))) as (env&bs&Hs) by encoded.
  destruct (event_fails_next_call demo_mc busy 1 interrupted _ demo_clock some_event evenv evbs _ "list-members" _
    MsgType_LIST_SPACE_MEMBERS_RESP "list space members resp" UnmarshalListSpaceMembersResp env bs eq_refl
    ltac:(by eexists) eq_refl Hev ltac:(discriminate) Hs) as (c'&E&_).
  exists c'. exact E.
Defined.

(** ** Space ids on the command line

    [fmt.Sscan] takes a number off the front of the text, in the base its
    prefix names, and leaves the rest unread. *)
Example scan_decimal : admin_client.Sscan_uint64 "12" = inr 12. Proof. reflexivity. Qed.
Example scan_stops : admin_client.Sscan_uint64 "12abc" = inr 12. Proof. reflexivity. Qed.
Example scan_octal : admin_client.Sscan_uint64 "010" = inr 8. Proof. reflexivity. Qed.
Example scan_hex : admin_client.Sscan_uint64 "0x1_0" = inr 16. Proof. reflexivity. Qed.
Example scan_max : admin_client.Sscan_uint64 "18446744073709551615" = inr max_u64. Proof. reflexivity. Qed.
Example scan_overflow : exists e, admin_client.Sscan_uint64 "18446744073709551616" = inl e. Proof. by eexists. Qed.
Example scan_letters : exists e, admin_client.Sscan_uint64 "abc" = inl e. Proof. by eexists. Qed.
