(* ===== verification/MediaWire.v ===== *)
(** * Media on the session protocol

    An envelope holds at most 8 MiB, an upload may have more: media between
    the two limits can be stored and is served by the HTTP API, but a
    GET_MEDIA_REQ for it is always answered with an error. *)
From S2P Require Import Prelude Go Encoding Schema Config Store SpaceRepo UserRepo ChannelRepo MessageRepo Proto Wire ProtoWire Codec.
From S2P Require Import CursorNonceRepo BlobRepo Auth Media Messaging DirectRepo DirectService DbInv Session SessionInv Manager Dispatch.
From S2P Require Import System Demo SessionThms Api Node Client Link ClientThms.
Import sessionv1.

(** An encoding contains the bytes it encodes. *)
Class SizeLaws `{Protobuf} : Prop := {
  envelope_size env s : MarshalEnvelope env = inr s -> strlen (Envelope_Body env) <= strlen s;
  media_size m f s : Marshal (BGetMediaResp m) = inr s -> GetMediaResp_File m = Some f -> strlen (MediaFile_InlineData f) <= strlen s }.

Section media.
Context `{Env} `{Libp2p} `{MediaLib} `{Protobuf} `{!SizeLaws} (mc : ManagerConf).

Lemma too_large_media ns t rid m f : GetMediaResp_File m = Some f -> MaxEnvelopeBytes < strlen (MediaFile_InlineData f) ->
  ~ sendable ns t rid (BGetMediaResp m).
Proof.
  intros Hf Hl (env&bs&E1&E2). unfold NewEnvelope in E1. destruct (Marshal _) as [|s] eqn:Em; [done|]. injection E1 as <-.
  pose proof (media_size _ _ _ Em Hf) as Hs1. unfold WriteEnvelope in E2. destruct (MarshalEnvelope _) as [|p] eqn:Ee; [done|].
  pose proof (envelope_size _ _ Ee) as Hs2. cbn in Hs2. rewrite (proj2 (Z.ltb_lt _ _)) in E2 by lia. done.
Qed.
(** A write of what is not sendable fails and sends nothing. *)
Lemma write_refused sid t rid b g : ~ sendable (w_clock (g_world g)) t rid b -> exists e, write sid t rid b g = (g, inl e).
Proof.
  intros Hn. unfold write, lift, time_now, pure_check, mbind, SE_bind. simpl. assert (set_world (g_world g) g = g) as -> by (by destruct g).
  destruct (NewEnvelope _ _ _ _) as [e|env] eqn:E1; [by exists e|]. simpl.
  destruct (WriteEnvelope env) as [e|bs] eqn:E2; [by exists e|]. exfalso. apply Hn. by exists env, bs.
Qed.
Lemma writeError_sends sid rid code text g : exists r,
  try (writeError sid rid code text) g = (g, inr r) \/
  try (writeError sid rid code text) g = (append_sent (mkSent sid MsgType_ERROR rid (BErrorMsg (mkErrorMsg code text))) g, inr r).
Proof.
  unfold writeError, write, try, lift, time_now, pure_check, gets, mbind, SE_bind. simpl.
  assert (set_world (g_world g) g = g) as -> by (by destruct g).
  destruct (NewEnvelope _ _ _ _); [by eexists; left|]. simpl. destruct (WriteEnvelope _); [by eexists; left|]. simpl.
  destruct (bool_decide _); [by eexists; left|by eexists; right].
Qed.

(** C25: Media above the size of an envelope is never served on a session.
    When the API call for a media object succeeds with more than
    [MaxEnvelopeBytes] bytes of content, the same request on a session of
    the same user is answered with an ERROR envelope (or not at all), never
    with the media: what the call does to the world is done, and nothing
    else changes. *)
Theorem large_media_not_served g sid env user req w resp f :
  session_user sid g = Some user -> Envelope_MsgType env = MsgType_GET_MEDIA_REQ ->
  UnmarshalGetMediaReq (Envelope_Body env) = inr req ->
  GetMediaForAPI (UserDBID user) (GetMediaReq_MediaId req) (g_world g) = (w, inr resp) ->
  GetMediaResp_File resp = Some f -> MaxEnvelopeBytes < strlen (MediaFile_InlineData f) ->
  exists text, let g' := (handle_envelope mc sid env g).1 in
    g' = set_world w g \/
    g' = append_sent (mkSent sid MsgType_ERROR (Envelope_RequestId env) (error_body text)) (set_world w g).
Proof.
  intros Hu Ht Hq Hcall Hf Hl. destruct (twin_answers mc sid env user _ _ _ _ _ (twin_GET_MEDIA mc env user Background req Hq)) as (h & Hh & N1 & N2 & N3 & Ha).
  specialize (Ha g). rewrite Hcall in Ha. rewrite <- (dispatch_handler mc sid env user g _ h Hu Ht Hh N1 N2 N3) in Ha. destruct (write_refused sid MsgType_GET_MEDIA_RESP (Envelope_RequestId env) (BGetMediaResp resp) (set_world w g)) as [e He].
  { by apply (too_large_media _ _ _ _ f). }
  exists (error_text e). cbv zeta.
  assert (try (dispatch mc sid env) g = (set_world w g, inr (inl e))) as Ed by (unfold try; rewrite Ha; unfold reply; by rewrite He).
  unfold handle_envelope, mbind, SE_bind. rewrite Ed.
  destruct (writeError_sends sid (Envelope_RequestId env) 400 (error_text e) (set_world w g)) as [r [-> | ->]]; [by left|by right].
Qed.
End media.

(** ** The wire format *)
(** A field of a message contains what it encodes. *)
Lemma text_put_inv valid t vs : text_put valid t = Some vs -> t = ""%string \/ vs = [VLen (to_bytes t)].
Proof.
  unfold text_put. destruct (_ || _); [done|]. case_decide as E; intros [= <-]; [left|by right]. by rewrite <- (of_to_bytes t), E.
Qed.
Lemma message_put_inv {A} (m : Wire.Message A) a vs : message_put m (Some a) = Some vs ->
  exists t, marshal m a = Some t /\ vs = [VLen (to_bytes t)].
Proof.
  cbn. unfold embed. destruct (marshal m a) as [t|]; [|done]. cbn. destruct (_ <? _); [done|]. cbn. intros [= <-]. eauto.
Qed.
(** Peels the fields of a record that was encoded. *)
Lemma as_record_put {A B} (to : A -> B) from E (m : Wire.Message B) a : m_put (as_record to from E m) a = m_put m (to a).
Proof. done. Qed.
Ltac peel H := rewrite as_record_put in H; repeat (apply field_put_inv in H as (?&?&?&H&->)).
(** Finds the pieces of a field among those of the message. *)
Ltac in_pieces := apply elem_of_app; first [left; by apply list_elem_of_fmap_2 | right; in_pieces].
Lemma msg_put_some {A} (m : Wire.Message A) a s : marshal m a = Some s -> exists ps, m_put m a = Some ps.
Proof. unfold marshal. destruct (m_put m a); [eauto|done]. Qed.

Lemma text_size {A} (m : Wire.Message A) a s ps n valid t vs : marshal m a = Some s -> m_put m a = Some ps ->
  text_put valid t = Some vs -> (forall v, v ∈ vs -> (n, v) ∈ ps) -> strlen t <= strlen s.
Proof.
  intros Hm Hp [->| ->]%text_put_inv Hv; [unfold strlen, zlen; cbn; lia|].
  eapply (marshal_contains m a ps n (to_bytes t) s); [done|apply Hv; set_solver|done].
Qed.
Lemma media_file_size f s : marshal msg_MediaFile f = Some s -> strlen (MediaFile_InlineData f) <= strlen s.
Proof.
  intros Hm. destruct (msg_put_some _ _ _ Hm) as [ps E]. pose proof E as Ep. unfold msg_MediaFile in E. peel E.
  eapply (text_size _ _ _ _ 8 (fun _ => true)); [exact Hm|exact Ep|eassumption|]. intros v Hv.
  in_pieces.
Qed.
Lemma proto_Marshal_inv {A} (m : Wire.Message A) a s : proto_Marshal m a = inr s -> marshal m a = Some s.
Proof. unfold proto_Marshal. destruct (marshal m a); [|done]. by intros [= ->]. Qed.
#[export] Instance wire_sizes : @SizeLaws wire_protobuf.
Proof.
  split.
  - intros env s Hm%(proto_Marshal_inv msg_Envelope).
    destruct (msg_put_some _ _ _ Hm) as [ps E]. pose proof E as Ep. unfold msg_Envelope in E. peel E.
    eapply (text_size _ _ _ _ 5 (fun _ => true)); [exact Hm|exact Ep|eassumption|]. intros v Hv. in_pieces.
  - intros m f s Hm%(proto_Marshal_inv msg_GetMediaResp) Hf.
    change (pk_value _) with m in Hm. destruct (msg_put_some _ _ _ Hm) as [ps E]. pose proof E as Ep. unfold msg_GetMediaResp in E. peel E.
    match goal with H : f_put (message_field _) _ = Some _ |- _ => rewrite Hf in H; apply message_put_inv in H as (b&Hb&->) end.
    etrans; [by apply (media_file_size f b)|]. eapply (marshal_contains _ _ _ 3); [exact Ep| |exact Hm].
    rewrite !elem_of_app. set_solver.
Qed.

(** ** A picture above the size of an envelope *)
(** With the default settings such an upload is accepted. *)
Example limits_differ : MaxEnvelopeBytes < MaxUploadBytes defaults.
Proof. vm_compute. reflexivity. Qed.

(** Alice's session, after she has sent a picture; the file of the picture has the given content. *)
Definition picture_req : SendMessageReq :=
  mkSendMessageReq 1 "client-0003" MessageType_IMAGE
    (Some (mkMessageContent [mkMediaImage "" "" "" "" 0 0 "image/png" 7 "picture" "p.png"] [] "")).
Definition pictured : Mgr := Eval vm_compute in
  run_event (H2 := demo_protobuf) demo_mc (EvApi (ApiSendMessage 1 picture_req)) busy.
Definition picture_id : string := Eval vm_compute in
  match rows (media_objects (w_db (g_world pictured))) with r :: _ => mo_media_id r | [] => ""%string end.
Definition picture_path : string := Eval vm_compute in
  match media_by_id picture_id (w_db (g_world pictured)) with Some m => MediaStoragePath m | None => ""%string end.
Definition with_picture (content : string) : Mgr :=
  set_world (set_files {[picture_path := content]} (g_world pictured)) pictured.
Definition alice : User := Eval vm_compute in default (mkUser 0 "" "" None "" "" "" 0 0 0 0) (session_user 1 pictured).
Definition picture_env : Envelope := mkEnvelope 1 MsgType_GET_MEDIA_REQ "req" 0
  (match proto_Marshal msg_GetMediaReq (mkGetMediaReq picture_id) with inr s => s | inl _ => ""%string end).

Example picture_served content : exists file,
  GetMediaForAPI (UserDBID alice) picture_id (g_world (with_picture content)) =
    (g_world (with_picture content), inr (mkGetMediaResp true picture_id (Some file) "ok")) /\ MediaFile_InlineData file = content.
Proof. eexists. split; [vm_compute; reflexivity|reflexivity]. Qed.

Definition large_picture : string := of_bytes (replicate (Z.to_nat (MaxEnvelopeBytes + 1)) (byte 65)).
Lemma large_picture_size : strlen large_picture = MaxEnvelopeBytes + 1.
Proof. unfold strlen, zlen, large_picture. rewrite to_of_bytes, length_replicate, Z2Nat.id; [done|]. by vm_compute. Qed.

Lemma large_media_not_served_witness : exists w text,
  let g' := (handle_envelope (H2 := wire_protobuf) demo_mc 1 picture_env (with_picture large_picture)).1 in
  g' = set_world w (with_picture large_picture) \/
  g' = append_sent (mkSent 1 MsgType_ERROR "req" (error_body text)) (set_world w (with_picture large_picture)).
Proof.
  destruct (picture_served large_picture) as (file & E & Ef). exists (g_world (with_picture large_picture)).
  apply (large_media_not_served (H2 := wire_protobuf) demo_mc (with_picture large_picture) 1 picture_env alice
    (mkGetMediaReq picture_id) _ (mkGetMediaResp true picture_id (Some file) "ok") file); [reflexivity|reflexivity|vm_compute; reflexivity|exact E|reflexivity|].
  rewrite Ef, large_picture_size. lia.
Defined.
